(* ===== verification/_CoqProject ===== *)
-Q . S2P
Prelude.v
GoStrings.v
GoTime.v
GoRegexp.v
Encoding.v
Registry.v
Monitoring.v
DynamoDB.v
Filter.v
MemDynamo.v
Database.v
DatabaseThms.v
Db.v
Sqs.v
MemDb.v
EventHandler.v
ConcurrentHandlers.v
Config.v
Web.v
Auth.v
Handlers.v
HandlersThms.v
ApiWitness.v
SyncParser.v
SyncController.v
SyncThms.v
SyncWitness.v
Scheme.v
Webhook.v
ClusterController.v
System.v
SystemWitness.v
ConcurrentSystem.v
ConcurrentWitness.v
CacheFlow.v
MetadataWatcher.v
MetadataController.v
MetadataWitness.v
ManagerConfig.v
GoMem.v
DeepCopyV1.v
DeepCopyAlpha.v
DeepCopyConfig.v
HashClone.v
SyncRace.v
ControllerSetup.v
MetricsInit.v
Router.v
Slt.v
SltThms.v
SltFlow.v
SltWitness.v
Server.v
Swagger.v
ServerWitness.v
Base64.v
Oidc.v
K8sClient.v
Mains.v
MainsWitness.v
