(* ===== verification/Prelude.v ===== *)
(** * Cluster Registry: a verified model

    The cluster registry keeps an inventory of Kubernetes clusters.  It is
    three programs around one queue, and a service that tests them:

    - the API server (cmd/apiserver, pkg/apiserver, pkg/database, pkg/auth)
      serves the inventory over HTTP from a DynamoDB table and applies the
      update messages of an SQS queue to it;
    - the client (cmd/client, pkg/client) runs in each cluster: it sends its
      Cluster objects to the queue, turns alerts into tags of the objects, and
      copies fields of watched objects into their service metadata;
    - the sync manager (cmd/sync/manager, pkg/sync) collects the data of
      clusters from the objects of a management cluster and sends it;
    - the service level test (test/slt) edits the object of its cluster, checks
      that the API shows the edit, and times requests.

    ** How the code is modelled

    A Go function is a Rocq function of the same name.  A function without
    effects is a pure function; one that may panic returns an [outcome]; one
    with effects is in the state monad [M] over [outcome], on a state that holds
    the services it calls.  A Go pair of a value and an error stays a pair, since
    callers in this code drop either part.  A nil pointer is [None], a nil map is
    the [None] of [gomap] where nilness is observed.  [int] and [int64] are
    integers with their 64-bit wrap-around written out where they are added or
    multiplied.  Log lines and durations are left out, counters are kept.

    Code outside the repository is a parameter: a class whose fields are the
    calls ([DynamoDB], [SQSService], [SyncEnv], [ClusterEnv], [WatchEnv],
    [ClusterClient], [Unstructured], [NestedAccess], [Codec], [SchemeLib],
    [OidcLib], [SltEnv]) or an argument (a decoder, a digest, a token verifier).  What the
    theorems need of it is a class of laws beside it ([DynamoDBLaws],
    [ClusterEnvLaws], [CacheLaws], [WireLaws], ...), which has an instance by a
    concrete implementation, so that every theorem with such a hypothesis has a
    witness.  A law lets a call fail; where a failed call may
    have taken effect, it says so.

    DynamoDB is read the way the code reads it, without asking for consistent
    reads and through an index: [visible] of [DynamoDBLaws] is what a read may
    show, an item written last or an older one, and a state is settled when every
    write has reached every copy, so that reads show what is stored.  A theorem
    that needs a read to be current says so, as [settled] or, at the interface of
    the database, [db_current] of a cluster and [db_settled].  In the same way the
    cache of a Kubernetes client may show old versions ([ClusterClientLaws]), and
    the server gives an object a new version with each write.

    ** Files

    - Prelude: outcomes, the monads, integers, slices, maps, automation.
    - GoStrings, GoTime, GoRegexp: what the code uses of strings, strconv, time
      and regexp.  Times are seconds and nanoseconds with a zone; formatting and
      parsing RFC 3339 is proved to round-trip.  Patterns are an abstract syntax
      with a backtracking matcher of RE2's priorities, sound and complete for
      a declarative reading; a star has one round of fuel per byte left, which
      is enough because a round must consume one.
    - Encoding: pkg/apiserver/web/encoding.go.
    - Registry, Monitoring: pkg/api/registry/v1/cluster_types.go and
      pkg/monitoring/apiserver.
    - DynamoDB, MemDynamo: the contract of the table and an instance of it.
    - Filter: pkg/apiserver/models/filter.go and pkg/database/filter.go.
    - Database, DatabaseThms: pkg/database/database.go and its theorems.
    - Db, MemDb: the interface Db of that file as a class with laws, which the
      implementation is proved to meet, and an instance in memory; the event
      handler and the HTTP handlers are proved against the interface.
    - Sqs: pkg/sqs; EventHandler: pkg/apiserver/event, pkg/sync/event and the
      function that cmd/apiserver registers with the queue;
      ConcurrentHandlers: its runs on several messages at once.
    - Config: pkg/config/config.go, with time.ParseDuration.
    - Web, Auth, Handlers: pkg/apiserver/web, pkg/apiserver/errors, pkg/auth and
      both versions of the handlers (modules V1 and V2); HandlersThms and
      ApiWitness have their theorems and witnesses.
    - SyncParser, SyncController, SyncThms, SyncWitness: pkg/sync and the types
      and the merge it uses.
    - Scheme: the registration of the API types (groupversion_info.go and the
      init functions of pkg/api, cmd/client and cmd/sync/manager).
    - Webhook: pkg/client/webhook.
    - ClusterController, MetadataWatcher, MetadataController, MetadataWitness:
      pkg/client/controllers.
    - System, SystemWitness: many clients, the sync manager, the queue and the
      API server as one step relation over the models of their files; each step
      is a reconciliation or a whole delivery, one at a time, and messages may be
      delivered again and in any order.
    - ConcurrentSystem, ConcurrentWitness: the same system as the API server runs
      it, with handlers that overlap, cut into their read, their write and their
      deletion, and with reads that may be old.  Its runs are [orderly] when no two
      handlers of one cluster are between their read and their write and each of
      them reads the entry written last; the runs of System are among them.
    - CacheFlow: messages and requests for listings through the HTTP cache, their
      calls interleaved in any order.
    - ManagerConfig: pkg/api/config/v1 and how cmd/client and cmd/sync/manager
      read their options.
    - GoMem: memory of typed cells, pointers, slices and maps as references, and
      copies of them; a type is [Memory] when its values can be read back, and
      [Copyable] when its copy reads the same from cells that are all new.
    - DeepCopyV1, DeepCopyAlpha, DeepCopyConfig: the generated deep copies of
      pkg/api.  Types take the kind of their references as an argument, so that a
      structure in memory and the value it stands for have one definition.
    - HashClone: the copy of a Cluster that the client edits before it hashes it,
      on the memory of DeepCopyV1, refining the function of ClusterController.
    - SyncRace: reconciliations of the sync manager that run at once on the
      buffer of one parser, as a step relation.
    - ControllerSetup: the SetupWithManager of the three controllers as data: which
      events of which objects are filtered and mapped to which requests.
    - MetricsInit: the metrics of the three programs and their registration.
    - Router: pkg/apiserver/web/router.go, the rate limiter, the authenticator and
      the Register of both versions, on the routes, groups and middleware of the
      router; Server: cmd/apiserver.
    - Swagger: pkg/apiserver/docs/docs.go as data and the JSON of the answers;
      ServerWitness: the witnesses of Server and Swagger.
    - Slt, SltThms: test/slt and its theorems; SltFlow, SltWitness: the test beside
      the system it tests.
    - Base64, K8sClient: the standard encoding and pkg/k8s.
    - Oidc: local/oidc, with the encodings of a key.
    - Mains: cmd/client, cmd/sync/manager, local/database and local/sqs;
      MainsWitness: its witnesses.

    ** What is shown

    - The whole: however handlers overlap and however old the reads are, each entry
      of the registry is that of an object a client had, and what the sync manager
      sends stays in the queue.  In orderly runs each entry is of a message at least
      as new as each one deleted, and once the messages are applied and the registry
      has settled the API answers with the newest.  The queue can always be drained
      once the services answer.
    - The registry: every entry is stored under its name with a time that
      parses, whatever calls are made and fail; putting and getting round-trip
      once the write has reached every copy; a listing is the window asked for of
      the clusters that match, or the error of a call, and panics where the window
      is not one; pages that follow one another cover it.
    - Updates: a message has the effect of the last-writer-wins contract on the
      entry that is read; when reads are current, update times never go back and the
      order of delivery does not matter; a message is deleted only after it was
      applied.  Handlers that run at once have the effect of some order of their
      updates, unless two handlers of one cluster overlap; theorems show an older
      update to win where they do, and where a read is old.
    - The cache: after an update and its invalidation a listing is answered with
      what was read since, unless a listing that overlaps the invalidation puts an
      old response back, which an example shows.
    - The service level test: its status is 1 exactly when its edit succeeded and
      the API then served what it wrote, and its check passes once the messages are
      applied and the registry has settled; a failed refresh drops its token; and
      the annotation that its edit sets turns the invalidation of the cache off
      until somebody takes it away.
    - The queue: the polling loop with its goroutines is a step relation on the
      shared counter; the limit of handlers holds when increments and decrements
      do not overlap, fails when they do, and the loop never waits in vain.
    - The API: what each route answers on every outcome of the database, which
      requests reach a handler, which patches are sent, and what the cache keeps.
    - Filters, names, paths, configuration: what is accepted and what it means,
      as equivalences or round trips.
    - The controllers: what is sent or patched, when, and to which objects, and
      which fields make a reconciliation panic; which objects a change reconciles;
      how options are combined.
    - Memory: a deep copy reads as its original and shares no cell with it, so a
      write to the one is not seen in the other; the client's hash leaves the
      object of the cache as it was.  Two reconciliations of the sync manager do
      share the buffer of the parser and are shown to mix their data.
    - The programs: the API server polls the queue, and the client and the sync
      manager start, only when everything they need was set up; without a token
      that verifies no handler of a group runs; the routes of the documentation
      are those that the server registers, and what it answers has the
      documented type; all metrics are registered once.
    - Where the code does not do what it says, a theorem states what it does.

    ** Bounds

    Loops over pages of DynamoDB run on fuel, one unit per page; the theorems
    give the number of pages that suffices and show that the call then returns.
    The loops of the service level test that wait or run for ever have as many
    rounds as there is fuel; a theorem about a run of it holds for any fuel.
    Every other loop is structural, or has the length of its input as fuel.

    ** Not modelled

    test/jwt and test/performance: the tokens of the end-to-end tests and the
    floating-point summary of a load test, which no program runs.  Of the service
    level test, the server of its metrics (a library) and GetRandomTime, which
    nothing calls.  Mock of the database and setVerifiers of the authenticator,
    which replace parts for unit tests.  Goroutines are interleaved in Sqs,
    EventHandler, ConcurrentHandlers, ConcurrentSystem, CacheFlow and SyncRace, and
    whole calls in System; elsewhere one call runs at a time. *)
From stdpp Require Import base gmap strings list option numbers.

(** ** Go results

    A Go function returns, panics, or never returns: a loop whose bound the
    code does not know runs on explicit fuel in the model and ends in
    [OutOfFuel] when it is used up.  The returned value is kept in the shape
    the source has it, usually a tuple whose last part is an [error]; the
    callers of this code base do look at (or drop) the parts separately. *)

Declare Scope go_scope.
Delimit Scope go_scope with go.

Definition error : Type := option string.
Definition errorf (msg : string) : error := Some msg.
Notation nil_error := (None : error).

Inductive outcome (A : Type) : Type :=
  | Ret (a : A)
  | Panic (msg : string)
  | OutOfFuel.
Arguments Ret {A} a.
Arguments Panic {A} msg.
Arguments OutOfFuel {A}.

(** A stateful Go computation over the state [S]. *)
Definition M (S A : Type) : Type := S → outcome A * S.

Global Instance M_ret S : MRet (M S) := λ A a s, (Ret a, s).
Global Instance M_bind S : MBind (M S) := λ A B k m s,
  match m s with
  | (Ret a, s') => k a s'
  | (Panic e, s') => (Panic e, s')
  | (OutOfFuel, s') => (OutOfFuel, s')
  end.

Definition panic {S A} (msg : string) : M S A := λ s, (Panic msg, s).
Definition gets {S A} (f : S → A) : M S A := λ s, (Ret (f s), s).
Definition modify {S} (f : S → S) : M S () := λ s, (Ret (), f s).
(** A pure computation that may panic (an index, a dereference). *)
Definition lift {S A} (o : outcome A) : M S A := λ s, (o, s).

Lemma bind_ret_l {S A B} (a : A) (k : A → M S B) s : (mret a ≫= k) s = k a s.
Proof. reflexivity. Qed.

Lemma bind_run {S A B} (m : M S A) (k : A → M S B) s a s' :
  m s = (Ret a, s') → (m ≫= k) s = k a s'.
Proof. intros H. unfold mbind, M_bind. by rewrite H. Qed.

Lemma bind_lift {S A B} (a : A) (k : A → M S B) s : (lift (Ret a) ≫= k) s = k a s.
Proof. reflexivity. Qed.

Lemma bind_gets {S A B} (f : S → A) (k : A → M S B) s : (gets f ≫= k) s = k (f s) s.
Proof. reflexivity. Qed.

Lemma bind_panic {S A B} (m : M S A) (k : A → M S B) s e s' :
  m s = (Panic e, s') → (m ≫= k) s = (Panic e, s').
Proof. intros H. unfold mbind, M_bind. by rewrite H. Qed.

Lemma bind_Ret_inv {S A B} (m : M S A) (k : A → M S B) s b s'' :
  (m ≫= k) s = (Ret b, s'') → ∃ a s', m s = (Ret a, s') ∧ k a s' = (Ret b, s'').
Proof. unfold mbind, M_bind. destruct (m s) as [[a|e|] s'] eqn:E; naive_solver. Qed.

(** A part of the state that a computation leaves alone. *)
Section observed.
Context {S T : Type} (obs : S → T).

Definition keeps {A} (m : M S A) : Prop := ∀ s, obs (m s).2 = obs s.

Lemma keeps_bind {A B} (m : M S A) (k : A → M S B) : keeps m → (∀ a, keeps (k a)) → keeps (m ≫= k).
Proof.
  intros Hm Hk s. unfold mbind, M_bind. specialize (Hm s). destruct (m s) as [[a|e|] s']; cbn in *; [|done..].
  by rewrite Hk.
Qed.

(** A sequence that changes it got past the computations that do not. *)
Lemma changed_bind {A B} (m : M S A) (k : A → M S B) s :
  keeps m → obs ((m ≫= k) s).2 ≠ obs s →
  ∃ a s', m s = (Ret a, s') ∧ obs s' = obs s ∧ obs (k a s').2 ≠ obs s'.
Proof.
  intros Hm. specialize (Hm s). unfold mbind, M_bind. destruct (m s) as [[a|e|] s']; cbn in *; intros Hne; [|done..].
  exists a, s'. split_and!; [done..|congruence].
Qed.
End observed.

(** A condition on the state that a computation preserves. *)
Section preserved.
Context {S : Type} (P : S → Prop).

Definition preserves {A} (m : M S A) : Prop := ∀ s, P s → P (m s).2.

Lemma preserves_ret {A} (a : A) : preserves (mret a).
Proof. intros s Hs. exact Hs. Qed.
Lemma preserves_lift {A} (o : outcome A) : preserves (lift o).
Proof. intros s Hs. exact Hs. Qed.
Lemma preserves_bind {A B} (m : M S A) (k : A → M S B) : preserves m → (∀ a, preserves (k a)) → preserves (m ≫= k).
Proof.
  intros Hm Hk s Hs. unfold mbind, M_bind. specialize (Hm s Hs). destruct (m s) as [[a|e|] s']; cbn in *; [|done..].
  by apply Hk.
Qed.
End preserved.

(** The state a sequence of two computations leaves. *)
Lemma bind_state {S A B} (m : M S A) (k : A → M S B) s :
  ((m ≫= k) s).2 = match m s with (Ret a, s') => (k a s').2 | (_, s') => s' end.
Proof. unfold mbind, M_bind. by destruct (m s) as [[a|p|] s']. Qed.

(** Reading through a nil pointer panics. *)
Definition deref {A} (p : option A) : outcome A :=
  match p with
  | Some a => Ret a
  | None => Panic "invalid memory address or nil pointer dereference"
  end.

(** ** Results of functions that return a value or an error *)

Definition res (A : Type) : Type := (string + A)%type.
#[global] Instance res_ret : MRet res := λ A a, inr a.
#[global] Instance res_bind : MBind res := λ A B k r,
  match r with inl e => inl e | inr a => k a end.

Lemma res_bind_inr {A B} (r : res A) (k : A → res B) b :
  r ≫= k = inr b ↔ ∃ a, r = inr a ∧ k a = inr b.
Proof. destruct r; cbn; naive_solver. Qed.

Lemma res_bind_r {A B} (a : A) (k : A → res B) : (inr a : res A) ≫= k = k a.
Proof. reflexivity. Qed.

(** A loop over a slice that returns at the first error. *)
Fixpoint mfold {A B} (f : A → B → res A) (l : list B) (a : A) : res A :=
  match l with
  | [] => inr a
  | b :: l => a ← f a b; mfold f l a
  end.

Lemma mfold_app {A B} (f : A → B → res A) l1 l2 a :
  mfold f (l1 ++ l2) a = (a ← mfold f l1 a; mfold f l2 a).
Proof. revert a. induction l1 as [|b l1 IH]; intros a; [done|]. cbn. destruct (f a b); cbn; auto. Qed.

(** ** Machine integers: Go's [int] and [int64] on the 64-bit targets *)

Local Open Scope Z_scope.

Definition int64_min : Z := - 2 ^ 63.
Definition int64_max : Z := 2 ^ 63 - 1.
Definition in_int64 (z : Z) : bool := (int64_min <=? z) && (z <=? int64_max).
Definition wrap64 (z : Z) : Z := (z + 2 ^ 63) `mod` 2 ^ 64 - 2 ^ 63.

Lemma wrap64_range z : int64_min ≤ wrap64 z ≤ int64_max.
Proof.
  unfold wrap64, int64_min, int64_max.
  pose proof (Z.mod_pos_bound (z + 2 ^ 63) (2 ^ 64)). lia.
Qed.

Lemma wrap64_id z : int64_min ≤ z ≤ int64_max → wrap64 z = z.
Proof.
  unfold wrap64, int64_min, int64_max. intros H.
  rewrite Z.mod_small; lia.
Qed.

(** ** Slices: [l[lo:hi]] and its bounds check *)

Definition go_slice {A} (l : list A) (lo hi : Z) : outcome (list A) :=
  if (0 <=? lo) && (lo <=? hi) && (hi <=? Z.of_nat (length l))
  then Ret (take (Z.to_nat (hi - lo)) (drop (Z.to_nat lo) l))
  else Panic "slice bounds out of range".

Lemma go_slice_Ret {A} (l : list A) lo hi :
  0 ≤ lo → lo ≤ hi → hi ≤ Z.of_nat (length l) →
  go_slice l lo hi = Ret (take (Z.to_nat (hi - lo)) (drop (Z.to_nat lo) l)).
Proof.
  intros ???. unfold go_slice.
  rewrite !(proj2 (Z.leb_le _ _)) by lia. done.
Qed.

Lemma go_slice_panics {A} (l : list A) lo hi :
  ¬ (0 ≤ lo ∧ lo ≤ hi ∧ hi ≤ Z.of_nat (length l)) →
  go_slice l lo hi = Panic "slice bounds out of range".
Proof.
  intros H. unfold go_slice.
  destruct (Z.leb_spec 0 lo), (Z.leb_spec lo hi), (Z.leb_spec hi (Z.of_nat (length l)));
    simpl; try done. lia.
Qed.

Close Scope Z_scope.

(** ** Go maps with string keys

    [None] is the nil map: reading it finds nothing and writing to it
    panics.  Maps whose nilness the program never observes are plain
    [gmap]s. *)

Abbreviation gomap V := (option (gmap string V)).

Definition gm {V} (m : gomap V) : gmap string V := default ∅ m.

(** ** Membership in a slice of strings

    The repository has this loop three times: [contains] of
    pkg/database/filter.go, pkg/auth/auth.go and pkg/client/webhook/webhook.go. *)

Fixpoint contains (item : string) (slice : list string) : bool :=
  match slice with
  | [] => false
  | s :: slice => if bool_decide (s = item) then true else contains item slice
  end.

Lemma contains_spec item slice : contains item slice = true ↔ item ∈ slice.
Proof.
  induction slice as [|s slice IH]; simpl; [set_solver|].
  case_bool_decide; rewrite ?elem_of_cons; naive_solver.
Qed.

Lemma contains_false item slice : contains item slice = false ↔ item ∉ slice.
Proof. rewrite <- contains_spec. destruct (contains item slice); naive_solver. Qed.

(** ** Automation *)

Create HintDb registry.
#[export] Hint Rewrite @bind_ret_l : registry.
#[export] Hint Resolve wrap64_range : registry.

(** Run a monadic program as far as its shape determines it. *)
Ltac mrun := cbn [mbind M_bind mret M_ret panic gets modify lift fst snd] in *.

(** Read off what a returned computation returned. *)
Tactic Notation "minv" hyp(H) := unfold mret, M_ret, panic, lift in H; simplify_eq.

(** ** Values of a finite map *)

Lemma omap_values_perm {K A B} `{Countable K} (f : A → option B) (m : gmap K A) :
  omap f (map_to_list m).*2 ≡ₚ (map_to_list (omap f m)).*2.
Proof.
  induction m as [|i x m Hi IH] using map_ind; [by rewrite map_to_list_empty, omap_empty, map_to_list_empty|].
  rewrite map_to_list_insert by done. rewrite omap_insert.
  destruct (f x) as [y|] eqn:Hf; cbn; rewrite Hf, IH.
  - rewrite map_to_list_insert; [done|]. by rewrite lookup_omap, Hi.
  - rewrite delete_id; [done|]. by rewrite lookup_omap, Hi.
Qed.

Lemma filter_omap {A B} (f : A → option B) (P : A → bool) (Q : B → bool) (l : list A) :
  Forall (λ x, ∃ y, f x = Some y ∧ P x = Q y) l →
  omap f (filter (λ x, P x = true) l) = filter (λ y, Q y = true) (omap f l).
Proof.
  induction 1 as [|x l (y & Hf & HP) _ IH]; [done|]. cbn [omap list_omap]. rewrite Hf.
  rewrite !filter_cons, HP. case_decide; [|done]. cbn [omap list_omap]. rewrite Hf. by f_equal.
Qed.

Lemma omap_fmap_Some {A B C} (f : A → option B) (g : C → B) (l : list A) (k : list C) :
  Some ∘ g <$> k = f <$> l → g <$> k = omap f l.
Proof.
  revert k. induction l as [|x l IH]; intros [|y k] Hk; try done.
  rewrite !fmap_cons in Hk. cbn in Hk. injection Hk as Hx Hk. cbn. rewrite <- Hx.
  by rewrite <- (IH k).
Qed.

Lemma forallb_fmap {A B} (f : B → bool) (g : A → B) (l : list A) :
  forallb f (g <$> l) = forallb (λ x, f (g x)) l.
Proof. induction l as [|x l IH]; [done|]. rewrite fmap_cons. simpl. by rewrite IH. Qed.
