(* ===== verification/GoStrings.v ===== *)
(** Go's [strings] and [strconv] functions that the registry calls, on
    byte strings, with the facts about decimal numbers the other files use. *)
From Stdlib Require Import Ascii.
From stdpp Require Import base strings list option numbers.
From S2P Require Import Prelude.

Local Open Scope Z_scope.

#[global] Arguments String.append !_ _ /.

(** ** Package strings *)

Fixpoint HasPrefix (s p : string) {struct p} : bool :=
  match p, s with
  | EmptyString, _ => true
  | String c p, String d s => bool_decide (c = d) && HasPrefix s p
  | String _ _, EmptyString => false
  end.

Fixpoint drop_str (n : nat) (s : string) : string :=
  match n, s with
  | O, _ => s
  | S n, String _ s => drop_str n s
  | S _, EmptyString => EmptyString
  end.

Fixpoint take_str (n : nat) (s : string) : string :=
  match n, s with
  | S n, String c s => String c (take_str n s)
  | _, _ => EmptyString
  end.

(** [strings.Contains]. *)
Fixpoint Contains (s sub : string) : bool :=
  HasPrefix s sub ||
  match s with
  | EmptyString => false
  | String _ s => Contains s sub
  end.

(** [strings.Cut] around the first occurrence of a one-byte separator. *)
Fixpoint Cut (s : string) (sep : ascii) : string * string * bool :=
  match s with
  | EmptyString => (EmptyString, EmptyString, false)
  | String c s' =>
     if bool_decide (c = sep) then (EmptyString, s', true)
     else let '(before, after, found) := Cut s' sep in
          (String c before, after, found)
  end.

(** [strings.Split] on a one-byte separator: always at least one piece. *)
Fixpoint Split (s : string) (sep : ascii) : list string :=
  match s with
  | EmptyString => [EmptyString]
  | String c s' =>
     if bool_decide (c = sep) then EmptyString :: Split s' sep
     else match Split s' sep with
          | piece :: pieces => String c piece :: pieces
          | [] => [String c EmptyString]
          end
  end.

(** [strings.Join]. *)
Fixpoint Join (elems : list string) (sep : string) : string :=
  match elems with
  | [] => EmptyString
  | [e] => e
  | e :: elems => e +:+ sep +:+ Join elems sep
  end.

(** The UTF-8 encodings of the code points [unicode.IsSpace] accepts. *)
Definition bytes (l : list N) : string :=
  foldr (λ n s, String (ascii_of_N n) s) EmptyString l.

Definition space_runes : list string :=
  ((λ n : N, bytes [n]) <$> [9; 10; 11; 12; 13; 32]%N) ++
  ((λ n : N, bytes [194%N; n]) <$> [133; 160]%N) ++
  [bytes [225; 154; 128]%N] ++
  ((λ n : N, bytes [226%N; 128%N; n]) <$>
     [128; 129; 130; 131; 132; 133; 134; 135; 136; 137; 138; 168; 169; 175]%N) ++
  [bytes [226; 129; 159]%N; bytes [227; 128; 128]%N].

Definition leading_space (s : string) : option nat :=
  match filter (λ r, HasPrefix s r = true) space_runes with
  | r :: _ => Some (String.length r)
  | [] => None
  end.

(** The fuel is the length of the string: each round drops a byte at least. *)
Fixpoint trim_left_fuel (fuel : nat) (s : string) : string :=
  match fuel, leading_space s with
  | S fuel, Some n => trim_left_fuel fuel (drop_str n s)
  | _, _ => s
  end.
Definition TrimLeftSpace (s : string) : string := trim_left_fuel (String.length s) s.

Definition HasSuffix (s p : string) : bool :=
  bool_decide (String.length p ≤ String.length s)%nat &&
  bool_decide (drop_str (String.length s - String.length p) s = p).

Definition trailing_space (s : string) : option nat :=
  match filter (λ r, HasSuffix s r = true) space_runes with
  | r :: _ => Some (String.length s - String.length r)%nat
  | [] => None
  end.

Fixpoint trim_right_fuel (fuel : nat) (s : string) : string :=
  match fuel, trailing_space s with
  | S fuel, Some n => trim_right_fuel fuel (take_str n s)
  | _, _ => s
  end.
Definition TrimRightSpace (s : string) : string := trim_right_fuel (String.length s) s.

(** [strings.TrimSpace]. *)
Definition TrimSpace (s : string) : string := TrimRightSpace (TrimLeftSpace s).

(** ** Digits *)

Definition byte_of (c : ascii) : Z := Z.of_N (N_of_ascii c).
Definition is_digit (c : ascii) : bool := (48 <=? byte_of c) && (byte_of c <=? 57).
Definition digit_val (c : ascii) : Z := byte_of c - 48.
Definition digit_char (d : Z) : ascii := ascii_of_N (Z.to_N (d + 48)).
Definition is_lower (c : ascii) : bool := (97 <=? byte_of c) && (byte_of c <=? 122).
Definition is_upper (c : ascii) : bool := (65 <=? byte_of c) && (byte_of c <=? 90).

(** The decimal value of a string of digits, [None] on another byte. *)
Fixpoint digits_val (acc : Z) (s : string) : option Z :=
  match s with
  | EmptyString => Some acc
  | String c s => if is_digit c then digits_val (acc * 10 + digit_val c) s else None
  end.

(** The [w] low decimal digits of [n], zero padded. *)
Fixpoint pad (w : nat) (n : Z) : string :=
  match w with
  | O => EmptyString
  | S w => pad w (n / 10) +:+ String (digit_char (n `mod` 10)) EmptyString
  end.

(** ** Package strconv *)

(** [strconv.ParseInt (s, 10, 64)]. *)
Definition ParseInt (s : string) : Z * error :=
  let '(neg, ds) :=
    match s with
    | String c s' =>
       if bool_decide (c = "-"%char) then (true, s')
       else if bool_decide (c = "+"%char) then (false, s') else (false, s)
    | EmptyString => (false, s)
    end in
  match ds with
  | EmptyString => (0, errorf "invalid syntax")
  | _ =>
     match digits_val 0 ds with
     | None => (0, errorf "invalid syntax")
     | Some v =>
        if neg
        then if v <=? 2 ^ 63 then (- v, None) else (int64_min, errorf "value out of range")
        else if v <=? int64_max then (v, None) else (int64_max, errorf "value out of range")
     end
  end.

(** [strconv.Atoi]: [int] has 64 bits on the targets. *)
Definition Atoi (s : string) : Z * error := ParseInt s.

(** [strconv.ParseBool]. *)
Definition ParseBool (s : string) : bool * error :=
  if contains s ["1"; "t"; "T"; "TRUE"; "true"; "True"]%string then (true, None)
  else if contains s ["0"; "f"; "F"; "FALSE"; "false"; "False"]%string then (false, None)
  else (false, errorf "invalid syntax").

(** [strconv.FormatBool] and the [%t] verb. *)
Definition FormatBool (b : bool) : string := (if b then "true" else "false")%string.

(** ** Lemmas *)

Lemma str_app_nil_r (s : string) : s +:+ "" = s.
Proof. induction s as [|c s IH]; [done|]. cbn. by rewrite IH. Qed.

Lemma str_app_assoc (a b c : string) : a +:+ b +:+ c = (a +:+ b) +:+ c.
Proof. induction a as [|x a IH]; [done|]. cbn. by rewrite IH. Qed.

Lemma str_length_app (a b : string) :
  String.length (a +:+ b) = (String.length a + String.length b)%nat.
Proof. induction a; simpl; auto. Qed.

Lemma drop_str_app (a b : string) : drop_str (String.length a) (a +:+ b) = b.
Proof. induction a; simpl; auto. Qed.

Lemma take_str_app (a b : string) : take_str (String.length a) (a +:+ b) = a.
Proof. induction a; simpl; [by destruct b|by f_equal]. Qed.

Lemma take_str_all n s : (String.length s ≤ n)%nat → take_str n s = s.
Proof.
  revert n. induction s as [|c s IH]; intros [|n] H; simpl in *; try done; try lia.
  f_equal. apply IH. lia.
Qed.

Lemma take_drop_str n s : take_str n s +:+ drop_str n s = s.
Proof. revert s. induction n; intros []; simpl; try done. by f_equal. Qed.

Lemma HasPrefix_spec s p : HasPrefix s p = true ↔ ∃ t, s = p +:+ t.
Proof.
  revert s. induction p as [|c p IH]; intros s; simpl.
  { split; [intros _; by exists s|done]. }
  destruct s as [|d s]; [split; [done|by intros [t ?]]|].
  rewrite andb_true_iff, bool_decide_eq_true, IH. split.
  - intros [-> [t ->]]. by exists t.
  - intros [t Ht]. injection Ht as -> ->. eauto.
Qed.

Lemma HasPrefix_app p t : HasPrefix (p +:+ t) p = true.
Proof. apply HasPrefix_spec. eauto. Qed.

Lemma Contains_spec s sub :
  Contains s sub = true ↔ ∃ a b, s = a +:+ sub +:+ b.
Proof.
  induction s as [|c s IH]; simpl; rewrite orb_true_iff, HasPrefix_spec.
  - split.
    + intros [[t ?]|?]; [|done]. by exists "", t.
    + intros (a & b & H). left. destruct a; [eauto|done].
  - rewrite IH. split.
    + intros [[t ?]|(a & b & ->)]; [by exists "", t|]. by exists (String c a), b.
    + intros (a & b & H). destruct a as [|c' a]; [left; by eauto|].
      simplify_eq/=. right. eauto.
Qed.

Lemma Split_not_nil s sep : Split s sep ≠ [].
Proof. destruct s; simpl; [done|]. repeat case_match; done. Qed.

(** Splitting loses nothing. *)
Lemma Join_Split s sep : Join (Split s sep) (String sep "") = s.
Proof.
  induction s as [|c s IH]; simpl; [done|].
  case_bool_decide; subst.
  - pose proof (Split_not_nil s sep). destruct (Split s sep); [done|].
    change (String sep (Join (s0 :: l) (String sep "")) = String sep s). by rewrite IH.
  - pose proof (Split_not_nil s sep). destruct (Split s sep) as [|p [|q l]]; [done|..];
      simpl in *; by f_equal.
Qed.

Lemma Cut_found s sep before after :
  Cut s sep = (before, after, true) → s = before +:+ String sep after.
Proof.
  revert before after. induction s as [|c s IH]; simpl; intros ?? H; [done|].
  case_bool_decide; simplify_eq; [done|].
  destruct (Cut s sep) as [[b a] f]; simplify_eq. simpl. f_equal. by apply IH.
Qed.

Lemma digit_char_spec d :
  0 ≤ d < 10 → is_digit (digit_char d) = true ∧ digit_val (digit_char d) = d.
Proof.
  intros H.
  assert (d = 0 ∨ d = 1 ∨ d = 2 ∨ d = 3 ∨ d = 4 ∨ d = 5 ∨ d = 6 ∨ d = 7 ∨ d = 8 ∨ d = 9)
    as Hd by lia.
  destruct_or! Hd; subst; split; reflexivity.
Qed.

Lemma digits_val_app acc a b :
  digits_val acc (a +:+ b) = digits_val acc a ≫= λ v, digits_val v b.
Proof.
  revert acc. induction a as [|c a IH]; intros acc; simpl; [done|].
  destruct (is_digit c); simpl; auto.
Qed.

Lemma length_pad w n : String.length (pad w n) = w.
Proof.
  revert n. induction w as [|w IH]; intros n; [done|].
  simpl. rewrite str_length_app, IH. simpl. lia.
Qed.

Lemma digits_val_pad w n acc :
  0 ≤ n < 10 ^ Z.of_nat w → digits_val acc (pad w n) = Some (acc * 10 ^ Z.of_nat w + n).
Proof.
  revert n acc. induction w as [|w IH]; intros n acc Hn.
  { simpl in *. f_equal. lia. }
  rewrite Nat2Z.inj_succ, Z.pow_succ_r in Hn by lia.
  pose proof (Z.mod_pos_bound n 10 ltac:(lia)) as Hm.
  cbn [pad]. rewrite digits_val_app, IH by (split; [apply Z.div_pos; lia|apply Z.div_lt_upper_bound; lia]).
  cbn [mbind option_bind digits_val].
  destruct (digit_char_spec (n `mod` 10) Hm) as [-> ->]. f_equal.
  rewrite Nat2Z.inj_succ, Z.pow_succ_r by lia.
  pose proof (Z.div_mod n 10). lia.
Qed.

Lemma ParseInt_range s v e : ParseInt s = (v, e) → int64_min ≤ v ≤ int64_max.
Proof.
  assert (∀ s acc v, 0 ≤ acc → digits_val acc s = Some v → 0 ≤ v) as Hpos.
  { clear. induction s as [|c s IH]; simpl; intros acc v ? H; [by simplify_eq|].
    destruct (is_digit c) eqn:Hc; [|done]. eapply IH, H.
    unfold is_digit, digit_val in *. apply andb_prop in Hc as [Hc _].
    apply Z.leb_le in Hc. lia. }
  unfold ParseInt, int64_min, int64_max. intros H.
  repeat case_match; simplify_eq; try lia;
    repeat match goal with
    | H : (_ <=? _) = true |- _ => apply Z.leb_le in H
    | H : digits_val 0 _ = Some _ |- _ => apply Hpos in H; [|lia]
    end; lia.
Qed.

#[export] Hint Rewrite str_app_nil_r str_length_app drop_str_app take_str_app length_pad : registry.
