(* ===== verification/GoTime.v ===== *)
(** Go's [time] package as the registry uses it: the proleptic Gregorian
    calendar, [time.Unix], [time.Parse] with the RFC 3339 layouts,
    [Format (time.RFC3339Nano)] of UTC times and [Time.String].

    The main result is [Parse_Format]: the text that [Format] writes for an
    instant with a four-digit year parses back to that instant. *)
From Stdlib Require Import Ascii.
From stdpp Require Import base strings list option numbers.
From S2P Require Import Prelude GoStrings.

Local Open Scope Z_scope.

(** ** The calendar *)

Definition is_leap (y : Z) : bool :=
  (y `mod` 4 =? 0) && (negb (y `mod` 100 =? 0) || (y `mod` 400 =? 0)).

(** [time.daysIn]. *)
Definition daysIn (m y : Z) : Z :=
  if m =? 2 then if is_leap y then 29 else 28
  else if (m =? 4) || (m =? 6) || (m =? 9) || (m =? 11) then 30 else 31.

(** Days since 1970-01-01.  Years are counted from March so that the leap
    day is the last of its year; 146097 days make a cycle of 400 years. *)
Definition year_days (yoe : Z) : Z := 365 * yoe + yoe / 4 - yoe / 100.
Definition days_from_civil (y m d : Z) : Z :=
  let y' := if m <=? 2 then y - 1 else y in
  let era := y' / 400 in
  let yoe := y' - era * 400 in
  let mp := if 2 <? m then m - 3 else m + 9 in
  let doy := (153 * mp + 2) / 5 + d - 1 in
  era * 146097 + (year_days yoe + doy) - 719468.

Definition civil_from_days (z : Z) : Z * Z * Z :=
  let z := z + 719468 in
  let era := z / 146097 in
  let doe := z - era * 146097 in
  let yoe := (doe - doe / 1460 + doe / 36524 - doe / 146096) / 365 in
  let doy := doe - year_days yoe in
  let mp := (5 * doy + 2) / 153 in
  let d := doy - (153 * mp + 2) / 5 + 1 in
  let m := if mp <? 10 then mp + 3 else mp - 9 in
  let y := yoe + era * 400 in
  (if m <=? 2 then y + 1 else y, m, d).

(** ** Instants *)

(** The location a parsed time carries: [Z] gives UTC, a numeric zone a fixed
    offset (which [Time.String] may replace by the local zone). *)
Inductive Location := UTC | FixedZone (offset : Z).

Record Time := mkTime { unixSec : Z; nsec : Z; loc : Location }.

(** [time.Unix (0, ns)]. *)
Definition Unix0 (ns : Z) : Time := mkTime (ns / 10 ^ 9) (ns `mod` 10 ^ 9) UTC.

(** [Time.Unix] and [Time.Before]. *)
Definition Unix (t : Time) : Z := unixSec t.
Definition Before (t u : Time) : bool :=
  (unixSec t <? unixSec u) || ((unixSec t =? unixSec u) && (nsec t <? nsec u)).

(** [time.Date] in UTC. *)
Definition Date (y m d hh mm ss ns : Z) : Time :=
  mkTime (days_from_civil y m d * 86400 + hh * 3600 + mm * 60 + ss) ns UTC.

(** ** Parsing *)

Definition skip (c : ascii) (s : string) : option string :=
  match s with
  | String d s => if bool_decide (c = d) then Some s else None
  | EmptyString => None
  end.

(** A field of exactly [w] digits ([getnum] with [fixed], and the year). *)
Definition getfixed (w : nat) (s : string) : option (Z * string) :=
  if (w <=? String.length s)%nat
  then v ← digits_val 0 (take_str w s); Some (v, drop_str w s)
  else None.

(** [getnum] without [fixed]: one or two digits. *)
Definition getnum (s : string) : option (Z * string) :=
  match getfixed 2 s with
  | Some r => Some r
  | None => getfixed 1 s
  end.

Definition in_range (lo hi v : Z) : option () :=
  if (lo <=? v) && (v <=? hi) then Some () else None.

(** The length of the run of digits at the head. *)
Fixpoint digit_run (s : string) : nat :=
  match s with
  | String c s => if is_digit c then S (digit_run s) else O
  | EmptyString => O
  end.

(** [parseNanoseconds] on the digits after the separator: only nine count. *)
Definition parse_nanos (ds : string) : Z :=
  let ds := take_str 9 ds in
  default 0 (digits_val 0 ds) * 10 ^ (9 - Z.of_nat (String.length ds)).

(** The optional fraction: a period or a comma and at least one digit. *)
Definition parse_frac (s : string) : Z * string :=
  match s with
  | String c rest =>
     let n := digit_run rest in
     if (bool_decide (c = "."%char) || bool_decide (c = ","%char)) && (0 <? n)%nat
     then (parse_nanos (take_str n rest), drop_str n rest)
     else (0, s)
  | EmptyString => (0, s)
  end.

(** [Z07:00]: the letter Z, or a sign, hours and minutes. *)
Definition parse_zone (s : string) : option Location :=
  match s with
  | String c rest =>
     if bool_decide (c = "Z"%char) && bool_decide (rest = "") then Some UTC
     else
       '(hr, s1) ← getfixed 2 rest;
       s2 ← skip ":" s1;
       '(mi, s3) ← getfixed 2 s2;
       _ ← in_range 0 24 hr;
       _ ← in_range 0 60 mi;
       if bool_decide (s3 = "") then
         if bool_decide (c = "+"%char) then Some (FixedZone ((hr * 60 + mi) * 60))
         else if bool_decide (c = "-"%char) then Some (FixedZone (- ((hr * 60 + mi) * 60)))
         else None
       else None
  | EmptyString => None
  end.

Definition zone_offset (l : Location) : Z :=
  match l with UTC => 0 | FixedZone off => off end.

(** [time.Parse] with the layouts RFC3339 and RFC3339Nano: after the seconds
    both accept a fraction of any length. *)
Definition Parse (s : string) : option Time :=
  '(year, s) ← getfixed 4 s;
  s ← skip "-" s;
  '(month, s) ← getfixed 2 s;
  _ ← in_range 1 12 month;
  s ← skip "-" s;
  '(day, s) ← getfixed 2 s;
  s ← skip "T" s;
  '(hour, s) ← getnum s;
  _ ← in_range 0 23 hour;
  s ← skip ":" s;
  '(minute, s) ← getfixed 2 s;
  _ ← in_range 0 59 minute;
  s ← skip ":" s;
  '(sec, s) ← getfixed 2 s;
  _ ← in_range 0 59 sec;
  let '(ns, s) := parse_frac s in
  l ← parse_zone s;
  _ ← in_range 1 (daysIn month year) day;
  let t := Date year month day hour minute sec ns in
  Some (mkTime (unixSec t - zone_offset l) (nsec t) l).

(** ** Formatting *)

(** The fraction [.999999999]: trailing zeros dropped, nothing at all for a
    whole second.  [k] digits of [n] are left to look at. *)
Fixpoint frac_digits (k : nat) (n : Z) : string :=
  match k with
  | O => EmptyString
  | S k' => if n `mod` 10 =? 0 then frac_digits k' (n / 10) else pad k n
  end.

Definition format_frac (ns : Z) : string :=
  if ns =? 0 then EmptyString else String "." (frac_digits 9 ns).

Definition format_date (t : Z) : string :=
  let '(y, m, d) := civil_from_days (t / 86400) in
  pad 4 y +:+ "-" +:+ pad 2 m +:+ "-" +:+ pad 2 d.

Definition format_clock (t : Z) : string :=
  let s := t `mod` 86400 in
  pad 2 (s / 3600) +:+ ":" +:+ pad 2 (s `mod` 3600 / 60) +:+ ":" +:+ pad 2 (s `mod` 60).

(** [t.UTC().Format(time.RFC3339Nano)]. *)
Definition FormatRFC3339Nano (t : Time) : string :=
  format_date (unixSec t) +:+ "T" +:+ format_clock (unixSec t) +:+ format_frac (nsec t) +:+ "Z".

(** [Time.String]: the layout "2006-01-02 15:04:05.999999999 -0700 MST" in the
    time's location.  [local off] is the abbreviation of the machine's zone
    when its offset at that instant is [off]. *)
Definition format_offset (off : Z) : string :=
  (if off <? 0 then "-" else "+") +:+
  pad 2 (Z.abs off / 3600) +:+ pad 2 (Z.abs off / 60 `mod` 60).

Definition TimeString (local : Z → Z → option string) (t : Time) : string :=
  let off := zone_offset (loc t) in
  let wall := unixSec t + off in
  format_date wall +:+ " " +:+ format_clock wall +:+ format_frac (nsec t) +:+ " " +:+
  format_offset off +:+ " " +:+
  match loc t with
  | UTC => "UTC"
  | FixedZone _ => default (format_offset off) (local (unixSec t) off)
  end.

(** ** The calendar is a bijection on days *)

Lemma yoe_bounds doe :
  0 ≤ doe < 146097 →
  let yoe := (doe - doe / 1460 + doe / 36524 - doe / 146096) / 365 in
  0 ≤ yoe < 400 ∧ 0 ≤ doe - year_days yoe ≤ 365.
Proof. intros H yoe. unfold year_days. subst yoe. Z.to_euclidean_division_equations. lia. Qed.

Lemma mp_bounds doy :
  0 ≤ doy ≤ 365 →
  let mp := (5 * doy + 2) / 153 in
  0 ≤ mp < 12 ∧ 1 ≤ doy - (153 * mp + 2) / 5 + 1 ≤ 31.
Proof. intros H mp. subst mp. Z.to_euclidean_division_equations. lia. Qed.

(** The last day of a 366-day year is the leap day of the next calendar year. *)
Lemma leap_doy doe :
  0 ≤ doe < 146097 →
  let yoe := (doe - doe / 1460 + doe / 36524 - doe / 146096) / 365 in
  doe - year_days yoe = 365 →
  (yoe + 1) `mod` 4 = 0 ∧ ((yoe + 1) `mod` 100 ≠ 0 ∨ (yoe + 1) `mod` 400 = 0).
Proof.
  intros H yoe. unfold year_days. subst yoe.
  Z.to_euclidean_division_equations. lia.
Qed.

Lemma is_leap_shift y era : is_leap (y + era * 400) = is_leap y.
Proof.
  unfold is_leap.
  replace ((y + era * 400) `mod` 4) with (y `mod` 4)
    by (replace (era * 400) with ((era * 100) * 4) by lia; by rewrite Z_mod_plus_full).
  replace ((y + era * 400) `mod` 100) with (y `mod` 100)
    by (replace (era * 400) with ((era * 4) * 100) by lia; by rewrite Z_mod_plus_full).
  by rewrite Z_mod_plus_full.
Qed.

Lemma is_leap_true y :
  y `mod` 4 = 0 → (y `mod` 100 ≠ 0 ∨ y `mod` 400 = 0) → is_leap y = true.
Proof.
  intros H1 H2. unfold is_leap. rewrite H1. simpl.
  destruct (Z.eqb_spec (y `mod` 100) 0); [|done].
  destruct (Z.eqb_spec (y `mod` 400) 0); [done|lia].
Qed.

(** The length of the month [mp] months after March. *)
Lemma month_len doy y :
  0 ≤ doy ≤ 365 → (doy = 365 → is_leap y = true) →
  let mp := (5 * doy + 2) / 153 in
  let m := if mp <? 10 then mp + 3 else mp - 9 in
  doy - (153 * mp + 2) / 5 + 1 ≤ daysIn m y.
Proof.
  intros Hd Hleap mp m. pose proof (mp_bounds doy Hd) as [Hmp Hday].
  fold mp in Hmp, Hday.
  assert (mp * 153 ≤ 5 * doy + 2 < mp * 153 + 153) as Hdiv
    by (subst mp; Z.to_euclidean_division_equations; lia).
  unfold daysIn. subst m.
  assert (mp = 0 ∨ mp = 1 ∨ mp = 2 ∨ mp = 3 ∨ mp = 4 ∨ mp = 5 ∨ mp = 6 ∨ mp = 7 ∨
          mp = 8 ∨ mp = 9 ∨ mp = 10 ∨ mp = 11) as Hcases by lia.
  clearbody mp.
  assert (is_leap y = true ∨ doy ≤ 364) as Hl
    by (destruct (decide (doy = 365)); [left; auto|right; lia]).
  destruct (is_leap y), Hl; try done; destruct_or! Hcases; subst mp;
    repeat match goal with
    | |- context [if ?b then _ else _] => let v := eval vm_compute in b in change b with v; cbv iota
    end; Z.to_euclidean_division_equations; lia.
Qed.

Lemma daysIn_not_feb m y1 y2 : m ≠ 2 → daysIn m y1 = daysIn m y2.
Proof. intros Hm. unfold daysIn. by rewrite (proj2 (Z.eqb_neq _ _) Hm). Qed.

Lemma civil_from_days_ok z y m d :
  civil_from_days z = (y, m, d) →
  1 ≤ m ≤ 12 ∧ 1 ≤ d ≤ daysIn m y ∧ days_from_civil y m d = z.
Proof.
  unfold civil_from_days. set (era := (z + 719468) / 146097).
  assert (0 ≤ z + 719468 - era * 146097 < 146097) as Hdoe
    by (subst era; Z.to_euclidean_division_equations; lia).
  set (doe := z + 719468 - era * 146097) in *.
  pose proof (yoe_bounds doe Hdoe) as [Hyoe Hdoy].
  pose proof (leap_doy doe Hdoe) as Hleap. simpl in Hyoe, Hdoy, Hleap.
  set (yoe := (doe - doe / 1460 + doe / 36524 - doe / 146096) / 365) in *.
  set (doy := doe - year_days yoe) in *.
  pose proof (mp_bounds doy Hdoy) as [Hmp Hd]. simpl in Hmp, Hd.
  assert (doy = 365 → is_leap (yoe + era * 400 + 1) = true) as Hl.
  { intros He. replace (yoe + era * 400 + 1) with ((yoe + 1) + era * 400) by lia.
    rewrite is_leap_shift. destruct (Hleap He). by apply is_leap_true. }
  pose proof (month_len doy (yoe + era * 400 + 1) Hdoy Hl) as Hlen. simpl in Hlen.
  assert (z = era * 146097 + (year_days yoe + doy) - 719468) as Hz by (subst doy doe; lia).
  set (mp := (5 * doy + 2) / 153) in *. clearbody mp doy yoe doe era.
  assert ((yoe + era * 400) / 400 = era) as Hera
    by (Z.to_euclidean_division_equations; lia).
  intros Heq. unfold days_from_civil.
  destruct (Z.ltb_spec mp 10) as [Hlt|Hge].
  - rewrite (proj2 (Z.leb_gt (mp + 3) 2)) in Heq by lia. simplify_eq.
    rewrite (proj2 (Z.leb_gt (mp + 3) 2)), (proj2 (Z.ltb_lt 2 (mp + 3))), Hera by lia.
    rewrite (daysIn_not_feb _ _ (yoe + era * 400 + 1)) by lia.
    replace (mp + 3 - 3) with mp by lia.
    replace (yoe + era * 400 - era * 400) with yoe by lia. lia.
  - rewrite (proj2 (Z.leb_le (mp - 9) 2)) in Heq by lia. simplify_eq.
    rewrite (proj2 (Z.leb_le (mp - 9) 2)), (proj2 (Z.ltb_ge 2 (mp - 9))) by lia.
    replace (yoe + era * 400 + 1 - 1) with (yoe + era * 400) by lia. rewrite Hera.
    replace (mp - 9 + 9) with mp by lia.
    replace (yoe + era * 400 - era * 400) with yoe by lia. lia.
Qed.

(** Days within 292 years of the epoch have a four-digit year. *)
Lemma civil_year_range z y m d :
  -200000 ≤ z ≤ 200000 → civil_from_days z = (y, m, d) → 0 ≤ y ≤ 9999.
Proof.
  intros Hz. unfold civil_from_days. set (era := (z + 719468) / 146097).
  assert (0 ≤ z + 719468 - era * 146097 < 146097) as Hdoe
    by (subst era; Z.to_euclidean_division_equations; lia).
  pose proof (yoe_bounds _ Hdoe) as [Hyoe _]. simpl in Hyoe.
  assert (3 ≤ era ≤ 6) as Hera by (subst era; Z.to_euclidean_division_equations; lia).
  intros Heq. simplify_eq. case_match; lia.
Qed.

(** ** [Parse] inverts [Format] *)

Lemma getfixed_pad w n rest :
  0 ≤ n < 10 ^ Z.of_nat w → getfixed w (pad w n +:+ rest) = Some (n, rest).
Proof.
  intros Hn. unfold getfixed.
  rewrite str_length_app, length_pad, (proj2 (Nat.leb_le _ _)) by lia.
  assert (take_str w (pad w n +:+ rest) = pad w n) as ->
    by (rewrite <- (length_pad w n) at 1; apply take_str_app).
  assert (drop_str w (pad w n +:+ rest) = rest) as ->
    by (rewrite <- (length_pad w n) at 1; apply drop_str_app).
  by rewrite digits_val_pad.
Qed.

Lemma getnum_pad n rest : 0 ≤ n < 100 → getnum (pad 2 n +:+ rest) = Some (n, rest).
Proof. intros Hn. unfold getnum. by rewrite getfixed_pad. Qed.

Lemma in_range_ok lo hi v : lo ≤ v ≤ hi → in_range lo hi v = Some ().
Proof. intros [??]. unfold in_range. by rewrite !(proj2 (Z.leb_le _ _)) by lia. Qed.

Lemma digit_run_digits ds rest v acc :
  digits_val acc ds = Some v → digit_run rest = O →
  digit_run (ds +:+ rest) = String.length ds.
Proof.
  revert acc. induction ds as [|c ds IH]; intros acc Hv Hr; simpl in *; [done|].
  destruct (is_digit c); [|done]. by rewrite (IH _ Hv Hr).
Qed.

(** What [frac_digits] writes: between one and [k] digits worth [n]. *)
Lemma frac_digits_spec k n :
  0 < n < 10 ^ Z.of_nat k →
  ∃ v, digits_val 0 (frac_digits k n) = Some v ∧
    (1 ≤ String.length (frac_digits k n) ≤ k)%nat ∧
    v * 10 ^ (Z.of_nat k - Z.of_nat (String.length (frac_digits k n))) = n.
Proof.
  revert n. induction k as [|k IH]; intros n Hn; [simpl in Hn; lia|].
  cbn [frac_digits]. destruct (Z.eqb_spec (n `mod` 10) 0) as [H0|H0].
  - rewrite Nat2Z.inj_succ, Z.pow_succ_r in Hn by lia.
    destruct (IH (n / 10)) as (v & Hv & Hl & He).
    { pose proof (Z.div_mod n 10). split; [lia|apply Z.div_lt_upper_bound; lia]. }
    exists v. split_and!; [done|lia|lia|].
    rewrite Nat2Z.inj_succ.
    replace (Z.succ (Z.of_nat k) - Z.of_nat (String.length (frac_digits k (n / 10))))
      with (Z.succ (Z.of_nat k - Z.of_nat (String.length (frac_digits k (n / 10))))) by lia.
    rewrite Z.pow_succ_r by lia. pose proof (Z.div_mod n 10). lia.
  - exists n. rewrite digits_val_pad, length_pad, Z.sub_diag by lia.
    split_and!; [f_equal; lia|lia|lia|lia].
Qed.

Lemma parse_frac_format ns rest c :
  0 ≤ ns < 10 ^ 9 → is_digit c = false → c ≠ "."%char → c ≠ ","%char →
  parse_frac (format_frac ns +:+ String c rest) = (ns, String c rest).
Proof.
  intros Hns Hc Hdot Hcomma. unfold format_frac. destruct (Z.eqb_spec ns 0) as [->|Hne].
  { simpl. rewrite !bool_decide_eq_false_2 by done. done. }
  destruct (frac_digits_spec 9 ns) as (v & Hv & Hl & He); [simpl; lia|].
  set (ds := frac_digits 9 ns) in *. cbn [String.append parse_frac].
  rewrite (digit_run_digits _ _ _ _ Hv) by (simpl; by rewrite Hc).
  rewrite bool_decide_eq_true_2 by done. rewrite (proj2 (Nat.ltb_lt _ _)) by lia.
  cbn [orb andb]. rewrite take_str_app, drop_str_app. f_equal.
  unfold parse_nanos. rewrite take_str_all, Hv by lia. exact He.
Qed.

Lemma skip_lit c rest : skip c (String c "" +:+ rest) = Some rest.
Proof. simpl. by rewrite bool_decide_eq_true_2. Qed.

(** Consume the next literal or field of a text whose fields are [pad]ded. *)
Ltac parse_field :=
  cbn [mbind option_bind];
  first [ rewrite skip_lit | rewrite getfixed_pad by (simpl; lia)
        | rewrite getnum_pad by lia | rewrite in_range_ok by lia ];
  cbn [mbind option_bind].

Theorem Parse_Format t y m d :
  loc t = UTC → 0 ≤ nsec t < 10 ^ 9 →
  civil_from_days (unixSec t / 86400) = (y, m, d) → 0 ≤ y ≤ 9999 →
  Parse (FormatRFC3339Nano t) = Some t.
Proof.
  intros Hloc Hns Hciv Hy.
  destruct (civil_from_days_ok _ _ _ _ Hciv) as (Hm & Hd & Hdays).
  assert (daysIn m y ≤ 31) as Hd31 by (unfold daysIn; repeat case_match; lia).
  unfold FormatRFC3339Nano, format_date, format_clock, Parse. rewrite Hciv.
  set (sod := unixSec t `mod` 86400).
  assert (0 ≤ sod < 86400) as Hsod by (apply Z.mod_pos_bound; lia).
  assert (0 ≤ sod / 3600 ≤ 23 ∧ 0 ≤ sod `mod` 3600 / 60 ≤ 59 ∧ 0 ≤ sod `mod` 60 ≤ 59 ∧
    sod / 3600 * 3600 + sod `mod` 3600 / 60 * 60 + sod `mod` 60 = sod) as (Hh & Hmi & Hs & Hsum)
    by (Z.to_euclidean_division_equations; lia).
  rewrite <- !str_app_assoc. repeat parse_field.
  rewrite parse_frac_format by (done || lia). cbn [parse_zone].
  rewrite !bool_decide_eq_true_2 by done. cbn [andb mbind option_bind]. f_equal.
  destruct t as [s ns l]. simpl in *. subst l. f_equal. rewrite Hdays.
  subst sod. pose proof (Z.div_mod s 86400). lia.
Qed.

(** Every instant [time.Unix (0, ns)] can name has a four-digit year, so its
    text always parses back. *)
Lemma Parse_Format_Unix0 ns :
  int64_min ≤ ns ≤ int64_max → Parse (FormatRFC3339Nano (Unix0 ns)) = Some (Unix0 ns).
Proof.
  unfold int64_min, int64_max. intros Hns.
  destruct (civil_from_days (unixSec (Unix0 ns) / 86400)) as [[y m] d] eqn:Hc.
  apply (Parse_Format _ y m d); [done|apply Z.mod_pos_bound; lia|done|].
  eapply civil_year_range, Hc. simpl. Z.to_euclidean_division_equations; lia.
Qed.

(** Instants are ordered as their nanosecond counts. *)
Lemma Before_Unix0 a b : Before (Unix0 a) (Unix0 b) = (a <? b).
Proof.
  unfold Before, Unix0. simpl.
  assert (∀ x, x = 10 ^ 9 * (x / 10 ^ 9) + x `mod` 10 ^ 9 ∧ 0 ≤ x `mod` 10 ^ 9 < 10 ^ 9) as Hx
    by (intros x; split; [apply Z.div_mod; lia|apply Z.mod_pos_bound; lia]).
  pose proof (Hx a). pose proof (Hx b).
  destruct (Z.ltb_spec (a / 10 ^ 9) (b / 10 ^ 9)), (Z.eqb_spec (a / 10 ^ 9) (b / 10 ^ 9)),
    (Z.ltb_spec (a `mod` 10 ^ 9) (b `mod` 10 ^ 9)), (Z.ltb_spec a b); simpl; try done; nia.
Qed.

(** [Before] is a strict order on instants, total up to the zone. *)
Lemma Before_irrefl t : Before t t = false.
Proof. unfold Before. by rewrite !Z.ltb_irrefl, andb_false_r. Qed.

Lemma Before_spec t u :
  Before t u = true ↔ unixSec t < unixSec u ∨ unixSec t = unixSec u ∧ nsec t < nsec u.
Proof. unfold Before. rewrite orb_true_iff, andb_true_iff, !Z.ltb_lt, Z.eqb_eq. done. Qed.

Lemma Before_false t u :
  Before t u = false ↔ unixSec u < unixSec t ∨ unixSec t = unixSec u ∧ nsec u ≤ nsec t.
Proof. rewrite <- not_true_iff_false, Before_spec. lia. Qed.
