(* ===== verification/GoRegexp.v ===== *)
(** Go's [regexp] package for the patterns of the registry: an abstract
    syntax, a backtracking matcher with the leftmost-first priorities of RE2
    (alternatives in order, greedy before lazy), and its soundness and
    completeness for the declarative reading [accepts] of a pattern. *)
From Stdlib Require Import Ascii.
From stdpp Require Import base strings list option numbers sets.
From S2P Require Import Prelude GoStrings.

Inductive re :=
  | REps
  | RChar (p : ascii → bool)
  | RSeq (r1 r2 : re)
  | RAlt (r1 r2 : re)
  | RStar (greedy : bool) (r : re)
  | RGroup (n : nat) (r : re)
  | RBol
  | REol.

(** Where a match stands: whether it is at the start of the text, the text
    that is left and the groups captured so far, the latest first. *)
Record mstate := MState { at_bol : bool; rest : string; caps : list (nat * string) }.

(** The text consumed between two states of a match. *)
Definition consumed (before after : string) : string :=
  take_str (String.length before - String.length after) before.

Definition capture (n : nat) (st st' : mstate) : mstate :=
  MState (at_bol st') (rest st') ((n, consumed (rest st) (rest st')) :: caps st').

(** ** The matcher

    [star_loop body greedy k fuel st] repeats [body] from [st] before it goes on
    with [k], or the other way round when it is lazy.  [rmatch r st k] tries the ways [r] can match at [st] in priority order and
    returns the first one the continuation [k] accepts.  A star repeats only
    while its body consumes text, at most once per byte that is left. *)
Definition star_loop {A} (body : mstate → (mstate → option A) → option A)
    (greedy : bool) (k : mstate → option A) : nat → mstate → option A :=
  fix loop (fuel : nat) (st : mstate) {struct fuel} : option A :=
    match fuel with
    | O => k st
    | S fuel =>
       let again := body st (λ st',
         if (String.length (rest st') <? String.length (rest st))%nat
         then loop fuel st' else None) in
       if greedy
       then match again with Some a => Some a | None => k st end
       else match k st with Some a => Some a | None => again end
    end.

Fixpoint rmatch {A} (r : re) (st : mstate) (k : mstate → option A) {struct r} : option A :=
  match r with
  | REps => k st
  | RChar p =>
     match rest st with
     | String c s => if p c then k (MState false s (caps st)) else None
     | EmptyString => None
     end
  | RSeq r1 r2 => rmatch r1 st (λ st', rmatch r2 st' k)
  | RAlt r1 r2 =>
     match rmatch r1 st k with
     | Some a => Some a
     | None => rmatch r2 st k
     end
  | RStar greedy r =>
     star_loop (rmatch r) greedy k (String.length (rest st)) st
  | RGroup n r => rmatch r st (λ st', k (capture n st st'))
  | RBol => if at_bol st then k st else None
  | REol => if bool_decide (rest st = "") then k st else None
  end.

(** ** Searching *)

(** The leftmost match of [r] in [s], from the start or later.  The result is
    the whole match, the captures and the text after the match. *)
Fixpoint search (r : re) (bol : bool) (s : string) : option (string * list (nat * string) * string) :=
  let here := rmatch r (MState bol s []) Some in
  match here with
  | Some st => Some (consumed s (rest st), caps st, rest st)
  | None =>
     match s with
     | EmptyString => None
     | String _ s => search r false s
     end
  end.

Definition group (n : nat) (cs : list (nat * string)) : string :=
  default "" (snd <$> find (λ c, (c.1 =? n)%nat) cs).

(** [re.FindStringSubmatch (s)] for a pattern with [ngroups] groups. *)
Definition FindStringSubmatch (r : re) (ngroups : nat) (s : string) : list string :=
  match search r true s with
  | Some (whole, cs, _) => whole :: ((λ n, group n cs) <$> seq 1 ngroups)
  | None => []
  end.

(** [re.FindAllString (s, -1)] for a pattern that matches no empty text: each
    round consumes a byte at least, so the length of [s] is enough fuel. *)
Fixpoint find_all (fuel : nat) (r : re) (bol : bool) (s : string) : list string :=
  match fuel with
  | O => []
  | S fuel =>
     match search r bol s with
     | Some (whole, _, s') => whole :: find_all fuel r false s'
     | None => []
     end
  end.
Definition FindAllString (r : re) (s : string) : list string :=
  find_all (String.length s) r true s.

(** ** Derived forms *)

Definition ROpt (r : re) : re := RAlt r REps.
Definition RPlus (r : re) : re := RSeq r (RStar true r).
(** [r{0,m}] and [r{n,m}]. *)
Fixpoint rep_upto (m : nat) (r : re) : re :=
  match m with
  | O => REps
  | S m => ROpt (RSeq r (rep_upto m r))
  end.
Fixpoint rep (n m : nat) (r : re) : re :=
  match n with
  | O => rep_upto m r
  | S n => RSeq r (rep n (m - 1) r)
  end.
Fixpoint lit (s : string) : re :=
  match s with
  | EmptyString => REps
  | String c s => RSeq (RChar (λ d, bool_decide (c = d))) (lit s)
  end.
Fixpoint alts (l : list string) : re :=
  match l with
  | [] => RChar (λ _, false)
  | [s] => lit s
  | s :: l => RAlt (lit s) (alts l)
  end.
(** [.] matches any byte but a newline. *)
Definition not_newline (c : ascii) : bool := bool_decide (c ≠ "010"%char).
Definition RDot : re := RChar not_newline.

(** ** The declarative reading *)

Inductive accepts : re → mstate → mstate → Prop :=
  | acc_eps st : accepts REps st st
  | acc_char p b c s cs : p c = true → accepts (RChar p) (MState b (String c s) cs) (MState false s cs)
  | acc_seq r1 r2 st st1 st2 : accepts r1 st st1 → accepts r2 st1 st2 → accepts (RSeq r1 r2) st st2
  | acc_alt_l r1 r2 st st' : accepts r1 st st' → accepts (RAlt r1 r2) st st'
  | acc_alt_r r1 r2 st st' : accepts r2 st st' → accepts (RAlt r1 r2) st st'
  | acc_star_nil g r st : accepts (RStar g r) st st
  | acc_star_more g r st st1 st2 :
     accepts r st st1 → String.length (rest st1) < String.length (rest st) →
     accepts (RStar g r) st1 st2 → accepts (RStar g r) st st2
  | acc_group n r st st' : accepts r st st' → accepts (RGroup n r) st (capture n st st')
  | acc_bol s cs : accepts RBol (MState true s cs) (MState true s cs)
  | acc_eol b cs : accepts REol (MState b "" cs) (MState b "" cs).
#[export] Hint Constructors accepts : registry.

Lemma rmatch_sound {A} r st (k : mstate → option A) a :
  rmatch r st k = Some a → ∃ st', accepts r st st' ∧ k st' = Some a.
Proof.
  revert st k a. induction r as [|p|r1 IH1 r2 IH2|r1 IH1 r2 IH2|g r IH|n r IH| |];
    intros [b s cs] k a H; simpl in H.
  - eauto with registry.
  - destruct s as [|c s]; [done|]. destruct (p c) eqn:Hp; [|done]. eauto with registry.
  - apply IH1 in H as (st1 & ? & H). apply IH2 in H as (st2 & ? & ?). eauto with registry.
  - destruct (rmatch r1 _ k) eqn:E; simplify_eq;
      [apply IH1 in E|apply IH2 in H]; naive_solver eauto with registry.
  - revert H. generalize (String.length s) as fuel. intros fuel.
    generalize (MState b s cs) as st. clear s b cs.
    induction fuel as [|fuel IHf]; intros st H; simpl in H; [eauto with registry|].
    destruct (rmatch r st _) as [a'|] eqn:E in H.
    + apply IH in E as (st1 & Hr & E).
      destruct (Nat.ltb_spec (String.length (rest st1)) (String.length (rest st))); [|done].
      destruct g; [simplify_eq|destruct (k st) eqn:?; simplify_eq];
        try destruct (IHf _ E) as (st2 & ? & ?); eauto with registry.
    + destruct g; [|destruct (k st) eqn:?; simplify_eq]; eauto with registry.
  - apply IH in H as (st1 & ? & ?). eauto with registry.
  - destruct b; [eauto with registry|done].
  - case_bool_decide; [subst; eauto with registry|done].
Qed.

(** Enough fuel for a star is the length of what is left; more does not hurt. *)
Definition star_total (r : re) (st st' : mstate) : Prop :=
  ∀ g r', r = RStar g r' → ∀ A (k : mstate → option A) a fuel,
    (String.length (rest st) ≤ fuel)%nat → k st' = Some a →
    is_Some (star_loop (rmatch r') g k fuel st).

Lemma star_nil_total {A} body g (k : mstate → option A) a fuel st :
  k st = Some a → is_Some (star_loop body g k fuel st).
Proof.
  intros Hk. destruct fuel; simpl; [rewrite Hk; eauto|].
  destruct g; [case_match; eauto|by rewrite Hk; eauto].
Qed.

Lemma star_more_total {A} body g (k : mstate → option A) fuel st st1 :
  (∀ k' a, k' st1 = Some a → is_Some (body st k')) →
  (String.length (rest st1) < String.length (rest st) ≤ fuel)%nat →
  (∀ fuel', (String.length (rest st1) ≤ fuel')%nat → is_Some (star_loop body g k fuel' st1)) →
  is_Some (star_loop body g k fuel st).
Proof.
  intros Hbody Hlt Hrec. destruct fuel as [|fuel]; [lia|]. simpl.
  destruct (Hrec fuel ltac:(lia)) as [x Hx].
  edestruct (Hbody (λ st', if (String.length (rest st') <? String.length (rest st))%nat
    then star_loop body g k fuel st' else None)) as [y Hy].
  { simpl. rewrite (proj2 (Nat.ltb_lt _ _)) by lia. exact Hx. }
  rewrite Hy. destruct g; [eauto|]. case_match; eauto.
Qed.

Lemma rmatch_complete_aux r st st' :
  accepts r st st' →
  (∀ A (k : mstate → option A) a, k st' = Some a → is_Some (rmatch r st k)) ∧ star_total r st st'.
Proof.
  induction 1 as [|? ? ? ? ? Hp|r1 r2 st st1 st2 _ [IH1 _] _ [IH2 _]|r1 r2 st st' _ [IH _]
    |r1 r2 st st' _ [IH _]|g r st|g r st st1 st2 _ [IH1 _] Hlt _ [_ IH2]|n r st st' _ [IH _]| |];
    (split; [intros A k a Hk; simpl|try by intros ?? [=]]); eauto.
  - rewrite Hp. eauto.
  - destruct (IH2 A k a Hk) as [x Hx]. eauto.
  - destruct (IH A k a Hk) as [x ->]. eauto.
  - destruct (IH A k a Hk) as [x Hx]. destruct (rmatch r1 st k); eauto.
  - by eapply star_nil_total.
  - intros ?? [= <- <-] ??????. by eapply star_nil_total.
  - eapply star_more_total; [intros; by eapply IH1|split; [exact Hlt|done]|].
    intros. by eapply IH2.
  - intros ?? [= <- <-] ??????.
    eapply star_more_total; [intros; by eapply IH1|split; [exact Hlt|done]|].
    intros. by eapply IH2.
Qed.

Lemma rmatch_complete {A} r st st' (k : mstate → option A) a :
  accepts r st st' → k st' = Some a → is_Some (rmatch r st k).
Proof. intros H. destruct (rmatch_complete_aux _ _ _ H) as [Hk _]. eauto. Qed.

(** ** Patterns without groups read a text and touch nothing else *)

Fixpoint all_chars (p : ascii → bool) (s : string) : bool :=
  match s with
  | EmptyString => true
  | String c s => p c && all_chars p s
  end.

Definition reads (L : string → Prop) (st st' : mstate) : Prop :=
  ∃ t, L t ∧ rest st = t +:+ rest st' ∧ caps st' = caps st ∧
    at_bol st' = at_bol st && bool_decide (t = "").

Lemma consumed_app t s : consumed (t +:+ s) s = t.
Proof.
  unfold consumed. rewrite str_length_app.
  replace (String.length t + String.length s - String.length s)%nat with (String.length t) by lia.
  apply take_str_app.
Qed.

Lemma reads_intro (L : string → Prop) b t s cs :
  L t → t ≠ "" ∨ b = false → reads L (MState b (t +:+ s) cs) (MState false s cs).
Proof.
  intros HL Hb. exists t. split_and!; [done..|]. simpl.
  destruct Hb as [Hb| ->]; [|done]. by rewrite bool_decide_eq_false_2, andb_false_r.
Qed.

Lemma reads_refl (L : string → Prop) st : L "" → reads L st st.
Proof. exists "". rewrite bool_decide_eq_true_2, andb_true_r by done. done. Qed.

Lemma reads_seq (L1 L2 L : string → Prop) st st1 st2 :
  (∀ a b, L1 a → L2 b → L (a +:+ b)) →
  reads L1 st st1 → reads L2 st1 st2 → reads L st st2.
Proof.
  intros HL (a & Ha & Hs1 & Hc1 & Hb1) (b & Hb & Hs2 & Hc2 & Hb2).
  exists (a +:+ b). split_and!; [auto|by rewrite Hs1, Hs2, str_app_assoc|congruence|].
  rewrite Hb2, Hb1. destruct a; [by destruct (at_bol st)|].
  rewrite (bool_decide_eq_false_2 (String _ _ = "")), (bool_decide_eq_false_2 (_ +:+ _ = "")) by done.
  by rewrite andb_false_r.
Qed.

Lemma reads_mono (L L' : string → Prop) st st' : (∀ t, L t → L' t) → reads L st st' → reads L' st st'.
Proof. intros HL (t & ? & ?). exists t. eauto. Qed.

Lemma accepts_char p st st' :
  accepts (RChar p) st st' ↔ reads (λ t, ∃ c, p c = true ∧ t = String c "") st st'.
Proof.
  split.
  - inversion 1; subst. exists (String c ""). rewrite bool_decide_eq_false_2, andb_false_r by done.
    naive_solver.
  - destruct st as [b s cs], st' as [b' s' cs']. intros (t & (c & Hp & ->) & Hs & Hc & Hb).
    rewrite bool_decide_eq_false_2, andb_false_r in Hb by done. simpl in *. subst. by constructor.
Qed.

Lemma accepts_seq r1 r2 st st2 :
  accepts (RSeq r1 r2) st st2 ↔ ∃ st1, accepts r1 st st1 ∧ accepts r2 st1 st2.
Proof. split; [inversion 1; eauto|intros (? & ? & ?); econstructor; eauto]. Qed.

Lemma accepts_alt r1 r2 st st' :
  accepts (RAlt r1 r2) st st' ↔ accepts r1 st st' ∨ accepts r2 st st'.
Proof. split; [inversion 1; auto|intros [?|?]; auto with registry]. Qed.

Lemma accepts_eps st st' : accepts REps st st' ↔ st' = st.
Proof. split; [by inversion 1|intros ->; constructor]. Qed.

Lemma accepts_group n r st st' :
  accepts (RGroup n r) st st' ↔ ∃ st1, accepts r st st1 ∧ st' = capture n st st1.
Proof. split; [inversion 1; eauto|intros (? & ? & ->); by constructor]. Qed.

Lemma accepts_bol st st' : accepts RBol st st' ↔ at_bol st = true ∧ st' = st.
Proof. split; [by inversion 1|]. destruct st. simpl. intros [-> ->]. constructor. Qed.

Lemma accepts_eol st st' : accepts REol st st' ↔ rest st = "" ∧ st' = st.
Proof. split; [by inversion 1|]. destruct st. simpl. intros [-> ->]. constructor. Qed.

(** What [st] looks like after it read [t]. *)
Definition advance (t s : string) (st : mstate) : mstate :=
  MState (at_bol st && bool_decide (t = "")) s (caps st).

Lemma accepts_lit w st st' : accepts (lit w) st st' ↔ reads (λ t, t = w) st st'.
Proof.
  revert st. induction w as [|c w IH]; intros st; simpl.
  - rewrite accepts_eps. split; [intros ->; by apply reads_refl|].
    intros (t & -> & Hs & Hc & Hb). rewrite bool_decide_eq_true_2, andb_true_r in Hb by done.
    destruct st, st'; simpl in *; congruence.
  - rewrite accepts_seq. setoid_rewrite accepts_char. setoid_rewrite IH. split.
    + intros (st1 & H1 & H2). eapply reads_seq; [|exact H1|exact H2].
      intros a b (d & Hd & ->) ->. apply bool_decide_eq_true in Hd. by subst.
    + intros (t & -> & Hs & Hc & Hb). exists (MState false (w +:+ rest st') (caps st)). split.
      * exists (String c ""). rewrite bool_decide_eq_false_2, andb_false_r by done.
        split_and!; [exists c; by rewrite bool_decide_eq_true_2|done..].
      * exists w. rewrite bool_decide_eq_false_2, andb_false_r in Hb by done. done.
Qed.

Lemma accepts_alts l st st' :
  l ≠ [] → accepts (alts l) st st' ↔ reads (λ t, t ∈ l) st st'.
Proof.
  induction l as [|w [|w' l] IH]; intros Hne; [done|..]; cbn [alts].
  - rewrite accepts_lit. split; apply reads_mono; set_solver.
  - rewrite accepts_alt, accepts_lit, IH by done. split.
    + intros [H|H]; (eapply reads_mono; [|exact H]); set_solver.
    + intros (t & Ht & H). apply elem_of_cons in Ht as [->|Ht]; [left|right]; eexists; eauto.
Qed.

Lemma accepts_star g p st st' :
  accepts (RStar g (RChar p)) st st' ↔ reads (λ t, all_chars p t = true) st st'.
Proof.
  split.
  - remember (RStar g (RChar p)) as r eqn:Hr. induction 1; simplify_eq; [by apply reads_refl|].
    eapply reads_seq; [|by apply accepts_char|by auto].
    intros a b (c & Hc & ->) Hb. simpl. by rewrite Hc.
  - intros (t & Ht & Hs & Hc & Hb). revert st Hs Hc Hb.
    induction t as [|c t IH]; intros st Hs Hc Hb.
    + rewrite bool_decide_eq_true_2, andb_true_r in Hb by done.
      destruct st, st'; simpl in *; subst; constructor.
    + simpl in Ht, Hs. apply andb_prop in Ht as [Hp Ht].
      rewrite bool_decide_eq_false_2, andb_false_r in Hb by done.
      destruct st as [b s cs]. simpl in *. subst.
      eapply acc_star_more; [by constructor|simpl; lia|].
      by apply IH; simpl.
Qed.

Lemma accepts_rep_upto m p st st' :
  accepts (rep_upto m (RChar p)) st st' ↔
  reads (λ t, all_chars p t = true ∧ (String.length t ≤ m)%nat) st st'.
Proof.
  revert st. induction m as [|m IH]; intros st; simpl.
  - change REps with (lit ""). rewrite accepts_lit.
    split; apply reads_mono; [intros t ->; auto|intros [] [??]; simpl in *; [done|lia]].
  - unfold ROpt. rewrite accepts_alt, accepts_seq. setoid_rewrite IH. setoid_rewrite accepts_char.
    change REps with (lit ""). rewrite accepts_lit. split.
    + intros [(st1 & H1 & H2)|H].
      * eapply reads_seq; [|exact H1|exact H2]. intros a b (c & Hc & ->) [? ?]. simpl.
        rewrite Hc. split; [done|lia].
      * eapply reads_mono; [|exact H]. intros t ->. simpl. auto with lia.
    + intros (t & [Ht Hl] & Hs & Hc & Hb). destruct t as [|c t]; [right; by exists ""|left].
      rewrite bool_decide_eq_false_2, andb_false_r in Hb by done.
      simpl in *. apply andb_prop in Ht as [Hp Ht].
      exists (MState false (t +:+ rest st') (caps st)). split.
      * exists (String c ""). rewrite bool_decide_eq_false_2, andb_false_r by done. naive_solver.
      * exists t. split_and!; [done|lia|done..].
Qed.

Lemma accepts_rep n m p st st' :
  n ≤ m →
  accepts (rep n m (RChar p)) st st' ↔
  reads (λ t, all_chars p t = true ∧ (n ≤ String.length t ≤ m)%nat) st st'.
Proof.
  revert m st. induction n as [|n IH]; intros m st Hnm; cbn [rep].
  - rewrite accepts_rep_upto. split; apply reads_mono; intros t; lia || naive_solver lia.
  - rewrite accepts_seq. setoid_rewrite IH; [|lia]. setoid_rewrite accepts_char. split.
    + intros (st1 & H1 & H2). eapply reads_seq; [|exact H1|exact H2].
      intros a b (c & Hc & ->) [? ?]. simpl. rewrite Hc. split; [done|lia].
    + intros (t & [Ht Hl] & Hs & Hc & Hb). destruct t as [|c t]; [simpl in *; lia|].
      rewrite bool_decide_eq_false_2, andb_false_r in Hb by done.
      simpl in *. apply andb_prop in Ht as [Hp Ht].
      exists (MState false (t +:+ rest st') (caps st)). split.
      * exists (String c ""). rewrite bool_decide_eq_false_2, andb_false_r by done. naive_solver.
      * exists t. split_and!; [done|lia|lia|done..].
Qed.

(** ** Which match has priority *)

(** A greedy star of a byte class takes the longest run first. *)
Lemma star_loop_longest {A} p (k : mstate → option A) t s b cs x fuel :
  all_chars p t = true → (∀ c s', s = String c s' → p c = false) →
  (String.length (t +:+ s) ≤ fuel)%nat →
  k (MState (b && bool_decide (t = "")) s cs) = Some x →
  star_loop (rmatch (RChar p)) true k fuel (MState b (t +:+ s) cs) = Some x.
Proof.
  revert b fuel. induction t as [|c t IH]; intros b fuel Ht Hs Hf Hk; simpl in *.
  - rewrite andb_true_r in Hk. destruct fuel; simpl; [done|].
    destruct s as [|c s]; [done|]. by rewrite (Hs c s).
  - apply andb_prop in Ht as [Hc Ht]. destruct fuel as [|fuel]; [lia|]. simpl.
    rewrite Hc, (proj2 (Nat.ltb_lt _ _)) by lia.
    rewrite (IH false fuel); auto with lia. by rewrite andb_false_r in Hk.
Qed.

Lemma rmatch_star_longest {A} p (k : mstate → option A) t s b cs x :
  all_chars p t = true → (∀ c s', s = String c s' → p c = false) →
  k (MState (b && bool_decide (t = "")) s cs) = Some x →
  rmatch (RStar true (RChar p)) (MState b (t +:+ s) cs) k = Some x.
Proof. intros. by apply star_loop_longest. Qed.

Lemma rmatch_plus_longest {A} p (k : mstate → option A) t s b cs x :
  all_chars p t = true → t ≠ "" → (∀ c s', s = String c s' → p c = false) →
  k (MState false s cs) = Some x →
  rmatch (RPlus (RChar p)) (MState b (t +:+ s) cs) k = Some x.
Proof.
  intros Ht Hne Hs Hk. destruct t as [|c t]; [done|]. simpl in Ht.
  apply andb_prop in Ht as [Hc Ht]. unfold RPlus. cbn [rmatch rest String.append caps].
  rewrite Hc. apply rmatch_star_longest; auto.
Qed.

(** A literal has one way to match. *)
Lemma rmatch_lit {A} w st (k : mstate → option A) :
  rmatch (lit w) st k =
    if HasPrefix (rest st) w
    then k (MState (at_bol st && bool_decide (w = "")) (drop_str (String.length w) (rest st)) (caps st))
    else None.
Proof.
  revert st. induction w as [|c w IH]; intros [b s cs]; cbn [lit rmatch rest at_bol caps].
  - simpl. by rewrite andb_true_r.
  - destruct s as [|d s]; [done|]. simpl. destruct (bool_decide (c = d)); simpl; [|done].
    rewrite IH. simpl. by destruct b.
Qed.

(** A lazy star of a byte class in front of a byte takes the shortest run
    that ends there. *)
Lemma star_loop_shortest (p : ascii → bool) d t s b cs fuel :
  all_chars (λ c, p c && negb (bool_decide (d = c))) t = true →
  (String.length t ≤ fuel)%nat →
  star_loop (rmatch (RChar p)) false (λ st', rmatch (lit (String d "")) st' Some) fuel
    (MState b (t +:+ String d s) cs) = Some (MState false s cs).
Proof.
  revert b fuel. induction t as [|c t IH]; intros b fuel Ht Hf; cbn [String.append].
  - destruct fuel; cbn [star_loop]; rewrite rmatch_lit; cbn; by rewrite bool_decide_eq_true_2, ?andb_false_r.
  - simpl in Ht. apply andb_prop in Ht as [Hc Ht]. apply andb_prop in Hc as [Hp Hd].
    simpl in Hf. destruct fuel as [|fuel]; [lia|]. cbn [star_loop]. rewrite rmatch_lit. cbn [rest HasPrefix].
    apply negb_true_iff in Hd. rewrite Hd. cbn [andb rmatch rest caps]. rewrite Hp. cbn [rest].
    rewrite (proj2 (Nat.ltb_lt _ _)) by (simpl; lia). exact (IH false fuel Ht ltac:(lia)).
Qed.

Lemma rmatch_bracketed (p : ascii → bool) o d t s b cs :
  all_chars (λ c, p c && negb (bool_decide (d = c))) t = true →
  rmatch (RSeq (lit (String o "")) (RSeq (RStar false (RChar p)) (lit (String d ""))))
    (MState b (String o (t +:+ String d s)) cs) Some = Some (MState false s cs).
Proof.
  intros Ht. set (r := RSeq _ (lit (String d ""))). cbn [rmatch]. rewrite rmatch_lit. cbn [rest HasPrefix].
  rewrite bool_decide_eq_true_2 by done. cbn. apply star_loop_shortest; [done|]. rewrite str_length_app. lia.
Qed.

Lemma search_here r b s st :
  rmatch r (MState b s []) Some = Some st →
  search r b s = Some (consumed s (rest st), caps st, rest st).
Proof. intros H. destruct s; cbn [search]; by rewrite H. Qed.

(** A search that succeeds did so at some position. *)
Lemma search_inv r b s whole cs s' :
  search r b s = Some (whole, cs, s') →
  ∃ b' t st, rmatch r (MState b' t []) Some = Some st ∧ caps st = cs ∧ rest st = s'.
Proof.
  revert b. induction s as [|c s IH]; intros b; cbn [search];
    (destruct (rmatch r (MState b _ []) Some) as [st|] eqn:E; [|try done]).
  - intros. simplify_eq. eauto 10.
  - intros. simplify_eq. eauto 10.
  - apply IH.
Qed.
