(* ===== verification/Encoding.v ===== *)
(** pkg/apiserver/web/encoding.go: cluster short names and standard names. *)
From Stdlib Require Import Ascii.
From stdpp Require Import base strings list option numbers sets.
From S2P Require Import Prelude GoStrings GoRegexp.

Definition environments : list string := ["sbx"; "thrash"; "dev"; "stage"; "prod"].

(** [(^[a-z]{2,10}[0-9]{1,5})(sbx|thrash|dev|stage|prod)(.*$)] *)
Definition dashNameRe : re :=
  RSeq (RGroup 1 (RSeq RBol (RSeq (rep 2 10 (RChar is_lower)) (rep 1 5 (RChar is_digit)))))
    (RSeq (RGroup 2 (alts environments)) (RGroup 3 (RSeq (RStar true RDot) REol))).

Definition GetClusterDashName (shortName : string) : string * error :=
  let result := FindStringSubmatch dashNameRe 3 shortName in
  match result with
  | _ :: r1 :: r2 :: r3 :: _ => (r1 +:+ "-" +:+ r2 +:+ "-" +:+ r3, nil_error)
  | _ => ("", errorf ("Cannot convert shortName " +:+ shortName +:+ " to standard name"))
  end.

(** A standard name's parts: letters, digits, an environment, the rest. *)
Record name_parts (a ds e c : string) : Prop := {
  np_letters : all_chars is_lower a = true ∧ (2 ≤ String.length a ≤ 10)%nat;
  np_digits : all_chars is_digit ds = true ∧ (1 ≤ String.length ds ≤ 5)%nat;
  np_env : e ∈ environments;
  np_rest : all_chars not_newline c = true }.

Example dash_name_example :
  GetClusterDashName "cluster01produseast1" = ("cluster01-prod-useast1", None).
Proof. reflexivity. Qed.

(** A run of [p]-bytes followed by a byte outside [p] is determined. *)
Lemma run_unique p a b s t :
  all_chars p a = true → all_chars p b = true →
  (∀ c s', s = String c s' → p c = false) → (∀ c s', t = String c s' → p c = false) →
  a +:+ s = b +:+ t → a = b ∧ s = t.
Proof.
  revert b. induction a as [|x a IH]; intros [|y b] Ha Hb Hs Ht H; simpl in *; [done|..].
  - apply andb_prop in Hb as [Hy _]. by rewrite (Hs y (b +:+ t)) in Hy.
  - apply andb_prop in Ha as [Hx _]. by rewrite (Ht x (a +:+ s)) in Hx.
  - apply andb_prop in Ha as [_ Ha], Hb as [_ Hb]. simplify_eq.
    destruct (IH b) as [-> ->]; auto.
Qed.

Lemma env_unique e1 e2 c1 c2 :
  e1 ∈ environments → e2 ∈ environments → e1 +:+ c1 = e2 +:+ c2 → e1 = e2 ∧ c1 = c2.
Proof.
  unfold environments. rewrite !elem_of_cons, !elem_of_nil. intros H1 H2 H.
  destruct_or! H1; destruct_or! H2; subst; try done; simplify_eq/=; done.
Qed.

Lemma env_head e c : e ∈ environments →
  ∃ x s, e +:+ c = String x s ∧ is_digit x = false ∧ is_lower x = true.
Proof.
  unfold environments. rewrite !elem_of_cons, !elem_of_nil. intros H.
  destruct_or! H; subst; try done; simpl; eauto.
Qed.

Lemma digit_not_lower x : is_digit x = true → is_lower x = false.
Proof.
  unfold is_digit, is_lower. intros [H1%Z.leb_le H2%Z.leb_le]%andb_prop.
  rewrite (proj2 (Z.leb_gt _ _)) by lia. done.
Qed.

Lemma name_parts_unique a ds e c a' ds' e' c' :
  name_parts a ds e c → name_parts a' ds' e' c' →
  a +:+ ds +:+ e +:+ c = a' +:+ ds' +:+ e' +:+ c' → a = a' ∧ ds = ds' ∧ e = e' ∧ c = c'.
Proof.
  assert (∀ ds s, all_chars is_digit ds = true ∧ (1 ≤ String.length ds ≤ 5)%nat →
    ∀ x s', ds +:+ s = String x s' → is_lower x = false) as Hhd.
  { intros [|d ds0] s [H ?] x s' Heq; simpl in *; [lia|]. simplify_eq.
    apply andb_prop in H as [? _]. by apply digit_not_lower. }
  intros [[? ?] Hd He _] [[? ?] Hd' He' _] Heq.
  apply (run_unique is_lower) in Heq as [-> Heq]; eauto using Hhd.
  apply (run_unique is_digit) in Heq as [-> Heq]; [|by destruct Hd|by destruct Hd'|..].
  - apply env_unique in Heq as [-> ->]; done.
  - destruct (env_head e c He) as (x & s & Hx & ? & _). rewrite Hx. intros; by simplify_eq.
  - destruct (env_head e' c' He') as (x & s & Hx & ? & _). rewrite Hx. intros; by simplify_eq.
Qed.

(** What the pattern accepts from the start of the text. *)
Lemma dashNameRe_accepts s st :
  accepts dashNameRe (MState true s []) st ↔
  ∃ a ds e c, name_parts a ds e c ∧ s = a +:+ ds +:+ e +:+ c ∧
    st = MState false "" [(3, c); (2, e); (1, a +:+ ds)].
Proof.
  unfold dashNameRe.
  rewrite accepts_seq. setoid_rewrite accepts_seq. setoid_rewrite accepts_group.
  setoid_rewrite accepts_seq. setoid_rewrite accepts_bol. setoid_rewrite accepts_seq.
  setoid_rewrite accepts_eol. setoid_rewrite accepts_star.
  setoid_rewrite (accepts_rep 2 10); [|lia]. setoid_rewrite (accepts_rep 1 5); [|lia].
  setoid_rewrite accepts_alts; [|done]. split.
  - intros (? & (? & (? & [_ ->] & ? & (a & Ha & Hs & Hc & Hb) & (ds & Hd & Hs1 & Hc1 & Hb1)) & ->) &
      ? & (? & (e & He & Hs2 & Hc2 & Hb2) & ->) & ? & (? & (c & Hc' & Hs3 & Hc3 & Hb3) & Hs4 & ->) & ->).
    simpl in *. exists a, ds, e, c.
    rewrite Hs4, str_app_nil_r in Hs3. rewrite Hs3 in Hs2. rewrite Hs2 in Hs1.
    rewrite Hs1 in Hs. split_and!; [by split|done|].
    unfold capture. simpl. rewrite Hc3, Hc2, Hc1, Hc, Hs4, Hb3, Hb2, Hb1, Hb, Hs2, Hs3.
    f_equal; [by destruct a; [simpl in Ha; lia|]|].
    rewrite Hs, consumed_app, str_app_assoc, consumed_app.
    unfold consumed. simpl. by rewrite Nat.sub_0_r, take_str_all by lia.
  - intros (a & ds & e & c & [Ha Hd He Hc] & -> & ->).
    exists (MState false (e +:+ c) [(1, a +:+ ds)]). split.
    { exists (MState false (e +:+ c) []). unfold capture. simpl.
      rewrite str_app_assoc, consumed_app. split; [|done].
      exists (MState true (a +:+ ds +:+ e +:+ c) []). rewrite str_app_assoc. split; [done|].
      exists (MState false (ds +:+ e +:+ c) []). rewrite <- str_app_assoc.
      split; apply reads_intro; auto. left. destruct a; [simpl in *; lia|done]. }
    exists (MState false c [(2, e); (1, a +:+ ds)]). split.
    { exists (MState false c [(1, a +:+ ds)]). unfold capture. simpl.
      rewrite consumed_app. split; [|done]. apply reads_intro; auto. }
    exists (MState false "" [(2, e); (1, a +:+ ds)]). split.
    { exists (MState false "" [(2, e); (1, a +:+ ds)]). split; [|done].
      rewrite <- (str_app_nil_r c). apply reads_intro; auto. }
    unfold capture, consumed. simpl. by rewrite Nat.sub_0_r, take_str_all by lia.
Qed.

Lemma dashNameRe_needs_bol s : search dashNameRe false s = None.
Proof.
  induction s as [|x s IH]; [done|]. cbn [search].
  destruct (rmatch dashNameRe (MState false (String x s) []) Some) as [st|] eqn:E; [|done].
  apply rmatch_sound in E as (st' & H & _). exfalso. unfold dashNameRe in H.
  apply accepts_seq in H as (? & (? & H & _)%accepts_group & _).
  apply accepts_seq in H as (? & [H _]%accepts_bol & _). done.
Qed.

Lemma search_dashName a ds e c :
  name_parts a ds e c →
  search dashNameRe true (a +:+ ds +:+ e +:+ c) =
    Some (a +:+ ds +:+ e +:+ c, [(3, c); (2, e); (1, a +:+ ds)], "").
Proof.
  intros Hn. set (s := a +:+ ds +:+ e +:+ c).
  assert (is_Some (rmatch dashNameRe (MState true s []) Some)) as [st Hst].
  { eapply (rmatch_complete _ _ (MState false "" [(3, c); (2, e); (1, a +:+ ds)])); [|done].
    apply dashNameRe_accepts. eauto 10. }
  assert (search dashNameRe true s = Some (consumed s (rest st), caps st, rest st)) as ->
    by (destruct s; cbn [search]; by rewrite Hst).
  apply rmatch_sound in Hst as (st' & Hacc & [= <-]).
  apply dashNameRe_accepts in Hacc as (a' & ds' & e' & c' & Hn' & Hs & ->).
  destruct (name_parts_unique _ _ _ _ _ _ _ _ Hn Hn' Hs) as (-> & -> & -> & ->).
  unfold consumed. simpl. by rewrite Nat.sub_0_r, take_str_all.
Qed.

(** C25: A short name converts exactly when it is letters, digits, an
    environment and a rest without newline, and the result puts a dash on each
    side of the environment; every other name is an error. *)
Theorem GetClusterDashName_spec s n :
  GetClusterDashName s = (n, nil_error) ↔
  ∃ a ds e c, name_parts a ds e c ∧ s = a +:+ ds +:+ e +:+ c ∧
    n = a +:+ ds +:+ "-" +:+ e +:+ "-" +:+ c.
Proof.
  unfold GetClusterDashName, FindStringSubmatch. split.
  - destruct (search dashNameRe true s) as [[[w cs] r]|] eqn:E; [|done].
    assert (∃ a ds e c, name_parts a ds e c ∧ s = a +:+ ds +:+ e +:+ c) as
      (a & ds & e & c & Hn & ->).
    { destruct (rmatch dashNameRe (MState true s []) Some) as [st|] eqn:Em.
      - apply rmatch_sound in Em as (st' & Hacc & _).
        apply dashNameRe_accepts in Hacc as (a & ds & e & c & ? & ? & _). eauto 10.
      - destruct s; cbn [search] in E; rewrite Em in E; [done|].
        by rewrite dashNameRe_needs_bol in E. }
    rewrite search_dashName in E by done. simplify_eq. cbn.
    intros [= <-]. exists a, ds, e, c. by rewrite <- !str_app_assoc.
  - intros (a & ds & e & c & Hn & -> & ->). rewrite search_dashName by done. cbn.
    by rewrite <- !str_app_assoc.
Qed.
