(* ===== verification/Registry.v ===== *)
(** The data of the registry: pkg/api/registry/v1/cluster_types.go.

    A Go slice or map whose nilness the program never tests is a [list] or a
    [gmap]; the maps it tests ([Tags], [ServiceMetadata], the annotations) are
    [gomap]s, where [None] is nil.  An [int] is a [Z].  Of Kubernetes'
    [ObjectMeta] the record has the fields the registry reads or writes. *)
From stdpp Require Import base gmap strings list option numbers.
From S2P Require Import Prelude.

Record APIServerInfo := mkAPIServer { Endpoint : string; CertificateAuthorityData : string }.

Definition Offering : Type := string.

Record AllowedOnboardingTeam := mkTeam {
  team_Name : string; GitTeams : list string; LdapGroups : list string }.

Record Extra := mkExtra {
  DomainName : string;
  LbEndpoints : gmap string string;
  LoggingEndpoints : list (gmap string string);
  EcrIamArns : gmap string (list string);
  EgressPorts : string;
  NFSInfo : list (gmap string string);
  ExtendedRegion : string;
  OidcIssuer : string;
  NamespaceProfileInfraType : string }.

Record Tier := mkTier {
  tier_Name : string;
  InstanceType : string;
  ContainerRuntime : string;
  MinCapacity : Z;
  MaxCapacity : Z;
  Labels : gmap string string;
  Taints : list string;
  EnableKataSupport : bool;
  KernelParameters : gmap string string }.

Record VirtualNetwork := mkVNet { vnet_ID : string; vnet_Cidrs : list string }.

Record PeerVirtualNetwork := mkPeer {
  peer_ID : string; peer_Cidrs : list string; OwnerID : string }.

Record Capacity := mkCapacity {
  cap_LastUpdated : string;
  ClusterCapacity : Z;
  ClusterProvisioning : Z;
  MaxBQUPerRequest : Z;
  ClusterMaxBQU : Z;
  ClusterCurrentBQU : Z }.

(** [ServiceMetadataMap] and [ServiceMetadataItem]. *)
Abbreviation ServiceMetadataMap := (gmap string string).
Abbreviation ServiceMetadataItem := (gmap string (gmap string string)).

Record AvailabilityZone := mkAZ { az_Name : string; az_ID : string }.

Record ClusterSpec := mkSpec {
  Name : string;
  ShortName : string;
  APIServer : APIServerInfo;
  Region : string;
  CloudType : string;
  CloudProviderRegion : string;
  Environment : string;
  BusinessUnit : string;
  ChargebackBusinessUnit : string;
  ChargedBack : option bool;
  ManagingOrg : string;
  Offerings : list Offering;
  AccountID : string;
  Tiers : list Tier;
  VirtualNetworks : list VirtualNetwork;
  RegisteredAt : string;
  Status : string;
  Phase : string;
  MaintenanceGroup : string;
  ArgoInstance : string;
  Type_ : string;
  ExtraInfo : Extra;
  AllowedOnboardingTeams : list AllowedOnboardingTeam;
  Capabilities : list string;
  PeerVirtualNetworks : list PeerVirtualNetwork;
  LastUpdated : string;
  Tags : gomap string;
  CapacityInfo : Capacity;
  ServiceMetadata : gomap ServiceMetadataItem;
  AvailabilityZones : list AvailabilityZone }.

Definition set_ShortName (v : string) (s : ClusterSpec) : ClusterSpec :=
  let 'mkSpec n _ api rg ct cpr env bu cbu cb mo off acc tr vn ra st ph mg ai ty ex aot cap pvn lu tg cy sm az := s in
  mkSpec n v api rg ct cpr env bu cbu cb mo off acc tr vn ra st ph mg ai ty ex aot cap pvn lu tg cy sm az.
Definition set_APIServer (v : APIServerInfo) (s : ClusterSpec) : ClusterSpec :=
  let 'mkSpec n sn _ rg ct cpr env bu cbu cb mo off acc tr vn ra st ph mg ai ty ex aot cap pvn lu tg cy sm az := s in
  mkSpec n sn v rg ct cpr env bu cbu cb mo off acc tr vn ra st ph mg ai ty ex aot cap pvn lu tg cy sm az.
Definition set_Region (v : string) (s : ClusterSpec) : ClusterSpec :=
  let 'mkSpec n sn api _ ct cpr env bu cbu cb mo off acc tr vn ra st ph mg ai ty ex aot cap pvn lu tg cy sm az := s in
  mkSpec n sn api v ct cpr env bu cbu cb mo off acc tr vn ra st ph mg ai ty ex aot cap pvn lu tg cy sm az.
Definition set_CloudType (v : string) (s : ClusterSpec) : ClusterSpec :=
  let 'mkSpec n sn api rg _ cpr env bu cbu cb mo off acc tr vn ra st ph mg ai ty ex aot cap pvn lu tg cy sm az := s in
  mkSpec n sn api rg v cpr env bu cbu cb mo off acc tr vn ra st ph mg ai ty ex aot cap pvn lu tg cy sm az.
Definition set_CloudProviderRegion (v : string) (s : ClusterSpec) : ClusterSpec :=
  let 'mkSpec n sn api rg ct _ env bu cbu cb mo off acc tr vn ra st ph mg ai ty ex aot cap pvn lu tg cy sm az := s in
  mkSpec n sn api rg ct v env bu cbu cb mo off acc tr vn ra st ph mg ai ty ex aot cap pvn lu tg cy sm az.
Definition set_Environment (v : string) (s : ClusterSpec) : ClusterSpec :=
  let 'mkSpec n sn api rg ct cpr _ bu cbu cb mo off acc tr vn ra st ph mg ai ty ex aot cap pvn lu tg cy sm az := s in
  mkSpec n sn api rg ct cpr v bu cbu cb mo off acc tr vn ra st ph mg ai ty ex aot cap pvn lu tg cy sm az.
Definition set_AccountID (v : string) (s : ClusterSpec) : ClusterSpec :=
  let 'mkSpec n sn api rg ct cpr env bu cbu cb mo off _ tr vn ra st ph mg ai ty ex aot cap pvn lu tg cy sm az := s in
  mkSpec n sn api rg ct cpr env bu cbu cb mo off v tr vn ra st ph mg ai ty ex aot cap pvn lu tg cy sm az.
Definition set_Tiers (v : list Tier) (s : ClusterSpec) : ClusterSpec :=
  let 'mkSpec n sn api rg ct cpr env bu cbu cb mo off acc _ vn ra st ph mg ai ty ex aot cap pvn lu tg cy sm az := s in
  mkSpec n sn api rg ct cpr env bu cbu cb mo off acc v vn ra st ph mg ai ty ex aot cap pvn lu tg cy sm az.
Definition set_VirtualNetworks (v : list VirtualNetwork) (s : ClusterSpec) : ClusterSpec :=
  let 'mkSpec n sn api rg ct cpr env bu cbu cb mo off acc tr _ ra st ph mg ai ty ex aot cap pvn lu tg cy sm az := s in
  mkSpec n sn api rg ct cpr env bu cbu cb mo off acc tr v ra st ph mg ai ty ex aot cap pvn lu tg cy sm az.
Definition set_RegisteredAt (v : string) (s : ClusterSpec) : ClusterSpec :=
  let 'mkSpec n sn api rg ct cpr env bu cbu cb mo off acc tr vn _ st ph mg ai ty ex aot cap pvn lu tg cy sm az := s in
  mkSpec n sn api rg ct cpr env bu cbu cb mo off acc tr vn v st ph mg ai ty ex aot cap pvn lu tg cy sm az.
Definition set_ExtraInfo (v : Extra) (s : ClusterSpec) : ClusterSpec :=
  let 'mkSpec n sn api rg ct cpr env bu cbu cb mo off acc tr vn ra st ph mg ai ty _ aot cap pvn lu tg cy sm az := s in
  mkSpec n sn api rg ct cpr env bu cbu cb mo off acc tr vn ra st ph mg ai ty v aot cap pvn lu tg cy sm az.
Definition set_LastUpdated (v : string) (s : ClusterSpec) : ClusterSpec :=
  let 'mkSpec n sn api rg ct cpr env bu cbu cb mo off acc tr vn ra st ph mg ai ty ex aot cap pvn _ tg cy sm az := s in
  mkSpec n sn api rg ct cpr env bu cbu cb mo off acc tr vn ra st ph mg ai ty ex aot cap pvn v tg cy sm az.
Definition set_Tags (v : gomap string) (s : ClusterSpec) : ClusterSpec :=
  let 'mkSpec n sn api rg ct cpr env bu cbu cb mo off acc tr vn ra st ph mg ai ty ex aot cap pvn lu _ cy sm az := s in
  mkSpec n sn api rg ct cpr env bu cbu cb mo off acc tr vn ra st ph mg ai ty ex aot cap pvn lu v cy sm az.
Definition set_ServiceMetadata (v : gomap ServiceMetadataItem) (s : ClusterSpec) : ClusterSpec :=
  let 'mkSpec n sn api rg ct cpr env bu cbu cb mo off acc tr vn ra st ph mg ai ty ex aot cap pvn lu tg cy _ az := s in
  mkSpec n sn api rg ct cpr env bu cbu cb mo off acc tr vn ra st ph mg ai ty ex aot cap pvn lu tg cy v az.
Definition set_AvailabilityZones (v : list AvailabilityZone) (s : ClusterSpec) : ClusterSpec :=
  let 'mkSpec n sn api rg ct cpr env bu cbu cb mo off acc tr vn ra st ph mg ai ty ex aot cap pvn lu tg cy sm _ := s in
  mkSpec n sn api rg ct cpr env bu cbu cb mo off acc tr vn ra st ph mg ai ty ex aot cap pvn lu tg cy sm v.

(** Go's zero value [ClusterSpec{}]. *)
Definition zeroExtra : Extra := mkExtra "" ∅ [] ∅ "" [] "" "" "".
Definition zeroTier : Tier := mkTier "" "" "" 0 0 ∅ [] false ∅.
Definition zeroSpec : ClusterSpec :=
  mkSpec "" "" (mkAPIServer "" "") "" "" "" "" "" "" None "" [] "" [] [] "" "" "" "" "" ""
    zeroExtra [] [] [] "" None (mkCapacity "" 0 0 0 0 0) None [].

Record TypeMeta := mkTypeMeta { Kind : string; APIVersion : string }.

Record ObjectMeta := mkObjectMeta {
  meta_Name : string;
  Namespace : string;
  Annotations : gomap string;
  ResourceVersion : string;
  ManagedFields : list string }.

Definition set_Annotations (a : gomap string) (m : ObjectMeta) : ObjectMeta :=
  mkObjectMeta (meta_Name m) (Namespace m) a (ResourceVersion m) (ManagedFields m).

(** [ClusterStatus] has no field. *)
Record Cluster := mkCluster { type_meta : TypeMeta; metadata : ObjectMeta; Spec : ClusterSpec }.

Definition set_Spec (s : ClusterSpec) (c : Cluster) : Cluster :=
  mkCluster (type_meta c) (metadata c) s.
Definition update_Spec (f : ClusterSpec → ClusterSpec) (c : Cluster) : Cluster :=
  set_Spec (f (Spec c)) c.
Definition set_metadata (m : ObjectMeta) (c : Cluster) : Cluster :=
  mkCluster (type_meta c) m (Spec c).
Definition zeroCluster : Cluster :=
  mkCluster (mkTypeMeta "" "") (mkObjectMeta "" "" None "" []) zeroSpec.

#[global] Instance APIServerInfo_eq_dec : EqDecision APIServerInfo.
Proof. solve_decision. Defined.
#[global] Instance AllowedOnboardingTeam_eq_dec : EqDecision AllowedOnboardingTeam.
Proof. solve_decision. Defined.
#[global] Instance Extra_eq_dec : EqDecision Extra.
Proof. solve_decision. Defined.
#[global] Instance Tier_eq_dec : EqDecision Tier.
Proof. solve_decision. Defined.
#[global] Instance VirtualNetwork_eq_dec : EqDecision VirtualNetwork.
Proof. solve_decision. Defined.
#[global] Instance PeerVirtualNetwork_eq_dec : EqDecision PeerVirtualNetwork.
Proof. solve_decision. Defined.
#[global] Instance Capacity_eq_dec : EqDecision Capacity.
Proof. solve_decision. Defined.
#[global] Instance AvailabilityZone_eq_dec : EqDecision AvailabilityZone.
Proof. solve_decision. Defined.
#[global] Instance ClusterSpec_eq_dec : EqDecision ClusterSpec.
Proof. unfold EqDecision, Offering. solve_decision. Defined.
#[global] Instance ObjectMeta_eq_dec : EqDecision ObjectMeta.
Proof. solve_decision. Defined.
#[global] Instance TypeMeta_eq_dec : EqDecision TypeMeta.
Proof. solve_decision. Defined.
#[global] Instance Cluster_eq_dec : EqDecision Cluster.
Proof. solve_decision. Defined.

(** Setters and getters. *)
Lemma set_Spec_Spec s c : Spec (set_Spec s c) = s.
Proof. done. Qed.
Lemma set_LastUpdated_Name v s : Name (set_LastUpdated v s) = Name s.
Proof. by destruct s. Qed.
Lemma set_LastUpdated_eq v s : LastUpdated (set_LastUpdated v s) = v.
Proof. by destruct s. Qed.
Lemma set_RegisteredAt_Name v s : Name (set_RegisteredAt v s) = Name s.
Proof. by destruct s. Qed.
Lemma set_RegisteredAt_LastUpdated v s : LastUpdated (set_RegisteredAt v s) = LastUpdated s.
Proof. by destruct s. Qed.
Lemma set_RegisteredAt_eq v s : RegisteredAt (set_RegisteredAt v s) = v.
Proof. by destruct s. Qed.
Lemma set_RegisteredAt_id s : set_RegisteredAt (RegisteredAt s) s = s.
Proof. by destruct s. Qed.
Lemma set_RegisteredAt_twice v w s : set_RegisteredAt v (set_RegisteredAt w s) = set_RegisteredAt v s.
Proof. by destruct s. Qed.
#[export] Hint Rewrite set_Spec_Spec set_LastUpdated_Name set_LastUpdated_eq set_RegisteredAt_Name
  set_RegisteredAt_LastUpdated set_RegisteredAt_eq set_RegisteredAt_id set_RegisteredAt_twice : registry.

(** What is left of a specification after it went through DynamoDB: an empty
    map is stored as a null attribute and reads back as nil. *)
Definition norm_map {V} (m : gomap V) : gomap V :=
  match m with
  | Some m => if (size m =? 0)%nat then None else Some m
  | None => None
  end.
Definition norm_spec (s : ClusterSpec) : ClusterSpec :=
  set_Tags (norm_map (Tags s)) (set_ServiceMetadata (norm_map (ServiceMetadata s)) s).

Lemma norm_map_idem {V} (m : gomap V) : norm_map (norm_map m) = norm_map m.
Proof. destruct m as [m|]; simpl; [|done]. destruct (size m =? 0)%nat eqn:E; simpl; by rewrite ?E. Qed.
Lemma norm_map_gm {V} (m : gomap V) : gm (norm_map m) = gm m.
Proof.
  destruct m as [m|]; simpl; [|done]. destruct (Nat.eqb_spec (size m) 0) as [E|]; [|done].
  apply map_size_empty_iff in E. by subst.
Qed.
Lemma norm_spec_idem s : norm_spec (norm_spec s) = norm_spec s.
Proof. destruct s. unfold norm_spec. simpl. by rewrite !norm_map_idem. Qed.
Lemma norm_spec_Name s : Name (norm_spec s) = Name s.
Proof. by destruct s. Qed.
Lemma norm_spec_LastUpdated s : LastUpdated (norm_spec s) = LastUpdated s.
Proof. by destruct s. Qed.
Lemma norm_spec_RegisteredAt s : RegisteredAt (norm_spec s) = RegisteredAt s.
Proof. by destruct s. Qed.
Lemma set_ServiceMetadata_Name v s : Name (set_ServiceMetadata v s) = Name s.
Proof. by destruct s. Qed.
Lemma set_ServiceMetadata_eq v s : ServiceMetadata (set_ServiceMetadata v s) = v.
Proof. by destruct s. Qed.
Lemma set_ServiceMetadata_Region v s : Region (set_ServiceMetadata v s) = Region s.
Proof. by destruct s. Qed.
Lemma set_ServiceMetadata_Environment v s : Environment (set_ServiceMetadata v s) = Environment s.
Proof. by destruct s. Qed.
Lemma norm_set_RegisteredAt v s : norm_spec (set_RegisteredAt v s) = set_RegisteredAt v (norm_spec s).
Proof. by destruct s. Qed.
#[export] Hint Rewrite norm_spec_idem norm_spec_Name norm_spec_LastUpdated norm_spec_RegisteredAt
  norm_set_RegisteredAt : registry.
