(* ===== verification/Monitoring.v ===== *)
(** pkg/monitoring/apiserver: the metrics of the API server, and the state of
    the API server around the services it talks to.

    A counter vector is a map from label values to counts.  A histogram
    vector is kept as the number of its observations: the durations come from
    the clock. *)
From stdpp Require Import base gmap strings list option numbers.
From S2P Require Import Prelude.

Record Metrics := mkMetrics {
  ingressReqCnt : gmap (string * string * string) nat;
  egressReqCnt : gmap string nat;
  ingressReqDur : gmap (string * string * string) nat;
  egressReqDur : gmap string nat;
  errCnt : gmap string nat }.

Definition zeroMetrics : Metrics := mkMetrics ∅ ∅ ∅ ∅ ∅.

(** [vec.WithLabelValues(l).Inc()], and [Observe] for the observation count. *)
Definition inc {K} `{Countable K} (l : K) (m : gmap K nat) : gmap K nat :=
  <[l := S (default 0 (m !! l))]> m.

(** The state of a server: the outside world [E] (DynamoDB, SQS, Redis, the
    Kubernetes API) and its own metrics. *)
Record St (E : Type) := mkSt { env : E; metrics : Metrics }.
Arguments mkSt {E} _ _.
Arguments env {E} _.
Arguments metrics {E} _.

Section metrics.
Context {E : Type}.

Definition on_metrics (f : Metrics → Metrics) : M (St E) () :=
  modify (λ s, mkSt (env s) (f (metrics s))).
(** A call of an outside service. *)
Definition call {A} (f : E → A * E) : M (St E) A :=
  λ s, let '(a, e) := f (env s) in (Ret a, mkSt e (metrics s)).

Definition RecordErrorCnt (target : string) : M (St E) () :=
  on_metrics (λ m, mkMetrics (ingressReqCnt m) (egressReqCnt m) (ingressReqDur m)
    (egressReqDur m) (inc target (errCnt m))).
Definition RecordEgressRequestCnt (target : string) : M (St E) () :=
  on_metrics (λ m, mkMetrics (ingressReqCnt m) (inc target (egressReqCnt m)) (ingressReqDur m)
    (egressReqDur m) (errCnt m)).
Definition RecordEgressRequestDur (target : string) : M (St E) () :=
  on_metrics (λ m, mkMetrics (ingressReqCnt m) (egressReqCnt m) (ingressReqDur m)
    (inc target (egressReqDur m)) (errCnt m)).
Definition RecordIngressRequestCnt (code method url : string) : M (St E) () :=
  on_metrics (λ m, mkMetrics (inc (code, method, url) (ingressReqCnt m)) (egressReqCnt m)
    (ingressReqDur m) (egressReqDur m) (errCnt m)).
Definition RecordIngressRequestDur (code method url : string) : M (St E) () :=
  on_metrics (λ m, mkMetrics (ingressReqCnt m) (egressReqCnt m)
    (inc (code, method, url) (ingressReqDur m)) (egressReqDur m) (errCnt m)).
End metrics.
