(* ===== verification/DynamoDB.v ===== *)
(** The interface of the database package to DynamoDB: the expression
    builders the code calls, the items of a table, and what the service and
    its SDK promise.

    Neither the service nor the SDK is part of the repository.  [DynamoDB] is
    the record of the calls the code makes; [DynamoDBLaws] is their documented
    behaviour, which the theorems of Database.v rely on: reads are eventually
    consistent, since the code asks for no other and reads an index; MemDynamo.v has an
    in-memory table that satisfies both. *)
From Stdlib Require Import Ascii.
From stdpp Require Import base gmap strings list option numbers.
From S2P Require Import Prelude GoStrings Registry.

Local Open Scope Z_scope.

(** ** Expressions: package expression of the SDK *)

(** [expression.Value] of a string or an int64. *)
Inductive Value := VString (s : string) | VInt (z : Z).

Inductive Condition :=
  | Equal (name : string) (v : Value)
  | NotEqual (name : string) (v : Value)
  | LessThan (name : string) (v : Value)
  | LessThanEqual (name : string) (v : Value)
  | GreaterThan (name : string) (v : Value)
  | GreaterThanEqual (name : string) (v : Value)
  | And (c1 c2 : Condition).

#[global] Instance Value_eq_dec : EqDecision Value.
Proof. solve_decision. Defined.
#[global] Instance Condition_eq_dec : EqDecision Condition.
Proof. solve_decision. Defined.

(** An attribute of an item: a string, a number, null or something nested. *)
Inductive AttributeValue := AV_S (s : string) | AV_N (z : Z) | AV_NULL | AV_M.
#[global] Instance AttributeValue_eq_dec : EqDecision AttributeValue.
Proof. solve_decision. Defined.

(** The SDK encodes an empty string as null. *)
Definition av (v : Value) : AttributeValue :=
  match v with
  | VString s => if bool_decide (s = "") then AV_NULL else AV_S s
  | VInt z => AV_N z
  end.

(** Byte order of strings. *)
Fixpoint str_ltb (s t : string) : bool :=
  match s, t with
  | EmptyString, String _ _ => true
  | String c s, String d t =>
     (N_of_ascii c <? N_of_ascii d)%N || ((N_of_ascii c =? N_of_ascii d)%N && str_ltb s t)
  | _, EmptyString => false
  end.

(** How DynamoDB orders two attributes of one type; [None] when the types
    differ or have no order. *)
Definition av_ltb (a b : AttributeValue) : option bool :=
  match a, b with
  | AV_S s, AV_S t => Some (str_ltb s t)
  | AV_N x, AV_N y => Some (x <? y)
  | _, _ => None
  end.

(** The attribute names an expression mentions. *)
Fixpoint names_of (c : Condition) : list string :=
  match c with
  | Equal n _ | NotEqual n _ | LessThan n _ | LessThanEqual n _
  | GreaterThan n _ | GreaterThanEqual n _ => [n]
  | And c1 c2 => names_of c1 ++ names_of c2
  end.

(** A document path without an empty segment. *)
Definition valid_path (n : string) : bool := forallb (λ p, negb (bool_decide (p = ""))) (Split n ".").

(** ** Items *)

(** type ClusterDb struct: the item of a cluster, with the attribute names of
    its json tags: name, kind, region, environment, status, lastUpdatedUnix
    and crd. *)
Record ClusterDb := mkClusterDb {
  TablePartitionKey : string;
  IndexPartitionKey : string;
  db_Region : string;
  db_Environment : string;
  db_Status : string;
  LastUpdatedUnix : Z;
  db_Cluster : option Cluster }.

Record QueryInput (Key : Type) := mkQuery {
  q_TableName : string;
  q_IndexName : string;
  (** A query has the value of the index partition key; a scan has none. *)
  q_KeyCondition : option Condition;
  q_FilterExpression : Condition;
  q_ExclusiveStartKey : option Key }.
Arguments mkQuery {Key}.
Arguments q_TableName {Key}.
Arguments q_IndexName {Key}.
Arguments q_KeyCondition {Key}.
Arguments q_FilterExpression {Key}.
Arguments q_ExclusiveStartKey {Key}.

Definition set_ExclusiveStartKey {Key} (k : option Key) (q : QueryInput Key) : QueryInput Key :=
  mkQuery (q_TableName q) (q_IndexName q) (q_KeyCondition q) (q_FilterExpression q) k.

(** ** The calls *)

Class DynamoDB (E : Type) := {
  Item : Type;
  Key : Type;
  MarshalMap : ClusterDb → Item * error;
  UnmarshalMap : Item → ClusterDb * error;
  (** [expression.NewBuilder().WithKeyCondition(k).WithFilter(f).Build()]. *)
  BuildExpr : option Condition → Condition → error;
  DescribeTable : string → E → error * E;
  GetItem : string → string → E → (option Item * error) * E;
  PutItem : string → Item → E → error * E;
  DeleteItem : string → string → E → error * E;
  (** Query and Scan: the items of a page and the last evaluated key. *)
  Query : QueryInput Key → E → (list Item * option Key * error) * E;
  Scan : QueryInput Key → E → (list Item * option Key * error) * E }.

(** ** The documented behaviour *)

Class DynamoDBLaws (E : Type) `{DynamoDB E} := {
  (** The items of a table by the value of its partition key, with every write
      that the service has accepted. *)
  contents : E → string → gmap string Item;
  (** What a read of a key may find.  The reads of the package do not ask for
      consistency, and an index has none to offer: until a write has reached
      every copy of the table and the index, a read finds what it wrote or what
      was there before. *)
  visible : E → string → string → option Item → Prop;
  (** The attribute of an item at a document path. *)
  attr : Item → string → option AttributeValue;
  (** Whether an item satisfies an expression. *)
  eval : Condition → Item → bool;
  (** Whether an item has the key attributes of an index, so that it is part
      of it. *)
  in_index : string → Item → bool;
  (** What a query still has to return from a start key on, from a copy of the
      table, and how many pages it may still take. *)
  remaining : gmap string Item → QueryInput Key → list Item;
  pages_left : E → QueryInput Key → nat;

  eval_And c1 c2 it : eval (And c1 c2) it = eval c1 it && eval c2 it;
  eval_Equal n v it : eval (Equal n v) it = bool_decide (attr it n = Some (av v));
  eval_NotEqual n v it a : attr it n = Some a → eval (NotEqual n v) it = bool_decide (a ≠ av v);
  eval_LessThan n v it a b :
    attr it n = Some a → av_ltb a (av v) = Some b → eval (LessThan n v) it = b;
  eval_GreaterThan n v it a b :
    attr it n = Some a → av_ltb (av v) a = Some b → eval (GreaterThan n v) it = b;
  eval_LessThanEqual n v it a b :
    attr it n = Some a → av_ltb (av v) a = Some b → eval (LessThanEqual n v) it = negb b;
  eval_GreaterThanEqual n v it a b :
    attr it n = Some a → av_ltb a (av v) = Some b → eval (GreaterThanEqual n v) it = negb b;

  (** An expression builds when its document paths are well formed. *)
  BuildExpr_ok k f :
    forallb valid_path (from_option names_of [] k ++ names_of f) = true → BuildExpr k f = None;

  (** A marshalled item has one attribute per field. *)
  marshal_attrs c it :
    MarshalMap c = (it, None) →
    attr it "kind" = Some (av (VString (IndexPartitionKey c))) ∧
    attr it "region" = Some (av (VString (db_Region c))) ∧
    attr it "environment" = Some (av (VString (db_Environment c))) ∧
    attr it "status" = Some (av (VString (db_Status c))) ∧
    attr it "lastUpdatedUnix" = Some (AV_N (LastUpdatedUnix c));
  (** The index is keyed by kind (and by name, which every item has). *)
  marshal_indexed c it idx :
    MarshalMap c = (it, None) → IndexPartitionKey c ≠ "" → in_index idx it = true;
  (** Unmarshalling gives the struct back, up to empty collections. *)
  unmarshal_marshal c it :
    MarshalMap c = (it, None) →
    ∃ cr, UnmarshalMap it =
      (mkClusterDb (TablePartitionKey c) (IndexPartitionKey c) (db_Region c) (db_Environment c)
         (db_Status c) (LastUpdatedUnix c) cr, None) ∧
      Spec <$> cr = norm_spec ∘ Spec <$> db_Cluster c;

  (** The latest value of a key is among those a read may find. *)
  visible_contents e t k : visible e t k (contents e t !! k);
  (** Reads change nothing; meanwhile writes may reach more copies. *)
  DescribeTable_frame t e r e' : DescribeTable t e = (r, e') →
    contents e' = contents e ∧ ∀ t k o, visible e' t k o → visible e t k o;
  GetItem_frame t n e r e' : GetItem t n e = (r, e') →
    contents e' = contents e ∧ ∀ t k o, visible e' t k o → visible e t k o;
  GetItem_ok t n e r e' : GetItem t n e = ((r, None), e') → visible e t n r;
  (** A write that reports an error may or may not have happened. *)
  PutItem_ok t c it e e' :
    MarshalMap c = (it, None) → PutItem t it e = (None, e') →
    contents e' t = <[TablePartitionKey c := it]> (contents e t);
  PutItem_err t c it e err e' :
    MarshalMap c = (it, None) → PutItem t it e = (Some err, e') →
    contents e' t = contents e t ∨ contents e' t = <[TablePartitionKey c := it]> (contents e t);
  PutItem_visible t it e r e' k o :
    PutItem t it e = (r, e') → visible e' t k o → visible e t k o ∨ o = contents e' t !! k;
  DeleteItem_ok t n e e' :
    DeleteItem t n e = (None, e') → contents e' t = delete n (contents e t);
  DeleteItem_err t n e err e' :
    DeleteItem t n e = (Some err, e') →
    contents e' t = contents e t ∨ contents e' t = delete n (contents e t);
  DeleteItem_visible t n e r e' k o :
    DeleteItem t n e = (r, e') → visible e' t k o → visible e t k o ∨ o = contents e' t !! k;

  (** A query returns the items that satisfy its conditions, page by page.  A
      page is the head of what remains in some copy; the last evaluated key
      starts the next page, after which fewer pages are left. *)
  Query_frame q e r e' : Query q e = (r, e') →
    contents e' = contents e ∧ ∀ t k o, visible e' t k o → visible e t k o;
  Query_page q e items lek e' :
    Query q e = ((items, lek, None), e') →
    ∃ T, (∀ k, visible e (q_TableName q) k (T !! k)) ∧
      remaining T q = items ++ from_option (λ k, remaining T (set_ExclusiveStartKey (Some k) q)) [] lek;
  Query_progress q e items k e' :
    Query q e = ((items, Some k, None), e') →
    (pages_left e' (set_ExclusiveStartKey (Some k) q) < pages_left e q)%nat;
  Scan_frame q e r e' : Scan q e = (r, e') →
    contents e' = contents e ∧ ∀ t k o, visible e' t k o → visible e t k o;
  Scan_page q e items lek e' :
    Scan q e = ((items, lek, None), e') →
    ∃ T, (∀ k, visible e (q_TableName q) k (T !! k)) ∧
      remaining T q = items ++ from_option (λ k, remaining T (set_ExclusiveStartKey (Some k) q)) [] lek;
  Scan_progress q e items k e' :
    Scan q e = ((items, Some k, None), e') →
    (pages_left e' (set_ExclusiveStartKey (Some k) q) < pages_left e q)%nat;
  remaining_sub T q it : it ∈ remaining T q → ∃ k, T !! k = Some it;
  remaining_start T q :
    q_ExclusiveStartKey q = None →
    remaining T q ≡ₚ
      filter (λ it, in_index (q_IndexName q) it &&
        from_option (λ k, eval k it) true (q_KeyCondition q) &&
        eval (q_FilterExpression q) it = true) (map_to_list T).*2 }.
