(* ===== verification/Filter.v ===== *)
(** Query conditions: pkg/apiserver/models/filter.go parses them,
    pkg/database/filter.go turns them into a DynamoDB expression. *)
From Stdlib Require Import Ascii.
From stdpp Require Import base strings list option numbers sets.
From S2P Require Import Prelude GoStrings GoRegexp GoTime DynamoDB.

(** ** pkg/apiserver/models/filter.go *)

Definition AllowedOperands : list string := ["<"; "<="; "="; ">="; ">"].

Record FilterCondition := mkFilterCondition { Field : string; Operand : string; cond_Value : string }.

Definition NewFilterCondition (field operand value : string) : FilterCondition :=
  mkFilterCondition field operand value.

(** The class [[a-zA-Z0-9-_.]]. *)
Definition is_field_char (c : ascii) : bool :=
  is_lower c || is_upper c || is_digit c ||
  bool_decide (c = "-"%char) || bool_decide (c = "_"%char) || bool_decide (c = "."%char).

(** The pattern of the source: a field (the class, one or more times), a colon,
    one of the operands, joined with [|] in the order of the slice, and the
    value [.*] to the end of the line. *)
Definition queryRe : re :=
  RSeq (RGroup 1 (RPlus (RChar is_field_char)))
    (RSeq (lit ":") (RSeq (RGroup 2 (alts AllowedOperands)) (RGroup 3 (RStar true RDot)))).

Definition NewFilterConditionFromQuery (query : string) : option FilterCondition * error :=
  let match_ := FindStringSubmatch queryRe 3 query in
  match match_ with
  | _ :: m1 :: m2 :: m3 :: _ => (Some (NewFilterCondition m1 m2 (TrimSpace m3)), nil_error)
  | _ => (None, errorf "invalid query")
  end.

(** ** pkg/database/filter.go *)

Definition FieldPrefix : string := "crd.spec.".

Record DynamoDBFilter := mkFilter { conditions : list FilterCondition }.

Definition NewDynamoDBFilter : DynamoDBFilter := mkFilter [].

Definition AddCondition (condition : FilterCondition) (f : DynamoDBFilter) : DynamoDBFilter :=
  mkFilter (conditions f ++ [condition]).

Definition parseField (field : string) : string * error :=
  let field := if negb (HasPrefix field FieldPrefix) then FieldPrefix +:+ field else field in
  (field, nil_error).

Definition parseOperand (operand : string) : string * error :=
  if negb (contains operand AllowedOperands)
  then (operand, errorf ("invalid operand, must use one of " +:+ Join AllowedOperands ", "))
  else (operand, nil_error).

Section filter.
(** The zone of the machine, as in [TimeString]. *)
Context (local : Z → Z → option string).

Definition parseValue (value operand : string) : Value * error :=
  if contains operand ["<"; "<="; ">="; ">"]
  then match Parse value with
       | Some date => (VString (TimeString local date), nil_error)
       | None => (VString value, nil_error)
       end
  else (VString value, nil_error).

(** The comparison of the switch of [Build]; no other operand gets there. *)
Definition compare_with (operand field : string) (value : Value) (filter : Condition) : Condition :=
  if bool_decide (operand = "=") then And filter (Equal field value)
  else if bool_decide (operand = ">=") then And filter (GreaterThanEqual field value)
  else if bool_decide (operand = ">") then And filter (GreaterThan field value)
  else if bool_decide (operand = "<=") then And filter (LessThanEqual field value)
  else if bool_decide (operand = "<") then And filter (LessThan field value)
  else filter.

Fixpoint build_loop (conds : list FilterCondition) (filter : Condition) : Condition * error :=
  match conds with
  | [] => (filter, nil_error)
  | c :: conds =>
     let '(field, err) := parseField (Field c) in
     match err with
     | Some e => (filter, errorf ("failed to parse field " +:+ Field c +:+ ": " +:+ e))
     | None =>
     let '(operand, err) := parseOperand (Operand c) in
     match err with
     | Some e => (filter, errorf ("failed to parse operand " +:+ Operand c +:+ ": " +:+ e))
     | None =>
     let '(value, err) := parseValue (cond_Value c) (Operand c) in
     match err with
     | Some e => (filter, errorf ("failed to parse value " +:+ cond_Value c +:+ ": " +:+ e))
     | None => build_loop conds (compare_with operand field value filter)
     end end end
  end.

Definition Build (f : DynamoDBFilter) : Condition * error :=
  build_loop (conditions f) (NotEqual "status" (VString "")).
End filter.

(** ** What a query string means *)

Example query_lt : NewFilterConditionFromQuery "foo.bar:<10" =
  (Some (mkFilterCondition "foo.bar" "<" "10"), None).
Proof. vm_compute. reflexivity. Qed.
Example query_eq_empty : NewFilterConditionFromQuery "foo.bar:=" =
  (Some (mkFilterCondition "foo.bar" "=" ""), None).
Proof. vm_compute. reflexivity. Qed.
Example query_space : NewFilterConditionFromQuery "foo.bar :<10" = (None, Some "invalid query").
Proof. vm_compute. reflexivity. Qed.
Example query_le : NewFilterConditionFromQuery "foo.bar:<=10" =
  (Some (mkFilterCondition "foo.bar" "<" "=10"), None).
Proof. vm_compute. reflexivity. Qed.
Example query_ge : NewFilterConditionFromQuery "foo.bar:>=10" =
  (Some (mkFilterCondition "foo.bar" ">=" "10"), None).
Proof. vm_compute. reflexivity. Qed.

(** The operand a value text starts with, in the priority of the pattern. *)
Definition split_operand (s : string) : option (string * string) :=
  if HasPrefix s "<" then Some ("<", drop_str 1 s)
  else if HasPrefix s "=" then Some ("=", drop_str 1 s)
  else if HasPrefix s ">=" then Some (">=", drop_str 2 s)
  else if HasPrefix s ">" then Some (">", drop_str 1 s)
  else None.

Lemma operand_match {A} st (k : mstate → option A) :
  (∀ st, is_Some (k st)) →
  rmatch (RGroup 2 (alts AllowedOperands)) st k =
    from_option (λ '(op, s), k (MState false s ((2, op) :: caps st))) None (split_operand (rest st)).
Proof.
  intros Hk. unfold AllowedOperands. cbn [alts rmatch]. rewrite !rmatch_lit. unfold split_operand.
  destruct st as [b s cs]. cbn [rest at_bol caps].
  assert (∀ w, w ≠ "" → HasPrefix s w = true →
    capture 2 (MState b s cs) (MState (b && bool_decide (w = "")) (drop_str (String.length w) s) cs) =
    MState false (drop_str (String.length w) s) ((2, w) :: cs)) as Hcap.
  { intros w Hw [t ->]%HasPrefix_spec. unfold capture. simpl.
    rewrite drop_str_app, consumed_app, bool_decide_eq_false_2, andb_false_r by done. done. }
  destruct (HasPrefix s "<") eqn:H1.
  { rewrite (Hcap "<") by done. cbn [from_option String.length].
    match goal with |- context [k ?st] => by destruct (Hk st) as [x ->] end. }
  assert (HasPrefix s "<=" = false) as ->.
  { destruct s as [|c s]; [done|]. cbn [HasPrefix] in *. by destruct (bool_decide ("<"%char = c)). }
  destruct (HasPrefix s "=") eqn:H2.
  { rewrite (Hcap "=") by done. cbn [from_option String.length].
    match goal with |- context [k ?st] => by destruct (Hk st) as [x ->] end. }
  destruct (HasPrefix s ">=") eqn:H3.
  { rewrite (Hcap ">=") by done. cbn [from_option String.length].
    match goal with |- context [k ?st] => by destruct (Hk st) as [x ->] end. }
  destruct (HasPrefix s ">") eqn:H4; [by rewrite (Hcap ">")|done].
Qed.

Lemma value_match_total st : is_Some (rmatch (RGroup 3 (RStar true RDot)) st Some).
Proof.
  eapply rmatch_complete; [|reflexivity]. apply accepts_group. eexists. split; [|reflexivity].
  apply acc_star_nil.
Qed.

Lemma field_not_colon s c s' : ":" +:+ s = String c s' → is_field_char c = false.
Proof. intros [= <- _]. reflexivity. Qed.

Lemma queryRe_run {A} st (k : mstate → option A) :
  rmatch queryRe st k =
  rmatch (RPlus (RChar is_field_char)) st (λ st1,
    rmatch (lit ":") (capture 1 st st1) (λ st2,
      rmatch (RGroup 2 (alts AllowedOperands)) st2 (λ st3,
        rmatch (RGroup 3 (RStar true RDot)) st3 k))).
Proof. reflexivity. Qed.

Lemma rmatch_query f op s v :
  f ≠ "" → all_chars is_field_char f = true →
  split_operand s = Some (op, v) → all_chars not_newline v = true →
  rmatch queryRe (MState true (f +:+ ":" +:+ s) []) Some =
    Some (MState false "" [(3, v); (2, op); (1, f)]).
Proof.
  intros Hf Hfc Hs Hv. rewrite queryRe_run.
  erewrite rmatch_plus_longest; [reflexivity| done | done | apply field_not_colon |].
  rewrite rmatch_lit. cbn [rest at_bol caps capture].
  rewrite HasPrefix_app, operand_match by apply value_match_total.
  cbn [rest caps]. change (drop_str (String.length ":") (":" +:+ s)) with s.
  rewrite Hs, consumed_app. cbn [from_option].
  assert (∀ cs, rmatch (RGroup 3 (RStar true RDot)) (MState false v cs) Some =
    Some (MState false "" ((3, v) :: cs))) as Hval; [|apply Hval].
  intros cs. change (rmatch (RGroup 3 (RStar true RDot)) (MState false v cs) Some) with
    (rmatch (RStar true RDot) (MState false v cs) (λ st', Some (capture 3 (MState false v cs) st'))).
  rewrite <- (str_app_nil_r v) at 1.
  apply rmatch_star_longest; [done|done|].
  unfold capture, consumed. simpl. by rewrite Nat.sub_0_r, take_str_all.
Qed.

(** C24: A query [field:operandvalue] of a non-empty field name, one of the
    operands [<], [=], [>=] and [>] and a value on one line parses to these
    three parts, the value without surrounding space. *)
Theorem query_roundtrip f op v :
  f ≠ "" → all_chars is_field_char f = true → all_chars not_newline v = true →
  op ∈ ["<"; "="; ">="; ">"] → (op = ">" → HasPrefix v "=" = false) →
  NewFilterConditionFromQuery (f +:+ ":" +:+ op +:+ v) =
    (Some (mkFilterCondition f op (TrimSpace v)), nil_error).
Proof.
  intros Hf Hfc Hv Hop Hgt.
  assert (split_operand (op +:+ v) = Some (op, v)) as Hs.
  { rewrite !elem_of_cons, elem_of_nil in Hop. destruct_or! Hop; subst op; try done.
    unfold split_operand. cbn in *. by rewrite Hgt. }
  unfold NewFilterConditionFromQuery, FindStringSubmatch.
  by erewrite search_here by (eapply rmatch_query; eauto).
Qed.

Lemma query_roundtrip_witness :
  NewFilterConditionFromQuery ("lastUpdated" +:+ ":" +:+ ">=" +:+ " 2022-05-05 ") =
    (Some (mkFilterCondition "lastUpdated" ">=" (TrimSpace " 2022-05-05 ")), nil_error).
Proof. apply query_roundtrip; [done|reflexivity|reflexivity|set_solver|done]. Defined.

Lemma split_operand_not_le s op v : split_operand s = Some (op, v) → op ≠ "<=".
Proof. unfold split_operand. intros. repeat case_match; by simplify_eq. Qed.

(** The operand captured by any match of the pattern. *)
Lemma query_caps b s st :
  rmatch queryRe (MState b s []) Some = Some st →
  ∃ f op v, caps st = [(3, v); (2, op); (1, f)] ∧ op ≠ "<=".
Proof.
  rewrite queryRe_run. intros H.
  apply (rmatch_sound (RPlus _)) in H as (st1 & Hacc & H).
  assert (caps st1 = []) as Hc1.
  { unfold RPlus in Hacc. apply accepts_seq in Hacc as (st2 & (t & _ & _ & H1 & _)%accepts_char &
      (t' & _ & _ & H2 & _)%accepts_star). by rewrite H2, H1. }
  rewrite rmatch_lit in H. case_match; [|done].
  rewrite operand_match in H by apply value_match_total. cbn [rest caps capture] in H.
  destruct (split_operand _) as [[op v']|] eqn:Hop; [|done]. cbn [from_option] in H.
  apply rmatch_sound in H as (st3 & (st4 & Hst4 & ->)%accepts_group & [= <-]).
  apply accepts_star in Hst4 as (t & _ & _ & Hc & _). simpl in *. rewrite Hc, Hc1.
  eauto 10 using split_operand_not_le.
Qed.

(** The operand [<=] can never be written in a query: the pattern tries
    [<] first, so it reads [x:<=5] as [x < "=5"]. *)
Theorem le_operand_unreachable q c err :
  NewFilterConditionFromQuery q = (Some c, err) → Operand c ≠ "<=".
Proof.
  unfold NewFilterConditionFromQuery, FindStringSubmatch.
  destruct (search queryRe true q) as [[[w cs] r]|] eqn:E; [|done].
  apply search_inv in E as (b & t & st & Hm & <- & _).
  apply query_caps in Hm as (f & op & v & Hcaps & Hop). rewrite Hcaps. cbn.
  intros. by simplify_eq.
Qed.

Lemma le_operand_unreachable_witness : Operand (mkFilterCondition "age" "<" "=5") ≠ "<=".
Proof.
  apply (le_operand_unreachable ("age:<=5") _ None). vm_compute. reflexivity.
Defined.

(** ** What a filter selects *)

Section build.
Context `{DynamoDBLaws E} (local : Z → Z → option string).

(** The comparison that one condition stands for. *)
Definition comparison (c : FilterCondition) : Condition :=
  let field := (parseField (Field c)).1 in
  let value := (parseValue local (cond_Value c) (Operand c)).1 in
  if bool_decide (Operand c = "=") then Equal field value
  else if bool_decide (Operand c = ">=") then GreaterThanEqual field value
  else if bool_decide (Operand c = ">") then GreaterThan field value
  else if bool_decide (Operand c = "<=") then LessThanEqual field value
  else LessThan field value.

Lemma parseValue_ok v op : ∃ x, parseValue local v op = (x, None).
Proof. unfold parseValue. repeat case_match; eauto. Qed.

Lemma build_loop_cons c cs filter :
  Operand c ∈ AllowedOperands →
  build_loop local (c :: cs) filter = build_loop local cs (And filter (comparison c)).
Proof.
  intros Hop. cbn [build_loop]. unfold parseOperand.
  rewrite (proj2 (contains_spec _ _) Hop). cbn [negb parseField].
  unfold comparison. destruct (parseValue_ok (cond_Value c) (Operand c)) as [x ->]. cbn [fst].
  unfold compare_with, AllowedOperands in *. rewrite !elem_of_cons, elem_of_nil in Hop.
  repeat case_bool_decide; try done. naive_solver.
Qed.

Lemma build_loop_eval cs filter :
  Forall (λ c, Operand c ∈ AllowedOperands) cs →
  ∃ cond, build_loop local cs filter = (cond, None) ∧
    ∀ it, eval cond it = eval filter it && forallb (λ c, eval (comparison c) it) cs.
Proof.
  intros Hcs. revert filter. induction Hcs as [|c cs Hop _ IH]; intros filter.
  - exists filter. split; [done|]. intros it. simpl. by rewrite andb_true_r.
  - rewrite build_loop_cons by done. destruct (IH (And filter (comparison c))) as (cond & -> & Hev).
    exists cond. split; [done|]. intros it. rewrite Hev, eval_And. simpl. by rewrite andb_assoc.
Qed.

Lemma build_loop_bad cs filter :
  ¬ Forall (λ c, Operand c ∈ AllowedOperands) cs →
  ∃ cond e, build_loop local cs filter = (cond, Some e).
Proof.
  revert filter. induction cs as [|c cs IH]; intros filter Hno; [destruct Hno; constructor|].
  destruct (decide (Operand c ∈ AllowedOperands)) as [Hop|Hop].
  - rewrite build_loop_cons by done. apply IH. intros Hcs. destruct Hno. by constructor.
  - cbn [build_loop]. unfold parseOperand. apply contains_false in Hop. rewrite Hop.
    cbn. eauto.
Qed.

(** [Build] fails exactly on an operand that is not allowed; otherwise
    its expression selects the items that have a status and satisfy every
    condition, each compared on the field below [crd.spec.]. *)
Theorem Build_spec f :
  (Forall (λ c, Operand c ∈ AllowedOperands) (conditions f) ↔
     (Build local f).2 = None) ∧
  ((Build local f).2 = None → ∀ it, eval (Build local f).1 it =
     eval (NotEqual "status" (VString "")) it &&
     forallb (λ c, eval (comparison c) it) (conditions f)).
Proof.
  unfold Build. destruct (decide (Forall (λ c, Operand c ∈ AllowedOperands) (conditions f)))
    as [Hok|Hbad].
  - destruct (build_loop_eval _ (NotEqual "status" (VString "")) Hok) as (cond & -> & Hev). done.
  - destruct (build_loop_bad _ (NotEqual "status" (VString "")) Hbad) as (cond & e & ->). done.
Qed.
End build.

(** ** Dates compare as texts of two formats *)

Lemma str_ltb_app p s t : str_ltb (p +:+ s) (p +:+ t) = str_ltb s t.
Proof.
  induction p as [|c p IH]; simpl; [done|]. by rewrite N.ltb_irrefl, N.eqb_refl, IH.
Qed.

(** A condition on a date sends the date in the format of [Time.String]
    while the registry stores RFC 3339 texts: of the instants of one UTC day
    none is below the other in byte order, so [lastUpdated:<date] leaves out
    what was updated earlier that day. *)
Theorem same_day_never_less `{DynamoDBLaws E} local c it (t d : Time) :
  Operand c = "<" → Parse (cond_Value c) = Some d →
  attr it (parseField (Field c)).1 = Some (AV_S (FormatRFC3339Nano t)) →
  loc d = UTC → (unixSec t / 86400 = unixSec d / 86400)%Z →
  eval (comparison local c) it = false.
Proof.
  intros Hop Hp Ha Hd Hday.
  assert (comparison local c = LessThan (parseField (Field c)).1 (VString (TimeString local d)))
    as -> by (unfold comparison, parseValue; by rewrite Hop, Hp).
  eapply eval_LessThan; [exact Ha|]. cbn [av].
  assert (TimeString local d ≠ "" ∧ str_ltb (FormatRFC3339Nano t) (TimeString local d) = false)
    as [Hne Hlt]; [|rewrite bool_decide_eq_false_2 by done; cbn [av_ltb]; by rewrite Hlt].
  unfold FormatRFC3339Nano, TimeString. rewrite Hd. cbn [zone_offset].
  rewrite Z.add_0_r. unfold format_date. rewrite Hday.
  destruct (civil_from_days _) as [[y m] dd]. rewrite str_ltb_app. split; [|reflexivity].
  intros Hnil. apply (f_equal String.length) in Hnil. rewrite !str_length_app, length_pad in Hnil.
  simpl in Hnil. lia.
Qed.
