(* ===== verification/MemDynamo.v ===== *)
(** An in-memory DynamoDB that satisfies the laws of DynamoDB.v: tables of
    structs, answers of two items a page, a schedule that says which of the next
    calls fail, and older copies of the tables that reads are answered from while
    there are any.  The witnesses of the development run on it. *)
From stdpp Require Import base gmap strings list option numbers.
From S2P Require Import Prelude Registry DynamoDB.

Record Mem := mkMem {
  tables : gmap string (gmap string ClusterDb);
  faults : list bool;
  (** The copies that reads go to, when writes have not reached them. *)
  lagging : option (gmap string (gmap string ClusterDb)) }.

Definition norm_db (c : ClusterDb) : ClusterDb :=
  mkClusterDb (TablePartitionKey c) (IndexPartitionKey c) (db_Region c) (db_Environment c)
    (db_Status c) (LastUpdatedUnix c) (update_Spec norm_spec <$> db_Cluster c).

(** Consume the next entry of the schedule; no entry means success. *)
Definition next_fault (m : Mem) : bool * Mem :=
  match faults m with
  | b :: fs => (b, mkMem (tables m) fs (lagging m))
  | [] => (false, m)
  end.

Definition mem_table (m : Mem) (t : string) : gmap string ClusterDb := default ∅ (tables m !! t).
Definition read_table (m : Mem) (t : string) : gmap string ClusterDb :=
  default ∅ (default (tables m) (lagging m) !! t).
Definition set_table (t : string) (f : gmap string ClusterDb → gmap string ClusterDb) (m : Mem) : Mem :=
  mkMem (<[t := f (mem_table m t)]> (tables m)) (faults m) (lagging m).

Definition mem_attr (it : ClusterDb) (n : string) : option AttributeValue :=
  if bool_decide (n = "name") then Some (av (VString (TablePartitionKey it)))
  else if bool_decide (n = "kind") then Some (av (VString (IndexPartitionKey it)))
  else if bool_decide (n = "region") then Some (av (VString (db_Region it)))
  else if bool_decide (n = "environment") then Some (av (VString (db_Environment it)))
  else if bool_decide (n = "status") then Some (av (VString (db_Status it)))
  else if bool_decide (n = "lastUpdatedUnix") then Some (AV_N (LastUpdatedUnix it))
  else if bool_decide (n = "crd.spec.lastUpdated")
  then (λ c, av (VString (LastUpdated (Spec c)))) <$> db_Cluster it
  else None.

Definition compare_attr (it : ClusterDb) (n : string) (f : AttributeValue → option bool) : bool :=
  default false (mem_attr it n ≫= f).

Fixpoint mem_eval (c : Condition) (it : ClusterDb) : bool :=
  match c with
  | Equal n v => bool_decide (mem_attr it n = Some (av v))
  | NotEqual n v => bool_decide (mem_attr it n ≠ Some (av v))
  | LessThan n v => compare_attr it n (λ a, av_ltb a (av v))
  | GreaterThan n v => compare_attr it n (λ a, av_ltb (av v) a)
  | LessThanEqual n v => compare_attr it n (λ a, negb <$> av_ltb (av v) a)
  | GreaterThanEqual n v => compare_attr it n (λ a, negb <$> av_ltb a (av v))
  | And c1 c2 => mem_eval c1 it && mem_eval c2 it
  end.

Definition mem_selects (q : QueryInput nat) (it : ClusterDb) : bool :=
  bool_decide (IndexPartitionKey it ≠ "") &&
  from_option (λ k, mem_eval k it) true (q_KeyCondition q) && mem_eval (q_FilterExpression q) it.

Definition mem_remaining (T : gmap string ClusterDb) (q : QueryInput nat) : list ClusterDb :=
  drop (default 0 (q_ExclusiveStartKey q))
    (filter (λ it, mem_selects q it = true) (map_to_list T).*2).

Definition page_size : nat := 2.

Definition mem_query (q : QueryInput nat) (m : Mem) : (list ClusterDb * option nat * error) * Mem :=
  let '(bad, m) := next_fault m in
  if bad then (([], None, errorf "ProvisionedThroughputExceededException"), m)
  else
    let items := mem_remaining (read_table m (q_TableName q)) q in
    let lek := if (page_size <? length items)%nat
               then Some (default 0 (q_ExclusiveStartKey q) + page_size) else None in
    ((take page_size items, lek, None), m).

#[global] Instance MemDynamo : DynamoDB Mem := {
  Item := ClusterDb;
  Key := nat;
  MarshalMap c := (norm_db c, None);
  UnmarshalMap it := (it, None);
  BuildExpr k f :=
    if forallb valid_path (from_option names_of [] k ++ names_of f)
    then None else errorf "invalid parameter: Name";
  DescribeTable t m :=
    let '(bad, m) := next_fault m in
    (if bad then errorf "ResourceNotFoundException" else None, m);
  GetItem t n m :=
    let '(bad, m) := next_fault m in
    if bad then ((None, errorf "InternalServerError"), m)
    else ((read_table m t !! n, None), m);
  PutItem t it m :=
    let '(bad, m) := next_fault m in
    if bad then (errorf "InternalServerError", m)
    else (None, set_table t (insert (TablePartitionKey it) it) m);
  DeleteItem t n m :=
    let '(bad, m) := next_fault m in
    if bad then (errorf "InternalServerError", m)
    else (None, set_table t (delete n) m);
  Query := mem_query;
  Scan := mem_query }.

(** What a read may find: the latest value or that of the copies. *)
Definition mem_visible (m : Mem) (t k : string) (o : option ClusterDb) : Prop :=
  o = mem_table m t !! k ∨ o = read_table m t !! k.

Definition mem_same (m m' : Mem) : Prop := tables m' = tables m ∧ lagging m' = lagging m.

Lemma next_fault_same m b m' : next_fault m = (b, m') → mem_same m m'.
Proof. unfold next_fault. destruct (faults m); intros; by simplify_eq. Qed.

Lemma mem_same_table m m' : mem_same m m' → mem_table m' = mem_table m ∧ read_table m' = read_table m.
Proof. intros [Ht Hl]. unfold mem_table, read_table. by rewrite Ht, Hl. Qed.

Lemma mem_same_frame m m' :
  mem_same m m' → mem_table m' = mem_table m ∧ ∀ t k o, mem_visible m' t k o → mem_visible m t k o.
Proof. intros [Ht Hr]%mem_same_table. unfold mem_visible. by rewrite Ht, Hr. Qed.

Lemma mem_table_set t f m : mem_table (set_table t f m) t = f (mem_table m t).
Proof. unfold mem_table, set_table. simpl. by rewrite lookup_insert_eq. Qed.

Lemma mem_visible_set t f m k o :
  mem_visible (set_table t f m) t k o → mem_visible m t k o ∨ o = mem_table (set_table t f m) t !! k.
Proof.
  intros [Ho|Ho]; [by right|]. unfold read_table in Ho. cbn [lagging set_table] in Ho. unfold mem_visible, read_table.
  destruct (lagging m); [left; by right|by right].
Qed.

Lemma mem_query_same q m r m' : mem_query q m = (r, m') → mem_same m m'.
Proof.
  unfold mem_query. destruct (next_fault m) as [[] m1] eqn:Hf; intros; simplify_eq; by eapply next_fault_same.
Qed.

Lemma mem_query_page q m items lek m' :
  mem_query q m = ((items, lek, None), m') →
  let T := read_table m (q_TableName q) in
  mem_remaining T q = items ++ from_option (λ k, mem_remaining T (set_ExclusiveStartKey (Some k) q)) [] lek ∧
  ∀ k, lek = Some k →
    (length (mem_remaining T (set_ExclusiveStartKey (Some k) q)) < length (mem_remaining T q))%nat.
Proof.
  unfold mem_query. destruct (next_fault m) as [[] m1] eqn:Hf; [done|]. intros Hq.
  simplify_eq. cbn zeta. destruct (mem_same_table _ _ (next_fault_same _ _ _ Hf)) as [_ ->].
  set (T := read_table m (q_TableName q)). unfold page_size.
  destruct (Nat.ltb_spec 2 (length (mem_remaining T q))) as [Hlt|Hge].
  - cbn [from_option]. assert (mem_remaining T (set_ExclusiveStartKey
      (Some (default 0 (q_ExclusiveStartKey q) + 2)) q) = drop 2 (mem_remaining T q)) as Hd.
    { unfold mem_remaining. rewrite drop_drop. done. }
    rewrite Hd, take_drop. split; [done|]. intros k [= <-]. rewrite Hd, length_drop. lia.
  - cbn. rewrite take_ge by lia. by rewrite app_nil_r.
Qed.

Lemma mem_remaining_sub T q it : it ∈ mem_remaining T q → ∃ k, T !! k = Some it.
Proof.
  unfold mem_remaining. intros [i Hi]%list_elem_of_lookup_1. rewrite lookup_drop in Hi.
  apply list_elem_of_lookup_2, list_elem_of_filter in Hi as [_ Hi].
  apply list_elem_of_fmap in Hi as ([k x] & -> & Hk%elem_of_map_to_list). by exists k.
Qed.

#[global] Instance MemDynamoLaws : DynamoDBLaws Mem.
Proof.
  refine {| contents := mem_table; visible := mem_visible : _ → _ → _ → option Item → Prop;
    attr := mem_attr : Item → _; eval := mem_eval : _ → Item → _;
    in_index := λ _ (it : Item), bool_decide (IndexPartitionKey it ≠ "");
    remaining := mem_remaining : _ → QueryInput Key → _;
    pages_left := λ m (q : QueryInput Key), length (mem_remaining (read_table m (q_TableName q)) q) |}; try done.
  - intros n v it a Ha. change (mem_attr it n = Some a) in Ha. simpl. rewrite Ha.
    apply bool_decide_ext. naive_solver.
  - intros n v it a b Ha Hb. change (mem_attr it n = Some a) in Ha. simpl.
    unfold compare_attr. rewrite Ha. simpl. by rewrite Hb.
  - intros n v it a b Ha Hb. change (mem_attr it n = Some a) in Ha. simpl.
    unfold compare_attr. rewrite Ha. simpl. by rewrite Hb.
  - intros n v it a b Ha Hb. change (mem_attr it n = Some a) in Ha. simpl.
    unfold compare_attr. rewrite Ha. simpl. by rewrite Hb.
  - intros n v it a b Ha Hb. change (mem_attr it n = Some a) in Ha. simpl.
    unfold compare_attr. rewrite Ha. simpl. by rewrite Hb.
  - intros k f Hv. simpl. by rewrite Hv.
  - intros c it Hm. simpl in Hm. simplify_eq. done.
  - intros c it idx Hm Hk. simpl in Hm. simplify_eq. by rewrite bool_decide_eq_true_2.
  - intros c it Hm. simpl in Hm. simplify_eq. eexists. split; [reflexivity|].
    simpl. by destruct (db_Cluster c).
  - intros e t k. by left.
  - simpl. intros t e r e' Hg. apply mem_same_frame. destruct (next_fault e) as [b m] eqn:Hf. simplify_eq. by eapply next_fault_same.
  - simpl. intros t n e r e' Hg. apply mem_same_frame. destruct (next_fault e) as [[] m] eqn:Hf; simplify_eq; by eapply next_fault_same.
  - simpl. intros t n e r e' Hg. destruct (next_fault e) as [[] m] eqn:Hf; simplify_eq.
    right. by rewrite (proj2 (mem_same_table _ _ (next_fault_same _ _ _ Hf))).
  - simpl. intros t c it e e' ? Hp. destruct (next_fault e) as [[] m] eqn:Hf; simplify_eq.
    by rewrite mem_table_set, (proj1 (mem_same_table _ _ (next_fault_same _ _ _ Hf))).
  - simpl. intros t c it e err e' ? Hp. destruct (next_fault e) as [[] m] eqn:Hf; simplify_eq.
    left. by rewrite (proj1 (mem_same_table _ _ (next_fault_same _ _ _ Hf))).
  - simpl. intros t it e r e' k o Hp Ho. destruct (next_fault e) as [[] m] eqn:Hf; simplify_eq;
      pose proof (proj2 (mem_same_frame _ _ (next_fault_same _ _ _ Hf)) t k o) as Hv; [by left; apply Hv|].
    destruct (mem_visible_set _ _ _ _ _ Ho) as [?|?]; [by left; apply Hv|by right].
  - simpl. intros t n e e' Hp. destruct (next_fault e) as [[] m] eqn:Hf; simplify_eq.
    by rewrite mem_table_set, (proj1 (mem_same_table _ _ (next_fault_same _ _ _ Hf))).
  - simpl. intros t n e err e' Hp. destruct (next_fault e) as [[] m] eqn:Hf; simplify_eq.
    left. by rewrite (proj1 (mem_same_table _ _ (next_fault_same _ _ _ Hf))).
  - simpl. intros t n e r e' k o Hp Ho. destruct (next_fault e) as [[] m] eqn:Hf; simplify_eq;
      pose proof (proj2 (mem_same_frame _ _ (next_fault_same _ _ _ Hf)) t k o) as Hv; [by left; apply Hv|].
    destruct (mem_visible_set _ _ _ _ _ Ho) as [?|?]; [by left; apply Hv|by right].
  - intros q e r e' Hq. by eapply mem_same_frame, mem_query_same.
  - intros q e items lek e' Hq. exists (read_table e (q_TableName q)). split; [by right|]. by eapply mem_query_page.
  - intros q e items k e' Hq. pose proof (mem_query_same _ _ _ _ Hq) as [_ Hr]%mem_same_table.
    rewrite Hr. exact (proj2 (mem_query_page _ _ _ _ _ Hq) k eq_refl).
  - intros q e r e' Hq. by eapply mem_same_frame, mem_query_same.
  - intros q e items lek e' Hq. exists (read_table e (q_TableName q)). split; [by right|]. by eapply mem_query_page.
  - intros q e items k e' Hq. pose proof (mem_query_same _ _ _ _ Hq) as [_ Hr]%mem_same_table.
    rewrite Hr. exact (proj2 (mem_query_page _ _ _ _ _ Hq) k eq_refl).
  - apply mem_remaining_sub.
  - intros T q Hq. unfold mem_remaining. change (q_ExclusiveStartKey (Key := nat) q = None) in Hq.
    rewrite Hq. done.
Defined.

(** A cluster to run on. *)
Definition sample_spec (name region environment status lastUpdated : string) : ClusterSpec :=
  mkSpec name "" (mkAPIServer "https://k8s" "") region "eks" "us-east-1" environment "bu" "" None "org"
    [] "123" [] [] "2020-01-01T00:00:00Z" status "Running" "" "" "" zeroExtra [] [] [] lastUpdated
    (Some (<["update-slt" := "Tick"]> {["onboarding" := "on"]})) (mkCapacity "" 0 0 0 0 0)
    (Some {["svc-1" := {["ns" := {["key" := "value"]}]}]}) [].
Definition sample (name region environment status lastUpdated : string) : Cluster :=
  mkCluster (mkTypeMeta "Cluster" "registry.ethos.adobe.com/v1")
    (mkObjectMeta name "cluster-registry" None "" [])
    (sample_spec name region environment status lastUpdated).
