(* ===== verification/Database.v ===== *)
(** pkg/database/database.go: clusters in a DynamoDB table.

    The first part translates the operations of [*db] over the calls of
    DynamoDB.v; [Db] is the interface they implement (type Db interface),
    which the HTTP handlers and the event handler are written against. *)
From Stdlib Require Import Ascii.
From stdpp Require Import base gmap strings list option numbers sets.
From S2P Require Import Prelude GoStrings GoTime Registry Monitoring DynamoDB Filter.

Local Open Scope Z_scope.

Definition egressTarget : string := "database".

(** type db struct: the table and its search index. *)
Record db := mkDb { table_name : string; index_name : string; index_partitionKey : string }.

Definition NewDb (dbTableName dbIndexName : string) : db := mkDb dbTableName dbIndexName "kind".

(** The result of a listing: the page, its length, whether there is more. *)
Abbreviation page := (list Cluster * Z * bool * error)%type.

Section database.
Context `{DynamoDB E} (local : Z → Z → option string) (d : db).

Definition Status : M (St E) error :=
  err ← call (DescribeTable (table_name d));
  match err with
  | Some e =>
     _ ← RecordErrorCnt egressTarget;
     mret (errorf ("Connectivity check using DescribeTable failed. Error: '" +:+ e +:+ "'"))
  | None => mret nil_error
  end.

Definition record_egress : M (St E) () :=
  _ ← RecordEgressRequestCnt egressTarget;
  RecordEgressRequestDur egressTarget.

Definition GetCluster (name : string) : M (St E) (option Cluster * error) :=
  '(item, err) ← call (GetItem (table_name d) name);
  _ ← record_egress;
  match err with
  | Some e =>
     mret (None, errorf ("Cannot get cluster '" +:+ name +:+ "' from the database. Error: '" +:+ e +:+ "'"))
  | None =>
     match item with
     | None => mret (None, nil_error)
     | Some it =>
        let '(clusterDb, err) := UnmarshalMap it in
        match err with
        | Some e => mret (None, errorf ("Cannot unmarshal cluster '" +:+ name +:+ "': '" +:+ e +:+ "'"))
        | None => mret (db_Cluster clusterDb, nil_error)
        end
     end
  end.

(** The items of one page, appended to the clusters collected so far. *)
Fixpoint unmarshal_items (items : list Item) (clusters : list Cluster) : outcome (list Cluster * error) :=
  match items with
  | [] => Ret (clusters, nil_error)
  | i :: items =>
     let '(item, err) := UnmarshalMap i in
     match err with
     | Some e => Ret ([], errorf ("Error when trying to unmarshal cluster: '" +:+ e +:+ "'."))
     | None =>
        match deref (db_Cluster item) with
        | Ret c => unmarshal_items items (clusters ++ [c])
        | Panic m => Panic m
        | OutOfFuel => OutOfFuel
        end
     end
  end.

(** The loop of ListClusters (over Query) and ListClustersWithFilter (over
    Scan), until a page has no last evaluated key. *)
Fixpoint fetch_pages (fetch : QueryInput Key → E → (list Item * option Key * error) * E)
    (what : string) (fuel : nat) (input : QueryInput Key) (clusters : list Cluster)
    : M (St E) (list Cluster * error) :=
  match fuel with
  | O => λ s, (OutOfFuel, s)
  | S fuel =>
     '(items, lek, err) ← call (fetch input);
     _ ← record_egress;
     match err with
     | Some e => mret ([], errorf (what +:+ " call failed: '" +:+ e +:+ "'."))
     | None =>
        '(clusters, err) ← lift (unmarshal_items items clusters);
        match err with
        | Some e => mret ([], errorf e)
        | None =>
           match lek with
           | None => mret (clusters, nil_error)
           | Some k => fetch_pages fetch what fuel (set_ExclusiveStartKey (Some k) input) clusters
           end
        end
     end
  end.

(** The window of a page, and whether there is more after it. *)
Definition page_end (offset limit count : Z) : Z :=
  let endIndex := wrap64 (offset + limit) in
  if count <? endIndex then count else endIndex.
Definition page_more (offset limit count : Z) : bool := page_end offset limit count <? count.

Definition paginate (clusters : list Cluster) (offset limit : Z) : outcome page :=
  let count := Z.of_nat (length clusters) in
  let startIndex := offset in
  let endIndex := page_end offset limit count in
  match go_slice clusters startIndex endIndex with
  | Ret sl => Ret (sl, wrap64 (endIndex - startIndex), page_more offset limit count, nil_error)
  | Panic m => Panic m
  | OutOfFuel => OutOfFuel
  end.

(** The filter of ListClusters. *)
Definition list_filter (region environment status lastUpdated : string) : Condition * error :=
  let filter :=
    if bool_decide (status ≠ "") then Equal "status" (VString status)
    else NotEqual "status" (VString "Deleted") in
  let filter :=
    if bool_decide (region ≠ "") then And filter (Equal "region" (VString region)) else filter in
  let filter :=
    if bool_decide (environment ≠ "") then And filter (Equal "environment" (VString environment))
    else filter in
  if bool_decide (lastUpdated ≠ "")
  then match Parse lastUpdated with
       | Some t => (And filter (GreaterThanEqual "lastUpdatedUnix" (VInt (Unix t))), nil_error)
       | None => (filter, errorf "Error converting lastUpdated parameter to RFC3339")
       end
  else (filter, nil_error).

(** The parameters are in the order of the implementation: region first. *)
Definition ListClusters (fuel : nat) (offset limit : Z)
    (region environment status lastUpdated : string) : M (St E) page :=
  let '(filter, err) := list_filter region environment status lastUpdated in
  match err with
  | Some e => mret ([], 0, false, errorf e)
  | None =>
     let keyCondition := Equal (index_partitionKey d) (VString "cluster") in
     match BuildExpr (Some keyCondition) filter with
     | Some e => mret ([], 0, false, errorf ("Building dynamodb query expersion failed: '" +:+ e +:+ "'."))
     | None =>
        let queryInput := mkQuery (table_name d) (index_name d) (Some keyCondition) filter None in
        '(clusters, err) ← fetch_pages Query "DynamonDB API query" fuel queryInput [];
        match err with
        | Some e => mret ([], 0, false, errorf e)
        | None => lift (paginate clusters offset limit)
        end
     end
  end.

Definition ListClustersWithFilter (fuel : nat) (offset limit : Z) (filter : DynamoDBFilter)
    : M (St E) page :=
  let '(f, err) := Build local filter in
  match err with
  | Some e => mret ([], 0, false, errorf e)
  | None =>
     match BuildExpr None f with
     | Some e => mret ([], 0, false, errorf ("Building dynamodb scan expersion failed: '" +:+ e +:+ "'."))
     | None =>
        let scanInput := mkQuery (table_name d) (index_name d) None f None in
        '(clusters, err) ← fetch_pages Scan "DynamoDB API scan" fuel scanInput [];
        match err with
        | Some e => mret ([], 0, false, errorf e)
        | None => lift (paginate clusters offset limit)
        end
     end
  end.

(** PutCluster also updates the caller's object, which it returns here. *)
Definition keep_registered (existing : option Cluster) (cluster : Cluster) : Cluster :=
  match existing with
  | Some old => update_Spec (set_RegisteredAt (RegisteredAt (Spec old))) cluster
  | None => cluster
  end.

Definition cluster_item (cluster : Cluster) (lastUpdated : Time) : ClusterDb :=
  mkClusterDb (Name (Spec cluster)) "cluster" (Region (Spec cluster)) (Environment (Spec cluster))
    (Registry.Status (Spec cluster)) (Unix lastUpdated) (Some cluster).

Definition PutCluster (cluster : Cluster) : M (St E) (Cluster * error) :=
  match Parse (LastUpdated (Spec cluster)) with
  | None =>
     mret (cluster, errorf ("Error converting lastUpdated parameter to RFC3339 for cluster " +:+
       Name (Spec cluster)))
  | Some lastUpdated =>
     '(existingCluster, _) ← GetCluster (Name (Spec cluster));
     let cluster := keep_registered existingCluster cluster in
     let '(clusterDb, err) := MarshalMap (cluster_item cluster lastUpdated) in
     match err with
     | Some _ =>
        mret (cluster, errorf ("Cannot marshal cluster '" +:+ Name (Spec cluster) +:+
          "' into AttributeValue map."))
     | None =>
        err ← call (PutItem (table_name d) clusterDb);
        _ ← record_egress;
        match err with
        | Some e =>
           mret (cluster, errorf ("Cluster '" +:+ Name (Spec cluster) +:+
             "' cannot be updated or created in the database. Error: '" +:+ e +:+ "'"))
        | None => mret (cluster, nil_error)
        end
     end
  end.

Definition DeleteCluster (name : string) : M (St E) error :=
  err ← call (DeleteItem (table_name d) name);
  _ ← record_egress;
  match err with
  | Some e => mret (errorf ("Error while deleting cluster " +:+ name +:+ " from db: " +:+ e))
  | None => mret nil_error
  end.

(** The loop over a cluster's services keeps the one with this id. *)
Definition with_service (serviceId : string) (cluster : Cluster) : option Cluster :=
  item ← gm (ServiceMetadata (Spec cluster)) !! serviceId;
  Some (update_Spec (set_ServiceMetadata (Some {[serviceId := item]})) cluster).

Definition service_page (serviceId : string) (offset limit : Z) (clusters : list Cluster) (err : error) : page :=
  let clustersWithService := omap (with_service serviceId) clusters in
  let count := Z.of_nat (length clustersWithService) in
  (clustersWithService, count, page_more offset limit count, err).

Definition ListClustersWithService (fuel : nat) (serviceId : string) (offset limit : Z)
    (environment region status lastUpdated : string) : M (St E) page :=
  '(clusters, _, _, err) ← ListClusters fuel offset limit environment region status lastUpdated;
  mret (service_page serviceId offset limit clusters err).

Definition ListClustersWithServiceAndFilter (fuel : nat) (serviceId : string) (offset limit : Z)
    (filter : DynamoDBFilter) : M (St E) page :=
  '(clusters, _, _, err) ← ListClustersWithFilter fuel offset limit filter;
  match err with
  | Some e => mret ([], 0, false, errorf ("Failed to list clusters with filter: '" +:+ e +:+ "'."))
  | None => mret (service_page serviceId offset limit clusters err)
  end.

Definition GetClusterWithService (serviceId clusterName : string) : M (St E) (option Cluster * error) :=
  '(cluster, err) ← GetCluster clusterName;
  match err with
  | Some e => mret (None, errorf e)
  | None =>
     match cluster with
     | None => mret (None, nil_error)
     | Some cluster => mret (with_service serviceId cluster, nil_error)
     end
  end.
End database.

(** ** Running the operations *)

Section facts.
Context `{DynamoDBLaws E} (local : Z → Z → option string) (d : db).
Implicit Types (s : St E) (T : gmap string Item).

(** The table of this database in a state. *)
Definition table (s : St E) : gmap string Item := contents (env s) (table_name d).

(** The specification an item reads back to. *)
Definition item_spec (it : Item) : option ClusterSpec := Spec <$> db_Cluster (UnmarshalMap it).1.

(** The clusters of a table, by name. *)
Definition specs_of (T : gmap string Item) : gmap string ClusterSpec := omap item_spec T.
Definition specs (s : St E) : gmap string ClusterSpec := specs_of (table s).

(** What a read of a cluster may show; a cluster is current when only its entry
    is, and the registry is settled when every one is. *)
Definition shown (s : St E) (n : string) (o : option ClusterSpec) : Prop :=
  ∃ it, visible (env s) (table_name d) n it ∧ o = it ≫= item_spec.
Definition settled (s : St E) : Prop :=
  ∀ n it, visible (env s) (table_name d) n it → it = table s !! n.

(** Every item that a read may find was written by PutCluster, under the
    cluster's name. *)
Definition wf_item (n : string) (it : Item) : Prop :=
  ∃ c lu, MarshalMap (cluster_item c lu) = (it, None) ∧ Name (Spec c) = n ∧
    Parse (LastUpdated (Spec c)) = Some lu.
Definition wf_table (T : gmap string Item) : Prop := map_Forall wf_item T.
Definition wf (s : St E) : Prop :=
  ∀ n it, visible (env s) (table_name d) n (Some it) → wf_item n it.

Lemma wf_contents s : wf s → wf_table (table s).
Proof. intros Hwf n it Hit. apply Hwf. rewrite <- Hit. apply visible_contents. Qed.

(** The latest specification is among those shown. *)
Lemma shown_specs s n : shown s n (specs s !! n).
Proof.
  exists (table s !! n). split; [apply visible_contents|]. unfold specs, specs_of. by rewrite lookup_omap.
Qed.

Lemma settled_shown s n o : settled s → shown s n o → o = specs s !! n.
Proof. intros Hs (it & ->%Hs & ->). unfold specs, specs_of. by rewrite lookup_omap. Qed.

(** Nothing was written; reads may have become more current. *)
Definition unchanged (s s' : St E) : Prop :=
  table s' = table s ∧ ∀ n it, visible (env s') (table_name d) n it → visible (env s) (table_name d) n it.

Lemma unchanged_refl s : unchanged s s.
Proof. done. Qed.
Lemma unchanged_trans s1 s2 s3 : unchanged s1 s2 → unchanged s2 s3 → unchanged s1 s3.
Proof. intros [Ht1 Hv1] [Ht2 Hv2]. split; [by rewrite Ht2|auto]. Qed.
Lemma unchanged_wf s s' : unchanged s s' → wf s → wf s'.
Proof. intros [_ Hv] Hwf n it Hit. by apply Hwf, Hv. Qed.
Lemma unchanged_specs s s' : unchanged s s' → specs s' = specs s.
Proof. intros [Ht _]. unfold specs. by rewrite Ht. Qed.
Lemma unchanged_shown s s' n o : unchanged s s' → shown s' n o → shown s n o.
Proof. intros [_ Hv] (it & Hit & ->). exists it. auto. Qed.
Lemma unchanged_settled s s' : unchanged s s' → settled s → settled s'.
Proof. intros [Ht Hv] Hs n it Hit. rewrite Ht. auto. Qed.

Lemma unchanged_env e m s :
  contents e = contents (env s) → (∀ t k o, visible e t k o → visible (env s) t k o) → unchanged s (mkSt e m).
Proof. intros Hc Hv. split; [unfold table; cbn; by rewrite Hc|intros n it; apply Hv]. Qed.

Lemma record_egress_run s : ∃ m, record_egress s = (Ret (), mkSt (env s) m).
Proof. eexists. reflexivity. Qed.

Lemma call_run {A} (f : E → A * E) s a e : f (env s) = (a, e) → call f s = (Ret a, mkSt e (metrics s)).
Proof. intros Hf. unfold call. by rewrite Hf. Qed.

Lemma Status_run s : ∃ err s', Status d s = (Ret err, s').
Proof.
  unfold Status. destruct (DescribeTable (table_name d) (env s)) as [err e] eqn:Hd.
  rewrite (bind_run _ _ _ _ _ (call_run _ _ _ _ Hd)). destruct err; eexists _, _; reflexivity.
Qed.

Lemma wf_item_spec n it : wf_item n it →
  ∃ c lu cr, MarshalMap (cluster_item c lu) = (it, None) ∧ Name (Spec c) = n ∧
    Parse (LastUpdated (Spec c)) = Some lu ∧ item_spec it = Some (norm_spec (Spec c)) ∧
    UnmarshalMap it = (mkClusterDb n "cluster" (Region (Spec c)) (Environment (Spec c))
      (Registry.Status (Spec c)) (Unix lu) (Some cr), None) ∧ Spec cr = norm_spec (Spec c).
Proof.
  intros (c & lu & Hm & Hn & Hp). destruct (unmarshal_marshal _ _ Hm) as (cr & Hu & Hs).
  destruct cr as [cr|]; [|done]. simplify_eq/=. exists c, lu, cr.
  unfold item_spec. rewrite Hu. simpl. rewrite Hs. done.
Qed.

(** What a read shows is keyed by its name and has a time. *)
Lemma shown_keyed s n sp : wf s → shown s n (Some sp) → Name sp = n ∧ is_Some (Parse (LastUpdated sp)).
Proof.
  intros Hwf (it & Hit & Hsp). symmetry in Hsp. apply bind_Some in Hsp as (it' & -> & Hspec).
  destruct (wf_item_spec n it' (Hwf _ _ Hit)) as (c & lu & cr & _ & Hn & Hp & Hs & _).
  rewrite Hs in Hspec. injection Hspec as <-. rewrite norm_spec_Name, norm_spec_LastUpdated, Hp. eauto.
Qed.

Lemma specs_Name s n sp : wf s → specs s !! n = Some sp → Name sp = n.
Proof.
  intros Hwf Hsp. pose proof (shown_specs s n) as Hsh. rewrite Hsp in Hsh. by apply (shown_keyed s).
Qed.

(** GetCluster returns; on success it shows what a copy of the table holds. *)
Lemma GetCluster_run n s :
  wf s → ∃ r err s', GetCluster d n s = (Ret (r, err), s') ∧ unchanged s s' ∧
    (err = None → shown s n (Spec <$> r)) ∧
    (err ≠ None → r = None ∧ ∃ it er e, GetItem (table_name d) n (env s) = ((it, Some er), e)).
Proof.
  intros Hwf. unfold GetCluster.
  destruct (GetItem (table_name d) n (env s)) as [[item err] e] eqn:Hg.
  rewrite (bind_run _ _ _ _ _ (call_run _ _ _ _ Hg)).
  destruct (record_egress_run (mkSt e (metrics s))) as [m Hm].
  rewrite (bind_run _ _ _ _ _ Hm). simpl.
  assert (unchanged s (mkSt e m)) as Ht by (apply unchanged_env; eapply GetItem_frame; eauto).
  destruct err as [er|].
  { eexists _, _, _. split_and!; [reflexivity|done|done|]. intros _. split; [done|]. by eexists _, _, _. }
  pose proof (GetItem_ok _ _ _ _ _ Hg) as Hv. destruct item as [it|]; simpl.
  - destruct (wf_item_spec n it (Hwf _ _ Hv)) as (c & lu & cr & _ & _ & _ & Hs & Hu & Hc).
    rewrite Hu. eexists _, _, _. split_and!; [reflexivity|done| |done]. intros _. exists (Some it).
    cbn. by rewrite Hs, Hc.
  - eexists _, _, _. split_and!; [reflexivity|done| |done]. intros _. by exists None.
Qed.

(** A service of a cluster. *)
Definition service_spec (sid : string) (sp : ClusterSpec) : option ClusterSpec :=
  md ← gm (ServiceMetadata sp) !! sid;
  Some (set_ServiceMetadata (Some {[sid := md]}) sp).

Lemma Spec_with_service sid c : Spec <$> with_service sid c = service_spec sid (Spec c).
Proof.
  unfold with_service, service_spec. by destruct (gm (ServiceMetadata (Spec c)) !! sid).
Qed.

Lemma GetClusterWithService_run sid n s :
  wf s →
  ∃ r err s', GetClusterWithService d sid n s = (Ret (r, err), s') ∧ unchanged s s' ∧
    (err = None → ∃ o, shown s n o ∧ Spec <$> r = o ≫= service_spec sid) ∧ (err ≠ None → r = None).
Proof.
  intros Hwf. unfold GetClusterWithService.
  destruct (GetCluster_run n s Hwf) as (r & err & s' & Hg & Ht & Hok & Herr).
  rewrite (bind_run _ _ _ _ _ Hg).
  destruct err as [e|]; [eexists _, _, _; split_and!; [reflexivity|done..]|].
  specialize (Hok eq_refl).
  destruct r as [c|]; (eexists _, _, _; split_and!; [reflexivity|done| |done]); intros _; (eexists; split; [exact Hok|]); [|done].
  cbn. apply Spec_with_service.
Qed.

(** The specification PutCluster stores: the registration date of what it
    saw under that name is kept. *)
Definition stored (seen : option ClusterSpec) (sp : ClusterSpec) : ClusterSpec :=
  match seen with
  | Some old => set_RegisteredAt (RegisteredAt old) sp
  | None => sp
  end.

Lemma Spec_keep_registered r c : Spec (keep_registered r c) = stored (Spec <$> r) (Spec c).
Proof. by destruct r. Qed.

Lemma stored_Name seen sp : Name (stored seen sp) = Name sp.
Proof. destruct seen; [apply set_RegisteredAt_Name|done]. Qed.
Lemma stored_LastUpdated seen sp : LastUpdated (stored seen sp) = LastUpdated sp.
Proof. destruct seen; [apply set_RegisteredAt_LastUpdated|done]. Qed.

(** Writing a marshalled cluster under its name. *)
Lemma insert_item T c lu it :
  wf_table T → Parse (LastUpdated (Spec c)) = Some lu →
  MarshalMap (cluster_item c lu) = (it, None) →
  wf_table (<[Name (Spec c) := it]> T) ∧
  specs_of (<[Name (Spec c) := it]> T) = <[Name (Spec c) := norm_spec (Spec c)]> (specs_of T).
Proof.
  intros HT Hp Hm. split.
  - apply map_Forall_insert_2; [|done]. exists c, lu. done.
  - destruct (unmarshal_marshal _ _ Hm) as (cr & Hu & Hs). unfold specs_of.
    apply omap_insert_Some. unfold item_spec. rewrite Hu. exact Hs.
Qed.

(** After a write a read may find what it could find before, and what is in the
    table now. *)
Lemma written s s1 e m :
  unchanged s s1 → wf s →
  (∀ n o, visible e (table_name d) n o → visible (env s1) (table_name d) n o ∨ o = contents e (table_name d) !! n) →
  wf_table (table (mkSt e m)) →
  wf (mkSt e m) ∧ ∀ n o, shown (mkSt e m) n o → shown s n o ∨ o = specs (mkSt e m) !! n.
Proof.
  intros [_ Hv] Hwf He HT. split.
  - intros n it [Hit|Hit]%He; [by apply Hwf, Hv|by apply HT].
  - intros n o (it & [Hit|Hit]%He & ->); [left; exists it; auto|right].
    unfold specs, specs_of. rewrite lookup_omap. by rewrite Hit.
Qed.

(** The whole behaviour of PutCluster on a well-formed table. *)
Lemma PutCluster_run c s :
  wf s →
  ∃ c' err s', PutCluster d c s = (Ret (c', err), s') ∧ wf s' ∧
    (∀ n o, shown s' n o → shown s n o ∨ o = specs s' !! n) ∧
    match Parse (LastUpdated (Spec c)) with
    | None => err ≠ None ∧ s' = s
    | Some _ =>
       ∃ seen, (shown s (Name (Spec c)) seen ∨ seen = None) ∧
         Spec c' = stored seen (Spec c) ∧
         (err = None → specs s' = <[Name (Spec c) := norm_spec (Spec c')]> (specs s)) ∧
         (err ≠ None → specs s' = specs s ∨
            specs s' = <[Name (Spec c) := norm_spec (Spec c')]> (specs s))
    end.
Proof.
  intros Hwf. unfold PutCluster.
  destruct (Parse (LastUpdated (Spec c))) as [lu|] eqn:Hp; [|eexists _, _, _; split_and!; eauto].
  destruct (GetCluster_run (Name (Spec c)) s Hwf) as (r & err0 & s1 & Hg & Ht1 & Hok & Herr).
  rewrite (bind_run _ _ _ _ _ Hg). simpl.
  set (c' := keep_registered r c).
  assert (∃ seen, (shown s (Name (Spec c)) seen ∨ seen = None) ∧ Spec c' = stored seen (Spec c))
    as (seen & Hseen & Hc').
  { exists (Spec <$> r). split; [|apply Spec_keep_registered].
    destruct err0; [right; by rewrite (proj1 (Herr ltac:(done)))|left; by apply Hok]. }
  clearbody c'. assert (Name (Spec c') = Name (Spec c)) as Hn by (rewrite Hc'; apply stored_Name).
  pose proof (unchanged_wf _ _ Ht1 Hwf) as Hwf1. pose proof (unchanged_specs _ _ Ht1) as Hs1.
  destruct (MarshalMap (cluster_item c' lu)) as [it err1] eqn:Hm.
  destruct err1 as [e1|].
  { eexists _, _, _. split_and!; [reflexivity|done| |].
    - intros n o Ho. left. by eapply unchanged_shown.
    - exists seen. split_and!; try done. intros _. by left. }
  destruct (PutItem (table_name d) it (env s1)) as [err2 e2] eqn:Hput.
  rewrite (bind_run _ _ _ _ _ (call_run _ _ _ _ Hput)).
  destruct (record_egress_run (mkSt e2 (metrics s1))) as [m2 Hm2].
  rewrite (bind_run _ _ _ _ _ Hm2). simpl.
  assert (table (mkSt e2 m2) = <[Name (Spec c) := it]> (table s1) ∨
    err2 ≠ None ∧ table (mkSt e2 m2) = table s1) as Hcases.
  { unfold table. simpl. rewrite <- Hn. destruct err2 as [er2|].
    - destruct (PutItem_err _ _ _ _ _ _ Hm Hput) as [->| ->]; auto.
    - left. by rewrite (PutItem_ok _ _ _ _ _ Hm Hput). }
  destruct (insert_item (table s1) c' lu it (wf_contents _ Hwf1)) as [HwfI HspI];
    [by rewrite Hc', stored_LastUpdated|done|]. rewrite Hn in HwfI, HspI.
  destruct (written s s1 e2 m2 Ht1 Hwf) as [Hwf2 Hsh2].
  { intros n o. apply (PutItem_visible _ _ _ _ _ _ _ Hput). }
  { destruct Hcases as [->|[_ ->]]; [done|by apply wf_contents]. }
  destruct err2 as [er2|]; eexists _, _, _; (split; [reflexivity|]); (split; [done|]); (split; [done|]);
    destruct Hcases as [Ht|[Hne Ht]]; try done; unfold specs in *; rewrite Ht;
    exists seen; rewrite ?HspI, ?Hs1; split_and!; auto; done.
Qed.

(** The object PutCluster leaves behind, whatever the write does. *)
Lemma PutCluster_object c s c' err s' lu r e0 s1 :
  Parse (LastUpdated (Spec c)) = Some lu →
  GetCluster d (Name (Spec c)) s = (Ret (r, e0), s1) →
  PutCluster d c s = (Ret (c', err), s') → c' = keep_registered r c.
Proof.
  intros Hp Hg. unfold PutCluster. rewrite Hp, (bind_run _ _ _ _ _ Hg).
  destruct (MarshalMap _) as [it [e1|]]; [by intros [=]|].
  destruct (PutItem (table_name d) it (env s1)) as [err2 e2] eqn:Hput.
  rewrite (bind_run _ _ _ _ _ (call_run _ _ _ _ Hput)).
  destruct (record_egress_run (mkSt e2 (metrics s1))) as [m2 Hm2].
  rewrite (bind_run _ _ _ _ _ Hm2). destruct err2; by intros [=].
Qed.

Lemma DeleteCluster_run n s :
  wf s → ∃ err s', DeleteCluster d n s = (Ret err, s') ∧ wf s' ∧
    (∀ n o, shown s' n o → shown s n o ∨ o = specs s' !! n) ∧
    (err = None → specs s' = delete n (specs s)) ∧
    (err ≠ None → specs s' = specs s ∨ specs s' = delete n (specs s)).
Proof.
  intros Hwf. unfold DeleteCluster.
  destruct (DeleteItem (table_name d) n (env s)) as [err e] eqn:Hd.
  rewrite (bind_run _ _ _ _ _ (call_run _ _ _ _ Hd)).
  destruct (record_egress_run (mkSt e (metrics s))) as [m Hm].
  rewrite (bind_run _ _ _ _ _ Hm). simpl.
  assert (table (mkSt e m) = delete n (table s) ∨ err ≠ None ∧ table (mkSt e m) = table s) as Hcases.
  { unfold table. simpl. destruct err as [er|].
    - destruct (DeleteItem_err _ _ _ _ _ Hd) as [->| ->]; auto.
    - left. by rewrite (DeleteItem_ok _ _ _ _ Hd). }
  assert (wf_table (delete n (table s))) as Hwfd by (by apply map_Forall_delete, wf_contents).
  destruct (written s s e m (unchanged_refl s) Hwf) as [Hwf2 Hsh2].
  { intros k o. apply (DeleteItem_visible _ _ _ _ _ _ _ Hd). }
  { destruct Hcases as [->|[_ ->]]; [done|by apply wf_contents]. }
  assert (specs_of (delete n (table s)) = delete n (specs_of (table s))) as Hsp
    by apply omap_delete.
  destruct err as [er|]; eexists _, _; (split; [reflexivity|]); (split; [done|]); (split; [done|]);
    destruct Hcases as [Ht|[Hne Ht]]; try done; unfold specs in *; rewrite Ht, ?Hsp;
    split_and!; auto; done.
Qed.

(** ** Listings *)

Definition good (it : Item) : Prop := ∃ n, wf_item n it.

Lemma unmarshal_items_run items acc :
  Forall good items →
  ∃ cs, unmarshal_items items acc = Ret (acc ++ cs, None) ∧ Some ∘ Spec <$> cs = item_spec <$> items.
Proof.
  intros Hg. revert acc. induction Hg as [|it items [n Hit] _ IH]; intros acc; simpl.
  - exists []. by rewrite app_nil_r.
  - destruct (wf_item_spec n it Hit) as (c & lu & cr & _ & _ & _ & Hs & Hu & Hc). rewrite Hu.
    simpl. destruct (IH (acc ++ [cr])) as (cs & -> & Hcs). exists (cr :: cs).
    rewrite <- app_assoc. split; [done|]. rewrite !fmap_cons, Hcs, Hs. simpl. by rewrite Hc.
Qed.

(** A page cannot be read: the call reports [er], now or after some pages. *)
Inductive fetch_fails (fetch : QueryInput Key → E → (list Item * option Key * error) * E)
    : QueryInput Key → E → string → Prop :=
  | fails_now q e items lek er e' :
     fetch q e = ((items, lek, Some er), e') → fetch_fails fetch q e er
  | fails_later q e items k e' er :
     fetch q e = ((items, Some k, None), e') →
     fetch_fails fetch (set_ExclusiveStartKey (Some k) q) e' er → fetch_fails fetch q e er.

Lemma fetch_fails_det fetch q e er er' : fetch_fails fetch q e er → fetch_fails fetch q e er' → er = er'.
Proof.
  induction 1 as [q e items lek er e1 Hf|q e items k e1 er Hf _ IH];
    inversion 1 as [? ? ? ? ? ? Hx|? ? ? ? ? ? Hx Hl]; subst; rewrite Hf in Hx; simplify_eq; auto.
Qed.

Section pages.
Context (fetch : QueryInput Key → E → (list Item * option Key * error) * E) (what : string).
Context (Hframe : ∀ q e r e', fetch q e = (r, e') →
  contents e' = contents e ∧ ∀ t k o, visible e' t k o → visible e t k o).
Context (Hpage : ∀ q e items lek e',
  fetch q e = ((items, lek, None), e') →
  ∃ T, (∀ k, visible e (q_TableName q) k (T !! k)) ∧
    remaining T q = items ++ from_option (λ k, remaining T (set_ExclusiveStartKey (Some k) q)) [] lek).
Context (Hprogress : ∀ q e items k e', fetch q e = ((items, Some k, None), e') →
  (pages_left e' (set_ExclusiveStartKey (Some k) q) < pages_left e q)%nat).

(** The items of a page are shown by some copy; that of a settled table is the
    table. *)
Lemma page_items q s items lek e' :
  wf s → q_TableName q = table_name d → fetch q (env s) = ((items, lek, None), e') →
  Forall (λ it, good it ∧ ∃ n, visible (env s) (table_name d) n (Some it)) items ∧
  (settled s → remaining (table s) q =
     items ++ from_option (λ k, remaining (table s) (set_ExclusiveStartKey (Some k) q)) [] lek).
Proof.
  intros Hwf Hq Hf. destruct (Hpage _ _ _ _ _ Hf) as (T & HT & Hrem). rewrite Hq in HT. split.
  - apply Forall_forall. intros it Hit.
    destruct (remaining_sub T q it) as [n Hn]; [rewrite Hrem; set_solver|].
    specialize (HT n). rewrite Hn in HT. split; [exists n; by apply Hwf|by exists n].
  - intros Hs. assert (T = table s) as <- by (apply map_eq; intros k; by apply Hs). exact Hrem.
Qed.

(** With a round of fuel per page that can be left the loop returns: with the
    error of the first page that cannot be read, or with the clusters of pages
    that copies of the table show; when the table is settled they are everything
    that remained. *)
Lemma fetch_pages_run fuel q acc s :
  q_TableName q = table_name d → (pages_left (env s) q < fuel)%nat → wf s →
  ∃ r err s', fetch_pages fetch what fuel q acc s = (Ret (r, err), s') ∧ unchanged s s' ∧
    match err with
    | Some e => ∃ er, fetch_fails fetch q (env s) er ∧ e = what +:+ " call failed: '" +:+ er +:+ "'."
    | None => (∀ er, ¬ fetch_fails fetch q (env s) er) ∧ ∃ cs, r = acc ++ cs ∧
       Forall (λ c, ∃ n, shown s n (Some (Spec c))) cs ∧
       (settled s → Some ∘ Spec <$> cs = item_spec <$> remaining (table s) q)
    end.
Proof.
  revert q acc s. induction fuel as [|fuel IH]; intros q acc s Hq Hf Hwf; [lia|].
  cbn [fetch_pages]. destruct (fetch q (env s)) as [[[items lek] err] e] eqn:Hfe.
  rewrite (bind_run _ _ _ _ _ (call_run _ _ _ _ Hfe)).
  destruct (record_egress_run (mkSt e (metrics s))) as [m Hm].
  rewrite (bind_run _ _ _ _ _ Hm). simpl.
  assert (unchanged s (mkSt e m)) as Ht by (apply unchanged_env; by eapply Hframe).
  destruct err as [er|].
  { eexists _, _, _. split_and!; [reflexivity|done|]. exists er. split; [by eapply fails_now|done]. }
  destruct (page_items _ _ _ _ _ Hwf Hq Hfe) as [Hit Hall]. apply Forall_and in Hit as [Hgood Hvis].
  destruct (unmarshal_items_run items acc Hgood) as (cs1 & Hu & Hcs1).
  erewrite bind_run by (unfold lift; rewrite Hu; reflexivity). simpl.
  assert (Forall (λ c, ∃ n, shown s n (Some (Spec c))) cs1) as Hsh1.
  { apply Forall_forall. intros c Hc. apply (list_elem_of_fmap_2 (Some ∘ Spec)) in Hc. rewrite Hcs1 in Hc.
    apply list_elem_of_fmap in Hc as (it & Hit & Hin). rewrite Forall_forall in Hvis.
    destruct (Hvis it Hin) as [n Hn]. exists n, (Some it). split; [exact Hn|exact Hit]. }
  destruct lek as [k|].
  - pose proof (Hprogress _ _ _ _ _ Hfe) as Hlt.
    destruct (IH (set_ExclusiveStartKey (Some k) q) (acc ++ cs1) (mkSt e m)) as
      (r & err & s' & Hrun & Ht' & Hok); [done|cbn; lia|by eapply unchanged_wf|].
    exists r, err, s'. split_and!; [done|by eapply unchanged_trans|]. destruct err as [er|].
    { destruct Hok as (x & Hx & ->). exists x. split; [by eapply fails_later|done]. }
    destruct Hok as (Hno & cs2 & -> & Hsh2 & Hcs2). split.
    { intros er Her. inversion Her as [? ? ? ? ? ? Hx|? ? ? ? ? ? Hx Hl]; subst; rewrite Hfe in Hx; simplify_eq. by apply (Hno er). }
    exists (cs1 ++ cs2). rewrite app_assoc. split_and!; [done| |].
    + apply Forall_app. split; [done|]. eapply Forall_impl; [exact Hsh2|]. intros c [n Hn]. exists n.
      by eapply unchanged_shown.
    + intros Hs. rewrite (Hall Hs). cbn [from_option]. rewrite !fmap_app, Hcs1, Hcs2 by (by eapply unchanged_settled).
      by rewrite (proj1 Ht).
  - eexists _, _, _. split_and!; [reflexivity|done|]. split.
    { intros er Her. inversion Her as [? ? ? ? ? ? Hx|? ? ? ? ? ? Hx Hl]; subst; rewrite Hfe in Hx; simplify_eq. }
    exists cs1. split_and!; [done..|]. intros Hs. rewrite (Hall Hs). cbn [from_option]. by rewrite app_nil_r.
Qed.
End pages.

(** What ListClusters selects, on the specification of a cluster. *)
Definition selected (region environment status lastUpdated : string) (sp : ClusterSpec) : bool :=
  (if bool_decide (status ≠ "") then bool_decide (Registry.Status sp = status)
   else bool_decide (Registry.Status sp ≠ "Deleted")) &&
  (bool_decide (region = "") || bool_decide (Region sp = region)) &&
  (bool_decide (environment = "") || bool_decide (Environment sp = environment)) &&
  (bool_decide (lastUpdated = "") ||
   match Parse lastUpdated, Parse (LastUpdated sp) with
   | Some t, Some u => Unix t <=? Unix u
   | _, _ => false
   end).

Lemma av_string_inj a b : av (VString a) = av (VString b) ↔ a = b.
Proof. cbn [av]. split; [|by intros ->]. repeat case_bool_decide; congruence. Qed.

Lemma eval_Equal_string n v it x :
  attr it n = Some (av (VString x)) → eval (Equal n (VString v)) it = bool_decide (x = v).
Proof.
  intros Ha. rewrite eval_Equal, Ha. apply bool_decide_ext.
  rewrite <- (av_string_inj x v). split; [by intros [=]|by intros ->].
Qed.

Lemma eval_opt (b : bool) f g it :
  eval (if negb b then And f g else f) it = eval f it && (b || eval g it).
Proof. destruct b; simpl; [by rewrite andb_true_r|apply eval_And]. Qed.

Lemma list_filter_eval c lu it rg en st up cond :
  MarshalMap (cluster_item c lu) = (it, None) → Parse (LastUpdated (Spec c)) = Some lu →
  list_filter rg en st up = (cond, None) →
  eval cond it = selected rg en st up (norm_spec (Spec c)).
Proof.
  intros Hm Hp Hf. destruct (marshal_attrs _ _ Hm) as (_ & Hrg & Hen & Hst & Hlu).
  cbn [cluster_item db_Region db_Environment db_Status LastUpdatedUnix] in *.
  pose proof (eval_Equal_string _ rg _ _ Hrg) as Erg.
  pose proof (eval_Equal_string _ en _ _ Hen) as Een.
  pose proof (eval_Equal_string _ st _ _ Hst) as Est.
  assert (eval (NotEqual "status" (VString "Deleted")) it =
    bool_decide (Registry.Status (Spec c) ≠ "Deleted")) as Edel.
  { rewrite (eval_NotEqual _ _ _ _ Hst). apply bool_decide_ext. by rewrite av_string_inj. }
  assert (∀ t, eval (GreaterThanEqual "lastUpdatedUnix" (VInt (Unix t))) it =
    (Unix t <=? Unix lu)) as Elu.
  { intros t. rewrite (eval_GreaterThanEqual _ (VInt (Unix t)) _ _ (Unix lu <? Unix t) Hlu) by done.
    by rewrite Z.leb_antisym. }
  unfold selected. rewrite norm_spec_LastUpdated, Hp.
  assert (Region (norm_spec (Spec c)) = Region (Spec c) ∧
    Environment (norm_spec (Spec c)) = Environment (Spec c) ∧
    Registry.Status (norm_spec (Spec c)) = Registry.Status (Spec c)) as (-> & -> & ->)
    by (by destruct (Spec c)).
  revert Hf. unfold list_filter.
  rewrite <- Erg, <- Een, <- Est, <- Edel.
  rewrite !bool_decide_not.
  destruct (bool_decide (up = "")); [|destruct (Parse up); [|done]];
    cbn [negb]; intros; simplify_eq; rewrite ?eval_And, !eval_opt, ?Elu, ?andb_true_r;
    by destruct (bool_decide (st = "")).
Qed.

(** ** What leaves the table alone *)

Definition frames {A} (m : M (St E) A) : Prop := ∀ s, unchanged s (m s).2.

Lemma frames_ret {A} (a : A) : frames (mret a).
Proof. done. Qed.
Lemma frames_lift {A} (o : outcome A) : frames (lift o).
Proof. done. Qed.
Lemma frames_bind {A B} (m : M (St E) A) (k : A → M (St E) B) :
  frames m → (∀ a, frames (k a)) → frames (m ≫= k).
Proof.
  intros Hm Hk s. unfold mbind, M_bind. specialize (Hm s).
  destruct (m s) as [[a|e|] s']; simpl in *; [by eapply unchanged_trans, Hk|done..].
Qed.
Lemma frames_call {A} (f : E → A * E) :
  (∀ e r e', f e = (r, e') → contents e' = contents e ∧ ∀ t k o, visible e' t k o → visible e t k o) →
  frames (call f).
Proof.
  intros Hf s. unfold call. destruct (f (env s)) as [a e] eqn:Hfe. apply unchanged_env; by eapply Hf.
Qed.
Lemma frames_egress : frames record_egress.
Proof. done. Qed.
Lemma frames_error_cnt t : frames (RecordErrorCnt t).
Proof. done. Qed.

#[local] Hint Resolve frames_ret frames_lift frames_egress frames_error_cnt DescribeTable_frame
  GetItem_frame Query_frame Scan_frame : registry.
Ltac solve_frames := repeat first
  [ progress eauto with registry | apply frames_bind; [|intros ?] | apply frames_call; intros ???
  | case_match ].

Lemma frames_Status : frames (Status d).
Proof. unfold Status. solve_frames. Qed.
Lemma frames_GetCluster n : frames (GetCluster d n).
Proof. unfold GetCluster. solve_frames. Qed.
Lemma frames_fetch_pages fetch what fuel q acc :
  (∀ q e r e', fetch q e = (r, e') → contents e' = contents e ∧ ∀ t k o, visible e' t k o → visible e t k o) →
  frames (fetch_pages fetch what fuel q acc).
Proof.
  intros Hf. revert q acc. induction fuel as [|fuel IH]; intros q acc; [done|].
  cbn [fetch_pages]. solve_frames.
Qed.
Lemma frames_ListClusters fuel off lim rg en st up : frames (ListClusters d fuel off lim rg en st up).
Proof. unfold ListClusters. solve_frames; eauto using frames_fetch_pages with registry. Qed.
Lemma frames_ListClustersWithFilter fuel off lim f :
  frames (ListClustersWithFilter local d fuel off lim f).
Proof. unfold ListClustersWithFilter. solve_frames; eauto using frames_fetch_pages with registry. Qed.

Context (Hkind : index_partitionKey d = "kind").

Definition list_query (filter : Condition) : QueryInput Key :=
  mkQuery (table_name d) (index_name d)
    (Some (Equal (index_partitionKey d) (VString "cluster"))) filter None.

Lemma values_good T : wf_table T → Forall good (map_to_list T).*2.
Proof.
  intros HT. apply Forall_fmap, Forall_forall. intros [n it] Hin.
  apply elem_of_map_to_list in Hin. exists n. by apply HT.
Qed.

(** The items a listing goes through are the selected clusters. *)
Lemma remaining_selected T rg en st up cond :
  wf_table T → list_filter rg en st up = (cond, None) →
  Forall good (remaining T (list_query cond)) ∧
  omap item_spec (remaining T (list_query cond)) ≡ₚ
    filter (λ sp, selected rg en st up sp = true) (map_to_list (specs_of T)).*2.
Proof.
  intros HT Hf. pose proof (values_good T HT) as Hgood.
  pose proof (remaining_start T (list_query cond) eq_refl) as Hperm.
  cbn [q_FilterExpression q_KeyCondition q_IndexName list_query from_option] in Hperm. split.
  - rewrite Hperm, Forall_forall. intros it [_ Hin]%list_elem_of_filter.
    rewrite Forall_forall in Hgood. auto.
  - rewrite Hperm.
    rewrite (filter_omap _ _ (selected rg en st up)).
    { unfold specs_of. by rewrite omap_values_perm. }
    eapply Forall_impl; [exact Hgood|]. intros it [n Hit].
    destruct (wf_item_spec n it Hit) as (c & lu & cr & Hm & _ & Hp & Hs & _).
    exists (norm_spec (Spec c)). split; [done|].
    destruct (marshal_attrs _ _ Hm) as (Hk & _).
    rewrite (marshal_indexed _ _ (index_name d) Hm) by done.
    rewrite Hkind, (eval_Equal_string _ _ _ _ Hk), bool_decide_eq_true_2 by done. simpl.
    by eapply list_filter_eval.
Qed.

Lemma list_filter_ok rg en st up :
  up = "" ∨ is_Some (Parse up) → ∃ cond, list_filter rg en st up = (cond, None) ∧
    BuildExpr (Some (Equal (index_partitionKey d) (VString "cluster"))) cond = None.
Proof.
  intros Hup. unfold list_filter.
  destruct (decide (up = "")) as [->|Hne].
  - rewrite (bool_decide_eq_false_2 ("" ≠ "")) by naive_solver.
    eexists. split; [reflexivity|]. apply BuildExpr_ok. rewrite Hkind.
    repeat case_bool_decide; reflexivity.
  - rewrite (bool_decide_eq_true_2 (up ≠ "")) by done.
    destruct Hup as [?|[t ->]]; [done|]. eexists. split; [reflexivity|].
    apply BuildExpr_ok. rewrite Hkind. repeat case_bool_decide; reflexivity.
Qed.

(** The pages a listing may take. *)
Definition list_pages (s : St E) (rg en st up : string) : nat :=
  pages_left (env s) (list_query (list_filter rg en st up).1).

Lemma ListClusters_run fuel off lim rg en st up s :
  wf s → (list_pages s rg en st up < fuel)%nat → up = "" ∨ is_Some (Parse up) →
  let q := list_query (list_filter rg en st up).1 in
  ∃ o s', ListClusters d fuel off lim rg en st up s = (o, s') ∧ unchanged s s' ∧
    ((∃ er, fetch_fails Query q (env s) er ∧
        o = Ret ([], 0, false, errorf ("DynamonDB API query call failed: '" +:+ er +:+ "'."))) ∨
     (∀ er, ¬ fetch_fails Query q (env s) er) ∧ ∃ all, o = paginate all off lim ∧
        (settled s →
         Spec <$> all ≡ₚ filter (λ sp, selected rg en st up sp = true) (map_to_list (specs s)).*2)).
Proof.
  intros Hwf Hfuel Hup q. subst q. destruct (list_filter_ok rg en st up Hup) as (cond & Hf & Hb).
  unfold ListClusters, list_pages in *. rewrite Hf in Hfuel |- *. rewrite Hb. fold (list_query cond). cbn [fst] in *.
  destruct (remaining_selected _ _ _ _ _ _ (wf_contents _ Hwf) Hf) as [_ Hsel].
  destruct (fetch_pages_run Query "DynamonDB API query" Query_frame Query_page Query_progress fuel
    (list_query cond) [] s eq_refl Hfuel Hwf) as (r & err & s' & Hrun & Ht & Hok).
  rewrite (bind_run _ _ _ _ _ Hrun). simpl. destruct err as [e|].
  - destruct Hok as (er & Her & ->). eexists _, s'. split_and!; [reflexivity|done|left; eauto].
  - destruct Hok as (Hno & cs & -> & _ & Hcs). eexists _, s'. split_and!; [reflexivity|done|right].
    split; [done|]. exists cs. split; [done|]. intros Hs. by rewrite (omap_fmap_Some _ _ _ _ (Hcs Hs)).
Qed.

(** ** Scans *)

Definition scan_query (filter : Condition) : QueryInput Key :=
  mkQuery (table_name d) (index_name d) None filter None.

(** The items a filter keeps: those with a status that satisfy every
    condition. *)
Definition kept (f : DynamoDBFilter) (it : Item) : bool :=
  from_option (λ sp, bool_decide (Registry.Status sp ≠ "")) false (item_spec it) &&
  forallb (λ c, eval (comparison local c) it) (conditions f).

Lemma kept_eval f n it :
  wf_item n it → Forall (λ c, Operand c ∈ AllowedOperands) (conditions f) →
  eval (Build local f).1 it = kept f it.
Proof.
  intros Hit Hops. unfold Build, kept.
  destruct (build_loop_eval local _ (NotEqual "status" (VString "")) Hops) as (cond & -> & Hev).
  destruct (wf_item_spec n it Hit) as (c & lu & cr & Hm & _ & _ & Hs & _).
  destruct (marshal_attrs _ _ Hm) as (_ & _ & _ & Hst & _). cbn [fst cluster_item db_Status] in *.
  rewrite Hev, Hs, (eval_NotEqual _ _ _ _ Hst). cbn [from_option]. f_equal.
  apply bool_decide_ext. rewrite av_string_inj. by destruct (Spec c).
Qed.

Lemma names_of_And_comparison c : names_of (comparison local c) = [(parseField (Field c)).1].
Proof. unfold comparison. by repeat case_bool_decide. Qed.

Lemma build_loop_names cs filter :
  Forall (λ c, Operand c ∈ AllowedOperands) cs →
  names_of (build_loop local cs filter).1 = names_of filter ++ ((λ c, (parseField (Field c)).1) <$> cs).
Proof.
  intros Hcs. revert filter. induction Hcs as [|c cs Hop _ IH]; intros filter.
  - by rewrite app_nil_r.
  - rewrite build_loop_cons, IH, fmap_cons by done. cbn [names_of].
    by rewrite names_of_And_comparison, <- app_assoc.
Qed.

Definition filter_pages (s : St E) (f : DynamoDBFilter) : nat :=
  pages_left (env s) (scan_query (Build local f).1).

Lemma remaining_kept T f :
  wf_table T → Forall (λ c, Operand c ∈ AllowedOperands) (conditions f) →
  remaining T (scan_query (Build local f).1) ≡ₚ
    filter (λ it, kept f it = true) (map_to_list T).*2.
Proof.
  intros HT Hops. rewrite (remaining_start T (scan_query _) eq_refl).
  cbn [q_FilterExpression q_KeyCondition q_IndexName scan_query from_option].
  pose proof (values_good T HT) as Hgood. induction Hgood as [|it l [n Hit] _ IH]; [done|].
  destruct (wf_item_spec n it Hit) as (c & lu & cr & Hm & _).
  rewrite !filter_cons, (kept_eval _ n) by done.
  rewrite (marshal_indexed _ _ (index_name d) Hm) by done. cbn [andb].
  case_decide; by rewrite IH.
Qed.

Lemma ListClustersWithFilter_run fuel off lim f s :
  wf s → (filter_pages s f < fuel)%nat →
  Forall (λ c, Operand c ∈ AllowedOperands) (conditions f) →
  forallb (λ c, valid_path (parseField (Field c)).1) (conditions f) = true →
  let q := scan_query (Build local f).1 in
  ∃ o s', ListClustersWithFilter local d fuel off lim f s = (o, s') ∧ unchanged s s' ∧
    ((∃ er, fetch_fails Scan q (env s) er ∧
        o = Ret ([], 0, false, errorf ("DynamoDB API scan call failed: '" +:+ er +:+ "'."))) ∨
     (∀ er, ¬ fetch_fails Scan q (env s) er) ∧ ∃ all, o = paginate all off lim ∧
        (settled s → Spec <$> all ≡ₚ
          omap item_spec (filter (λ it, kept f it = true) (map_to_list (table s)).*2))).
Proof.
  intros Hwf Hfuel Hops Hvalid q. subst q. unfold ListClustersWithFilter, filter_pages in *.
  pose proof (remaining_kept _ _ (wf_contents _ Hwf) Hops) as Hkept.
  assert ((Build local f).2 = None) as Hb.
  { unfold Build. by destruct (build_loop_eval local _ (NotEqual "status" (VString "")) Hops) as (cond & -> & _). }
  assert (BuildExpr None (Build local f).1 = None) as He.
  { apply BuildExpr_ok. unfold Build. rewrite build_loop_names by done. cbn.
    by rewrite forallb_fmap. }
  destruct (Build local f) as [cond err]. cbn [fst snd] in *. subst err. rewrite He.
  fold (scan_query cond).
  destruct (fetch_pages_run Scan "DynamoDB API scan" Scan_frame Scan_page Scan_progress fuel
    (scan_query cond) [] s eq_refl Hfuel Hwf) as (r & err & s' & Hrun & Ht & Hok).
  rewrite (bind_run _ _ _ _ _ Hrun). simpl. destruct err as [e|].
  - destruct Hok as (er & Her & ->). eexists _, s'. split_and!; [reflexivity|done|left; eauto].
  - destruct Hok as (Hno & cs & -> & _ & Hcs). eexists _, s'. split_and!; [reflexivity|done|right].
    split; [done|]. exists cs. split; [done|]. intros Hs. by rewrite (omap_fmap_Some _ _ _ _ (Hcs Hs)), Hkept.
Qed.
End facts.
