(* ===== verification/DatabaseThms.v ===== *)
(** What the database package guarantees: theorems on Database.v, with
    witnesses that run on the in-memory table. *)
From Stdlib Require Import Ascii.
From stdpp Require Import base gmap strings list option numbers sets relations.
From S2P Require Import Prelude GoStrings GoTime Registry Monitoring DynamoDB Filter MemDynamo Database.

Local Open Scope Z_scope.

(** ** Paging *)

Lemma page_end_nonneg off lim count :
  0 ≤ off → 0 ≤ lim → off + lim ≤ int64_max → page_end off lim count = Z.min (off + lim) count.
Proof.
  intros. unfold page_end. rewrite wrap64_id by (unfold int64_min in *; lia).
  destruct (Z.ltb_spec count (off + lim)); lia.
Qed.

Lemma page_more_nonneg off lim count :
  0 ≤ off → 0 ≤ lim → off + lim ≤ int64_max →
  page_more off lim count = (off + lim <? count).
Proof.
  intros. unfold page_more. rewrite page_end_nonneg by done.
  destruct (Z.ltb_spec (off + lim) count), (Z.ltb_spec (Z.min (off + lim) count) count); lia.
Qed.

(** A window that starts within the list is cut out of it; one that starts
    behind its end panics. *)
Lemma paginate_spec (l : list Cluster) off lim :
  0 ≤ off → 0 ≤ lim → off + lim ≤ int64_max →
  paginate l off lim =
    if off <=? Z.of_nat (length l)
    then let pg := take (Z.to_nat lim) (drop (Z.to_nat off) l) in
         Ret (pg, Z.of_nat (length pg), off + lim <? Z.of_nat (length l), None)
    else Panic "slice bounds out of range".
Proof.
  intros Ho Hl Hmax. unfold paginate. rewrite page_end_nonneg, page_more_nonneg by done.
  destruct (Z.leb_spec off (Z.of_nat (length l))) as [Hle|Hgt].
  - rewrite go_slice_Ret by lia. cbn zeta.
    assert (take (Z.to_nat (Z.min (off + lim) (Z.of_nat (length l)) - off)) (drop (Z.to_nat off) l) =
      take (Z.to_nat lim) (drop (Z.to_nat off) l)) as ->.
    { destruct (Z.le_gt_cases (off + lim) (Z.of_nat (length l))).
      - f_equal. lia.
      - rewrite !take_ge by (rewrite length_drop; lia). done. }
    rewrite wrap64_id by (unfold int64_min, int64_max in *; lia).
    repeat f_equal. rewrite length_take, length_drop. lia.
  - by rewrite go_slice_panics by lia.
Qed.

(** The window of any parameters: it ends after [limit] more clusters, in the
    arithmetic of 64 bits, or with the last one; when it ends before it starts,
    or starts before the first cluster, the slice panics. *)
Definition window_end (off lim count : Z) : Z := Z.min (wrap64 (off + lim)) count.

Lemma paginate_total (l : list Cluster) off lim :
  let count := Z.of_nat (length l) in
  let stop := window_end off lim count in
  paginate l off lim =
    if (0 <=? off) && (off <=? stop)
    then Ret (take (Z.to_nat (stop - off)) (drop (Z.to_nat off) l), stop - off, stop <? count, None)
    else Panic "slice bounds out of range".
Proof.
  cbv zeta. unfold paginate, page_more. set (count := Z.of_nat (length l)).
  assert (page_end off lim count = window_end off lim count) as ->.
  { unfold page_end, window_end. destruct (Z.ltb_spec count (wrap64 (off + lim))); lia. }
  pose proof (wrap64_range (off + lim)) as Hw.
  assert (window_end off lim count ≤ count ∧ window_end off lim count ≤ int64_max) as [H1 H2]
    by (unfold window_end; lia). clear Hw.
  destruct (Z.leb_spec 0 off), (Z.leb_spec off (window_end off lim count)); cbn [andb];
    [|by rewrite go_slice_panics by lia..].
  rewrite go_slice_Ret by lia. rewrite wrap64_id; [done|]. unfold int64_min, int64_max in *. lia.
Qed.

(** A client that asks for page after page while there is more. *)
Fixpoint all_pages (fuel : nat) (l : list Cluster) (offset limit : Z) : outcome (list Cluster) :=
  match fuel with
  | O => OutOfFuel
  | S fuel =>
     match paginate l offset limit with
     | Ret (pg, _, true, _) =>
        match all_pages fuel l (offset + limit) limit with
        | Ret rest => Ret (pg ++ rest)
        | o => o
        end
     | Ret (pg, _, false, _) => Ret pg
     | Panic m => Panic m
     | OutOfFuel => OutOfFuel
     end
  end.

Lemma all_pages_from fuel l off lim :
  0 ≤ off ≤ Z.of_nat (length l) → 0 < lim → Z.of_nat (length l) + lim ≤ int64_max →
  (Z.to_nat (Z.of_nat (length l) - off) < fuel)%nat →
  all_pages fuel l off lim = Ret (drop (Z.to_nat off) l).
Proof.
  revert off. induction fuel as [|fuel IH]; intros off Hoff Hlim Hmax Hf; [lia|].
  cbn [all_pages]. rewrite paginate_spec by lia.
  rewrite (proj2 (Z.leb_le _ _)) by lia. cbn zeta.
  destruct (Z.ltb_spec (off + lim) (Z.of_nat (length l))) as [Hlt|Hge].
  - rewrite IH by lia. rewrite Z2Nat.inj_add by lia. rewrite <- drop_drop. by rewrite take_drop.
  - rewrite take_ge; [done|]. rewrite length_drop. lia.
Qed.

(** C16: Pages of any positive size, read one after the other while [more] is
    set, give every cluster of the listing exactly once and in order. *)
Theorem pages_cover_listing (l : list Cluster) limit :
  0 < limit → Z.of_nat (length l) + limit ≤ int64_max →
  all_pages (S (length l)) l 0 limit = Ret l.
Proof. intros. rewrite all_pages_from by lia. done. Qed.

Lemma pages_cover_listing_witness :
  all_pages 4 [zeroCluster; zeroCluster; zeroCluster] 0 2 = Ret [zeroCluster; zeroCluster; zeroCluster].
Proof. apply (pages_cover_listing [zeroCluster; zeroCluster; zeroCluster] 2); vm_compute; done. Defined.

(** ** The operations *)

(** An empty registry to run on, and clusters to put in it. *)
Definition sample_db : db := NewDb "cluster-registry" "search-index".
Definition empty_registry : St Mem := mkSt (mkMem ∅ [] None) zeroMetrics.
Definition c1 : Cluster := sample "ethos01-prod-va6" "va6" "prod" "Active" "2024-05-01T10:00:00Z".
Definition c2 : Cluster := sample "ethos02-dev-or2" "or2" "dev" "Deleted" "2024-05-02T10:00:00Z".
Definition c3 : Cluster := sample "ethos03-prod-or2" "or2" "prod" "Active" "2024-05-03T10:00:00Z".
Definition c4 : Cluster := sample "ethos04-stage-va6" "va6" "stage" "Active" "2024-05-04T10:00:00Z".

(** The state after a sequence of writes. *)
Definition put_all (cs : list Cluster) (s : St Mem) : St Mem :=
  foldl (λ s c, (PutCluster sample_db c s).2) s cs.
Definition sample_registry : St Mem := put_all [c1; c2; c3; c4] empty_registry.

Lemma empty_registry_wf : wf sample_db empty_registry.
Proof. intros n it [Hl|Hl]; by vm_compute in Hl. Qed.

(** Without older copies every read is current. *)
Lemma no_lag_settled d (s : St Mem) : lagging (env s) = None → settled d s.
Proof. intros Hl n it [->| ->]; [done|]. unfold read_table. by rewrite Hl. Qed.

Lemma put_all_wf cs s : wf sample_db s → wf sample_db (put_all cs s).
Proof.
  revert s. induction cs as [|c cs IH]; intros s Hs; [done|]. cbn. apply IH.
  destruct (PutCluster_run sample_db c s Hs) as (c' & err & s' & Hrun & Hwf & _). by rewrite Hrun.
Qed.

Lemma sample_registry_wf : wf sample_db sample_registry.
Proof. apply put_all_wf, empty_registry_wf. Qed.

Lemma elem_of_window {A} (x : A) n m (l : list A) : x ∈ take n (drop m l) → x ∈ l.
Proof.
  intros Hx. apply list_elem_of_lookup_1 in Hx as [i Hi].
  apply lookup_take_Some in Hi as [Hi _]. rewrite lookup_drop in Hi. by eapply list_elem_of_lookup_2.
Qed.

Lemma selected_inv rg en st up sp :
  selected rg en st up sp = true →
  (rg = "" ∨ Region sp = rg) ∧ (en = "" ∨ Environment sp = en).
Proof.
  unfold selected. rewrite !andb_true_iff, !orb_true_iff. intros [[[_ Hrg] Hen] _].
  rewrite !bool_decide_eq_true in *. auto.
Qed.

Section theorems.
Context `{DynamoDBLaws E} (local : Z → Z → option string) (d : db) (tbl idx : string).
Implicit Types (s : St E).

(** The calls of the package, in any order and with any arguments. *)
Inductive db_step : St E → St E → Prop :=
  | step_Status s : db_step s (Status d s).2
  | step_GetCluster n s : db_step s (GetCluster d n s).2
  | step_ListClusters fuel off lim rg en st up s :
     db_step s (ListClusters d fuel off lim rg en st up s).2
  | step_ListClustersWithFilter fuel off lim f s :
     db_step s (ListClustersWithFilter local d fuel off lim f s).2
  | step_PutCluster c s : db_step s (PutCluster d c s).2
  | step_DeleteCluster n s : db_step s (DeleteCluster d n s).2
  (** Time passes, and writes reach more copies. *)
  | step_wait s s' : unchanged d s s' → db_step s s'.

Lemma db_step_wf s s' : db_step s s' → wf d s → wf d s'.
Proof.
  intros Hstep Hwf. destruct Hstep.
  - eapply unchanged_wf; [apply frames_Status|done].
  - eapply unchanged_wf; [apply frames_GetCluster|done].
  - eapply unchanged_wf; [apply frames_ListClusters|done].
  - eapply unchanged_wf; [apply frames_ListClustersWithFilter|done].
  - destruct (PutCluster_run d c s Hwf) as (c' & err & s' & -> & Hwf' & _). done.
  - destruct (DeleteCluster_run d n s Hwf) as (err & s' & -> & Hwf' & _). done.
  - by eapply unchanged_wf.
Qed.

(** C11: Whatever sequence of calls is made, and whichever of them fail, every
    cluster that a read may show is stored under its own name with an update time
    that parses; a read shows such a cluster, the latest one once writes have
    reached every copy, unless the call of DynamoDB reports an error. *)
Theorem registry_invariant s s' n :
  wf d s → rtc db_step s s' →
  (∀ sp, shown d s' n (Some sp) → Name sp = n ∧ is_Some (Parse (LastUpdated sp))) ∧
  shown d s' n (specs d s' !! n) ∧
  ∃ r err s'', GetCluster d n s' = (Ret (r, err), s'') ∧
    (err = None → shown d s' n (Spec <$> r)) ∧
    (err = None → settled d s' → Spec <$> r = specs d s' !! n) ∧
    (err ≠ None → r = None ∧ ∃ it er e, GetItem (table_name d) n (env s') = ((it, Some er), e)).
Proof.
  intros Hwf Hrun.
  assert (wf d s') as Hwf' by (induction Hrun; eauto using db_step_wf).
  split_and!; [intros sp; by apply shown_keyed|apply shown_specs|].
  destruct (GetCluster_run d n s' Hwf') as (r & err & s'' & Hg & _ & Hok & Herr).
  exists r, err, s''. split_and!; [done|done| |done]. intros He Hs. by apply settled_shown, Hok.
Qed.

(** C12: After a successful PutCluster, GetCluster finds the cluster under its name
    once the write has reached every copy of the table: with the specification that
    was put (an empty map reads back as nil), and with the registration date of the
    entry that PutCluster read, when it could read one; until then it may still find
    what a read could find before.  Every other cluster is untouched. *)
Theorem put_get_roundtrip c s c' s' s1 r s'' :
  wf d s → PutCluster d c s = (Ret (c', None), s') → unchanged d s' s1 →
  GetCluster d (Name (Spec c)) s1 = (Ret (r, None), s'') →
  (settled d s1 → Spec <$> r = Some (norm_spec (Spec c'))) ∧
  (Spec <$> r = Some (norm_spec (Spec c')) ∨ shown d s (Name (Spec c)) (Spec <$> r)) ∧
  set_RegisteredAt (RegisteredAt (Spec c)) (Spec c') = Spec c ∧
  (∀ old s2, GetCluster d (Name (Spec c)) s = (Ret (Some old, None), s2) →
     RegisteredAt (Spec c') = RegisteredAt (Spec old)) ∧
  (∀ n, n ≠ Name (Spec c) → specs d s'' !! n = specs d s !! n).
Proof.
  intros Hwf Hput Hwait Hget.
  destruct (PutCluster_run d c s Hwf) as (c1 & err & s2 & Hrun & Hwf1 & Hsh & Hspec).
  rewrite Hput in Hrun. simplify_eq.
  destruct (Parse (LastUpdated (Spec c))) as [lu|] eqn:Hp; [|naive_solver].
  destruct Hspec as (seen & _ & Hc' & Hok & _). specialize (Hok eq_refl).
  destruct (GetCluster_run d (Name (Spec c)) s1 (unchanged_wf _ _ _ Hwait Hwf1)) as (r1 & err1 & s3 & Hrun1 & Ht & Hg & _).
  rewrite Hget in Hrun1. simplify_eq. specialize (Hg eq_refl).
  split_and!.
  - intros Hs. rewrite (settled_shown _ _ _ _ Hs Hg), (unchanged_specs _ _ _ Hwait), Hok. by rewrite lookup_insert_eq.
  - apply (unchanged_shown _ _ _ _ _ Hwait), Hsh in Hg as [Hg|Hg]; [by right|left].
    rewrite Hg, Hok. by rewrite lookup_insert_eq.
  - rewrite Hc'. destruct seen; simpl; by rewrite ?set_RegisteredAt_twice, set_RegisteredAt_id.
  - intros old s4 Hold. rewrite (PutCluster_object d _ _ _ _ _ _ _ _ _ Hp Hold Hput).
    apply set_RegisteredAt_eq.
  - intros n Hn. rewrite (unchanged_specs _ _ _ Ht), (unchanged_specs _ _ _ Hwait), Hok.
    by rewrite lookup_insert_ne.
Qed.

(** The outcome of a listing of [matching]: its window, or the panic of a window
    that is none. *)
Definition windowed (matching : list ClusterSpec) (off lim : Z) (o : outcome page) : Prop :=
  let count := Z.of_nat (length matching) in
  let stop := window_end off lim count in
  if (0 <=? off) && (off <=? stop)
  then ∃ all, Spec <$> all ≡ₚ matching ∧
         o = Ret (take (Z.to_nat (stop - off)) (drop (Z.to_nat off) all), stop - off, stop <? count, None)
  else o = Panic "slice bounds out of range".

Lemma paginate_windowed all matching off lim : Spec <$> all ≡ₚ matching → windowed matching off lim (paginate all off lim).
Proof.
  intros Hall. unfold windowed. rewrite paginate_total.
  assert (length matching = length all) as -> by (by rewrite <- Hall, length_fmap).
  destruct (_ && _); [by exists all|done].
Qed.

Lemma list_filter_bad_time rg en st up :
  up ≠ "" → Parse up = None → (list_filter rg en st up).2 = errorf "Error converting lastUpdated parameter to RFC3339".
Proof. intros Hup Hp. unfold list_filter. by rewrite (bool_decide_eq_true_2 (up ≠ "")), Hp. Qed.

(** C14: ListClusters with any parameters returns or panics (a page per round is
    fuel enough) and leaves the registry alone.  A time that does not parse is
    answered with an error.  Otherwise the answer is the error of the first call of
    DynamoDB that fails, and an error only then; and when none fails and the index
    has every write, it is the window [offset, offset + limit) of the clusters that
    match every parameter given, by default those that are not deleted, with [more]
    saying whether there are clusters after it.  The end of the window is computed
    in 64 bits; a negative offset or limit, or an offset behind the last match,
    panics. *)
Theorem ListClusters_window fuel off lim rg en st up s :
  let d := NewDb tbl idx in
  wf d s → (list_pages d s rg en st up < fuel)%nat →
  let q := list_query d (list_filter rg en st up).1 in
  let matching := filter (λ sp, selected rg en st up sp = true) (map_to_list (specs d s)).*2 in
  ∃ o s', ListClusters d fuel off lim rg en st up s = (o, s') ∧ specs d s' = specs d s ∧
    (up ≠ "" → Parse up = None →
       o = Ret ([], 0, false, Some "Error converting lastUpdated parameter to RFC3339")) ∧
    (up = "" ∨ is_Some (Parse up) →
       (∀ er, fetch_fails Query q (env s) er →
          o = Ret ([], 0, false, Some ("DynamonDB API query call failed: '" +:+ er +:+ "'."))) ∧
       ((∀ er, ¬ fetch_fails Query q (env s) er) → settled d s → windowed matching off lim o)).
Proof.
  intros d0 Hwf Hfuel q matching. subst d0 q.
  destruct (ListClusters (NewDb tbl idx) fuel off lim rg en st up s) as [o s'] eqn:Hrun. exists o, s'.
  split; [done|]. split.
  { pose proof (frames_ListClusters (NewDb tbl idx) fuel off lim rg en st up s) as Hf. rewrite Hrun in Hf.
    by apply unchanged_specs. }
  split.
  - intros Hup Hp. pose proof (list_filter_bad_time rg en st up Hup Hp) as Hb. unfold ListClusters in Hrun.
    destruct (list_filter rg en st up) as [f e]. cbn in Hb. subst e. by injection Hrun as <- <-.
  - intros Hup. destruct (ListClusters_run (NewDb tbl idx) eq_refl fuel off lim rg en st up s Hwf Hfuel Hup)
      as (o' & s2 & Hrun' & _ & Hcases). rewrite Hrun in Hrun'. simplify_eq.
    destruct Hcases as [(er & Her & ->)|(Hno & all & -> & Hall)]; split.
    + intros er' Her'. by rewrite (fetch_fails_det _ _ _ _ _ Her' Her).
    + intros Hno. by destruct (Hno er).
    + intros er Her. by destruct (Hno er).
    + intros _ Hs. by apply paginate_windowed, Hall.
Qed.

(** The page of a service listing never announces more: [more]
    compares the end of the window with the number of clusters left on this
    page, so a client that follows it stops after the first page. *)
Theorem service_listing_never_more fuel sid off lim en rg st up s cs n more err s' :
  0 ≤ off → 0 ≤ lim → off + lim ≤ int64_max →
  ListClustersWithService d fuel sid off lim en rg st up s = (Ret (cs, n, more, err), s') →
  more = false.
Proof.
  intros Ho Hl Hmax Hrun. unfold ListClustersWithService in Hrun.
  apply bind_Ret_inv in Hrun as ([[[l n0] m0] e0] & s1 & Hlist & Hret).
  unfold service_page, mret, M_ret in Hret. cbv zeta in Hret. simplify_eq.
  rewrite page_more_nonneg by done. apply Z.ltb_ge.
  assert (Z.of_nat (length (omap (with_service sid) l)) ≤ Z.of_nat (length l)) as Hle.
  { clear. induction l as [|c l IH]; [done|]. cbn. destruct (with_service sid c); cbn; lia. }
  assert (Z.of_nat (length l) ≤ lim) as Hlim; [|lia].
  revert Hlist. unfold ListClusters. destruct (list_filter _ _ _ _) as [f [e|]].
  { intros Hret. minv Hret. simpl. lia. }
  destruct (BuildExpr _ _); [intros Hret; minv Hret; simpl; lia|].
  intros ([all [e|]] & s2 & _ & Hp)%bind_Ret_inv; [minv Hp; simpl; lia|].
  unfold lift in Hp. rewrite paginate_spec in Hp by done. case_match; [|done].
  cbn in Hp. simplify_eq. rewrite length_take. lia.
Qed.

(** ListClustersWithFilter answers with the same kind of window, of
    the clusters that have a status (a deleted one too) and whose item
    satisfies every condition of the filter. *)
Theorem ListClustersWithFilter_window fuel off lim f s :
  wf d s → (filter_pages local d s f < fuel)%nat →
  Forall (λ c, Operand c ∈ AllowedOperands) (conditions f) →
  forallb (λ c, valid_path (parseField (Field c)).1) (conditions f) = true →
  let q := scan_query d (Build local f).1 in
  let matching := omap item_spec
    (filter (λ it, kept local f it = true) (map_to_list (table d s)).*2) in
  ∃ o s', ListClustersWithFilter local d fuel off lim f s = (o, s') ∧ specs d s' = specs d s ∧
    (∀ er, fetch_fails Scan q (env s) er →
       o = Ret ([], 0, false, Some ("DynamoDB API scan call failed: '" +:+ er +:+ "'."))) ∧
    ((∀ er, ¬ fetch_fails Scan q (env s) er) → settled d s → windowed matching off lim o).
Proof.
  intros Hwf Hfuel Hops Hvalid q matching.
  destruct (ListClustersWithFilter_run local d fuel off lim f s Hwf Hfuel Hops Hvalid)
    as (o & s' & Hrun & Ht & Hcases). exists o, s'. split; [done|].
  split; [by apply unchanged_specs|].
  destruct Hcases as [(er & Her & ->)|(Hno & all & -> & Hall)]; split.
  - intros er' Her'. by rewrite (fetch_fails_det _ _ _ _ _ Her' Her).
  - intros Hno. by destruct (Hno er).
  - intros er Her. by destruct (Hno er).
  - intros _ Hs. by apply paginate_windowed, Hall.
Qed.

(** ListClustersWithService hands its environment to the region of
    ListClusters and the other way round: every cluster it returns is in the
    region [environment] and the environment [region]; it carries the
    metadata of that service only. *)
Theorem service_listing_swaps fuel sid off lim environment region st up s cs n more s' :
  wf (NewDb tbl idx) s → settled (NewDb tbl idx) s →
  (list_pages (NewDb tbl idx) s environment region st up < fuel)%nat → up = "" ∨ is_Some (Parse up) → 0 ≤ off → 0 ≤ lim → off + lim ≤ int64_max →
  ListClustersWithService (NewDb tbl idx) fuel sid off lim environment region st up s =
    (Ret (cs, n, more, None), s') →
  Forall (λ c, (environment = "" ∨ Region (Spec c) = environment) ∧
    (region = "" ∨ Environment (Spec c) = region) ∧
    ∃ sp md, specs (NewDb tbl idx) s !! Name sp = Some sp ∧ gm (ServiceMetadata sp) !! sid = Some md ∧
      Spec c = set_ServiceMetadata (Some {[sid := md]}) sp) cs.
Proof.
  intros Hwf Hset Hfuel Hup Ho Hl Hmax Hrun. unfold ListClustersWithService in Hrun.
  apply bind_Ret_inv in Hrun as ([[[l n0] m0] e0] & s1 & Hlist & Hret).
  unfold service_page, mret, M_ret in Hret. cbv zeta in Hret. simplify_eq.
  destruct (ListClusters_run (NewDb tbl idx) eq_refl fuel off lim environment region st up s
    Hwf Hfuel Hup) as (o & s2 & Hrun & _ & Hcases). rewrite Hlist in Hrun. simplify_eq.
  destruct Hcases as [(er & _ & ?)|(_ & all & Hpg & Hall)]; [done|]. specialize (Hall Hset).
  rewrite paginate_spec in Hpg by done. case_match; [|done]. cbn in Hpg. simplify_eq.
  apply Forall_forall. intros c [c0 [Hc0 Hsvc]]%list_elem_of_omap.
  assert (Spec c0 ∈ Spec <$> all) as Hin.
  { apply list_elem_of_fmap_2. apply (elem_of_window _ _ _ _ Hc0). }
  rewrite Hall in Hin. apply list_elem_of_filter in Hin as [Hsel Hin].
  apply list_elem_of_fmap in Hin as ([k sp] & Heq & Hkv). cbn in Heq. subst sp.
  apply elem_of_map_to_list in Hkv.
  pose proof (specs_Name (NewDb tbl idx) s k _ Hwf Hkv) as <-.
  unfold with_service in Hsvc. apply bind_Some in Hsvc as (md & Hmd & [= <-]).
  apply selected_inv in Hsel as [Hrg Hen].
  cbn [Spec update_Spec set_Spec]. rewrite set_ServiceMetadata_Region, set_ServiceMetadata_Environment.
  eauto 10.
Qed.

(** GetClusterWithService gives the cluster of that name with the
    metadata of that service alone, as a read shows it, and nothing when the
    cluster or the service is missing. *)
Theorem GetClusterWithService_spec sid n s :
  wf d s →
  ∃ r err s', GetClusterWithService d sid n s = (Ret (r, err), s') ∧ specs d s' = specs d s ∧
    (err ≠ None → r = None) ∧
    (err = None → ∃ o, shown d s n o ∧ Spec <$> r =
       sp ← o;
       md ← gm (ServiceMetadata sp) !! sid;
       Some (set_ServiceMetadata (Some {[sid := md]}) sp)).
Proof.
  intros Hwf. destruct (GetClusterWithService_run d sid n s Hwf) as (r & err & s' & -> & Ht & Hok & He).
  exists r, err, s'. split_and!; [done|by apply unchanged_specs|done|done].
Qed.

(** PutCluster takes a failed read for a missing cluster: when the
    read fails and the write succeeds, the registration date that was stored
    is replaced by the one of the new object. *)
Theorem registration_date_lost c s e s1 c' s' :
  wf d s → GetCluster d (Name (Spec c)) s = (Ret (None, Some e), s1) →
  PutCluster d c s = (Ret (c', None), s') →
  specs d s' !! Name (Spec c) = Some (norm_spec (Spec c)).
Proof.
  intros Hwf Hget Hput.
  destruct (PutCluster_run d c s Hwf) as (c1 & err & s2 & Hrun & _ & _ & Hspec).
  rewrite Hput in Hrun. simplify_eq.
  destruct (Parse (LastUpdated (Spec c))) as [lu|] eqn:Hp; [|naive_solver].
  destruct Hspec as (seen & _ & _ & Hok & _). rewrite Hok, lookup_insert_eq by done.
  by rewrite (PutCluster_object d _ _ _ _ _ _ _ _ _ Hp Hget Hput).
Qed.
End theorems.

(** ** Witnesses, on the in-memory table *)

Definition c1_moved : Cluster := sample "ethos01-prod-va6" "va6" "stage" "Active" "2024-06-01T10:00:00Z".
Definition local_utc (t : Z) (z : Z) : option string := None.

Lemma registry_invariant_witness :
  let s := (PutCluster sample_db c1 empty_registry).2 in
  specs sample_db s !! "ethos01-prod-va6" = Some (Spec c1) ∧
  (∀ sp, shown sample_db s "ethos01-prod-va6" (Some sp) → Name sp = "ethos01-prod-va6" ∧ is_Some (Parse (LastUpdated sp))) ∧
  ∃ r err s'', GetCluster sample_db "ethos01-prod-va6" s = (Ret (r, err), s'') ∧
    (err = None → Spec <$> r = specs sample_db s !! "ethos01-prod-va6").
Proof.
  cbv zeta. split; [vm_compute; reflexivity|].
  destruct (registry_invariant local_utc sample_db empty_registry
    (PutCluster sample_db c1 empty_registry).2 "ethos01-prod-va6") as (Hkeyed & _ & r & err & s'' & Hg & _ & Hread & _).
  - apply empty_registry_wf.
  - apply rtc_once. apply step_PutCluster.
  - split; [exact Hkeyed|]. exists r, err, s''. split; [exact Hg|]. intros He. apply Hread; [exact He|].
    apply no_lag_settled. reflexivity.
Defined.

(** A registry whose copies do not have the last write yet. *)
Definition lagging_registry : St Mem :=
  let s := (PutCluster sample_db c1_moved sample_registry).2 in
  mkSt (mkMem (tables (env s)) [] (Some (tables (env sample_registry)))) (metrics s).

Example stale_read :
  option_map Spec (match (GetCluster sample_db "ethos01-prod-va6" lagging_registry).1 with
                   | Ret (r, _) => r | _ => None end) = Some (Spec c1).
Proof. vm_compute. reflexivity. Qed.

Lemma put_get_roundtrip_witness :
  ∃ c' s' r s'', PutCluster sample_db c1_moved sample_registry = (Ret (c', None), s') ∧
    GetCluster sample_db "ethos01-prod-va6" s' = (Ret (r, None), s'') ∧
    Spec <$> r = Some (norm_spec (Spec c')) ∧ RegisteredAt (Spec c') = "2020-01-01T00:00:00Z".
Proof.
  eexists _, _, _, _. split; [vm_compute; reflexivity|]. split; [vm_compute; reflexivity|].
  split; [|reflexivity].
  eapply (put_get_roundtrip sample_db c1_moved sample_registry _ _ _ _ _ sample_registry_wf).
  - vm_compute. reflexivity.
  - apply unchanged_refl.
  - vm_compute. reflexivity.
  - apply no_lag_settled. reflexivity.
Defined.

Lemma ListClusters_window_witness :
  let matching := filter (λ sp, selected "or2" "" "" "" sp = true) (map_to_list (specs sample_db sample_registry)).*2 in
  length matching = 1%nat ∧
  ∃ o s', ListClusters sample_db 9 0 2 "or2" "" "" "" sample_registry = (o, s') ∧ windowed matching 0 2 o.
Proof.
  cbv zeta. split; [vm_compute; reflexivity|].
  destruct (ListClusters_window "cluster-registry" "search-index" 9 0 2 "or2" "" "" "" sample_registry)
    as (o & s' & Hrun & _ & _ & Hok).
  - apply sample_registry_wf.
  - vm_compute. lia.
  - exists o, s'. split; [exact Hrun|]. apply Hok; [by left| |apply no_lag_settled; reflexivity].
    intros er Her. inversion Her as [? ? ? ? ? ? Hx|? ? ? ? ? ? Hx _]; vm_compute in Hx; discriminate.
Defined.

Lemma ListClustersWithFilter_window_witness :
  ∃ o s', ListClustersWithFilter local_utc sample_db 9 0 2
      (AddCondition (mkFilterCondition "lastUpdated" ">=" "x") NewDynamoDBFilter) sample_registry = (o, s') ∧
    specs sample_db s' = specs sample_db sample_registry.
Proof.
  destruct (ListClustersWithFilter_window local_utc sample_db 9 0 2
    (AddCondition (mkFilterCondition "lastUpdated" ">=" "x") NewDynamoDBFilter) sample_registry)
    as (o & s' & Hrun & Hs & _).
  - apply sample_registry_wf.
  - vm_compute. lia.
  - repeat constructor.
  - reflexivity.
  - exists o, s'. split; [exact Hrun|exact Hs].
Defined.

Lemma service_listing_never_more_witness :
  ∃ cs more s', ListClustersWithService sample_db 9 "svc-1" 0 1 "" "" "" "" sample_registry =
      (Ret (cs, 1, more, None), s') ∧ more = false.
Proof.
  eexists _, _, _. split; [vm_compute; reflexivity|].
  eapply (service_listing_never_more sample_db 9 "svc-1" 0 1 "" "" "" "" sample_registry).
  - done.
  - done.
  - done.
  - vm_compute. reflexivity.
Defined.

Lemma service_listing_swaps_witness :
  ∃ cs n more s', ListClustersWithService sample_db 9 "svc-1" 0 10 "va6" "" "" "" sample_registry =
      (Ret (cs, n, more, None), s') ∧ length cs = 2%nat ∧ Forall (λ c, Region (Spec c) = "va6") cs.
Proof.
  eexists _, _, _, _. split; [vm_compute; reflexivity|]. split; [reflexivity|].
  eapply Forall_impl.
  - refine (service_listing_swaps "cluster-registry" "search-index" 9 "svc-1" 0 10 "va6" "" "" ""
      sample_registry _ _ _ _ sample_registry_wf _ _ _ _ _ _ _).
    + apply no_lag_settled. reflexivity.
    + vm_compute. lia.
    + by left.
    + done.
    + done.
    + done.
    + vm_compute. reflexivity.
  - intros c [[?|?] _]; done.
Defined.

Lemma GetClusterWithService_spec_witness :
  ∃ r err s', GetClusterWithService sample_db "svc-1" "ethos03-prod-or2" sample_registry = (Ret (r, err), s') ∧
    specs sample_db s' = specs sample_db sample_registry.
Proof.
  destruct (GetClusterWithService_spec sample_db "svc-1" "ethos03-prod-or2" sample_registry
    sample_registry_wf) as (r & err & s' & Hrun & Hs & _). eauto.
Defined.

(** ** The loops over pages end *)

Section termination.
Context `{DynamoDBLaws E} (local : Z → Z → option string) (d : db).

Lemma unmarshal_items_ends items acc : unmarshal_items items acc ≠ OutOfFuel.
Proof.
  revert acc. induction items as [|i items IH]; intros acc; cbn; [done|].
  destruct (UnmarshalMap i) as [item [e|]]; [done|]. destruct (db_Cluster item); cbn; [apply IH|done].
Qed.

Lemma paginate_ends cs off lim : paginate cs off lim ≠ OutOfFuel.
Proof. unfold paginate, go_slice. by destruct (_ && _). Qed.

(** The law of [Query] and of [Scan]: a page that is not the last one leaves
    fewer pages. *)
Definition progresses (fetch : QueryInput Key → E → (list Item * option Key * error) * E) : Prop :=
  ∀ q e items k e', fetch q e = ((items, Some k, None), e') →
    (pages_left e' (set_ExclusiveStartKey (Some k) q) < pages_left e q)%nat.

Lemma fetch_pages_ends fetch what fuel fuel' q acc s :
  progresses fetch → (pages_left (env s) q < fuel)%nat →
  (pages_left (env s) q < fuel')%nat →
  fetch_pages fetch what fuel q acc s = fetch_pages fetch what fuel' q acc s ∧
  (fetch_pages fetch what fuel q acc s).1 ≠ OutOfFuel.
Proof.
  intros Hp. revert fuel' q acc s. induction fuel as [|fuel IH]; intros fuel' q acc s Hf Hf'; [lia|].
  destruct fuel' as [|fuel']; [lia|]. cbn [fetch_pages].
  destruct (fetch q (env s)) as [[[items lek] err] e] eqn:Hfe.
  rewrite !(bind_run _ _ _ _ _ (call_run _ _ _ _ Hfe)).
  destruct (record_egress_run (mkSt e (metrics s))) as [m Hm]. rewrite !(bind_run _ _ _ _ _ Hm).
  destruct err as [er|]; [done|].
  pose proof (unmarshal_items_ends items acc) as Hu. unfold lift, mbind, M_bind.
  destruct (unmarshal_items items acc) as [[cs [er|]]|msg|]; [done| |done..].
  destruct lek as [k|]; [|done]. pose proof (Hp _ _ _ _ _ Hfe) as Hlt. apply IH; cbn [env]; lia.
Qed.

Lemma Query_progresses : progresses Query.
Proof. intros q e items k e'. apply Query_progress. Qed.
Lemma Scan_progresses : progresses Scan.
Proof. intros q e items k e'. apply Scan_progress. Qed.

(** A computation on fuel ends, in one way, when it has more than [n]. *)
Definition ends_after {A} (n : nat) (m : nat → M (St E) A) (s : St E) : Prop :=
  ∀ fuel, (n < fuel)%nat → m fuel s = m (S n) s ∧ (m fuel s).1 ≠ OutOfFuel.

Lemma listing_ends fetch what q off lim s :
  progresses fetch →
  ends_after (pages_left (env s) q) (λ fuel,
    '(clusters, err) ← fetch_pages fetch what fuel q [];
    match err with
    | Some e => mret ([], 0, false, errorf e)
    | None => lift (paginate clusters off lim)
    end) s.
Proof.
  intros Hp fuel Hf. destruct (fetch_pages_ends fetch what fuel (S (pages_left (env s) q))
    q [] s Hp Hf ltac:(lia)) as [E1 Hend].
  unfold mbind, M_bind. rewrite <- E1. split; [done|].
  destruct (fetch_pages fetch what fuel q [] s) as [[[cs [e|]]|msg|] s']; [done| |done..]. apply paginate_ends.
Qed.

(** C15: The loops of ListClusters and ListClustersWithFilter over the pages of
    DynamoDB end for every registry and every parameters: there is a number of
    rounds, from DynamoDB's promise that each key it hands out leads further,
    after which they have returned or panicked, with a result that does not
    depend on the fuel. *)
Theorem listings_terminate off lim rg en st up f s :
  (∃ n, ends_after n (λ fuel, ListClusters d fuel off lim rg en st up) s) ∧
  (∃ n, ends_after n (λ fuel, ListClustersWithFilter local d fuel off lim f) s).
Proof.
  assert (∀ p : page, ∃ n, ends_after n (λ _, mret p) s) as Hret by (intros p; by exists 0%nat).
  split; [unfold ListClusters|unfold ListClustersWithFilter].
  - destruct (list_filter rg en st up) as [filter [e|]]; [apply Hret|].
    destruct (BuildExpr _ filter); [apply Hret|]. eexists. apply listing_ends, Query_progresses.
  - destruct (Build local f) as [filter [e|]]; [apply Hret|].
    destruct (BuildExpr _ filter); [apply Hret|]. eexists. apply listing_ends, Scan_progresses.
Qed.
End termination.

(** A registry whose next read fails. *)
Definition faulty_registry : St Mem :=
  mkSt (mkMem (tables (env sample_registry)) [true] None) zeroMetrics.
Definition c1_new : Cluster := update_Spec (set_RegisteredAt "2024-07-01T00:00:00Z") c1_moved.

Lemma registration_date_lost_witness :
  ∃ s', specs sample_db s' !! "ethos01-prod-va6" = Some (norm_spec (Spec c1_new)) ∧
    RegisteredAt (norm_spec (Spec c1_new)) ≠ RegisteredAt (Spec c1).
Proof.
  exists (PutCluster sample_db c1_new faulty_registry).2. split; [|done].
  refine (registration_date_lost sample_db c1_new faulty_registry _ _ c1_new _ sample_registry_wf _ _).
  - vm_compute. reflexivity.
  - vm_compute. reflexivity.
Defined.

Lemma same_day_never_less_witness :
  ∃ it d t, UnmarshalMap it = (cluster_item c1 t, None) ∧
    Parse "2024-05-01T20:00:00Z" = Some d ∧ Before t d = true ∧
    eval (comparison local_utc (mkFilterCondition "lastUpdated" "<" "2024-05-01T20:00:00Z")) it = false.
Proof.
  destruct (Parse "2024-05-01T20:00:00Z") as [d|] eqn:Hd; [|done].
  destruct (Parse (LastUpdated (Spec c1))) as [t|] eqn:Ht; [|done].
  exists (cluster_item c1 t), d, t. split; [reflexivity|]. split; [done|].
  vm_compute in Hd, Ht. simplify_eq. split; [reflexivity|].
  eapply (same_day_never_less local_utc _ _ (mkTime 1714557600 0 UTC) (mkTime 1714593600 0 UTC)).
  - reflexivity.
  - vm_compute. reflexivity.
  - vm_compute. reflexivity.
  - reflexivity.
  - reflexivity.
Defined.

Lemma Build_spec_witness :
  (Build local_utc (AddCondition (mkFilterCondition "region" "=" "va6") NewDynamoDBFilter)).2 = None.
Proof.
  apply (Build_spec (E := Mem) local_utc (AddCondition (mkFilterCondition "region" "=" "va6") NewDynamoDBFilter)).
  repeat constructor.
Defined.
