(* ===== verification/Db.v ===== *)
(** The interface [Db] of pkg/database (type Db interface), which the HTTP
    handlers and the event handler are written against, the contract they
    rely on, and its two implementations: the DynamoDB tables of Database.v,
    and a plain map whose reads and writes can be made to fail. *)
From stdpp Require Import base gmap strings list option numbers sets.
From S2P Require Import Prelude GoStrings GoTime Registry Monitoring DynamoDB Filter Database.

Local Open Scope Z_scope.

(** The calls.  A listing runs on fuel, one unit a page. *)
Class Db (S : Type) := {
  db_GetCluster : string → M S (option Cluster * error);
  db_ListClusters : nat → Z → Z → string → string → string → string → M S page;
  db_ListClustersWithFilter : nat → Z → Z → DynamoDBFilter → M S page;
  (** With the object as the call leaves it. *)
  db_PutCluster : Cluster → M S (Cluster * error);
  db_DeleteCluster : string → M S error;
  db_Status_ : M S error;
  db_ListClustersWithService : nat → string → Z → Z → string → string → string → string → M S page;
  db_ListClustersWithServiceAndFilter : nat → string → Z → Z → DynamoDBFilter → M S page;
  db_GetClusterWithService : string → string → M S (option Cluster * error) }.

(** The contract: a map from names to specifications, in the states the calls
    lead to.  [db_specs] has every write; a read shows one of the values
    [db_visible], the latest or one that a write has not replaced everywhere yet;
    in a settled state it has. *)
Class DbLaws (S : Type) `{Db S} := {
  db_inv : S → Prop;
  db_specs : S → gmap string ClusterSpec;
  db_visible : S → string → option ClusterSpec → Prop;
  db_settled : S → Prop;
  (** Fuel that a listing needs. *)
  db_pages : S → string → string → string → string → nat;

  db_visible_specs s n : db_visible s n (db_specs s !! n);
  db_settled_visible s n o : db_settled s → db_visible s n o → o = db_specs s !! n;
  db_keyed s n sp : db_inv s → db_visible s n (Some sp) →
    Name sp = n ∧ is_Some (Parse (LastUpdated sp));
  db_GetCluster_law n s : db_inv s →
    ∃ r err s', db_GetCluster n s = (Ret (r, err), s') ∧ db_inv s' ∧ db_specs s' = db_specs s ∧
      (∀ n o, db_visible s' n o → db_visible s n o) ∧
      (err = None → db_visible s n (Spec <$> r)) ∧ (err ≠ None → r = None);
  (** A write keeps the registration date it saw, stores the specification
      up to empty collections, and reports an error whether or not it
      happened. *)
  db_PutCluster_law c s : db_inv s →
    ∃ c' err s', db_PutCluster c s = (Ret (c', err), s') ∧ db_inv s' ∧
      (∀ n o, db_visible s' n o → db_visible s n o ∨ o = db_specs s' !! n) ∧
      match Parse (LastUpdated (Spec c)) with
      | None => err ≠ None ∧ db_specs s' = db_specs s
      | Some _ =>
         ∃ seen, (db_visible s (Name (Spec c)) seen ∨ seen = None) ∧
           Spec c' = stored seen (Spec c) ∧
           (err = None → db_specs s' = <[Name (Spec c) := norm_spec (Spec c')]> (db_specs s)) ∧
           (err ≠ None → db_specs s' = db_specs s ∨
              db_specs s' = <[Name (Spec c) := norm_spec (Spec c')]> (db_specs s))
      end;
  (** A listing that succeeds is cut out of a list of clusters, in a settled state
      out of those of the registry. *)
  db_ListClusters_law fuel off lim rg en st up s :
    db_inv s → (db_pages s rg en st up < fuel)%nat → up = "" ∨ is_Some (Parse up) →
    ∃ o s', db_ListClusters fuel off lim rg en st up s = (o, s') ∧ db_inv s' ∧
      db_specs s' = db_specs s ∧
      ((∃ e, o = Ret ([], 0, false, Some e)) ∨
       (∃ all, o = paginate all off lim ∧
          (db_settled s → Spec <$> all ≡ₚ
            filter (λ sp, selected rg en st up sp = true) (map_to_list (db_specs s)).*2)));
  db_ListClusters_bad_time fuel off lim rg en st up s :
    up ≠ "" → Parse up = None →
    ∃ e, db_ListClusters fuel off lim rg en st up s = (Ret ([], 0, false, Some e), s);
  db_ListClustersWithFilter_frame fuel off lim f s :
    db_inv s → let s' := (db_ListClustersWithFilter fuel off lim f s).2 in
    db_inv s' ∧ db_specs s' = db_specs s;
  db_Status_law s : db_inv s →
    ∃ err s', db_Status_ s = (Ret err, s') ∧ db_inv s' ∧ db_specs s' = db_specs s;
  db_GetClusterWithService_law sid n s : db_inv s →
    ∃ r err s', db_GetClusterWithService sid n s = (Ret (r, err), s') ∧ db_inv s' ∧
      db_specs s' = db_specs s ∧
      (err = None → ∃ o, db_visible s n o ∧ Spec <$> r = o ≫= service_spec sid) ∧ (err ≠ None → r = None) }.

(** Reads of a cluster show its entry. *)
Definition db_current {W : Type} `{DbLaws W} (s : W) (n : string) : Prop :=
  ∀ o, db_visible s n o → o = db_specs s !! n.

Section current.
Context {W : Type} `{DbLaws W}.
Implicit Types (s : W).

Lemma settled_current s n : db_settled s → db_current s n.
Proof. intros Hs o. by apply db_settled_visible. Qed.

(** A read of a current cluster finds its entry. *)
Lemma db_GetCluster_current n s :
  db_inv s → db_current s n →
  ∃ r err s', db_GetCluster n s = (Ret (r, err), s') ∧ db_inv s' ∧ db_specs s' = db_specs s ∧
    (err = None → Spec <$> r = db_specs s !! n) ∧ (err ≠ None → r = None).
Proof.
  intros Hinv Hcur. destruct (db_GetCluster_law n s Hinv) as (r & err & s' & Hg & Hi & Hs & _ & Hr & He).
  exists r, err, s'. split_and!; [done..| |done]. intros Hn. by apply Hcur, Hr.
Qed.

End current.

(** ** The DynamoDB implementation *)

Section dynamo.
Context `{DynamoDBLaws E} (local : Z → Z → option string) (tbl idx : string).

Instance DynamoDb : Db (St E) := {
  db_GetCluster := GetCluster (NewDb tbl idx);
  db_ListClusters := ListClusters (NewDb tbl idx);
  db_ListClustersWithFilter := ListClustersWithFilter local (NewDb tbl idx);
  db_PutCluster := PutCluster (NewDb tbl idx);
  db_DeleteCluster := DeleteCluster (NewDb tbl idx);
  db_Status_ := Status (NewDb tbl idx);
  db_ListClustersWithService := ListClustersWithService (NewDb tbl idx);
  db_ListClustersWithServiceAndFilter := ListClustersWithServiceAndFilter local (NewDb tbl idx);
  db_GetClusterWithService := GetClusterWithService (NewDb tbl idx) }.

(** Database.v meets the contract. *)
Instance DynamoDbLaws : DbLaws (St E).
Proof.
  refine {| db_inv := wf (NewDb tbl idx); db_specs := specs (NewDb tbl idx);
    db_visible := shown (NewDb tbl idx);
    db_settled := settled (NewDb tbl idx); db_pages := list_pages (NewDb tbl idx) |}.
  - apply shown_specs.
  - intros s n o. apply settled_shown.
  - intros s n sp. apply shown_keyed.
  - intros n s Hwf. destruct (GetCluster_run (NewDb tbl idx) n s Hwf) as (r & err & s' & Hrun & Ht & Hok & He).
    exists r, err, s'. split_and!; [done|by eapply unchanged_wf|by apply unchanged_specs| |done|].
    + intros k o. by apply unchanged_shown.
    + intros Hn. by destruct (He Hn).
  - intros c s Hwf. destruct (PutCluster_run (NewDb tbl idx) c s Hwf) as (c' & err & s' & Hrun & Hwf' & Hsh & Hm).
    exists c', err, s'. split_and!; [done..|]. destruct (Parse _); [done|]. destruct Hm as [? ->]. done.
  - intros fuel off lim rg en st up s Hwf Hf Hup.
    destruct (ListClusters_run (NewDb tbl idx) eq_refl fuel off lim rg en st up s Hwf Hf Hup)
      as (o & s' & Hrun & Ht & Hc). exists o, s'.
    split_and!; [done|by eapply unchanged_wf|by apply unchanged_specs|].
    destruct Hc as [(er & _ & ->)|(_ & all & -> & Hall)]; [left; by eexists|right].
    by exists all.
  - intros fuel off lim rg en st up s Hup Hp. cbn. unfold ListClusters, list_filter.
    rewrite (bool_decide_eq_true_2 (up ≠ "")) by done. rewrite Hp. eexists. reflexivity.
  - intros fuel off lim f s Hwf. cbn zeta. cbn [db_ListClustersWithFilter DynamoDb].
    pose proof (frames_ListClustersWithFilter local (NewDb tbl idx) fuel off lim f s) as Hf.
    split; [by eapply unchanged_wf|by apply unchanged_specs].
  - intros s Hwf. cbn [db_Status_ DynamoDb]. pose proof (frames_Status (NewDb tbl idx) s) as Hf.
    destruct (Status_run (NewDb tbl idx) s) as (err & s' & Hrun). rewrite Hrun in *. exists err, s'.
    split_and!; [done|by eapply unchanged_wf|by apply unchanged_specs].
  - intros sid n s Hwf.
    destruct (GetClusterWithService_run (NewDb tbl idx) sid n s Hwf) as (r & err & s' & Hrun & Ht & Hok & He).
    exists r, err, s'. split_and!; [done|by eapply unchanged_wf|by apply unchanged_specs|done|done].
Defined.
End dynamo.
