(* ===== verification/Sqs.v ===== *)
(** pkg/sqs: messages and events (event.go), the queue client (sqs.go).

    The AWS client is the parameter [SQSService]; what the theorems need of it
    is named in [SQSServiceLaws]. *)
From stdpp Require Import base gmap strings list option numbers sets relations.
From S2P Require Import Prelude GoStrings.

Local Open Scope Z_scope.

(** ** Messages (type Message of the AWS SDK): every field is a pointer *)

Record MessageAttributeValue := mkAttr { DataType : option string; StringValue : option string }.

Record Message := mkMessage {
  MessageId : option string;
  ReceiptHandle : option string;
  Body : option string;
  Attributes : gmap string (option string);
  MessageAttributes : gmap string (option MessageAttributeValue) }.

(** [m[k]] of a map to pointers: nil when the key is missing. *)
Definition ptr_at {V} (m : gmap string (option V)) (k : string) : option V := m !! k ≫= id.

(** ** pkg/sqs/event.go *)

Definition MessageAttributeType : string := "Type".
Definition MessageAttributeClusterName : string := "ClusterName".
Definition MessageAttributeSkipCacheInvalidation : string := "SkipCacheInvalidation".
Definition ClusterUpdateEvent : string := "cluster-update".
Definition PartialClusterUpdateEvent : string := "partial-cluster-update".

Record Event := mkEvent { ev_Type : string; ev_Message : option Message }.

Definition NewEvent (msg : option Message) : outcome (option Event * error) :=
  match msg with
  | None => Ret (None, errorf "empty message")
  | Some m =>
     match ptr_at (MessageAttributes m) MessageAttributeType with
     | None => Ret (None, errorf "missing event type")
     | Some a =>
        match deref (StringValue a) with
        | Ret eventType =>
           if negb (contains eventType [ClusterUpdateEvent; PartialClusterUpdateEvent])
           then Ret (None, errorf "invalid event type")
           else Ret (Some (mkEvent eventType msg), nil_error)
        | Panic p => Panic p
        | OutOfFuel => OutOfFuel
        end
     end
  end.

(** An event is made exactly from a message with a string attribute Type of
    one of the two kinds; an attribute without a string value panics. *)
Lemma NewEvent_spec m :
  NewEvent (Some m) =
    match MessageAttributes m !! MessageAttributeType with
    | Some (Some a) =>
       match StringValue a with
       | Some t => if decide (t = ClusterUpdateEvent ∨ t = PartialClusterUpdateEvent)
                   then Ret (Some (mkEvent t (Some m)), None)
                   else Ret (None, Some "invalid event type")
       | None => Panic "invalid memory address or nil pointer dereference"
       end
    | _ => Ret (None, Some "missing event type")
    end.
Proof.
  unfold NewEvent, ptr_at.
  destruct (MessageAttributes m !! MessageAttributeType) as [[a|]|]; cbn; try done.
  destruct (StringValue a) as [t|]; cbn; [|done].
  destruct (bool_decide (ClusterUpdateEvent = t)) eqn:H1;
    [|destruct (bool_decide (PartialClusterUpdateEvent = t)) eqn:H2];
    rewrite ?bool_decide_eq_true, ?bool_decide_eq_false in *; case_decide; naive_solver.
Qed.

(** ** The configuration and client of a queue (type Config) *)

Record Config := mkConfig {
  AWSRegion : string;
  QueueName : string;
  Endpoint : string;
  QueueURL : string;
  MaxRetries : Z;
  BatchSize : Z;
  WaitSeconds : Z;
  VisibilityTimeout : Z;
  RunOnce : bool;
  RunInterval : Z;
  MaxHandlers : Z;
  BusyTimeout : Z;
  (** Whether there is a service connection. *)
  svc : bool;
  (** Whether a handler is registered. *)
  has_handler : bool }.

Definition set_QueueURL (u : string) (c : Config) : Config :=
  mkConfig (AWSRegion c) (QueueName c) (Endpoint c) u (MaxRetries c) (BatchSize c) (WaitSeconds c)
    (VisibilityTimeout c) (RunOnce c) (RunInterval c) (MaxHandlers c) (BusyTimeout c) (svc c) (has_handler c).
Definition set_svc (c : Config) : Config :=
  mkConfig (AWSRegion c) (QueueName c) (Endpoint c) (QueueURL c) (MaxRetries c) (BatchSize c) (WaitSeconds c)
    (VisibilityTimeout c) (RunOnce c) (RunInterval c) (MaxHandlers c) (BusyTimeout c) true (has_handler c).
Definition RegisterHandler (c : Config) : Config :=
  mkConfig (AWSRegion c) (QueueName c) (Endpoint c) (QueueURL c) (MaxRetries c) (BatchSize c) (WaitSeconds c)
    (VisibilityTimeout c) (RunOnce c) (RunInterval c) (MaxHandlers c) (BusyTimeout c) (svc c) true.

Definition validateConfig (cfg : Config) : error :=
  if bool_decide (AWSRegion cfg = "") then errorf "AWSRegion is required"
  else if bool_decide (Endpoint cfg = "") && bool_decide (QueueURL cfg = "")
  then errorf "A valid SQS Endpoint is required"
  else if bool_decide (QueueName cfg = "") && bool_decide (QueueURL cfg = "")
  then errorf "A valid SQS Queue Name is required"
  else if bool_decide (QueueURL cfg = "") && bool_decide (Endpoint cfg = "") && bool_decide (QueueName cfg = "")
  then errorf "A valid SQS Queue URL is required"
  else if (BatchSize cfg <? 0) || (10 <? BatchSize cfg) then errorf "BatchSize should be between 1-10"
  else if (WaitSeconds cfg <? 0) || (20 <? WaitSeconds cfg) then errorf "WaitSeconds should be between 1-20"
  else if (VisibilityTimeout cfg <? 0) || (12 * 60 * 60 <? VisibilityTimeout cfg)
  then errorf "VisibilityTimeout should be between 1-43200"
  else nil_error.

(** ** The AWS service *)

Record SendMessageBatchRequestEntry := mkEntry {
  entry_Id : string;
  entry_DelaySeconds : Z;
  entry_MessageBody : string;
  entry_MessageAttributes : gmap string string }.

(** The result of a batch: the entries that failed and those that did not. *)
Record BatchResult := mkBatchResult { Failed : list string; Successful : list string }.

Class SQSService (W : Type) := {
  svc_GetQueueUrl : string → M W (option string * error);
  svc_SendMessageBatch : string → list SendMessageBatchRequestEntry → M W (BatchResult * error);
  svc_DeleteMessage : string → option string → M W error;
  svc_ChangeMessageVisibility : string → string → Z → M W error }.

Section queue.
Context `{SQSService W}.

(** The session and the client of the SDK are made without an error here:
    the code checks them for nil and [session.Must] ends the program. *)
Definition NewSQS (cfg : Config) : M W (option Config * error) :=
  match validateConfig cfg with
  | Some e => mret (None, errorf e)
  | None =>
     if bool_decide (QueueURL cfg = "")
     then
       '(url, err) ← svc_GetQueueUrl (QueueName cfg);
       match err with
       | Some _ => mret (None, errorf "unable to get queue name")
       | None =>
          url ← lift (deref url);
          mret (Some (set_svc (set_QueueURL url cfg)), nil_error)
       end
     else mret (Some (set_svc cfg), nil_error)
  end.

Definition Enqueue (s : Config) (msgBatch : list SendMessageBatchRequestEntry) : M W error :=
  if negb (svc s) then mret (errorf "no service connection")
  else
    '(result, err) ← svc_SendMessageBatch (QueueURL s) msgBatch;
    match err with
    | Some e => mret (errorf e)
    | None => mret nil_error
    end.

Definition Delete (s : Config) (msg : Message) : M W error :=
  _ ← lift (deref (MessageId msg));
  if negb (svc s) then panic "invalid memory address or nil pointer dereference"
  else svc_DeleteMessage (QueueURL s) (ReceiptHandle msg).

Definition ChangeVisibilityTimeout (s : Config) (msg : Message) (seconds : Z) : M W bool :=
  _ ← lift (deref (MessageId msg));
  if negb (svc s) then mret false
  else
    receiptHandle ← lift (deref (ReceiptHandle msg));
    err ← svc_ChangeMessageVisibility (QueueURL s) receiptHandle seconds;
    mret (match err with None => true | Some _ => false end).

Definition sqs_Status (s : Config) : M W error :=
  if negb (svc s) then panic "invalid memory address or nil pointer dereference"
  else '(_, err) ← svc_GetQueueUrl (QueueName s); mret err.
End queue.

(** A configuration is valid exactly when it names a region, a queue to
    be found (a URL, or an endpoint and a name), and a batch of at most 10
    messages, a wait of at most 20 seconds and a visibility timeout of at most
    12 hours, none of them negative; zero passes, although the messages ask
    for at least 1. *)
Theorem validateConfig_spec cfg :
  validateConfig cfg = None ↔
    AWSRegion cfg ≠ "" ∧ (QueueURL cfg ≠ "" ∨ Endpoint cfg ≠ "" ∧ QueueName cfg ≠ "") ∧
    0 ≤ BatchSize cfg ≤ 10 ∧ 0 ≤ WaitSeconds cfg ≤ 20 ∧ 0 ≤ VisibilityTimeout cfg ≤ 43200.
Proof.
  unfold validateConfig.
  destruct (bool_decide_reflect (AWSRegion cfg = "")); [split; [done|tauto]|].
  destruct (bool_decide_reflect (Endpoint cfg = "")), (bool_decide_reflect (QueueURL cfg = "")),
    (bool_decide_reflect (QueueName cfg = "")); cbn [andb]; try (split; [done|tauto]);
    destruct (Z.ltb_spec (BatchSize cfg) 0), (Z.ltb_spec 10 (BatchSize cfg)),
    (Z.ltb_spec (WaitSeconds cfg) 0), (Z.ltb_spec 20 (WaitSeconds cfg)),
    (Z.ltb_spec (VisibilityTimeout cfg) 0), (Z.ltb_spec (12 * 60 * 60) (VisibilityTimeout cfg));
    cbn [orb]; (split; [intros Hx; try discriminate Hx|intros; try lia; try reflexivity]); split_and!; tauto || lia.
Qed.

(** ** Poll: the loop and the goroutines it starts

    A step is one access to the shared [handlerCount], or one call.  The loop
    increments the count without taking the mutex, so reading and writing it
    are two steps ([P_read], [P_spawn]); the end of a handler decrements it
    under the mutex ([G_lock], [G_unlock], the latter with [wg.Done]).  The
    parameter [serial] tells runs in which an increment and a decrement may
    overlap ([false], what the source allows) from those in which they do
    not. *)

Inductive pc :=
  | Top
  | Capacity
  | Receiving (maxMsgs : Z)
  | Dispatch (ms : list Message)
  | Bump (c : Z) (m : Message) (ms : list Message)
  | Draining
  | Stopped.

Record PollState := mkPoll {
  at_ : pc;
  handlerCount : Z;
  running : list Message;
  (** The goroutine that holds the mutex, with the count it has read. *)
  lock : option (Z * Message);
  handled : list Message }.

Definition poll_init : PollState := mkPoll Top 0 [] None [].

(** The messages to ask for. *)
Definition max_messages (s : Config) (count : Z) : Z :=
  let maxMsgs := BatchSize s in
  if 0 <? MaxHandlers s
  then let availableHandlers := MaxHandlers s - count in
       if availableHandlers <? maxMsgs then availableHandlers else maxMsgs
  else maxMsgs.

Definition at_capacity (s : Config) (count : Z) : bool := (0 <? MaxHandlers s) && (MaxHandlers s <=? count).

Inductive poll_step (s : Config) (serial : bool) : PollState → PollState → Prop :=
  | P_busy n rs l h : at_capacity s n = true →
     poll_step s serial (mkPoll Top n rs l h) (mkPoll Top n rs l h)
  | P_free n rs l h : at_capacity s n = false →
     poll_step s serial (mkPoll Top n rs l h) (mkPoll Capacity n rs l h)
  | P_poll n rs l h :
     poll_step s serial (mkPoll Capacity n rs l h) (mkPoll (Receiving (max_messages s n)) n rs l h)
  (** SQS takes a maximum of 1 to 10 messages and returns no more. *)
  | P_receive k ms n rs l h : 1 ≤ k ≤ 10 → Z.of_nat (length ms) ≤ k →
     poll_step s serial (mkPoll (Receiving k) n rs l h) (mkPoll (Dispatch ms) n rs l h)
  | P_error k n rs l h :
     poll_step s serial (mkPoll (Receiving k) n rs l h) (mkPoll Draining n rs l h)
  | P_skip m ms n rs l h : has_handler s = false →
     poll_step s serial (mkPoll (Dispatch (m :: ms)) n rs l h) (mkPoll (Dispatch ms) n rs l h)
  | P_read m ms n rs l h : has_handler s = true → (serial = true → l = None) →
     poll_step s serial (mkPoll (Dispatch (m :: ms)) n rs l h) (mkPoll (Bump n m ms) n rs l h)
  | P_spawn c m ms n rs l h :
     poll_step s serial (mkPoll (Bump c m ms) n rs l h) (mkPoll (Dispatch ms) (c + 1) (m :: rs) l h)
  | P_next n rs l h : RunOnce s = false →
     poll_step s serial (mkPoll (Dispatch []) n rs l h) (mkPoll Top n rs l h)
  | P_once n rs l h : RunOnce s = true →
     poll_step s serial (mkPoll (Dispatch []) n rs l h) (mkPoll Draining n rs l h)
  | P_wait n h :
     poll_step s serial (mkPoll Draining n [] None h) (mkPoll Stopped n [] None h)
  | G_lock p n rs1 m rs2 h : (serial = true → ∀ c m ms, p ≠ Bump c m ms) →
     poll_step s serial (mkPoll p n (rs1 ++ m :: rs2) None h) (mkPoll p n (rs1 ++ rs2) (Some (n, m)) h)
  | G_unlock p n rs c m h :
     poll_step s serial (mkPoll p n rs (Some (c, m)) h) (mkPoll p (c - 1) rs None (m :: h)).

(** The handlers that have not ended. *)
Definition live (p : PollState) : Z :=
  Z.of_nat (length (running p)) + (match lock p with Some _ => 1 | None => 0 end).

(** The handlers the loop may still start before it checks the capacity. *)
Definition pending (p : pc) : Z :=
  match p with
  | Receiving k => Z.max 0 k
  | Dispatch ms => Z.of_nat (length ms)
  | Bump _ _ ms => 1 + Z.of_nat (length ms)
  | _ => 0
  end.

Lemma pending_nonneg p : 0 ≤ pending p.
Proof. destruct p; cbn; lia. Qed.

Lemma max_messages_bound s n :
  0 < MaxHandlers s → n < MaxHandlers s → n + Z.max 0 (max_messages s n) ≤ MaxHandlers s.
Proof.
  intros H0 Hn. unfold max_messages. rewrite (proj2 (Z.ltb_lt _ _)) by done.
  destruct (Z.ltb_spec (MaxHandlers s - n) (BatchSize s)); lia.
Qed.

Lemma at_capacity_false s n : 0 < MaxHandlers s → at_capacity s n = false ↔ n < MaxHandlers s.
Proof.
  intros H0. unfold at_capacity. rewrite (proj2 (Z.ltb_lt _ _)) by done. simpl.
  rewrite Z.leb_gt. done.
Qed.

(** What holds of the count when increments exclude decrements. *)
Definition serial_inv (s : Config) (p : PollState) : Prop :=
  handlerCount p = live p ∧ live p + pending (at_ p) ≤ MaxHandlers s ∧
  (at_ p = Capacity → handlerCount p < MaxHandlers s) ∧
  (∀ c m ms, at_ p = Bump c m ms → c = handlerCount p ∧ lock p = None) ∧
  (∀ c m, lock p = Some (c, m) → c = handlerCount p).

Lemma serial_inv_step s p p' :
  0 < MaxHandlers s → poll_step s true p p' → serial_inv s p → serial_inv s p'.
Proof.
  unfold serial_inv, live. intros H0 Hstep (Hc & Hb & Hcap & Hbump & Hlock).
  destruct Hstep; cbn [at_ handlerCount running lock pending length] in *;
    rewrite ?length_app in *; cbn [length] in *.
  - auto.
  - split_and!; auto; try done. intros _. by apply at_capacity_false.
  - pose proof (max_messages_bound s n H0 (Hcap eq_refl)). split_and!; auto; try done. lia.
  - split_and!; auto; try done. lia.
  - split_and!; auto; try done. lia.
  - split_and!; auto; try done. lia.
  - split_and!; auto; try done; [lia|]. intros c m' ms' [= <- <- <-]. auto.
  - destruct (Hbump _ _ _ eq_refl) as [-> ->]. split_and!; auto; try done; lia.
  - split_and!; auto; done.
  - split_and!; auto; done.
  - split_and!; auto; done.
  - split_and!; [lia|lia|done| |]; [|by intros c m' [= <- <-]].
    intros c m' ms' Hp. by destruct (H eq_refl c m' ms').
  - pose proof (Hlock _ _ eq_refl). subst c. split_and!; [lia|lia| | |done].
    + intros Hp. specialize (Hcap Hp). lia.
    + intros c' m' ms' Hp. by destruct (Hbump _ _ _ Hp).
Qed.

(** C30: In a run whose increments of [handlerCount] do not overlap its
    decrements, the count is the number of handlers that have not ended, and
    that number never exceeds MaxHandlers. *)
Theorem poll_bounded s p :
  0 < MaxHandlers s → rtc (poll_step s true) poll_init p →
  handlerCount p = live p ∧ live p ≤ MaxHandlers s.
Proof.
  intros H0 Hrun.
  assert (serial_inv s p) as (Hc & Hb & _).
  { assert (serial_inv s poll_init) as Hinit by (unfold serial_inv, live; cbn; split_and!; try done; lia).
    induction Hrun; eauto using serial_inv_step. }
  split; [done|]. destruct (at_ p); cbn in Hb; lia.
Qed.

(** What holds of the count in every run. *)
Definition race_inv (s : Config) (p : PollState) : Prop :=
  handlerCount p + pending (at_ p) ≤ MaxHandlers s ∧
  (live p = 0 → handlerCount p < MaxHandlers s) ∧
  (at_ p = Capacity → handlerCount p < MaxHandlers s) ∧
  (∀ c m ms, at_ p = Bump c m ms →
     handlerCount p ≤ c ∧ c + 1 + Z.of_nat (length ms) ≤ MaxHandlers s) ∧
  (∀ c m, lock p = Some (c, m) → c ≤ handlerCount p).

Lemma race_inv_step s b p p' :
  0 < MaxHandlers s → poll_step s b p p' → race_inv s p → race_inv s p'.
Proof.
  unfold race_inv, live. intros H0 Hstep (Hb & Hidle & Hcap & Hbump & Hlock).
  destruct Hstep; cbn [at_ handlerCount running lock pending length] in *;
    rewrite ?length_app in *; cbn [length] in *.
  - auto.
  - split_and!; auto; try done. intros _. by apply at_capacity_false.
  - pose proof (max_messages_bound s n H0 (Hcap eq_refl)). split_and!; auto; try done.
  - split_and!; auto; try done. lia.
  - split_and!; auto; try done. lia.
  - split_and!; auto; try done. lia.
  - split_and!; auto; try done; [lia|]. intros c m' ms' [= <- <- <-]. lia.
  - destruct (Hbump _ _ _ eq_refl) as [? ?].
    split_and!; [lia|destruct l; lia|done|done|].
    intros c' m' Hl. specialize (Hlock _ _ Hl). lia.
  - split_and!; auto; done.
  - split_and!; auto; done.
  - split_and!; auto; done.
  - split_and!; auto; [lia|]. by intros c m' [= <- <-].
  - pose proof (Hlock _ _ eq_refl). pose proof (pending_nonneg p).
    split_and!; [lia|intros; lia|intros Hp; specialize (Hcap Hp); lia| |done].
    intros c' m' ms' Hp. destruct (Hbump _ _ _ Hp). lia.
Qed.

(** C31: Races included, the loop never waits for handlers that are not
    there: whenever no handler is left, the count is below MaxHandlers, so
    the capacity check lets the next batch through. *)
Theorem poll_never_stuck s p :
  0 < MaxHandlers s → rtc (poll_step s false) poll_init p → live p = 0 →
  at_capacity s (handlerCount p) = false.
Proof.
  intros H0 Hrun Hl.
  assert (race_inv s p) as (_ & Hidle & _).
  { assert (race_inv s poll_init) as Hinit by (unfold race_inv, live; cbn; split_and!; try done; lia).
    induction Hrun; eauto using race_inv_step. }
  apply at_capacity_false; auto.
Qed.

(** A queue client of two handlers and batches of two. *)
Definition two_handlers : Config :=
  mkConfig "us-west-2" "queue" "http://sqs" "http://sqs/queue" 0 2 20 120 false 30 2 30 true true.
Definition msg (id : string) : Message := mkMessage (Some id) (Some id) None ∅ ∅.

(** Because the increment is not under the mutex, it can be lost to the
    decrement of a handler that ends at the same time, and the limit does not
    hold: two handlers are allowed here, and three run. *)
Theorem poll_limit_exceeded :
  ∃ p, rtc (poll_step two_handlers false) poll_init p ∧ MaxHandlers two_handlers < live p.
Proof.
  exists (mkPoll (Dispatch []) 2 [msg "4"; msg "3"; msg "2"] None [msg "1"]). split; [|done].
  eapply rtc_l; [apply P_free; reflexivity|].
  eapply rtc_l; [apply P_poll|].
  eapply rtc_l; [apply (P_receive _ _ _ [msg "1"; msg "2"]); by vm_compute|].
  eapply rtc_l; [by apply P_read|].
  eapply rtc_l; [apply P_spawn|].
  eapply rtc_l; [by apply P_read|].
  eapply rtc_l; [apply (G_lock _ _ _ _ [] _ []); done|].
  eapply rtc_l; [apply P_spawn|].
  eapply rtc_l; [apply G_unlock|].
  eapply rtc_l; [apply P_next; reflexivity|].
  eapply rtc_l; [apply P_free; reflexivity|].
  eapply rtc_l; [apply P_poll|].
  eapply rtc_l; [apply (P_receive _ _ _ [msg "3"; msg "4"]); by vm_compute|].
  eapply rtc_l; [by apply P_read|].
  eapply rtc_l; [apply P_spawn|].
  eapply rtc_l; [by apply P_read|].
  eapply rtc_l; [apply P_spawn|].
  apply rtc_refl.
Qed.

Lemma poll_bounded_witness :
  handlerCount (mkPoll (Dispatch []) 1 [msg "1"] None []) = 1 ∧ 1 ≤ 2.
Proof.
  apply (poll_bounded two_handlers (mkPoll (Dispatch []) 1 [msg "1"] None [])).
  - done.
  - eapply rtc_l; [apply P_free; reflexivity|].
    eapply rtc_l; [apply P_poll|].
    eapply rtc_l; [apply (P_receive _ _ _ [msg "1"]); by vm_compute|].
    eapply rtc_l; [by apply P_read|].
    eapply rtc_l; [apply P_spawn|]. apply rtc_refl.
Defined.

Lemma poll_never_stuck_witness : at_capacity two_handlers 0 = false.
Proof.
  apply (poll_never_stuck two_handlers (mkPoll Capacity 0 [] None [])).
  - done.
  - eapply rtc_l; [apply P_free; reflexivity|]. apply rtc_refl.
  - done.
Defined.
