(* ===== verification/MemDb.v ===== *)
(** A world to run the API server in: a registry held in a map (an
    implementation of [Db]), the messages acknowledged, the cache and the
    patches sent to clusters.  A schedule says which of the next database
    calls fail, and reads go to an older copy of the registry while there is one.
    The witnesses of the handlers' theorems run on it. *)
From stdpp Require Import base gmap strings list option numbers sets.
From S2P Require Import Prelude GoStrings GoTime Registry Filter MemDynamo Database Db Sqs.

Local Open Scope Z_scope.

Record World := mkWorld {
  w_db : gmap string Cluster;
  w_faults : list bool;
  w_acked : list string;
  (** Keys with their values and tags. *)
  w_cache : gmap string (string * list string);
  w_patches : list (string * string);
  (** The copy that reads go to, when writes have not reached it. *)
  w_lagging : option (gmap string Cluster) }.

Definition emptyWorld : World := mkWorld ∅ [] [] ∅ [] None.

Definition set_db (f : gmap string Cluster → gmap string Cluster) (w : World) : World :=
  mkWorld (f (w_db w)) (w_faults w) (w_acked w) (w_cache w) (w_patches w) (w_lagging w).
Definition set_faults (f : list bool) (w : World) : World :=
  mkWorld (w_db w) f (w_acked w) (w_cache w) (w_patches w) (w_lagging w).
Definition set_acked (f : list string → list string) (w : World) : World :=
  mkWorld (w_db w) (w_faults w) (f (w_acked w)) (w_cache w) (w_patches w) (w_lagging w).
Definition set_cache (f : gmap string (string * list string) → gmap string (string * list string)) (w : World) : World :=
  mkWorld (w_db w) (w_faults w) (w_acked w) (f (w_cache w)) (w_patches w) (w_lagging w).
Definition set_patches (f : list (string * string) → list (string * string)) (w : World) : World :=
  mkWorld (w_db w) (w_faults w) (w_acked w) (w_cache w) (f (w_patches w)) (w_lagging w).

Definition set_lagging (l : option (gmap string Cluster)) (w : World) : World :=
  mkWorld (w_db w) (w_faults w) (w_acked w) (w_cache w) (w_patches w) l.

(** What reads see. *)
Definition w_copy (w : World) : gmap string Cluster := default (w_db w) (w_lagging w).

Definition take_fault : M World bool := λ w,
  match w_faults w with
  | b :: fs => (Ret b, set_faults fs w)
  | [] => (Ret false, w)
  end.

Definition mem_get (n : string) : M World (option Cluster * error) :=
  bad ← take_fault;
  if (bad : bool) then mret (None, errorf "read failed") else gets (λ w, (w_copy w !! n, nil_error)).

Definition mem_put (c : Cluster) : M World (Cluster * error) :=
  match Parse (LastUpdated (Spec c)) with
  | None => mret (c, errorf "bad time")
  | Some _ =>
     '(old, _) ← mem_get (Name (Spec c));
     let c := keep_registered old c in
     bad ← take_fault;
     if (bad : bool) then mret (c, errorf "write failed")
     else (_ ← modify (set_db (insert (Name (Spec c)) (update_Spec norm_spec c))); mret (c, nil_error))
  end.

Definition mem_list (rg en st up : string) (w : World) : list Cluster :=
  filter (λ c, selected rg en st up (Spec c) = true) (map_to_list (w_copy w)).*2.

Definition mem_page (off lim : Z) (rg en st up : string) : M World page :=
  if bool_decide (up ≠ "") && bool_decide (Parse up = None)
  then mret ([], 0, false, errorf "bad time")
  else
    bad ← take_fault;
    if (bad : bool) then mret ([], 0, false, errorf "query failed")
    else (all ← gets (mem_list rg en st up); lift (paginate all off lim)).

#[global] Instance MemDb : Db World := {
  db_GetCluster := mem_get;
  db_ListClusters fuel := mem_page;
  db_ListClustersWithFilter fuel off lim f := mem_page off lim "" "" "" "";
  db_PutCluster := mem_put;
  db_DeleteCluster n := (_ ← modify (set_db (delete n)); mret nil_error);
  db_Status_ := (bad ← take_fault; mret (if bad : bool then errorf "down" else nil_error));
  db_ListClustersWithService fuel sid off lim en rg st up :=
    '(cs, _, _, err) ← mem_page off lim en rg st up; mret (service_page sid off lim cs err);
  db_ListClustersWithServiceAndFilter fuel sid off lim f :=
    '(cs, _, _, err) ← mem_page off lim "" "" "" ""; mret (service_page sid off lim cs err);
  db_GetClusterWithService sid n :=
    '(c, err) ← mem_get n;
    mret (match err with Some e => (None, errorf e) | None => (c ≫= with_service sid, nil_error) end) }.

Definition keyed (m : gmap string Cluster) : Prop :=
  map_Forall (λ n c, Name (Spec c) = n ∧ is_Some (Parse (LastUpdated (Spec c)))) m.
Definition mem_ok (w : World) : Prop := keyed (w_db w) ∧ keyed (w_copy w).

Definition w_visible (w : World) (n : string) (o : option ClusterSpec) : Prop :=
  o = Spec <$> w_db w !! n ∨ o = Spec <$> w_copy w !! n.

Lemma take_fault_run w : ∃ b fs, take_fault w = (Ret b, set_faults fs w).
Proof.
  unfold take_fault. destruct (w_faults w) as [|b fs] eqn:Hf; [|eauto].
  exists false, []. by rewrite <- Hf; destruct w.
Qed.

Lemma mem_get_run n w :
  ∃ r err fs, mem_get n w = (Ret (r, err), set_faults fs w) ∧
    (err = None → r = w_copy w !! n) ∧ (err ≠ None → r = None).
Proof.
  unfold mem_get. destruct (take_fault_run w) as (b & fs & Hf). rewrite (bind_run _ _ _ _ _ Hf).
  destruct b; eexists _, _, fs; split_and!; try reflexivity; done.
Qed.

(** A write leaves an older copy as it is. *)
Lemma set_db_copy f w : w_copy (set_db f w) = match w_lagging w with Some _ => w_copy w | None => f (w_db w) end.
Proof. unfold w_copy. cbn. by destruct (w_lagging w). Qed.

Lemma mem_put_run c w :
  mem_ok w → ∃ c' err w', mem_put c w = (Ret (c', err), w') ∧ mem_ok w' ∧
    (∀ n o, w_visible w' n o → w_visible w n o ∨ o = (Spec <$> w_db w') !! n) ∧
    match Parse (LastUpdated (Spec c)) with
    | None => err ≠ None ∧ Spec <$> w_db w' = Spec <$> w_db w
    | Some _ =>
       ∃ seen, (w_visible w (Name (Spec c)) seen ∨ seen = None) ∧
         Spec c' = stored seen (Spec c) ∧
         (err = None → Spec <$> w_db w' = <[Name (Spec c) := norm_spec (Spec c')]> (Spec <$> w_db w)) ∧
         (err ≠ None → Spec <$> w_db w' = Spec <$> w_db w ∨
            Spec <$> w_db w' = <[Name (Spec c) := norm_spec (Spec c')]> (Spec <$> w_db w))
    end.
Proof.
  intros Hok. unfold mem_put. destruct (Parse (LastUpdated (Spec c))) as [lu|] eqn:Hp;
    [|eexists _, _, w; split_and!; [reflexivity|done..|by left|done|done]].
  destruct (mem_get_run (Name (Spec c)) w) as (r & err & fs & Hg & Hr & He).
  rewrite (bind_run _ _ _ _ _ Hg). set (c' := keep_registered r c).
  assert (Spec c' = stored (Spec <$> r) (Spec c)) as Hc' by apply Spec_keep_registered.
  assert (Name (Spec c') = Name (Spec c)) as Hn by (rewrite Hc'; apply stored_Name).
  assert (w_visible w (Name (Spec c)) (Spec <$> r) ∨ Spec <$> r = None) as Hseen.
  { destruct err; [right; by rewrite He|left; right; by rewrite Hr]. }
  destruct (take_fault_run (set_faults fs w)) as (b & fs' & Hf). rewrite (bind_run _ _ _ _ _ Hf).
  destruct b.
  - eexists _, _, _. split_and!; [reflexivity|done|by left|]. exists (Spec <$> r). split_and!; [done..|by left].
  - eexists _, _, _. split_and!; [reflexivity| | |].
    + assert (∀ m, keyed m → keyed (<[Name (Spec c') := update_Spec norm_spec c']> m)) as Hins.
      { intros m Hm. apply map_Forall_insert_2; [|done]. cbn. rewrite norm_spec_Name, norm_spec_LastUpdated, Hc',
          stored_Name, stored_LastUpdated, Hp. eauto. }
      destruct Hok as [Hdb Hcp]. split; [by apply Hins|]. rewrite set_db_copy. cbn [w_lagging set_faults].
      destruct (w_lagging w); [done|by apply Hins].
    + intros n o [Ho|Ho]; [right; by rewrite lookup_fmap|]. rewrite set_db_copy in Ho. cbn [w_lagging set_faults] in Ho.
      destruct (w_lagging w); [left; by right|right; by rewrite lookup_fmap].
    + exists (Spec <$> r). split_and!; [done..| |done]. intros _. cbn. rewrite fmap_insert. cbn.
      rewrite Hc', stored_Name. done.
Qed.

#[global] Instance MemDbLaws : DbLaws World.
Proof.
  refine {| db_inv := mem_ok; db_specs := λ w, Spec <$> w_db w; db_visible := w_visible;
    db_settled := λ w, w_copy w = w_db w; db_pages := λ _ _ _ _ _, 0%nat |}.
  - intros w n. left. by rewrite lookup_fmap.
  - intros w n o Hs [->| ->]; by rewrite lookup_fmap, ?Hs.
  - intros w n sp [Hdb Hcp] [Hsp|Hsp]; symmetry in Hsp; apply fmap_Some in Hsp as (c & Hc & ->); [by apply Hdb|by apply Hcp].
  - intros n w Hok. destruct (mem_get_run n w) as (r & err & fs & Hg & Hr & He).
    exists r, err, (set_faults fs w). split_and!; [done..| |done]. intros Hn. right. by rewrite Hr.
  - intros c w. apply mem_put_run.
  - intros fuel off lim rg en st up w Hok _ Hup. cbn. unfold mem_page.
    assert (bool_decide (up ≠ "") && bool_decide (Parse up = None) = false) as ->.
    { destruct Hup as [->|[t ->]]; [done|]. by rewrite andb_false_r. }
    destruct (take_fault_run w) as (b & fs & Hf). rewrite (bind_run _ _ _ _ _ Hf). destruct b.
    + eexists _, _. split_and!; [reflexivity|done|done|left; by eexists].
    + eexists _, _. split_and!; [reflexivity|done|done|right]. eexists. split; [reflexivity|]. intros Hs.
      unfold mem_list. change (w_copy (set_faults fs w)) with (w_copy w). rewrite Hs. cbn [w_db set_faults]. rewrite map_to_list_fmap, <- !list_fmap_compose.
      rewrite (list_fmap_ext _ (Spec ∘ snd)) by (by intros ? []). rewrite list_fmap_compose.
      generalize ((map_to_list (w_db w)).*2). intros l. induction l as [|c l IH]; [done|].
      rewrite fmap_cons, !filter_cons. case_decide; rewrite ?fmap_cons; by rewrite IH.
  - intros fuel off lim rg en st up w Hup Hp. cbn. unfold mem_page.
    rewrite !bool_decide_eq_true_2 by done. eexists. reflexivity.
  - intros fuel off lim f w Hok. cbn. unfold mem_page. cbn [andb bool_decide].
    destruct (take_fault_run w) as (b & fs & Hf).
    destruct (bool_decide _ && _); [done|]. rewrite (bind_run _ _ _ _ _ Hf). by destruct b.
  - intros w Hok. cbn. destruct (take_fault_run w) as (b & fs & Hf). rewrite (bind_run _ _ _ _ _ Hf).
    destruct b; eexists _, _; split_and!; by try reflexivity.
  - intros sid n w Hok. cbn. destruct (mem_get_run n w) as (r & err & fs & Hg & Hr & He).
    rewrite (bind_run _ _ _ _ _ Hg). destruct err as [e|].
    + eexists _, _, _. split_and!; [reflexivity|done..].
    + eexists _, _, _. split_and!; [reflexivity|done|done| |done]. intros _. exists (Spec <$> r).
      split; [right; by rewrite Hr|]. destruct r as [c|]; [|done]. cbn. apply Spec_with_service.
Defined.

(** The queue of the world: deleting a message records its receipt handle. *)
#[global] Instance MemSQS : SQSService World := {
  svc_GetQueueUrl name := mret (Some ("http://sqs/" +:+ name), nil_error);
  svc_SendMessageBatch url es := mret (mkBatchResult [] (entry_Id <$> es), nil_error);
  svc_DeleteMessage url h :=
    (_ ← modify (set_acked (λ l, from_option (λ h, [h]) [] h ++ l)); mret nil_error);
  svc_ChangeMessageVisibility url h n := mret nil_error }.

Definition mem_Invalidate (tags : list string) : M World error :=
  _ ← modify (set_cache (filter (λ kv, Forall (λ t, t ∉ tags) kv.2.2))); mret nil_error.

(** JSON of the world: the body of a message is the name of a cluster. *)
Definition mem_unmarshal (body : string) : Cluster * error :=
  if bool_decide (body = "") then (zeroCluster, errorf "unexpected end of JSON input")
  else (sample body "va6" "prod" "Active" "", nil_error).

Definition update_message (name sent : string) : Message :=
  mkMessage (Some ("id-" +:+ sent)) (Some ("receipt-" +:+ sent)) (Some name)
    {["SentTimestamp" := Some sent]}
    {["Type" := Some (mkAttr (Some "String") (Some ClusterUpdateEvent))]}.
Definition update_event (name sent : string) : option Event :=
  Some (mkEvent ClusterUpdateEvent (Some (update_message name sent))).

Lemma mem_ok_empty : mem_ok emptyWorld.
Proof. split; apply map_Forall_empty. Qed.
