(* ===== verification/EventHandler.v ===== *)
(** pkg/apiserver/event/handler.go: the handler of cluster updates, the
    message loop of cmd/apiserver around it, and the handler of partial
    updates (pkg/sync/event/handler.go).

    The handler is written against the interface [Db]; decoding the JSON of a
    message is a parameter. *)
From stdpp Require Import base gmap strings list option numbers sets relations.
From S2P Require Import Prelude GoStrings GoTime Registry Filter MemDynamo Database Db Sqs MemDb.

Local Open Scope Z_scope.

Section handler.
Context `{Db W} (unmarshal : string → Cluster * error).

(** Handle up to the read of the database: the cluster received and the
    time it was sent, in nanoseconds. *)
Definition decode (event : option Event) : outcome (option (Cluster * Z) * error) :=
  match event with
  | None => Ret (None, errorf "event is nil")
  | Some event =>
     if bool_decide (ev_Type event ≠ ClusterUpdateEvent)
     then Ret (None, errorf "event type does not match handler type")
     else
       match ev_Message event with
       | None => Panic "invalid memory address or nil pointer dereference"
       | Some msg =>
          match deref (Body msg) with
          | Panic p => Panic p
          | OutOfFuel => OutOfFuel
          | Ret body =>
             let '(rcvCluster, err) := unmarshal body in
             match err with
             | Some e => Ret (None, errorf e)
             | None =>
                match deref (ptr_at (Attributes msg) "SentTimestamp") with
                | Panic p => Panic p
                | OutOfFuel => OutOfFuel
                | Ret sent =>
                   let '(msgTimestamp, err) := ParseInt sent in
                   match err with
                   | Some e => Ret (None, errorf e)
                   | None => Ret (Some (rcvCluster, wrap64 (msgTimestamp * 10 ^ 6)), nil_error)
                   end
                end
             end
          end
       end
  end.

(** Handle after the read: the update is skipped when the cluster read is
    newer. *)
Definition skips (lastUpdated : Time) (cluster : option Cluster) : bool :=
  match cluster with
  | None => false
  | Some cluster =>
     match Parse (LastUpdated (Spec cluster)) with
     | None => false
     | Some clusterTime => Before lastUpdated clusterTime
     end
  end.

Definition stamp (lastUpdated : Time) (rcvCluster : Cluster) : Cluster :=
  update_Spec (set_LastUpdated (FormatRFC3339Nano lastUpdated)) rcvCluster.

Definition apply_update (rcvCluster : Cluster) (lastUpdated : Time) (cluster : option Cluster) : M W error :=
  if skips lastUpdated cluster then mret nil_error
  else '(_, err) ← db_PutCluster (stamp lastUpdated rcvCluster); mret err.

Definition Handle (event : option Event) : M W error :=
  '(d, err) ← lift (decode event);
  match d, err with
  | Some (rcvCluster, ns), None =>
     let lastUpdated := Unix0 ns in
     '(cluster, err) ← db_GetCluster (Name (Spec rcvCluster));
     match err with
     | Some e => mret (errorf e)
     | None => apply_update rcvCluster lastUpdated cluster
     end
  | _, _ => mret err
  end.
End handler.

(** pkg/sync/event/handler.go. *)
Definition PartialClusterUpdateHandler_Handle (event : option Event) : error :=
  match event with
  | None => errorf "event is nil"
  | Some event =>
     if bool_decide (ev_Type event ≠ PartialClusterUpdateEvent)
     then errorf "event type does not match handler type"
     else nil_error
  end.

(** ** The last writer of a cluster wins, by the time of the message *)

(** A specification apart from the registration date, which PutCluster
    takes from the entry it replaces. *)
Definition content (sp : ClusterSpec) : ClusterSpec := set_RegisteredAt "" sp.

(** The contract of the handler: an update [(sp, ns)] of the cluster
    [Name sp] replaces an entry that is not newer. *)
Definition newer (reg : gmap string ClusterSpec) (n : string) (ns : Z) : bool :=
  match reg !! n with
  | None => false
  | Some sp => match Parse (LastUpdated sp) with
               | None => false
               | Some t => Before (Unix0 ns) t
               end
  end.

(** The same against an entry [o] that was read. *)
Definition seen_newer (o : option ClusterSpec) (ns : Z) : bool :=
  match o with
  | None => false
  | Some sp => match Parse (LastUpdated sp) with
               | None => false
               | Some t => Before (Unix0 ns) t
               end
  end.

Definition entry (sp : ClusterSpec) (ns : Z) : ClusterSpec :=
  content (norm_spec (set_LastUpdated (FormatRFC3339Nano (Unix0 ns)) sp)).

Definition lww (u : ClusterSpec * Z) (reg : gmap string ClusterSpec) : gmap string ClusterSpec :=
  let '(sp, ns) := u in
  if newer reg (Name sp) ns then reg else <[Name sp := entry sp ns]> reg.

(** What an update makes of the registry when the entry [o] was read for it. *)
Definition overwrites (o : option ClusterSpec) (u : ClusterSpec * Z) (reg : gmap string ClusterSpec)
    : gmap string ClusterSpec :=
  let '(sp, ns) := u in
  if seen_newer o ns then reg else <[Name sp := entry sp ns]> reg.

Lemma content_LastUpdated sp : LastUpdated (content sp) = LastUpdated sp.
Proof. apply set_RegisteredAt_LastUpdated. Qed.

Lemma newer_content reg n ns : newer (content <$> reg) n ns = newer reg n ns.
Proof.
  unfold newer. rewrite lookup_fmap. destruct (reg !! n) as [sp|]; [|done]. cbn.
  by rewrite content_LastUpdated.
Qed.

Lemma entry_stored sp ns seen :
  content (norm_spec (stored seen (set_LastUpdated (FormatRFC3339Nano (Unix0 ns)) sp))) = entry sp ns.
Proof.
  unfold entry, content. destruct seen; cbn; [|done].
  by rewrite norm_set_RegisteredAt, set_RegisteredAt_twice.
Qed.

Lemma entry_LastUpdated sp ns : LastUpdated (entry sp ns) = FormatRFC3339Nano (Unix0 ns).
Proof. unfold entry. by rewrite content_LastUpdated, norm_spec_LastUpdated, set_LastUpdated_eq. Qed.

Lemma newer_insert_ne reg n n' sp ns : n ≠ n' → newer (<[n' := sp]> reg) n ns = newer reg n ns.
Proof. intros Hn. unfold newer. by rewrite lookup_insert_ne. Qed.

Lemma newer_insert_eq reg n sp ns ns' :
  int64_min ≤ ns' ≤ int64_max → newer (<[n := entry sp ns']> reg) n ns = (ns <? ns').
Proof.
  intros Hns. unfold newer. by rewrite lookup_insert_eq, entry_LastUpdated, Parse_Format_Unix0, Before_Unix0.
Qed.

(** A registry that is newer than a time is newer than any earlier one. *)
Lemma newer_mono reg n ns ns' : ns' ≤ ns → newer reg n ns = true → newer reg n ns' = true.
Proof.
  unfold newer. intros Hle. destruct (reg !! n) as [sp|]; [|done].
  destruct (Parse (LastUpdated sp)) as [t|]; [|done].
  assert (Before (Unix0 ns) (Unix0 ns') = false) as Hb by (rewrite Before_Unix0; apply Z.ltb_ge; lia).
  rewrite !Before_spec, Before_false in *. lia.
Qed.

Definition update_key (u : ClusterSpec * Z) : string * Z := (Name u.1, u.2).

(** Updates of different clusters, or of different times, commute. *)
Lemma lww_comm u v reg :
  int64_min ≤ u.2 ≤ int64_max → int64_min ≤ v.2 ≤ int64_max → update_key u ≠ update_key v →
  lww u (lww v reg) = lww v (lww u reg).
Proof.
  destruct u as [a m], v as [b k]. unfold update_key. cbn [fst snd]. intros Hm Hk Hkey.
  destruct (decide (Name a = Name b)) as [Hab|Hab].
  - assert (m ≠ k) as Hmk by congruence. unfold lww. rewrite Hab.
    assert (m < k ∨ k < m) as [Hlt|Hlt] by lia;
      [pose proof (newer_mono reg (Name b) k m ltac:(lia)) as Hmono
      |pose proof (newer_mono reg (Name b) m k ltac:(lia)) as Hmono];
      destruct (newer reg (Name b) m) eqn:Em, (newer reg (Name b) k) eqn:Ek;
      try discriminate (Hmono eq_refl);
      rewrite ?newer_insert_eq, ?Em, ?Ek by done;
      repeat match goal with |- context [?x <? ?y] => destruct (Z.ltb_spec x y) end;
      rewrite ?insert_insert_eq; try lia; done.
  - unfold lww. destruct (newer reg (Name a) m) eqn:Ea, (newer reg (Name b) k) eqn:Eb;
      rewrite ?newer_insert_ne, ?Ea, ?Eb by done; try done. by apply insert_insert_ne.
Qed.

Definition lww_all (us : list (ClusterSpec * Z)) (reg : gmap string ClusterSpec) : gmap string ClusterSpec :=
  foldl (λ reg u, lww u reg) reg us.

Lemma lww_all_cons u us reg : lww_all (u :: us) reg = lww_all us (lww u reg).
Proof. reflexivity. Qed.

Lemma lww_all_perm us vs reg :
  us ≡ₚ vs → NoDup (update_key <$> us) → Forall (λ u, int64_min ≤ u.2 ≤ int64_max) us →
  lww_all us reg = lww_all vs reg.
Proof.
  intros Hp. revert reg.
  induction Hp as [|u us vs Hp IH|u v us|us vs ws Hp1 IH1 Hp2 IH2]; intros reg Hnd Hr; [done|..].
  - apply NoDup_cons in Hnd as [_ Hnd]. apply Forall_cons in Hr as [_ Hr]. cbn. by apply IH.
  - cbn. f_equal. rewrite !fmap_cons in Hnd. apply NoDup_cons in Hnd as [Hnot _].
    rewrite elem_of_cons in Hnot. apply Forall_cons in Hr as [Hu [Hv _]%Forall_cons].
    symmetry. apply lww_comm; [done..|]. intros Heq. by destruct Hnot; left.
  - rewrite IH1 by done. apply IH2; by rewrite <- Hp1.
Qed.

Lemma decode_time unmarshal event rcv ns :
  decode unmarshal event = Ret (Some (rcv, ns), None) → int64_min ≤ ns ≤ int64_max.
Proof.
  unfold decode. intros Hd. repeat case_match; simplify_eq. apply wrap64_range.
Qed.

Section refinement.
Context `{DbLaws W} (unmarshal : string → Cluster * error).
Implicit Types (s : W).

Lemma skips_seen ns r : skips (Unix0 ns) r = seen_newer (Spec <$> r) ns.
Proof. by destruct r. Qed.

(** What the second half of a call does, by what the first half read. *)
Lemma apply_update_effect rcv ns r s :
  db_inv s → int64_min ≤ ns ≤ int64_max →
  ∃ err s', apply_update rcv (Unix0 ns) r s = (Ret err, s') ∧ db_inv s' ∧
    (content <$> db_specs s' = overwrites (Spec <$> r) (Spec rcv, ns) (content <$> db_specs s) ∨
     err ≠ None ∧ db_specs s' = db_specs s).
Proof.
  intros Hinv Hns. unfold overwrites, apply_update. rewrite skips_seen.
  destruct (seen_newer _ _) eqn:Hnew; [eexists _, s; split_and!; [reflexivity|done|by left]|].
  destruct (db_PutCluster_law (stamp (Unix0 ns) rcv) s Hinv) as (c' & err & s2 & Hp & Hinv2 & _ & Hlaw).
  rewrite (bind_run _ _ _ _ _ Hp). eexists err, s2. split; [reflexivity|]. split; [done|].
  cbn [stamp update_Spec set_Spec Spec] in Hlaw.
  rewrite set_LastUpdated_eq, set_LastUpdated_Name in Hlaw.
  rewrite (Parse_Format_Unix0 ns Hns) in Hlaw.
  destruct Hlaw as (seen & _ & Hc' & Hok & Herr). rewrite Hc' in Hok, Herr.
  assert (∀ m : gmap string ClusterSpec,
    m = <[Name (Spec rcv) := norm_spec (stored seen
          (set_LastUpdated (FormatRFC3339Nano (Unix0 ns)) (Spec rcv)))]> (db_specs s) →
    content <$> m = <[Name (Spec rcv) := entry (Spec rcv) ns]> (content <$> db_specs s)) as Hins.
  { intros m ->. by rewrite fmap_insert, entry_stored. }
  destruct err; [destruct (Herr ltac:(done)); auto|left; by apply Hins, Hok].
Qed.

(** The second half of a call on a registry that is still as old as the one the
    first half read. *)
Lemma apply_update_run rcv ns r s :
  db_inv s → int64_min ≤ ns ≤ int64_max → skips (Unix0 ns) r = newer (db_specs s) (Name (Spec rcv)) ns →
  ∃ err s', apply_update rcv (Unix0 ns) r s = (Ret err, s') ∧ db_inv s' ∧
    (err = None → content <$> db_specs s' = lww (Spec rcv, ns) (content <$> db_specs s)) ∧
    (err ≠ None → db_specs s' = db_specs s ∨
       content <$> db_specs s' = lww (Spec rcv, ns) (content <$> db_specs s)).
Proof.
  intros Hinv Hns Hskip. destruct (apply_update_effect rcv ns r s Hinv Hns) as (err & s' & Hrun & Hinv' & Heff).
  exists err, s'. do 2 (split; [done|]). rewrite skips_seen in Hskip.
  assert (overwrites (Spec <$> r) (Spec rcv, ns) (content <$> db_specs s) = lww (Spec rcv, ns) (content <$> db_specs s))
    as Hov by (unfold lww, overwrites; by rewrite newer_content, Hskip).
  rewrite Hov in Heff. destruct Heff as [?|[? ?]]; split; auto; done.
Qed.

(** What one call does to the registry, by what it reads. *)
Lemma Handle_reads event rcv ns s :
  db_inv s → decode unmarshal event = Ret (Some (rcv, ns), None) →
  ∃ err s' seen, Handle unmarshal event s = (Ret err, s') ∧ db_inv s' ∧
    db_visible s (Name (Spec rcv)) seen ∧
    (content <$> db_specs s' = overwrites seen (Spec rcv, ns) (content <$> db_specs s) ∨
     err ≠ None ∧ db_specs s' = db_specs s).
Proof.
  intros Hinv Hd. unfold Handle. rewrite Hd, bind_lift. cbv beta iota zeta.
  destruct (db_GetCluster_law (Name (Spec rcv)) s Hinv) as (r & err & s1 & Hg & Hinv1 & Hs1 & _ & Hr & _).
  rewrite (bind_run _ _ _ _ _ Hg). destruct err as [e|].
  { exists (errorf e), s1, (db_specs s !! Name (Spec rcv)). split_and!; [reflexivity|done|apply db_visible_specs|by right]. }
  destruct (apply_update_effect rcv ns r s1 Hinv1 (decode_time _ _ _ _ Hd)) as (err & s2 & Hrun & Hinv2 & Heff).
  exists err, s2, (Spec <$> r). rewrite Hs1 in Heff. split_and!; [exact Hrun|done|by apply Hr|done].
Qed.

Lemma Handle_run event rcv ns s :
  db_inv s → db_current s (Name (Spec rcv)) → decode unmarshal event = Ret (Some (rcv, ns), None) →
  ∃ err s', Handle unmarshal event s = (Ret err, s') ∧ db_inv s' ∧
    (err = None → content <$> db_specs s' = lww (Spec rcv, ns) (content <$> db_specs s)) ∧
    (err ≠ None → db_specs s' = db_specs s ∨
       content <$> db_specs s' = lww (Spec rcv, ns) (content <$> db_specs s)).
Proof.
  intros Hinv Hcur Hd. destruct (Handle_reads event rcv ns s Hinv Hd) as (err & s' & seen & Hrun & Hinv' & ->%Hcur & Heff).
  exists err, s'. do 2 (split; [done|]).
  assert (overwrites (db_specs s !! Name (Spec rcv)) (Spec rcv, ns) (content <$> db_specs s) =
    lww (Spec rcv, ns) (content <$> db_specs s)) as Hov.
  { unfold lww, overwrites. by rewrite newer_content. }
  rewrite Hov in Heff. destruct Heff as [?|[? ?]]; split; auto; done.
Qed.

Lemma decode_shape event :
  match decode unmarshal event with
  | Ret (Some _, err) => err = None
  | Ret (None, err) => err ≠ None
  | Panic _ => True
  | OutOfFuel => False
  end.
Proof.
  destruct event as [[ty [m|]]|]; cbn; try case_bool_decide; try done.
  destruct (Body m) as [b|]; cbn; [|done]. destruct (unmarshal b) as [c [e|]]; [done|].
  destruct (ptr_at (Attributes m) "SentTimestamp") as [ts|]; cbn; [|done].
  by destruct (ParseInt ts) as [z [e|]].
Qed.

Lemma decode_cases event :
  (∃ u, decode unmarshal event = Ret (Some u, None)) ∨ (∀ u, decode unmarshal event ≠ Ret (Some u, None)).
Proof. destruct (decode unmarshal event) as [[[u|] [e|]]|p|]; eauto; by right. Qed.

Lemma Handle_rejects event s :
  (∀ u, decode unmarshal event ≠ Ret (Some u, None)) →
  (∃ e, Handle unmarshal event s = (Ret (Some e), s)) ∨ (∃ p, Handle unmarshal event s = (Panic p, s)).
Proof.
  intros Hno. pose proof (decode_shape event) as Hshape. unfold Handle.
  destruct (decode unmarshal event) as [[[u|] [e|]]|p|] eqn:Hd; try done.
  - by destruct (Hno u).
  - left. by exists e.
  - right. by exists p.
Qed.

(** C4: On a message that decodes, Handle returns and takes the registry to what
    the last-writer-wins contract says: the cluster is replaced unless the entry is
    newer than the message (up to the registration date); with an error the
    registry is that or is unchanged.  The entry is the one its read shows, which is
    the latest one when the cluster is current.  On any other event the registry is
    unchanged, with an error or a panic. *)
Theorem Handle_last_writer_wins event s :
  db_inv s →
  match decode unmarshal event with
  | Ret (Some (rcv, ns), _) =>
     ∃ err s', Handle unmarshal event s = (Ret err, s') ∧ db_inv s' ∧
       (∃ seen, db_visible s (Name (Spec rcv)) seen ∧
          (content <$> db_specs s' = overwrites seen (Spec rcv, ns) (content <$> db_specs s) ∨
           err ≠ None ∧ db_specs s' = db_specs s)) ∧
       (db_current s (Name (Spec rcv)) →
          content <$> db_specs s' = lww (Spec rcv, ns) (content <$> db_specs s) ∨
          err ≠ None ∧ db_specs s' = db_specs s)
  | Ret (None, err) => err ≠ None ∧ Handle unmarshal event s = (Ret err, s)
  | Panic p => Handle unmarshal event s = (Panic p, s)
  | OutOfFuel => False
  end.
Proof.
  intros Hinv. pose proof (decode_shape event) as Hshape.
  destruct (decode unmarshal event) as [[[[rcv ns]|] err]|p|] eqn:Hd; try done.
  - subst err. destruct (Handle_reads event rcv ns s Hinv Hd) as (err & s' & seen & Hrun & Hinv' & Hv & Heff).
    exists err, s'. split_and!; [done..|by exists seen|]. intros Hcur.
    destruct (Handle_run event rcv ns s Hinv Hcur Hd) as (err' & s2 & Hrun' & _ & Hok & Herr).
    rewrite Hrun in Hrun'. simplify_eq. destruct err'; [destruct Herr; auto|auto].
  - split; [done|]. unfold Handle. rewrite Hd. by destruct err.
  - unfold Handle. by rewrite Hd.
Qed.

(** A read that does not show the latest entry lets an older message replace it:
    when the entry is newer than the message and the read shows one that is not,
    the registry goes back to the message. *)
Theorem stale_read_regresses event rcv ns s r s1 s' :
  db_inv s → decode unmarshal event = Ret (Some (rcv, ns), None) →
  newer (db_specs s) (Name (Spec rcv)) ns = true →
  db_GetCluster (Name (Spec rcv)) s = (Ret (r, None), s1) → seen_newer (Spec <$> r) ns = false →
  Handle unmarshal event s = (Ret None, s') →
  content <$> db_specs s' !! Name (Spec rcv) = Some (entry (Spec rcv) ns) ∧
  newer (db_specs s') (Name (Spec rcv)) ns = false.
Proof.
  intros Hinv Hd Hnew Hg Hold Hh. unfold Handle in Hh. rewrite Hd, bind_lift in Hh. cbv beta iota zeta in Hh.
  rewrite (bind_run _ _ _ _ _ Hg) in Hh.
  destruct (db_GetCluster_law (Name (Spec rcv)) s Hinv) as (r' & err & s2 & Hg' & Hinv1 & _).
  rewrite Hg in Hg'. simplify_eq.
  destruct (apply_update_effect rcv ns r' s2 Hinv1 (decode_time _ _ _ _ Hd)) as (err & s3 & Hrun & _ & Heff).
  rewrite Hh in Hrun. simplify_eq. unfold overwrites in Heff. rewrite Hold in Heff.
  destruct Heff as [Heff|[? _]]; [|done]. rewrite <- newer_content, Heff.
  rewrite newer_insert_eq by (by eapply decode_time). split; [|apply Z.ltb_irrefl].
  by rewrite <- lookup_fmap, Heff, lookup_insert_eq.
Qed.

Lemma Handle_inv event s : db_inv s → db_inv (Handle unmarshal event s).2.
Proof.
  intros Hinv. destruct (decode_cases event) as [[[rcv ns] Hd]|Hno].
  - by destruct (Handle_reads event rcv ns s Hinv Hd) as (err & s' & seen & -> & Hinv' & _).
  - destruct (Handle_rejects event s Hno) as [[e ->]|[p ->]]; done.
Qed.

(** Writes reach every copy. *)
Definition catches_up (s s' : W) : Prop := db_inv s' ∧ db_specs s' = db_specs s ∧ db_settled s'.

(** One message handled, whatever becomes of it, once earlier writes have reached
    every copy. *)
Definition handle_step (s s' : W) : Prop :=
  ∃ event s1, catches_up s s1 ∧ s' = (Handle unmarshal event s1).2.

(** What an accepted or rejected update means for one entry. *)
Lemma lww_time u reg n sp t :
  int64_min ≤ u.2 ≤ int64_max → reg !! n = Some sp → Parse (LastUpdated sp) = Some t →
  ∃ sp' t', lww u reg !! n = Some sp' ∧ Parse (LastUpdated sp') = Some t' ∧ Before t' t = false.
Proof.
  destruct u as [v ns]. cbn. intros Hns Hl Hp.
  destruct (newer reg (Name v) ns) eqn:Hnew; [by exists sp, t; rewrite Before_irrefl|].
  destruct (decide (Name v = n)) as [<-|Hn].
  - exists (entry v ns), (Unix0 ns). rewrite lookup_insert_eq, entry_LastUpdated, Parse_Format_Unix0 by done.
    split_and!; [done..|]. unfold newer in Hnew. by rewrite Hl, Hp in Hnew.
  - exists sp, t. by rewrite lookup_insert_ne, Before_irrefl.
Qed.

Lemma handle_step_time s s' n sp t :
  handle_step s s' → db_specs s !! n = Some sp → Parse (LastUpdated sp) = Some t →
  ∃ sp' t', db_specs s' !! n = Some sp' ∧ Parse (LastUpdated sp') = Some t' ∧ Before t' t = false.
Proof.
  intros (event & s0 & (Hinv & <- & Hset) & ->) Hl Hp.
  assert (∃ sp' t', db_specs s0 !! n = Some sp' ∧ Parse (LastUpdated sp') = Some t' ∧ Before t' t = false)
    as Hsame by (exists sp, t; by rewrite Before_irrefl).
  destruct (decode_cases event) as [[[rcv ns] Hd]|Hno].
  - destruct (Handle_run event rcv ns s0 Hinv (settled_current _ _ Hset) Hd) as (err & s' & -> & Hinv' & Hok & Herr). cbn [snd].
    assert (content <$> db_specs s' = lww (Spec rcv, ns) (content <$> db_specs s0) ∨
      db_specs s' = db_specs s0) as [Hlww| ->] by (destruct err; naive_solver); [|done].
    destruct (lww_time (Spec rcv, ns) (content <$> db_specs s0) n (content sp) t) as (sp' & t' & Hl' & Hp' & Hb).
    + by eapply decode_time.
    + by rewrite lookup_fmap, Hl.
    + by rewrite content_LastUpdated.
    + rewrite <- Hlww, lookup_fmap in Hl'. apply fmap_Some in Hl' as (sp2 & Hsp2 & ->).
      rewrite content_LastUpdated in Hp'. eauto.
  - destruct (Handle_rejects event s0) as [[e ->]|[p ->]]; done.
Qed.

(** Whatever messages are handled one after the other, each with reads that are
    current, and whichever calls fail, a cluster never disappears and the update
    time stored for it never goes back. *)
Theorem stored_time_monotone s s' n sp t :
  rtc handle_step s s' → db_specs s !! n = Some sp → Parse (LastUpdated sp) = Some t →
  ∃ sp' t', db_specs s' !! n = Some sp' ∧ Parse (LastUpdated sp') = Some t' ∧ Before t' t = false.
Proof.
  intros Hrun. revert sp t. induction Hrun as [s|s s1 s2 Hstep Hrun IH]; intros sp t Hl Hp.
  - exists sp, t. by rewrite Before_irrefl.
  - destruct (handle_step_time s s1 n sp t Hstep Hl Hp) as (sp1 & t1 & Hl1 & Hp1 & Hb1).
    destruct (IH sp1 t1 Hl1 Hp1) as (sp2 & t2 & Hl2 & Hp2 & Hb2). exists sp2, t2.
    split_and!; [done..|]. rewrite Before_false in *. lia.
Qed.

(** A queue of messages handled in turn, each with success, and each once the
    writes before it have reached every copy. *)
Inductive handled : list (option Event) → W → W → Prop :=
  | handled_nil s : handled [] s s
  | handled_cons event events s s1 s2 s3 :
     catches_up s s1 → Handle unmarshal event s1 = (Ret None, s2) → handled events s2 s3 →
     handled (event :: events) s s3.

Definition update_of (event : option Event) : option (ClusterSpec * Z) :=
  match decode unmarshal event with
  | Ret (Some (rcv, ns), None) => Some (Spec rcv, ns)
  | _ => None
  end.

Lemma handled_run events s s' :
  handled events s s' → content <$> db_specs s' = lww_all (omap update_of events) (content <$> db_specs s).
Proof.
  induction 1 as [s|event events s s1 s2 s3 (Hinv & <- & Hset) Hh _ IH]; [done|]. cbn [omap list_omap].
  destruct (decode_cases event) as [[[rcv ns] Hd]|Hno].
  - destruct (Handle_run event rcv ns s1 Hinv (settled_current _ _ Hset) Hd) as (err & s4 & Hrun & _ & Hok & _).
    rewrite Hh in Hrun. simplify_eq. unfold update_of at 1. rewrite Hd, lww_all_cons, IH. by rewrite Hok.
  - destruct (Handle_rejects event s1 Hno) as [[e Hr]|[p Hr]]; by rewrite Hr in Hh.
Qed.

Lemma updates_range events : Forall (λ u, int64_min ≤ u.2 ≤ int64_max) (omap update_of events).
Proof.
  apply Forall_forall. intros [sp ns] (e & _ & Hu)%list_elem_of_omap. unfold update_of in Hu.
  destruct (decode unmarshal e) as [[[[rcv k]|] [x|]]|p|] eqn:Hd; simplify_eq. by eapply decode_time.
Qed.

(** C5: The order in which a queue delivers a set of updates does not
    matter: when no two updates of a cluster carry the same time, every call
    succeeds and every read is current, handling them in any two orders, one
    after the other, leads to the same registry, up to registration dates. *)
Theorem delivery_order_irrelevant events events' s s1 s2 :
  events ≡ₚ events' → NoDup (update_key <$> omap update_of events) →
  handled events s s1 → handled events' s s2 →
  content <$> db_specs s1 = content <$> db_specs s2.
Proof.
  intros Hperm Hnd H1 H2.
  rewrite (handled_run _ _ _ H1), (handled_run _ _ _ H2).
  apply lww_all_perm; [by rewrite Hperm|done|apply updates_range].
Qed.

(** C23: Handlers run side by side, and the read and the write of one are
    not atomic: when the handler of an older message reads before, and
    writes after, the handler of a newer one, the registry ends with the
    older update, even where every read shows the entry written last and that
    entry is no newer than either message. *)
Theorem interleaved_handlers_regress rcv1 rcv2 t1 t2 s r1 s1 r2 s2 s3 s4 :
  db_inv s → db_current s (Name (Spec rcv1)) → Name (Spec rcv1) = Name (Spec rcv2) → t1 < t2 →
  int64_min ≤ t1 → t2 ≤ int64_max → newer (db_specs s) (Name (Spec rcv1)) t1 = false →
  db_GetCluster (Name (Spec rcv1)) s = (Ret (r1, None), s1) →
  db_GetCluster (Name (Spec rcv2)) s1 = (Ret (r2, None), s2) →
  apply_update rcv2 (Unix0 t2) r2 s2 = (Ret None, s3) →
  apply_update rcv1 (Unix0 t1) r1 s3 = (Ret None, s4) →
  content <$> db_specs s4 !! Name (Spec rcv1) = Some (entry (Spec rcv1) t1).
Proof.
  intros Hinv Hcur Hn Hlt Hmin Hmax Hold Hg1 Hg2 Hp2 Hp1.
  destruct (db_GetCluster_current (Name (Spec rcv1)) s Hinv Hcur) as (r & err & s' & Hg & Hinv1 & Hs1 & Hr & _).
  rewrite Hg1 in Hg. simplify_eq.
  destruct (db_GetCluster_law (Name (Spec rcv2)) s' Hinv1) as (r' & err & s'' & Hg & Hinv2 & _).
  rewrite Hg2 in Hg. simplify_eq.
  assert (db_inv s3) as Hinv3.
  { unfold apply_update in Hp2. destruct (skips _ _); [by minv Hp2|].
    apply bind_Ret_inv in Hp2 as ([c e] & sx & Hp & Hr'). minv Hr'.
    destruct (db_PutCluster_law (stamp (Unix0 t2) rcv2) s'' Hinv2) as (c' & e' & s5 & Hp' & Hi & _).
    rewrite Hp in Hp'. by simplify_eq. }
  assert (skips (Unix0 t1) r = false) as Hskip.
  { specialize (Hr eq_refl). unfold newer in Hold. rewrite <- Hr in Hold. by destruct r. }
  unfold apply_update in Hp1. rewrite Hskip in Hp1.
  apply bind_Ret_inv in Hp1 as ([c e] & sx & Hp & Hr'). minv Hr'.
  destruct (db_PutCluster_law (stamp (Unix0 t1) rcv1) s3 Hinv3) as (c' & e' & s5 & Hp' & Hi & _ & Hlaw).
  rewrite Hp in Hp'. simplify_eq. cbn [stamp update_Spec set_Spec Spec] in Hlaw.
  rewrite set_LastUpdated_eq, set_LastUpdated_Name, Parse_Format_Unix0 in Hlaw by lia.
  destruct Hlaw as (seen & _ & Hc' & Hok & _). rewrite Hok, lookup_insert_eq, Hc' by done.
  cbn [fmap option_fmap option_map]. by rewrite entry_stored.
Qed.
End refinement.

(** ** The message loop of cmd/apiserver *)

Section loop.
Context `{Db W} `{SQSService W} (unmarshal : string → Cluster * error) (q : Config).
(** [cacheManager.Invalidate] with tags. *)
Context (Invalidate : list string → M W error).

Definition skips_invalidation (msg : Message) : outcome bool :=
  match MessageAttributes msg !! MessageAttributeSkipCacheInvalidation with
  | None => Ret false
  | Some val =>
     match deref val with
     | Ret val =>
        match deref (StringValue val) with
        | Ret v => Ret (bool_decide (v = "true"))
        | Panic p => Panic p
        | OutOfFuel => OutOfFuel
        end
     | Panic p => Panic p
     | OutOfFuel => OutOfFuel
     end
  end.

(** The function registered with the queue. *)
Definition on_message (msg : Message) : M W () :=
  _ ← lift (deref (MessageId msg));
  '(e, err) ← lift (NewEvent (Some msg));
  match err with
  | Some _ => mret ()
  | None =>
     e ← lift (deref e);
     if bool_decide (ev_Type e ≠ ClusterUpdateEvent) then mret ()
     else
       err ← Handle unmarshal (Some e);
       match err with
       | Some _ => mret ()
       | None =>
          err ← Delete q msg;
          match err with
          | Some _ => mret ()
          | None =>
             skip ← lift (skips_invalidation msg);
             if (skip : bool) then mret ()
             else (_ ← Invalidate ["clusters"]; mret ())
          end
       end
  end.

(** What the calls of the function preserve, it does. *)
Lemma on_message_preserves (P : W → Prop) msg :
  (∀ e, preserves P (Handle unmarshal e)) → preserves P (Delete q msg) → preserves P (Invalidate ["clusters"]) →
  preserves P (on_message msg).
Proof.
  intros Hh Hdel Hinv. unfold on_message. apply preserves_bind; [apply preserves_lift|intros id].
  apply preserves_bind; [apply preserves_lift|intros [e [er|]]; [apply preserves_ret|]].
  apply preserves_bind; [apply preserves_lift|intros e']. case_bool_decide; [apply preserves_ret|].
  apply preserves_bind; [apply Hh|intros [er|]; [apply preserves_ret|]].
  apply preserves_bind; [exact Hdel|intros [er|]; [apply preserves_ret|]].
  apply preserves_bind; [apply preserves_lift|intros []; [apply preserves_ret|]].
  apply preserves_bind; [exact Hinv|intros; apply preserves_ret].
Qed.

End loop.

Section acknowledge.
Context `{DbLaws W} `{SQSService W} (unmarshal : string → Cluster * error) (q : Config).
Context (Invalidate : list string → M W error).
(** The messages deleted from the queue: a call of DeleteMessage deletes
    the message of its receipt handle, if any, and nothing else does. *)
Context (acked : W → gset string).
Context (acked_Get : ∀ n s, acked (db_GetCluster n s).2 = acked s).
Context (acked_Put : ∀ c s, acked (db_PutCluster c s).2 = acked s).
Context (delete_law : ∀ url h s,
  let s' := (svc_DeleteMessage url h s).2 in
  acked s' ⊆ acked s ∪ from_option singleton ∅ h ∧ db_specs s' = db_specs s).
Context (invalidate_law : ∀ tags s,
  let s' := (Invalidate tags s).2 in acked s' = acked s ∧ db_specs s' = db_specs s).

Lemma acked_Handle event s : acked (Handle unmarshal event s).2 = acked s.
Proof.
  unfold Handle. rewrite bind_state.
  destruct (lift (decode unmarshal event) s) as [[[[[rcv ns]|] [e|]]|p|] s0] eqn:Hl;
    unfold lift in Hl; simplify_eq; try done.
  rewrite bind_state. specialize (acked_Get (Name (Spec rcv)) s0).
  destruct (db_GetCluster (Name (Spec rcv)) s0) as [[[r [e|]]|p|] s1]; cbn in *; try done.
  unfold apply_update. destruct (skips _ _); [done|].
  rewrite bind_state. specialize (acked_Put (stamp (Unix0 ns) rcv) s1).
  destruct (db_PutCluster (stamp (Unix0 ns) rcv) s1) as [[[c e]|p|] s2]; cbn in *; congruence.
Qed.

(** What the function does to the queue and to the registry: nothing, or what
    the contract says of the update that the message decodes to; only then may
    it delete the message. *)
Lemma on_message_effect msg s o s' :
  db_inv s → db_settled s → on_message unmarshal q Invalidate msg s = (o, s') →
  (acked s' = acked s ∧ db_specs s' = db_specs s) ∨
  ∃ e rcv ns, NewEvent (Some msg) = Ret (Some e, None) ∧ ev_Type e = ClusterUpdateEvent ∧
    decode unmarshal (Some e) = Ret (Some (rcv, ns), None) ∧
    content <$> db_specs s' = lww (Spec rcv, ns) (content <$> db_specs s) ∧
    acked s' ⊆ acked s ∪ from_option singleton ∅ (ReceiptHandle msg).
Proof.
  intros Hinv Hset Hrun. apply (f_equal snd) in Hrun. cbn [snd] in Hrun. revert Hrun.
  unfold on_message. rewrite bind_state. destruct (MessageId msg) as [id|] eqn:Hid; cbn [deref lift]; [|intros <-; by left].
  rewrite bind_state. destruct (NewEvent (Some msg)) as [[[e|] [er|]]|p|] eqn:He; cbn [lift]; try (intros <-; by left).
  rewrite bind_state. cbn [deref lift]. case_bool_decide as Hty; [intros <-; by left|].
  rewrite bind_state. pose proof (acked_Handle (Some e) s) as Hack.
  destruct (decode_cases unmarshal (Some e)) as [[[rcv ns] Hd]|Hno].
  2: { destruct (Handle_rejects unmarshal (Some e) s Hno) as [[x ->]|[x ->]]; intros <-; by left. }
  destruct (Handle_run unmarshal (Some e) rcv ns s Hinv (settled_current _ _ Hset) Hd) as (err & s1 & Hh & _ & Hok & Herr).
  rewrite Hh in Hack |- *. cbn [snd] in Hack. destruct err as [er|].
  { cbn. intros <-. destruct (Herr ltac:(done)) as [Hs|Hs]; [by left|right].
    exists e, rcv, ns. split_and!; [done..|]. rewrite Hack. set_solver. }
  specialize (Hok eq_refl). rewrite bind_state.
  intros Hs'. right. exists e, rcv, ns. do 3 (split; [done|]).
  assert (∀ s3, acked s3 ⊆ acked s1 ∪ from_option singleton ∅ (ReceiptHandle msg) → db_specs s3 = db_specs s1 → s3 = s' →
    content <$> db_specs s' = lww (Spec rcv, ns) (content <$> db_specs s) ∧
    acked s' ⊆ acked s ∪ from_option singleton ∅ (ReceiptHandle msg)) as Hend.
  { intros s3 Ha Hs <-. by rewrite Hs, <- Hack. }
  revert Hs'.
  assert (Delete q msg s1 = if svc q then svc_DeleteMessage (QueueURL q) (ReceiptHandle msg) s1
    else (Panic "invalid memory address or nil pointer dereference", s1)) as ->
    by (unfold Delete; rewrite Hid; by destruct (svc q)).
  destruct (svc q); [|intros Hs; eapply Hend; [|reflexivity|exact Hs]; set_solver].
  pose proof (delete_law (QueueURL q) (ReceiptHandle msg) s1) as [Hsub Hsp].
  destruct (svc_DeleteMessage (QueueURL q) (ReceiptHandle msg) s1) as [o2 s2]. cbn [snd] in *.
  intros Hs'. destruct o2 as [[er|]|p|]; cbn in Hs'; try by eapply Hend.
  rewrite bind_state in Hs'. destruct (skips_invalidation msg) as [[]|p|]; cbn in Hs'; try by eapply Hend.
  rewrite bind_state in Hs'. destruct (invalidate_law ["clusters"] s2) as [Ha Hs].
  destruct (Invalidate ["clusters"] s2) as [[x|p|] s3]; cbn in *; (eapply Hend; [|by rewrite Hs|exact Hs']; by rewrite Ha).
Qed.

(** A message leaves the queue only when its update is in the
    registry: if the function registered with the queue deletes a message,
    it is the one it was called with, that message decodes, and the registry
    is what the last-writer-wins contract makes of it. *)
Theorem acknowledged_after_update msg s o s' h :
  db_inv s → db_settled s → on_message unmarshal q Invalidate msg s = (o, s') → h ∈ acked s' → h ∉ acked s →
  ReceiptHandle msg = Some h ∧
  ∃ e rcv ns, NewEvent (Some msg) = Ret (Some e, None) ∧
    decode unmarshal (Some e) = Ret (Some (rcv, ns), None) ∧
    content <$> db_specs s' = lww (Spec rcv, ns) (content <$> db_specs s).
Proof.
  intros Hinv Hset Hrun Hin Hnin.
  destruct (on_message_effect msg s o s' Hinv Hset Hrun) as [[Ha _]|(e & rcv & ns & He & _ & Hd & Hs & Ha)].
  - by rewrite Ha in Hin.
  - apply Ha in Hin. split; [|by exists e, rcv, ns]. destruct (ReceiptHandle msg) as [h'|]; cbn in Hin; set_solver.
Qed.
End acknowledge.

(** A message whose attribute Type has no string value (a binary one)
    panics the goroutine that handles it, and with it the server, before
    anything is done about the message. *)
Theorem binary_type_panics `{Db W} `{SQSService W} unmarshal q Invalidate (msg : Message) id a (s : W) :
  MessageId msg = Some id → MessageAttributes msg !! MessageAttributeType = Some (Some a) →
  StringValue a = None →
  on_message unmarshal q Invalidate msg s = (Panic "invalid memory address or nil pointer dereference", s).
Proof.
  intros Hid Ha Hs. unfold on_message. rewrite Hid. cbn [deref]. rewrite bind_lift.
  rewrite NewEvent_spec, Ha, Hs. reflexivity.
Qed.

(** ** Witnesses *)

Definition wst (evs : list (option Event)) : World :=
  foldl (λ w e, (Handle mem_unmarshal e w).2) emptyWorld evs.

Lemma wst_ok evs : mem_ok (wst evs).
Proof.
  induction evs as [|e evs IH] using rev_ind; [apply mem_ok_empty|]. unfold wst in *. rewrite foldl_app. cbn [foldl].
  exact (Handle_inv mem_unmarshal e _ IH).
Qed.

Lemma Handle_last_writer_wins_witness :
  ∃ err s', Handle mem_unmarshal (update_event "c1" "1700000000000") emptyWorld = (Ret err, s') ∧
    mem_ok s' ∧
    (content <$> (Spec <$> w_db s') =
       lww (sample_spec "c1" "va6" "prod" "Active" "", 1700000000000000000) ∅ ∨
     err ≠ None ∧ Spec <$> w_db s' = ∅).
Proof.
  assert (db_inv emptyWorld) as Hempty by exact mem_ok_empty.
  destruct (Handle_last_writer_wins mem_unmarshal (update_event "c1" "1700000000000") emptyWorld Hempty)
    as (err & s' & Hrun & Hok & _ & Hlww).
  exists err, s'. split_and!; [exact Hrun|exact Hok|]. apply Hlww. apply settled_current. reflexivity.
Defined.

(** The entry is of time 5, an older copy has that of time 3, and a message of
    time 4 arrives. *)
Definition behind : World := set_lagging (Some (w_db (wst [update_event "c1" "3"]))) (wst [update_event "c1" "5"]).

Definition behind_read : option Cluster := w_copy behind !! "c1".
Definition behind_after : World := (Handle mem_unmarshal (update_event "c1" "4") behind).2.

Lemma stale_read_regresses_witness :
  content <$> db_specs behind_after !! "c1" = Some (entry (sample_spec "c1" "va6" "prod" "Active" "") 4000000).
Proof.
  refine (proj1 (stale_read_regresses mem_unmarshal (update_event "c1" "4") (sample "c1" "va6" "prod" "Active" "") 4000000
    behind behind_read behind behind_after _ _ _ _ _ _)).
  - split; [exact (proj1 (wst_ok [update_event "c1" "5"]))|exact (proj1 (wst_ok [update_event "c1" "3"]))].
  - vm_compute. reflexivity.
  - vm_compute. reflexivity.
  - vm_compute. reflexivity.
  - vm_compute. reflexivity.
  - vm_compute. reflexivity.
Defined.

Lemma stored_time_monotone_witness :
  ∃ sp t, db_specs (wst [update_event "c1" "5"; update_event "c1" "3"]) !! "c1" = Some sp ∧
    Parse (LastUpdated sp) = Some t ∧ Before t (Unix0 5000000) = false.
Proof.
  refine (stored_time_monotone mem_unmarshal (wst [update_event "c1" "5"])
    (wst [update_event "c1" "5"; update_event "c1" "3"]) "c1"
    (set_LastUpdated "1970-01-01T00:00:00.005Z" (sample_spec "c1" "va6" "prod" "Active" ""))
    (Unix0 5000000) _ _ _).
  - apply rtc_once. exists (update_event "c1" "3"), (wst [update_event "c1" "5"]).
    split; [split; [apply wst_ok|done]|reflexivity].
  - vm_compute. reflexivity.
  - vm_compute. reflexivity.
Defined.

Lemma delivery_order_irrelevant_witness :
  content <$> db_specs (wst [update_event "c1" "5"; update_event "c1" "3"; update_event "c2" "5"]) =
  content <$> db_specs (wst [update_event "c2" "5"; update_event "c1" "3"; update_event "c1" "5"]).
Proof.
  refine (delivery_order_irrelevant mem_unmarshal
    [update_event "c1" "5"; update_event "c1" "3"; update_event "c2" "5"]
    [update_event "c2" "5"; update_event "c1" "3"; update_event "c1" "5"] emptyWorld _ _ _ _ _ _).
  - apply (Permutation_rev [update_event "c1" "5"; update_event "c1" "3"; update_event "c2" "5"]).
  - apply (bool_decide_unpack _). vm_compute. exact I.
  - eapply handled_cons; [split; [exact mem_ok_empty|done]|vm_compute; reflexivity|].
    eapply handled_cons; [split; [exact (wst_ok [update_event "c1" "5"])|done]|vm_compute; reflexivity|].
    eapply handled_cons; [split; [exact (wst_ok [update_event "c1" "5"; update_event "c1" "3"])|done]|vm_compute; reflexivity|].
    apply handled_nil.
  - eapply handled_cons; [split; [exact mem_ok_empty|done]|vm_compute; reflexivity|].
    eapply handled_cons; [split; [exact (wst_ok [update_event "c2" "5"])|done]|vm_compute; reflexivity|].
    eapply handled_cons; [split; [exact (wst_ok [update_event "c2" "5"; update_event "c1" "3"])|done]|vm_compute; reflexivity|].
    apply handled_nil.
Defined.

Lemma interleaved_handlers_regress_witness :
  ∃ s4, content <$> db_specs s4 !! "c1" = Some (entry (sample_spec "c1" "va6" "prod" "Active" "") 3000000).
Proof.
  exists (apply_update (sample "c1" "va6" "prod" "Active" "") (Unix0 3000000) None
    (apply_update (sample "c1" "or2" "prod" "Active" "") (Unix0 5000000) None emptyWorld).2).2.
  eapply (interleaved_handlers_regress (sample "c1" "va6" "prod" "Active" "")
    (sample "c1" "or2" "prod" "Active" "") 3000000 5000000 emptyWorld None emptyWorld None emptyWorld).
  - apply mem_ok_empty.
  - apply settled_current. reflexivity.
  - reflexivity.
  - done.
  - done.
  - done.
  - reflexivity.
  - reflexivity.
  - reflexivity.
  - vm_compute. reflexivity.
  - vm_compute. reflexivity.
Defined.

Lemma mem_acked_laws :
  (∀ n s, list_to_set (C := gset string) (w_acked (mem_get n s).2) = list_to_set (w_acked s)) ∧
  (∀ c s, list_to_set (C := gset string) (w_acked (mem_put c s).2) = list_to_set (w_acked s)).
Proof.
  split.
  - intros n s. destruct (mem_get_run n s) as (r & err & fs & -> & _). done.
  - intros c s. unfold mem_put. destruct (Parse _); [|done].
    destruct (mem_get_run (Name (Spec c)) s) as (r & err & fs & Hg & _). rewrite (bind_run _ _ _ _ _ Hg).
    destruct (take_fault_run (set_faults fs s)) as (b & fs' & Hf). rewrite (bind_run _ _ _ _ _ Hf).
    by destruct b.
Qed.

Lemma acknowledged_after_update_witness :
  ReceiptHandle (update_message "c1" "5") = Some "receipt-5" ∧
  ∃ e rcv ns, NewEvent (Some (update_message "c1" "5")) = Ret (Some e, None) ∧
    decode mem_unmarshal (Some e) = Ret (Some (rcv, ns), None) ∧
    content <$> db_specs (on_message mem_unmarshal two_handlers mem_Invalidate (update_message "c1" "5") emptyWorld).2 =
      lww (Spec rcv, ns) (content <$> db_specs emptyWorld).
Proof.
  eapply (acknowledged_after_update mem_unmarshal two_handlers mem_Invalidate
    (λ w, list_to_set (w_acked w))).
  - apply mem_acked_laws.
  - apply mem_acked_laws.
  - intros url [h|] s; cbn; split; set_solver.
  - intros tags s. done.
  - apply mem_ok_empty.
  - reflexivity.
  - vm_compute. reflexivity.
  - vm_compute. reflexivity.
  - vm_compute. by intros.
Defined.

Lemma binary_type_panics_witness :
  on_message mem_unmarshal two_handlers mem_Invalidate
    (mkMessage (Some "id") (Some "r") None ∅ {["Type" := Some (mkAttr (Some "Binary") None)]}) emptyWorld =
  (Panic "invalid memory address or nil pointer dereference", emptyWorld).
Proof.
  apply (binary_type_panics _ _ _ _ "id" (mkAttr (Some "Binary") None)); reflexivity.
Defined.
