(* ===== verification/ConcurrentHandlers.v ===== *)
(** Handlers of messages that run at the same time.  The queue starts a goroutine
    for each message (Sqs.v), and what a goroutine does to the registry is one
    read and one write (EventHandler.v); between them other goroutines run.

    When no two handlers of one cluster overlap and reads are current, the outcome
    is that of handling the messages one after the other. *)
From stdpp Require Import base gmap strings list option numbers sets relations.
From S2P Require Import Prelude GoStrings GoTime Registry MemDynamo Database Db Sqs MemDb EventHandler.

Local Open Scope Z_scope.

(** A handler between its read and its write. *)
Record Flight := mkFlight { f_rcv : Cluster; f_ns : Z; f_read : option Cluster }.
Definition f_name (f : Flight) : string := Name (Spec (f_rcv f)).
Definition f_update (f : Flight) : ClusterSpec * Z := (Spec (f_rcv f), f_ns f).

(** The registry, the handlers that have read, and the updates whose handlers
    have started and have succeeded. *)
Record CState (W : Type) := mkCState {
  c_world : W; c_flights : list Flight; c_started : list (ClusterSpec * Z); c_succeeded : list (ClusterSpec * Z) }.
Arguments mkCState {W}.
Arguments c_world {W}.
Arguments c_flights {W}.
Arguments c_started {W}.
Arguments c_succeeded {W}.

Section concurrent.
Context `{DbLaws W} (unmarshal : string → Cluster * error).
Implicit Types (s : CState W).

(** [orderly] keeps a handler from starting while another one of the same cluster
    is between its read and its write, and while the last write of the cluster has
    not reached every copy; the source does neither. *)
Inductive conc_step (orderly : bool) : CState W → CState W → Prop :=
  | K_read s event rcv ns r w :
     decode unmarshal event = Ret (Some (rcv, ns), None) →
     db_GetCluster (Name (Spec rcv)) (c_world s) = (Ret (r, None), w) →
     (orderly = true → db_current (c_world s) (Name (Spec rcv)) ∧ Name (Spec rcv) ∉ (f_name <$> c_flights s)) →
     conc_step orderly s
       (mkCState w (mkFlight rcv ns r :: c_flights s) ((Spec rcv, ns) :: c_started s) (c_succeeded s))
  | K_read_fails s event rcv ns e w :
     decode unmarshal event = Ret (Some (rcv, ns), None) →
     db_GetCluster (Name (Spec rcv)) (c_world s) = (Ret (None, Some e), w) →
     conc_step orderly s (mkCState w (c_flights s) (c_started s) (c_succeeded s))
  (** Time passes: nothing is written. *)
  | K_wait s w :
     db_inv w → db_specs w = db_specs (c_world s) →
     conc_step orderly s (mkCState w (c_flights s) (c_started s) (c_succeeded s))
  | K_write s fs1 f fs2 err w :
     c_flights s = fs1 ++ f :: fs2 →
     apply_update (f_rcv f) (Unix0 (f_ns f)) (f_read f) (c_world s) = (Ret err, w) →
     conc_step orderly s (mkCState w (fs1 ++ fs2) (c_started s)
       (if bool_decide (err = None) then f_update f :: c_succeeded s else c_succeeded s)).

(** What a handler has read is what the registry holds. *)
Definition current (w : W) (f : Flight) : Prop :=
  content <$> (Spec <$> f_read f) = (content <$> db_specs w) !! f_name f ∧ int64_min ≤ f_ns f ≤ int64_max.

Lemma current_skips w f :
  current w f → skips (Unix0 (f_ns f)) (f_read f) = newer (db_specs w) (f_name f) (f_ns f).
Proof.
  intros [Hc _]. rewrite <- newer_content. unfold skips, newer. rewrite <- Hc.
  destruct (f_read f) as [c|]; cbn; [|done]. by rewrite content_LastUpdated.
Qed.

Lemma current_same w w' f : content <$> db_specs w' = content <$> db_specs w → current w f → current w' f.
Proof. unfold current. by intros ->. Qed.

Lemma lww_other u reg n : Name u.1 ≠ n → lww u reg !! n = reg !! n.
Proof. destruct u as [sp ns]. cbn. intros Hn. destruct (newer _ _ _); [done|]. by rewrite lookup_insert_ne. Qed.

(** A handler that writes: the others have still read what the registry holds. *)
Lemma write_effect w fs1 f fs2 err w' :
  db_inv w → NoDup (f_name <$> fs1 ++ f :: fs2) → Forall (current w) (fs1 ++ f :: fs2) →
  apply_update (f_rcv f) (Unix0 (f_ns f)) (f_read f) w = (Ret err, w') →
  db_inv w' ∧ NoDup (f_name <$> fs1 ++ fs2) ∧ Forall (current w') (fs1 ++ fs2) ∧
  ∃ vs, content <$> db_specs w' = lww_all vs (content <$> db_specs w) ∧ (vs = [] ∨ vs = [f_update f]) ∧
    (err = None → vs = [f_update f]).
Proof.
  intros Hdb Hnd [Hc1 [Hcf Hc2]%Forall_cons]%Forall_app Hw.
  rewrite fmap_app, fmap_cons in Hnd. apply NoDup_app in Hnd as (Hn1 & Hn12 & [Hnf Hn2]%NoDup_cons).
  destruct (apply_update_run (f_rcv f) (f_ns f) (f_read f) w Hdb (proj2 Hcf) (current_skips _ _ Hcf))
    as (err' & w2 & Hw' & Hdb' & Hsucc & Hfail). rewrite Hw in Hw'. simplify_eq.
  assert (∃ vs, content <$> db_specs w2 = lww_all vs (content <$> db_specs w) ∧ (vs = [] ∨ vs = [f_update f]) ∧
    (err' = None → vs = [f_update f])) as (vs & Hvs & Hvsub & Hvok).
  { destruct err' as [e|]; [|exists [f_update f]; split_and!; [by apply Hsucc|by right|done]].
    destruct (Hfail ltac:(done)) as [->|Hs]; [exists []|exists [f_update f]]; (split; [done|]; split; [by auto|done]). }
  assert (∀ fs, f_name f ∉ (f_name <$> fs) → Forall (current w) fs → Forall (current w2) fs) as Hkeeps.
  { intros fs Hnin. rewrite !Forall_forall. intros Hfs g Hg. destruct (Hfs g Hg) as [Hr Hns]. split; [|done].
    rewrite Hr, Hvs. destruct Hvsub as [->| ->]; [done|]. change (lww_all [?u] ?m) with (lww u m). rewrite lww_other; [done|].
    intros Hn. apply Hnin. change (f_name f = f_name g) in Hn. rewrite Hn. by apply list_elem_of_fmap_2. }
  split_and!; [done| | |by exists vs].
  - rewrite fmap_app. apply NoDup_app. split_and!; [done| |done]. intros n Hn1' Hn2'. apply (Hn12 n Hn1'). set_solver.
  - apply Forall_app. split; apply Hkeeps; try done. intros Hin. apply (Hn12 _ Hin). set_solver.
Qed.

(** The registry is what some order of started updates makes of [reg], among
    them all that succeeded. *)
Record conc_inv (reg : gmap string ClusterSpec) s : Prop := {
  ci_db : db_inv (c_world s);
  ci_names : NoDup (f_name <$> c_flights s);
  ci_current : Forall (current (c_world s)) (c_flights s);
  ci_started : Forall (λ f, f_update f ∈ c_started s) (c_flights s);
  ci_serial : ∃ us, content <$> db_specs (c_world s) = lww_all us reg ∧
    us ⊆ c_started s ∧ c_succeeded s ⊆ us }.

Lemma conc_inv_write reg s fs1 f fs2 err w :
  conc_inv reg s → c_flights s = fs1 ++ f :: fs2 →
  apply_update (f_rcv f) (Unix0 (f_ns f)) (f_read f) (c_world s) = (Ret err, w) →
  conc_inv reg (mkCState w (fs1 ++ fs2) (c_started s)
    (if bool_decide (err = None) then f_update f :: c_succeeded s else c_succeeded s)).
Proof.
  intros [Hdb Hnd Hcur Hst (us & Hus & Hsub & Hok)] Hf Hw. rewrite Hf in Hnd, Hcur, Hst.
  destruct (write_effect _ _ _ _ _ _ Hdb Hnd Hcur Hw) as (Hdb' & Hnd' & Hcur' & vs & Hvs & Hvsub & Hvok).
  apply Forall_app in Hst as [Hst1 [Hstf Hst2]%Forall_cons].
  split; cbn; [done|done|done|by apply Forall_app|].
  exists (us ++ vs). split_and!; [|destruct Hvsub as [->| ->]; set_solver|case_bool_decide; [rewrite Hvok by done|]; set_solver].
  rewrite Hvs, Hus. unfold lww_all. by rewrite foldl_app.
Qed.

Lemma conc_inv_step reg s s' : conc_step true s s' → conc_inv reg s → conc_inv reg s'.
Proof.
  intros Hstep Hinv.
  destruct Hstep as [s event rcv ns r w Hd Hg Hex|s event rcv ns e w Hd Hg|s w Hdb' Hs|s fs1 f fs2 err w Hf Hw];
    [destruct Hinv as [Hdb Hnd Hcur Hst (us & Hus & Hsub & Hok)]..|by eapply conc_inv_write];
    [..|split; cbn; [done..| |done|by exists us; rewrite Hs];
      eapply Forall_impl; [exact Hcur|]; intros f; apply current_same; by rewrite Hs];
    destruct (db_GetCluster_law (Name (Spec rcv)) (c_world s) Hdb) as (r' & err & w' & Hg' & Hdb' & Hs & _ & Hr & _);
    rewrite Hg in Hg'; simplify_eq;
    assert (Forall (current w') (c_flights s)) as Hcur'
      by (eapply Forall_impl; [exact Hcur|]; intros f; apply current_same; by rewrite Hs).
  - destruct (Hex eq_refl) as [Hcl Hnew]. specialize (Hcl _ (Hr eq_refl)). split; cbn.
    + done.
    + by constructor.
    + constructor; [|done]. split; [|by eapply decode_time]. cbn. by rewrite Hcl, Hs, lookup_fmap.
    + constructor; [cbn; set_solver|]. eapply Forall_impl; [exact Hst|]. set_solver.
    + exists us. rewrite Hs. split_and!; [done|set_solver|done].
  - split; cbn; [done..|by exists us; rewrite Hs].
Qed.

(** Concurrent handlers are serialisable as long as no two handlers of one
    cluster overlap and their reads are current: whatever the interleaving of the others and whichever calls
    fail, the registry is what the last-writer-wins contract makes of updates
    applied one after the other, each of them of a message whose handler
    started, and among them every one whose handler succeeded. *)
Theorem concurrent_handlers_serialise w0 s :
  db_inv w0 → rtc (conc_step true) (mkCState w0 [] [] []) s →
  ∃ us, content <$> db_specs (c_world s) = lww_all us (content <$> db_specs w0) ∧
    us ⊆ c_started s ∧ c_succeeded s ⊆ us.
Proof.
  intros Hdb Hrun.
  assert (conc_inv (content <$> db_specs w0) (mkCState w0 [] [] [])) as Hinit
    by (split; cbn; [done|constructor|constructor|constructor|by exists []]).
  apply (ci_serial (content <$> db_specs w0)). revert Hinit. generalize (content <$> db_specs w0). intros reg Hinit.
  induction Hrun as [s|s s1 s2 Hstep _ IH]; [done|]. apply IH. by eapply conc_inv_step.
Qed.
End concurrent.

(** ** Witness: two clusters, the reads before the writes *)

Definition rcv (n : string) : Cluster := (mem_unmarshal n).1.
Definition interleaved : CState World :=
  let w := (apply_update (rcv "b") (Unix0 7000000) None emptyWorld).2 in
  mkCState (apply_update (rcv "a") (Unix0 5000000) None w).2 []
    [(Spec (rcv "b"), 7000000); (Spec (rcv "a"), 5000000)] [(Spec (rcv "a"), 5000000); (Spec (rcv "b"), 7000000)].

Lemma concurrent_handlers_serialise_witness :
  dom (w_db (c_world interleaved)) = {["a"; "b"]} ∧
  ∃ us, content <$> db_specs (c_world interleaved) = lww_all us (content <$> db_specs emptyWorld) ∧
    us ⊆ c_started interleaved ∧ c_succeeded interleaved ⊆ us.
Proof.
  split; [vm_compute; reflexivity|].
  apply (concurrent_handlers_serialise mem_unmarshal emptyWorld interleaved); [exact mem_ok_empty|].
  eapply rtc_l; [apply (K_read _ true (mkCState emptyWorld [] [] []) (update_event "a" "5") (rcv "a") 5000000 None emptyWorld)|].
  { vm_compute. reflexivity. }
  { reflexivity. }
  { intros _. split; [apply settled_current; reflexivity|cbn; set_solver]. }
  eapply rtc_l; [apply (K_read _ true _ (update_event "b" "7") (rcv "b") 7000000 None emptyWorld)|].
  { vm_compute. reflexivity. }
  { reflexivity. }
  { intros _. split; [apply settled_current; reflexivity|cbn; set_solver]. }
  eapply rtc_l; [eapply (K_write _ true _ [] _ _ None); [reflexivity|vm_compute; reflexivity]|].
  eapply rtc_l; [eapply (K_write _ true _ [] _ _ None); [reflexivity|vm_compute; reflexivity]|].
  apply rtc_refl.
Defined.
