(* ===== verification/Config.v ===== *)
(** pkg/config/config.go: the configuration from the environment, and
    [time.ParseDuration], which it uses. *)
From Stdlib Require Import Ascii.
From stdpp Require Import base strings list option numbers sets.
From S2P Require Import Prelude GoStrings.

Local Open Scope Z_scope.

(** The pair of a strconv function as a result. *)
Definition of_pair {A} (what : string) (p : A * error) : res A :=
  match p.2 with
  | Some e => inl ("error parsing " +:+ what +:+ ": " +:+ e)
  | None => inr p.1
  end.

(** ** time.ParseDuration *)

Section duration.
(** [uint64(float64(f) * (float64(unit) / scale))]: the nanoseconds of a
    fraction [f / scale] of a unit, in binary floating point. *)
Context (fraction : Z → Z → Z → Z).

Definition unitMap (u : string) : option Z :=
  if bool_decide (u = "ns") then Some 1
  else if bool_decide (u = "us") || bool_decide (u = bytes [194; 181; 115]%N) ||
          bool_decide (u = bytes [206; 188; 115]%N) then Some (10 ^ 3)
  else if bool_decide (u = "ms") then Some (10 ^ 6)
  else if bool_decide (u = "s") then Some (10 ^ 9)
  else if bool_decide (u = "m") then Some (60 * 10 ^ 9)
  else if bool_decide (u = "h") then Some (3600 * 10 ^ 9)
  else None.

(** The digits at the front of a string; [None] on overflow. *)
Fixpoint leadingInt (x : Z) (s : string) : option (Z * string) :=
  match s with
  | String c s' =>
     if is_digit c
     then if 2 ^ 63 / 10 <? x then None
          else let x := x * 10 + digit_val c in
               if 2 ^ 63 <? x then None else leadingInt x s'
     else Some (x, s)
  | EmptyString => Some (x, s)
  end.

Fixpoint leadingFraction (x scale : Z) (overflow : bool) (s : string) : Z * Z * string :=
  match s with
  | String c s' =>
     if is_digit c
     then if overflow then leadingFraction x scale true s'
          else if (2 ^ 63 - 1) / 10 <? x then leadingFraction x scale true s'
          else let y := x * 10 + digit_val c in
               if 2 ^ 63 <? y then leadingFraction x scale true s'
               else leadingFraction y (scale * 10) false s'
     else (x, scale, s)
  | EmptyString => (x, scale, s)
  end.

(** The bytes up to the next digit or period. *)
Fixpoint take_unit (s : string) : string * string :=
  match s with
  | String c s' =>
     if bool_decide (c = "."%char) || is_digit c then (EmptyString, s)
     else let '(u, r) := take_unit s' in (String c u, r)
  | EmptyString => (EmptyString, s)
  end.

(** One number with its unit; what is left. *)
Definition duration_term (s : string) : option (Z * string) :=
  match s with
  | EmptyString => None
  | String c _ =>
     if negb (bool_decide (c = "."%char) || is_digit c) then None
     else
       '(v, s1) ← leadingInt 0 s;
       let pre := negb (String.length s =? String.length s1)%nat in
       let '(f, scale, s2, post) :=
         match s1 with
         | String c1 s1' =>
            if bool_decide (c1 = "."%char)
            then let '(f, scale, s2) := leadingFraction 0 1 false s1' in
                 (f, scale, s2, negb (String.length s1' =? String.length s2)%nat)
            else (0, 1, s1, false)
         | EmptyString => (0, 1, s1, false)
         end in
       if negb pre && negb post then None
       else
         let '(u, s3) := take_unit s2 in
         unit ← unitMap u;
         if 2 ^ 63 / unit <? v then None
         else
           let v := v * unit in
           let v' := if 0 <? f then v + fraction f unit scale else v in
           if 2 ^ 63 <? v' then None else Some (v', s3)
  end.

(** A round of fuel consumes a byte at least. *)
Fixpoint duration_loop (fuel : nat) (d : Z) (s : string) : option Z :=
  match s, fuel with
  | EmptyString, _ => Some d
  | _, O => None
  | _, S fuel =>
     '(v, s') ← duration_term s;
     let d := d + v in
     if 2 ^ 63 <? d then None else duration_loop fuel d s'
  end.

Definition ParseDuration (s : string) : Z * error :=
  let '(neg, t) :=
    match s with
    | String c s' =>
       if bool_decide (c = "-"%char) then (true, s')
       else if bool_decide (c = "+"%char) then (false, s') else (false, s)
    | EmptyString => (false, s)
    end in
  if bool_decide (t = "0") then (0, None)
  else if bool_decide (t = "") then (0, errorf "time: invalid duration")
  else
    match duration_loop (String.length t) 0 t with
    | None => (0, errorf "time: invalid duration")
    | Some d =>
       if neg then (- d, None)
       else if 2 ^ 63 - 1 <? d then (0, errorf "time: invalid duration") else (d, None)
    end.

End duration.

Example duration_1h : ParseDuration (λ f u s, f * u / s) "1h" = (3600000000000, None).
Proof. vm_compute. reflexivity. Qed.
Example duration_mixed : ParseDuration (λ f u s, f * u / s) "-1h15m30.918s" = (-4530918000000, None).
Proof. vm_compute. reflexivity. Qed.
Example duration_no_unit : (ParseDuration (λ f u s, f * u / s) "10").2 ≠ None.
Proof. vm_compute. done. Qed.

(** ** The configuration *)

(** [log.Lvl]; [LvlUnset] is its zero value. *)
Inductive Lvl := LvlUnset | DEBUG | INFO | WARN.

Record AppConfig := mkAppConfig {
  ApiRateLimiterEnabled : bool;
  ApiHost : string;
  AwsRegion : string;
  DbEndpoint : string;
  DbAwsRegion : string;
  DbTableName : string;
  DbIndexName : string;
  LogLevel : Lvl;
  OidcClientId : string;
  OidcIssuerUrl : string;
  SqsEndpoint : string;
  SqsAwsRegion : string;
  SqsQueueName : string;
  SqsBatchSize : Z;
  SqsWaitSeconds : Z;
  SqsRunInterval : Z;
  K8sResourceId : string;
  ApiTenantId : string;
  ApiClientId : string;
  ApiClientSecret : string;
  ApiAuthorizedGroupId : string;
  ApiCacheTTL : Z;
  ApiCacheRedisHost : string;
  ApiCacheRedisTLSEnabled : bool }.

Section config.
(** [os.Getenv], empty for a variable that is not set. *)
Context (Getenv : string → string) (fraction : Z → Z → Z → Z).

Definition getEnv (varName defaultValue : string) : string :=
  let varValue := Getenv varName in
  if bool_decide (varValue = "") then defaultValue else varValue.

(** [v := getEnv(name, "")] with its check. *)
Definition required (name : string) : res string :=
  let v := getEnv name "" in
  if bool_decide (v = "") then inl ("environment variable " +:+ name +:+ " is not set") else inr v.

Definition LoadApiConfig : res AppConfig :=
  awsRegion ← required "AWS_REGION";
  dbAwsRegion ← required "DB_AWS_REGION";
  dbEndpoint ← required "DB_ENDPOINT";
  dbTableName ← required "DB_TABLE_NAME";
  let dbIndexName := getEnv "DB_INDEX_NAME" "" in
  sqsEndpoint ← required "SQS_ENDPOINT";
  sqsAwsRegion ← required "SQS_AWS_REGION";
  sqsQueueName ← required "SQS_QUEUE_NAME";
  sqsBatchSize ← required "SQS_BATCH_SIZE";
  sqsBatchSizeInt ← of_pair "SQS_BATCH_SIZE" (ParseInt sqsBatchSize);
  sqsWaitSeconds ← required "SQS_WAIT_SECONDS";
  sqsWaitSecondsInt ← of_pair "SQS_WAIT_SECONDS" (ParseInt sqsWaitSeconds);
  sqsRunInterval ← required "SQS_RUN_INTERVAL";
  sqsRunIntervalInt ← of_pair "SQS_RUN_INTERVAL" (Atoi sqsRunInterval);
  oidcClientId ← required "OIDC_CLIENT_ID";
  oidcIssuerUrl ← required "OIDC_ISSUER_URL";
  let apiRateLimiterEnabled := bool_decide (getEnv "API_RATE_LIMITER" "" = "enabled") in
  let configLogLevel := getEnv "LOG_LEVEL" "INFO" in
  let logLevel := if bool_decide (configLogLevel = "DEBUG") then DEBUG
                  else if bool_decide (configLogLevel = "INFO") then INFO else WARN in
  let apiHost := getEnv "API_HOST" "0.0.0.0:8080" in
  k8sResourceId ← required "K8S_RESOURCE_ID";
  apiTenantId ← required "API_TENANT_ID";
  apiClientId ← required "API_CLIENT_ID";
  apiClientSecret ← required "API_CLIENT_SECRET";
  authorizedGroupId ← required "API_AUTHORIZED_GROUP_ID";
  apiCacheTTL ← of_pair "API_CACHE_TTL" (ParseDuration fraction (getEnv "API_CACHE_TTL" "1h"));
  apiCacheRedisHost ← required "API_CACHE_REDIS_HOST";
  apiCacheRedisTLSEnabledBool ←
    of_pair "API_CACHE_REDIS_TLS_ENABLED" (ParseBool (getEnv "API_CACHE_REDIS_TLS_ENABLED" "true"));
  mret (mkAppConfig apiRateLimiterEnabled apiHost awsRegion dbEndpoint dbAwsRegion dbTableName
    dbIndexName logLevel oidcClientId oidcIssuerUrl sqsEndpoint sqsAwsRegion sqsQueueName
    sqsBatchSizeInt sqsWaitSecondsInt sqsRunIntervalInt k8sResourceId apiTenantId apiClientId
    apiClientSecret authorizedGroupId apiCacheTTL apiCacheRedisHost apiCacheRedisTLSEnabledBool).

Definition LoadClientConfig : res AppConfig :=
  sqsEndpoint ← required "SQS_ENDPOINT";
  sqsAwsRegion ← required "SQS_AWS_REGION";
  sqsQueueName ← required "SQS_QUEUE_NAME";
  mret (mkAppConfig false "" "" "" "" "" "" LvlUnset "" "" sqsEndpoint sqsAwsRegion sqsQueueName
    0 0 0 "" "" "" "" "" 0 "" false).

(** The variables without a default. *)
Definition api_required : list string :=
  ["AWS_REGION"; "DB_AWS_REGION"; "DB_ENDPOINT"; "DB_TABLE_NAME"; "SQS_ENDPOINT"; "SQS_AWS_REGION";
   "SQS_QUEUE_NAME"; "SQS_BATCH_SIZE"; "SQS_WAIT_SECONDS"; "SQS_RUN_INTERVAL"; "OIDC_CLIENT_ID";
   "OIDC_ISSUER_URL"; "K8S_RESOURCE_ID"; "API_TENANT_ID"; "API_CLIENT_ID"; "API_CLIENT_SECRET";
   "API_AUTHORIZED_GROUP_ID"; "API_CACHE_REDIS_HOST"].

Lemma required_ok name v : required name = inr v ↔ Getenv name ≠ "" ∧ v = Getenv name.
Proof.
  unfold required, getEnv. destruct (decide (Getenv name = "")) as [->|Hn]; [naive_solver|].
  rewrite !(bool_decide_eq_false_2 (Getenv name = "")) by done. naive_solver.
Qed.

Lemma of_pair_ok {A} what (p : A * error) a : of_pair what p = inr a ↔ p.2 = None ∧ a = p.1.
Proof. unfold of_pair. destruct p as [x [e|]]; naive_solver. Qed.

Lemma required_eq name : Getenv name ≠ "" → required name = inr (Getenv name).
Proof. intros. by apply required_ok. Qed.
Lemma of_pair_eq {A} what (p : A * error) : p.2 = None → of_pair what p = inr p.1.
Proof. intros. by apply of_pair_ok. Qed.

(** LoadApiConfig succeeds exactly when every variable without a
    default is set and the numbers, the cache lifetime and the TLS flag
    parse; the configuration is then made of these values. *)
Theorem LoadApiConfig_spec cfg :
  LoadApiConfig = inr cfg ↔
    Forall (λ v, Getenv v ≠ "") api_required ∧
    (ParseInt (Getenv "SQS_BATCH_SIZE")).2 = None ∧ (ParseInt (Getenv "SQS_WAIT_SECONDS")).2 = None ∧
    (Atoi (Getenv "SQS_RUN_INTERVAL")).2 = None ∧
    (ParseDuration fraction (getEnv "API_CACHE_TTL" "1h")).2 = None ∧
    (ParseBool (getEnv "API_CACHE_REDIS_TLS_ENABLED" "true")).2 = None ∧
    cfg = mkAppConfig (bool_decide (Getenv "API_RATE_LIMITER" = "enabled"))
      (getEnv "API_HOST" "0.0.0.0:8080") (Getenv "AWS_REGION") (Getenv "DB_ENDPOINT")
      (Getenv "DB_AWS_REGION") (Getenv "DB_TABLE_NAME") (Getenv "DB_INDEX_NAME")
      (if bool_decide (getEnv "LOG_LEVEL" "INFO" = "DEBUG") then DEBUG
       else if bool_decide (getEnv "LOG_LEVEL" "INFO" = "INFO") then INFO else WARN)
      (Getenv "OIDC_CLIENT_ID") (Getenv "OIDC_ISSUER_URL") (Getenv "SQS_ENDPOINT")
      (Getenv "SQS_AWS_REGION") (Getenv "SQS_QUEUE_NAME") (ParseInt (Getenv "SQS_BATCH_SIZE")).1
      (ParseInt (Getenv "SQS_WAIT_SECONDS")).1 (Atoi (Getenv "SQS_RUN_INTERVAL")).1
      (Getenv "K8S_RESOURCE_ID") (Getenv "API_TENANT_ID") (Getenv "API_CLIENT_ID")
      (Getenv "API_CLIENT_SECRET") (Getenv "API_AUTHORIZED_GROUP_ID")
      (ParseDuration fraction (getEnv "API_CACHE_TTL" "1h")).1 (Getenv "API_CACHE_REDIS_HOST")
      (ParseBool (getEnv "API_CACHE_REDIS_TLS_ENABLED" "true")).1.
Proof.
  assert (∀ v, getEnv v "" = Getenv v) as Hopt
    by (intros v; unfold getEnv; case_bool_decide; congruence).
  unfold LoadApiConfig, api_required. rewrite !Hopt. split.
  - intros Hl. repeat (apply res_bind_inr in Hl as (? & Hx & Hl);
      first [apply required_ok in Hx as [? ->] | apply of_pair_ok in Hx as [? ->]]).
    injection Hl as <-. split_and!; [by repeat constructor|done..].
  - intros (Hall & H1 & H2 & H3 & H4 & H5 & ->). rewrite !Forall_cons in Hall. destruct_and! Hall.
    rewrite !required_eq, !res_bind_r by done.
    repeat (rewrite of_pair_eq by done; rewrite ?res_bind_r). reflexivity.
Qed.
End config.
