(* ===== verification/Web.v ===== *)
(** pkg/apiserver/web, pkg/apiserver/errors and the echo context the handlers
    run on: requests, responses, middlewares, the response cache, the probes
    and the request metrics.

    A handler is a computation on the world and the context of one request;
    a middleware takes a handler to a handler.  The JSON and gob encodings, the
    cache client and the rate limiter of echo are parameters. *)
From Stdlib Require Import Ascii.
From stdpp Require Import base gmap strings list option numbers sets sorting.
From S2P Require Import Prelude GoStrings Registry Monitoring DynamoDB Config Sqs Db.

Local Open Scope Z_scope.

(** ** Errors of handlers, and pkg/apiserver/errors *)

Inductive werr := HTTPError (code : Z) (message : string) | Plain (message : string).
Definition werror : Type := option werr.
Notation nil_werror := (None : werror).

(** [NewError], here and in pkg/auth: the body of the error response. *)
Definition NewError (err : werr) : string :=
  match err with
  | HTTPError _ m => m
  | Plain m => m
  end.
Definition NotFound : string := "resource not found".

(** ** What the handlers respond with *)

Record clusterList := mkClusterList {
  Items : list ClusterSpec; ItemsCount : Z; Offset : Z; Limit : Z; More : bool }.
Record ServiceMetadataItem := mkServiceMetadata {
  sm_Name : string; sm_ServiceMetadata : gomap (gmap string (gmap string string)) }.
Record serviceMetadataList := mkServiceList {
  sl_Items : list ServiceMetadataItem; sl_ItemsCount : Z; sl_Offset : Z; sl_Limit : Z; sl_More : bool }.

Inductive payload :=
  | PError (body : string)
  | PSpec (sp : ClusterSpec)
  | PClusters (l : clusterList)
  | PService (m : ServiceMetadataItem)
  | PServices (l : serviceMetadataList)
  | PStatus (database sqs : bool)
  | PNull.

(** The encoder ends a value with a newline. *)
Definition newline : string := String "010" EmptyString.

(** ** The context of a request *)

(** What [c.Set] stores. *)
Inductive CtxVal := VStr (s : string) | VStrs (l : list string).

Record Context := mkCtx {
  req_Method : string;
  (** The route, and the escaped path of the URL. *)
  req_Path : string;
  req_URLPath : string;
  req_Params : gmap string string;
  req_Query : gmap string (list string);
  req_Authorization : string;
  req_Body : string;
  vals : gmap string CtxVal;
  committed : bool;
  resp_Status : Z;
  resp_Header : gmap string (list string);
  resp_Body : string }.

Definition set_query (q : gmap string (list string)) (c : Context) : Context :=
  mkCtx (req_Method c) (req_Path c) (req_URLPath c) (req_Params c) q (req_Authorization c) (req_Body c)
    (vals c) (committed c) (resp_Status c) (resp_Header c) (resp_Body c).
Definition set_val (k : string) (v : CtxVal) (c : Context) : Context :=
  mkCtx (req_Method c) (req_Path c) (req_URLPath c) (req_Params c) (req_Query c) (req_Authorization c)
    (req_Body c) (<[k := v]> (vals c)) (committed c) (resp_Status c) (resp_Header c) (resp_Body c).
Definition set_header (k : string) (v : list string) (c : Context) : Context :=
  mkCtx (req_Method c) (req_Path c) (req_URLPath c) (req_Params c) (req_Query c) (req_Authorization c)
    (req_Body c) (vals c) (committed c) (resp_Status c) (<[k := v]> (resp_Header c)) (resp_Body c).
(** [Response.WriteHeader]: the first status is the one that is sent. *)
Definition write_status (code : Z) (c : Context) : Context :=
  if committed c then c
  else mkCtx (req_Method c) (req_Path c) (req_URLPath c) (req_Params c) (req_Query c) (req_Authorization c)
    (req_Body c) (vals c) true code (resp_Header c) (resp_Body c).
Definition write_body (b : string) (c : Context) : Context :=
  mkCtx (req_Method c) (req_Path c) (req_URLPath c) (req_Params c) (req_Query c) (req_Authorization c)
    (req_Body c) (vals c) (committed c) (resp_Status c) (resp_Header c) (resp_Body c +:+ b).

(** [c.Param] and [c.QueryParam]: empty when missing. *)
Definition Param (k : string) (c : Context) : string := default "" (req_Params c !! k).
Definition QueryParam (k : string) (c : Context) : string :=
  match req_Query c !! k with Some (v :: _) => v | _ => "" end.

Record Req (W : Type) := mkReq { world : W; ctx : Context }.
Arguments mkReq {W} _ _.
Arguments world {W} _.
Arguments ctx {W} _.

Abbreviation HandlerFunc W := (M (Req W) werror).
Abbreviation MiddlewareFunc W := (HandlerFunc W → HandlerFunc W).

Section context.
Context {W : Type}.

(** A call that does not see the request. *)
Definition on_world {A} (m : M W A) : M (Req W) A := λ r,
  let '(o, w) := m (world r) in (o, mkReq w (ctx r)).
Definition on_ctx (f : Context → Context) : M (Req W) () :=
  modify (λ r, mkReq (world r) (f (ctx r))).

(** [encoding/json] of a response. *)
Context (json : payload → string).

Definition JSON (code : Z) (p : payload) : HandlerFunc W :=
  _ ← on_ctx (λ c, write_body (json p +:+ newline)
        (write_status code (set_header "Content-Type" ["application/json; charset=UTF-8"] c)));
  mret nil_werror.
Definition Text (code : Z) (s : string) : HandlerFunc W :=
  _ ← on_ctx (λ c, write_body s
        (write_status code (set_header "Content-Type" ["text/plain; charset=UTF-8"] c)));
  mret nil_werror.

(** [c.Error]: the default error handler of echo, which does nothing once
    a response is on its way. *)
Definition c_Error (err : werr) : M (Req W) () :=
  r ← gets (λ r, committed (ctx r));
  if (r : bool) then mret ()
  else
    _ ← JSON (match err with HTTPError code _ => code | Plain _ => 500 end) (PError (NewError err));
    mret ().

(** ** web/livez.go, web/version.go *)

Definition Livez : HandlerFunc W := Text 200 "OK".
Definition Version (version : string) : HandlerFunc W := Text 200 version.

(** ** web/readyz.go *)

Definition checkStatus (status : M W error) : M (Req W) bool :=
  err ← on_world status;
  mret (match err with None => true | Some _ => false end).

Definition Readyz (db_status sqs_status : M W error) : HandlerFunc W :=
  database ← checkStatus db_status;
  sqs ← checkStatus sqs_status;
  if negb database || negb sqs
  then JSON 500 (PStatus database sqs)
  else JSON 200 (PStatus database sqs).

(** ** web/rate_limiter.go

    The middleware is echo's; the source configures when it is skipped, whom
    a request is counted for and how a request is turned away. *)

Definition rate_skipper (cfg : AppConfig) : bool := negb (ApiRateLimiterEnabled cfg).
Definition rate_identifier (c : Context) : string :=
  match vals c !! "oid" with
  | Some (VStr oid) => oid
  | _ => "00000000-0000-0000-0000-000000000000"
  end.
Definition rate_error : HandlerFunc W := JSON 403 PNull.
Definition rate_deny : HandlerFunc W := JSON 429 PNull.

(** ** web/cache.go *)

Record Response := mkResponse { resp_Value : string; resp_HeaderOf : gmap string (list string) }.

(** The cache client (gocache over redis) and the gob encoding. *)
Context (cache_Get : string → M W (string * error)).
Context (cache_Set : string → string → Z → list string → M W error).
Context (gob_encode : Response → string) (gob_decode : string → Response).

Definition StringToResponse (s : string) : Response := gob_decode s.
Definition Response_String (r : Response) : string := gob_encode r.

(** *** url.Values *)

Definition str_le (s t : string) : Prop := str_ltb t s = false.
#[local] Instance str_le_dec s t : Decision (str_le s t).
Proof. unfold str_le. apply _. Defined.

Definition sort_strings (l : list string) : list string := merge_sort str_le l.

(** [url.QueryEscape]. *)
Definition hex_digit (n : N) : ascii := ascii_of_N (if (n <? 10)%N then n + 48 else n + 55)%N.
Definition is_unreserved (c : ascii) : bool :=
  is_lower c || is_upper c || is_digit c || bool_decide (c = "-"%char) || bool_decide (c = "_"%char) ||
  bool_decide (c = "."%char) || bool_decide (c = "~"%char).
Fixpoint QueryEscape (s : string) : string :=
  match s with
  | EmptyString => EmptyString
  | String c s =>
     if is_unreserved c then String c (QueryEscape s)
     else if bool_decide (c = " "%char) then String "+" (QueryEscape s)
     else String "%" (String (hex_digit (N_of_ascii c / 16)) (String (hex_digit (N_of_ascii c mod 16))
            (QueryEscape s)))
  end.

(** [Values.Encode]: by key, in the order of the keys. *)
Definition key_le (a b : string * list string) : Prop := str_le a.1 b.1.
#[local] Instance key_le_dec a b : Decision (key_le a b).
Proof. unfold key_le. apply _. Defined.
Definition Encode (q : gmap string (list string)) : string :=
  Join (kv ← merge_sort key_le (map_to_list q);
        (λ v, QueryEscape kv.1 +:+ "=" +:+ QueryEscape v) <$> kv.2) "&".

Definition sortURLParams (c : Context) : Context := set_query (sort_strings <$> req_Query c) c.

(** [URL.String] of a request: its path and its query. *)
Definition URL_String (c : Context) : string :=
  let q := Encode (req_Query c) in
  if bool_decide (q = "") then req_URLPath c else req_URLPath c +:+ "?" +:+ q.

(** [fnv.New64a] and [strconv.FormatUint (h, 36)]. *)
Fixpoint fnv64a (h : Z) (s : string) : Z :=
  match s with
  | EmptyString => h
  | String c s => fnv64a ((Z.lxor h (byte_of c) * 1099511628211) `mod` 2 ^ 64) s
  end.
Definition base36_digit (d : Z) : ascii :=
  ascii_of_N (Z.to_N (if d <? 10 then d + 48 else d + 87)).
(** A 64-bit number has at most 13 digits. *)
Fixpoint base36 (fuel : nat) (n : Z) (acc : string) : string :=
  match fuel with
  | O => acc
  | S fuel => let acc := String (base36_digit (n `mod` 36)) acc in
              if n <? 36 then acc else base36 fuel (n / 36) acc
  end.
Definition GenerateKey (URL : string) : string := base36 13 (fnv64a 14695981039346656037 URL) "".

Definition MethodGet : string := "GET".

(** The bytes written from a point on. *)
Definition written_since (before after : Context) : string :=
  drop_str (String.length (resp_Body before)) (resp_Body after).

Definition HTTPCache (cfg : AppConfig) (tags : list string) (next : HandlerFunc W) : HandlerFunc W :=
  c ← gets ctx;
  if bool_decide (req_Method c = MethodGet)
  then
    _ ← on_ctx sortURLParams;
    c ← gets ctx;
    let key := GenerateKey (URL_String c) in
    '(cachedResponse, _) ← on_world (cache_Get key);
    if bool_decide (cachedResponse ≠ "")
    then
      let response := StringToResponse cachedResponse in
      _ ← on_ctx (λ c, write_body (resp_Value response) (write_status 200
            (map_fold (λ k v c, set_header k [Join v ","] c) c (resp_HeaderOf response))));
      mret nil_werror
    else
      err ← next;
      _ ← match err with Some e => c_Error e | None => mret () end;
      c' ← gets ctx;
      (** The status the dump writer saw; none was written before. *)
      let statusCode := if committed c then 0 else if committed c' then resp_Status c' else 0 in
      _ ← (if statusCode <? 400
           then (_ ← on_world (cache_Set key (Response_String
                   (mkResponse (written_since c c') (resp_Header c'))) (ApiCacheTTL cfg) tags); mret ())
           else mret ());
      mret nil_werror
  else
    err ← next;
    _ ← match err with Some e => c_Error e | None => mret () end;
    mret nil_werror.
End context.

Section runs.
Context {W : Type} (json : payload → string).

Lemma JSON_run code p (r : Req W) :
  committed (ctx r) = false →
  ∃ r', JSON json code p r = (Ret None, r') ∧ world r' = world r ∧ committed (ctx r') = true ∧
    resp_Status (ctx r') = code ∧ resp_Body (ctx r') = resp_Body (ctx r) +:+ json p +:+ newline.
Proof.
  intros Hc. eexists. split; [reflexivity|]. cbn. unfold write_status. cbn. rewrite Hc. cbn.
  split_and!; done.
Qed.

Lemma on_world_run {A} (m : M W A) r o w :
  m (world r) = (o, w) → on_world m r = (o, mkReq w (ctx r)).
Proof. intros Hm. unfold on_world. by rewrite Hm. Qed.
End runs.

(** pkg/monitoring/apiserver/apiserver.go: the metrics of a request.
    [record] stands for the two Record calls (Monitoring.v). *)
Section requests.
Context {W : Type} (record : string → string → string → M W ()) (URLLabelFromContext : string).

Definition status_of (err : werror) (status : Z) : Z :=
  match err with
  | None => status
  | Some e =>
     let status := match e with HTTPError code _ => code | Plain _ => status end in
     if (status =? 0) || (status =? 200) then 500 else status
  end.

(** The decimal text of a status, at most five digits. *)
Fixpoint decimal (fuel : nat) (n : Z) (acc : string) : string :=
  match fuel with
  | O => acc
  | S fuel => let acc := String (digit_char (n `mod` 10)) acc in
              if n <? 10 then acc else decimal fuel (n / 10) acc
  end.

Definition requestCounterURLLabelMappingFunc (c : Context) : string := req_Path c.

(** The label of the URL: the path, or a value of the context when the metrics
    name one. *)
Definition url_label (c : Context) : M (Req W) string :=
  if bool_decide (URLLabelFromContext ≠ "")
  then
    match vals c !! URLLabelFromContext with
    | None => mret "unknown"
    | Some (VStr u) => mret u
    | Some _ => panic "interface conversion: interface {} is not string"
    end
  else mret (requestCounterURLLabelMappingFunc c).

Definition handlerFunc (next : HandlerFunc W) : HandlerFunc W :=
  c ← gets ctx;
  if bool_decide (req_Path c = "/metrics") then next
  else
    err ← next;
    c' ← gets ctx;
    let status := status_of err (resp_Status c') in
    url ← url_label c';
    _ ← on_world (record (decimal 5 status "") (req_Method c') url);
    mret err.
End requests.

Example fnv_empty : GenerateKey "" = "33niihzj4ux45".
Proof. vm_compute. reflexivity. Qed.
