(* ===== verification/Auth.v ===== *)
(** pkg/auth/auth.go: bearer tokens, OIDC verification and group access.

    The verifiers of go-oidc are parameters: [Verify] with the client id they
    check for, and the claims of a token. *)
From Stdlib Require Import Ascii.
From stdpp Require Import base gmap strings list option numbers sets.
From S2P Require Import Prelude GoStrings Registry Config Web.

Local Open Scope Z_scope.

Definition tokenLookup : string := "Authorization".
Definition authScheme : string := "Bearer".
Definition auth_egressTarget : string := "azure_ad".

Definition extractToken (authorization : string) : string * werror :=
  let l := String.length authScheme in
  if (l + 1 <? String.length authorization)%nat && bool_decide (take_str l authorization = authScheme)
  then (drop_str (l + 1) authorization, nil_werror)
  else ("", Some (Plain "missing or malformed jwt")).

Record Claims := mkClaims { Oid : string; Groups : list string }.

(** The client ids of the two verifiers of NewAuthenticator. *)
Definition verifier_id (cfg : AppConfig) : string := OidcClientId cfg.
Definition spnVerifier_id (cfg : AppConfig) : string := "spn:" +:+ OidcClientId cfg.

Section auth.
Context {W IDToken : Type} (json : payload → string).
Context (Verify : string → string → M W (option IDToken * werror)).
Context (token_Claims : IDToken → Claims * werror).
(** RecordEgressRequestCnt and RecordEgressRequestDur of the metrics. *)
Context (record_egress_call : string → M W ()).

Definition verify (cfg : AppConfig) (rawToken : string) : M W (option IDToken * werror) :=
  '(token, err) ← Verify (verifier_id cfg) rawToken;
  match err with
  | Some e => if Contains (NewError e) "spn:" then Verify (spnVerifier_id cfg) rawToken
              else mret (token, err)
  | None => mret (token, err)
  end.

Definition VerifyToken (cfg : AppConfig) (next : HandlerFunc W) : HandlerFunc W :=
  authorization ← gets (λ r, req_Authorization (ctx r));
  let '(rawToken, err) := extractToken authorization in
  match err with
  | Some e => JSON json 400 (PError (NewError e))
  | None =>
     '(token, err) ← on_world (verify cfg rawToken);
     _ ← on_world (record_egress_call auth_egressTarget);
     match err with
     | Some e => JSON json 403 (PError (NewError e))
     | None =>
        token ← lift (deref token);
        let '(claims, err) := token_Claims token in
        match err with
        | Some e => JSON json 403 (PError (NewError e))
        | None =>
           _ ← on_ctx (set_val "oid" (VStr (Oid claims)));
           _ ← on_ctx (set_val "groups" (VStrs (Groups claims)));
           next
        end
     end
  end.

Definition auth_contains (groups : list string) (group : string) : bool := contains group groups.

Definition not_authorized (oid : string) : string :=
  "identity " +:+ oid +:+ " is not authorized to perform this request".

(** A type assertion on a value of the context panics when it fails. *)
Definition VerifyGroupAccess (group : string) (next : HandlerFunc W) : HandlerFunc W :=
  c ← gets ctx;
  match vals c !! "oid" with
  | Some (VStr oid) =>
     match vals c !! "groups" with
     | None => JSON json 403 (PError (not_authorized oid))
     | Some (VStrs groups) =>
        if negb (auth_contains groups group)
        then JSON json 403 (PError (not_authorized oid))
        else next
     | Some _ => panic "interface conversion: interface {} is not []string"
     end
  | _ => panic "interface conversion: interface {} is not string"
  end.
End auth.

(** A token is extracted exactly from a header of the scheme, one more
    byte, whatever it is, and a token that is not empty. *)
Theorem extractToken_spec a t :
  extractToken a = (t, None) ↔ t ≠ "" ∧ ∃ c, a = "Bearer" +:+ String c t.
Proof.
  unfold extractToken. cbn [authScheme String.length Nat.add].
  destruct (Nat.ltb_spec 7 (String.length a)) as [Hlen|Hlen]; cbn [andb].
  - do 7 (destruct a as [|? a]; [simpl in Hlen; lia|]). cbn [take_str drop_str].
    case_bool_decide as Hp; (split; [|intros (Hne & c & Heq)]).
    + intros [= <-]. injection Hp as -> -> -> -> -> ->. split; [|by eexists].
      intros ->. vm_compute in Hlen. lia.
    + by simplify_eq/=.
    + done.
    + by simplify_eq/=.
  - split; [done|]. intros (Hne & c & ->). destruct t; [done|]. simpl in Hlen. lia.
Qed.

(** ** What gets past the middlewares *)

Section gate.
Context {W IDToken : Type} (json : payload → string).
Context (Verify : string → string → M W (option IDToken * werror)).
Context (token_Claims : IDToken → Claims * werror).
Context (record_egress_call : string → M W ()).
(** The verifier answers, with a token when there is no error, and recording
    a metric returns. *)
Context (Verify_ok : ∀ id raw w, ∃ tok err w', Verify id raw w = (Ret (tok, err), w') ∧
  (err = None → is_Some tok)).
Context (record_ok : ∀ target w, ∃ w', record_egress_call target w = (Ret (), w')).
(** What the verifier and the metrics leave alone. *)
Context {V : Type} (view : W → V).
Context (Verify_frame : ∀ id raw w, view (Verify id raw w).2 = view w).
Context (record_frame : ∀ target w, view (record_egress_call target w).2 = view w).

(** A token that one of the verifiers accepts in some state. *)
Definition accepted (cfg : AppConfig) (raw : string) (tok : IDToken) : Prop :=
  ∃ id w w', id ∈ [verifier_id cfg; spnVerifier_id cfg] ∧ Verify id raw w = (Ret (Some tok, None), w').

Lemma verify_run cfg raw w :
  ∃ tok err w', verify Verify cfg raw w = (Ret (tok, err), w') ∧ view w' = view w ∧
    (err = None → ∃ t, tok = Some t ∧ accepted cfg raw t).
Proof.
  unfold verify. destruct (Verify_ok (verifier_id cfg) raw w) as (tok & err & w1 & Hv & Hok).
  pose proof (Verify_frame (verifier_id cfg) raw w) as Hf1. rewrite Hv in Hf1. cbn in Hf1.
  rewrite (bind_run _ _ _ _ _ Hv). destruct err as [e|].
  - destruct (Contains _ _).
    + destruct (Verify_ok (spnVerifier_id cfg) raw w1) as (tok' & err' & w2 & Hv' & Hok').
      pose proof (Verify_frame (spnVerifier_id cfg) raw w1) as Hf2. rewrite Hv' in Hf2. cbn in Hf2.
      exists tok', err', w2. split_and!; [done|congruence|]. intros ->.
      destruct (Hok' eq_refl) as [t ->]. exists t. split; [done|]. exists (spnVerifier_id cfg), w1, w2.
      split; [set_solver|done].
    + by exists tok, (Some e), w1.
  - exists tok, None, w1. split_and!; [done..|]. intros _. destruct (Hok eq_refl) as [t ->].
    exists t. split; [done|]. exists (verifier_id cfg), w, w1. split; [set_solver|done].
Qed.

Lemma logged_in claims c :
  let c' := set_val "groups" (VStrs (Groups claims)) (set_val "oid" (VStr (Oid claims)) c) in
  vals c' !! "oid" = Some (VStr (Oid claims)) ∧ vals c' !! "groups" = Some (VStrs (Groups claims)).
Proof. cbn. rewrite lookup_insert_ne, !lookup_insert_eq by done. done. Qed.

(** The handler behind a middleware ran in [r'], or it did not run and the
    request was turned away with one of the codes. *)
Definition turned_away (codes : list Z) (r : Req W) (res : outcome werror * Req W) : Prop :=
  ∃ r', res = (Ret None, r') ∧ view (world r') = view (world r) ∧ resp_Status (ctx r') ∈ codes.

Lemma VerifyToken_run cfg (next : HandlerFunc W) r :
  committed (ctx r) = false →
  turned_away [400; 403] r (VerifyToken json Verify token_Claims record_egress_call cfg next r) ∨
  ∃ raw tok claims w,
    extractToken (req_Authorization (ctx r)) = (raw, None) ∧ accepted cfg raw tok ∧
    token_Claims tok = (claims, None) ∧ view w = view (world r) ∧
    VerifyToken json Verify token_Claims record_egress_call cfg next r =
      next (mkReq w (set_val "groups" (VStrs (Groups claims)) (set_val "oid" (VStr (Oid claims)) (ctx r)))).
Proof.
  intros Hc. unfold VerifyToken.
  rewrite (bind_run (gets _) _ r (req_Authorization (ctx r)) r eq_refl).
  destruct (extractToken _) as [raw [e|]] eqn:Hx.
  { left. destruct (JSON_run json 400 (PError (NewError e)) r Hc) as (r' & Hr & Hw & _ & Hst & _).
    exists r'. rewrite Hw, Hst. split_and!; [done..|set_solver]. }
  destruct (verify_run cfg raw (world r)) as (tok & err & w1 & Hv & Hview & Hacc).
  assert (on_world (verify Verify cfg raw) r = (Ret (tok, err), mkReq w1 (ctx r))) as Hv'
    by (unfold on_world; by rewrite Hv).
  rewrite (bind_run _ _ _ _ _ Hv').
  destruct (record_ok auth_egressTarget w1) as [w2 Hrec].
  pose proof (record_frame auth_egressTarget w1) as Hf. rewrite Hrec in Hf. cbn in Hf.
  assert (on_world (record_egress_call auth_egressTarget) (mkReq w1 (ctx r)) = (Ret (), mkReq w2 (ctx r)))
    as Hrec' by (unfold on_world; cbn; by rewrite Hrec).
  rewrite (bind_run _ _ _ _ _ Hrec').
  assert (∀ e, turned_away [400; 403] r (JSON json 403 (PError (NewError e)) (mkReq w2 (ctx r)))) as Hdeny.
  { intros e. destruct (JSON_run json 403 (PError (NewError e)) (mkReq w2 (ctx r)) Hc) as (r' & Hr & Hw & _ & Hst & _).
    exists r'. rewrite Hw, Hst. cbn. split_and!; [done|congruence|set_solver]. }
  destruct err as [e|]; [by left|].
  destruct (Hacc eq_refl) as (t & -> & Ht). cbn [deref]. rewrite bind_lift.
  destruct (token_Claims t) as [claims [e|]] eqn:Hcl; [by left|].
  right. exists raw, t, claims, w2. split_and!; [done..|congruence|reflexivity].
Qed.

(** The group check on a context that the token check has filled in. *)
Lemma VerifyGroupAccess_run group (next : HandlerFunc W) r oid groups :
  committed (ctx r) = false →
  vals (ctx r) !! "oid" = Some (VStr oid) → vals (ctx r) !! "groups" = Some (VStrs groups) →
  turned_away [403] r (VerifyGroupAccess json group next r) ∨
  group ∈ groups ∧ VerifyGroupAccess json group next r = next r.
Proof.
  intros Hc Ho Hg. unfold VerifyGroupAccess. rewrite bind_gets, Ho, Hg.
  unfold auth_contains. destruct (contains group groups) eqn:Hin; cbn [negb].
  - right. by apply contains_spec in Hin.
  - left. destruct (JSON_run json 403 (PError (not_authorized oid)) r Hc) as (r' & Hr & Hw & _ & Hst & _).
    exists r'. rewrite Hw, Hst. split_and!; [done|done|repeat constructor].
Qed.

(** The handler of a route runs only for a request whose header holds
    a token that one of the two verifiers accepts, with the claims of that
    token in the context; any other request ends in 400 or 403. *)
Theorem VerifyToken_gate cfg (next : HandlerFunc W) r :
  committed (ctx r) = false →
  turned_away [400; 403] r (VerifyToken json Verify token_Claims record_egress_call cfg next r) ∨
  ∃ raw tok claims r',
    extractToken (req_Authorization (ctx r)) = (raw, None) ∧ accepted cfg raw tok ∧
    token_Claims tok = (claims, None) ∧ view (world r') = view (world r) ∧
    vals (ctx r') !! "oid" = Some (VStr (Oid claims)) ∧
    vals (ctx r') !! "groups" = Some (VStrs (Groups claims)) ∧
    VerifyToken json Verify token_Claims record_egress_call cfg next r = next r'.
Proof.
  intros Hc. destruct (VerifyToken_run cfg next r Hc) as [?|(raw & tok & claims & w & Hx & Ha & Hcl & Hv & Hrun)];
    [by left|right].
  exists raw, tok, claims, (mkReq w (set_val "groups" (VStrs (Groups claims))
    (set_val "oid" (VStr (Oid claims)) (ctx r)))).
  rewrite Hrun. split_and!; [done..|apply logged_in|apply logged_in|reflexivity].
Qed.

(** Behind both middlewares a handler runs only for a token of the
    authorized group, and the group check never panics on the values that
    the token check left in the context: every other request ends in 400 or
    403 with the state of the services unchanged. *)
Theorem group_gate cfg group (next : HandlerFunc W) r :
  committed (ctx r) = false →
  let h := VerifyToken json Verify token_Claims record_egress_call cfg (VerifyGroupAccess json group next) in
  turned_away [400; 403] r (h r) ∨
  ∃ raw tok claims r',
    extractToken (req_Authorization (ctx r)) = (raw, None) ∧ accepted cfg raw tok ∧
    token_Claims tok = (claims, None) ∧ group ∈ Groups claims ∧
    view (world r') = view (world r) ∧ h r = next r'.
Proof.
  intros Hc h.
  destruct (VerifyToken_run cfg (VerifyGroupAccess json group next) r Hc)
    as [?|(raw & tok & claims & w & Hx & Ha & Hcl & Hv & Hrun)]; [by left|].
  subst h. cbv beta. rewrite Hrun. clear Hrun.
  destruct (logged_in claims (ctx r)) as [Ho Hg].
  set (r1 := mkReq w _).
  destruct (VerifyGroupAccess_run group next r1 _ _ Hc Ho Hg) as [(r' & Hr & Hw & Hst)|[Hin Hr]]; rewrite Hr.
  - left. exists r'. rewrite Hw. split_and!; [done..|set_solver].
  - right. exists raw, tok, claims, r1. done.
Qed.
End gate.
