(* ===== verification/Handlers.v ===== *)
(** pkg/apiserver/web/handler/v1 and v2: the HTTP API of the registry, written
    against the interface [Db] and the echo context of Web.v. *)
From stdpp Require Import base gmap strings list option numbers sets.
From S2P Require Import Prelude GoStrings Encoding Registry Filter Database Db Config Web.

Local Open Scope Z_scope.

(** [strconv.Atoi] of a query parameter, with a default when it fails. *)
Definition int_param (k : string) (dflt : Z) (c : Context) : Z :=
  let '(v, err) := Atoi (QueryParam k c) in
  match err with Some _ => dflt | None => v end.

(** ** v1/response.go *)

Definition newClusterResponse (c : Cluster) : ClusterSpec := set_ServiceMetadata None (Spec c).

Definition newClusterListResponse (clusters : list Cluster) (count offset limit : Z) (more : bool) : clusterList :=
  mkClusterList (newClusterResponse <$> clusters) count offset limit more.

(** ** v1/handler.go *)

Module V1.
Section handler.
Context `{Db W} (json : payload → string).

(** A cluster by its standard name or by its short name. *)
Definition getCluster (name : string) : M W (option Cluster * error) :=
  '(c, err) ← db_GetCluster name;
  match err with
  | Some e => mret (None, errorf e)
  | None =>
     match c with
     | Some _ => mret (c, nil_error)
     | None =>
        let '(dashName, err) := GetClusterDashName name in
        match err with
        | Some _ => mret (c, nil_error)
        | None =>
           '(c, err) ← db_GetCluster dashName;
           match err with
           | Some e => mret (None, errorf e)
           | None => mret (c, nil_error)
           end
        end
     end
  end.

Definition GetCluster : HandlerFunc W :=
  name ← gets (λ r, Param "name" (ctx r));
  '(c, err) ← on_world (getCluster name);
  match err with
  | Some e => JSON json 500 (PError e)
  | None =>
     match c with
     | None => JSON json 404 (PError NotFound)
     | Some c => JSON json 200 (PSpec (newClusterResponse c))
     end
  end.

Definition ListClusters (fuel : nat) : HandlerFunc W :=
  c ← gets ctx;
  let environment := QueryParam "environment" c in
  let region := QueryParam "region" c in
  let status := QueryParam "status" c in
  let lastUpdated := QueryParam "lastUpdated" c in
  let offset := int_param "offset" 0 c in
  let limit := int_param "limit" 200 c in
  '(clusters, count, more, _) ←
    on_world (db_ListClusters fuel offset limit region environment status lastUpdated);
  JSON json 200 (PClusters (newClusterListResponse clusters count offset limit more)).
End handler.
End V1.

(** ** v2/response.go *)

Definition v2_newClusterResponse (cluster : Cluster) : ClusterSpec :=
  set_ServiceMetadata None (Spec cluster).
Definition v2_newClusterListResponse (clusters : list Cluster) (count offset limit : Z) (more : bool) : clusterList :=
  mkClusterList (v2_newClusterResponse <$> clusters) count offset limit more.
Definition newServiceMetadataResponse (cluster : Cluster) : ServiceMetadataItem :=
  mkServiceMetadata (Name (Spec cluster)) (ServiceMetadata (Spec cluster)).
Definition newServiceMetadataListResponse (clusters : list Cluster) (count offset limit : Z) (more : bool)
    : serviceMetadataList :=
  mkServiceList (newServiceMetadataResponse <$> clusters) count offset limit more.

(** ** v2/handler.go *)

Module V2.

(** type ClusterSpec struct: the fields a client may change. *)
Record ClusterSpecPatch := mkPatch {
  p_Status : option string;
  p_Phase : option string;
  p_Tags : option (gmap string string) }.

(** web/validator.go, which the router gives to echo: the library's validation of
    a struct. *)
Record Validator := mkValidator { validator : ClusterSpecPatch → werror }.
Definition NewValidator (Struct : ClusterSpecPatch → werror) : Validator := mkValidator Struct.
Definition Validator_Validate (v : Validator) (i : ClusterSpecPatch) : werror := validator v i.

Definition validateTag (key value : string) : werror :=
  if bool_decide (key = "onboarding") || bool_decide (key = "scaling")
  then if bool_decide (value ≠ "on") && bool_decide (value ≠ "off")
       then Some (Plain (key +:+ " tag value must be 'on' or 'off'"))
       else nil_werror
  else Some (Plain ("invalid tag " +:+ key)).

(** The loop over the tags; a Go map has no order of its own. *)
Fixpoint validateTags (tags : list (string * string)) : werror :=
  match tags with
  | [] => nil_werror
  | (key, value) :: tags =>
     match validateTag key value with
     | Some e => Some e
     | None => validateTags tags
     end
  end.

Definition getQueryConditions (c : Context) : list string := default [] (req_Query c !! "conditions").

(** The conditions of a query, added to a filter in turn. *)
Fixpoint parse_conditions (qcs : list string) (filter : DynamoDBFilter) : DynamoDBFilter * error :=
  match qcs with
  | [] => (filter, nil_error)
  | qc :: qcs =>
     let '(condition, err) := NewFilterConditionFromQuery qc in
     match err, condition with
     | Some e, _ => (filter, errorf e)
     | None, Some condition => parse_conditions qcs (AddCondition condition filter)
     | None, None => (filter, errorf "invalid query")
     end
  end.

Section handler.
Context `{Db W} (json : payload → string).
(** The client of a cluster's Kubernetes API, how it is made (pkg/k8s), and
    the request that patches a Cluster object; the JSON of a patch; [c.Bind]
    and the struct validator of echo. *)
Context {Client : Type} (GetClient : Cluster → M W (option Client * error)).
Context (RESTPatch : Client → string → string → string → string → string → M W error).
Context (marshal_patch : ClusterSpecPatch → string * error).
Context (Bind : Context → ClusterSpecPatch * werror).
Context (validate_struct : ClusterSpecPatch → werror).

Definition getCluster (name : string) : M W (option Cluster * error) := V1.getCluster name.

Definition GetCluster : HandlerFunc W :=
  name ← gets (λ r, Param "name" (ctx r));
  '(cluster, err) ← on_world (getCluster name);
  match err with
  | Some e => JSON json 500 (PError e)
  | None =>
     match cluster with
     | None => JSON json 404 (PError NotFound)
     | Some cluster => JSON json 200 (PSpec (v2_newClusterResponse cluster))
     end
  end.

Definition ListClusters (fuel : nat) : HandlerFunc W :=
  c ← gets ctx;
  let offset := int_param "offset" 0 c in
  let limit := int_param "limit" 200 c in
  let queryConditions := getQueryConditions c in
  if (length queryConditions =? 0)%nat
  then
    '(clusters, count, more, _) ← on_world (db_ListClusters fuel offset limit "" "" "" "");
    JSON json 200 (PClusters (v2_newClusterListResponse clusters count offset limit more))
  else
    let '(filter, err) := parse_conditions queryConditions NewDynamoDBFilter in
    match err with
    | Some e => JSON json 400 (PError e)
    | None =>
       '(clusters, count, more, _) ← on_world (db_ListClustersWithFilter fuel offset limit filter);
       JSON json 200 (PClusters (v2_newClusterListResponse clusters count offset limit more))
    end.

Definition Validate (patch : ClusterSpecPatch) : werror :=
  match Validator_Validate (NewValidator validate_struct) patch with
  | Some e => Some e
  | None =>
     match p_Tags patch with
     | Some tags => validateTags (map_to_list tags)
     | None => nil_werror
     end
  end.

Definition patchCluster (cluster : Cluster) (spec : ClusterSpecPatch) : M W error :=
  '(client, err) ← GetClient cluster;
  match err with
  | Some e => mret (errorf ("failed to get client for cluster " +:+ Name (Spec cluster) +:+ ": " +:+ e))
  | None =>
     let '(patch, err) := marshal_patch spec in
     match err with
     | Some e => mret (errorf e)
     | None =>
        client ← lift (deref client);
        RESTPatch client "/apis/registry.ethos.adobe.com/v1" "cluster-registry" "clusters"
          (Name (Spec cluster)) patch
     end
  end.

Definition PatchCluster : HandlerFunc W :=
  c ← gets ctx;
  let name := Param "name" c in
  '(cluster, err) ← on_world (getCluster name);
  match err with
  | Some e => JSON json 500 (PError e)
  | None =>
     match cluster with
     | None => JSON json 404 (PError NotFound)
     | Some cluster =>
        let '(clusterSpec, err) := Bind c in
        match err with
        | Some e => JSON json 400 (PError (NewError e))
        | None =>
           match Validate clusterSpec with
           | Some e => JSON json 400 (PError (NewError e))
           | None =>
              err ← on_world (patchCluster cluster clusterSpec);
              match err with
              | Some e => JSON json 500 (PError e)
              | None => JSON json 200 (PSpec (v2_newClusterResponse cluster))
              end
           end
        end
     end
  end.

Definition GetServiceMetadata (fuel : nat) : HandlerFunc W :=
  c ← gets ctx;
  let serviceId := Param "serviceId" c in
  let offset := int_param "offset" 0 c in
  let limit := int_param "limit" 200 c in
  let queryConditions := getQueryConditions c in
  if (length queryConditions =? 0)%nat
  then
    '(clusters, count, more, _) ←
      on_world (db_ListClustersWithService fuel serviceId offset limit "" "" "" "");
    JSON json 200 (PServices (newServiceMetadataListResponse clusters count offset limit more))
  else
    let '(filter, err) := parse_conditions queryConditions NewDynamoDBFilter in
    match err with
    | Some e => JSON json 400 (PError e)
    | None =>
       '(clusters, count, more, _) ←
         on_world (db_ListClustersWithServiceAndFilter fuel serviceId offset limit filter);
       JSON json 200 (PServices (newServiceMetadataListResponse clusters count offset limit more))
    end.

Definition GetServiceMetadataForCluster : HandlerFunc W :=
  c ← gets ctx;
  let serviceId := Param "serviceId" c in
  let clusterName := Param "clusterName" c in
  '(cluster, err) ← on_world (db_GetClusterWithService serviceId clusterName);
  match err with
  | Some e => JSON json 500 (PError e)
  | None =>
     match cluster with
     | None => JSON json 404 (PError NotFound)
     | Some cluster => JSON json 200 (PService (newServiceMetadataResponse cluster))
     end
  end.
End handler.
End V2.
