(* ===== verification/HandlersThms.v ===== *)
(** What the HTTP API guarantees: lookups by standard and short name, windows
    of the registry, patches, and the response cache in front of them. *)
From stdpp Require Import base gmap strings list option numbers sets.
From S2P Require Import Prelude GoStrings GoTime Encoding Registry Filter MemDynamo Database DatabaseThms Db Sqs MemDb Config Web Auth Handlers.

Local Open Scope Z_scope.

(** The cluster a name stands for: its own, or that of the standard name it
    is short for. *)
Definition resolve (reg : gmap string ClusterSpec) (name : string) : option ClusterSpec :=
  match reg !! name with
  | Some sp => Some sp
  | None => let '(dashName, err) := GetClusterDashName name in
            match err with None => reg !! dashName | Some _ => None end
  end.

(** The same of reads that show [vis]. *)
Definition may_resolve (vis : string → option ClusterSpec → Prop) (name : string) (o : option ClusterSpec) : Prop :=
  vis name o ∧ is_Some o ∨
  vis name None ∧ let '(dashName, err) := GetClusterDashName name in
                  match err with None => vis dashName o | Some _ => o = None end.

Lemma may_resolve_current vis reg name o :
  (∀ n o, vis n o → o = reg !! n) → may_resolve vis name o → o = resolve reg name.
Proof.
  intros Hcur Hm. unfold resolve. destruct Hm as [[->%Hcur [sp Hsp]]|[Hnone Hm]]; [by rewrite Hsp|].
  rewrite <- (Hcur _ _ Hnone). destruct (GetClusterDashName name) as [dn [e|]]; [done|by apply Hcur].
Qed.

(** The read of the name, or of the name it is short for, fails. *)
Definition lookup_fails {W} `{Db W} (name : string) (w : W) : Prop :=
  (∃ e w', db_GetCluster name w = (Ret (None, Some e), w')) ∨
  ∃ dashName w1 e w', db_GetCluster name w = (Ret (None, None), w1) ∧ GetClusterDashName name = (dashName, None) ∧
    db_GetCluster dashName w1 = (Ret (None, Some e), w').

Section lookups.
Context `{DbLaws W} (json : payload → string).

Lemma getCluster_run name w :
  db_inv w →
  ∃ r err w', V1.getCluster name w = (Ret (r, err), w') ∧ db_inv w' ∧ db_specs w' = db_specs w ∧
    (err = None → may_resolve (db_visible w) name (Spec <$> r)) ∧
    (err ≠ None → r = None ∧ lookup_fails name w).
Proof.
  intros Hinv. unfold V1.getCluster, may_resolve.
  destruct (db_GetCluster_law name w Hinv) as (r & err & w1 & Hg & Hinv1 & Hs1 & Hv1 & Hr & He).
  rewrite (bind_run _ _ _ _ _ Hg). destruct err as [e|].
  { specialize (He ltac:(done)). subst r. eexists _, _, w1. split_and!; [reflexivity|done|done|done|].
    intros _. split; [done|]. left. by exists e, w1. }
  specialize (Hr eq_refl). destruct r as [c|]; cbn [fmap option_fmap option_map] in *.
  { eexists _, _, w1. split_and!; [reflexivity|done|done| |done]. intros _. left. split; [done|by eexists]. }
  destruct (GetClusterDashName name) as [dn [e|]] eqn:Hdn.
  { eexists _, _, w1. split_and!; [reflexivity|done|done| |done]. intros _. by right. }
  destruct (db_GetCluster_law dn w1 Hinv1) as (r & err & w2 & Hg2 & Hinv2 & Hs2 & _ & Hr2 & He2).
  rewrite (bind_run _ _ _ _ _ Hg2). destruct err as [e|].
  - specialize (He2 ltac:(done)). subst r. eexists _, _, w2. split_and!; [reflexivity|done|congruence|done|].
    intros _. split; [done|]. right. by exists dn, w1, e, w2.
  - eexists _, _, w2. split_and!; [reflexivity|done|congruence| |done]. intros _. right. split; [done|].
    by apply Hv1, Hr2.
Qed.

(** What a response says about the registry. *)
Definition responds (r r' : Req W) (code : Z) (p : payload) : Prop :=
  resp_Status (ctx r') = code ∧
  resp_Body (ctx r') = resp_Body (ctx r) +:+ json p +:+ newline.

Lemma respond_in code p (r : Req W) w :
  committed (ctx r) = false →
  ∃ r', JSON json code p (mkReq w (ctx r)) = (Ret None, r') ∧ world r' = w ∧ responds r r' code p.
Proof.
  intros Hc. destruct (JSON_run json code p (mkReq w (ctx r)) Hc) as (r' & Hr & Hw & _ & Hs & Hb).
  by exists r'.
Qed.

(** The answer about one cluster. *)
Definition answers (r r' : Req W) (o : option ClusterSpec) : Prop :=
  match o with
  | Some sp => responds r r' 200 (PSpec (set_ServiceMetadata None sp))
  | None => responds r r' 404 (PError "resource not found")
  end.

(** The handler of one cluster. *)
Lemma GetCluster_answers r :
  db_inv (world r) → committed (ctx r) = false →
  let name := Param "name" (ctx r) in
  V2.GetCluster json r = V1.GetCluster json r ∧
  ∃ r', V1.GetCluster json r = (Ret None, r') ∧ db_specs (world r') = db_specs (world r) ∧
    ((∃ o, may_resolve (db_visible (world r)) name o ∧ answers r r' o) ∨
     resp_Status (ctx r') = 500 ∧ lookup_fails name (world r)).
Proof.
  intros Hinv Hc name. split; [reflexivity|]. unfold V1.GetCluster.
  rewrite bind_gets. fold name.
  destruct (getCluster_run name (world r) Hinv) as (c & err & w & Hg & _ & Hs & Hok & Herr).
  rewrite (bind_run _ _ _ _ _ (on_world_run _ _ _ _ Hg)). destruct err as [e|].
  - destruct (respond_in 500 (PError e) r w Hc) as (r' & -> & Hw & Hst & _).
    exists r'. rewrite Hw. split_and!; [done..|]. right. split; [done|]. by destruct Herr.
  - specialize (Hok eq_refl). destruct c as [c|].
    + destruct (respond_in 200 (PSpec (newClusterResponse c)) r w Hc) as (r' & -> & Hw & Hresp).
      exists r'. rewrite Hw. split_and!; [done..|]. left. by eexists.
    + destruct (respond_in 404 (PError NotFound) r w Hc) as (r' & -> & Hw & Hresp).
      exists r'. rewrite Hw. split_and!; [done..|]. left. by eexists.
Qed.

(** The same when reads are current. *)
Lemma GetCluster_answers_settled r :
  db_inv (world r) → db_settled (world r) → committed (ctx r) = false →
  let name := Param "name" (ctx r) in
  ∃ r', V1.GetCluster json r = (Ret None, r') ∧ V2.GetCluster json r = (Ret None, r') ∧
    (answers r r' (resolve (db_specs (world r)) name) ∨
     resp_Status (ctx r') = 500 ∧ lookup_fails name (world r)).
Proof.
  intros Hinv Hset Hc name. subst name. destruct (GetCluster_answers r Hinv Hc) as (-> & r' & Hrun & _ & Hr).
  exists r'. do 2 (split; [done|]). destruct Hr as [(o & Ho & Ha)|?]; [left|by right].
  by rewrite <- (may_resolve_current _ _ _ _ (λ n o, db_settled_visible _ n o Hset) Ho).
Qed.

(** C26: GET /clusters/:name answers 200 with the cluster of that standard
    or short name, without its service metadata, 404 exactly when there is
    neither, and 500 only when a read of the database failed; the registry is
    unchanged.  (v1 and v2 are the same handler.)  Which cluster there is, is what
    the reads of the registry show: once writes have reached every copy, what the
    registry holds. *)
Theorem GetCluster_responds r :
  db_inv (world r) → committed (ctx r) = false →
  let name := Param "name" (ctx r) in
  V2.GetCluster json r = V1.GetCluster json r ∧
  ∃ r', V1.GetCluster json r = (Ret None, r') ∧ db_specs (world r') = db_specs (world r) ∧
    ((∃ o, may_resolve (db_visible (world r)) name o ∧ answers r r' o) ∨
     resp_Status (ctx r') = 500 ∧ lookup_fails name (world r)) ∧
    (db_settled (world r) →
     match resolve (db_specs (world r)) name with
     | Some sp => responds r r' 200 (PSpec (set_ServiceMetadata None sp))
     | None => responds r r' 404 (PError "resource not found")
     end ∨
     resp_Status (ctx r') = 500 ∧ lookup_fails name (world r)).
Proof.
  intros Hinv Hc name. destruct (GetCluster_answers r Hinv Hc) as (Hv & r' & Hrun & Hs & Hr).
  split; [exact Hv|]. exists r'. split_and!; [exact Hrun|exact Hs|exact Hr|]. intros Hset.
  destruct (GetCluster_answers_settled r Hinv Hset Hc) as (r2 & Hrun2 & _ & Hr2).
  rewrite Hrun in Hrun2. injection Hrun2 as <-. exact Hr2.
Qed.

(** GET /services/:serviceId/cluster/:clusterName answers 200 with the
    metadata of that service on that cluster alone, as a read shows it, and 404
    when the cluster or the service is not there. *)
Theorem GetServiceMetadataForCluster_responds r :
  db_inv (world r) → committed (ctx r) = false →
  let sid := Param "serviceId" (ctx r) in
  let name := Param "clusterName" (ctx r) in
  ∃ r', V2.GetServiceMetadataForCluster json r = (Ret None, r') ∧
    db_specs (world r') = db_specs (world r) ∧
    (resp_Status (ctx r') = 500 ∨
     ∃ o, db_visible (world r) name o ∧ match sp ← o; gm (ServiceMetadata sp) !! sid with
     | Some md => responds r r' 200 (PService (mkServiceMetadata name (Some {[sid := md]})))
     | None => responds r r' 404 (PError "resource not found")
     end).
Proof.
  intros Hinv Hc sid name. unfold V2.GetServiceMetadataForCluster.
  rewrite bind_gets. cbv zeta. fold sid name.
  destruct (db_GetClusterWithService_law sid name (world r) Hinv) as (c & err & w & Hg & _ & Hs & Hok & _).
  rewrite (bind_run _ _ _ _ _ (on_world_run _ _ _ _ Hg)). destruct err as [e|].
  - destruct (respond_in 500 (PError e) r w Hc) as (r' & -> & Hw & Hst & _).
    exists r'. rewrite Hw. auto.
  - destruct (Hok eq_refl) as (o & Hv & Hok'). destruct o as [sp|]; cbn in Hok'.
    + destruct (db_keyed _ _ _ Hinv Hv) as [Hn _].
      unfold service_spec in Hok'. destruct (gm (ServiceMetadata sp) !! sid) as [md|] eqn:Hmd; cbn in Hok'.
      * destruct c as [c|]; [|done]. injection Hok' as Hc'.
        destruct (respond_in 200 (PService (newServiceMetadataResponse c)) r w Hc) as (r' & -> & Hw & Hresp).
        exists r'. rewrite Hw. split_and!; [done..|right]. exists (Some sp). split; [done|]. cbn. rewrite Hmd.
        unfold newServiceMetadataResponse in Hresp. rewrite Hc', set_ServiceMetadata_Name, Hn,
          set_ServiceMetadata_eq in Hresp. done.
      * destruct c as [c|]; [done|].
        destruct (respond_in 404 (PError NotFound) r w Hc) as (r' & -> & Hw & Hresp).
        exists r'. rewrite Hw. split_and!; [done..|right]. exists (Some sp). split; [done|]. cbn. by rewrite Hmd.
    + destruct c as [c|]; [done|].
      destruct (respond_in 404 (PError NotFound) r w Hc) as (r' & -> & Hw & Hresp).
      exists r'. rewrite Hw. split_and!; [done..|right]. by exists None.
Qed.
End lookups.

(** ** Listings *)

Section listings.
Context `{DbLaws W} (json : payload → string).

(** A database error, or a time that does not parse, is answered with
    status 200 and an empty list, where the API documents 500. *)
Theorem list_failure_is_200 fuel r e w :
  committed (ctx r) = false →
  let q k := QueryParam k (ctx r) in
  let off := int_param "offset" 0 (ctx r) in
  let lim := int_param "limit" 200 (ctx r) in
  db_ListClusters fuel off lim (q "region") (q "environment") (q "status") (q "lastUpdated") (world r) =
    (Ret ([], 0, false, Some e), w) →
  ∃ r', V1.ListClusters json fuel r = (Ret None, r') ∧ world r' = w ∧
    responds json r r' 200 (PClusters (mkClusterList [] 0 off lim false)).
Proof.
  intros Hc q off lim Hrun. unfold V1.ListClusters. rewrite bind_gets. cbv zeta.
  change (QueryParam ?k (ctx r)) with (q k). fold off lim.
  rewrite (bind_run _ _ _ _ _ (on_world_run _ _ _ _ Hrun)).
  destruct (respond_in json 200 (PClusters (newClusterListResponse [] 0 off lim false)) r w Hc)
    as (r' & -> & Hw & Hresp). eauto.
Qed.
(** What a request for a listing is answered with, of the clusters [matching]: the
    window [off, off + lim), its end computed in 64 bits. *)
Definition listing (r : Req W) (matching : list ClusterSpec) (off lim : Z) (o : outcome werror) (r' : Req W) : Prop :=
  let count := Z.of_nat (length matching) in
  let stop := window_end off lim count in
  if (0 <=? off) && (off <=? stop)
  then o = Ret None ∧ ∃ all, all ≡ₚ matching ∧
    responds json r r' 200 (PClusters (mkClusterList
      (set_ServiceMetadata None <$> take (Z.to_nat (stop - off)) (drop (Z.to_nat off) all))
      (stop - off) off lim (stop <? count)))
  else o = Panic "slice bounds out of range".

(** The handler of the listing, when no error is reported. *)
Lemma ListClusters_lists fuel r :
  db_inv (world r) → db_settled (world r) → committed (ctx r) = false →
  let q k := QueryParam k (ctx r) in
  let off := int_param "offset" 0 (ctx r) in
  let lim := int_param "limit" 200 (ctx r) in
  (db_pages (world r) (q "region") (q "environment") (q "status") (q "lastUpdated") < fuel)%nat →
  q "lastUpdated" = "" ∨ is_Some (Parse (q "lastUpdated")) →
  (∀ e w, db_ListClusters fuel off lim (q "region") (q "environment") (q "status") (q "lastUpdated") (world r) ≠
     (Ret ([], 0, false, Some e), w)) →
  let matching := filter (λ sp, selected (q "region") (q "environment") (q "status") (q "lastUpdated") sp = true)
    (map_to_list (db_specs (world r))).*2 in
  ∃ o r', V1.ListClusters json fuel r = (o, r') ∧ db_specs (world r') = db_specs (world r) ∧
    listing r matching off lim o r'.
Proof.
  intros Hinv Hset Hc q off lim Hfuel Hup Hno matching. unfold V1.ListClusters.
  rewrite bind_gets. cbv zeta. change (QueryParam ?k (ctx r)) with (q k). fold off lim.
  destruct (db_ListClusters_law fuel off lim (q "region") (q "environment") (q "status") (q "lastUpdated")
    (world r) Hinv Hfuel Hup) as (o & w & Hrun & _ & Hs & Hcases).
  destruct Hcases as [[e ->]|(all & -> & Hall)]; [by destruct (Hno e w)|].
  specialize (Hall Hset). fold matching in Hall. rewrite paginate_total in Hrun. unfold listing.
  assert (length matching = length all) as -> by (by rewrite <- Hall, length_fmap).
  destruct (_ && _).
  - rewrite (bind_run _ _ _ _ _ (on_world_run _ _ _ _ Hrun)). cbv zeta.
    match goal with |- ∃ _ _, JSON json 200 ?p _ = _ ∧ _ =>
      destruct (respond_in json 200 p r w Hc) as (r' & -> & Hw & Hresp) end.
    exists (Ret None), r'. rewrite Hw. split_and!; [done..|]. exists (Spec <$> all). split; [done|].
    rewrite <- fmap_drop, <- fmap_take, <- list_fmap_compose. exact Hresp.
  - rewrite (bind_panic _ _ _ _ _ (on_world_run _ _ _ _ Hrun)). by eexists _, _.
Qed.

(** C27: GET /v1/clusters, whatever its query.  When the database reports an
    error, or the time in the query does not parse, it answers 200 with an empty
    list (the API documents 500).  Otherwise, once the index has every write, it
    answers 200 with the window that offset and limit ask for of the clusters that
    match the region, environment, status and time of the query, service metadata
    left out; and it panics when the offset or the limit is negative or the offset
    is behind the last match.  The registry is unchanged. *)
Theorem ListClusters_responds fuel r :
  db_inv (world r) → committed (ctx r) = false →
  let q k := QueryParam k (ctx r) in
  let off := int_param "offset" 0 (ctx r) in
  let lim := int_param "limit" 200 (ctx r) in
  let run := db_ListClusters fuel off lim (q "region") (q "environment") (q "status") (q "lastUpdated") (world r) in
  (db_pages (world r) (q "region") (q "environment") (q "status") (q "lastUpdated") < fuel)%nat →
  let matching := filter (λ sp, selected (q "region") (q "environment") (q "status") (q "lastUpdated") sp = true)
    (map_to_list (db_specs (world r))).*2 in
  ∃ o r', V1.ListClusters json fuel r = (o, r') ∧
    ((∃ e w, run = (Ret ([], 0, false, Some e), w)) →
       o = Ret None ∧ responds json r r' 200 (PClusters (mkClusterList [] 0 off lim false))) ∧
    (q "lastUpdated" ≠ "" → Parse (q "lastUpdated") = None →
       o = Ret None ∧ responds json r r' 200 (PClusters (mkClusterList [] 0 off lim false))) ∧
    (q "lastUpdated" = "" ∨ is_Some (Parse (q "lastUpdated")) →
       db_specs (world r') = db_specs (world r) ∧
       ((∀ e w, run ≠ (Ret ([], 0, false, Some e), w)) → db_settled (world r) → listing r matching off lim o r')).
Proof.
  intros Hinv Hc q off lim run Hfuel matching.
  destruct (V1.ListClusters json fuel r) as [o r'] eqn:Hlist. exists o, r'. split; [done|].
  assert (∀ e w, run = (Ret ([], 0, false, Some e), w) →
    o = Ret None ∧ world r' = w ∧ responds json r r' 200 (PClusters (mkClusterList [] 0 off lim false))) as Herr.
  { intros e w Hrun. destruct (list_failure_is_200 fuel r e w Hc Hrun) as (r2 & Hl & Hw & Hresp).
    rewrite Hlist in Hl. by simplify_eq. }
  split_and!.
  - intros (e & w & Hrun). by destruct (Herr e w Hrun) as (-> & _ & ?).
  - intros Hup Hp. destruct (db_ListClusters_bad_time fuel off lim (q "region") (q "environment") (q "status")
      (q "lastUpdated") (world r) Hup Hp) as [e Hrun]. by destruct (Herr _ _ Hrun) as (-> & _ & ?).
  - intros Hup. split.
    + unfold V1.ListClusters in Hlist. rewrite bind_gets in Hlist. cbv zeta in Hlist. apply (f_equal snd) in Hlist.
      rewrite bind_state in Hlist. change (QueryParam ?k (ctx r)) with (q k) in Hlist. fold off lim in Hlist.
      destruct (db_ListClusters_law fuel off lim (q "region") (q "environment") (q "status") (q "lastUpdated")
        (world r) Hinv Hfuel Hup) as (o2 & w & Hrun & _ & Hs & _).
      rewrite (on_world_run _ _ _ _ Hrun) in Hlist. destruct o2 as [[[[cs n] more] e]|p|]; cbn in Hlist; by subst r'.
    + intros Hno Hset. destruct (ListClusters_lists fuel r Hinv Hset Hc Hfuel Hup Hno) as (o2 & r2 & Hl & _ & Hlisted).
      rewrite Hlist in Hl. by simplify_eq.
Qed.
End listings.

(** ** The response cache *)

Section cache.
Context {W : Type} (json : payload → string).
Context (cache_Get : string → M W (string * error)).
Context (cache_Set : string → string → Z → list string → M W error).
Context (gob_encode : Response → string) (gob_decode : string → Response).
(** Decoding gives back what was encoded, which is never the empty text. *)
Context (gob_roundtrip : ∀ x, gob_decode (gob_encode x) = x) (gob_nonempty : ∀ x, gob_encode x ≠ "").
Context (cfg : AppConfig) (tags : list string).
Implicit Types (r : Req W) (w : W).

(** The key of a request. *)
Definition cache_key (c : Context) : string := GenerateKey (URL_String (sortURLParams c)).

Lemma set_headers_keep (h : gmap string (list string)) c :
  let c' := map_fold (λ k v c, set_header k [Join v ","] c) c h in
  committed c' = committed c ∧ resp_Status c' = resp_Status c ∧ resp_Body c' = resp_Body c.
Proof.
  cbv zeta. apply (map_fold_weak_ind (λ c' _, committed c' = committed c ∧
    resp_Status c' = resp_Status c ∧ resp_Body c' = resp_Body c)); [done|].
  intros k v m c' _ (H1 & H2 & H3). cbn. auto.
Qed.

(** A request whose key is cached is answered from the cache. *)
Lemma HTTPCache_hit (next : HandlerFunc W) r v e w :
  req_Method (ctx r) = MethodGet → committed (ctx r) = false →
  cache_Get (cache_key (ctx r)) (world r) = (Ret (v, e), w) → v ≠ "" →
  ∃ r', HTTPCache json cache_Get cache_Set gob_encode gob_decode cfg tags next r = (Ret None, r') ∧
    world r' = w ∧ resp_Status (ctx r') = 200 ∧
    resp_Body (ctx r') = resp_Body (ctx r) +:+ resp_Value (gob_decode v).
Proof.
  intros Hm Hc Hg Hv. unfold HTTPCache. rewrite bind_gets, bool_decide_eq_true_2 by done.
  erewrite (bind_run (on_ctx _)) by reflexivity. rewrite bind_gets. cbv zeta. cbn [ctx world].
  fold (cache_key (ctx r)).
  rewrite (bind_run _ _ _ _ _ (on_world_run (cache_Get (cache_key (ctx r)))
    (mkReq (world r) (sortURLParams (ctx r))) _ _ Hg)).
  rewrite bool_decide_eq_true_2 by done. eexists. split; [reflexivity|]. cbn.
  destruct (set_headers_keep (resp_HeaderOf (StringToResponse gob_decode v)) (sortURLParams (ctx r)))
    as (Hcm & _ & Hb). cbn in Hb. unfold write_status. rewrite Hcm. cbn. rewrite Hc. cbn.
  by rewrite Hb.
Qed.

(** A request whose key is not cached goes to the handler, and the response
    is stored unless it is an error. *)
Lemma HTTPCache_miss (next : HandlerFunc W) r e w r2 :
  req_Method (ctx r) = MethodGet → committed (ctx r) = false →
  cache_Get (cache_key (ctx r)) (world r) = (Ret ("", e), w) →
  next (mkReq w (sortURLParams (ctx r))) = (Ret None, r2) → committed (ctx r2) = true →
  resp_Status (ctx r2) < 400 →
  HTTPCache json cache_Get cache_Set gob_encode gob_decode cfg tags next r =
  (_ ← on_world (cache_Set (cache_key (ctx r))
     (gob_encode (mkResponse (written_since (ctx r) (ctx r2)) (resp_Header (ctx r2))))
     (ApiCacheTTL cfg) tags);
   mret nil_werror) r2.
Proof.
  intros Hm Hc Hg Hn Hc2 Hst. unfold HTTPCache. rewrite bind_gets, bool_decide_eq_true_2 by done.
  erewrite (bind_run (on_ctx _)) by reflexivity. rewrite bind_gets. cbv zeta. cbn [ctx world].
  fold (cache_key (ctx r)).
  rewrite (bind_run _ _ _ _ _ (on_world_run (cache_Get (cache_key (ctx r)))
    (mkReq (world r) (sortURLParams (ctx r))) _ _ Hg)).
  rewrite bool_decide_eq_false_2 by (intros Hx; by destruct Hx).
  rewrite (bind_run _ _ _ _ _ Hn), bind_ret_l, bind_gets. cbn [committed sortURLParams set_query].
  rewrite Hc, Hc2. rewrite (proj2 (Z.ltb_lt _ _)) by done.
  unfold mbind, M_bind, Response_String. cbn.
  destruct (on_world _ r2) as [[x|p|] r3]; reflexivity.
Qed.
End cache.

(** The list a failed listing responds with. *)
Definition emptyList (off lim : Z) : payload := PClusters (mkClusterList [] 0 off lim false).

(** C29: A failed listing is cached: the empty list that GET /v1/clusters
    answers a database error with is stored for the lifetime of the cache, and
    while it is there the same request gets it from the cache, whatever the
    registry holds by then. *)
Theorem failed_listing_is_cached `{DbLaws W} json cache_Get cache_Set gob_encode gob_decode cfg tags
    fuel (r r2 : Req W) miss w e w1 err w2 w3 e3 w4 :
  (∀ x, gob_decode (gob_encode x) = x) → (∀ x, gob_encode x ≠ "") →
  req_Method (ctx r) = MethodGet → committed (ctx r) = false → resp_Body (ctx r) = "" →
  let c := sortURLParams (ctx r) in
  let q k := QueryParam k c in
  let off := int_param "offset" 0 c in
  let lim := int_param "limit" 200 c in
  let h := HTTPCache json cache_Get cache_Set gob_encode gob_decode cfg tags (V1.ListClusters json fuel) in
  let stored := gob_encode (mkResponse (json (emptyList off lim) +:+ newline)
    (<["Content-Type" := ["application/json; charset=UTF-8"]]> (resp_Header (ctx r)))) in
  cache_Get (cache_key (ctx r)) (world r) = (Ret ("", miss), w) →
  db_ListClusters fuel off lim (q "region") (q "environment") (q "status") (q "lastUpdated") w =
    (Ret ([], 0, false, Some e), w1) →
  cache_Set (cache_key (ctx r)) stored (ApiCacheTTL cfg) tags w1 = (Ret err, w2) →
  req_Method (ctx r2) = MethodGet → committed (ctx r2) = false → resp_Body (ctx r2) = "" →
  cache_key (ctx r2) = cache_key (ctx r) → world r2 = w3 →
  cache_Get (cache_key (ctx r)) w3 = (Ret (stored, e3), w4) →
  (∃ r', h r = (Ret None, r') ∧ world r' = w2 ∧ resp_Status (ctx r') = 200) ∧
  (∃ r', h r2 = (Ret None, r') ∧ resp_Status (ctx r') = 200 ∧
     resp_Body (ctx r') = json (emptyList off lim) +:+ newline).
Proof.
  intros Hgob Hne Hm Hc Hb c q off lim h stored Hget Hlist Hset Hm2 Hc2 Hb2 Hkey Hw3 Hget2. split.
  - assert (∃ c2, V1.ListClusters json fuel (mkReq w c) = (Ret None, mkReq w1 c2) ∧ committed c2 = true ∧
      resp_Status c2 = 200 ∧ resp_Body c2 = json (emptyList off lim) +:+ newline ∧
      resp_Header c2 = <["Content-Type" := ["application/json; charset=UTF-8"]]> (resp_Header (ctx r)))
      as (c2 & Hh & Hcm & Hst & Hbody & Hhd).
    { unfold V1.ListClusters. rewrite bind_gets. cbv zeta.
      rewrite (bind_run _ _ _ _ _ (on_world_run _ (mkReq w c) _ _ Hlist)).
      eexists. split; [reflexivity|]. cbn. unfold write_status. cbn. rewrite Hc. cbn. by rewrite Hb. }
    exists (mkReq w2 c2). unfold h.
    rewrite (HTTPCache_miss json cache_Get cache_Set gob_encode gob_decode cfg tags _ r miss w _ Hm Hc Hget Hh Hcm)
      by (cbn; lia).
    cbn [ctx]. unfold written_since. rewrite Hb, Hbody, Hhd. cbn [drop_str String.length].
    fold stored. erewrite bind_run; [|apply on_world_run; cbn; exact Hset]. done.
  - rewrite <- Hkey, <- Hw3 in Hget2.
    destruct (HTTPCache_hit json cache_Get cache_Set gob_encode gob_decode cfg tags (V1.ListClusters json fuel)
      r2 _ _ _ Hm2 Hc2 Hget2 (Hne _)) as (r' & Hr & _ & Hst & Hbody).
    exists r'. split_and!; [done..|]. rewrite Hbody, Hb2. unfold stored. by rewrite Hgob.
Qed.

(** ** Patches *)

Definition valid_tag (key value : string) : Prop :=
  key ∈ ["onboarding"; "scaling"] ∧ value ∈ ["on"; "off"].

(** The changes the API allows. *)
Definition valid_patch (p : V2.ClusterSpecPatch) : Prop :=
  (∀ s, V2.p_Status p = Some s → s ∈ ["Inactive"; "Active"; "Deprecated"; "Deleted"]) ∧
  (∀ s, V2.p_Phase p = Some s → s ∈ ["Building"; "Testing"; "Running"; "Upgrading"]) ∧
  (∀ tags k v, V2.p_Tags p = Some tags → tags !! k = Some v → valid_tag k v).

Lemma validateTag_spec k v : V2.validateTag k v = None ↔ valid_tag k v.
Proof.
  unfold V2.validateTag, valid_tag. rewrite !elem_of_cons, !elem_of_nil.
  destruct (bool_decide_reflect (k = "onboarding")), (bool_decide_reflect (k = "scaling"));
    cbn [orb]; try (split; [done|tauto]);
    destruct (bool_decide_reflect (v ≠ "on")), (bool_decide_reflect (v ≠ "off")); cbn [andb];
    split; try done; try tauto; intros _; split; try tauto; by destruct (decide (v = "on")), (decide (v = "off")); tauto.
Qed.

Lemma validateTags_spec l : V2.validateTags l = None ↔ Forall (λ kv, valid_tag kv.1 kv.2) l.
Proof.
  induction l as [|[k v] l IH]; [split; [by constructor|done]|]. cbn [V2.validateTags].
  rewrite Forall_cons. cbn [fst snd]. rewrite <- validateTag_spec, <- IH.
  destruct (V2.validateTag k v); [split; [done|by intros [??]]|tauto].
Qed.

Section patch.
Context `{DbLaws W} (json : payload → string).
Context {Client : Type} (GetClient : Cluster → M W (option Client * error)).
Context (RESTPatch : Client → string → string → string → string → string → M W error).
Context (marshal_patch : V2.ClusterSpecPatch → string * error).
Context (Bind : Context → V2.ClusterSpecPatch * werror) (validate_struct : V2.ClusterSpecPatch → werror).
(** The tags of the struct: [oneof] lists for the status and the phase. *)
Context (validator_oneof : ∀ p, validate_struct p = None ↔
  (∀ s, V2.p_Status p = Some s → s ∈ ["Inactive"; "Active"; "Deprecated"; "Deleted"]) ∧
  (∀ s, V2.p_Phase p = Some s → s ∈ ["Building"; "Testing"; "Running"; "Upgrading"])).
(** The patches sent to clusters: only a REST request sends one. *)
Context (sent : W → list (string * string)).
Context (sent_Get : ∀ n w, sent (db_GetCluster n w).2 = sent w).
Context (sent_Client : ∀ c w, sent (GetClient c w).2 = sent w).
Context (sent_Patch : ∀ cl path ns res n body w,
  let w' := (RESTPatch cl path ns res n body w).2 in sent w' = sent w ∨ sent w' = (n, body) :: sent w).

Lemma Validate_spec p : V2.Validate validate_struct p = None ↔ valid_patch p.
Proof.
  unfold V2.Validate, valid_patch.
  assert (match V2.p_Tags p with Some tags => V2.validateTags (map_to_list tags) | None => nil_werror end = None ↔
    ∀ tags k v, V2.p_Tags p = Some tags → tags !! k = Some v → valid_tag k v) as Ht.
  { destruct (V2.p_Tags p) as [tags|]; [|by split]. rewrite validateTags_spec, Forall_forall. split.
    - intros Hall ? k v [= <-] Hkv. apply (Hall (k, v)). by apply elem_of_map_to_list.
    - intros Hall [k v] Hkv%elem_of_map_to_list. by eapply Hall. }
  rewrite <- Ht. clear Ht. pose proof (validator_oneof p) as Hv. change (V2.Validator_Validate _ p) with (validate_struct p).
  destruct (validate_struct p) as [e|]; [split; [done|]|tauto].
  intros (H1 & H2 & _). by apply Hv.
Qed.

Lemma sent_getCluster name w : sent (V1.getCluster name w).2 = sent w.
Proof.
  unfold V1.getCluster. rewrite bind_state. pose proof (sent_Get name w) as Hg.
  destruct (db_GetCluster name w) as [[[[c|] [e|]]|p|] w1]; cbn [snd] in *; try done.
  destruct (GetClusterDashName name) as [dn [e|]]; [done|]. rewrite bind_state.
  pose proof (sent_Get dn w1) as Hg2.
  destruct (db_GetCluster dn w1) as [[[[c|] [e|]]|p|] w2]; cbn in *; congruence.
Qed.

Lemma sent_patchCluster c p w :
  let w' := (V2.patchCluster GetClient RESTPatch marshal_patch c p w).2 in
  sent w' = sent w ∨ ∃ body, marshal_patch p = (body, None) ∧ sent w' = (Name (Spec c), body) :: sent w.
Proof.
  cbv zeta. unfold V2.patchCluster. rewrite bind_state. pose proof (sent_Client c w) as Hc.
  destruct (GetClient c w) as [[[cl [e|]]|x|] w1]; cbn [snd] in *; [by left| |by left..].
  destruct (marshal_patch p) as [body [e|]]; [by left|]. rewrite bind_state.
  destruct cl as [cl|]; cbn [deref lift]; [|by left]. rewrite <- Hc.
  destruct (sent_Patch cl "/apis/registry.ethos.adobe.com/v1" "cluster-registry" "clusters"
    (Name (Spec c)) body w1) as [Hs|Hs]; [by left|right; by exists body].
Qed.

Abbreviation Patch := (V2.PatchCluster json GetClient RESTPatch marshal_patch Bind validate_struct).

Lemma JSON_world code p (r : Req W) : world (JSON json code p r).2 = world r.
Proof. reflexivity. Qed.

Lemma PatchCluster_sends r :
  db_inv (world r) →
  let w' := world (Patch r).2 in
  sent w' = sent (world r) ∨
  ∃ sp p body, may_resolve (db_visible (world r)) (Param "name" (ctx r)) (Some sp) ∧
    Bind (ctx r) = (p, None) ∧ valid_patch p ∧ marshal_patch p = (body, None) ∧
    sent w' = (Name sp, body) :: sent (world r).
Proof.
  intros Hinv w'. subst w'. unfold V2.PatchCluster. rewrite bind_gets. cbv zeta. unfold V2.getCluster.
  pose proof (sent_getCluster (Param "name" (ctx r)) (world r)) as Hsent.
  destruct (getCluster_run (Param "name" (ctx r)) (world r) Hinv) as (c & err & w & Hg & _ & _ & Hok & _).
  rewrite (bind_run _ _ _ _ _ (on_world_run _ _ _ _ Hg)). rewrite Hg in Hsent. cbn in Hsent.
  destruct err as [e|]; [rewrite JSON_world; auto|]. specialize (Hok eq_refl).
  destruct c as [c|]; [|rewrite JSON_world; auto].
  destruct (Bind (ctx r)) as [p [e|]] eqn:Hb; [rewrite JSON_world; auto|].
  destruct (V2.Validate validate_struct p) as [e|] eqn:Hv; [rewrite JSON_world; auto|].
  apply Validate_spec in Hv.
  rewrite bind_state. unfold on_world. cbn [world].
  destruct (sent_patchCluster c p w) as [Hs|(body & Hm & Hs)];
    destruct (V2.patchCluster GetClient RESTPatch marshal_patch c p w) as [[[e|]|x|] w2];
    rewrite ?JSON_world; cbn [world snd] in *; rewrite Hsent in Hs; rewrite Hs; auto; right; eauto 10.
Qed.

(** PATCH /clusters/:name sends a patch only for a cluster that the reads of the
    registry show, to that cluster, and only of a status, a phase and tags out of
    the allowed ones: the tags onboarding and scaling, with on or off. *)
Theorem PatchCluster_only_valid r :
  db_inv (world r) →
  let w' := world (Patch r).2 in
  sent w' = sent (world r) ∨
  ∃ sp p body, may_resolve (db_visible (world r)) (Param "name" (ctx r)) (Some sp) ∧
    Bind (ctx r) = (p, None) ∧ valid_patch p ∧ marshal_patch p = (body, None) ∧
    sent w' = (Name sp, body) :: sent (world r).
Proof. apply PatchCluster_sends. Qed.

(** The route: token check, rate limit, group check, handler. *)
Context {IDToken : Type} (Verify : string → string → M W (option IDToken * werror)).
Context (token_Claims : IDToken → Claims * werror) (record_egress_call : string → M W ()).
Context (Verify_ok : ∀ id raw w, ∃ tok err w', Verify id raw w = (Ret (tok, err), w') ∧
  (err = None → is_Some tok)).
Context (record_ok : ∀ target w, ∃ w', record_egress_call target w = (Ret (), w')).
Context (RateLimiter : MiddlewareFunc W).
(** What the services keep of the registry and of the patches. *)
Definition registry_view (w : W) : (string → option ClusterSpec → Prop) * list (string * string) :=
  (db_visible w, sent w).
Context (Verify_frame : ∀ id raw w, registry_view (Verify id raw w).2 = registry_view w).
Context (record_frame : ∀ target w, registry_view (record_egress_call target w).2 = registry_view w).
Context (inv_frame : ∀ w w', registry_view w' = registry_view w → db_inv w → db_inv w').
(** The limiter of echo calls the next handler on the same request, or turns
    the request away. *)
Context (limiter_law : ∀ next r, committed (ctx r) = false →
  turned_away registry_view [403; 429] r (RateLimiter next r) ∨
  ∃ w, registry_view w = registry_view (world r) ∧ RateLimiter next r = next (mkReq w (ctx r))).

Definition patch_route (cfg : AppConfig) : HandlerFunc W :=
  VerifyToken json Verify token_Claims record_egress_call cfg
    (RateLimiter (VerifyGroupAccess json (ApiAuthorizedGroupId cfg) Patch)).

(** C28: A request to the PATCH route changes a cluster only when its token is
    accepted by a verifier and its claims hold the authorized group; then it sends
    one patch, to the cluster of the name in the path as the reads of the registry
    show it, and the patch is the JSON of the request's own body, whose status,
    phase and tags are out of the allowed ones. *)
Theorem patch_needs_group cfg r :
  db_inv (world r) → committed (ctx r) = false →
  sent (world (patch_route cfg r).2) ≠ sent (world r) →
  ∃ raw tok claims sp p body,
    extractToken (req_Authorization (ctx r)) = (raw, None) ∧ accepted Verify cfg raw tok ∧
    token_Claims tok = (claims, None) ∧ ApiAuthorizedGroupId cfg ∈ Groups claims ∧
    may_resolve (db_visible (world r)) (Param "name" (ctx r)) (Some sp) ∧
    Bind (set_val "groups" (VStrs (Groups claims)) (set_val "oid" (VStr (Oid claims)) (ctx r))) = (p, None) ∧
    valid_patch p ∧ marshal_patch p = (body, None) ∧
    sent (world (patch_route cfg r).2) = (Name sp, body) :: sent (world r).
Proof.
  intros Hinv Hc Hdiff. unfold patch_route in *.
  destruct (VerifyToken_run json Verify token_Claims record_egress_call Verify_ok record_ok registry_view
    Verify_frame record_frame cfg (RateLimiter (VerifyGroupAccess json (ApiAuthorizedGroupId cfg) Patch)) r Hc)
    as [(r' & Hr & Hw & _)|(raw & tok & claims & w & Hx & Ha & Hcl & Hv & Hr)]; rewrite Hr in *.
  { injection Hw as _ Hw. done. }
  set (r1 := mkReq w _) in *. destruct (logged_in claims (ctx r)) as [Ho Hg].
  destruct (limiter_law (VerifyGroupAccess json (ApiAuthorizedGroupId cfg) Patch) r1 Hc)
    as [(r' & Hl & Hw & _)|(w2 & Hv2 & Hl)]; rewrite Hl in *.
  { change (world r1) with w in Hw. rewrite Hv in Hw. injection Hw as _ Hw. done. }
  change (world r1) with w in Hv2. rewrite Hv in Hv2.
  destruct (VerifyGroupAccess_run json registry_view (ApiAuthorizedGroupId cfg) Patch (mkReq w2 (ctx r1)) _ _ Hc Ho Hg)
    as [(r' & Hl2 & Hw & _)|[Hin Hl2]]; rewrite Hl2 in *.
  { cbn [world] in Hw. rewrite Hv2 in Hw. injection Hw as _ Hw. done. }
  destruct (PatchCluster_sends (mkReq w2 (ctx r1))) as [Hs|(sp & p & body & Hres & Hb & Hvp & Hm & Hs)].
  { exact (inv_frame _ _ Hv2 Hinv). }
  - injection Hv2 as _ Hv2. cbn [world] in Hs. congruence.
  - injection Hv2 as Hv1 Hv2. cbn [world ctx] in Hs, Hres, Hb. rewrite Hv1 in Hres. rewrite Hv2 in Hs.
    exists raw, tok, claims, sp, p, body. done.
Qed.
End patch.
