(* ===== verification/ApiWitness.v ===== *)
(** Witnesses of the theorems on the HTTP API: concrete services and requests
    on which their hypotheses hold. *)
From Stdlib Require Import Ascii.
From stdpp Require Import base gmap strings list option numbers sets countable.
From S2P Require Import Prelude GoStrings GoTime Encoding Registry Filter MemDynamo Database Db Sqs MemDb Config Web Auth Handlers HandlersThms.

Local Open Scope Z_scope.

(** ** The services *)

Definition demo_json (p : payload) : string :=
  match p with
  | PError b => b
  | PSpec sp => Name sp
  | PClusters l => Join (Name <$> Items l) ","
  | _ => "..."
  end.

Definition demo_Verify (id raw : string) : M World (option Claims * werror) :=
  mret (if bool_decide (id = "spn:client") && bool_decide (raw = "token")
        then (Some (mkClaims "me" ["admins"]), nil_werror)
        else (None, Some (Plain "expected audience spn:client"))).
Definition demo_Claims (t : Claims) : Claims * werror := (t, nil_werror).
Definition demo_record (target : string) : M World () := mret ().

Definition demo_Get (k : string) : M World (string * error) :=
  gets (λ w, (default "" (fst <$> w_cache w !! k), nil_error)).
Definition demo_Set (k v : string) (ttl : Z) (tags : list string) : M World error :=
  _ ← modify (set_cache (insert k (v, tags))); mret nil_error.

(** A response as a text of zeros and ones. *)
Fixpoint pos_text (p : positive) : string :=
  match p with
  | xH => "1"
  | xO p => String "0"%char (pos_text p)
  | xI p => String "1"%char (pos_text p)
  end.
Fixpoint text_pos (s : string) : positive :=
  match s with
  | String c EmptyString => xH
  | String c s => if bool_decide (c = "0"%char) then xO (text_pos s) else xI (text_pos s)
  | EmptyString => xH
  end.
Lemma text_pos_text p : text_pos (pos_text p) = p.
Proof. induction p as [p IH|p IH|]; cbn; [..|done]; rewrite IH; by destruct p. Qed.

Definition demo_encode (x : Response) : string := pos_text (encode (resp_Value x, resp_HeaderOf x)).
Definition demo_decode (s : string) : Response :=
  match decode (text_pos s) : option (string * gmap string (list string)) with
  | Some (v, h) => mkResponse v h
  | None => mkResponse "" ∅
  end.
Lemma demo_roundtrip x : demo_decode (demo_encode x) = x.
Proof. unfold demo_decode, demo_encode. rewrite text_pos_text, decode_encode. by destruct x. Qed.
Lemma demo_nonempty x : demo_encode x ≠ "".
Proof. unfold demo_encode. by destruct (encode _). Qed.

Definition demo_cfg : AppConfig :=
  mkAppConfig false "" "" "" "" "" "" INFO "client" "" "" "" "" 0 0 0 "" "" "" "" "admins" 0 "" false.

(** ** Requests *)

Definition request (method path auth : string) (params : gmap string string) (query : gmap string (list string))
    (w : World) : Req World :=
  mkReq w (mkCtx method path path params query auth "" ∅ false 0 ∅ "").

Definition demo_world : World := (mem_put (sample "ethos01-prod-va6" "va6" "prod" "Active" "2024-05-01T10:00:00Z") emptyWorld).2.
Lemma demo_world_ok : mem_ok demo_world.
Proof.
  destruct (mem_put_run (sample "ethos01-prod-va6" "va6" "prod" "Active" "2024-05-01T10:00:00Z") emptyWorld
    mem_ok_empty) as (c & err & w & Hrun & Hok & _). unfold demo_world. by rewrite Hrun.
Qed.

Lemma demo_Verify_ok id raw w :
  ∃ tok err w', demo_Verify id raw w = (Ret (tok, err), w') ∧ (err = None → is_Some tok).
Proof. unfold demo_Verify. destruct (_ && _); eexists _, _, _; (split; [reflexivity|]); eauto. done. Qed.

Lemma VerifyToken_gate_witness :
  let r := request "GET" "/api/v1/clusters" "Bearer token" ∅ ∅ demo_world in
  turned_away w_db [400; 403] r
    (VerifyToken demo_json demo_Verify demo_Claims demo_record demo_cfg (Livez) r) ∨
  ∃ raw tok claims r',
    extractToken "Bearer token" = (raw, None) ∧ accepted demo_Verify demo_cfg raw tok ∧
    demo_Claims tok = (claims, None) ∧ w_db (world r') = w_db demo_world ∧
    vals (ctx r') !! "oid" = Some (VStr (Oid claims)) ∧
    vals (ctx r') !! "groups" = Some (VStrs (Groups claims)) ∧
    VerifyToken demo_json demo_Verify demo_Claims demo_record demo_cfg Livez r = Livez r'.
Proof.
  intros r. apply (VerifyToken_gate demo_json demo_Verify demo_Claims demo_record demo_Verify_ok).
  - by eexists.
  - done.
  - done.
  - reflexivity.
Defined.

Lemma group_gate_witness :
  let r := request "PATCH" "/api/v2/clusters/x" "Bearer token" ∅ ∅ demo_world in
  let h := VerifyToken demo_json demo_Verify demo_Claims demo_record demo_cfg
    (VerifyGroupAccess demo_json "admins" Livez) in
  turned_away w_db [400; 403] r (h r) ∨
  ∃ raw tok claims r',
    extractToken "Bearer token" = (raw, None) ∧ accepted demo_Verify demo_cfg raw tok ∧
    demo_Claims tok = (claims, None) ∧ "admins" ∈ Groups claims ∧
    w_db (world r') = w_db demo_world ∧ h r = Livez r'.
Proof.
  intros r. apply (group_gate demo_json demo_Verify demo_Claims demo_record demo_Verify_ok).
  - by eexists.
  - done.
  - done.
  - reflexivity.
Defined.

Lemma GetCluster_responds_witness :
  let r := request "GET" "/api/v1/clusters/x" "" {["name" := "ethos01prodva6"]} ∅ demo_world in
  V2.GetCluster demo_json r = V1.GetCluster demo_json r ∧
  ∃ r', V1.GetCluster demo_json r = (Ret None, r') ∧ db_specs (world r') = db_specs demo_world ∧
    (match resolve (db_specs demo_world) "ethos01prodva6" with
     | Some sp => responds demo_json r r' 200 (PSpec (set_ServiceMetadata None sp))
     | None => responds demo_json r r' 404 (PError "resource not found")
     end ∨
     resp_Status (ctx r') = 500 ∧ lookup_fails "ethos01prodva6" demo_world).
Proof.
  intros r. assert (db_inv (world r)) as Hok by exact demo_world_ok.
  destruct (GetCluster_responds demo_json r Hok eq_refl) as (Hv & r' & Hrun & Hs & _ & Hset).
  split; [exact Hv|]. exists r'. split_and!; [exact Hrun|exact Hs|]. apply Hset. reflexivity.
Defined.

Lemma GetServiceMetadataForCluster_responds_witness :
  let r := request "GET" "/x" "" {["serviceId" := "svc-1"; "clusterName" := "ethos01-prod-va6"]} ∅ demo_world in
  ∃ r', V2.GetServiceMetadataForCluster demo_json r = (Ret None, r') ∧
    db_specs (world r') = db_specs demo_world.
Proof.
  intros r. destruct (GetServiceMetadataForCluster_responds demo_json r) as (r' & Hr & Hs & _).
  - apply demo_world_ok.
  - reflexivity.
  - exists r'. split; [exact Hr|exact Hs].
Defined.

Lemma ListClusters_responds_witness :
  let r := request "GET" "/x" "" ∅ {["region" := ["va6"]; "offset" := ["-1"]]} demo_world in
  let matching := filter (λ sp, selected "va6" "" "" "" sp = true) (map_to_list (db_specs demo_world)).*2 in
  ∃ o r', V1.ListClusters demo_json 1 r = (o, r') ∧ db_specs (world r') = db_specs demo_world ∧
    listing demo_json r matching (-1) 200 o r'.
Proof.
  intros r matching. assert (db_inv (world r)) as Hok by exact demo_world_ok.
  destruct (ListClusters_responds demo_json 1 r Hok eq_refl) as (o & r' & Hr & _ & _ & Hlist).
  - vm_compute. lia.
  - destruct Hlist as [Hs Hlist]; [by left|]. exists o, r'. split_and!; [exact Hr|exact Hs|].
    apply Hlist; [|reflexivity]. intros e w. vm_compute. discriminate.
Defined.

Lemma list_failure_is_200_witness :
  let r := request "GET" "/x" "" ∅ ∅ (set_faults [true] demo_world) in
  ∃ r', V1.ListClusters demo_json 1 r = (Ret None, r') ∧ world r' = demo_world ∧
    responds demo_json r r' 200 (PClusters (mkClusterList [] 0 0 200 false)).
Proof.
  intros r. apply (list_failure_is_200 demo_json 1 r "query failed" demo_world).
  - reflexivity.
  - vm_compute. reflexivity.
Defined.

Definition failing_request : Req World := request "GET" "/x" "" ∅ ∅ (set_faults [true] demo_world).
Definition poisoned_world : World :=
  set_cache (insert (cache_key (ctx failing_request))
    (demo_encode (mkResponse (demo_json (emptyList 0 200) +:+ newline)
      (<["Content-Type" := ["application/json; charset=UTF-8"]]> ∅)), ["clusters"])) demo_world.

Lemma poisoned_lookup :
  demo_Get (cache_key (ctx failing_request)) poisoned_world =
    (Ret (demo_encode (mkResponse (demo_json (emptyList 0 200) +:+ newline)
      (<["Content-Type" := ["application/json; charset=UTF-8"]]> ∅)), None), poisoned_world).
Proof.
  unfold demo_Get, poisoned_world, gets. cbn [w_cache set_cache]. by rewrite lookup_insert_eq.
Qed.

Lemma failed_listing_is_cached_witness :
  let h := HTTPCache demo_json demo_Get demo_Set demo_encode demo_decode demo_cfg ["clusters"]
    (V1.ListClusters demo_json 1) in
  (∃ r', h failing_request = (Ret None, r') ∧ world r' = poisoned_world ∧ resp_Status (ctx r') = 200) ∧
  (∃ r', h (request "GET" "/x" "" ∅ ∅ poisoned_world) = (Ret None, r') ∧ resp_Status (ctx r') = 200 ∧
     resp_Body (ctx r') = demo_json (emptyList 0 200) +:+ newline).
Proof.
  refine (failed_listing_is_cached demo_json demo_Get demo_Set demo_encode demo_decode demo_cfg ["clusters"] 1
    failing_request (request "GET" "/x" "" ∅ ∅ poisoned_world) None (set_faults [true] demo_world)
    "query failed" demo_world None poisoned_world poisoned_world None poisoned_world
    demo_roundtrip demo_nonempty _ _ _ _ _ _ _ _ _ _ _ _).
  - reflexivity.
  - reflexivity.
  - reflexivity.
  - vm_compute. reflexivity.
  - vm_compute. reflexivity.
  - reflexivity.
  - reflexivity.
  - reflexivity.
  - reflexivity.
  - reflexivity.
  - reflexivity.
  - exact poisoned_lookup.
Defined.

(** ** Patches *)

Definition demo_GetClient (c : Cluster) : M World (option () * error) := mret (Some (), nil_error).
Definition demo_RESTPatch (cl : ()) (path ns res n body : string) : M World error :=
  _ ← modify (set_patches (cons (n, body))); mret nil_error.
Definition demo_marshal (p : V2.ClusterSpecPatch) : string * error := ("{}", nil_error).
Definition demo_Bind (c : Context) : V2.ClusterSpecPatch * werror :=
  (V2.mkPatch (Some "Active") None (Some {["onboarding" := "on"]}), nil_werror).

Definition one_of (l : list string) (o : option string) : bool :=
  match o with None => true | Some s => contains s l end.
Definition demo_validate (p : V2.ClusterSpecPatch) : werror :=
  if one_of ["Inactive"; "Active"; "Deprecated"; "Deleted"] (V2.p_Status p) &&
     one_of ["Building"; "Testing"; "Running"; "Upgrading"] (V2.p_Phase p)
  then nil_werror else Some (Plain "failed on the 'oneof' tag").

Lemma one_of_spec l o : one_of l o = true ↔ ∀ s, o = Some s → s ∈ l.
Proof.
  destruct o as [s|]; cbn; [|done]. rewrite contains_spec. split; [by intros ? ? [= <-]|auto].
Qed.

Lemma demo_oneof p : demo_validate p = None ↔
  (∀ s, V2.p_Status p = Some s → s ∈ ["Inactive"; "Active"; "Deprecated"; "Deleted"]) ∧
  (∀ s, V2.p_Phase p = Some s → s ∈ ["Building"; "Testing"; "Running"; "Upgrading"]).
Proof.
  unfold demo_validate. rewrite <- !one_of_spec, <- andb_true_iff.
  by destruct (one_of _ _ && one_of _ _).
Qed.

Lemma mem_get_patches n w : w_patches (mem_get n w).2 = w_patches w.
Proof. destruct (mem_get_run n w) as (r & err & fs & -> & _). done. Qed.

Definition patch_request : Req World :=
  request "PATCH" "/x" "Bearer token" {["name" := "ethos01-prod-va6"]} ∅ demo_world.

Lemma PatchCluster_only_valid_witness :
  let w' := world (V2.PatchCluster demo_json demo_GetClient demo_RESTPatch demo_marshal demo_Bind demo_validate
    patch_request).2 in
  w_patches w' = w_patches demo_world ∨
  ∃ sp p body, may_resolve (db_visible demo_world) "ethos01-prod-va6" (Some sp) ∧
    demo_Bind (ctx patch_request) = (p, None) ∧ valid_patch p ∧ demo_marshal p = (body, None) ∧
    w_patches w' = (Name sp, body) :: w_patches demo_world.
Proof.
  refine (PatchCluster_only_valid demo_json demo_GetClient demo_RESTPatch demo_marshal demo_Bind demo_validate
    demo_oneof w_patches _ _ _ patch_request _).
  - exact mem_get_patches.
  - done.
  - intros. by right.
  - apply demo_world_ok.
Defined.

Lemma same_specs_ok w w' :
  registry_view w_patches w' = registry_view w_patches w → mem_ok w → mem_ok w'.
Proof.
  intros Hv Hok. assert (db_inv w) as Hinv by exact Hok. injection Hv as Hs _.
  assert (∀ n c, w_visible w' n (Some (Spec c)) → Name (Spec c) = n ∧ is_Some (Parse (LastUpdated (Spec c)))) as Hk.
  { intros n c Hvis. apply (db_keyed w n (Spec c) Hinv). rewrite Hs in Hvis. exact Hvis. }
  split; intros n c Hc; apply Hk; [left|right]; by rewrite Hc.
Qed.

Lemma patch_needs_group_witness :
  let route := patch_route demo_json demo_GetClient demo_RESTPatch demo_marshal demo_Bind demo_validate
    demo_Verify demo_Claims demo_record id demo_cfg in
  ∃ raw tok claims sp p body,
    extractToken "Bearer token" = (raw, None) ∧ accepted demo_Verify demo_cfg raw tok ∧
    demo_Claims tok = (claims, None) ∧ "admins" ∈ Groups claims ∧
    may_resolve (db_visible demo_world) "ethos01-prod-va6" (Some sp) ∧
    demo_Bind (set_val "groups" (VStrs (Groups claims)) (set_val "oid" (VStr (Oid claims)) (ctx patch_request))) = (p, None) ∧
    valid_patch p ∧ demo_marshal p = (body, None) ∧
    w_patches (world (route patch_request).2) = (Name sp, body) :: w_patches demo_world.
Proof.
  refine (patch_needs_group demo_json demo_GetClient demo_RESTPatch demo_marshal demo_Bind demo_validate
    demo_oneof w_patches mem_get_patches _ _ demo_Verify demo_Claims demo_record demo_Verify_ok _ id
    _ _ same_specs_ok _ demo_cfg patch_request demo_world_ok _ _).
  - done.
  - intros. by right.
  - by eexists.
  - done.
  - done.
  - intros next r _. right. by exists (world r); destruct r.
  - reflexivity.
  - vm_compute. by intros.
Defined.
