(* ===== verification/SyncParser.v ===== *)
(** pkg/sync/parser: from the objects a ClusterSync watches to the data of the
    cluster, with the handlers of each kind of object (pkg/sync/parser/handler)
    and the merge of what they find (pkg/api/registry/v1/merge.go).

    Unstructured objects, the Kubernetes client and mergo are parameters. *)
From Stdlib Require Import Ascii.
From stdpp Require Import base gmap strings list option numbers sets.
From S2P Require Import Prelude GoStrings Registry.

Local Open Scope Z_scope.

(** [unstructured.Unstructured] and the accessors of apimachinery: a value,
    whether it was found, and an error when it has another type. *)
Class Unstructured := {
  Obj : Type;
  Val : Type;
  GetName : Obj → string;
  GetNamespace : Obj → string;
  gvk_String : Obj → string;
  NestedString : Obj → list string → string * bool * error;
  NestedInt64 : Obj → list string → Z * bool * error;
  NestedStringSlice : Obj → list string → list string * bool * error;
  NestedStringMap : Obj → list string → gmap string string * bool * error;
  NestedSlice : Obj → list string → list Val * bool * error;
  (** A value through JSON into a [corev1.Taint] and its text. *)
  taint_ToString : Val → res string }.

Section handlers.
Context `{Unstructured}.

(** ** handler/errors.go, handler/util.go *)

Definition ParseError_Error (fields : list string) (obj : Obj) (err : string) : string :=
  "failed to get value (" +:+ Join fields "." +:+ ") from object (namespace: " +:+ GetNamespace obj +:+
  ", name: " +:+ GetName obj +:+ ", gvk: " +:+ gvk_String obj +:+ "): " +:+ err.

(** The five accessors of util.go differ in the type of the value only. *)
Definition getNested {A} (nested : Obj → list string → A * bool * error) (obj : Obj) (fields : list string) : res A :=
  let '(value, found, err) := nested obj fields in
  match err with
  | Some e => inl (ParseError_Error fields obj e)
  | None => if (found : bool) then inr value else inl (ParseError_Error fields obj "field not found")
  end.
Definition getNestedString : Obj → list string → res string := getNested NestedString.
Definition getNestedInt64 : Obj → list string → res Z := getNested NestedInt64.
Definition getNestedStringSlice : Obj → list string → res (list string) := getNested NestedStringSlice.
Definition getNestedStringMap : Obj → list string → res (gmap string string) := getNested NestedStringMap.
Definition getNestedSlice : Obj → list string → res (list Val) := getNested NestedSlice.

(** ** handler/awsmanagedcontrolplane.go *)

Definition extractOIDCIssuerFromARN (arn : string) : string :=
  let '(_, after, found) := Cut arn "/"%char in
  if negb found then "" else after.

Definition set_OidcIssuer (v : string) (e : Extra) : Extra :=
  mkExtra (DomainName e) (LbEndpoints e) (LoggingEndpoints e) (EcrIamArns e) (EgressPorts e) (NFSInfo e)
    (ExtendedRegion e) v (NamespaceProfileInfraType e).

Definition AWSManagedControlPlane_Handle (objects : list Obj) : res ClusterSpec :=
  mfold (λ clusterSpec obj,
    oidcProviderARN ← getNestedString obj ["status"; "oidcProvider"; "arn"];
    mret (set_ExtraInfo (set_OidcIssuer (extractOIDCIssuerFromARN oidcProviderARN) (ExtraInfo clusterSpec))
      clusterSpec)) objects zeroSpec.

(** ** handler/cluster.go *)

Definition Cluster_Handle (objects : list Obj) : res ClusterSpec :=
  mfold (λ clusterSpec obj,
    clusterShortName ← getNestedString obj ["metadata"; "labels"; "clusterShortName"];
    let clusterSpec := set_ShortName clusterShortName clusterSpec in
    region ← getNestedString obj ["metadata"; "labels"; "locationShortName"];
    let clusterSpec := set_Region region clusterSpec in
    provider ← getNestedString obj ["metadata"; "labels"; "provider"];
    let clusterSpec := set_CloudType provider clusterSpec in
    cloudProviderRegion ← getNestedString obj ["metadata"; "labels"; "location"];
    let clusterSpec := set_CloudProviderRegion cloudProviderRegion clusterSpec in
    environment ← getNestedString obj ["metadata"; "labels"; "environment"];
    mret (set_Environment environment clusterSpec)) objects zeroSpec.

(** ** handler/awsmanagedmachinepool.go *)

(** [slices.IndexFunc] on the name of a tier, and the two outcomes. *)
Fixpoint upsert (name : string) (update : Tier → Tier) (fresh : Tier) (tiers : list Tier) : list Tier :=
  match tiers with
  | [] => [fresh]
  | t :: tiers => if bool_decide (tier_Name t = name) then update t :: tiers
                  else t :: upsert name update fresh tiers
  end.

Definition getTaintsAsStringSlice (obj : Obj) (fields : list string) : res (list string) :=
  taints ← getNestedSlice obj fields;
  mfold (λ taintsSlice t, s ← taint_ToString t; mret (taintsSlice ++ [s])) taints [].

Definition pool_tier (obj : Obj) : res Tier :=
  name ← getNestedString obj ["spec"; "awsLaunchTemplate"; "name"];
  instanceType ← getNestedString obj ["spec"; "awsLaunchTemplate"; "instanceType"];
  minSize ← getNestedInt64 obj ["spec"; "scaling"; "minSize"];
  maxSize ← getNestedInt64 obj ["spec"; "scaling"; "maxSize"];
  labels ← getNestedStringMap obj ["spec"; "labels"];
  taints ← getTaintsAsStringSlice obj ["spec"; "taints"];
  mret (mkTier name instanceType "" minSize maxSize labels taints false ∅).

Definition AWSManagedMachinePool_Handle (objects : list Obj) : res ClusterSpec :=
  mfold (λ clusterSpec obj,
    tier ← pool_tier obj;
    mret (set_Tiers (upsert (tier_Name tier) (λ _, tier) tier (Tiers clusterSpec)) clusterSpec))
    objects zeroSpec.

(** ** handler/eksconfig.go *)

Definition set_ContainerRuntime (v : string) (t : Tier) : Tier :=
  mkTier (tier_Name t) (InstanceType t) v (MinCapacity t) (MaxCapacity t) (Labels t) (Taints t)
    (EnableKataSupport t) (KernelParameters t).

Definition EKSConfig_Handle (objects : list Obj) : res ClusterSpec :=
  mfold (λ clusterSpec obj,
    containerRuntime ← getNestedString obj ["spec"; "containerRuntime"];
    mret (set_Tiers (upsert (GetName obj) (set_ContainerRuntime containerRuntime)
      (mkTier (GetName obj) "" containerRuntime 0 0 ∅ [] false ∅) (Tiers clusterSpec)) clusterSpec))
    objects zeroSpec.

(** ** handler/subnet.go *)

Definition isPrivateSubnet (obj : Obj) : bool := Contains (GetName obj) "private".

Definition Subnet_Handle (objects : list Obj) : res ClusterSpec :=
  mfold (λ clusterSpec obj,
    if negb (isPrivateSubnet obj) then mret clusterSpec
    else
      availabilityZone ← getNestedString obj ["spec"; "availabilityZone"];
      availabilityZoneID ← getNestedString obj ["spec"; "availabilityZoneID"];
      mret (set_AvailabilityZones (AvailabilityZones clusterSpec ++ [mkAZ availabilityZone availabilityZoneID])
        clusterSpec)) objects zeroSpec.

(** ** handler/vpc.go *)

Definition VPC_Handle (objects : list Obj) : res ClusterSpec :=
  mfold (λ clusterSpec obj,
    vpcID ← getNestedString obj ["status"; "vpcID"];
    cidrs ← getNestedStringSlice obj ["spec"; "cidrBlocks"];
    let clusterSpec := set_VirtualNetworks (VirtualNetworks clusterSpec ++ [mkVNet vpcID cidrs]) clusterSpec in
    accountId ← getNestedString obj ["status"; "ownerID"];
    mret (set_AccountID accountId clusterSpec)) objects zeroSpec.
End handlers.

(** ** Tiers of machine pools *)

Lemma upsert_names name update fresh tiers :
  (∀ t, tier_Name (update t) = tier_Name t) ∨ (∀ t, tier_Name (update t) = name) → tier_Name fresh = name →
  tier_Name <$> upsert name update fresh tiers =
    if bool_decide (name ∈ tier_Name <$> tiers) then tier_Name <$> tiers else (tier_Name <$> tiers) ++ [name].
Proof.
  intros Hu Hf. induction tiers as [|t tiers IH]; cbn [upsert].
  - by rewrite bool_decide_eq_false_2 by apply not_elem_of_nil; cbn; rewrite Hf.
  - destruct (bool_decide_reflect (tier_Name t = name)) as [Ht|Ht]; rewrite !fmap_cons.
    + rewrite bool_decide_eq_true_2 by (rewrite Ht; left). f_equal. destruct Hu as [Hu|Hu]; rewrite Hu; done.
    + assert (bool_decide (name ∈ tier_Name t :: (tier_Name <$> tiers)) =
        bool_decide (name ∈ tier_Name <$> tiers)) as Hb.
      { apply bool_decide_ext. rewrite elem_of_cons. split; [intros [?|?]; [by destruct Ht|done]|by right]. }
      rewrite IH, Hb. by destruct (bool_decide (name ∈ tier_Name <$> tiers)).
Qed.

Lemma upsert_NoDup name update fresh tiers :
  (∀ t, tier_Name (update t) = tier_Name t) ∨ (∀ t, tier_Name (update t) = name) → tier_Name fresh = name →
  NoDup (tier_Name <$> tiers) → NoDup (tier_Name <$> upsert name update fresh tiers).
Proof.
  intros Hu Hf Hnd. rewrite upsert_names by done. case_bool_decide as Hin; [done|].
  apply NoDup_app. split_and!; [done| |apply NoDup_singleton].
  intros x Hx ->%list_elem_of_singleton. done.
Qed.

(** Replacing or appending keeps the other tiers. *)
Lemma upsert_elem t t' tiers :
  NoDup (tier_Name <$> tiers) →
  t' ∈ upsert (tier_Name t) (λ _, t) t tiers ↔ t' = t ∨ t' ∈ tiers ∧ tier_Name t' ≠ tier_Name t.
Proof.
  induction tiers as [|u tiers IH]; cbn [upsert]; intros Hnd.
  - rewrite elem_of_cons, elem_of_nil. tauto.
  - rewrite fmap_cons in Hnd. apply NoDup_cons in Hnd as [Hu Hnd].
    destruct (bool_decide_reflect (tier_Name u = tier_Name t)) as [Heq|Hne]; rewrite !elem_of_cons.
    + split; [intros [->|Hin]; [by left|right]|intros [->|[[->|Hin] Hn]]; auto; done].
      split; [by right|]. intros Hn. destruct Hu. rewrite Heq, <- Hn. by apply list_elem_of_fmap_2.
    + rewrite IH by done. split; [intros [->|[->|[??]]]; auto|intros [->|[[->|?] ?]]; auto].
Qed.

Lemma set_Tiers_Tiers v s : Tiers (set_Tiers v s) = v.
Proof. by destruct s. Qed.
Lemma set_Tiers_twice v w s : set_Tiers v (set_Tiers w s) = set_Tiers v s.
Proof. by destruct s. Qed.

Section pools.
Context `{Unstructured}.

(** The tier of the last object of its name. *)
Definition last_tier (objs : list Obj) (t : Tier) : Prop :=
  ∃ l1 obj l2, objs = l1 ++ obj :: l2 ∧ pool_tier obj = inr t ∧
    (∀ o u, o ∈ l2 → pool_tier o = inr u → tier_Name u ≠ tier_Name t).

Lemma last_tier_snoc objs obj t t' :
  pool_tier obj = inr t →
  last_tier (objs ++ [obj]) t' ↔ t' = t ∨ last_tier objs t' ∧ tier_Name t' ≠ tier_Name t.
Proof.
  intros Ht. split.
  - intros (l1 & o & l2 & Heq & Ho & Hlast). destruct l2 as [|x l2 _] using rev_ind.
    + apply app_inj_tail in Heq as [-> ->]. rewrite Ht in Ho. left. by injection Ho.
    + rewrite app_comm_cons, app_assoc in Heq. apply app_inj_tail in Heq as [-> ->].
      right. split.
      * exists l1, o, l2. split_and!; [done..|]. intros o' u Hin. apply Hlast. set_solver.
      * intros Hn. apply (Hlast x t); [set_solver|done..].
  - intros [->|[(l1 & o & l2 & -> & Ho & Hlast) Hn]].
    + exists objs, obj, []. split_and!; [done..|]. intros o u Hin. by apply not_elem_of_nil in Hin.
    + exists l1, o, (l2 ++ [obj]). rewrite <- app_assoc. split_and!; [done..|].
      intros o' u [Hin| ->%list_elem_of_singleton]%elem_of_app Hu; [by eapply Hlast|].
      rewrite Ht in Hu. injection Hu as <-. done.
Qed.

(** The machine pools of a cluster become tiers of distinct names, one
    per name, each with the values of the last pool of that name; nothing
    else of the specification is set. *)
Theorem machine_pool_tiers objs cs :
  AWSManagedMachinePool_Handle objs = inr cs →
  cs = set_Tiers (Tiers cs) zeroSpec ∧ NoDup (tier_Name <$> Tiers cs) ∧
  (∀ t, t ∈ Tiers cs ↔ last_tier objs t).
Proof.
  unfold AWSManagedMachinePool_Handle. revert cs. induction objs as [|obj objs IH] using rev_ind; intros cs.
  - intros [= <-]. split_and!; [done|constructor|]. intros t. split; [intros Hin; by apply not_elem_of_nil in Hin|].
    intros (l1 & o & l2 & Heq & _). by destruct l1.
  - rewrite mfold_app. intros (cs0 & H0 & Hs)%res_bind_inr. cbn [mfold] in Hs.
    apply res_bind_inr in Hs as (cs1 & (t & Ht & [= <-])%res_bind_inr & [= <-]).
    destruct (IH cs0 H0) as (Hcs & Hnd & Hin). rewrite set_Tiers_Tiers. split_and!.
    + rewrite Hcs. by rewrite set_Tiers_twice.
    + apply upsert_NoDup; auto.
    + intros t'. rewrite upsert_elem, (last_tier_snoc _ _ t), Hin by done. done.
Qed.

(** A cluster's availability zones are those of its private subnets,
    in order; public subnets are not even looked at. *)
Theorem subnet_zones objs cs :
  Subnet_Handle objs = inr cs →
  Forall2 (λ obj az,
      getNestedString obj ["spec"; "availabilityZone"] = inr (az_Name az) ∧
      getNestedString obj ["spec"; "availabilityZoneID"] = inr (az_ID az))
    (filter (λ o, isPrivateSubnet o = true) objs) (AvailabilityZones cs).
Proof.
  unfold Subnet_Handle. revert cs. induction objs as [|obj objs IH] using rev_ind; intros cs.
  - intros [= <-]. constructor.
  - rewrite mfold_app. intros (cs0 & H0 & Hs)%res_bind_inr. cbn [mfold] in Hs.
    apply res_bind_inr in Hs as (cs1 & Hs & [= <-]). rewrite filter_app, filter_cons, filter_nil.
    destruct (isPrivateSubnet obj) eqn:Hp; cbn [negb] in Hs.
    + rewrite decide_True by done.
      apply res_bind_inr in Hs as (az & Haz & (id & Hid & [= <-])%res_bind_inr).
      assert (∀ v s, AvailabilityZones (set_AvailabilityZones v s) = v) as -> by (by intros v []).
      apply Forall2_app; [by apply IH|]. by repeat constructor.
    + rewrite decide_False by done. injection Hs as <-. rewrite app_nil_r. by apply IH.
Qed.
End pools.

(** ** pkg/api/registry/v1/merge.go *)

Section merge.
(** [mergo.Merge] of two tiers (with append of slices), and of two
    specifications (with override and a transformer for the tiers): the
    destination as the call leaves it, and an error. *)
Context (mergo_tier : Tier → Tier → Tier * error).
Context (mergo_spec : (list Tier → list Tier → list Tier * error) → ClusterSpec → ClusterSpec → ClusterSpec * error).

(** The first destination tier of a name is merged into. *)
Fixpoint merge_into (s : Tier) (dsts : list Tier) : list Tier * error :=
  match dsts with
  | [] => ([], nil_error)
  | d :: dsts =>
     if bool_decide (tier_Name d = tier_Name s)
     then let '(d', err) := mergo_tier d s in (d' :: dsts, err)
     else let '(dsts', err) := merge_into s dsts in (d :: dsts', err)
  end.

Fixpoint mergeTiers (dsts srcs : list Tier) : list Tier * error :=
  match srcs with
  | [] => (dsts, nil_error)
  | s :: srcs =>
     let '(dsts', err) := merge_into s dsts in
     match err with
     | Some e => (dsts', errorf e)
     | None => mergeTiers dsts' srcs
     end
  end.

Definition Merge (dst src : ClusterSpec) : ClusterSpec * error := mergo_spec mergeTiers dst src.

(** Merging into a tier keeps its name: a destination value that is set is
    not overridden, and both names are the same. *)
Context (mergo_tier_name : ∀ d s, tier_Name d = tier_Name s → tier_Name (mergo_tier d s).1 = tier_Name d).

Lemma merge_into_names s dsts : tier_Name <$> (merge_into s dsts).1 = tier_Name <$> dsts.
Proof.
  induction dsts as [|d dsts IH]; [done|]. cbn [merge_into]. case_bool_decide as Hn.
  - pose proof (mergo_tier_name d s Hn) as Hd. destruct (mergo_tier d s). cbn in *. by rewrite Hd.
  - destruct (merge_into s dsts). cbn in *. by rewrite IH.
Qed.

(** Merging tiers never adds one: the result has the tiers of the
    destination, by name and in order, so a tier found on a cluster that its
    initial data does not list is dropped. *)
Theorem mergeTiers_names dsts srcs :
  tier_Name <$> (mergeTiers dsts srcs).1 = tier_Name <$> dsts.
Proof.
  revert dsts. induction srcs as [|s srcs IH]; intros dsts; [done|]. cbn [mergeTiers].
  pose proof (merge_into_names s dsts) as Hn. destruct (merge_into s dsts) as [d' [e|]]; cbn in *; [done|].
  by rewrite IH.
Qed.
End merge.
