(* ===== verification/SyncController.v ===== *)
(** The sync manager: ClusterSync objects (pkg/api/registry/v1alpha1), the
    parser of watched resources (pkg/sync/parser/parser.go) and the controller
    that reconciles them (pkg/sync/manager).

    The state is the world and the buffer of the parser, which the controller
    shares between its reconciliations. *)
From Stdlib Require Import Ascii.
From stdpp Require Import base gmap strings list option numbers sets relations.
From S2P Require Import Prelude GoStrings Registry Sqs SyncParser.

Local Open Scope Z_scope.

(** ** pkg/api/registry/v1alpha1/clustersync_types.go *)

Record GroupVersionKind := mkGVK { Group : string; Version_ : string; gvk_Kind : string }.
#[global] Instance GVK_eq_dec : EqDecision GroupVersionKind.
Proof. solve_decision. Defined.

(** [metav1.LabelSelector]. *)
Record LabelSelectorRequirement := mkRequirement { lsr_Key : string; Operator : string; Values : list string }.
#[global] Instance LabelSelectorRequirement_eq_dec : EqDecision LabelSelectorRequirement.
Proof. solve_decision. Defined.
Record LabelSelector := mkLabelSelector {
  MatchLabels : gmap string string;
  MatchExpressions : list LabelSelectorRequirement }.
#[global] Instance LabelSelector_eq_dec : EqDecision LabelSelector.
Proof. solve_decision. Defined.

Record WatchedResource := mkWatched {
  wr_Kind : string;
  wr_APIVersion : string;
  wr_Namespace : string;
  wr_Name : string;
  wr_LabelSelector : option LabelSelector }.
#[global] Instance WatchedResource_eq_dec : EqDecision WatchedResource.
Proof. solve_decision. Defined.

Record ClusterSyncSpec := mkSyncSpec { WatchedResources : list WatchedResource; InitialData : string }.

Record ClusterSyncStatus := mkSyncStatus {
  LastSyncTime : option string;
  LastSyncStatus : option string;
  LastSyncError : option string;
  SyncedData : option string;
  SyncedDataHash : option string }.

Record ClusterSync := mkSync {
  cs_Name : string;
  cs_Namespace : string;
  cs_Deleted : bool;
  cs_Spec : ClusterSyncSpec;
  cs_Status : ClusterSyncStatus }.

Definition set_Status (st : ClusterSyncStatus) (i : ClusterSync) : ClusterSync :=
  mkSync (cs_Name i) (cs_Namespace i) (cs_Deleted i) (cs_Spec i) st.

(** The state a controller runs on. *)
Record SState (W : Type) := mkSState { sworld : W; buffer : ClusterSpec }.
Arguments mkSState {W} _ _.
Arguments sworld {W} _.
Arguments buffer {W} _.

Inductive kerror := NotFoundErr | OtherErr (msg : string).

(** [time.Second], a [time.Duration] in nanoseconds. *)
Definition Second : Z := 1000000000.

(** Where and when a request goes on, [ctrl.Result]. *)
Record Result := mkResult { Requeue : bool; RequeueAfter : Z }.

(** The calls of the Kubernetes client, the encoders, the clock and the
    metrics. *)
Class SyncEnv (W : Type) `{Unstructured} := {
  (** [schema.ParseGroupVersion]: the group and the version of a text. *)
  ParseGroupVersion : string → res (string * string);
  k8s_GetObject : GroupVersionKind → string → string → M W (Obj + string);
  Selector : Type;
  LabelSelectorAsSelector : LabelSelector → res Selector;
  Matches : Selector → gmap string string → bool;
  k8s_ListObjects : GroupVersionKind → string → option Selector → M W (list Obj * error);
  k8s_ListSyncs : string → M W (list ClusterSync + string);
  k8s_GetSync : string → string → M W (ClusterSync + kerror);
  k8s_UpdateStatus : ClusterSync → M W error;
  yaml_Spec : string → ClusterSpec * error;
  json_Spec : ClusterSpec → string * error;
  json_String : string → string * error;
  CreateMergePatch : string → string → string * error;
  sha256_hex : string → string;
  NewUUID : M W (string + string);
  Now : M W string;
  Metric : string → string → M W () }.

Section controller.
Context `{SyncEnv W} `{SQSService W}.
Context (handlers : GroupVersionKind → option (list Obj → res ClusterSpec)).
Context (merge : ClusterSpec → ClusterSpec → ClusterSpec * error).
Context (queue : Config).

Definition in_world {A} (m : M W A) : M (SState W) A := λ s,
  let '(o, w) := m (sworld s) in (o, mkSState w (buffer s)).

(** [WatchedResource.GVK]. *)
Definition GVK (r : WatchedResource) : res GroupVersionKind :=
  gv ← ParseGroupVersion (wr_APIVersion r);
  mret (mkGVK gv.1 gv.2 (wr_Kind r)).

(** ** pkg/sync/parser/parser.go *)

Definition SetBuffer (b : ClusterSpec) : M (SState W) () := modify (λ s, mkSState (sworld s) b).

(** A list that fails is logged, and counts as empty. *)
Definition getObjectsForResource (r : WatchedResource) : M W (res (list Obj)) :=
  match GVK r with
  | inl e => mret (inl e)
  | inr gvk =>
     if bool_decide (wr_Name r ≠ "")
     then
       o ← k8s_GetObject gvk (wr_Namespace r) (wr_Name r);
       mret (match o with inl obj => inr [obj] | inr e => inl e end)
     else
       match wr_LabelSelector r with
       | Some l =>
          match LabelSelectorAsSelector l with
          | inl e => mret (inl e)
          | inr sel => '(items, _) ← k8s_ListObjects gvk (wr_Namespace r) (Some sel); mret (inr items)
          end
       | None => '(items, _) ← k8s_ListObjects gvk (wr_Namespace r) None; mret (inr items)
       end
  end.

Definition Parse_resource (r : WatchedResource) : M (SState W) error :=
  match GVK r with
  | inl e => mret (errorf e)
  | inr gvk =>
     match handlers gvk with
     | None => mret (errorf "no handler registered for GVK")
     | Some h =>
        objects ← in_world (getObjectsForResource r);
        match objects with
        | inl e => mret (errorf e)
        | inr objects =>
           match h objects with
           | inl e => mret (errorf e)
           | inr patch =>
              b ← gets buffer;
              let '(b, err) := merge b patch in
              _ ← SetBuffer b;
              mret err
           end
        end
     end
  end.

Definition Diff : M (SState W) (string * error) :=
  b ← gets buffer;
  let '(original, err) := json_Spec zeroSpec in
  match err with
  | Some e => mret ("", errorf e)
  | None =>
     let '(modified, err) := json_Spec b in
     match err with
     | Some e => mret ("", errorf e)
     | None => mret (CreateMergePatch original modified)
     end
  end.

(** ** pkg/sync/manager/util.go *)

(** [fmt.Sprintf ("%v", b)] of a byte slice: its decimals in brackets. *)
Fixpoint decimal_of (fuel : nat) (n : Z) (acc : string) : string :=
  match fuel with
  | O => acc
  | S fuel => let acc := String (digit_char (n `mod` 10)) acc in
              if n <? 10 then acc else decimal_of fuel (n / 10) acc
  end.
Fixpoint bytes_of (s : string) : list string :=
  match s with
  | EmptyString => []
  | String c s => decimal_of 3 (byte_of c) "" :: bytes_of s
  end.
Definition sprint_bytes (b : string) : string := "[" +:+ Join (bytes_of b) " " +:+ "]".

Definition hash (obj : string) : string := sha256_hex (sprint_bytes (json_String obj).1).

(** ** pkg/sync/manager/result.go *)

Definition noRequeue : M (SState W) (Result * error) := mret (mkResult false 0, nil_error).
Definition requeueIfError (name : string) (err : error) : M (SState W) (Result * error) :=
  _ ← match err with Some _ => in_world (Metric "requeue" name) | None => mret () end;
  mret (mkResult false 0, err).
Definition requeueAfter (name : string) (interval : Z) (err : error) : M (SState W) (Result * error) :=
  _ ← in_world (Metric "requeue" name);
  mret (mkResult false interval, err).

(** ** pkg/sync/manager/controller.go *)

Definition SyncStatusSuccess : string := "success".
Definition SyncStatusFail : string := "fail".

Definition hasDifferentHash (instance : ClusterSync) : bool :=
  match SyncedDataHash (cs_Status instance), SyncedData (cs_Status instance) with
  | Some oldHash, Some data => bool_decide (oldHash ≠ hash data)
  | _, _ => true
  end.

Definition isLastSyncSuccessful (instance : ClusterSync) : bool :=
  match LastSyncStatus (cs_Status instance) with
  | Some st => bool_decide (st = SyncStatusSuccess)
  | None => false
  end.

Definition shouldEnqueueData (instance : ClusterSync) : bool :=
  isLastSyncSuccessful instance && hasDifferentHash instance.

Definition updateStatus (instance : ClusterSync) : M (SState W) error := in_world (k8s_UpdateStatus instance).

Definition enqueueData (instance : ClusterSync) : M (SState W) error :=
  let '(obj, err) :=
    match SyncedData (cs_Status instance) with
    | Some data => json_String data
    | None => ("null", nil_error)
    end in
  match err with
  | Some e => mret (errorf e)
  | None =>
     id ← in_world NewUUID;
     match id with
     | inr e => mret (errorf e)
     | inl id =>
        err ← in_world (Enqueue queue [mkEntry id 10 obj {["Type" := PartialClusterUpdateEvent]}]);
        _ ← in_world (Metric "enqueue_dur" (cs_Name instance));
        _ ← in_world (Metric "enqueue" (cs_Name instance));
        mret err
     end
  end.

(** The watched resources, one after the other; the errors in order. *)
Fixpoint parse_all (rs : list WatchedResource) (errs : list string) : M (SState W) (list string) :=
  match rs with
  | [] => mret errs
  | r :: rs =>
     err ← Parse_resource r;
     parse_all rs (match err with Some e => errs ++ [e] | None => errs end)
  end.

Definition getInitialData (instance : ClusterSync) : ClusterSpec * error := yaml_Spec (InitialData (cs_Spec instance)).

(** Reconcile once the object is fetched. *)
Definition Reconcile_instance (name : string) (instance : ClusterSync) : M (SState W) (Result * error) :=
  if cs_Deleted instance then noRequeue
  else
    let st := cs_Status instance in
    let '(initialData, err) := getInitialData instance in
    _ ← SetBuffer initialData;
    errList ← parse_all (WatchedResources (cs_Spec instance))
                (match err with Some e => [e] | None => [] end);
    match errList with
    | e :: _ =>
       now ← in_world Now;
       let instance := set_Status (mkSyncStatus (Some now) (Some SyncStatusFail) (Some e)
         (SyncedData st) (SyncedDataHash st)) instance in
       _ ← in_world (Metric "error" name);
       err ← updateStatus instance;
       match err with
       | Some e => requeueAfter name (10 * Second) (errorf e)
       | None => noRequeue
       end
    | [] =>
       '(syncedData, err) ← Diff;
       match err with
       | Some _ => _ ← in_world (Metric "error" name); noRequeue
       | None =>
          let instance := set_Status (mkSyncStatus (LastSyncTime st) (Some SyncStatusSuccess) None
            (Some syncedData) (SyncedDataHash st)) instance in
          if shouldEnqueueData instance
          then
            now ← in_world Now;
            let instance := set_Status (mkSyncStatus (Some now) (Some SyncStatusSuccess) None
              (Some syncedData) (Some (hash syncedData))) instance in
            err ← enqueueData instance;
            match err with
            | Some _ =>
               _ ← in_world (Metric "error" name);
               err ← updateStatus instance;
               match err with
               | Some e => requeueAfter name (10 * Second) (errorf e)
               | None => noRequeue
               end
            | None =>
               err ← updateStatus instance;
               match err with
               | Some e => _ ← in_world (Metric "error" name); requeueAfter name (10 * Second) (errorf e)
               | None => noRequeue
               end
            end
          else noRequeue
       end
    end.

(** The deferred calls record the duration and the count. *)
Definition Reconcile (namespace name : string) : M (SState W) (Result * error) :=
  instance ← in_world (k8s_GetSync namespace name);
  r ← match instance with
      | inr e =>
         _ ← in_world (Metric "error" name);
         requeueIfError name (match e with NotFoundErr => nil_error | OtherErr m => errorf m end)
      | inl instance => Reconcile_instance name instance
      end;
  _ ← in_world (Metric "reconciliation_dur" name);
  _ ← in_world (Metric "reconciliation" name);
  mret r.

(** The filters of the events of ClusterSync objects. *)
Definition CreateFunc (object : ClusterSync) : bool := hasDifferentHash object.
Definition UpdateFunc (oldObject newObject : ClusterSync) : bool :=
  if hasDifferentHash newObject then true
  else if negb (bool_decide (WatchedResources (cs_Spec oldObject) = WatchedResources (cs_Spec newObject))) then true
  else if bool_decide (InitialData (cs_Spec oldObject) ≠ InitialData (cs_Spec newObject)) then true
  else false.
Definition DeleteFunc (deleteStateUnknown : bool) : bool := negb deleteStateUnknown.

(** ** Watched objects: which ClusterSyncs a change of one reconciles *)

(** The parts of a [client.Object] that decide. *)
Record WatchedObject := mkWatchedObject {
  wo_GVK : GroupVersionKind; wo_Name : string; wo_Namespace : string; wo_Labels : gmap string string }.

(** [LabelSelector.Size () > 0]; the method is defined on the nil pointer. *)
Definition has_selector (l : option LabelSelector) : bool :=
  match l with
  | Some l => negb (bool_decide (MatchLabels l = ∅) && bool_decide (MatchExpressions l = []))
  | None => false
  end.

(** One turn of the inner loop: an error ends the whole scan ([inl]); else
    whether the resource matches. *)
Definition resource_matches (gvk : GroupVersionKind) (obj : WatchedObject) (ns : string) (r : WatchedResource) :
    res bool :=
  gv ← ParseGroupVersion (wr_APIVersion r);
  if bool_decide (gv ≠ (Group gvk, Version_ gvk)) || bool_decide (wr_Kind r ≠ gvk_Kind gvk)
     || bool_decide (ns ≠ wo_Namespace obj) then mret false
  else if bool_decide (wr_Name r ≠ "") && bool_decide (wr_Name r ≠ wo_Name obj) then mret false
  else
    match wr_LabelSelector r with
    | Some l =>
       if has_selector (Some l)
       then selector ← LabelSelectorAsSelector l; mret (Matches selector (wo_Labels obj))
       else mret true
    | None => mret true
    end.

(** The inner loop, up to its [break]. *)
Fixpoint any_matches (gvk : GroupVersionKind) (obj : WatchedObject) (ns : string) (rs : list WatchedResource) :
    res bool :=
  match rs with
  | [] => mret false
  | r :: rs =>
     b ← resource_matches gvk obj ns r;
     if (b : bool) then mret true else any_matches gvk obj ns rs
  end.

(** The outer loop: the requests collected so far when an error ends it. *)
Fixpoint collect_requests (gvk : GroupVersionKind) (obj : WatchedObject) (items : list ClusterSync)
    (requests : list (string * string)) : list (string * string) :=
  match items with
  | [] => requests
  | i :: items =>
     match any_matches gvk obj (cs_Namespace i) (WatchedResources (cs_Spec i)) with
     | inl _ => requests
     | inr b => collect_requests gvk obj items
                  (if (b : bool) then requests ++ [(cs_Namespace i, cs_Name i)] else requests)
     end
  end.

Definition enqueueRequestsFromMapFunc (gvk : GroupVersionKind) (obj : WatchedObject) : M W (list (string * string)) :=
  if bool_decide (wo_GVK obj ≠ gvk) then mret []
  else
    l ← k8s_ListSyncs (wo_Namespace obj);
    match l with
    | inr _ => mret []
    | inl items => mret (collect_requests gvk obj items [])
    end.
End controller.
