(* ===== verification/SyncThms.v ===== *)
(** What the sync manager guarantees about the messages it sends. *)
From Stdlib Require Import Ascii.
From stdpp Require Import base gmap strings list option numbers sets.
From S2P Require Import Prelude GoStrings Registry Sqs SyncParser SyncController.

Local Open Scope Z_scope.

Section watching.
Context `{SyncEnv W}.

(** ** Which objects a change of a watched object reconciles *)

(** The object is one the resource selects. *)
Definition selects (gvk : GroupVersionKind) (obj : WatchedObject) (r : WatchedResource) : Prop :=
  GVK r = inr gvk ∧ (wr_Name r = "" ∨ wr_Name r = wo_Name obj) ∧
  (∀ l, wr_LabelSelector r = Some l → has_selector (Some l) = true →
     ∃ sel, LabelSelectorAsSelector l = inr sel ∧ Matches sel (wo_Labels obj) = true).
Definition watches (gvk : GroupVersionKind) (obj : WatchedObject) (i : ClusterSync) : Prop :=
  cs_Namespace i = wo_Namespace obj ∧ ∃ r, r ∈ WatchedResources (cs_Spec i) ∧ selects gvk obj r.
(** Its API version and its selector parse. *)
Definition readable (r : WatchedResource) : Prop :=
  (∃ gv, ParseGroupVersion (wr_APIVersion r) = inr gv) ∧
  (∀ l, wr_LabelSelector r = Some l → ∃ sel, LabelSelectorAsSelector l = inr sel).

Lemma resource_matches_spec gvk obj ns r :
  readable r → ∃ b, resource_matches gvk obj ns r = inr b ∧
    (b = true ↔ ns = wo_Namespace obj ∧ selects gvk obj r).
Proof.
  intros [[[g v] Hgv] Hsel]. destruct gvk as [g' v' k']. unfold resource_matches, selects, GVK. rewrite Hgv.
  change (@mbind res _) with res_bind. cbn [res_bind mret res_ret Group Version_ gvk_Kind fst snd].
  destruct (decide ((g, v) = (g', v'))) as [Hg|Hg].
  2: { rewrite (bool_decide_eq_true_2 ((g, v) ≠ (g', v'))) by done. cbn [orb].
       exists false. split; [done|]. split; [done|]. intros (? & Heq & _). injection Heq. congruence. }
  rewrite (bool_decide_eq_false_2 ((g, v) ≠ (g', v'))) by tauto.
  destruct (decide (wr_Kind r = k')) as [Hk|Hk].
  2: { rewrite (bool_decide_eq_true_2 (wr_Kind r ≠ k')) by done. cbn [orb]. exists false. split; [done|]. split; [done|]. intros (? & Heq & _). injection Heq. congruence. }
  rewrite (bool_decide_eq_false_2 (wr_Kind r ≠ k')) by tauto.
  destruct (decide (ns = wo_Namespace obj)) as [Hns|Hns].
  2: { rewrite (bool_decide_eq_true_2 (ns ≠ _)) by done. cbn [orb]. exists false. split; [done|]. split; [done|]. intros (? & Heq & _). injection Heq. congruence. }
  rewrite (bool_decide_eq_false_2 (ns ≠ _)) by tauto. cbn [orb]. injection Hg as -> ->.
  destruct (bool_decide (wr_Name r ≠ "") && bool_decide (wr_Name r ≠ wo_Name obj)) eqn:Hn.
  { exists false. split; [done|]. apply andb_prop in Hn as [Ha%bool_decide_eq_true Hb%bool_decide_eq_true].
    split; [done|]. intros (_ & _ & [?|?] & _); congruence. }
  assert (wr_Name r = "" ∨ wr_Name r = wo_Name obj) as Hname.
  { apply andb_false_iff in Hn as [Ha%bool_decide_eq_false|Ha%bool_decide_eq_false]; apply dec_stable in Ha; auto. }
  destruct (wr_LabelSelector r) as [l|] eqn:Hl.
  2: { exists true. split; [done|]. split; [|done]. intros _. split_and!; [done|by rewrite <- Hk|done|done]. }
  destruct (Hsel l eq_refl) as [sel Hs]. rewrite Hs. cbn [res_bind].
  destruct (has_selector (Some l)) eqn:Hhas.
  2: { exists true. split; [done|]. split; [|done]. intros _. split_and!; [done|by rewrite <- Hk|done|].
       intros l' [= <-]. congruence. }
  exists (Matches sel (wo_Labels obj)). split; [done|]. split.
  - intros Hm. split_and!; [done|by rewrite <- Hk|done|]. intros l' [= <-] _. eauto.
  - intros (_ & _ & _ & Hl'). destruct (Hl' l eq_refl Hhas) as (sel' & Hs' & Hm). congruence.
Qed.

Lemma any_matches_spec gvk obj ns rs :
  (∀ r, r ∈ rs → readable r) → ∃ b, any_matches gvk obj ns rs = inr b ∧
    (b = true ↔ ns = wo_Namespace obj ∧ ∃ r, r ∈ rs ∧ selects gvk obj r).
Proof.
  induction rs as [|r rs IH]; intros Hr; cbn [any_matches].
  { exists false. split; [done|]. split; [done|]. intros (_ & r & Hin & _). by apply not_elem_of_nil in Hin. }
  destruct (resource_matches_spec gvk obj ns r) as (b & -> & Hb); [apply Hr; left|].
  destruct IH as (b' & -> & Hb'); [intros; apply Hr; by right|].
  rewrite res_bind_r. destruct b.
  - exists true. split; [done|]. split; [|done]. intros _. destruct (proj1 Hb eq_refl). split; [done|]. exists r. split; [left|done].
  - exists b'. split; [done|]. rewrite Hb'. split; (intros [Hns (r' & Hin & Hs)]; split; [done|]).
    + exists r'. split; [by right|done].
    + apply elem_of_cons in Hin as [->|Hin]; [|by exists r'].
      destruct Hb as [_ Hb]. discriminate Hb. done.
Qed.

Lemma collect_requests_spec gvk obj items requests :
  (∀ i r, i ∈ items → r ∈ WatchedResources (cs_Spec i) → readable r) →
  ∃ chosen, collect_requests gvk obj items requests = requests ++ ((λ i, (cs_Namespace i, cs_Name i)) <$> chosen) ∧
    sublist chosen items ∧ (∀ i, i ∈ chosen ↔ i ∈ items ∧ watches gvk obj i).
Proof.
  revert requests. induction items as [|i items IH]; intros requests Hr; cbn [collect_requests].
  { exists []. split_and!; [by rewrite app_nil_r|constructor|]. intros i. split; [by intros ?%not_elem_of_nil|].
    by intros [?%not_elem_of_nil _]. }
  destruct (any_matches_spec gvk obj (cs_Namespace i) (WatchedResources (cs_Spec i))) as (b & -> & Hb).
  { intros r. apply Hr. left. }
  destruct (IH (if b then requests ++ [(cs_Namespace i, cs_Name i)] else requests)) as (chosen & -> & Hsub & Hin).
  { intros j r Hj. apply Hr. by right. }
  fold (watches gvk obj i) in Hb. destruct b.
  - exists (i :: chosen). split_and!; [by rewrite <- app_assoc|by constructor|].
    intros j. rewrite !elem_of_cons, Hin. naive_solver.
  - exists chosen. split_and!; [done|by constructor|]. intros j. rewrite elem_of_cons, Hin. naive_solver.
Qed.

(** When a watched object changes, the ClusterSyncs of its namespace
    that watch it are reconciled, each once and in the order of the list,
    and no others: those with a resource of the object's group, version and
    kind, whose name is empty or the object's and whose label selector, if
    it says anything, matches the object's labels. *)
Theorem change_reconciles_watchers obj w items w' :
  k8s_ListSyncs (wo_Namespace obj) w = (Ret (inl items), w') →
  (∀ i r, i ∈ items → r ∈ WatchedResources (cs_Spec i) → readable r) →
  ∃ chosen, enqueueRequestsFromMapFunc (wo_GVK obj) obj w =
      (Ret ((λ i, (cs_Namespace i, cs_Name i)) <$> chosen), w') ∧
    sublist chosen items ∧ (∀ i, i ∈ chosen ↔ i ∈ items ∧ watches (wo_GVK obj) obj i).
Proof.
  intros Hl Hr. unfold enqueueRequestsFromMapFunc.
  rewrite (bool_decide_eq_false_2 (wo_GVK obj ≠ wo_GVK obj)) by tauto. rewrite (bind_run _ _ _ _ _ Hl).
  destruct (collect_requests_spec (wo_GVK obj) obj items [] Hr) as (chosen & -> & Hc). by exists chosen.
Qed.
End watching.

Section sync.
Context `{SyncEnv W} `{SQSService W}.
Context (handlers : GroupVersionKind → option (list Obj → res ClusterSpec)).
Context (merge : ClusterSpec → ClusterSpec → ClusterSpec * error).
Context (queue : Config).
Implicit Types (s : SState W) (i : ClusterSync).

(** The data collected for an object: its initial data parses, so does every
    watched resource, and the buffer that results encodes to [data]. *)
Definition collects i s data s' : Prop :=
  ∃ init s1, getInitialData i = (init, None) ∧
    parse_all handlers merge (WatchedResources (cs_Spec i)) [] (mkSState (sworld s) init) = (Ret [], s1) ∧
    Diff s1 = (Ret (data, None), s').

Lemma in_world_run {A} (m : M W A) s o w :
  m (sworld s) = (o, w) → in_world m s = (o, mkSState w (buffer s)).
Proof. intros Hm. unfold in_world. by rewrite Hm. Qed.

(** Reconciling an object whose data was sent before ends at once. *)
Lemma Reconcile_unchanged name i s data s' :
  cs_Deleted i = false → collects i s data s' → SyncedDataHash (cs_Status i) = Some (hash data) →
  Reconcile_instance handlers merge queue name i s = (Ret (mkResult false 0, None), s').
Proof.
  intros Hdel (init & s1 & Hy & Hp & Hd) Hh. unfold Reconcile_instance. rewrite Hdel, Hy.
  rewrite (bind_run (SetBuffer init) _ s tt (mkSState (sworld s) init) eq_refl).
  rewrite (bind_run _ _ _ _ _ Hp), (bind_run _ _ _ _ _ Hd).
  unfold shouldEnqueueData, hasDifferentHash. cbn [cs_Status set_Status SyncedDataHash SyncedData]. rewrite Hh.
  rewrite (bool_decide_eq_false_2 (hash data ≠ hash data)) by tauto.
  by rewrite andb_false_r.
Qed.

(** C40: A message that could not be enqueued is never sent again: the
    status is updated with the hash of the data all the same, and as long as
    the data of the cluster stays what it is, every later reconciliation of
    the updated object ends without sending it. *)
Theorem failed_enqueue_not_retried name i s data s1 now w2 e s3 w4 s4 :
  cs_Deleted i = false → collects i s data s1 → SyncedDataHash (cs_Status i) ≠ Some (hash data) →
  Now (sworld s1) = (Ret now, w2) →
  let i' := set_Status (mkSyncStatus (Some now) (Some SyncStatusSuccess) None (Some data) (Some (hash data))) i in
  enqueueData queue i' (mkSState w2 (buffer s1)) = (Ret (Some e), s3) →
  Metric "error" name (sworld s3) = (Ret (), w4) →
  updateStatus i' (mkSState w4 (buffer s3)) = (Ret None, s4) →
  Reconcile_instance handlers merge queue name i s = (Ret (mkResult false 0, None), s4) ∧
  (∀ s5 s6, collects i' s5 data s6 →
     Reconcile_instance handlers merge queue name i' s5 = (Ret (mkResult false 0, None), s6)).
Proof.
  intros Hdel Hcol Hh Hnow i' Henq Hmet Hup. split.
  - destruct Hcol as (init & s0 & Hy & Hp & Hd). unfold Reconcile_instance. rewrite Hdel, Hy.
    rewrite (bind_run (SetBuffer init) _ s tt (mkSState (sworld s) init) eq_refl).
    rewrite (bind_run _ _ _ _ _ Hp), (bind_run _ _ _ _ _ Hd).
    set (j := set_Status _ i).
    assert (shouldEnqueueData j = true) as ->.
    { unfold shouldEnqueueData, hasDifferentHash. cbn. destruct (SyncedDataHash (cs_Status i)) as [h|]; [|done].
      rewrite (bool_decide_eq_true_2 (h ≠ hash data)) by congruence. done. }
    rewrite (bind_run _ _ _ _ _ (in_world_run _ _ _ _ Hnow)). cbv zeta.
    assert (set_Status (mkSyncStatus (Some now) (Some SyncStatusSuccess) None (Some data) (Some (hash data))) j = i')
      as -> by reflexivity.
    rewrite (bind_run _ _ _ _ _ Henq).
    rewrite (bind_run _ _ _ _ _ (in_world_run _ _ _ _ Hmet)), (bind_run _ _ _ _ _ Hup). reflexivity.
  - intros s5 s6 Hcol'. apply (Reconcile_unchanged name i' s5 data s6); done.
Qed.

(** An error of the Kubernetes API while listing watched objects is
    not reported: the resource parses as if there were no object, and the
    synchronisation goes on to succeed without its data. *)
Theorem list_error_hidden r gvk h patch s e w :
  GVK r = inr gvk → wr_Name r = "" → wr_LabelSelector r = None → handlers gvk = Some h → h [] = inr patch →
  k8s_ListObjects gvk (wr_Namespace r) None (sworld s) = (Ret ([], Some e), w) →
  Parse_resource handlers merge r s =
    (Ret (merge (buffer s) patch).2, mkSState w (merge (buffer s) patch).1).
Proof.
  intros Hg Hn Hl Hh He Hlist. unfold Parse_resource. rewrite Hg, Hh.
  assert (getObjectsForResource r (sworld s) = (Ret (inr []), w)) as Hobj.
  { unfold getObjectsForResource. rewrite Hg, Hl, Hn.
    rewrite (bool_decide_eq_false_2 ("" ≠ "")) by tauto. by rewrite (bind_run _ _ _ _ _ Hlist). }
  rewrite (bind_run _ _ _ _ _ (in_world_run _ _ _ _ Hobj)). rewrite He, bind_gets. cbn [buffer].
  by destruct (merge (buffer s) patch).
Qed.

(** ** What is sent *)

(** The messages in the queue: only SendMessageBatch adds to them. *)
Context (sent : W → list SendMessageBatchRequestEntry).
Context (keeps_Get : ∀ g ns n, keeps sent (k8s_GetObject g ns n)).
Context (keeps_List : ∀ g ns l, keeps sent (k8s_ListObjects g ns l)).
Context (keeps_Update : ∀ i, keeps sent (k8s_UpdateStatus i)).
Context (keeps_UUID : keeps sent NewUUID) (keeps_Now : keeps sent Now) (keeps_Metric : ∀ k n, keeps sent (Metric k n)).
Context (send_law : ∀ url es w,
  let w' := (svc_SendMessageBatch url es w).2 in sent w' = sent w ∨ sent w' = es ++ sent w).

Definition quiet {A} (m : M (SState W) A) : Prop := ∀ s, sent (sworld (m s).2) = sent (sworld s).

Lemma quiet_ret {A} (a : A) : quiet (mret a).
Proof. done. Qed.
Lemma quiet_gets {A} (f : SState W → A) : quiet (gets f).
Proof. done. Qed.
Lemma quiet_SetBuffer b : quiet (SetBuffer b).
Proof. done. Qed.
Lemma quiet_world {A} (m : M W A) : keeps sent m → quiet (in_world m).
Proof. intros Hm s. unfold in_world. specialize (Hm (sworld s)). by destruct (m (sworld s)). Qed.
Lemma quiet_bind {A B} (m : M (SState W) A) (k : A → M (SState W) B) :
  quiet m → (∀ a, quiet (k a)) → quiet (m ≫= k).
Proof.
  intros Hm Hk s. rewrite bind_state. specialize (Hm s). destruct (m s) as [[a|p|] s1]; cbn in *; try done.
  by rewrite (Hk a s1).
Qed.
Lemma keeps_ret {A} (a : A) : keeps sent (mret a).
Proof. done. Qed.
#[local] Hint Resolve quiet_ret quiet_gets quiet_SetBuffer quiet_world keeps_ret keeps_Get keeps_List
  keeps_Update keeps_UUID keeps_Now keeps_Metric : registry.
Ltac solve_quiet := repeat first
  [ progress eauto with registry | apply quiet_bind; [|intros ?] | apply quiet_world | apply keeps_bind; [|intros ?]
  | case_match ].

(** The rest of a computation sends nothing. *)
Ltac quiet_tail st := match goal with |- context [sent (sworld (?m st).2)] =>
  let Hm := fresh in
  assert (quiet m) as Hm by (unfold updateStatus, requeueAfter, noRequeue; solve_quiet);
  specialize (Hm st); revert Hm; generalize (sent (sworld (m st).2)); intros ? -> end.

Lemma quiet_Parse r : quiet (Parse_resource handlers merge r).
Proof. unfold Parse_resource, getObjectsForResource. solve_quiet. Qed.
Lemma quiet_parse_all rs errs : quiet (parse_all handlers merge rs errs).
Proof.
  revert errs. induction rs as [|r rs IH]; intros errs; cbn [parse_all]; [done|].
  apply quiet_bind; [apply quiet_Parse|auto].
Qed.
Lemma quiet_Diff : quiet Diff.
Proof. unfold Diff. solve_quiet. Qed.
Lemma quiet_requeueAfter n t e : quiet (requeueAfter n t e).
Proof. unfold requeueAfter. solve_quiet. Qed.

Definition sync_entry (id body : string) : SendMessageBatchRequestEntry :=
  mkEntry id 10 body {["Type" := PartialClusterUpdateEvent]}.

Lemma Enqueue_sends es w :
  let w' := (Enqueue queue es w).2 in sent w' = sent w ∨ sent w' = es ++ sent w.
Proof.
  cbv zeta. unfold Enqueue. destruct (svc queue); cbn [negb]; [|by left].
  rewrite bind_state. destruct (send_law (QueueURL queue) es w) as [Hs|Hs];
    destruct (svc_SendMessageBatch (QueueURL queue) es w) as [[[r [e|]]|p|] w1]; cbn in *; auto.
Qed.

Lemma enqueueData_sends i data s :
  SyncedData (cs_Status i) = Some data →
  let s' := (enqueueData queue i s).2 in
  sent (sworld s') = sent (sworld s) ∨
  ∃ id body, json_String data = (body, None) ∧
    sent (sworld s') = sync_entry id body :: sent (sworld s).
Proof.
  intros Hd. cbv zeta. unfold enqueueData. rewrite Hd.
  destruct (json_String data) as [body [e|]]; [by left|]. rewrite bind_state.
  pose proof (quiet_world NewUUID keeps_UUID s) as Hu.
  destruct (in_world NewUUID s) as [[[id|e]|p|] s1]; cbn [snd] in Hu; [|by left..].
  rewrite <- Hu, bind_state.
  assert (∀ (x : error) s2, sent (sworld ((_ ← in_world (Metric "enqueue_dur" (cs_Name i));
    _ ← in_world (Metric "enqueue" (cs_Name i)); mret x) s2).2) = sent (sworld s2)) as Hrest
    by (intros x; solve_quiet).
  pose proof (Enqueue_sends [sync_entry id body] (sworld s1)) as Hs. cbv zeta in Hs.
  unfold sync_entry in *.
  destruct (Enqueue queue [mkEntry id 10 body {["Type" := PartialClusterUpdateEvent]}] (sworld s1))
    as [o w2] eqn:He. rewrite (in_world_run _ _ _ _ He). cbn [snd] in Hs.
  assert (sent w2 = sent (sworld s1) ∨ ∃ id0 body0, (body, None : error) = (body0, None) ∧
    sent w2 = mkEntry id0 10 body0 {["Type" := PartialClusterUpdateEvent]} :: sent (sworld s1)) as Hgoal.
  { destruct Hs as [Hs|Hs]; [by left|right]. exists id, body. split; [reflexivity|exact Hs]. }
  destruct o as [x|p|]; [rewrite Hrest|..]; exact Hgoal.
Qed.

(** What a reconciliation sends. *)
Lemma Reconcile_instance_sends name i s :
  let s' := (Reconcile_instance handlers merge queue name i s).2 in
  sent (sworld s') = sent (sworld s) ∨
  ∃ data s1 id body, cs_Deleted i = false ∧ collects i s data s1 ∧
    SyncedDataHash (cs_Status i) ≠ Some (hash data) ∧ json_String data = (body, None) ∧
    sent (sworld s') = sync_entry id body :: sent (sworld s).
Proof.
  cbv zeta. unfold Reconcile_instance. destruct (cs_Deleted i) eqn:Hdel; [by left|].
  destruct (getInitialData i) as [init err] eqn:Hy.
  rewrite (bind_run (SetBuffer init) _ s tt (mkSState (sworld s) init) eq_refl), bind_state.
  pose proof (quiet_parse_all (WatchedResources (cs_Spec i)) (match err with Some e => [e] | None => [] end)
    (mkSState (sworld s) init)) as Hq.
  destruct (parse_all _ _ _ _ _) as [[errs|p|] s1] eqn:Hp; cbn [snd sworld] in Hq; [|by left..].
  destruct errs as [|e errs].
  2: { left. rewrite <- Hq. quiet_tail s1. done. }
  assert (err = None) as ->.
  { destruct err as [e|]; [|done]. exfalso.
    assert (∀ rs errs st st', errs ≠ [] → parse_all handlers merge rs errs st ≠ (Ret [], st')) as Hne.
    { clear. induction rs as [|r rs IH]; intros errs st st' Hne Hrun; cbn [parse_all] in Hrun.
      - by minv Hrun.
      - apply bind_Ret_inv in Hrun as (x & st1 & _ & Hrun). revert Hrun. apply IH.
        destruct x; [|done]. by destruct errs. }
    by apply Hne in Hp. }
  rewrite bind_state. pose proof (quiet_Diff s1) as Hqd.
  destruct (Diff s1) as [[[data [e|]]|p|] s2] eqn:Hd; cbn [snd] in Hqd; rewrite Hq in Hqd; [| |by left..].
  { left. rewrite <- Hqd. quiet_tail s2. done. }
  assert (collects i s data s2) as Hcol by (exists init, s1; done).
  destruct (shouldEnqueueData _) eqn:Hshould; [|by left].
  assert (SyncedDataHash (cs_Status i) ≠ Some (hash data)) as Hdiff.
  { intros Heq. unfold shouldEnqueueData, hasDifferentHash in Hshould. cbn in Hshould. rewrite Heq in Hshould.
    rewrite (bool_decide_eq_false_2 (hash data ≠ hash data)) in Hshould by tauto.
    by rewrite andb_false_r in Hshould. }
  rewrite bind_state. pose proof (quiet_world Now keeps_Now s2) as Hqn.
  destruct (in_world Now s2) as [[now|p|] s3]; cbn [snd] in Hqn; rewrite Hqd in Hqn; [|by left..].
  cbv zeta. set (i' := set_Status _ (set_Status _ i)). rewrite bind_state.
  pose proof (enqueueData_sends i' data s3 eq_refl) as Hsend. cbv zeta in Hsend. rewrite Hqn in Hsend.
  assert (sent (sworld (enqueueData queue i' s3).2) = sent (sworld s) ∨
    ∃ data0 s10 id body, false = false ∧ collects i s data0 s10 ∧ SyncedDataHash (cs_Status i) ≠ Some (hash data0) ∧
      json_String data0 = (body, None) ∧
      sent (sworld (enqueueData queue i' s3).2) = sync_entry id body :: sent (sworld s)) as Hgoal.
  { destruct Hsend as [?|(id & body & Hj & Hs)]; [by left|right]. exists data, s2, id, body. done. }
  destruct (enqueueData queue i' s3) as [[[e|]|p|] s4]; cbn [snd] in Hgoal; [| |exact Hgoal..].
  - quiet_tail s4. exact Hgoal.
  - quiet_tail s4. exact Hgoal.
Qed.

(** C39: A reconciliation sends at most one message, and only when the
    initial data and every watched resource parsed and the data differs from
    what the object says was sent last; the message is that data. *)
Theorem Reconcile_sends name i s :
  let s' := (Reconcile_instance handlers merge queue name i s).2 in
  sent (sworld s') = sent (sworld s) ∨
  ∃ data s1 id body, cs_Deleted i = false ∧ collects i s data s1 ∧
    SyncedDataHash (cs_Status i) ≠ Some (hash data) ∧ json_String data = (body, None) ∧
    sent (sworld s') = sync_entry id body :: sent (sworld s).
Proof. apply Reconcile_instance_sends. Qed.
End sync.
