(* ===== verification/SyncWitness.v ===== *)
(** Witnesses of the theorems on the sync manager: objects with string fields
    by path, and a world that keeps the messages sent and can refuse them. *)
From Stdlib Require Import Ascii.
From stdpp Require Import base gmap strings list option numbers sets.
From S2P Require Import Prelude GoStrings Registry MemDynamo Sqs SyncParser SyncController SyncThms.

Local Open Scope Z_scope.

Record DObj := mkDObj { d_name : string; d_str : list (list string * string) }.

Fixpoint at_path (p : list string) (l : list (list string * string)) : string * bool * error :=
  match l with
  | [] => ("", false, nil_error)
  | (q, v) :: l => if bool_decide (p = q) then (v, true, nil_error) else at_path p l
  end.

#[global] Instance DemoUnstructured : Unstructured := {
  Obj := DObj;
  Val := string;
  GetName := d_name;
  GetNamespace _ := "default";
  gvk_String _ := "v1, Kind=Demo";
  NestedString o p := at_path p (d_str o);
  NestedInt64 o p := (Z.of_nat (length (d_str o)), true, nil_error);
  NestedStringSlice o p := ([], true, nil_error);
  NestedStringMap o p := (∅, true, nil_error);
  NestedSlice o p := ([], true, nil_error);
  taint_ToString v := inr v }.

Definition pool (obj name instanceType : string) : DObj :=
  mkDObj obj [(["spec"; "awsLaunchTemplate"; "name"], name); (["spec"; "awsLaunchTemplate"; "instanceType"], instanceType)].

Definition pools : list Obj := [pool "a" "worker0" "m5.large"; pool "b" "worker0" "m5.xlarge"].

Lemma machine_pool_tiers_witness :
  ∃ cs, AWSManagedMachinePool_Handle pools = inr cs ∧
    NoDup (tier_Name <$> Tiers cs) ∧ length (Tiers cs) = 1%nat.
Proof.
  eexists. split; [vm_compute; reflexivity|]. split; [|reflexivity].
  apply (machine_pool_tiers pools).
  vm_compute. reflexivity.
Defined.

Definition subnet (name az id : string) : DObj :=
  mkDObj name [(["spec"; "availabilityZone"], az); (["spec"; "availabilityZoneID"], id)].

Definition subnets : list Obj := [subnet "private-1" "us-east-1c" "use1-az2"; mkDObj "public-1" []].

Lemma subnet_zones_witness :
  ∃ cs, Subnet_Handle subnets = inr cs ∧
    length (filter (λ o, isPrivateSubnet o = true) subnets) =
    length (AvailabilityZones cs).
Proof.
  eexists. split; [vm_compute; reflexivity|].
  eapply Forall2_length.
  apply (subnet_zones subnets).
  vm_compute. reflexivity.
Defined.

Lemma mergeTiers_names_witness :
  tier_Name <$> (mergeTiers (λ d s, (d, None)) [] [zeroTier]).1 = [].
Proof. apply (mergeTiers_names (λ d s, (d, None))). done. Defined.

(** ** A world *)

Record SyncWorld := mkSyncWorld {
  y_sent : list SendMessageBatchRequestEntry; y_refuses : bool; y_lists_fail : bool }.

Definition demo_spec_json (sp : ClusterSpec) : string * error := (Region sp, nil_error).

Definition watching (kind name : string) (ls : option LabelSelector) : ClusterSync :=
  mkSync name "ns" false (mkSyncSpec [mkWatched kind "v1" "ns" "" ls] "") (mkSyncStatus None None None None None).
Definition two_syncs : list ClusterSync :=
  [watching "Subnet" "c1" (Some (mkLabelSelector {["env" := "prod"]} []));
   watching "Subnet" "c2" (Some (mkLabelSelector {["env" := "dev"]} []))].

(** The object to synchronise. *)
Definition demo_sync : ClusterSync :=
  mkSync "c1" "ns" false (mkSyncSpec [] "va6") (mkSyncStatus None None None None None).

#[global] Instance DemoSync : SyncEnv SyncWorld := {
  ParseGroupVersion s := inr ("", s);
  k8s_GetObject g ns n := mret (inl (mkDObj n []));
  k8s_ListObjects g ns l := (b ← gets y_lists_fail; mret ([], if (b : bool) then errorf "timeout" else nil_error));
  Selector := gmap string string;
  LabelSelectorAsSelector l := inr (MatchLabels l);
  Matches sel ls := bool_decide (sel ⊆ ls);
  k8s_ListSyncs ns := mret (inl two_syncs);
  k8s_GetSync ns n := mret (if bool_decide (n = "c1") then inl demo_sync else inr NotFoundErr);
  k8s_UpdateStatus i := mret nil_error;
  yaml_Spec s := (set_Region s zeroSpec, nil_error);
  json_Spec := demo_spec_json;
  json_String s := (s, nil_error);
  CreateMergePatch a b := (b, nil_error);
  sha256_hex s := s;
  NewUUID := mret (inl "uuid");
  Now := mret "2024-05-01T10:00:00Z";
  Metric k n := mret () }.

#[global] Instance DemoQueue : SQSService SyncWorld := {
  svc_GetQueueUrl name := mret (Some name, nil_error);
  svc_SendMessageBatch url es :=
    (b ← gets y_refuses;
     if (b : bool) then mret (mkBatchResult [] [], errorf "throttled")
     else (_ ← modify (λ w, mkSyncWorld (es ++ y_sent w) (y_refuses w) (y_lists_fail w));
           mret (mkBatchResult [] [], nil_error)));
  svc_DeleteMessage url h := mret nil_error;
  svc_ChangeMessageVisibility url h n := mret nil_error }.

Definition no_handlers (g : GroupVersionKind) : option (list Obj → res ClusterSpec) := None.
Definition last_wins (dst src : ClusterSpec) : ClusterSpec * error := (src, nil_error).
Definition refusing : SState SyncWorld := mkSState (mkSyncWorld [] true false) zeroSpec.

Lemma failed_enqueue_not_retried_witness :
  Reconcile_instance no_handlers last_wins two_handlers "c1" demo_sync refusing =
    (Ret (mkResult false 0, None), mkSState (sworld refusing) (set_Region "va6" zeroSpec)) ∧
  (∀ s5 s6,
     let i' := set_Status (mkSyncStatus (Some "2024-05-01T10:00:00Z") (Some "success") None (Some "va6")
       (Some (hash "va6"))) demo_sync in
     collects no_handlers last_wins i' s5 "va6" s6 →
     Reconcile_instance no_handlers last_wins two_handlers "c1" i' s5 = (Ret (mkResult false 0, None), s6)).
Proof.
  refine (failed_enqueue_not_retried no_handlers last_wins two_handlers "c1" demo_sync refusing "va6"
    (mkSState (sworld refusing) (set_Region "va6" zeroSpec)) "2024-05-01T10:00:00Z" (sworld refusing) "throttled"
    (mkSState (sworld refusing) (set_Region "va6" zeroSpec)) (sworld refusing)
    (mkSState (sworld refusing) (set_Region "va6" zeroSpec)) _ _ _ _ _ _ _).
  - reflexivity.
  - eexists _, _. split_and!; reflexivity.
  - done.
  - reflexivity.
  - reflexivity.
  - reflexivity.
  - reflexivity.
Defined.

Lemma list_error_hidden_witness :
  Parse_resource (λ _, Some Subnet_Handle) last_wins (mkWatched "Subnet" "v1" "ns" "" None)
    (mkSState (mkSyncWorld [] false true) zeroSpec) =
  (Ret None, mkSState (mkSyncWorld [] false true) zeroSpec).
Proof.
  refine (list_error_hidden (λ _, Some Subnet_Handle) last_wins (mkWatched "Subnet" "v1" "ns" "" None)
    (mkGVK "" "v1" "Subnet") Subnet_Handle zeroSpec (mkSState (mkSyncWorld [] false true) zeroSpec) "timeout"
    (mkSyncWorld [] false true) _ _ _ _ _ _).
  - reflexivity.
  - reflexivity.
  - reflexivity.
  - reflexivity.
  - reflexivity.
  - reflexivity.
Defined.

Lemma Reconcile_sends_witness :
  let s := mkSState (mkSyncWorld [] false false) zeroSpec in
  let s' := (Reconcile_instance no_handlers last_wins two_handlers "c1" demo_sync s).2 in
  y_sent (sworld s') = [] ∨
  ∃ data s1 id body, cs_Deleted demo_sync = false ∧ collects no_handlers last_wins demo_sync s data s1 ∧
    SyncedDataHash (cs_Status demo_sync) ≠ Some (hash data) ∧ json_String data = (body, None) ∧
    y_sent (sworld s') = sync_entry id body :: [].
Proof.
  refine (Reconcile_sends no_handlers last_wins two_handlers y_sent _ _ _ _ _ _ _ "c1" demo_sync
    (mkSState (mkSyncWorld [] false false) zeroSpec)).
  - done.
  - done.
  - done.
  - done.
  - done.
  - done.
  - intros url es [l [] f]; [by left|by right].
Defined.

Definition prod_subnet : WatchedObject :=
  mkWatchedObject (mkGVK "" "v1" "Subnet") "private-1" "ns" {["env" := "prod"]}.

Lemma change_reconciles_watchers_witness :
  ∃ chosen : list ClusterSync, enqueueRequestsFromMapFunc (wo_GVK prod_subnet) prod_subnet (mkSyncWorld [] false false) =
      (Ret ((λ i, (cs_Namespace i, cs_Name i)) <$> chosen), mkSyncWorld [] false false) ∧
    sublist chosen two_syncs ∧
    (∀ i, i ∈ chosen ↔ i ∈ two_syncs ∧ watches (wo_GVK prod_subnet) prod_subnet i).
Proof.
  refine (change_reconciles_watchers prod_subnet (mkSyncWorld [] false false) two_syncs
    (mkSyncWorld [] false false) eq_refl _).
  intros i r Hi Hr.
  assert (i = watching "Subnet" "c1" (Some (mkLabelSelector {["env" := "prod"]} [])) ∨
          i = watching "Subnet" "c2" (Some (mkLabelSelector {["env" := "dev"]} []))) as [-> | ->]
    by (apply elem_of_cons in Hi as [?|[?|?%not_elem_of_nil]%elem_of_cons]; tauto);
    (apply list_elem_of_singleton in Hr as ->; split; [by eexists|intros l _; by eexists]).
Defined.

Example prod_subnet_requests :
  enqueueRequestsFromMapFunc (wo_GVK prod_subnet) prod_subnet (mkSyncWorld [] false false) =
    (Ret [("ns", "c1")], mkSyncWorld [] false false).
Proof. vm_compute. reflexivity. Qed.
