(* ===== verification/Scheme.v ===== *)
(** The registration of the API types: groupversion_info.go and the [init]
    functions of pkg/api, and [init] of cmd/client and cmd/sync/manager.

    The scheme of apimachinery, the builder of controller-runtime and the types
    of client-go are parameters ([SchemeLib]); what is relied on of them is
    [SchemeLaws]. *)
From stdpp Require Import base gmap strings list option numbers sets.
From S2P Require Import Prelude SyncController.

Local Open Scope Z_scope.

(** A Go type by its package and its name. *)
Record GoType := mkGoType { ty_Package : string; ty_Name : string }.
#[global] Instance GoType_eq_dec : EqDecision GoType.
Proof. solve_decision. Defined.

#[global] Program Instance GVK_countable : Countable GroupVersionKind :=
  inj_countable' (λ k, (Group k, Version_ k, gvk_Kind k)) (λ '(g, v, k), mkGVK g v k) _.
Next Obligation. by intros []. Qed.

Definition GroupVersion : Type := string * string.
Definition gv_of (k : GroupVersionKind) : GroupVersion := (Group k, Version_ k).
Definition WithKind (gv : GroupVersion) (kind : string) : GroupVersionKind := mkGVK gv.1 gv.2 kind.
(** The kinds of types of one group version: each is the name of its type. *)
Definition kinds (gv : GroupVersion) (ts : list GoType) : list (GroupVersionKind * GoType) :=
  (λ t, (WithKind gv (ty_Name t), t)) <$> ts.

(** [New] is [runtime.NewScheme], [Recognizes] the Go type of a kind. *)
Class SchemeLib (Scheme Builder : Type) := {
  New : Scheme;
  Recognizes : Scheme → GroupVersionKind → option GoType;
  clientgo_AddToScheme : Scheme → outcome (Scheme * error);
  NewBuilder : GroupVersion → Builder;
  Register : list GoType → Builder → Builder;
  AddToScheme : Builder → Scheme → outcome (Scheme * error) }.

(** ** The packages *)

Section packages.
Context {Scheme Builder : Type} `{!SchemeLib Scheme Builder}.

(** pkg/api/registry/v1 *)
Definition v1_type (n : string) : GoType := mkGoType "registry/v1" n.
Definition v1_GroupVersion : GroupVersion := ("registry.ethos.adobe.com", "v1").
Definition v1_cluster_init : Builder → Builder := Register [v1_type "Cluster"; v1_type "ClusterList"].
Definition v1_SchemeBuilder : Builder := v1_cluster_init (NewBuilder v1_GroupVersion).

(** pkg/api/registry/v1alpha1: the files in their order. *)
Definition v1alpha1_type (n : string) : GoType := mkGoType "registry/v1alpha1" n.
Definition v1alpha1_GroupVersion : GroupVersion := ("registry.ethos.adobe.com", "v1alpha1").
Definition v1alpha1_clustersync_init : Builder → Builder :=
  Register [v1alpha1_type "ClusterSync"; v1alpha1_type "ClusterSyncList"].
Definition v1alpha1_watcher_init : Builder → Builder :=
  Register [v1alpha1_type "ServiceMetadataWatcher"; v1alpha1_type "ServiceMetadataWatcherList"].
Definition v1alpha1_SchemeBuilder : Builder :=
  v1alpha1_watcher_init (v1alpha1_clustersync_init (NewBuilder v1alpha1_GroupVersion)).

(** pkg/api/config/v1 *)
Definition config_type (n : string) : GoType := mkGoType "config/v1" n.
Definition config_GroupVersion : GroupVersion := ("config.registry.ethos.adobe.com", "v1").
Definition clientconfig_init : Builder → Builder := Register [config_type "ClientConfig"].
Definition syncconfig_init : Builder → Builder := Register [config_type "SyncConfig"].
Definition config_SchemeBuilder : Builder := syncconfig_init (clientconfig_init (NewBuilder config_GroupVersion)).

(** [utilruntime.Must] panics on an error. *)
Definition Must (o : outcome (Scheme * error)) (k : Scheme → outcome Scheme) : outcome Scheme :=
  match o with
  | Ret (s, None) => k s
  | Ret (_, Some e) => Panic e
  | Panic e => Panic e
  | OutOfFuel => OutOfFuel
  end.

Definition client_init : outcome Scheme :=
  Must (clientgo_AddToScheme New) (λ scheme,
  Must (AddToScheme v1_SchemeBuilder scheme) (λ scheme,
  Must (AddToScheme v1alpha1_SchemeBuilder scheme) (λ scheme,
  Must (AddToScheme config_SchemeBuilder scheme) (λ scheme, Ret scheme)))).
Definition sync_manager_init : outcome Scheme :=
  Must (clientgo_AddToScheme New) (λ scheme,
  Must (AddToScheme v1_SchemeBuilder scheme) (λ scheme,
  Must (AddToScheme v1alpha1_SchemeBuilder scheme) (λ scheme,
  Must (AddToScheme config_SchemeBuilder scheme) (λ scheme, Ret scheme)))).
End packages.

(** ** What is relied on *)

(** [MetaKinds] are the kinds apimachinery adds to every group version, and
    [Unversioned] the group version of its own types; [sane] says that a scheme
    has no other types for the latter.  Applying a builder to a scheme that has
    nothing of its group version adds the types registered with it, when their
    kinds differ from each other and from apimachinery's. *)
Class SchemeLaws (Scheme Builder : Type) `{!SchemeLib Scheme Builder} := {
  MetaKinds : list string;
  Unversioned : GroupVersion;
  sane : Scheme → Prop;
  registered : Builder → GroupVersion * list GoType;
  registered_new gv : registered (NewBuilder gv) = (gv, []);
  registered_Register ts b : registered (Register ts b) = ((registered b).1, (registered b).2 ++ ts);
  AddToScheme_fresh b gv ts s :
    registered b = (gv, ts) → sane s → gv ≠ Unversioned →
    NoDup (ty_Name <$> ts) → (∀ t, t ∈ ts → ty_Name t ∉ MetaKinds) →
    (∀ k, gv_of k = gv → Recognizes s k = None) →
    ∃ s', AddToScheme b s = Ret (s', None) ∧ sane s' ∧
      (∀ k t, (k, t) ∈ kinds gv ts → Recognizes s' k = Some t) ∧
      (∀ k, gv_of k ≠ gv → gv_of k ≠ Unversioned → Recognizes s' k = Recognizes s k) }.

(** ** What the programs can read and write *)

Section init.
Context {Scheme Builder : Type} `{SL : SchemeLaws Scheme Builder}.

(** The kinds of the repository's API. *)
Definition package_kinds (b : Builder) : list (GroupVersionKind * GoType) := kinds (registered b).1 (registered b).2.
Definition api_kinds : list (GroupVersionKind * GoType) :=
  package_kinds v1_SchemeBuilder ++ package_kinds v1alpha1_SchemeBuilder ++ package_kinds config_SchemeBuilder.
Definition api_versions : list GroupVersion := [v1_GroupVersion; v1alpha1_GroupVersion; config_GroupVersion].

Lemma registered_v1 :
  registered v1_SchemeBuilder = (v1_GroupVersion, [v1_type "Cluster"; v1_type "ClusterList"]).
Proof. unfold v1_SchemeBuilder, v1_cluster_init. by rewrite registered_Register, registered_new. Qed.
Lemma registered_v1alpha1 :
  registered v1alpha1_SchemeBuilder = (v1alpha1_GroupVersion,
    v1alpha1_type <$> ["ClusterSync"; "ClusterSyncList"; "ServiceMetadataWatcher"; "ServiceMetadataWatcherList"]).
Proof.
  unfold v1alpha1_SchemeBuilder, v1alpha1_watcher_init, v1alpha1_clustersync_init.
  by rewrite !registered_Register, registered_new.
Qed.
Lemma registered_config :
  registered config_SchemeBuilder = (config_GroupVersion, config_type <$> ["ClientConfig"; "SyncConfig"]).
Proof.
  unfold config_SchemeBuilder, syncconfig_init, clientconfig_init. by rewrite !registered_Register, registered_new.
Qed.

Lemma kinds_version gv ts k t : (k, t) ∈ kinds gv ts → gv_of k = gv.
Proof. intros (t' & [= -> ->] & _)%list_elem_of_fmap. by destruct gv. Qed.

(** One package after others: what was recognised of the other versions stays. *)
Lemma add_package b gv ts s (todo : list GroupVersion) (K : Scheme → outcome Scheme) :
  registered b = (gv, ts) → NoDup (ty_Name <$> ts) → (∀ t, t ∈ ts → ty_Name t ∉ MetaKinds) →
  gv ≠ Unversioned → gv ∉ todo → Unversioned ∉ todo →
  sane s → (∀ k, gv_of k ∈ gv :: todo → Recognizes s k = None) →
  ∃ s', Must (AddToScheme b s) K = K s' ∧ sane s' ∧ (∀ k, gv_of k ∈ todo → Recognizes s' k = None) ∧
    (∀ k t, (k, t) ∈ package_kinds b → Recognizes s' k = Some t) ∧
    (∀ k, gv_of k ≠ gv → gv_of k ≠ Unversioned → Recognizes s' k = Recognizes s k).
Proof.
  intros Hb Hnd Hmeta Hgv Hnot Hun Hs Hfree.
  destruct (AddToScheme_fresh b gv ts s Hb Hs Hgv Hnd Hmeta) as (s' & HA & Hs' & Hk & Hold).
  { intros k Hk. apply Hfree. rewrite Hk. by left. }
  exists s'. rewrite HA. split_and!; [done|done| |unfold package_kinds; by rewrite Hb|done].
  intros k Hin. rewrite Hold; [apply Hfree; by right| |]; by intros Heq; rewrite Heq in Hin.
Qed.

(** Both programs start with a scheme that has every kind of this repository,
    each for its own type, besides what client-go registers; nothing panics,
    provided that client-go has nothing of the repository's group versions and
    no type has the name of one of apimachinery's kinds. *)
Theorem programs_know_their_kinds s0 :
  clientgo_AddToScheme New = Ret (s0, None) → sane s0 → Unversioned ∉ api_versions →
  (∀ k, gv_of k ∈ api_versions → Recognizes s0 k = None) →
  (∀ k t, (k, t) ∈ api_kinds → ty_Name t ∉ MetaKinds) →
  ∃ s, client_init = Ret s ∧ sync_manager_init = Ret s ∧
    (∀ k t, (k, t) ∈ api_kinds → Recognizes s k = Some t) ∧
    (∀ k, gv_of k ∉ api_versions → gv_of k ≠ Unversioned → Recognizes s k = Recognizes s0 k).
Proof.
  intros Hgo Hs0 Hun Hfree Hmeta.
  assert (∀ b gv ts, registered b = (gv, ts) → package_kinds b ⊆ api_kinds → ∀ t, t ∈ ts → ty_Name t ∉ MetaKinds) as Hm.
  { intros b gv ts Hb Hsub t Ht. apply (Hmeta (WithKind gv (ty_Name t))). apply Hsub.
    unfold package_kinds. rewrite Hb. apply list_elem_of_fmap. by exists t. }
  unfold api_kinds in Hm. unfold client_init, sync_manager_init. rewrite Hgo. cbn [Must].
  destruct (add_package v1_SchemeBuilder _ _ s0 [v1alpha1_GroupVersion; config_GroupVersion]
    (λ s, Must (AddToScheme v1alpha1_SchemeBuilder s) (λ s, Must (AddToScheme config_SchemeBuilder s) (λ s, Ret s))) registered_v1)
    as (s1 & -> & Hs1 & Hf1 & Hk1 & Ho1);
    [refine (bool_decide_unpack _ _); vm_compute; exact I|eapply Hm; [exact registered_v1|set_solver]|set_solver..|].
  destruct (add_package v1alpha1_SchemeBuilder _ _ s1 [config_GroupVersion]
    (λ s, Must (AddToScheme config_SchemeBuilder s) (λ s, Ret s)) registered_v1alpha1) as (s2 & -> & Hs2 & Hf2 & Hk2 & Ho2);
    [refine (bool_decide_unpack _ _); vm_compute; exact I|eapply Hm; [exact registered_v1alpha1|set_solver]|set_solver..|].
  destruct (add_package config_SchemeBuilder _ _ s2 [] (λ s, Ret s) registered_config) as (s3 & -> & Hs3 & _ & Hk3 & Ho3);
    [refine (bool_decide_unpack _ _); vm_compute; exact I|eapply Hm; [exact registered_config|set_solver]|set_solver..|].
  exists s3. split; [done|]. split; [done|]. split.
  - intros k t. unfold api_kinds. rewrite !elem_of_app.
    intros [Hk|[Hk|Hk]]; [| |by apply Hk3]; pose proof Hk as Hv; unfold package_kinds in Hv.
    + rewrite registered_v1 in Hv. apply kinds_version in Hv. cbn in Hv. rewrite Ho3, Ho2 by (rewrite Hv; set_solver). by apply Hk1.
    + rewrite registered_v1alpha1 in Hv. apply kinds_version in Hv. cbn in Hv. rewrite Ho3 by (rewrite Hv; set_solver). by apply Hk2.
  - intros k Hk Hku. rewrite Ho3, Ho2, Ho1 by set_solver. done.
Qed.
End init.

(** ** A scheme that is a finite map *)

Notation MapScheme := (gmap GroupVersionKind GoType).
Definition MapBuilder : Type := GroupVersion * list GoType.
Definition WatchEvent : GoType := mkGoType "meta/v1" "WatchEvent".

(** Another type of a kind that is taken panics. *)
Fixpoint AddKnownTypes (gv : GroupVersion) (ts : list GoType) (s : MapScheme) : outcome (MapScheme * error) :=
  match ts with
  | [] => Ret (s, None)
  | t :: ts =>
     let gvk := WithKind gv (ty_Name t) in
     match s !! gvk with
     | Some t' => if bool_decide (t' = t) then AddKnownTypes gv ts s else Panic "Double registration of different types"
     | None => AddKnownTypes gv ts (<[gvk := t]> s)
     end
  end.
#[global] Instance MapSchemeLib : SchemeLib MapScheme MapBuilder := {
  New := ∅;
  Recognizes s k := s !! k;
  clientgo_AddToScheme := AddKnownTypes ("", "v1") [mkGoType "core/v1" "Pod"; WatchEvent];
  NewBuilder gv := (gv, []);
  Register ts b := (b.1, b.2 ++ ts);
  AddToScheme b := AddKnownTypes b.1 (b.2 ++ [WatchEvent]) }.

Lemma AddKnownTypes_fresh gv ts s :
  NoDup (ty_Name <$> ts) → (∀ k, gv_of k = gv → k.(gvk_Kind) ∈ (ty_Name <$> ts) → s !! k = None) →
  ∃ s', AddKnownTypes gv ts s = Ret (s', None) ∧ (∀ k t, (k, t) ∈ kinds gv ts → s' !! k = Some t) ∧
    (∀ k, k ∉ (kinds gv ts).*1 → s' !! k = s !! k).
Proof.
  revert s. induction ts as [|t ts IH]; intros s Hnd Hfree; cbn [AddKnownTypes].
  { exists s. split_and!; [done|set_solver|done]. }
  rewrite fmap_cons in Hnd. apply NoDup_cons in Hnd as [Hnot Hnd].
  rewrite Hfree; [|by destruct gv|cbn; set_solver].
  destruct (IH (<[WithKind gv (ty_Name t) := t]> s)) as (s' & HA & Hk & Hold); [done| |].
  { intros k Hv Hk. rewrite lookup_insert_ne; [apply Hfree; set_solver|]. intros <-. by apply Hnot. }
  exists s'. split; [done|]. split.
  - intros k u [[= -> ->]|Hin]%elem_of_cons; [|by apply Hk]. rewrite Hold; [apply lookup_insert_eq|].
    intros ([k' u'] & Heq & Hin)%list_elem_of_fmap. apply list_elem_of_fmap in Hin as (v & [= -> ->] & Hv).
    injection Heq as Heq. apply Hnot. rewrite Heq. by apply list_elem_of_fmap_2.
  - intros k Hout. change (kinds gv (t :: ts)) with ((WithKind gv (ty_Name t), t) :: kinds gv ts) in Hout.
    cbn in Hout. apply not_elem_of_cons in Hout as [Hne Hout]. rewrite Hold by done. by apply lookup_insert_ne.
Qed.

#[global] Instance MapSchemeLaws : SchemeLaws MapScheme MapBuilder.
Proof.
  refine {| MetaKinds := ["WatchEvent"]; Unversioned := ("", "v1"); sane := λ _, True; registered := λ b : MapBuilder, b |};
    [done|done|].
  intros b gv ts s -> _ _ Hnd Hmeta Hfree. cbn.
  destruct (AddKnownTypes_fresh gv (ts ++ [WatchEvent]) s) as (s' & HA & Hk & Hold).
  - rewrite fmap_app. apply NoDup_app. split; [done|]. split; [|apply NoDup_singleton].
    intros n (t & -> & Ht)%list_elem_of_fmap Hw. apply (Hmeta t Ht). set_solver.
  - intros k Hv _. by apply Hfree.
  - exists s'. split; [done|]. split; [done|]. split.
    + intros k t Hin. apply Hk. unfold kinds. rewrite fmap_app, elem_of_app. by left.
    + intros k Hv _. apply Hold. intros ([k' t] & -> & Hin%kinds_version)%list_elem_of_fmap. done.
Defined.

(** A client-go with two kinds. *)
Lemma programs_know_their_kinds_witness :
  ∃ s : MapScheme, client_init = Ret s ∧
    s !! mkGVK "registry.ethos.adobe.com" "v1" "Cluster" = Some (v1_type "Cluster") ∧
    s !! mkGVK "config.registry.ethos.adobe.com" "v1" "SyncConfig" = Some (config_type "SyncConfig").
Proof.
  destruct (programs_know_their_kinds (<[mkGVK "" "v1" "WatchEvent" := WatchEvent]> {[mkGVK "" "v1" "Pod" := mkGoType "core/v1" "Pod"]}))
    as (s & Hs & _ & Hk & Hold).
  - reflexivity.
  - done.
  - cbn. set_solver.
  - intros k Hk. cbn [Recognizes MapSchemeLib]. rewrite lookup_insert_ne, lookup_singleton_ne; [done| |]; intros <-; revert Hk; cbn; set_solver.
  - intros k t Hin. apply list_elem_of_fmap_2 with (f := λ p, bool_decide (ty_Name p.2 ∈ ["WatchEvent"])) in Hin.
    intros Hw. revert Hin. cbn [snd]. rewrite bool_decide_eq_true_2 by exact Hw. vm_compute.
    intros Hin. by repeat (apply elem_of_cons in Hin as [Hin|Hin]; [discriminate|]); apply not_elem_of_nil in Hin.
  - exists s. split; [exact Hs|]. split; apply Hk, (bool_decide_unpack _); vm_compute; exact I.
Defined.
