(* ===== verification/Webhook.v ===== *)
(** pkg/client/webhook: alerts of Alertmanager become tags of the clusters.

    The Kubernetes client is the parameter [ClusterClient]; [ClusterClientLaws]
    is its contract on the Cluster objects: it lists them from a cache, which may
    be behind, and the server takes an update only of the version that it holds
    and gives the object a new one.  The waits between attempts are left out; the
    contract lets the cache move whenever the client is called. *)
From Stdlib Require Import Ascii.
From stdpp Require Import base gmap strings list option numbers sets pretty.
From S2P Require Import Prelude GoStrings Registry MemDynamo.

(** ** Alerts (alert.go) and rules (pkg/api/config/v1) *)

Definition AlertStatusFiring : string := "firing".
Definition AlertStatusResolved : string := "resolved".
Definition DeadMansSwitchAlertName : string := "CRCDeadMansSwitch".

Record CommonAnnotations := mkAnnotations { Summary : string }.
Record GroupLabels := mkGroupLabels { group_Alertname : string }.
Record CommonLabels := mkLabels { Alertname : string; Service : string; Severity : string }.
(** [AlertLabels] has the fields of [CommonLabels]; a [time.Time] by its
    text. *)
Record AlertItem := mkAlertItem {
  item_Status : string; Labels : CommonLabels; item_Annotations : CommonAnnotations;
  StartsAt : string; EndsAt : string; GeneratorURL : string; Fingerprint : string }.
Record Alert := mkAlert {
  Receiver : string;
  al_Status : string;
  Alerts : list AlertItem;
  al_GroupLabels : GroupLabels;
  al_CommonLabels : CommonLabels;
  al_CommonAnnotations : CommonAnnotations;
  ExternalURL : string;
  al_Version : string;
  GroupKey : string }.
Definition alertname (alert : Alert) : string := Alertname (al_CommonLabels alert).

Record AlertRule := mkRule {
  AlertName : string; OnFiring : gmap string string; OnResolved : gmap string string }.

Class ClusterClient (W : Type) := {
  client_List : string → M W (list Cluster + string);
  client_Update : Cluster → M W error;
  RecordDMSLastTimestamp : M W () }.

Section webhook.
Context `{ClusterClient W} (namespace : string) (AlertMap : list AlertRule).

Definition excluded_annotation : string := "registry.ethos.adobe.com/excluded-tags".

Definition excludedTags (cluster : Cluster) : list string :=
  let a := default "" (gm (Annotations (metadata cluster)) !! excluded_annotation) in
  if bool_decide (a ≠ "") then Split a ","%char else [].

(** The loop over the tags, on a map that is made when it is nil. *)
Definition tagged (tag : gmap string string) (cluster : Cluster) : Cluster :=
  let excluded := excludedTags cluster in
  let tags := map_fold (λ key value tags,
    if contains key excluded then tags else <[key := value]> tags) (gm (Tags (Spec cluster))) tag in
  update_Spec (set_Tags (Some tags)) cluster.

Fixpoint update_all (tag : gmap string string) (items : list Cluster) : M W error :=
  match items with
  | [] => mret nil_error
  | c :: items =>
     err ← client_Update (tagged tag c);
     match err with
     | Some e => mret (errorf e)
     | None => update_all tag items
     end
  end.

Definition updateClusterTags (tag : gmap string string) : M W error :=
  l ← client_List namespace;
  match l with
  | inr e => mret (errorf e)
  | inl items => update_all tag items
  end.

(** [rounds] of the [attempts] to go, and the last error. *)
Fixpoint retry_from (f : gmap string string → M W error) (params : gmap string string)
    (attempts rounds : nat) (err : error) : M W error :=
  match rounds with
  | O => mret (errorf ("after " +:+ pretty attempts +:+ " attempts, last error: " +:+ default "%!s(<nil>)" err))
  | S rounds =>
     err ← f params;
     match err with
     | None => mret nil_error
     | Some e => retry_from f params attempts rounds (errorf e)
     end
  end.
Definition retry (f : gmap string string → M W error) (params : gmap string string) (attempts : nat) : M W error :=
  retry_from f params attempts attempts None.

(** The first rule of the alert's name decides. *)
Fixpoint find_rule (rules : list AlertRule) (name : string) : option AlertRule :=
  match rules with
  | [] => None
  | a :: rules => if bool_decide (AlertName a ≠ name) then find_rule rules name else Some a
  end.

Definition process (alert : Alert) : M W error :=
  if bool_decide (alertname alert = DeadMansSwitchAlertName) && bool_decide (al_Status alert = AlertStatusFiring)
  then _ ← RecordDMSLastTimestamp; mret nil_error
  else
    match find_rule AlertMap (alertname alert) with
    | None => mret (errorf "unmapped alert received via webhook")
    | Some a =>
       if bool_decide (al_Status alert = AlertStatusFiring) then retry updateClusterTags (OnFiring a) 3
       else if bool_decide (al_Status alert = AlertStatusResolved) then retry updateClusterTags (OnResolved a) 3
       else mret (errorf "invalid alert status")
    end.

(** The status of the response; reading and decoding the body are
    parameters. *)
Definition webhookHandler (body : string + string) (unmarshal : string → Alert * error) : M W Z :=
  match body with
  | inr _ => mret 500%Z
  | inl body =>
     let '(alert, err) := unmarshal body in
     match err with
     | Some _ => mret 400%Z
     | None =>
        err ← process alert;
        mret (match err with Some _ => 400%Z | None => 200%Z end)
     end
  end.
End webhook.

(** ** Tags *)

Lemma set_Tags_Tags v s : Tags (set_Tags v s) = v.
Proof. by destruct s. Qed.

Lemma tagged_lookup tag c k :
  gm (Tags (Spec (tagged tag c))) !! k =
    match tag !! k with
    | Some v => if contains k (excludedTags c) then gm (Tags (Spec c)) !! k else Some v
    | None => gm (Tags (Spec c)) !! k
    end.
Proof.
  unfold tagged. cbn [Spec update_Spec set_Spec]. rewrite set_Tags_Tags. cbn [gm default].
  apply (map_fold_weak_ind (λ tags m, tags !! k = match m !! k with
    | Some v => if contains k (excludedTags c) then gm (Tags (Spec c)) !! k else Some v
    | None => gm (Tags (Spec c)) !! k end)); [by rewrite lookup_empty|].
  intros i x m tags Hi IH. destruct (decide (i = k)) as [->|Hne].
  - rewrite lookup_insert_eq. rewrite Hi in IH. destruct (contains k _); [done|]. by rewrite lookup_insert_eq.
  - rewrite (lookup_insert_ne m) by done. destruct (contains i _); [done|]. by rewrite lookup_insert_ne.
Qed.

Lemma tagged_rest tag c : set_Tags None (Spec (tagged tag c)) = set_Tags None (Spec c).
Proof. cbn. by destruct (Spec c). Qed.

(** [c'] is [c] with the tags set that [c] does not exclude.  The fields that the
    server owns, the resource version and the managed fields, are its own choice. *)
Record retagged (tag : gmap string string) (c c' : Cluster) : Prop := {
  rt_type : type_meta c' = type_meta c;
  rt_name : meta_Name (metadata c') = meta_Name (metadata c);
  rt_namespace : Namespace (metadata c') = Namespace (metadata c);
  rt_annotations : Annotations (metadata c') = Annotations (metadata c);
  rt_rest : set_Tags None (Spec c') = set_Tags None (Spec c);
  rt_tags k : gm (Tags (Spec c')) !! k =
    match tag !! k with
    | Some v => if contains k (excludedTags c) then gm (Tags (Spec c)) !! k else Some v
    | None => gm (Tags (Spec c)) !! k
    end }.

(** The object as it was sent, with the server's fields. *)
Definition with_server_fields (rv : string) (mf : list string) (c : Cluster) : Cluster :=
  let m := metadata c in set_metadata (mkObjectMeta (meta_Name m) (Namespace m) (Annotations m) rv mf) c.

Lemma tagged_retagged tag c rv mf : retagged tag c (with_server_fields rv mf (tagged tag c)).
Proof. split; try reflexivity; [apply tagged_rest|intros k; apply tagged_lookup]. Qed.

Lemma retagged_excluded tag c c' : retagged tag c c' → excludedTags c' = excludedTags c.
Proof. intros Ht. unfold excludedTags. by rewrite (rt_annotations _ _ _ Ht). Qed.

(** Setting the tags again changes nothing more. *)
Lemma retagged_twice tag c c1 c2 : retagged tag c c1 → retagged tag c1 c2 → retagged tag c c2.
Proof.
  intros H1 H2. pose proof (retagged_excluded _ _ _ H1) as Hex. destruct H1, H2. split; try congruence.
  intros k. rewrite rt_tags1, Hex, rt_tags0. by destruct (tag !! k), (contains k (excludedTags c)).
Qed.

Definition object_key (c : Cluster) : string * string := (Namespace (metadata c), meta_Name (metadata c)).

(** The contract of the client, on the Cluster objects by namespace and name.  The
    cache shows versions of them, and does not forget one; an object that is shown
    with the version that is stored is the one stored.  The server takes an update
    of the version that is stored; an update that fails may have been taken. *)
Class ClusterClientLaws (W : Type) `{ClusterClient W} := {
  objects : W → gmap (string * string) Cluster;
  shown : W → gmap (string * string) Cluster;
  shown_key w k c : shown w !! k = Some c → object_key c = k;
  shown_version w k c d : shown w !! k = Some c → objects w !! k = Some d →
    ResourceVersion (metadata c) = ResourceVersion (metadata d) → d = c;
  list_law ns w : ∃ o w', client_List ns w = (Ret o, w') ∧ objects w' = objects w ∧ dom (shown w) ⊆ dom (shown w') ∧
    (∀ items, o = inl items → items ≡ₚ (map_to_list (filter (λ kc, kc.1.1 = ns) (shown w'))).*2);
  update_law c w : ∃ err w', client_Update c w = (Ret err, w') ∧ dom (shown w) ⊆ dom (shown w') ∧
    ((∃ d rv mf, objects w !! object_key c = Some d ∧ ResourceVersion (metadata c) = ResourceVersion (metadata d) ∧
        objects w' = <[object_key c := with_server_fields rv mf c]> (objects w)) ∨
     (err ≠ None ∧ objects w' = objects w));
  dms_law w : ∃ w', RecordDMSLastTimestamp w = (Ret (), w') ∧ objects w' = objects w ∧ dom (shown w) ⊆ dom (shown w') }.

Section tags.
Context `{ClusterClientLaws W} (ns : string).
Implicit Types (w : W) (tag : gmap string string) (m : gmap (string * string) Cluster) (k : string * string).

(** The object has been given the tags; some of those of the namespace have, and
    nothing else has changed. *)
Definition given tag m m' k : Prop := ∃ c c', m !! k = Some c ∧ m' !! k = Some c' ∧ retagged tag c c'.
Definition partly tag m m' : Prop := ∀ k, m' !! k = m !! k ∨ (k.1 = ns ∧ given tag m m' k).

Lemma partly_refl tag m : partly tag m m.
Proof. intros k. by left. Qed.

(** One more object gets the tags. *)
Lemma partly_insert tag m m' c rv mf :
  partly tag m m' → m' !! object_key c = Some c → Namespace (metadata c) = ns →
  let m2 := <[object_key c := with_server_fields rv mf (tagged tag c)]> m' in
  partly tag m m2 ∧ given tag m m2 (object_key c).
Proof.
  intros Hp Hc Hns m2. pose proof (tagged_retagged tag c rv mf) as Ht.
  assert (given tag m m2 (object_key c)) as Hg.
  { destruct (Hp (object_key c)) as [Heq|(_ & c0 & c1 & Hc0 & Hc1 & Hr)].
    - exists c. eexists. split_and!; [congruence|apply lookup_insert_eq|done].
    - exists c0. eexists. split_and!; [done|apply lookup_insert_eq|].
      eapply retagged_twice; [exact Hr|]. congruence. }
  split; [|done]. intros k. destruct (decide (object_key c = k)) as [<-|Hk]; [by right|].
  destruct (Hp k) as [Heq|(Hk1 & c0 & c1 & Hc0 & Hc1 & Hr)].
  - left. unfold m2. by rewrite lookup_insert_ne.
  - right. split; [done|]. exists c0, c1. unfold m2. by rewrite lookup_insert_ne.
Qed.

(** The listed objects that are stored in the listed version are the stored ones. *)
Definition versions m (items : list Cluster) : Prop :=
  ∀ c d, c ∈ items → m !! object_key c = Some d → ResourceVersion (metadata c) = ResourceVersion (metadata d) → d = c.

(** One pass over a list of clusters. *)
Lemma update_all_run tag items w m :
  NoDup (object_key <$> items) → Forall (λ c, Namespace (metadata c) = ns) items → versions (objects w) items →
  partly tag m (objects w) →
  ∃ err w', update_all tag items w = (Ret err, w') ∧ dom (shown w) ⊆ dom (shown w') ∧ partly tag m (objects w') ∧
    (∀ k, k ∉ (object_key <$> items) → objects w' !! k = objects w !! k) ∧
    (err = None → ∀ k, k ∈ (object_key <$> items) → given tag m (objects w') k).
Proof.
  revert w. induction items as [|c items IH]; intros w Hnd Hns Hv Hp; cbn [update_all].
  { eexists None, w. split_and!; try done. intros _ k Hk. by apply not_elem_of_nil in Hk. }
  rewrite fmap_cons in Hnd. apply NoDup_cons in Hnd as [Hc Hnd]. apply Forall_cons in Hns as [Hcn Hns].
  destruct (update_law (tagged tag c) w) as (err & w1 & Hu & Hsh & Hup). rewrite (bind_run _ _ _ _ _ Hu).
  change (object_key (tagged tag c)) with (object_key c) in Hup.
  destruct Hup as [(d & rv & mf & Hd & Hrv & Ho)|[He Ho]].
  2: { destruct err as [e|]; [|done]. eexists _, w1. rewrite Ho. by split_and!. }
  assert (d = c) as -> by (apply (Hv c d); [left|done|done]).
  destruct (partly_insert tag m (objects w) c rv mf Hp Hd Hcn) as [Hp1 Hg]. rewrite <- Ho in Hp1, Hg.
  assert (∀ k, k ≠ object_key c → objects w1 !! k = objects w !! k) as Hother
    by (intros k Hk; by rewrite Ho, lookup_insert_ne).
  destruct err as [e|].
  { eexists _, w1. split_and!; [done..| |done]. intros k Hk. apply Hother. intros ->. apply Hk. rewrite fmap_cons. left. }
  destruct (IH w1 Hnd Hns) as (err & w2 & Hrun & Hsh2 & Hp2 & Hout & Hin).
  - intros c2 d2 Hc2 Hd2. rewrite Hother in Hd2; [apply Hv; [by right|done]|].
    intros Heq. apply Hc. rewrite <- Heq. by apply list_elem_of_fmap_2.
  - done.
  - exists err, w2. split_and!; [done|set_solver|done| |].
    + intros k Hk. rewrite fmap_cons, not_elem_of_cons in Hk. destruct Hk. rewrite Hout by done. by apply Hother.
    + intros He k Hk. rewrite fmap_cons in Hk. apply elem_of_cons in Hk as [->|Hk]; [|by apply Hin].
      destruct Hg as (c0 & c1 & Hc0 & Hc1 & Hr). exists c0, c1. rewrite (Hout (object_key c)) by done. done.
Qed.

(** A pass over what the cache shows. *)
Lemma updateClusterTags_run tag w m :
  partly tag m (objects w) →
  ∃ err w', updateClusterTags ns tag w = (Ret err, w') ∧ dom (shown w) ⊆ dom (shown w') ∧ partly tag m (objects w') ∧
    (err = None → ∀ k, k.1 = ns → k ∈ dom (shown w) → given tag m (objects w') k).
Proof.
  intros Hp. unfold updateClusterTags. destruct (list_law ns w) as (o & w1 & Hl & Hw1 & Hsh & Hitems).
  rewrite (bind_run _ _ _ _ _ Hl). destruct o as [items|e].
  2: { eexists _, w1. rewrite Hw1. split_and!; done. }
  specialize (Hitems items eq_refl). set (l := filter (λ kc, kc.1.1 = ns) (shown w1)) in Hitems.
  assert (∀ c, c ∈ items → shown w1 !! object_key c = Some c ∧ Namespace (metadata c) = ns) as Hlisted.
  { intros c Hc. rewrite Hitems in Hc. apply list_elem_of_fmap in Hc as ([k c'] & -> & Hc). cbn.
    apply elem_of_map_to_list, map_lookup_filter_Some in Hc as [Hs Hk]. cbn in Hk.
    by rewrite (shown_key w1 k c' Hs), <- (f_equal fst (shown_key w1 k c' Hs)) in *. }
  assert (object_key <$> items ≡ₚ (map_to_list l).*1) as Hkeys.
  { rewrite Hitems, <- list_fmap_compose. erewrite list_fmap_ext; [reflexivity|].
    intros i [k c] Hi. apply list_elem_of_lookup_2, elem_of_map_to_list, map_lookup_filter_Some in Hi as [Hi _].
    by apply (shown_key w1). }
  destruct (update_all_run tag items w1 m) as (err & w2 & Hrun & Hsh2 & Hp2 & _ & Hall).
  - rewrite Hkeys. apply NoDup_fst_map_to_list.
  - apply Forall_forall. intros c Hc. by apply Hlisted.
  - intros c d Hc Hd. rewrite Hw1 in Hd. apply (shown_version w1 (object_key c)); [by apply Hlisted|by rewrite Hw1].
  - by rewrite Hw1.
  - exists err, w2. split_and!; [done|set_solver|done|]. intros He k Hk Hin. apply (Hall He). rewrite Hkeys.
    apply Hsh, elem_of_dom in Hin as [c Hc]. apply (list_elem_of_fmap_2 fst (map_to_list l) (k, c)).
    apply elem_of_map_to_list, map_lookup_filter_Some. done.
Qed.

Lemma retry_run tag attempts rounds last w m :
  partly tag m (objects w) →
  ∃ err w', retry_from (updateClusterTags ns) tag attempts rounds last w = (Ret err, w') ∧
    partly tag m (objects w') ∧ (err = None → ∀ k, k.1 = ns → k ∈ dom (shown w) → given tag m (objects w') k).
Proof.
  revert last w. induction rounds as [|n IH]; intros last w Hp; cbn [retry_from].
  - by eexists _, w.
  - destruct (updateClusterTags_run tag w m Hp) as (err & w1 & Hrun & Hsh & Hp1 & Hok).
    rewrite (bind_run _ _ _ _ _ Hrun). destruct err as [e|]; [|by eexists None, w1].
    destruct (IH (errorf e) w1 Hp1) as (err & w2 & Hrun2 & Hp2 & Hok2). exists err, w2. split_and!; [done..|].
    intros He k Hk Hin. apply (Hok2 He k Hk). by apply Hsh.
Qed.

(** C32: An alert that a rule maps sets the rule's tags, as long as nothing else
    edits the objects meanwhile.  When the webhook reports success, after however
    many of the three attempts failed half way, every cluster of the namespace that
    the client's cache knew when the alert came has each tag of the rule with its
    value, unless the cluster excludes it.  Whether it reports success or an error,
    every object is as before or, in the namespace, has the tags and differs in
    nothing else but the resource version and the managed fields, which the server
    assigns. *)
Theorem alert_sets_tags rules alert a tag w :
  alertname alert ≠ DeadMansSwitchAlertName → find_rule rules (alertname alert) = Some a →
  (al_Status alert = AlertStatusFiring ∧ tag = OnFiring a) ∨
  (al_Status alert = AlertStatusResolved ∧ tag = OnResolved a) →
  ∃ err w', process ns rules alert w = (Ret err, w') ∧
    (∀ k, objects w' !! k = objects w !! k ∨
       k.1 = ns ∧ ∃ c c', objects w !! k = Some c ∧ objects w' !! k = Some c' ∧ retagged tag c c') ∧
    (err = None → ∀ k, k.1 = ns → k ∈ dom (shown w) →
       ∃ c c', objects w !! k = Some c ∧ objects w' !! k = Some c' ∧ retagged tag c c').
Proof.
  intros Hdms Hrule Hst.
  assert (process ns rules alert w = retry (updateClusterTags ns) tag 3 w) as ->.
  { unfold process. rewrite bool_decide_eq_false_2, Hrule by done. cbn [andb].
    destruct Hst as [[-> ->]|[-> ->]]; reflexivity. }
  exact (retry_run tag 3 3 None w (objects w) (partly_refl _ _)).
Qed.
End tags.

(** ** A witness *)

(** Cluster objects by key, and which of the next updates fail; the cache is
    current. *)
Record ClientWorld := mkClientWorld { cw_objs : gmap (string * string) Cluster; cw_faults : list bool }.

Definition well_named (m : gmap (string * string) Cluster) : gmap (string * string) Cluster :=
  filter (λ kc, object_key kc.2 = kc.1) m.

#[global] Instance DemoClient : ClusterClient ClientWorld := {
  client_List ns := gets (λ w, inl (map_to_list (filter (λ kc, kc.1.1 = ns) (well_named (cw_objs w)))).*2);
  client_Update c := λ w,
    match well_named (cw_objs w) !! object_key c, cw_faults w with
    | Some d, true :: fs => (Ret (errorf "conflict"), mkClientWorld (cw_objs w) fs)
    | Some d, fs =>
       if bool_decide (ResourceVersion (metadata c) = ResourceVersion (metadata d))
       then (Ret nil_error, mkClientWorld (<[object_key c := with_server_fields (ResourceVersion (metadata c) +:+ "1") [] c]> (cw_objs w)) (drop 1 fs))
       else (Ret (errorf "conflict"), w)
    | None, _ => (Ret (errorf "not found"), w)
    end;
  RecordDMSLastTimestamp := mret () }.

#[global] Instance DemoClientLaws : ClusterClientLaws ClientWorld.
Proof.
  refine {| objects w := well_named (cw_objs w); shown w := well_named (cw_objs w) |}.
  - intros w k c Hc. by apply map_lookup_filter_Some in Hc as [_ ?].
  - intros w k c d. naive_solver.
  - intros ns w. eexists _, w. split_and!; [reflexivity|done..|]. by intros items [= <-].
  - intros c w. cbn. destruct (well_named (cw_objs w) !! object_key c) as [d|] eqn:Hd.
    2: { eexists _, _. split_and!; [reflexivity|done|]. by right. }
    assert (∀ rv mf, well_named (<[object_key c := with_server_fields rv mf c]> (cw_objs w)) =
      <[object_key c := with_server_fields rv mf c]> (well_named (cw_objs w))) as Hins
      by (intros; by apply map_filter_insert_True).
    destruct (cw_faults w) as [|[] fs]; [|eexists _, _; split_and!; [reflexivity|done|by right]|];
      (case_bool_decide; [|eexists _, _; split_and!; [reflexivity|done|by right]]);
      (eexists _, _; split_and!; [reflexivity|cbn; rewrite Hins; set_solver|left; eexists _, _, _; split_and!; [done..|cbn; apply Hins]]).
  - intros w. by exists w.
Defined.

Definition high_load : AlertRule := mkRule "HighLoad" {["onboarding" := "off"]} {["onboarding" := "on"]}.
Definition high_load_fires : Alert :=
  mkAlert "registry" "firing" [] (mkGroupLabels "HighLoad") (mkLabels "HighLoad" "registry" "warning")
    (mkAnnotations "load") "" "4" "".
Definition demo_client : ClientWorld :=
  mkClientWorld {[("cluster-registry", "c1") := sample "c1" "va6" "prod" "Active" "2024-05-01T10:00:00Z"]} [true].

(** The first attempt meets a conflict, the second sets the tag. *)
Lemma alert_sets_tags_witness :
  ∃ w', process "cluster-registry" [high_load] high_load_fires demo_client = (Ret None, w') ∧
    ∃ c', objects w' !! ("cluster-registry", "c1") = Some c' ∧ gm (Tags (Spec c')) !! "onboarding" = Some "off".
Proof.
  destruct (alert_sets_tags "cluster-registry" [high_load] high_load_fires high_load
    {["onboarding" := "off"]} demo_client) as (err & w' & Hrun & _ & Hok).
  - done.
  - reflexivity.
  - by left.
  - assert (err = None) as ->.
    { apply (f_equal fst) in Hrun. vm_compute in Hrun. by injection Hrun as <-. }
    exists w'. split; [exact Hrun|].
    destruct (Hok eq_refl ("cluster-registry", "c1")) as (c & c' & Hc & Hc' & Ht); [reflexivity|apply elem_of_dom; by eexists|].
    exists c'. split; [exact Hc'|]. rewrite (rt_tags _ _ _ Ht). vm_compute in Hc. injection Hc as <-. reflexivity.
Defined.
