(* ===== verification/ClusterController.v ===== *)
(** pkg/client/controllers/cluster_controller.go: the controller of the client
    that sends the Cluster objects of a Kubernetes cluster to the registry.

    The Kubernetes client, the encoder, the digest and the identifiers are the
    parameters of [ClusterEnv]; [ClusterEnvLaws] is the contract of the client
    and the queue. *)
From Stdlib Require Import Ascii.
From stdpp Require Import base gmap strings list option numbers sets.
From S2P Require Import Prelude GoStrings Registry MemDynamo Sqs SyncParser SyncController.

Local Open Scope Z_scope.

Class ClusterEnv (W : Type) := {
  k8s_GetCluster : string → string → M W (Cluster + kerror);
  (** [Update] overwrites the object it is given with the server's answer. *)
  k8s_UpdateCluster : Cluster → M W (Cluster * error);
  json_Cluster : Cluster → string * error;
  sha256_sum : string → string;
  uuid_New : M W (string + string) }.

Module ClusterReconciler.

Definition HashAnnotation : string := "registry.ethos.adobe.com/hash".
Definition SkipCacheInvalidationAnnotation : string := "registry.ethos.adobe.com/skip-cache-invalidation".
Definition SkipCACertAnnotation : string := "registry.ethos.adobe.com/skip-ca-cert".

Definition GetAnnotations (c : Cluster) : gomap string := Annotations (metadata c).
Definition SetAnnotations (a : gomap string) (c : Cluster) : Cluster :=
  set_metadata (set_Annotations a (metadata c)) c.
(** [SetResourceVersion] and [SetManagedFields]. *)
Definition set_server_fields (rv : string) (mf : list string) (c : Cluster) : Cluster :=
  set_metadata (mkObjectMeta (meta_Name (metadata c)) (Namespace (metadata c)) (GetAnnotations c) rv mf) c.
Definition set_CertificateAuthorityData (ca : string) (c : Cluster) : Cluster :=
  update_Spec (λ s, set_APIServer (mkAPIServer (Registry.Endpoint (APIServer s)) ca) s) c.

Section reconciler.
Context `{ClusterEnv W} `{SQSService W} (CAData : string) (Queue : Config).

(** [delete] on the nil map does nothing. *)
Definition clone_without_bookkeeping (instance : Cluster) : Cluster :=
  let annotations := GetAnnotations instance in
  let annotations := delete HashAnnotation <$> annotations in
  let annotations := delete SkipCacheInvalidationAnnotation <$> annotations in
  set_server_fields "" [] (SetAnnotations annotations instance).

Definition hashCluster (instance : Cluster) : string :=
  let '(b, _) := json_Cluster (clone_without_bookkeeping instance) in
  sha256_sum (sprint_bytes b).

Definition hasDifferentHash (instance : Cluster) : bool :=
  let oldHash := default "" (gm (GetAnnotations instance) !! HashAnnotation) in
  let newHash := hashCluster instance in
  bool_decide (oldHash ≠ newHash).

Definition CreateFunc (object : Cluster) : bool := hasDifferentHash object.
Definition UpdateFunc (objectOld objectNew : Cluster) : bool := hasDifferentHash objectNew.
Definition DeleteFunc (deleteStateUnknown : bool) : bool := negb deleteStateUnknown.

Definition enqueue (instance : Cluster) (skipCacheInvalidation : bool) : M W error :=
  let '(obj, err) := json_Cluster instance in
  match err with
  | Some e => mret (errorf e)
  | None =>
     id ← uuid_New;
     match id with
     | inr e => mret (errorf e)
     | inl id =>
        Enqueue Queue
          [mkEntry id 10 obj
             (<["Type" := ClusterUpdateEvent]>
             (<["ClusterName" := Name (Spec instance)]>
             {["SkipCacheInvalidation" := FormatBool skipCacheInvalidation]}))]
     end
  end.

Definition ReconcileCreateUpdate (instance : Cluster) : M W (Result * error) :=
  let hash := hashCluster instance in
  let annotations := gm (GetAnnotations instance) in
  let annotations := <[HashAnnotation := hash]> annotations in
  let '(annotations, skipCacheInvalidation) :=
    match annotations !! SkipCacheInvalidationAnnotation with
    | Some _ => (delete SkipCacheInvalidationAnnotation annotations, true)
    | None => (annotations, false)
    end in
  let instance := SetAnnotations (Some annotations) instance in
  err ← enqueue instance skipCacheInvalidation;
  match err with
  | Some e => mret (mkResult false 0, errorf e)
  | None => mret (mkResult false 0, nil_error)
  end.

Definition Reconcile (namespace name : string) : M W (Result * error) :=
  o ← k8s_GetCluster namespace name;
  match o with
  | inr e => mret (mkResult false 0, match e with NotFoundErr => nil_error | OtherErr m => errorf m end)
  | inl instance =>
     let skipCACert := default "" (gm (GetAnnotations instance) !! SkipCACertAnnotation) in
     if bool_decide (skipCACert ≠ "true")
     then
       if bool_decide (CAData ≠ "")
       then
         '(instance, err) ← k8s_UpdateCluster (set_CertificateAuthorityData CAData instance);
         match err with
         | Some e => mret (mkResult true (5 * Second), errorf e)
         | None => ReconcileCreateUpdate instance
         end
       else ReconcileCreateUpdate instance
     else ReconcileCreateUpdate instance
  end.
End reconciler.

End ClusterReconciler.
Import ClusterReconciler.

(** ** The hash *)

(** The same object but for what the server and this controller keep in it. *)
Definition same_content (c d : Cluster) : Prop :=
  type_meta c = type_meta d ∧ Spec c = Spec d ∧
  meta_Name (metadata c) = meta_Name (metadata d) ∧ Namespace (metadata c) = Namespace (metadata d) ∧
  (∀ k, k ≠ HashAnnotation → k ≠ SkipCacheInvalidationAnnotation →
     gm (GetAnnotations c) !! k = gm (GetAnnotations d) !! k).

#[global] Instance same_content_equiv : Equivalence same_content.
Proof.
  unfold same_content. split.
  - done.
  - intros c d (?&?&?&?&Ha). split_and!; try done. intros k ??. by rewrite Ha.
  - intros c d e (?&?&?&?&Ha) (?&?&?&?&Hb). split_and!; try congruence. intros k ??. by rewrite Ha, Hb.
Qed.

Section hash.
Context `{ClusterEnv W}.
(** The field [annotations] is encoded with [omitempty]. *)
Context (json_omits_empty : ∀ c, json_Cluster (SetAnnotations (Some ∅) c) = json_Cluster (SetAnnotations None c)).

Lemma json_annotations c a b :
  gm a = gm b → json_Cluster (SetAnnotations a c) = json_Cluster (SetAnnotations b c).
Proof. destruct a as [a|], b as [b|]; cbn; intros Hab; subst; try done; by rewrite json_omits_empty. Qed.

Lemma hashCluster_proper c d : same_content c d → hashCluster c = hashCluster d.
Proof.
  intros (Ht & Hs & Hn & Hns & Ha). unfold hashCluster.
  assert (json_Cluster (clone_without_bookkeeping c) = json_Cluster (clone_without_bookkeeping d)) as ->; [|done].
  set (strip := λ x : Cluster, delete SkipCacheInvalidationAnnotation <$> (delete HashAnnotation <$> GetAnnotations x)).
  assert (∀ x, clone_without_bookkeeping x =
    SetAnnotations (strip x) (mkCluster (type_meta x)
      (mkObjectMeta (meta_Name (metadata x)) (Namespace (metadata x)) None "" []) (Spec x))) as Hform by done.
  rewrite !Hform, Ht, Hs, Hn, Hns. apply json_annotations.
  assert (∀ x, gm (strip x) =
    delete SkipCacheInvalidationAnnotation (delete HashAnnotation (gm (GetAnnotations x)))) as Hgm.
  { intros x. unfold strip. destruct (GetAnnotations x); cbn; [done|by rewrite !delete_empty]. }
  rewrite !Hgm. apply map_eq. intros k.
  destruct (decide (k = SkipCacheInvalidationAnnotation)) as [->|Hk]; [by rewrite !lookup_delete_eq|].
  rewrite !(lookup_delete_ne _ SkipCacheInvalidationAnnotation) by done.
  destruct (decide (k = HashAnnotation)) as [->|Hk']; [by rewrite !lookup_delete_eq|].
  rewrite !(lookup_delete_ne _ HashAnnotation) by done. by apply Ha.
Qed.
End hash.

(** ** The contract of the client and the queue *)

Definition cluster_key (c : Cluster) : string * string := (Namespace (metadata c), meta_Name (metadata c)).

(** An update stores the object with a version of the server's choice; one
    that fails may have stored it.  Only SendMessageBatch adds messages. *)
Class ClusterEnvLaws (W : Type) `{ClusterEnv W} `{SQSService W} := {
  stored : W → gmap (string * string) Cluster;
  sent : W → list SendMessageBatchRequestEntry;
  stored_key w k c : stored w !! k = Some c → cluster_key c = k;
  get_law ns n w : ∃ o w', k8s_GetCluster ns n w = (Ret o, w') ∧ stored w' = stored w ∧ sent w' = sent w ∧
    match o with
    | inl c => stored w !! (ns, n) = Some c
    | inr NotFoundErr => stored w !! (ns, n) = None
    | inr (OtherErr _) => True
    end;
  update_law c w : ∃ rv mf err w', let c' := set_server_fields rv mf c in
    k8s_UpdateCluster c w = (Ret (c', err), w') ∧ sent w' = sent w ∧
    (stored w' = <[cluster_key c := c']> (stored w) ∨ (err ≠ None ∧ stored w' = stored w));
  uuid_law w : ∃ o w', uuid_New w = (Ret o, w') ∧ stored w' = stored w ∧ sent w' = sent w;
  send_law url es w : ∃ r err w', svc_SendMessageBatch url es w = (Ret (r, err), w') ∧ stored w' = stored w ∧
    (sent w' = es ++ sent w ∨ ((err ≠ None ∨ Failed r ≠ []) ∧ sent w' = sent w)) }.

Section messages.
Context `{ClusterEnvLaws W} (CAData : string) (Queue : Config).
Implicit Types (c : Cluster) (w : W).

(** The message of an object, as [enqueue] builds it. *)
Definition update_entry (id body name : string) (skip : bool) : SendMessageBatchRequestEntry :=
  mkEntry id 10 body (<["Type" := ClusterUpdateEvent]> (<["ClusterName" := name]>
    {["SkipCacheInvalidation" := FormatBool skip]})).

(** Every message of a batch that the queue accepts is in the queue. *)
Definition no_partial_failures : Prop :=
  ∀ url es w r w', svc_SendMessageBatch url es w = (Ret (r, None), w') → Failed r = [].

Lemma Enqueue_run es w :
  ∃ err w', Enqueue Queue es w = (Ret err, w') ∧ stored w' = stored w ∧
    (sent w' = es ++ sent w ∨ sent w' = sent w) ∧
    (no_partial_failures → err = None → sent w' = es ++ sent w).
Proof.
  unfold Enqueue. destruct (svc Queue); cbn [negb].
  2: { eexists _, w. split_and!; [reflexivity|done|by right|done]. }
  destruct (send_law (QueueURL Queue) es w) as (r & err & w' & Hs & Hst & Hsent).
  rewrite (bind_run _ _ _ _ _ Hs).
  assert (no_partial_failures → err = None → sent w' = es ++ sent w) as Hok.
  { intros Hn ->. destruct Hsent as [?|[[?|Hf] _]]; [done..|]. by rewrite (Hn _ _ _ _ _ Hs) in Hf. }
  destruct err as [e|]; eexists _, w'; (split_and!; [reflexivity|done|tauto|done]).
Qed.

Lemma enqueue_run c skip w :
  ∃ err w', enqueue Queue c skip w = (Ret err, w') ∧ stored w' = stored w ∧
    (sent w' = sent w ∨ ∃ id body, json_Cluster c = (body, None) ∧
       sent w' = update_entry id body (Name (Spec c)) skip :: sent w) ∧
    (no_partial_failures → err = None → sent w' ≠ sent w).
Proof.
  unfold enqueue. destruct (json_Cluster c) as [body [e|]] eqn:Hj.
  { eexists _, w. split_and!; [reflexivity|done|by left|done]. }
  destruct (uuid_law w) as (o & w1 & Hu & Hst1 & Hs1). rewrite (bind_run _ _ _ _ _ Hu).
  destruct o as [id|e]; [|eexists _, w1; split_and!; [reflexivity|done|by left|done]].
  destruct (Enqueue_run [update_entry id body (Name (Spec c)) skip] w1) as (err & w2 & Hrun & Hst2 & Hs2 & Hok).
  exists err, w2. split_and!; [done|congruence| |].
  - destruct Hs2 as [Hs2|Hs2]; [right; exists id, body|left; congruence]. split; [done|]. by rewrite Hs2, Hs1.
  - intros Hn He. rewrite (Hok Hn He), Hs1. intros Heq. apply (f_equal length) in Heq. cbn in Heq. lia.
Qed.

(** What the message says of an object that is stored as [c]: its hash is
    that of the object it carries, it asks to skip the invalidation of the
    cache exactly when the object does, and apart from these two annotations
    and the fields of the server it is the object. *)
Definition announces c (e : SendMessageBatchRequestEntry) : Prop :=
  ∃ id body c', e = update_entry id body (Name (Spec c))
      (bool_decide (is_Some (gm (GetAnnotations c) !! SkipCacheInvalidationAnnotation))) ∧
    json_Cluster c' = (body, None) ∧ same_content c' c ∧
    gm (GetAnnotations c') !! HashAnnotation = Some (hashCluster c') ∧
    gm (GetAnnotations c') !! SkipCacheInvalidationAnnotation = None.

Context (json_omits_empty : ∀ c, json_Cluster (SetAnnotations (Some ∅) c) = json_Cluster (SetAnnotations None c)).

Lemma ReconcileCreateUpdate_run c w :
  ∃ r err w', ReconcileCreateUpdate Queue c w = (Ret (r, err), w') ∧ stored w' = stored w ∧
    (sent w' = sent w ∨ ∃ e, announces c e ∧ sent w' = e :: sent w) ∧
    (no_partial_failures → err = None → sent w' ≠ sent w).
Proof.
  unfold ReconcileCreateUpdate. rewrite lookup_insert_ne by done.
  set (a := gm (GetAnnotations c)). set (skip := bool_decide (is_Some (a !! SkipCacheInvalidationAnnotation))).
  set (c' := SetAnnotations (Some (delete SkipCacheInvalidationAnnotation (<[HashAnnotation := hashCluster c]> a))) c).
  assert (∀ (k : gmap string string → bool → M W (Result * error)),
    (let '(x, y) := match a !! SkipCacheInvalidationAnnotation with
      | Some _ => (delete SkipCacheInvalidationAnnotation (<[HashAnnotation := hashCluster c]> a), true)
      | None => (<[HashAnnotation := hashCluster c]> a, false) end in k x y) =
    k (delete SkipCacheInvalidationAnnotation (<[HashAnnotation := hashCluster c]> a)) skip) as Hk.
  { intros k. unfold skip. destruct (a !! SkipCacheInvalidationAnnotation) as [v|] eqn:Ha.
    - by rewrite bool_decide_eq_true_2 by eauto.
    - rewrite bool_decide_eq_false_2 by (by intros []). by rewrite delete_id by (by rewrite lookup_insert_ne). }
  rewrite Hk. cbv zeta. fold c'.
  assert (same_content c' c) as Hsame.
  { unfold same_content. split_and!; [done..|]. intros k Hh Hs. cbn. fold a.
    by rewrite lookup_delete_ne, lookup_insert_ne by done. }
  destruct (enqueue_run c' skip w) as (err & w' & Hrun & Hst & Hsent & Hok).
  rewrite (bind_run _ _ _ _ _ Hrun).
  assert (sent w' = sent w ∨ ∃ e, announces c e ∧ sent w' = e :: sent w) as Hsent'.
  { destruct Hsent as [?|(id & body & Hj & Hs)]; [by left|right]. eexists. split; [|exact Hs].
    exists id, body, c'. split_and!; [done|done|done| |].
    - rewrite (hashCluster_proper json_omits_empty _ _ Hsame). cbn.
      rewrite lookup_delete_ne by done. by rewrite lookup_insert_eq.
    - cbn. by rewrite lookup_delete_eq. }
  destruct err; eexists _, _, w'; split_and!; try done.
Qed.

(** The object a reconciliation sends: with the certificate authority of the
    cluster the client runs in, unless it has none or the object opts out. *)
Definition with_CA c : Cluster :=
  if bool_decide (default "" (gm (GetAnnotations c) !! SkipCACertAnnotation) ≠ "true") && bool_decide (CAData ≠ "")
  then set_CertificateAuthorityData CAData c else c.

Lemma announces_server rv mf c e : announces (set_server_fields rv mf c) e → announces c e.
Proof.
  intros (id & body & c' & He & Hj & Hs & Hh). exists id, body, c'. split_and!; [done|done| |apply Hh|apply Hh].
  transitivity (set_server_fields rv mf c); [done|]. repeat split.
Qed.

Lemma with_CA_annotations c : GetAnnotations (with_CA c) = GetAnnotations c.
Proof. unfold with_CA. by destruct (_ && _). Qed.

(** What a reconciliation of a stored object does to the queue and to the
    object. *)
Lemma Reconcile_run ns name w c :
  stored w !! (ns, name) = Some c →
  ∃ r err w', Reconcile CAData Queue ns name w = (Ret (r, err), w') ∧
    (sent w' = sent w ∨ ∃ e, announces (with_CA c) e ∧ sent w' = e :: sent w) ∧
    (no_partial_failures → err = None → sent w' ≠ sent w) ∧
    ∃ c', stored w' !! (ns, name) = Some c' ∧ GetAnnotations c' = GetAnnotations c.
Proof.
  intros Hc. unfold Reconcile. destruct (get_law ns name w) as (o & w1 & Hget & Hst1 & Hs1 & Ho).
  rewrite (bind_run _ _ _ _ _ Hget). destruct o as [c1|[|m]]; [|congruence|].
  2: { eexists _, _, w1. split_and!; [reflexivity|by left|done|]. exists c. by rewrite Hst1. }
  assert (c1 = c) as -> by congruence. unfold with_CA.
  assert (∀ c0, GetAnnotations c0 = GetAnnotations c → ∀ w2 c2, stored w2 !! (ns, name) = Some c2 →
    GetAnnotations c2 = GetAnnotations c → sent w2 = sent w →
    ∃ r err w', ReconcileCreateUpdate Queue c0 w2 = (Ret (r, err), w') ∧
    (sent w' = sent w ∨ ∃ e, announces c0 e ∧ sent w' = e :: sent w) ∧
    (no_partial_failures → err = None → sent w' ≠ sent w) ∧
    ∃ c', stored w' !! (ns, name) = Some c' ∧ GetAnnotations c' = GetAnnotations c) as Hcreate.
  { intros c0 Hc0 w2 c2 Hc2 Ha2 Hs2.
    destruct (ReconcileCreateUpdate_run c0 w2) as (r & err & w' & Hrun & Hst & Hsent & Hok).
    exists r, err, w'. rewrite Hs2 in *. split_and!; [done..|]. exists c2. by rewrite Hst. }
  destruct (bool_decide (default "" (gm (GetAnnotations c) !! SkipCACertAnnotation) ≠ "true")); cbn [andb];
    [|apply (Hcreate c eq_refl w1 c); by rewrite ?Hst1].
  destruct (bool_decide (CAData ≠ "")); [|apply (Hcreate c eq_refl w1 c); by rewrite ?Hst1].
  destruct (update_law (set_CertificateAuthorityData CAData c) w1) as (rv & mf & err & w2 & Hup & Hs2 & Hst2).
  rewrite (bind_run _ _ _ _ _ Hup).
  assert (cluster_key (set_CertificateAuthorityData CAData c) = (ns, name)) as Hkey
    by (change (cluster_key c = (ns, name)); by apply (stored_key w)).
  assert (∃ c2, stored w2 !! (ns, name) = Some c2 ∧ GetAnnotations c2 = GetAnnotations c) as (c2 & Hc2 & Ha2).
  { destruct Hst2 as [->|[_ ->]]; [|exists c; by rewrite Hst1].
    rewrite Hkey, lookup_insert_eq. by eexists. }
  destruct err as [e|].
  { eexists _, _, w2. split_and!; [reflexivity|left; congruence|done|by exists c2]. }
  destruct (Hcreate (set_server_fields rv mf (set_CertificateAuthorityData CAData c)) eq_refl w2 c2)
    as (r & err & w' & Hrun & Hsent & Hrest); [done|done|congruence|].
  exists r, err, w'. split; [done|]. split; [|exact Hrest].
  destruct Hsent as [?|(e & He & ?)]; [by left|right]. exists e. split; [|done]. by apply announces_server in He.
Qed.

(** C36: A reconciliation of a stored Cluster sends at most one message,
    and exactly one when it ends without an error and the queue accepts all
    entries of a batch.  The message is the stored object with the
    certificate authority filled in, its ClusterName is the name in the
    specification, it asks to skip the cache invalidation exactly when the
    object does, and the hash it carries is the hash of what it carries. *)
Theorem Reconcile_announces ns name w c :
  stored w !! (ns, name) = Some c →
  ∃ r err w', Reconcile CAData Queue ns name w = (Ret (r, err), w') ∧
    (sent w' = sent w ∨ ∃ e, announces (with_CA c) e ∧ sent w' = e :: sent w) ∧
    (no_partial_failures → err = None → sent w' ≠ sent w).
Proof.
  intros Hc. destruct (Reconcile_run ns name w c Hc) as (r & err & w' & Hrun & Hsent & Hok & _).
  by exists r, err, w'.
Qed.

(** The hash of an object that was sent is not recorded in the object:
    a reconciliation leaves its annotations as they are, and an object
    without the hash annotation passes the event filter after each of them,
    so that every resync sends it again. *)
Theorem hash_not_recorded ns name w c :
  (∀ s, sha256_sum s ≠ "") → stored w !! (ns, name) = Some c → gm (GetAnnotations c) !! HashAnnotation = None →
  ∃ r w' c', Reconcile CAData Queue ns name w = (Ret r, w') ∧ stored w' !! (ns, name) = Some c' ∧
    GetAnnotations c' = GetAnnotations c ∧ UpdateFunc c c' = true.
Proof.
  intros Hsha Hc Hh. destruct (Reconcile_run ns name w c Hc) as (r & err & w' & Hrun & _ & _ & c' & Hc' & Ha).
  exists (r, err), w', c'. split_and!; [done..|]. unfold UpdateFunc, hasDifferentHash. rewrite Ha, Hh.
  apply bool_decide_eq_true. unfold hashCluster. destruct (json_Cluster _). cbn. intros Heq. by apply (Hsha (sprint_bytes s)).
Qed.
End messages.

(** ** Witnesses: a client over a finite map and a queue that accepts all *)

Record CWorld := mkCWorld { cw_objects : gmap (string * string) Cluster; cw_sent : list SendMessageBatchRequestEntry }.
(** An object is stored under its own name. *)
Definition cw_stored (w : CWorld) : gmap (string * string) Cluster :=
  filter (λ kv, cluster_key kv.2 = kv.1) (cw_objects w).

#[global] Instance DemoClusterEnv : ClusterEnv CWorld := {
  k8s_GetCluster ns n := gets (λ w, match cw_stored w !! (ns, n) with Some c => inl c | None => inr NotFoundErr end);
  k8s_UpdateCluster c :=
    (let c' := set_server_fields "2" ["manager"] c in
     _ ← modify (λ w, mkCWorld (<[cluster_key c := c']> (cw_objects w)) (cw_sent w)); mret (c', nil_error));
  json_Cluster c := (Name (Spec c), nil_error);
  sha256_sum s := "sha" +:+ s;
  uuid_New := mret (inl "uuid") }.

#[global] Instance DemoClusterQueue : SQSService CWorld := {
  svc_GetQueueUrl name := mret (Some name, nil_error);
  svc_SendMessageBatch url es :=
    (_ ← modify (λ w, mkCWorld (cw_objects w) (es ++ cw_sent w)); mret (mkBatchResult [] [], nil_error));
  svc_DeleteMessage url h := mret nil_error;
  svc_ChangeMessageVisibility url h n := mret nil_error }.

#[global] Program Instance DemoClusterLaws : ClusterEnvLaws CWorld := {
  stored := cw_stored; sent := cw_sent }.
Next Obligation. intros w k c Hc. by apply map_lookup_filter_Some in Hc as [_ Hc]. Qed.
Next Obligation.
  intros ns n w. eexists _, w. split_and!; [reflexivity|done..|]. by destruct (cw_stored w !! (ns, n)).
Qed.
Next Obligation.
  intros c w.
  exists "2", ["manager"], None, (mkCWorld (<[cluster_key c := set_server_fields "2" ["manager"] c]> (cw_objects w)) (cw_sent w)).
  cbv zeta. split_and!; [reflexivity|done|]. left.
  unfold cw_stored. cbn. by rewrite map_filter_insert_True.
Qed.
Next Obligation. intros w. by eexists _, w. Qed.
Next Obligation. intros url es w. eexists _, _, _. split_and!; [reflexivity|done|by left]. Qed.

Definition crd (a : gmap string string) : Cluster :=
  mkCluster (mkTypeMeta "Cluster" "v1") (mkObjectMeta "c1" "cluster-registry" (Some a) "1" []) (sample_spec "c1" "va6" "prod" "Active" "2024-05-01T10:00:00Z").
Definition crd_world : CWorld :=
  mkCWorld {[("cluster-registry", "c1") := crd {[SkipCacheInvalidationAnnotation := "true"]}]} [].

Lemma Reconcile_announces_witness :
  ∃ r err w', Reconcile "ca" two_handlers "cluster-registry" "c1" crd_world = (Ret (r, err), w') ∧
    (sent w' = sent crd_world ∨ ∃ e, announces (with_CA "ca" (crd {[SkipCacheInvalidationAnnotation := "true"]})) e ∧
       sent w' = e :: sent crd_world) ∧
    (no_partial_failures → err = None → sent w' ≠ sent crd_world).
Proof.
  refine (Reconcile_announces "ca" two_handlers _ "cluster-registry" "c1" crd_world
    (crd {[SkipCacheInvalidationAnnotation := "true"]}) _).
  - intros c. reflexivity.
  - vm_compute. reflexivity.
Defined.

Lemma hash_not_recorded_witness :
  ∃ r w' c', Reconcile "ca" two_handlers "cluster-registry" "c1" crd_world = (Ret r, w') ∧
    stored w' !! ("cluster-registry", "c1") = Some c' ∧
    GetAnnotations c' = GetAnnotations (crd {[SkipCacheInvalidationAnnotation := "true"]}) ∧
    UpdateFunc (crd {[SkipCacheInvalidationAnnotation := "true"]}) c' = true.
Proof.
  refine (hash_not_recorded "ca" two_handlers _ "cluster-registry" "c1" crd_world
    (crd {[SkipCacheInvalidationAnnotation := "true"]}) _ _ _).
  - intros c. reflexivity.
  - done.
  - vm_compute. reflexivity.
  - vm_compute. reflexivity.
Defined.

(** Two reconciliations of the same object send it twice. *)
Example resync_sends_again :
  length (cw_sent (Reconcile "ca" two_handlers "cluster-registry" "c1"
    (Reconcile "ca" two_handlers "cluster-registry" "c1" crd_world).2).2) = 2%nat.
Proof. vm_compute. reflexivity. Qed.
