(* ===== verification/System.v ===== *)
(** The programs together: clients that send their Cluster objects, the sync
    manager that sends the data it collects, the queue between them, and the
    API server that takes messages from it.

    A state holds the worlds of the programs and every message the queue was
    sent, with the time the queue gave it.  A step runs one reconciliation, or
    the function that cmd/apiserver registers with the queue on one message, or
    changes what the programs do not own.  The queue delivers a message at any
    time, any number of times and in any order, and a call may fail wherever the
    contracts of the services let it.  Here the function runs on one message at a
    time, and with reads that are current; ConcurrentSystem.v lets its runs overlap
    and its reads show old entries, and has the theorems on what the programs
    guarantee. *)
From stdpp Require Import base gmap strings list option numbers sets relations.
From S2P Require Import Prelude GoStrings GoTime Encoding Registry Database Db Sqs EventHandler Web Handlers HandlersThms SyncParser SyncController SyncThms ClusterController.

Local Open Scope Z_scope.

(** ** The contracts *)

(** The queue and the cache as the API server uses them: [acked] are the
    receipt handles of the messages deleted. *)
Class ApiQueueLaws (W : Type) `{DbLaws W} `{SQSService W} (Invalidate : list string → M W error) := {
  acked : W → gset string;
  acked_Get n : keeps acked (db_GetCluster n);
  acked_Put c : keeps acked (db_PutCluster c);
  acked_Delete url h s :
    let s' := (svc_DeleteMessage url h s).2 in
    acked s' ⊆ acked s ∪ from_option singleton ∅ h ∧ db_specs s' = db_specs s;
  acked_Invalidate tags s :
    let s' := (Invalidate tags s).2 in acked s' = acked s ∧ db_specs s' = db_specs s;
  inv_Delete url h : preserves db_inv (svc_DeleteMessage url h);
  inv_Invalidate tags : preserves db_inv (Invalidate tags) }.

(** States from which the calls of the API server succeed. *)
Class Reliable (W : Type) `{ApiQueueLaws W Invalidate} := {
  up : W → Prop;
  up_Get n s : db_inv s → up s → ∃ r s', db_GetCluster n s = (Ret (r, None), s') ∧ up s';
  up_Put c s : db_inv s → up s → is_Some (Parse (LastUpdated (Spec c))) →
    ∃ c' s', db_PutCluster c s = (Ret (c', None), s') ∧ up s';
  up_Delete url h s : up s →
    ∃ s', svc_DeleteMessage url (Some h) s = (Ret None, s') ∧ up s' ∧ {[h]} ∪ acked s ⊆ acked s';
  up_Invalidate tags : preserves up (Invalidate tags);
  (** Writes reach every copy of the registry in the end. *)
  up_settles s : db_inv s → up s →
    ∃ s', db_inv s' ∧ db_specs s' = db_specs s ∧ acked s' = acked s ∧ up s' ∧ db_settled s' }.

(** What the sync manager sends: only SendMessageBatch adds to it. *)
Class SyncEnvLaws (W : Type) `{SyncEnv W} `{SQSService W} := {
  sync_sent : W → list SendMessageBatchRequestEntry;
  sync_Get g ns n : keeps sync_sent (k8s_GetObject g ns n);
  sync_List g ns l : keeps sync_sent (k8s_ListObjects g ns l);
  sync_GetSync ns n : keeps sync_sent (k8s_GetSync ns n);
  sync_Update i : keeps sync_sent (k8s_UpdateStatus i);
  sync_UUID : keeps sync_sent NewUUID;
  sync_Now : keeps sync_sent Now;
  sync_Metric k n : keeps sync_sent (Metric k n);
  sync_send url es w :
    let w' := (svc_SendMessageBatch url es w).2 in sync_sent w' = sync_sent w ∨ sync_sent w' = es ++ sync_sent w }.

(** encoding/json: empty annotations are left out, and what the client encodes
    the server decodes, up to empty collections. *)
Class WireLaws (W : Type) `{ClusterEnv W} (unmarshal : string → Cluster * error) : Prop := {
  wire_omits_empty c :
    json_Cluster (ClusterReconciler.SetAnnotations (Some ∅) c) = json_Cluster (ClusterReconciler.SetAnnotations None c);
  wire_roundtrip c body :
    json_Cluster c = (body, None) → ∃ d, unmarshal body = (d, None) ∧ norm_spec (Spec d) = norm_spec (Spec c) }.

(** ** The newest update of a cluster wins *)

Lemma norm_set_LastUpdated v s : norm_spec (set_LastUpdated v s) = set_LastUpdated v (norm_spec s).
Proof. by destruct s. Qed.

Lemma entry_norm sp ns : entry (norm_spec sp) ns = entry sp ns.
Proof. unfold entry. by rewrite !norm_set_LastUpdated, norm_spec_idem. Qed.

Lemma lww_norm sp sp' ns reg : norm_spec sp = norm_spec sp' → lww (sp, ns) reg = lww (sp', ns) reg.
Proof.
  intros Hn. unfold lww. rewrite <- (norm_spec_Name sp), <- (norm_spec_Name sp'), Hn.
  by rewrite <- (entry_norm sp), <- (entry_norm sp'), Hn.
Qed.

(** What [us] leaves under [n] in an empty registry. *)
Definition newest (us : list (ClusterSpec * Z)) (n : string) (o : option ClusterSpec) : Prop :=
  match o with
  | None => ∀ u, u ∈ us → Name u.1 ≠ n
  | Some sp => ∃ u, u ∈ us ∧ Name u.1 = n ∧ sp = entry u.1 u.2 ∧ ∀ v, v ∈ us → Name v.1 = n → v.2 ≤ u.2
  end.

Lemma lww_all_newest us n :
  Forall (λ u, int64_min ≤ u.2 ≤ int64_max) us → newest us n (lww_all us ∅ !! n).
Proof.
  induction us as [|[sp ns] us IH] using rev_ind; intros Hr.
  { unfold lww_all. cbn [foldl]. rewrite lookup_empty. intros u Hu. by apply not_elem_of_nil in Hu. }
  apply Forall_app in Hr as [Hr [Hns _]%Forall_cons]. specialize (IH Hr). cbn in Hns.
  unfold lww_all in *. rewrite foldl_app. cbn [foldl]. set (reg := foldl _ ∅ us) in *.
  unfold lww. destruct (decide (Name sp = n)) as [Hn|Hn].
  - unfold newer. rewrite Hn. destruct (reg !! n) as [sp0|] eqn:Hreg; cbn [newest] in IH.
    + destruct IH as ([sp1 t1] & Hin & Hn1 & -> & Hmax). cbn [fst snd] in *.
      rewrite entry_LastUpdated, Parse_Format_Unix0, Before_Unix0
        by (rewrite Forall_forall in Hr; apply (Hr (sp1, t1) Hin)).
      destruct (Z.ltb_spec ns t1).
      * rewrite Hreg. exists (sp1, t1). split_and!; [set_solver|done..|]. cbn.
        intros v [Hv| ->%list_elem_of_singleton]%elem_of_app Hv'; [auto|cbn; lia].
      * rewrite lookup_insert_eq. exists (sp, ns). split_and!; [set_solver|done..|]. cbn.
        intros v [Hv| ->%list_elem_of_singleton]%elem_of_app Hv'; [specialize (Hmax v Hv Hv'); lia|done].
    + rewrite lookup_insert_eq. exists (sp, ns). split_and!; [set_solver|done..|]. cbn.
      intros v [Hv| ->%list_elem_of_singleton]%elem_of_app Hv'; [by apply IH in Hv|done].
  - assert ((if newer reg (Name sp) ns then reg else <[Name sp := entry sp ns]> reg) !! n = reg !! n) as ->
      by (destruct (newer _ _ _); [done|by rewrite lookup_insert_ne]).
    destruct (reg !! n) as [sp0|]; cbn [newest] in *.
    + destruct IH as (u & Hin & Hu & -> & Hmax). exists u. split_and!; [set_solver|done..|].
      intros v [Hv| ->%list_elem_of_singleton]%elem_of_app Hv'; [auto|done].
    + intros v [Hv| ->%list_elem_of_singleton]%elem_of_app; [auto|done].
Qed.

(** ** Lemmas on the programs *)

Section manager_sends.
Context `{SyncEnvLaws W} (handlers : GroupVersionKind → option (list Obj → res ClusterSpec)).
Context (merge : ClusterSpec → ClusterSpec → ClusterSpec * error) (queue : Config).

Lemma sync_Reconcile_sends ns n (s : SState W) :
  let s' := (SyncController.Reconcile handlers merge queue ns n s).2 in
  sync_sent (sworld s') = sync_sent (sworld s) ∨
  ∃ id body, sync_sent (sworld s') = sync_entry id body :: sync_sent (sworld s).
Proof.
  cbv zeta. unfold SyncController.Reconcile. rewrite bind_state.
  pose proof (quiet_world sync_sent _ (sync_GetSync ns n) s) as Hg.
  destruct (in_world (k8s_GetSync ns n) s) as [[i|p|] s1]; cbn [snd] in Hg; [|by left..]. rewrite <- Hg. clear Hg s.
  rewrite bind_state. set (m := match i with inl _ => _ | inr _ => _ end).
  assert (sync_sent (sworld (m s1).2) = sync_sent (sworld s1) ∨
    ∃ id body, sync_sent (sworld (m s1).2) = sync_entry id body :: sync_sent (sworld s1)) as Hm.
  { subst m. destruct i as [i|e].
    - destruct (Reconcile_instance_sends handlers merge queue sync_sent sync_Get sync_List sync_Update sync_UUID
        sync_Now sync_Metric sync_send n i s1) as [Hs|(_ & _ & id & body & _ & _ & _ & _ & Hs)]; [by left|right; by exists id, body].
    - left. rewrite bind_state. pose proof (quiet_world sync_sent _ (sync_Metric "error" n) s1) as Hq.
      destruct (in_world (Metric "error" n) s1) as [[[]|p|] s2]; cbn [snd] in Hq; [|done..]. rewrite <- Hq.
      unfold requeueIfError. destruct e as [|msg]; cbn; [done|].
      apply (quiet_requeueAfter sync_sent sync_Metric). }
  destruct (m s1) as [[r|p|] s2]; cbn [snd] in Hm; [|exact Hm..].
  assert (quiet sync_sent (_ ← in_world (Metric "reconciliation_dur" n);
    _ ← in_world (Metric "reconciliation" n); mret r)) as Hq.
  { apply quiet_bind; [apply quiet_world, sync_Metric|intros _].
    apply quiet_bind; [apply quiet_world, sync_Metric|intros _; done]. }
  by rewrite (Hq s2).
Qed.
End manager_sends.

Section client_sends.
Context `{ClusterEnvLaws W}.
Context (omits : ∀ c, json_Cluster (ClusterReconciler.SetAnnotations (Some ∅) c) = json_Cluster (ClusterReconciler.SetAnnotations None c)).

(** What a reconciliation adds to the queue. *)
Lemma client_Reconcile_sends CAData Queue ns n w :
  let w' := (ClusterReconciler.Reconcile CAData Queue ns n w).2 in
  sent w' = sent w ∨ ∃ c e, stored w !! (ns, n) = Some c ∧ announces (with_CA CAData c) e ∧ sent w' = e :: sent w.
Proof.
  cbv zeta. destruct (stored w !! (ns, n)) as [c|] eqn:Hc.
  - destruct (Reconcile_run CAData Queue omits ns n w c Hc) as (r & err & w' & -> & Hs & _). cbn [snd].
    destruct Hs as [Hs|(e & He & Hs)]; [by left|right; by exists c, e].
  - left. unfold ClusterReconciler.Reconcile. destruct (get_law ns n w) as (o & w1 & Hg & _ & Hs & Ho).
    rewrite (bind_run _ _ _ _ _ Hg). destruct o as [c|e]; [congruence|]. exact Hs.
Qed.
End client_sends.

Section server_inv.
Context `{ApiQueueLaws W Invalidate} (unmarshal : string → Cluster * error) (q : Config).

Lemma on_message_inv msg : preserves db_inv (on_message unmarshal q Invalidate msg).
Proof.
  apply on_message_preserves; [intros e s; apply Handle_inv| |apply inv_Invalidate].
  unfold Delete. apply preserves_bind; [apply preserves_lift|intros id].
  destruct (svc q); [apply inv_Delete|by intros s].
Qed.
End server_inv.

(** ** The system *)

(** A message the queue accepted: the entry, the text of its SentTimestamp and
    its value, and the object it is about, when a client sent it. *)
Record Posted := mkPosted {
  p_entry : SendMessageBatchRequestEntry; p_sent : string; p_time : Z; p_origin : option Cluster }.

(** The times the queue gives: milliseconds that are nanoseconds of 64 bits. *)
Definition timely (p : Posted) : Prop :=
  ParseInt (p_sent p) = (p_time p, None) ∧ 0 ≤ p_time p ≤ 9223372036854.

(** The update a message asks for. *)
Definition p_update (p : Posted) : option (ClusterSpec * Z) :=
  (λ c, (norm_spec (Spec c), p_time p * 10 ^ 6)) <$> p_origin p.

Record Sys (Wc Wm Ws : Type) := mkSys {
  clients : gmap string Wc; manager : SState Wm; posted : gmap string Posted; server : Ws }.
Arguments mkSys {Wc Wm Ws}.
Arguments clients {Wc Wm Ws}.
Arguments manager {Wc Wm Ws}.
Arguments posted {Wc Wm Ws}.
Arguments server {Wc Wm Ws}.

(** Messages that are added to the queue: each gets an id that is new. *)
Inductive posts (o : option Cluster) : list SendMessageBatchRequestEntry → gmap string Posted → gmap string Posted → Prop :=
  | posts_nil q : posts o [] q q
  | posts_cons e es id ts t q q' :
     q !! id = None → timely (mkPosted e ts t o) → posts o es (<[id := mkPosted e ts t o]> q) q' →
     posts o (e :: es) q q'.

Section delivery.
(** The message that a receipt handle was given for. *)
Context (message_of : string → string).

(** A message as ReceiveMessage returns it: attributes of type String, and
    SentTimestamp among the attributes of the queue. *)
Record delivery (id : string) (p : Posted) (h : string) (msg : Message) : Prop := mkDelivery {
  dl_id : MessageId msg = Some id;
  dl_handle : ReceiptHandle msg = Some h;
  dl_of : message_of h = id;
  dl_body : Body msg = Some (entry_MessageBody (p_entry p));
  dl_attributes : MessageAttributes msg =
    (λ v, Some (mkAttr (Some "String") (Some v))) <$> entry_MessageAttributes (p_entry p);
  dl_sent : ptr_at (Attributes msg) "SentTimestamp" = Some (p_sent p) }.
End delivery.

Section system.
Context {Wc Wm Ws : Type} `{ClusterEnvLaws Wc} `{SyncEnvLaws Wm} `{ApiQueueLaws Ws Invalidate}.
Context (unmarshal : string → Cluster * error) `{!WireLaws Wc unmarshal}.
Context (CA : string → string) (client_queue manager_queue server_queue : Config).
Context (handlers : GroupVersionKind → option (list Obj → res ClusterSpec)).
Context (merge : ClusterSpec → ClusterSpec → ClusterSpec * error).
Context (message_of : string → string).
Notation Sys := (Sys Wc Wm Ws).
Implicit Types (s : Sys).

Inductive sys_step : Sys → Sys → Prop :=
  (** The client of cluster [k] reconciles an object. *)
  | S_client s k w ns n new q' :
     clients s !! k = Some w →
     let w' := (ClusterReconciler.Reconcile (CA k) client_queue ns n w).2 in
     sent w' = new ++ sent w → posts (with_CA (CA k) <$> stored w !! (ns, n)) new (posted s) q' →
     sys_step s (mkSys (<[k := w']> (clients s)) (manager s) q' (server s))
  (** The objects of a cluster change, or a cluster is added. *)
  | S_objects s k w' :
     (∀ w, clients s !! k = Some w → sent w' = sent w) →
     sys_step s (mkSys (<[k := w']> (clients s)) (manager s) (posted s) (server s))
  (** The sync manager reconciles an object. *)
  | S_sync s ns n new q' :
     let m' := (SyncController.Reconcile handlers merge manager_queue ns n (manager s)).2 in
     sync_sent (sworld m') = new ++ sync_sent (sworld (manager s)) → posts None new (posted s) q' →
     sys_step s (mkSys (clients s) m' q' (server s))
  | S_resources s m' :
     sync_sent (sworld m') = sync_sent (sworld (manager s)) →
     sys_step s (mkSys (clients s) m' (posted s) (server s))
  (** The queue delivers a message, when every read is current. *)
  | S_deliver s id p h msg :
     posted s !! id = Some p → delivery message_of id p h msg → db_settled (server s) →
     sys_step s (mkSys (clients s) (manager s) (posted s)
       (on_message unmarshal server_queue Invalidate msg (server s)).2)
  (** The API answers requests, writes reach more copies and services change
      state; none of this writes the registry or deletes messages. *)
  | S_serve s w' :
     db_inv w' → db_specs w' = db_specs (server s) → acked w' = acked (server s) →
     sys_step s (mkSys (clients s) (manager s) (posted s) w').

(** Before anything was sent, on an empty registry. *)
Definition initial s : Prop :=
  posted s = ∅ ∧ db_inv (server s) ∧ db_specs (server s) = ∅ ∧ acked (server s) = ∅.
Definition reachable s : Prop := ∃ s0, initial s0 ∧ rtc sys_step s0 s.

Definition deleted s (id : string) : Prop := ∃ h, h ∈ acked (server s) ∧ message_of h = id.

(** A message is what its sender sends. *)
Definition genuine (p : Posted) : Prop :=
  timely p ∧
  match p_origin p with
  | Some c => announces c (p_entry p)
  | None => ∃ id body, p_entry p = sync_entry id body
  end.

Lemma posts_genuine o es q q' :
  posts o es q q' → (∀ e, e ∈ es → match o with Some c => announces c e | None => ∃ id body, e = sync_entry id body end) →
  map_Forall (λ _, genuine) q → map_Forall (λ _, genuine) q' ∧ q ⊆ q'.
Proof.
  induction 1 as [q|e es id ts t q q' Hid Ht _ IH]; intros He Hq; [done|].
  destruct IH as [Hq' Hsub].
  - intros e' He'. apply He. set_solver.
  - apply map_Forall_insert_2; [|done]. split; [done|]. cbn. apply He. set_solver.
  - split; [done|]. etrans; [|exact Hsub]. by apply insert_subseteq.
Qed.

(** The update that the handler decodes from a message is the one the message
    asks for. *)
Lemma decoded_update id p h msg e rcv ns :
  genuine p → delivery message_of id p h msg → NewEvent (Some msg) = Ret (Some e, None) → ev_Type e = ClusterUpdateEvent →
  decode unmarshal (Some e) = Ret (Some (rcv, ns), None) → p_update p = Some (norm_spec (Spec rcv), ns).
Proof.
  intros [[Hts Ht] Ho] Hd He Hty Hdec.
  rewrite NewEvent_spec, (dl_attributes _ _ _ _ _ Hd), lookup_fmap in He.
  destruct (p_origin p) as [c|] eqn:Hor.
  2: { destruct Ho as (eid & body & Hentry). rewrite Hentry in He. cbn [entry_MessageAttributes sync_entry] in He.
    rewrite lookup_singleton_eq in He. cbn in He. injection He as <-. done. }
  destruct Ho as (eid & body & c' & Hentry & Hj & Hsame & _).
  rewrite Hentry in He. cbn [entry_MessageAttributes update_entry] in He.
  rewrite lookup_insert_eq in He. cbn in He. injection He as <-.
  destruct (wire_roundtrip c' body Hj) as (d & Hd' & Hnorm).
  unfold decode in Hdec. cbn in Hdec. rewrite (dl_body _ _ _ _ _ Hd), Hentry in Hdec.
  cbn [deref entry_MessageBody update_entry] in Hdec. rewrite Hd' in Hdec.
  rewrite (dl_sent _ _ _ _ _ Hd) in Hdec. cbn [deref] in Hdec. rewrite Hts in Hdec.
  injection Hdec as <- <-. unfold p_update. rewrite Hor, Hnorm, wrap64_id by (unfold int64_min, int64_max; lia).
  cbn. by destruct Hsame as (_ & -> & _).
Qed.

(** What a delivery does to the registry and the queue. *)
Lemma deliver_effect id p h msg w :
  genuine p → delivery message_of id p h msg → db_inv w → db_settled w →
  let w' := (on_message unmarshal server_queue Invalidate msg w).2 in
  (acked w' = acked w ∧ db_specs w' = db_specs w) ∨
  ∃ u, p_update p = Some u ∧ content <$> db_specs w' = lww u (content <$> db_specs w) ∧ acked w' ⊆ acked w ∪ {[h]}.
Proof.
  intros Hgen Hd Hinv Hset. cbv zeta.
  destruct (on_message unmarshal server_queue Invalidate msg w) as [o w'] eqn:Hrun. cbn [snd].
  destruct (on_message_effect unmarshal server_queue Invalidate acked acked_Get acked_Put acked_Delete acked_Invalidate
    msg w o w' Hinv Hset Hrun) as [?|(e & rcv & ns & He & Hty & Hdec & Hs & Ha)]; [by left|right].
  eexists. split; [exact (decoded_update id p h msg e rcv ns Hgen Hd He Hty Hdec)|].
  rewrite (dl_handle _ _ _ _ _ Hd) in Ha. split; [|exact Ha].
  rewrite Hs. apply lww_norm. by rewrite norm_spec_idem.
Qed.

(** ** What holds in every reachable state *)

Definition asks_for s (u : ClusterSpec * Z) : Prop :=
  ∃ id p, posted s !! id = Some p ∧ p_update p = Some u.

Record sys_inv s : Prop := {
  si_db : db_inv (server s);
  si_genuine : map_Forall (λ _, genuine) (posted s);
  (** The registry is what some updates made of it, in some order: updates
      that were asked for, and all whose message is deleted. *)
  si_updates : ∃ us, content <$> db_specs (server s) = lww_all us ∅ ∧
    Forall (asks_for s) us ∧
    ∀ h p, h ∈ acked (server s) → posted s !! message_of h = Some p → ∃ u, p_update p = Some u ∧ u ∈ us;
  (** Only messages that were sent are deleted. *)
  si_deleted : ∀ h, h ∈ acked (server s) → is_Some (posted s !! message_of h) }.

(** Steps that leave the server alone and only add messages. *)
Lemma sys_inv_posted s c m q' :
  sys_inv s → map_Forall (λ _, genuine) q' → posted s ⊆ q' → sys_inv (mkSys c m q' (server s)).
Proof.
  intros [Hdb Hg (us & Hus & Hall & Hack) Hdel] Hq' Hsub. split; [done|done| |]; cbn.
  - exists us. split_and!; [done| |].
    + eapply Forall_impl; [exact Hall|]. intros u (id & p & Hp & Hu). exists id, p. split; [|done].
      by eapply lookup_weaken.
    + intros h p Hh Hp. destruct (Hdel h Hh) as [p' Hp'].
      assert (p' = p) as -> by (eapply lookup_weaken in Hp'; [|exact Hsub]; cbn in Hp; congruence). by apply Hack in Hp'.
  - intros h Hh. destruct (Hdel h Hh) as [p Hp]. exists p. by eapply lookup_weaken.
Qed.

Lemma sys_inv_deliver s id p h msg :
  sys_inv s → posted s !! id = Some p → delivery message_of id p h msg → db_settled (server s) →
  sys_inv (mkSys (clients s) (manager s) (posted s) (on_message unmarshal server_queue Invalidate msg (server s)).2).
Proof.
  intros [Hdb Hg (us & Hus & Hall & Hack) Hdel] Hp Hd Hset.
  assert (db_inv (on_message unmarshal server_queue Invalidate msg (server s)).2) as Hdb' by (by apply on_message_inv).
  destruct (deliver_effect id p h msg (server s) (Hg id p Hp) Hd Hdb Hset) as [[Ha Hs]|(u & Hu & Hs & Ha)]; cbn zeta in *;
    revert Hdb' Ha Hs; generalize (on_message unmarshal server_queue Invalidate msg (server s)).2; intros w' Hdb' Ha Hs.
  - split; cbn; [done|done| |by rewrite Ha]. exists us. rewrite Hs, Ha. done.
  - assert (∀ h', h' ∈ acked w' → h' ∈ acked (server s) ∨ message_of h' = id) as Hacked.
    { intros h' Hh'. apply Ha in Hh'. pose proof (dl_of _ _ _ _ _ Hd). set_solver. }
    split; cbn; [done|done| |].
    + exists (us ++ [u]). split_and!.
      * rewrite Hs, Hus. unfold lww_all. by rewrite foldl_app.
      * apply Forall_app. split; [done|]. apply Forall_singleton. by exists id, p.
      * intros h' p' Hh' Hp'. destruct (Hacked h' Hh') as [Hold| <-].
        -- destruct (Hack h' p' Hold Hp') as (u' & Hu' & Hin). exists u'. split; [done|set_solver].
        -- assert (p' = p) as -> by congruence. exists u. split; [done|set_solver].
    + intros h' Hh'. destruct (Hacked h' Hh') as [Hold| ->]; [by apply Hdel|by exists p].
Qed.

(** Steps keep the registry well formed, and the messages as they are sent. *)
Lemma sys_step_base s s' :
  sys_step s s' → db_inv (server s) → map_Forall (λ _, genuine) (posted s) →
  db_inv (server s') ∧ map_Forall (λ _, genuine) (posted s') ∧ posted s ⊆ posted s'.
Proof.
  intros Hstep Hdb Hg.
  destruct Hstep as [s k w ns n new q' Hk w' Hsent Hq|s k w' _|s ns n new q' m' Hsent Hq|s m' _|s id p h msg Hp Hd _|s w' Hdb' Hs Ha];
    cbn [server posted]; try done.
  - split; [done|]. apply (posts_genuine _ _ _ _ Hq); [|done].
    intros e He. destruct (client_Reconcile_sends wire_omits_empty (CA k) client_queue ns n w)
      as [Hs|(c & e' & Hc & He' & Hs)]; fold w' in Hs; rewrite Hs in Hsent.
    + apply (app_inv_tail _ [] new) in Hsent as <-. set_solver.
    + apply (app_inv_tail _ [e'] new) in Hsent as <-. rewrite Hc. cbn. set_solver.
  - split; [done|]. apply (posts_genuine _ _ _ _ Hq); [|done].
    intros e He. destruct (sync_Reconcile_sends handlers merge manager_queue ns n (manager s)) as [Hs|(id & body & Hs)];
      fold m' in Hs; rewrite Hs in Hsent.
    + apply (app_inv_tail _ [] new) in Hsent as <-. set_solver.
    + apply (app_inv_tail _ [sync_entry id body] new) in Hsent as <-. exists id, body. set_solver.
  - split; [by apply on_message_inv|done].
Qed.

Lemma sys_inv_step s s' : sys_step s s' → sys_inv s → sys_inv s'.
Proof.
  intros Hstep Hinv.
  destruct (sys_step_base s s' Hstep (si_db _ Hinv) (si_genuine _ Hinv)) as (_ & Hg & Hsub).
  destruct Hstep as [s k w ns n new q' Hk w' Hsent Hq|s k w' _|s ns n new q' m' Hsent Hq|s m' _|s id p h msg Hp Hd Hset|s w' Hdb Hs Ha];
    [by apply sys_inv_posted..|by eapply sys_inv_deliver|].
  destruct Hinv as [_ _ Hus Hdel]. split; cbn; [done|done|by rewrite Hs, Ha|by rewrite Ha].
Qed.

Lemma reachable_inv s : reachable s → sys_inv s.
Proof.
  intros (s0 & (Hq & Hdb & Hs & Ha) & Hrun).
  assert (sys_inv s0) as Hinit.
  { split; [done|by rewrite Hq; apply map_Forall_empty| |]; rewrite ?Ha; [|set_solver].
    exists []. rewrite Hs, fmap_empty. split_and!; [done|constructor|set_solver]. }
  clear Hq Hdb Hs Ha. induction Hrun as [s0|s0 s1 s2 Hstep _ IH]; [done|]. apply IH. by eapply sys_inv_step.
Qed.

(** The updates asked for are those of the objects that clients sent. *)
Lemma asks_for_origin s u :
  asks_for s u → ∃ id p c, posted s !! id = Some p ∧ p_origin p = Some c ∧ u = (norm_spec (Spec c), p_time p * 10 ^ 6).
Proof.
  intros (id & p & Hp & Hu). unfold p_update in Hu. destruct (p_origin p) as [c|] eqn:Ho; [|done].
  exists id, p, c. by injection Hu as <-.
Qed.

Lemma asks_for_range s u : sys_inv s → asks_for s u → int64_min ≤ u.2 ≤ int64_max.
Proof.
  intros Hinv (id & p & c & Hp & _ & ->)%asks_for_origin. destruct (si_genuine _ Hinv id p Hp) as [[_ Ht] _].
  unfold int64_min, int64_max. cbn [snd]. lia.
Qed.

(** The registry as the newest of the updates applied. *)
Lemma registry_newest s us n :
  sys_inv s → content <$> db_specs (server s) = lww_all us ∅ → Forall (asks_for s) us →
  newest us n (content <$> db_specs (server s) !! n).
Proof.
  intros Hinv Hus Hall. rewrite <- lookup_fmap, Hus. apply lww_all_newest.
  eapply Forall_impl; [exact Hall|]. intros u. by apply asks_for_range.
Qed.

(** The entry of a cluster is that of the message [p] about the object [c]. *)
Definition shows s (n : string) (p : Posted) (c : Cluster) : Prop :=
  p_origin p = Some c ∧ Name (Spec c) = n ∧
  ∃ sp, db_specs (server s) !! n = Some sp ∧ content sp = entry (Spec c) (p_time p * 10 ^ 6).

(** What the invariant says of the entries and of the deleted messages. *)
Lemma sys_inv_follows s :
  sys_inv s →
  (∀ n, is_Some (db_specs (server s) !! n) → ∃ id p c, posted s !! id = Some p ∧ shows s n p c) ∧
  (∀ id p c, posted s !! id = Some p → p_origin p = Some c → deleted s id →
     ∃ id' p' c', posted s !! id' = Some p' ∧ shows s (Name (Spec c)) p' c' ∧ p_time p ≤ p_time p').
Proof.
  intros Hinv. destruct (si_updates _ Hinv) as (us & Hus & Hall & Hack).
  assert (∀ n sp, db_specs (server s) !! n = Some sp → ∃ id p c, posted s !! id = Some p ∧ shows s n p c ∧
    ∀ v, v ∈ us → Name v.1 = n → v.2 ≤ p_time p * 10 ^ 6) as Hshow.
  { intros n sp Hsp. pose proof (registry_newest s us n Hinv Hus Hall) as Hn. rewrite Hsp in Hn.
    destruct Hn as (u & Hin & Hname & Hent & Hmax). rewrite Forall_forall in Hall.
    destruct (asks_for_origin _ _ (Hall u Hin)) as (id & p & c & Hp & Ho & ->). cbn [fst snd] in *.
    rewrite norm_spec_Name in Hname. rewrite entry_norm in Hent.
    exists id, p, c. split_and!; [done| |done]. split_and!; [done..|]. by exists sp. }
  split.
  - intros n [sp Hsp]. destruct (Hshow n sp Hsp) as (id & p & c & Hp & Hs & _). by exists id, p, c.
  - intros id p c Hp Ho (h & Hh & <-). destruct (Hack h p Hh Hp) as (u & Hu & Hin).
    unfold p_update in Hu. rewrite Ho in Hu. injection Hu as <-.
    pose proof (registry_newest s us (Name (Spec c)) Hinv Hus Hall) as Hn.
    destruct (db_specs (server s) !! Name (Spec c)) as [sp|] eqn:Hsp.
    + destruct (Hshow _ _ Hsp) as (id' & p' & c' & Hp' & Hs & Hmax). exists id', p', c'. split_and!; [done..|].
      specialize (Hmax _ Hin (norm_spec_Name _)). cbn [snd] in Hmax. lia.
    + destruct (Hn _ Hin). apply norm_spec_Name.
Qed.

(** Every message that a client sent was applied and deleted. *)
Definition drained s : Prop :=
  ∀ id p, posted s !! id = Some p → is_Some (p_origin p) → deleted s id.

(** The newest message about a cluster. *)
Definition latest s (n : string) (p : Posted) (c : Cluster) : Prop :=
  (∃ id, posted s !! id = Some p) ∧ p_origin p = Some c ∧ Name (Spec c) = n ∧
  ∀ id' p' c', posted s !! id' = Some p' → p_origin p' = Some c' → Name (Spec c') = n → p_time p' ≤ p_time p.

Lemma drained_registry s n :
  sys_inv s → drained s →
  match db_specs (server s) !! n with
  | Some sp => ∃ p c, latest s n p c ∧ content sp = entry (Spec c) (p_time p * 10 ^ 6)
  | None => ∀ id p c, posted s !! id = Some p → p_origin p = Some c → Name (Spec c) ≠ n
  end.
Proof.
  intros Hinv Hdr. destruct (si_updates _ Hinv) as (us & Hus & Hall & Hack).
  pose proof (registry_newest s us n Hinv Hus Hall) as Hn. rewrite Forall_forall in Hall.
  assert (∀ id p c, posted s !! id = Some p → p_origin p = Some c → (norm_spec (Spec c), p_time p * 10 ^ 6) ∈ us) as Hin.
  { intros id p c Hp Ho. destruct (Hdr id p Hp ltac:(by rewrite Ho)) as (h & Hh & <-).
    destruct (Hack h p Hh Hp) as (u & Hu & Hin). unfold p_update in Hu. rewrite Ho in Hu. by injection Hu as <-. }
  destruct (db_specs (server s) !! n) as [sp|].
  - destruct Hn as (u & Hu & Hname & Hent & Hmax).
    destruct (asks_for_origin _ _ (Hall u Hu)) as (id & p & c & Hp & Ho & ->). cbn [fst snd] in *.
    rewrite norm_spec_Name in Hname. rewrite entry_norm in Hent. exists p, c. split; [|done].
    split_and!; [by exists id|done|done|]. intros id' p' c' Hp' Ho' Hn'.
    specialize (Hmax _ (Hin _ _ _ Hp' Ho') ltac:(cbn; by rewrite norm_spec_Name)). cbn in Hmax. lia.
  - intros id p c Hp Ho Hc. destruct (Hn _ (Hin _ _ _ Hp Ho)). by rewrite <- Hc, <- (norm_spec_Name (Spec c)).
Qed.

(** A cluster of this name was sent by a client. *)
Definition announced s (n : string) : Prop :=
  ∃ id p c, posted s !! id = Some p ∧ p_origin p = Some c ∧ Name (Spec c) = n.

(** What the API answers when the messages of the clients have been applied. *)
Lemma drained_answers json s (x : Web.Context) :
  sys_inv s → db_settled (server s) → drained s → committed x = false →
  let name := Param "name" x in
  let r := mkReq (server s) x in
  ∃ r', V1.GetCluster json r = (Ret None, r') ∧ V2.GetCluster json r = (Ret None, r') ∧
    ((∃ n p c sp, (n = name ∨ GetClusterDashName name = (n, None) ∧ ¬ announced s name) ∧ latest s n p c ∧
        content sp = entry (Spec c) (p_time p * 10 ^ 6) ∧
        responds json r r' 200 (PSpec (set_ServiceMetadata None sp))) ∨
     (¬ announced s name ∧ (∀ n, GetClusterDashName name = (n, None) → ¬ announced s n) ∧
        responds json r r' 404 (PError "resource not found")) ∨
     resp_Status (ctx r') = 500 ∧ lookup_fails name (server s)).
Proof.
  intros Hinv Hset Hdr Hc name r.
  destruct (GetCluster_answers_settled json r (si_db _ Hinv) Hset Hc) as (r' & Hrun & Hrun2 & Hr).
  exists r'. split; [exact Hrun|]. split; [exact Hrun2|].
  change (Param "name" (ctx r)) with name in Hr. change (world r) with (server s) in Hr.
  destruct Hr as [Hr|?]; [|by right; right].
  assert (∀ n, db_specs (server s) !! n = None → ¬ announced s n) as Hnone.
  { intros n Hn (id & p & c & Hp & Ho & Hname). pose proof (drained_registry s n Hinv Hdr) as Hd.
    rewrite Hn in Hd. by apply (Hd id p c). }
  assert (∀ n sp, db_specs (server s) !! n = Some sp →
    ∃ p c, latest s n p c ∧ content sp = entry (Spec c) (p_time p * 10 ^ 6)) as Hsome.
  { intros n sp Hn. pose proof (drained_registry s n Hinv Hdr) as Hd. by rewrite Hn in Hd. }
  unfold resolve in Hr. destruct (db_specs (server s) !! name) as [sp|] eqn:Hsp.
  { left. destruct (Hsome _ _ Hsp) as (p & c & Hl & He). exists name, p, c, sp.
    split; [by left|]. split; [exact Hl|]. split; [exact He|exact Hr]. }
  destruct (GetClusterDashName name) as [dn [e|]]; [right; left; (split; [auto|split; [done|exact Hr]])|].
  destruct (db_specs (server s) !! dn) as [sp|] eqn:Hdn.
  - left. destruct (Hsome _ _ Hdn) as (p & c & Hl & He). exists dn, p, c, sp.
    split; [right; auto|]. split; [exact Hl|]. split; [exact He|exact Hr].
  - right; left. split; [auto|]. split; [intros n [= <-]; auto|exact Hr].
Qed.

(** ** The queue can always be drained *)

Section draining.
Context `{!Reliable Ws} (handle_of : string → string) (handle_of_message : ∀ id, message_of (handle_of id) = id).
Context (connected : svc server_queue = true).

Lemma Handle_succeeds event rcv ns (w : Ws) :
  db_inv w → up w → decode unmarshal event = Ret (Some (rcv, ns), None) →
  ∃ w', Handle unmarshal event w = (Ret None, w') ∧ up w'.
Proof.
  intros Hinv Hup Hd. unfold Handle. rewrite Hd, bind_lift. cbv beta iota zeta.
  destruct (up_Get (Name (Spec rcv)) w Hinv Hup) as (r & w1 & Hg & Hup1). rewrite (bind_run _ _ _ _ _ Hg).
  assert (db_inv w1) as Hinv1
    by (destruct (db_GetCluster_law (Name (Spec rcv)) w Hinv) as (? & ? & ? & Hg' & ? & _); congruence).
  unfold apply_update. destruct (skips (Unix0 ns) r); [by exists w1|].
  destruct (up_Put (stamp (Unix0 ns) rcv) w1 Hinv1 Hup1) as (c' & w2 & Hp & Hup2).
  - cbn [stamp update_Spec set_Spec Spec]. rewrite set_LastUpdated_eq, Parse_Format_Unix0 by (by eapply decode_time). by eexists.
  - rewrite (bind_run _ _ _ _ _ Hp). by exists w2.
Qed.

Lemma deliver_deletes id p c h msg (w : Ws) :
  genuine p → p_origin p = Some c → delivery message_of id p h msg → db_inv w → up w →
  let w' := (on_message unmarshal server_queue Invalidate msg w).2 in {[h]} ∪ acked w ⊆ acked w' ∧ up w'.
Proof.
  intros [[Hts Ht] Ho] Hor Hd Hinv Hup. rewrite Hor in Ho. destruct Ho as (eid & body & c' & Hentry & Hj & _).
  pose proof (dl_attributes _ _ _ _ _ Hd) as Hattr. rewrite Hentry in Hattr. cbn [entry_MessageAttributes update_entry] in Hattr.
  cbv zeta. unfold on_message. rewrite (dl_id _ _ _ _ _ Hd). cbn [deref]. rewrite bind_lift.
  rewrite NewEvent_spec, Hattr, lookup_fmap, lookup_insert_eq. cbn [fmap option_fmap option_map StringValue].
  rewrite decide_True by (by left). rewrite bind_lift. cbn [deref]. rewrite bind_lift.
  cbn [ev_Type]. rewrite bool_decide_eq_false_2 by tauto.
  destruct (wire_roundtrip c' body Hj) as (d & Hd' & _).
  assert (decode unmarshal (Some (mkEvent ClusterUpdateEvent (Some msg))) = Ret (Some (d, wrap64 (p_time p * 10 ^ 6)), None)) as Hdec.
  { unfold decode. cbn [ev_Type ev_Message]. rewrite bool_decide_eq_false_2 by tauto.
    rewrite (dl_body _ _ _ _ _ Hd), Hentry. cbn [deref entry_MessageBody update_entry].
    rewrite Hd', (dl_sent _ _ _ _ _ Hd). cbn [deref]. by rewrite Hts. }
  destruct (Handle_succeeds _ _ _ w Hinv Hup Hdec) as (w1 & Hh & Hup1). rewrite (bind_run _ _ _ _ _ Hh).
  pose proof (acked_Handle unmarshal acked acked_Get acked_Put (Some (mkEvent ClusterUpdateEvent (Some msg))) w) as Hack.
  rewrite Hh in Hack. cbn [snd] in Hack. rewrite <- Hack. clear Hh Hack.
  destruct (up_Delete (QueueURL server_queue) h w1 Hup1) as (w2 & Hdel & Hup2 & Hack2).
  assert (Delete server_queue msg w1 = (Ret None, w2)) as Hdel'.
  { unfold Delete. rewrite (dl_id _ _ _ _ _ Hd), connected, (dl_handle _ _ _ _ _ Hd). exact Hdel. }
  rewrite (bind_run _ _ _ _ _ Hdel'). unfold skips_invalidation. rewrite Hattr, lookup_fmap.
  rewrite !lookup_insert_ne, lookup_singleton_eq by done. cbn [fmap option_fmap option_map deref StringValue].
  rewrite bind_lift. destruct (bool_decide (FormatBool _ = _)); [done|]. rewrite bind_state.
  destruct (acked_Invalidate ["clusters"] w2) as [Ha _]. pose proof (up_Invalidate ["clusters"] w2 Hup2) as Hup3.
  destruct (Invalidate ["clusters"] w2) as [[x|e|] w3]; cbn in *; (split; [by rewrite Ha|done]).
Qed.

(** The message of an id as the queue hands it out. *)
Definition message (id : string) (p : Posted) : Message :=
  mkMessage (Some id) (Some (handle_of id)) (Some (entry_MessageBody (p_entry p)))
    {["SentTimestamp" := Some (p_sent p)]}
    ((λ v, Some (mkAttr (Some "String") (Some v))) <$> entry_MessageAttributes (p_entry p)).

Lemma message_delivery id p : delivery message_of id p (handle_of id) (message id p).
Proof. by split. Qed.

Lemma drain_list l s :
  sys_inv s → up (server s) → Forall (λ '(id, p), posted s !! id = Some p) l →
  ∃ s', rtc sys_step s s' ∧ posted s' = posted s ∧ acked (server s) ⊆ acked (server s') ∧
    Forall (λ '(id, p), is_Some (p_origin p) → deleted s' id) l.
Proof.
  revert s. induction l as [|[id p] l IH]; intros s Hinv Hup Hl.
  { exists s. split_and!; [done..|constructor]. }
  apply Forall_cons in Hl as [Hp Hl]. destruct (p_origin p) as [c|] eqn:Ho.
  - pose proof (message_delivery id p) as Hd.
    destruct (up_settles (server s) (si_db _ Hinv) Hup) as (w & Hdb & Hs & Ha0 & Hup0 & Hset).
    set (s0 := mkSys (clients s) (manager s) (posted s) w).
    assert (sys_step s s0) as Hwait by (by apply S_serve).
    pose proof (sys_inv_step s s0 Hwait Hinv) as Hinv0.
    destruct (deliver_deletes id p c _ _ w (si_genuine _ Hinv id p Hp) Ho Hd Hdb Hup0) as [Ha Hup'].
    pose proof (sys_inv_deliver s0 id p _ _ Hinv0 Hp Hd Hset) as Hinv'.
    destruct (IH _ Hinv' Hup' Hl) as (s' & Hrun & Hq & Ha' & Hdel). cbn [server posted] in *.
    exists s'. split; [eapply rtc_l; [exact Hwait|]; eapply rtc_l; [by eapply S_deliver|done]|].
    split; [done|]. split; [set_solver|].
    constructor; [|done]. intros _. exists (handle_of id). split; [set_solver|done].
  - destruct (IH s Hinv Hup Hl) as (s' & Hrun & Hq & Ha' & Hdel). exists s'. split_and!; [done..|].
    constructor; [|done]. rewrite Ho. by intros [].
Qed.

End draining.
End system.
