(* ===== verification/SystemWitness.v ===== *)
(** A system to run: one client over a finite map of objects, the sync manager of
    SyncWitness.v and the API server of MemDb.v, and a run in which both send a
    message and the server applies the client's. *)
From stdpp Require Import base gmap strings list option numbers sets relations.
From S2P Require Import Prelude GoStrings GoTime Encoding Registry MemDynamo Database Db Sqs MemDb EventHandler Web Handlers HandlersThms ApiWitness SyncParser SyncController SyncThms SyncWitness ClusterController System.

Local Open Scope Z_scope.

(** ** The API server *)

#[global] Instance MemQueueLaws : ApiQueueLaws World mem_Invalidate.
Proof.
  refine {| acked := λ w, list_to_set (w_acked w) |}.
  - exact (proj1 mem_acked_laws).
  - exact (proj2 mem_acked_laws).
  - intros url [h|] s; cbn; split; set_solver.
  - done.
  - intros url h s Hs. exact Hs.
  - intros tags s Hs. exact Hs.
Defined.

#[global] Instance MemReliable : Reliable World.
Proof.
  refine {| up := λ w, w_faults w = [] |}.
  - intros n w _ Hf. exists (w_copy w !! n), w. split; [|done].
    cbn. unfold mem_get, take_fault, mbind, M_bind, gets. by rewrite Hf.
  - intros c w _ Hf [t Ht]. cbn. unfold mem_put. rewrite Ht.
    unfold mem_get, take_fault, mbind, M_bind, gets, modify. rewrite Hf. cbn. rewrite Hf. eexists _, _. split; [done|]. exact Hf.
  - intros url h w Hf. eexists. split; [reflexivity|]. split; [exact Hf|]. cbn. set_solver.
  - intros tags w Hf. exact Hf.
  - intros w Hok Hf. exists (set_lagging None w). destruct Hok as [Hdb _]. by split_and!.
Defined.

(** ** A client: it encodes the objects that the server can decode *)

Record Node := mkNode { nd_objects : gmap (string * string) Cluster; nd_sent : list SendMessageBatchRequestEntry }.
Definition nd_stored (w : Node) : gmap (string * string) Cluster :=
  filter (λ kv, cluster_key kv.2 = kv.1) (nd_objects w).

Definition node_json (c : Cluster) : string * error :=
  let n := Name (Spec c) in
  if bool_decide (n ≠ "") && bool_decide (norm_spec (Spec c) = norm_spec (sample_spec n "va6" "prod" "Active" ""))
  then (n, nil_error) else ("", errorf "unsupported value").

#[global] Instance NodeEnv : ClusterEnv Node := {
  k8s_GetCluster ns n := gets (λ w, match nd_stored w !! (ns, n) with Some c => inl c | None => inr NotFoundErr end);
  k8s_UpdateCluster c :=
    (let c' := ClusterReconciler.set_server_fields "2" ["manager"] c in
     _ ← modify (λ w, mkNode (<[cluster_key c := c']> (nd_objects w)) (nd_sent w)); mret (c', nil_error));
  json_Cluster := node_json;
  sha256_sum s := "sha" +:+ s;
  uuid_New := mret (inl "uuid") }.

#[global] Instance NodeQueue : SQSService Node := {
  svc_GetQueueUrl name := mret (Some name, nil_error);
  svc_SendMessageBatch url es :=
    (_ ← modify (λ w, mkNode (nd_objects w) (es ++ nd_sent w)); mret (mkBatchResult [] [], nil_error));
  svc_DeleteMessage url h := mret nil_error;
  svc_ChangeMessageVisibility url h n := mret nil_error }.

#[global] Instance NodeLaws : ClusterEnvLaws Node.
Proof.
  refine {| stored := nd_stored; sent := nd_sent |}.
  - intros w k c Hc. by apply map_lookup_filter_Some in Hc as [_ Hc].
  - intros ns n w. eexists _, w. split_and!; [reflexivity|done..|]. by destruct (nd_stored w !! (ns, n)).
  - intros c w. exists "2", ["manager"], None,
      (mkNode (<[cluster_key c := ClusterReconciler.set_server_fields "2" ["manager"] c]> (nd_objects w)) (nd_sent w)).
    cbv zeta. split_and!; [reflexivity|done|]. left. unfold nd_stored. cbn. by rewrite map_filter_insert_True.
  - intros w. by eexists _, w.
  - intros url es w. eexists _, _, _. split_and!; [reflexivity|done|by left].
Defined.

#[global] Instance NodeWire : WireLaws Node mem_unmarshal.
Proof.
  split; [done|]. intros c body. cbn. unfold node_json, mem_unmarshal.
  case_bool_decide as Hn; [|done]. case_bool_decide as Hs; [|done]. cbn [andb]. intros [= <-].
  rewrite (bool_decide_eq_false_2 (Name (Spec c) = "")) by done. eexists. split; [done|]. by rewrite Hs.
Qed.

(** ** The sync manager *)

#[global] Instance DemoSyncLaws : SyncEnvLaws SyncWorld.
Proof.
  refine {| sync_sent := y_sent |}; try (intros; intros w; reflexivity).
  intros url es [l [] f]; [by left|by right].
Defined.

(** ** A run *)

Definition shop : Cluster := sample "shop" "va6" "prod" "Active" "".
Definition node : Node := mkNode {[("cluster-registry", "shop") := shop]} [].
Definition sys0 : Sys Node SyncWorld World :=
  mkSys {["k" := node]} (mkSState (mkSyncWorld [] false false) zeroSpec) ∅ emptyWorld.

(** The receipt handle of a message is its id with a prefix. *)
Definition handle_of (id : string) : string := "r" +:+ id.
Definition message_of (h : string) : string := drop_str 1 h.

(** The messages as the programs build them. *)
Definition shop_entry : SendMessageBatchRequestEntry :=
  default (mkEntry "" 0 "" ∅) (head (nd_sent (ClusterReconciler.Reconcile "" two_handlers "cluster-registry" "shop" node).2)).
Definition sync_entry0 : SendMessageBatchRequestEntry :=
  default (mkEntry "" 0 "" ∅) (head (y_sent (sworld
    (SyncController.Reconcile no_handlers last_wins two_handlers "ns" "c1" (manager sys0)).2))).
Definition m1 : Posted := mkPosted shop_entry "1700000000000" 1700000000000 (Some shop).
Definition m2 : Posted := mkPosted sync_entry0 "1700000000001" 1700000000001 None.

Definition sys1 : Sys Node SyncWorld World :=
  mkSys {["k" := (ClusterReconciler.Reconcile "" two_handlers "cluster-registry" "shop" node).2]} (manager sys0) {["1" := m1]} emptyWorld.
Definition sys2 : Sys Node SyncWorld World :=
  mkSys (clients sys1) (SyncController.Reconcile no_handlers last_wins two_handlers "ns" "c1" (manager sys0)).2
    (<["2" := m2]> {["1" := m1]}) emptyWorld.
Definition sys3 : Sys Node SyncWorld World :=
  mkSys (clients sys1) (manager sys2) (posted sys2)
    (on_message mem_unmarshal two_handlers mem_Invalidate (message handle_of "1" m1) emptyWorld).2.

Notation step := (sys_step (Invalidate := mem_Invalidate) mem_unmarshal (λ _, "") two_handlers two_handlers two_handlers
  no_handlers last_wins message_of).
Notation reached := (reachable (Invalidate := mem_Invalidate) mem_unmarshal (λ _, "") two_handlers two_handlers two_handlers
  no_handlers last_wins message_of).

Lemma handle_of_message id : message_of (handle_of id) = id.
Proof. done. Qed.

Lemma m1_timely : timely m1.
Proof. split; [vm_compute; reflexivity|cbn; lia]. Qed.
Lemma m2_timely : timely m2.
Proof. split; [vm_compute; reflexivity|cbn; lia]. Qed.

Lemma step1 : step sys0 sys1.
Proof.
  refine (S_client _ _ _ _ _ _ _ _ sys0 "k" node "cluster-registry" "shop" [shop_entry] {["1" := m1]} _ _ _).
  - reflexivity.
  - vm_compute. reflexivity.
  - assert (with_CA "" <$> stored node !! ("cluster-registry", "shop") = Some shop) as -> by (vm_compute; reflexivity).
    eapply (posts_cons _ _ _ "1"); [reflexivity|apply m1_timely|constructor].
Qed.
Lemma step2 : step sys1 sys2.
Proof.
  refine (S_sync _ _ _ _ _ _ _ _ sys1 "ns" "c1" [sync_entry0] (posted sys2) _ _).
  - vm_compute. reflexivity.
  - eapply (posts_cons _ _ _ "2"); [reflexivity|apply m2_timely|constructor].
Qed.
Lemma step3 : step sys2 sys3.
Proof.
  refine (S_deliver _ _ _ _ _ _ _ _ sys2 "1" m1 "r1" (message handle_of "1" m1) _ _ _); [reflexivity| |reflexivity].
  apply (message_delivery message_of handle_of handle_of_message).
Qed.

Lemma sys0_initial : initial (Invalidate := mem_Invalidate) sys0.
Proof. split_and!; try reflexivity. apply mem_ok_empty. Qed.

Lemma sys2_reachable : reached sys2.
Proof. exists sys0. split; [apply sys0_initial|]. eapply rtc_l; [apply step1|]. apply rtc_once, step2. Qed.
Lemma sys3_reachable : reached sys3.
Proof. destruct sys2_reachable as (s0 & Hi & Hr). exists s0. split; [done|]. eapply rtc_r; [exact Hr|apply step3]. Qed.

Lemma sys3_drained : drained (Invalidate := mem_Invalidate) message_of sys3.
Proof.
  intros id p Hp [c Hc]. cbn in Hp. apply lookup_insert_Some in Hp as [[<- <-]|[_ Hp]]; [done|].
  apply lookup_singleton_Some in Hp as [<- <-]. exists "r1". split; [|reflexivity]. vm_compute. done.
Qed.

(** ** Witnesses *)

(** The answer is the cluster. *)
Example shop_answer :
  resp_Body (ctx (V1.GetCluster demo_json (mkReq (server sys3)
    (mkCtx "GET" "/" "/" {["name" := "shop"]} ∅ "" "" ∅ false 0 ∅ ""))).2) = "shop" +:+ newline.
Proof. vm_compute. reflexivity. Qed.

