(* ===== verification/ConcurrentSystem.v ===== *)
(** The system of System.v with handlers that overlap.  The API server starts a
    goroutine for each message (Sqs.v); here its run of the function that
    cmd/apiserver registers is cut where other goroutines may run: it has read
    the database, it has applied the update, it has deleted the message.

    Whatever overlaps, nothing in the registry is made up.  No update is lost, and
    the API serves the newest, as long as no two handlers of one cluster are between
    their read and their write and each reads the entry that was written last;
    EventHandler.v shows updates to be lost otherwise. *)
From stdpp Require Import base gmap strings list option numbers sets relations.
From S2P Require Import Prelude GoStrings GoTime Encoding Registry MemDynamo Database Db Sqs MemDb EventHandler ConcurrentHandlers Web Handlers HandlersThms SyncParser SyncController SyncThms ClusterController System.

Local Open Scope Z_scope.

(** ** The phases of a handler *)

Section phases.
Context `{DbLaws W} `{SQSService W} (Invalidate : list string → M W error).
Context (unmarshal : string → Cluster * error) (q : Config).

(** What follows a successful [Handle]. *)
Definition finish_message (msg : Message) : M W () :=
  err ← Delete q msg;
  match err with
  | Some _ => mret ()
  | None =>
     skip ← lift (skips_invalidation msg);
     if (skip : bool) then mret () else (_ ← Invalidate ["clusters"]; mret ())
  end.

(** The function is its three phases in a row. *)
Lemma on_message_phases msg id e rcv ns :
  MessageId msg = Some id → NewEvent (Some msg) = Ret (Some e, None) → ev_Type e = ClusterUpdateEvent →
  decode unmarshal (Some e) = Ret (Some (rcv, ns), None) →
  ∀ w, on_message unmarshal q Invalidate msg w =
    ('(r, err) ← db_GetCluster (Name (Spec rcv));
     match err with
     | Some _ => mret ()
     | None =>
        err ← apply_update rcv (Unix0 ns) r;
        match err with Some _ => mret () | None => finish_message msg end
     end) w.
Proof.
  intros Hid He Hty Hd w. unfold on_message. rewrite Hid, He. cbn [deref]. rewrite !bind_lift. cbn [deref].
  rewrite bind_lift, bool_decide_eq_false_2 by (rewrite Hty; tauto).
  unfold Handle. rewrite Hd. unfold mbind, M_bind, lift.
  destruct (db_GetCluster (Name (Spec rcv)) w) as [[[r [er|]]|p|] w1]; [done| |done|done].
  cbv zeta. by destruct (apply_update rcv (Unix0 ns) r w1) as [[[er|]|p|] w2].
Qed.
End phases.

Section effects.
Context `{ApiQueueLaws W Invalidate} (q : Config).

Lemma apply_update_acked rcv t r : keeps acked (apply_update rcv t r).
Proof.
  unfold apply_update. destruct (skips t r); [by intros w|]. apply keeps_bind; [apply acked_Put|]. by intros [c err] w.
Qed.

Lemma Delete_effect msg w :
  acked (Delete q msg w).2 ⊆ acked w ∪ from_option singleton ∅ (ReceiptHandle msg) ∧
  db_specs (Delete q msg w).2 = db_specs w.
Proof.
  unfold Delete. rewrite bind_state. destruct (MessageId msg); cbn; [|set_solver].
  destruct (svc q); cbn; [apply acked_Delete|set_solver].
Qed.

(** Deleting a message and invalidating the cache leave the registry. *)
Lemma finish_message_effect msg w :
  db_inv w → let w' := (finish_message Invalidate q msg w).2 in
  db_inv w' ∧ acked w' ⊆ acked w ∪ from_option singleton ∅ (ReceiptHandle msg) ∧ db_specs w' = db_specs w.
Proof.
  intros Hdb. cbv zeta. unfold finish_message. rewrite bind_state. destruct (Delete_effect msg w) as [Ha Hs].
  assert (db_inv (Delete q msg w).2) as Hdb'.
  { unfold Delete. rewrite bind_state. destruct (MessageId msg); cbn; [|done]. destruct (svc q); [by apply inv_Delete|done]. }
  destruct (Delete q msg w) as [[[er|]|p|] w1]; cbn [snd] in *; try done.
  rewrite bind_state. destruct (skips_invalidation msg) as [[]|p|]; cbn [lift]; try done.
  rewrite bind_state. destruct (acked_Invalidate ["clusters"] w1) as [Ha2 Hs2].
  pose proof (inv_Invalidate ["clusters"] w1 Hdb') as Hdb2.
  destruct (Invalidate ["clusters"] w1) as [[x|p|] w2]; cbn in *; by rewrite Ha2, Hs2.
Qed.
End effects.

(** ** The system *)

(** A handler: the message it has, and what it has read. *)
Record Handler := mkHandler { h_id : string; h_receipt : string; h_msg : Message; h_flight : Flight }.
Definition h_name (k : Handler) : string := f_name (h_flight k).

Record CSys (Wc Wm Ws : Type) := mkCSys {
  base : Sys Wc Wm Ws; reading : list Handler; applied : list Handler }.
Arguments mkCSys {Wc Wm Ws}.
Arguments base {Wc Wm Ws}.
Arguments reading {Wc Wm Ws}.
Arguments applied {Wc Wm Ws}.

Definition set_server {Wc Wm Ws} (w : Ws) (s : Sys Wc Wm Ws) : Sys Wc Wm Ws :=
  mkSys (clients s) (manager s) (posted s) w.

Section system.
Context {Wc Wm Ws : Type} `{ClusterEnvLaws Wc} `{SyncEnvLaws Wm} `{ApiQueueLaws Ws Invalidate}.
Context (unmarshal : string → Cluster * error) `{!WireLaws Wc unmarshal}.
Context (CA : string → string) (client_queue manager_queue server_queue : Config).
Context (handlers : GroupVersionKind → option (list Obj → res ClusterSpec)).
Context (merge : ClusterSpec → ClusterSpec → ClusterSpec * error).
Context (message_of : string → string).
Notation CSys := (CSys Wc Wm Ws).
Notation sys_step := (sys_step unmarshal CA client_queue manager_queue server_queue handlers merge message_of).
Notation sys_inv := (sys_inv message_of).
Implicit Types (s : CSys).

(** [orderly] keeps a handler from reading while another one of the same cluster is
    between its read and its write, and while the last write of the cluster has not
    reached every copy; the source does neither. *)
Inductive csys_step (orderly : bool) : CSys → CSys → Prop :=
  (** Everything around the handlers; also a handler whose message is refused or
      whose read fails, which changes neither the registry nor the queue. *)
  | C_around s b :
     sys_step (base s) b → db_specs (server b) = db_specs (server (base s)) → acked (server b) = acked (server (base s)) →
     csys_step orderly s (mkCSys b (reading s) (applied s))
  | C_read s id p h msg e rcv ns r w :
     posted (base s) !! id = Some p → delivery message_of id p h msg →
     NewEvent (Some msg) = Ret (Some e, None) → ev_Type e = ClusterUpdateEvent →
     decode unmarshal (Some e) = Ret (Some (rcv, ns), None) →
     db_GetCluster (Name (Spec rcv)) (server (base s)) = (Ret (r, None), w) →
     (orderly = true → db_current (server (base s)) (Name (Spec rcv)) ∧ Name (Spec rcv) ∉ (h_name <$> reading s)) →
     csys_step orderly s (mkCSys (set_server w (base s)) (mkHandler id h msg (mkFlight rcv ns r) :: reading s) (applied s))
  | C_write s ks1 k ks2 err w :
     reading s = ks1 ++ k :: ks2 → let f := h_flight k in
     apply_update (f_rcv f) (Unix0 (f_ns f)) (f_read f) (server (base s)) = (Ret err, w) →
     csys_step orderly s (mkCSys (set_server w (base s)) (ks1 ++ ks2)
       (if bool_decide (err = None) then k :: applied s else applied s))
  | C_finish s ks1 k ks2 :
     applied s = ks1 ++ k :: ks2 →
     csys_step orderly s (mkCSys (set_server (finish_message Invalidate server_queue (h_msg k) (server (base s))).2 (base s))
       (reading s) (ks1 ++ ks2)).

Definition creachable (orderly : bool) s : Prop :=
  ∃ s0, initial (base s0) ∧ reading s0 = [] ∧ applied s0 = [] ∧ rtc (csys_step orderly) s0 s.

Lemma csys_step_any orderly s s' : csys_step orderly s s' → csys_step false s s'.
Proof. destruct 1; [by apply C_around|by eapply C_read|by eapply C_write|by eapply C_finish]. Qed.

Lemma creachable_any orderly s : creachable orderly s → creachable false s.
Proof.
  intros (s0 & Hi & Hr & Ha & Hrun). exists s0. split_and!; [done..|].
  eapply (rtc_congruence id); [|exact Hrun]. intros x y. apply csys_step_any.
Qed.

(** ** What holds in every reachable state *)

Definition h_update (k : Handler) : ClusterSpec * Z := (norm_spec (Spec (f_rcv (h_flight k))), f_ns (h_flight k)).

(** A handler works on a message of the queue. *)
Definition carries s (k : Handler) : Prop :=
  ∃ p, posted (base s) !! h_id k = Some p ∧ p_update p = Some (h_update k) ∧
    message_of (h_receipt k) = h_id k ∧ ReceiptHandle (h_msg k) = Some (h_receipt k).

Lemma carries_mono s s' k : posted (base s) ⊆ posted (base s') → carries s k → carries s' k.
Proof. intros Hsub (p & Hp & Hrest). exists p. split; [by eapply lookup_weaken|done]. Qed.

(** A handler that has read a message carries it. *)
Lemma read_carries s id p h msg e rcv ns r ks w :
  map_Forall (λ _, genuine) (posted (base s)) → posted (base s) !! id = Some p → delivery message_of id p h msg →
  NewEvent (Some msg) = Ret (Some e, None) → ev_Type e = ClusterUpdateEvent →
  decode unmarshal (Some e) = Ret (Some (rcv, ns), None) →
  carries (mkCSys (set_server w (base s)) ks (applied s)) (mkHandler id h msg (mkFlight rcv ns r)).
Proof.
  intros Hg Hp Hd He Hty Hdec. exists p. split; [done|]. split.
  - eapply (decoded_update unmarshal); [exact (Hg id p Hp)|exact Hd|exact He|exact Hty|exact Hdec].
  - split; [apply (dl_of _ _ _ _ _ Hd)|apply (dl_handle _ _ _ _ _ Hd)].
Qed.

(** *** However handlers overlap and whatever reads show *)

(** The entries are those of messages, and deleted messages are of clients. *)
Record open_inv s : Prop := {
  oi_db : db_inv (server (base s));
  oi_genuine : map_Forall (λ _, genuine) (posted (base s));
  oi_reading : Forall (carries s) (reading s);
  oi_range : Forall (λ k, int64_min ≤ f_ns (h_flight k) ≤ int64_max) (reading s);
  oi_applied : Forall (carries s) (applied s);
  oi_entries : ∀ n sp, (content <$> db_specs (server (base s))) !! n = Some sp →
    ∃ u, asks_for (base s) u ∧ Name u.1 = n ∧ sp = entry u.1 u.2;
  oi_deleted : ∀ h, h ∈ acked (server (base s)) →
    ∃ p u, posted (base s) !! message_of h = Some p ∧ p_update p = Some u }.

Lemma open_inv_around s b :
  open_inv s → sys_step (base s) b → db_specs (server b) = db_specs (server (base s)) →
  acked (server b) = acked (server (base s)) → open_inv (mkCSys b (reading s) (applied s)).
Proof.
  intros [Hdb Hg Hr Hns Hap Hent Hdel] Hstep Hs Ha.
  destruct (sys_step_base _ _ _ _ _ _ _ _ _ _ Hstep Hdb Hg) as (Hdb' & Hg' & Hsub). split; cbn; [done|done| |done| | |].
  - eapply Forall_impl; [exact Hr|]. intros k. by apply carries_mono.
  - eapply Forall_impl; [exact Hap|]. intros k. by apply carries_mono.
  - intros n sp Hn. rewrite Hs in Hn. destruct (Hent n sp Hn) as (u & (id & p & Hp & Hu) & Hrest).
    exists u. split; [|done]. exists id, p. split; [by eapply lookup_weaken|done].
  - intros h Hh. rewrite Ha in Hh. destruct (Hdel h Hh) as (p & u & Hp & Hu). exists p, u.
    split; [by eapply lookup_weaken|done].
Qed.

Lemma open_inv_write s ks1 k ks2 err w :
  open_inv s → reading s = ks1 ++ k :: ks2 → let f := h_flight k in
  apply_update (f_rcv f) (Unix0 (f_ns f)) (f_read f) (server (base s)) = (Ret err, w) →
  open_inv (mkCSys (set_server w (base s)) (ks1 ++ ks2) (if bool_decide (err = None) then k :: applied s else applied s)).
Proof.
  intros [Hdb Hg Hr Hns Hap Hent Hdel] Hk f Hw. subst f. rewrite Hk in Hr, Hns.
  apply Forall_app in Hr as [Hr1 [Hrk Hr2]%Forall_cons]. apply Forall_app in Hns as [Hns1 [Hnsk Hns2]%Forall_cons].
  destruct (apply_update_effect (f_rcv (h_flight k)) (f_ns (h_flight k)) (f_read (h_flight k)) _ Hdb Hnsk)
    as (err' & w' & Hw' & Hdb' & Heff). rewrite Hw in Hw'. simplify_eq.
  pose proof (apply_update_acked (f_rcv (h_flight k)) (Unix0 (f_ns (h_flight k))) (f_read (h_flight k)) (server (base s))) as Ha.
  rewrite Hw in Ha. cbn [snd] in Ha.
  split; cbn; [done|done|by apply Forall_app|by apply Forall_app|by case_bool_decide; [constructor|]| |by rewrite Ha].
  intros n sp Hn.
  assert ((content <$> db_specs (server (base s))) !! n = Some sp ∨
    n = f_name (h_flight k) ∧ sp = entry (Spec (f_rcv (h_flight k))) (f_ns (h_flight k))) as [Hold|[-> ->]].
  { destruct Heff as [Heff|[_ Heff]]; rewrite Heff in Hn; [|by left]. unfold overwrites in Hn.
    destruct (seen_newer _ _); [by left|]. apply lookup_insert_Some in Hn as [[<- <-]|[_ Hn]]; [by right|by left]. }
  - by apply Hent.
  - destruct Hrk as (p & Hp & Hu & _). exists (h_update k). split; [by exists (h_id k), p|]. cbn.
    split; [apply norm_spec_Name|by rewrite entry_norm].
Qed.

Lemma open_inv_finish s ks1 k ks2 :
  open_inv s → applied s = ks1 ++ k :: ks2 →
  open_inv (mkCSys (set_server (finish_message Invalidate server_queue (h_msg k) (server (base s))).2 (base s)) (reading s) (ks1 ++ ks2)).
Proof.
  intros [Hdb Hg Hr Hns Hap Hent Hdel] Hk.
  destruct (finish_message_effect server_queue (h_msg k) (server (base s)) Hdb) as (Hdb' & Ha & Hs).
  rewrite Hk in Hap. apply Forall_app in Hap as [Hap1 [(p & Hp & Hu & Hmsg & Hrec) Hap2]%Forall_cons].
  rewrite Hrec in Ha. cbn in Ha. split; cbn; [done|done|done|done|by apply Forall_app| |].
  - intros n sp. rewrite Hs. apply Hent.
  - intros h Hh. apply Ha in Hh. apply elem_of_union in Hh as [Hh| ->%elem_of_singleton]; [by apply Hdel|].
    exists p, (h_update k). by rewrite Hmsg.
Qed.

Lemma creachable_open orderly s : creachable orderly s → open_inv s.
Proof.
  intros (s0 & (Hq & Hdb & Hs & Ha) & Hr & Hap & Hrun).
  assert (open_inv s0) as Hinit.
  { split; rewrite ?Hr, ?Hap, ?Hq, ?Ha, ?Hs, ?fmap_empty; [done|apply map_Forall_empty|constructor..|done|set_solver]. }
  clear Hq Hdb Hs Ha Hr Hap. induction Hrun as [s|s s1 s2 Hstep _ IH]; [done|]. apply IH. clear IH.
  destruct Hstep as [s b Hb Hs Ha|s id p h msg e rcv ns r w Hp Hd He Hty Hdec Hget _|s ks1 k ks2 err w Hk f Hw|s ks1 k ks2 Hk];
    [by apply open_inv_around| |by eapply open_inv_write|by apply open_inv_finish].
  destruct Hinit as [Hdb Hg Hr Hns Hap Hent Hdel].
  destruct (db_GetCluster_law (Name (Spec rcv)) (server (base s)) Hdb) as (r' & err & w' & Hg' & Hdb' & Hs & _).
  rewrite Hget in Hg'. simplify_eq.
  pose proof (acked_Get (Name (Spec rcv)) (server (base s))) as Ha. rewrite Hget in Ha. cbn [snd] in Ha.
  split; cbn; [done|done| | |done|by rewrite Hs|by rewrite Ha].
  - constructor; [by eapply read_carries|done].
  - constructor; [by eapply decode_time|done].
Qed.

(** *** Handlers of one cluster that do not overlap and read what was written *)

Record csys_inv s : Prop := {
  cs_db : db_inv (server (base s));
  cs_genuine : map_Forall (λ _, genuine) (posted (base s));
  cs_names : NoDup (f_name <$> (h_flight <$> reading s));
  cs_current : Forall (current (server (base s))) (h_flight <$> reading s);
  cs_reading : Forall (carries s) (reading s);
  cs_applied : Forall (carries s) (applied s);
  cs_updates : ∃ us, content <$> db_specs (server (base s)) = lww_all us ∅ ∧ Forall (asks_for (base s)) us ∧
    (∀ h p, h ∈ acked (server (base s)) → posted (base s) !! message_of h = Some p → ∃ u, p_update p = Some u ∧ u ∈ us) ∧
    Forall (λ k, h_update k ∈ us) (applied s);
  cs_deleted : ∀ h, h ∈ acked (server (base s)) → is_Some (posted (base s) !! message_of h) }.

Lemma csys_inv_base s : csys_inv s → sys_inv (base s).
Proof. intros [Hdb Hg _ _ _ _ (us & Hus & Hall & Hack & _) Hdel]. split; [done|done|by exists us|done]. Qed.

Lemma csys_inv_around s b :
  csys_inv s → sys_step (base s) b → db_specs (server b) = db_specs (server (base s)) →
  acked (server b) = acked (server (base s)) → csys_inv (mkCSys b (reading s) (applied s)).
Proof.
  intros Hinv Hstep Hs Ha.
  destruct (sys_step_base _ _ _ _ _ _ _ _ _ _ Hstep (cs_db _ Hinv) (cs_genuine _ Hinv)) as (_ & _ & Hsub).
  pose proof (sys_inv_step _ _ _ _ _ _ _ _ _ _ Hstep (csys_inv_base s Hinv)) as [Hdb Hg _ Hdel'].
  destruct Hinv as [_ _ Hnd Hcur Hr Hap (us & Hus & Hall & Hack & Happ) Hdel].
  split; cbn; [done|done|done| | | | |done].
  - eapply Forall_impl; [exact Hcur|]. intros f. apply current_same. by rewrite Hs.
  - eapply Forall_impl; [exact Hr|]. intros k. by apply carries_mono.
  - eapply Forall_impl; [exact Hap|]. intros k. by apply carries_mono.
  - exists us. rewrite Hs. split_and!; [done| | |done].
    + eapply Forall_impl; [exact Hall|]. intros u (id & p & Hp & Hu). exists id, p. split; [by eapply lookup_weaken|done].
    + intros h p Hh Hp. rewrite Ha in Hh. destruct (Hdel h Hh) as [p' Hp'].
      assert (p' = p) as -> by (eapply lookup_weaken in Hp'; [|exact Hsub]; congruence). by apply Hack in Hp'.
Qed.

Lemma csys_inv_read s id p h msg e rcv ns r w :
  csys_inv s → posted (base s) !! id = Some p → delivery message_of id p h msg →
  NewEvent (Some msg) = Ret (Some e, None) → ev_Type e = ClusterUpdateEvent →
  decode unmarshal (Some e) = Ret (Some (rcv, ns), None) →
  db_GetCluster (Name (Spec rcv)) (server (base s)) = (Ret (r, None), w) →
  db_current (server (base s)) (Name (Spec rcv)) → Name (Spec rcv) ∉ (h_name <$> reading s) →
  csys_inv (mkCSys (set_server w (base s)) (mkHandler id h msg (mkFlight rcv ns r) :: reading s) (applied s)).
Proof.
  intros [Hdb Hg Hnd Hcur Hr Hap (us & Hus & Hall & Hack & Happ) Hdel] Hp Hd He Hty Hdec Hget Hcl Hex.
  destruct (db_GetCluster_current (Name (Spec rcv)) (server (base s)) Hdb Hcl) as (r' & err & w' & Hg' & Hdb' & Hs & Hread & _).
  rewrite Hget in Hg'. simplify_eq. specialize (Hread eq_refl).
  pose proof (acked_Get (Name (Spec rcv)) (server (base s))) as Ha. rewrite Hget in Ha. cbn [snd] in Ha.
  split; cbn; [done|done| | | |done| |by rewrite Ha].
  - constructor; [|done]. by rewrite <- list_fmap_compose.
  - constructor; [|eapply Forall_impl; [exact Hcur|]; intros f; apply current_same; by rewrite Hs].
    split; [|by eapply decode_time]. cbn. by rewrite Hread, Hs, lookup_fmap.
  - constructor; [by eapply read_carries|done].
  - exists us. rewrite Hs, Ha. done.
Qed.

Lemma csys_inv_write s ks1 k ks2 err w :
  csys_inv s → reading s = ks1 ++ k :: ks2 → let f := h_flight k in
  apply_update (f_rcv f) (Unix0 (f_ns f)) (f_read f) (server (base s)) = (Ret err, w) →
  csys_inv (mkCSys (set_server w (base s)) (ks1 ++ ks2) (if bool_decide (err = None) then k :: applied s else applied s)).
Proof.
  intros [Hdb Hg Hnd Hcur Hr Hap (us & Hus & Hall & Hack & Happ) Hdel] Hk f Hw. subst f.
  rewrite Hk, fmap_app, fmap_cons in Hnd, Hcur. rewrite Hk in Hr. apply Forall_app in Hr as [Hr1 [Hrk Hr2]%Forall_cons].
  destruct (write_effect unmarshal _ _ _ _ _ _ Hdb Hnd Hcur Hw) as (Hdb' & Hnd' & Hcur' & vs & Hvs & Hvsub & Hvok).
  rewrite <- fmap_app in Hnd', Hcur'.
  pose proof (apply_update_acked (f_rcv (h_flight k)) (Unix0 (f_ns (h_flight k))) (f_read (h_flight k)) (server (base s))) as Ha. rewrite Hw in Ha. cbn [snd] in Ha.
  destruct Hrk as (p & Hp & Hu & Hrest).
  assert (∃ us', content <$> db_specs w = lww_all (us ++ us') ∅ ∧ us' ⊆ [h_update k] ∧ (err = None → h_update k ∈ us'))
    as (us' & Hus' & Hsub & Hin).
  { assert (lww_all [f_update (h_flight k)] (lww_all us ∅) = lww_all (us ++ [h_update k]) ∅) as Hone.
    { unfold lww_all. rewrite foldl_app. cbn [foldl]. apply (lww_norm (Spec (f_rcv (h_flight k))) (norm_spec (Spec (f_rcv (h_flight k)))) (f_ns (h_flight k))).
      by rewrite norm_spec_idem. }
    destruct Hvsub as [->| ->]; [exists []|exists [h_update k]].
    - rewrite app_nil_r, <- Hus. split_and!; [done|set_solver|by intros ?%Hvok].
    - rewrite Hvs, Hus, Hone. split_and!; [done|done|set_solver]. }
  split; cbn; [done|done|done|done|by apply Forall_app| | |by rewrite Ha].
  - case_bool_decide; [|done]. constructor; [by exists p|done].
  - exists (us ++ us'). split_and!; [done| | |].
    + apply Forall_app. split; [done|]. apply Forall_forall. intros u Hin'. apply Hsub, list_elem_of_singleton in Hin' as ->.
      by exists (h_id k), p.
    + intros h p' Hh Hp'. rewrite Ha in Hh. destruct (Hack h p' Hh Hp') as (u & Hu' & Hin'). exists u. set_solver.
    + assert (Forall (λ k, h_update k ∈ us ++ us') (applied s)) as Hold
        by (eapply Forall_impl; [exact Happ|]; set_solver).
      case_bool_decide; [|done]. constructor; [|done]. apply elem_of_app. right. by apply Hin.
Qed.

Lemma csys_inv_finish s ks1 k ks2 :
  csys_inv s → applied s = ks1 ++ k :: ks2 →
  csys_inv (mkCSys (set_server (finish_message Invalidate server_queue (h_msg k) (server (base s))).2 (base s)) (reading s) (ks1 ++ ks2)).
Proof.
  intros [Hdb Hg Hnd Hcur Hr Hap (us & Hus & Hall & Hack & Happ) Hdel] Hk.
  destruct (finish_message_effect server_queue (h_msg k) (server (base s)) Hdb) as (Hdb' & Ha & Hs).
  revert Hdb' Ha Hs. generalize (finish_message Invalidate server_queue (h_msg k) (server (base s))).2. intros w Hdb' Ha Hs.
  rewrite Hk in Hap, Happ. apply Forall_app in Hap as [Hap1 [(p & Hp & Hu & Hmsg & Hrec) Hap2]%Forall_cons].
  apply Forall_app in Happ as [Happ1 [Happk Happ2]%Forall_cons]. rewrite Hrec in Ha. cbn in Ha.
  assert (∀ h, h ∈ acked w → h ∈ acked (server (base s)) ∨ message_of h = h_id k) as Hacked by set_solver.
  split; cbn; [done|done|done| |done|by apply Forall_app| |].
  - eapply Forall_impl; [exact Hcur|]. intros f. apply current_same. by rewrite Hs.
  - exists us. rewrite Hs. split_and!; [done|done| |by apply Forall_app].
    intros h p' Hh Hp'. destruct (Hacked h Hh) as [Hold|Heq]; [by apply (Hack h p')|].
    rewrite Heq in Hp'. assert (p' = p) as -> by congruence. by exists (h_update k).
  - intros h Hh. destruct (Hacked h Hh) as [Hold|Heq]; [by apply Hdel|]. rewrite Heq. by exists p.
Qed.

Lemma creachable_inv s : creachable true s → csys_inv s.
Proof.
  intros (s0 & (Hq & Hdb & Hs & Ha) & Hr & Hap & Hrun).
  assert (csys_inv s0) as Hinit.
  { split; rewrite ?Hr, ?Hap, ?Hq, ?Ha; [done|apply map_Forall_empty|constructor..| |set_solver].
    exists []. rewrite Hs, fmap_empty. split_and!; [done|constructor|set_solver|constructor]. }
  clear Hq Hdb Hs Ha Hr Hap. induction Hrun as [s|s s1 s2 Hstep _ IH]; [done|]. apply IH. clear IH.
  destruct Hstep as [s b Hb Hs Ha|s id p h msg e rcv ns r w Hp Hd He Hty Hdec Hget Hord|s ks1 k ks2 err w Hk f Hw|s ks1 k ks2 Hk];
    [by apply csys_inv_around| |by apply csys_inv_write|by apply csys_inv_finish].
  destruct (Hord eq_refl). by eapply csys_inv_read.
Qed.

(** ** What the programs guarantee *)

(** C1: Nothing in the registry is made up.  In every reachable state, however
    handlers overlap, whatever was delivered twice, late or out of order, however
    old the entries are that reads show and whatever calls failed, each entry is
    that of an object which a client had when it reconciled it, with the time of
    the message about it; and only messages of clients are ever deleted. *)
Theorem registry_never_made_up orderly s :
  creachable orderly s → let b := base s in
  (∀ n, is_Some (db_specs (server b) !! n) → ∃ id p c, posted b !! id = Some p ∧ shows b n p c) ∧
  (∀ id, deleted message_of b id → ∃ p c, posted b !! id = Some p ∧ p_origin p = Some c).
Proof.
  intros [_ _ _ _ _ Hent Hdel]%creachable_open b. subst b. split.
  - intros n [sp Hsp]. destruct (Hent n (content sp)) as (u & Hu & Hn & He); [by rewrite lookup_fmap, Hsp|].
    destruct (asks_for_origin _ _ Hu) as (id & p & c & Hp & Ho & ->). cbn [fst snd] in *.
    rewrite norm_spec_Name in Hn. rewrite entry_norm in He. exists id, p, c.
    do 3 (split; [done|]). by exists sp.
  - intros id (h & Hh & <-). destruct (Hdel h Hh) as (p & u & Hp & Hu). exists p. unfold p_update in Hu.
    destruct (p_origin p) as [c|]; [by exists c|done].
Qed.

(** C6: With handlers that overlap, nothing in the registry is made up and no
    update is lost, as long as no two handlers of one cluster are between their
    read and their write and each handler reads the entry written last: in every
    reachable state each entry is that of an object which a client had, and once a
    message of a client is deleted the entry of its cluster is that of a message at
    least as new. *)
Theorem overlapping_handlers_follow_clients s :
  creachable true s → let b := base s in
  (∀ n, is_Some (db_specs (server b) !! n) → ∃ id p c, posted b !! id = Some p ∧ shows b n p c) ∧
  (∀ id p c, posted b !! id = Some p → p_origin p = Some c → deleted message_of b id →
     ∃ id' p' c', posted b !! id' = Some p' ∧ shows b (Name (Spec c)) p' c' ∧ p_time p ≤ p_time p').
Proof. intros Hinv%creachable_inv%csys_inv_base. by eapply sys_inv_follows. Qed.

(** What the API answers in such a state. *)
Lemma overlapped_answers json s (x : Web.Context) :
  creachable true s → let b := base s in db_settled (server b) → drained message_of b → committed x = false →
  let name := Param "name" x in
  let r := mkReq (server b) x in
  ∃ r', V1.GetCluster json r = (Ret None, r') ∧ V2.GetCluster json r = (Ret None, r') ∧
    ((∃ n p c sp, (n = name ∨ GetClusterDashName name = (n, None) ∧ ¬ announced b name) ∧ latest b n p c ∧
        content sp = entry (Spec c) (p_time p * 10 ^ 6) ∧
        responds json r r' 200 (PSpec (set_ServiceMetadata None sp))) ∨
     (¬ announced b name ∧ (∀ n, GetClusterDashName name = (n, None) → ¬ announced b n) ∧
        responds json r r' 404 (PError "resource not found")) ∨
     resp_Status (ctx r') = 500 ∧ lookup_fails name (server b)).
Proof. intros Hinv%creachable_inv%csys_inv_base. by eapply drained_answers. Qed.

(** C2: From a reconciliation to the answer of the API.  When no two handlers of
    one cluster are between their read and their write and each handler reads the
    entry written last, then, once the messages of the clients are applied and
    deleted and the writes have reached every copy, GET /clusters/:name (v1 and v2
    alike) answers 200 when a client sent a cluster of that name, or of the name it
    is short for, with the specification of the newest of its messages as its body:
    the object the client had, with the time of the message and without the service
    metadata; 404 when none was sent, and 500 only when the read of the database
    fails. *)
Theorem api_serves_newest json s (x : Web.Context) :
  creachable true s → let b := base s in db_settled (server b) → drained message_of b → committed x = false →
  let name := Param "name" x in
  let r := mkReq (server b) x in
  ∃ r', V1.GetCluster json r = (Ret None, r') ∧ V2.GetCluster json r = (Ret None, r') ∧
    ((∃ n p c sp, (n = name ∨ GetClusterDashName name = (n, None) ∧ ¬ announced b name) ∧ latest b n p c ∧
        content sp = entry (Spec c) (p_time p * 10 ^ 6) ∧
        responds json r r' 200 (PSpec (set_ServiceMetadata None sp))) ∨
     (¬ announced b name ∧ (∀ n, GetClusterDashName name = (n, None) → ¬ announced b n) ∧
        responds json r r' 404 (PError "resource not found")) ∨
     resp_Status (ctx r') = 500 ∧ lookup_fails name (server b)).
Proof. apply overlapped_answers. Qed.

(** A message that the sync manager sent leaves the registry and the queue. *)
Lemma sync_message_effect p id h msg (w : Ws) :
  genuine p → p_origin p = None → delivery message_of id p h msg →
  (on_message unmarshal server_queue Invalidate msg w).2 = w.
Proof.
  intros [_ Ho] Hor Hd. rewrite Hor in Ho. destruct Ho as (eid & body & Hentry).
  unfold on_message. rewrite (dl_id _ _ _ _ _ Hd). cbn [deref]. rewrite bind_lift.
  rewrite NewEvent_spec, (dl_attributes _ _ _ _ _ Hd), lookup_fmap, Hentry. cbn [entry_MessageAttributes sync_entry].
  rewrite lookup_singleton_eq. cbn [fmap option_fmap option_map StringValue]. rewrite decide_True by (by right).
  rewrite bind_lift. cbn [deref]. rewrite bind_lift. cbn [ev_Type]. by rewrite bool_decide_eq_true_2.
Qed.

(** C9: What the sync manager sends ends in the queue.  However handlers overlap
    and whatever reads show, the function that the API server registers does
    nothing about such a message, so it stays in the queue. *)
Theorem sync_messages_stay orderly s id p :
  creachable orderly s → let b := base s in
  posted b !! id = Some p → p_origin p = None →
  ¬ deleted message_of b id ∧
  ∀ h msg, delivery message_of id p h msg →
    (on_message unmarshal server_queue Invalidate msg (server b)).2 = server b.
Proof.
  intros [_ Hg _ _ _ _ Hdel]%creachable_open b Hp Ho. subst b. split.
  - intros (h & Hh & <-). destruct (Hdel h Hh) as (p' & u & Hp' & Hu). rewrite Hp in Hp'.
    injection Hp' as <-. unfold p_update in Hu. by rewrite Ho in Hu.
  - intros h msg Hd. exact (sync_message_effect p id h msg _ (Hg id p Hp) Ho Hd).
Qed.

(** ** Runs of System.v are runs of this system *)

Lemma deliver_overlaps orderly (b : Sys Wc Wm Ws) id p h msg :
  db_inv (server b) → posted b !! id = Some p → delivery message_of id p h msg → db_settled (server b) →
  rtc (csys_step orderly) (mkCSys b [] [])
    (mkCSys (set_server (on_message unmarshal server_queue Invalidate msg (server b)).2 b) [] []).
Proof.
  intros Hdb Hp Hd Hset.
  assert (∀ w, w = (on_message unmarshal server_queue Invalidate msg (server b)).2 →
    db_specs w = db_specs (server b) → acked w = acked (server b) →
    rtc (csys_step orderly) (mkCSys b [] []) (mkCSys (set_server w b) [] [])) as Hquiet.
  { intros w -> Hs Ha. apply rtc_once. apply (C_around orderly (mkCSys b [] [])); [by eapply S_deliver|done|done]. }
  destruct (on_message unmarshal server_queue Invalidate msg (server b)) as [o w] eqn:Hrun.
  destruct (on_message_effect unmarshal server_queue Invalidate acked acked_Get acked_Put acked_Delete acked_Invalidate
    msg (server b) o w Hdb Hset Hrun) as [[Ha Hs]|(e & rcv & ns & He & Hty & Hdec & _)]; [by apply Hquiet|].
  apply (f_equal snd) in Hrun.
  rewrite (on_message_phases Invalidate unmarshal server_queue msg id e rcv ns (dl_id _ _ _ _ _ Hd) He Hty Hdec) in Hrun.
  destruct (db_GetCluster_law (Name (Spec rcv)) (server b) Hdb) as (r & err & w1 & Hg & Hdb1 & Hs1 & _).
  pose proof (acked_Get (Name (Spec rcv)) (server b)) as Ha1. rewrite Hg in Ha1. cbn [snd] in Ha1.
  rewrite bind_state, Hg in Hrun. cbn [snd] in Hrun |- *. destruct err as [er|].
  { cbn in Hrun. subst w. by apply Hquiet. }
  set (k := mkHandler id h msg (mkFlight rcv ns r)).
  eapply rtc_l.
  { eapply (C_read orderly (mkCSys b [] [])); [exact Hp|exact Hd|exact He|exact Hty|exact Hdec|exact Hg|].
    intros _. split; [by apply settled_current|set_solver]. }
  destruct (apply_update_effect rcv ns r w1 Hdb1 (decode_time _ _ _ _ Hdec)) as (err & w2 & Hw & _).
  rewrite bind_state, Hw in Hrun. cbn [snd] in Hrun.
  eapply rtc_l; [exact (C_write orderly (mkCSys (set_server w1 b) [k] []) [] k [] err w2 eq_refl Hw)|].
  destruct err as [er|]; cbn [bool_decide]; cbn in Hrun.
  - subst w. apply rtc_refl.
  - subst w. apply rtc_once. exact (C_finish orderly (mkCSys (set_server w2 b) [] [k]) [] k [] eq_refl).
Qed.

(** The runs of System.v, one message at a time, are among the runs here. *)
Theorem serial_runs_are_runs orderly (b : Sys Wc Wm Ws) :
  reachable unmarshal CA client_queue manager_queue server_queue handlers merge message_of b →
  creachable orderly (mkCSys b [] []).
Proof.
  intros (b0 & Hi & Hrun). exists (mkCSys b0 [] []). split_and!; [done..|].
  pose proof Hi as (Hq & Hdb & _). assert (map_Forall (λ _, genuine) (posted b0)) as Hg by (rewrite Hq; apply map_Forall_empty).
  clear Hi Hq. induction Hrun as [b|b b1 b2 Hstep _ IH]; [done|].
  destruct (sys_step_base _ _ _ _ _ _ _ _ _ _ Hstep Hdb Hg) as (Hdb1 & Hg1 & _).
  etrans; [|by apply IH]. destruct Hstep as [| | | |s id p h msg Hp Hd Hset|s w' Hdb' Hs Ha];
    try (apply rtc_once, (C_around orderly (mkCSys s [] [])); [|done|done]).
  - by eapply S_client.
  - by apply S_objects.
  - by eapply S_sync.
  - by apply S_resources.
  - by eapply deliver_overlaps.
  - by apply S_serve.
Qed.
End system.
