(* ===== verification/ConcurrentWitness.v ===== *)
(** A run in which the handlers of two clusters overlap: both read before either
    writes. *)
From stdpp Require Import base gmap strings list option numbers sets relations.
From S2P Require Import Prelude GoStrings GoTime Encoding Registry MemDynamo Database Db Sqs MemDb EventHandler ConcurrentHandlers Web Handlers HandlersThms ApiWitness SyncParser SyncController SyncThms SyncWitness ClusterController System SystemWitness ConcurrentSystem.

Local Open Scope Z_scope.

Notation cstep := (csys_step (Invalidate := mem_Invalidate) mem_unmarshal (λ _, "") two_handlers two_handlers two_handlers
  no_handlers last_wins message_of true).
Notation creached := (creachable (Invalidate := mem_Invalidate) mem_unmarshal (λ _, "") two_handlers two_handlers two_handlers
  no_handlers last_wins message_of).
Notation reconciled n w := (ClusterReconciler.Reconcile "" two_handlers "cluster-registry" n w).2.

Definition cafe : Cluster := sample "cafe" "va6" "prod" "Active" "".
Definition pair0 : Node := mkNode {[("cluster-registry", "shop") := shop; ("cluster-registry", "cafe") := cafe]} [].
Definition pair1 : Node := reconciled "shop" pair0.
Definition pair2 : Node := reconciled "cafe" pair1.
Definition first_sent (w : Node) : SendMessageBatchRequestEntry := default (mkEntry "" 0 "" ∅) (head (nd_sent w)).
Definition posted1 : Posted := mkPosted (first_sent pair1) "1700000000000" 1700000000000 (Some shop).
Definition posted2 : Posted := mkPosted (first_sent pair2) "1700000000005" 1700000000005 (Some cafe).

Definition with_node (w : Node) (q : gmap string Posted) (a : World) : Sys Node SyncWorld World :=
  mkSys {["k" := w]} (manager sys0) q a.
Definition both : gmap string Posted := <["2" := posted2]> {["1" := posted1]}.
Definition flight (c : Cluster) (p : Posted) : Flight := mkFlight (mem_unmarshal (Name (Spec c))).1 (p_time p * 1000000) None.
Definition h1 : Handler := mkHandler "1" "r1" (message handle_of "1" posted1) (flight shop posted1).
Definition h2 : Handler := mkHandler "2" "r2" (message handle_of "2" posted2) (flight cafe posted2).

Definition wrote (k : Handler) (w : World) : World :=
  let f := h_flight k in (apply_update (f_rcv f) (Unix0 (f_ns f)) (f_read f) w).2.
Definition finished (k : Handler) (w : World) : World := (finish_message mem_Invalidate two_handlers (h_msg k) w).2.
Definition a1 : World := wrote h2 emptyWorld.
Definition a2 : World := wrote h1 a1.
Definition a3 : World := finished h1 a2.
Definition overlapped : CSys Node SyncWorld World := mkCSys (with_node pair2 both a3) [] [h2].

(** A client step of the system around the handlers. *)
Lemma around_client w n c q' ks js e :
  clients (with_node w q' emptyWorld) !! "k" = Some w → nd_sent (reconciled n w) = [e] ++ nd_sent w →
  with_CA "" <$> stored w !! ("cluster-registry", n) = Some c →
  ∀ q id t ts, q !! id = None → q' = <[id := mkPosted e ts t (Some c)]> q → timely (mkPosted e ts t (Some c)) →
  cstep (mkCSys (with_node w q emptyWorld) ks js) (mkCSys (with_node (reconciled n w) q' emptyWorld) ks js).
Proof.
  intros Hk Hs Hc q id t ts Hid -> Ht. unfold with_node at 2.
  replace ({["k" := reconciled n w]} : gmap string Node) with (<["k" := reconciled n w]> {["k" := w]} : gmap string Node)
    by apply insert_singleton_eq.
  refine (C_around _ _ _ _ _ _ _ _ true (mkCSys (with_node w q emptyWorld) ks js) _ _ _ _); [|done|done].
  refine (S_client _ _ _ _ _ _ _ _ (with_node w q emptyWorld) "k" w "cluster-registry" n [e] _ _ Hs _); [exact Hk|].
  rewrite Hc. eapply (posts_cons _ _ _ id); [exact Hid|exact Ht|constructor].
Qed.

Lemma reads_new id p c ks js w :
  both !! id = Some p →
  NewEvent (Some (message handle_of id p)) = Ret (Some (mkEvent ClusterUpdateEvent (Some (message handle_of id p))), None) →
  decode mem_unmarshal (Some (mkEvent ClusterUpdateEvent (Some (message handle_of id p)))) =
    Ret (Some (c, p_time p * 1000000), None) →
  db_GetCluster (Name (Spec c)) w = (Ret (None, None), w) → db_settled w → Name (Spec c) ∉ (h_name <$> ks) →
  cstep (mkCSys (with_node pair2 both w) ks js)
    (mkCSys (with_node pair2 both w) (mkHandler id (handle_of id) (message handle_of id p) (mkFlight c (p_time p * 1000000) None) :: ks) js).
Proof.
  intros Hp He Hd Hg Hset Hn.
  refine (C_read _ _ _ _ _ _ _ _ true (mkCSys (with_node pair2 both w) ks js) id p _ _ _ _ _ None w Hp _ He _ Hd Hg _);
    [|done|intros _; split; [by apply settled_current|exact Hn]].
  apply (message_delivery message_of handle_of handle_of_message).
Qed.

Lemma overlapped_reachable : creached true overlapped.
Proof.
  exists (mkCSys (with_node pair0 ∅ emptyWorld) [] []). split_and!; [|done|done|].
  { split_and!; try reflexivity. apply mem_ok_empty. }
  eapply rtc_l; [refine (around_client pair0 "shop" shop {["1" := posted1]} [] [] (first_sent pair1) _ _ _ ∅ "1" _ _ _ _ _)|].
  1-4: first [reflexivity|vm_compute; reflexivity].
  { reflexivity. }
  { split; [vm_compute; reflexivity|cbn; lia]. }
  eapply rtc_l; [refine (around_client pair1 "cafe" cafe both [] [] (first_sent pair2) _ _ _ {["1" := posted1]} "2" _ _ _ _ _)|].
  1-4: first [reflexivity|vm_compute; reflexivity].
  { reflexivity. }
  { split; [vm_compute; reflexivity|cbn; lia]. }
  eapply rtc_l; [refine (reads_new "1" posted1 (flight shop posted1).(f_rcv) [] [] emptyWorld _ _ _ _ _ _)|].
  1-5: first [reflexivity|vm_compute; reflexivity].
  { cbn. set_solver. }
  eapply rtc_l; [refine (reads_new "2" posted2 (flight cafe posted2).(f_rcv) [h1] [] emptyWorld _ _ _ _ _ _)|].
  1-5: first [reflexivity|vm_compute; reflexivity].
  { cbn. set_solver. }
  eapply rtc_l; [refine (C_write _ _ _ _ _ _ _ _ true (mkCSys (with_node pair2 both emptyWorld) [h2; h1] []) [] h2 [h1] None a1 _ _)|].
  1-2: first [reflexivity|vm_compute; reflexivity].
  eapply rtc_l; [refine (C_write _ _ _ _ _ _ _ _ true (mkCSys (with_node pair2 both a1) [h1] [h2]) [] h1 [] None a2 _ _)|].
  1-2: first [reflexivity|vm_compute; reflexivity].
  apply rtc_once. exact (C_finish _ _ _ _ _ _ _ _ true (mkCSys (with_node pair2 both a2) [] [h1; h2]) [] h1 [h2] eq_refl).
Qed.

Lemma overlapping_handlers_follow_clients_witness :
  length (applied overlapped) = 1%nat ∧
  ∃ id p c, posted (base overlapped) !! id = Some p ∧ shows (base overlapped) "shop" p c ∧ 1700000000000 ≤ p_time p.
Proof.
  split; [reflexivity|].
  destruct (overlapping_handlers_follow_clients (Invalidate := mem_Invalidate) mem_unmarshal (λ _, "") two_handlers two_handlers
    two_handlers no_handlers last_wins message_of overlapped overlapped_reachable) as [_ Hdel].
  apply (Hdel "1" posted1 shop); [reflexivity|reflexivity|]. exists "r1". split; [vm_compute; done|reflexivity].
Defined.

(** The same run, where nothing keeps handlers apart or reads current. *)
Lemma registry_never_made_up_witness :
  ∃ id p c, posted (base overlapped) !! id = Some p ∧ shows (base overlapped) "cafe" p c.
Proof.
  assert (creached false overlapped) as Hany by exact (creachable_any _ _ _ _ _ _ _ _ true overlapped overlapped_reachable).
  destruct (registry_never_made_up (Invalidate := mem_Invalidate) mem_unmarshal (λ _, "") two_handlers two_handlers
    two_handlers no_handlers last_wins message_of false overlapped Hany) as [Hent _].
  apply Hent. vm_compute. by eexists.
Defined.

(** The runs of SystemWitness.v. *)
Lemma serial_reachable orderly (b : Sys Node SyncWorld World) : reached b → creached orderly (mkCSys b [] []).
Proof. intros Hr. exact (serial_runs_are_runs _ _ _ _ _ _ _ _ orderly b Hr). Qed.

Lemma api_serves_newest_witness :
  let x := mkCtx "GET" "/" "/" {["name" := "shop"]} ∅ "" "" ∅ false 0 ∅ "" in
  let r := mkReq (server sys3) x in
  ∃ r', V1.GetCluster demo_json r = (Ret None, r') ∧ V2.GetCluster demo_json r = (Ret None, r') ∧
    ((∃ n p c sp, (n = "shop" ∨ GetClusterDashName "shop" = (n, None) ∧ ¬ announced sys3 "shop") ∧ latest sys3 n p c ∧
        content sp = entry (Spec c) (p_time p * 10 ^ 6) ∧
        responds demo_json r r' 200 (PSpec (set_ServiceMetadata None sp))) ∨
     (¬ announced sys3 "shop" ∧ (∀ n, GetClusterDashName "shop" = (n, None) → ¬ announced sys3 n) ∧
        responds demo_json r r' 404 (PError "resource not found")) ∨
     resp_Status (ctx r') = 500 ∧ lookup_fails "shop" (server sys3)).
Proof.
  intros x r. apply (api_serves_newest (Invalidate := mem_Invalidate) mem_unmarshal (λ _, "") two_handlers two_handlers
    two_handlers no_handlers last_wins message_of demo_json (mkCSys sys3 [] []) x).
  - apply serial_reachable, sys3_reachable.
  - vm_compute. reflexivity.
  - apply sys3_drained.
  - reflexivity.
Defined.

Lemma sync_messages_stay_witness :
  ¬ deleted (Invalidate := mem_Invalidate) message_of sys3 "2".
Proof.
  apply (sync_messages_stay (Invalidate := mem_Invalidate) mem_unmarshal (λ _, "") two_handlers two_handlers
    two_handlers no_handlers last_wins message_of false (mkCSys sys3 [] []) "2" m2).
  - apply serial_reachable, sys3_reachable.
  - reflexivity.
  - reflexivity.
Defined.
