(* ===== verification/CacheFlow.v ===== *)
(** The response cache and the update messages together: cmd/apiserver invalidates
    the tag "clusters" after an update, and the listings are cached under that
    tag (pkg/apiserver/web/cache.go, pkg/apiserver/web/handler).  Requests and
    messages run side by side, so a step here is one call that a request or a
    message makes. *)
From stdpp Require Import base gmap strings list option numbers sets relations.
From S2P Require Import Prelude GoStrings GoTime Encoding Registry MemDynamo Database Db Sqs MemDb EventHandler Config Web Handlers HandlersThms ApiWitness SyncController SyncThms ClusterController System SystemWitness.

Local Open Scope Z_scope.

(** Two states with the same registry. *)
Definition same_registry {W} `{DbLaws W} (w w' : W) : Prop :=
  db_inv w' ∧ db_specs w' = db_specs w ∧ db_pages w' = db_pages w ∧ (db_settled w → db_settled w').

(** The contract of the cache: keys with a value and tags.  A value may expire at
    any time; an invalidation that succeeds leaves no value with its tags; calls
    of the database and of the queue put nothing in. *)
Class CacheLaws (W : Type) `{DbLaws W} `{SQSService W} (cache_Get : string → M W (string * error))
    (cache_Set : string → string → Z → list string → M W error) (Invalidate : list string → M W error) := {
  cached : W → gmap string (string * list string);
  cache_Get_law k w : db_inv w →
    ∃ v e w', cache_Get k w = (Ret (v, e), w') ∧ same_registry w w' ∧ cached w' ⊆ cached w ∧
      (v = "" ∨ fst <$> cached w !! k = Some v);
  cache_Set_law k v ttl tags w : db_inv w →
    ∃ e w', cache_Set k v ttl tags w = (Ret e, w') ∧ same_registry w w' ∧
      (cached w' ⊆ cached w ∨ cached w' ⊆ <[k := (v, tags)]> (cached w));
  cache_Invalidate_law tags w : db_inv w →
    ∃ e w', Invalidate tags w = (Ret e, w') ∧ same_registry w w' ∧ cached w' ⊆ cached w ∧
      (e = None → map_Forall (λ _ v, Forall (λ t, t ∉ tags) v.2) (cached w'));
  cached_Get n w : cached (db_GetCluster n w).2 ⊆ cached w;
  cached_Put c w : cached (db_PutCluster c w).2 ⊆ cached w;
  cached_List fuel off lim rg en st up w : db_inv w →
    let w' := (db_ListClusters fuel off lim rg en st up w).2 in db_inv w' ∧ cached w' ⊆ cached w;
  cached_ListFilter fuel off lim f w : cached (db_ListClustersWithFilter fuel off lim f w).2 ⊆ cached w;
  cached_Delete url h w : cached (svc_DeleteMessage url h w).2 ⊆ cached w }.

(** The server, and the responses of listings that are not stored yet, by key. *)
Record Flow (W : Type) := mkFlow { f_world : W; f_pending : list (string * string) }.
Arguments mkFlow {W}.
Arguments f_world {W}.
Arguments f_pending {W}.

Section flow.
Context {W : Type} {cache_Get : string → M W (string * error)}.
Context {cache_Set : string → string → Z → list string → M W error} {Invalidate : list string → M W error}.
Context `{AQ : ApiQueueLaws W Invalidate} `{!CacheLaws W cache_Get cache_Set Invalidate}.
Context (unmarshal : string → Cluster * error) (q : Sqs.Config) (json : payload → string).
Context (gob_encode : Response → string) (gob_decode : string → Response) (cfg : AppConfig).
Notation clusters_cache := (HTTPCache json cache_Get cache_Set gob_encode gob_decode cfg ["clusters"]).
Notation on_message := (on_message unmarshal q Invalidate).

(** The handlers behind the cache, and what the cache stores of one's response. *)
Definition is_listing (h : HandlerFunc W) : Prop :=
  ∃ fuel, h = V1.ListClusters json fuel ∨ h = V2.ListClusters json fuel.
Definition response_of (x : Web.Context) (r2 : Req W) : string * string :=
  (cache_key x, gob_encode (mkResponse (written_since x (ctx r2)) (resp_Header (ctx r2)))).

(** The calls that messages and requests make, in any order: the three phases of
    a message, and the look-up, the handler and the storing of a request. *)
Inductive flow_step : Flow W → Flow W → Prop :=
  | F_Handle e f : flow_step f (mkFlow (Handle unmarshal e (f_world f)).2 (f_pending f))
  | F_Delete msg f : flow_step f (mkFlow (Delete q msg (f_world f)).2 (f_pending f))
  | F_Invalidate f : flow_step f (mkFlow (Invalidate ["clusters"] (f_world f)).2 (f_pending f))
  | F_look k f : flow_step f (mkFlow (cache_Get k (f_world f)).2 (f_pending f))
  | F_list h x f : is_listing h →
     let r2 := (h (mkReq (f_world f) (sortURLParams x))).2 in
     flow_step f (mkFlow (world r2) (response_of x r2 :: f_pending f))
  | F_store f ps1 k v ps2 : f_pending f = ps1 ++ (k, v) :: ps2 →
     flow_step f (mkFlow (cache_Set k v (ApiCacheTTL cfg) ["clusters"] (f_world f)).2 (ps1 ++ ps2)).

(** From an empty cache. *)
Definition flows (f : Flow W) : Prop := ∃ w0, db_inv w0 ∧ cached w0 = ∅ ∧ rtc flow_step (mkFlow w0 []) f.

(** ** What the calls leave of the cache *)

(** Nothing is added. *)
Definition below (c : gmap string (string * list string)) (w : W) : Prop := db_inv w ∧ cached w ⊆ c.
Notation below_req c := (λ r : Req W, below c (world r)).

Lemma below_world {A} c (m : M W A) : preserves (below c) m → preserves (below_req c) (on_world m).
Proof. intros Hm r Hr. unfold on_world. specialize (Hm (world r) Hr). by destruct (m (world r)). Qed.
Lemma below_gets {A} c (f : Req W → A) : preserves (below_req c) (gets f).
Proof. by intros r Hr. Qed.
Lemma below_JSON c code p : preserves (below_req c) (JSON json code p).
Proof. intros r Hr. unfold below. by rewrite JSON_world. Qed.
Lemma below_calls {A} c (m : M W A) :
  (∀ w, db_inv w → db_inv (m w).2 ∧ cached (m w).2 ⊆ cached w) → preserves (below c) m.
Proof. intros Hm w [Hi Ht]. destruct (Hm w Hi). split; [done|by etrans]. Qed.

Lemma below_List c fuel off lim rg en st up : preserves (below c) (db_ListClusters fuel off lim rg en st up).
Proof. apply below_calls. intros w Hi. by apply cached_List. Qed.
Lemma below_ListFilter c fuel off lim f : preserves (below c) (db_ListClustersWithFilter fuel off lim f).
Proof. apply below_calls. intros w Hi. split; [by apply db_ListClustersWithFilter_frame|apply cached_ListFilter]. Qed.

#[local] Hint Resolve below_world below_gets below_JSON below_List below_ListFilter preserves_ret : registry.

Lemma below_listing c h : is_listing h → preserves (below_req c) h.
Proof.
  intros [fuel [->| ->]]; [unfold V1.ListClusters|unfold V2.ListClusters];
    (apply preserves_bind; [auto with registry|intros x]; cbv zeta).
  - apply preserves_bind; [auto with registry|intros [[[cs n] more] e]; auto with registry].
  - case_match; [|destruct (V2.parse_conditions _ _) as [f [e|]]; [auto with registry|]];
      (apply preserves_bind; [auto with registry|intros [[[cs n] more] e]; auto with registry]).
Qed.

Lemma cached_Handle event (w : W) : cached (Handle unmarshal event w).2 ⊆ cached w.
Proof.
  unfold Handle. rewrite bind_state. destruct (decode unmarshal event) as [[[[rcv ns]|] [e|]]|p|]; cbn [lift]; try done.
  rewrite bind_state. pose proof (cached_Get (Name (Spec rcv)) w) as Hg.
  destruct (db_GetCluster (Name (Spec rcv)) w) as [[[r [e|]]|p|] w1]; cbn [snd] in *; try done.
  unfold apply_update. destruct (skips _ _); [done|]. rewrite bind_state.
  pose proof (cached_Put (stamp (Unix0 ns) rcv) w1) as Hp.
  destruct (db_PutCluster (stamp (Unix0 ns) rcv) w1) as [[[c e]|p|] w2]; cbn in *; by etrans.
Qed.

Lemma below_Delete c msg : preserves (below c) (Delete q msg).
Proof.
  apply below_calls. intros w Hi. unfold Delete. destruct (MessageId msg); [|done]. destruct (svc q); [|done]. cbn.
  split; [by apply inv_Delete|apply cached_Delete].
Qed.

(** What a step adds to the cache is a response that was pending. *)
Lemma flow_step_cached f f' :
  flow_step f f' → db_inv (f_world f) →
  db_inv (f_world f') ∧
  ∀ k v tags, cached (f_world f') !! k = Some (v, tags) →
    cached (f_world f) !! k = Some (v, tags) ∨ tags = ["clusters"] ∧ (k, v) ∈ f_pending f.
Proof.
  intros Hstep Hi.
  assert (∀ w, below (cached (f_world f)) w → db_inv w ∧ ∀ k v tags, cached w !! k = Some (v, tags) →
    cached (f_world f) !! k = Some (v, tags) ∨ tags = ["clusters"] ∧ (k, v) ∈ f_pending f) as Hbelow.
  { intros w [Hw Hsub]. split; [done|]. intros k v tags Hk. left. by eapply lookup_weaken. }
  destruct Hstep as [e f|msg f|f|k f|h x f Hh r2|f ps1 k v ps2 Hp]; cbn [f_world]; [apply Hbelow..|].
  - split; [by apply Handle_inv|apply cached_Handle].
  - by apply below_Delete.
  - destruct (cache_Invalidate_law ["clusters"] (f_world f) Hi) as (e & w' & -> & (? & _) & ? & _). done.
  - destruct (cache_Get_law k (f_world f) Hi) as (v & e & w' & -> & (? & _) & ? & _). done.
  - by apply (below_listing (cached (f_world f)) h Hh (mkReq (f_world f) (sortURLParams x))).
  - destruct (cache_Set_law k v (ApiCacheTTL cfg) ["clusters"] (f_world f) Hi) as (e & w' & -> & (Hi' & _) & [Hs|Hs]);
      [by apply Hbelow|]. split; [done|]. intros k' v' tags Hk. cbn [snd] in Hk.
    eapply lookup_weaken in Hk; [|exact Hs]. apply lookup_insert_Some in Hk as [[<- [= <- <-]]|[_ Hk]]; [right|by left].
    split; [done|]. rewrite Hp. set_solver.
Qed.

(** Every cached response carries the tag of the clusters. *)
Definition sound (w : W) : Prop := db_inv w ∧ map_Forall (λ _ v, "clusters" ∈ v.2) (cached w).

Lemma flow_step_sound f f' : flow_step f f' → sound (f_world f) → sound (f_world f').
Proof.
  intros Hstep [Hi Ht]. destruct (flow_step_cached f f' Hstep Hi) as [Hi' Hc]. split; [done|].
  intros k [v tags] Hk. destruct (Hc k v tags Hk) as [Hold|[-> _]]; [by apply (Ht k)|cbn; set_solver].
Qed.

Lemma rtc_sound f f' : rtc flow_step f f' → sound (f_world f) → sound (f_world f').
Proof. induction 1; eauto using flow_step_sound. Qed.

Lemma flows_sound f : flows f → sound (f_world f).
Proof.
  intros (w0 & Hi & Hc & Hrun). eapply rtc_sound; [exact Hrun|]. split; [done|]. cbn. rewrite Hc. apply map_Forall_empty.
Qed.

(** An invalidation leaves nothing in the cache. *)
Lemma invalidated (w w' : W) :
  sound w → Invalidate ["clusters"] w = (Ret None, w') → sound w' ∧ db_specs w' = db_specs w ∧ ∀ k, cached w' !! k = None.
Proof.
  intros [Hi Ht] Hinval.
  destruct (cache_Invalidate_law ["clusters"] w Hi) as (e' & w2 & Hinv & (Hi' & Hs' & _) & Hsub & Hclean).
  rewrite Hinval in Hinv. simplify_eq. specialize (Hclean eq_refl).
  assert (map_Forall (λ _ v, "clusters" ∈ v.2) (cached w2)) as Ht'
    by (intros k v Hk; apply (Ht k); by eapply lookup_weaken).
  split_and!; [done|done|]. intros k. destruct (cached w2 !! k) as [v|] eqn:Hv; [|done]. exfalso.
  specialize (Hclean _ _ Hv). cbn in Hclean. rewrite Forall_forall in Hclean.
  apply (Hclean "clusters"); [by apply (Ht' _ _ Hv)|set_solver].
Qed.

(** ** Responses of listings that ran since a state *)

(** The response is what a listing gave in a state reached from [f0]. *)
Definition given_since (f0 : Flow W) (k v : string) : Prop :=
  ∃ g h x, rtc flow_step f0 g ∧ is_listing h ∧ (k, v) = response_of x (h (mkReq (f_world g) (sortURLParams x))).2.

Lemma cached_since w0 f :
  db_inv w0 → (∀ k, cached w0 !! k = None) → rtc flow_step (mkFlow w0 []) f →
  db_inv (f_world f) ∧ (∀ k v tags, cached (f_world f) !! k = Some (v, tags) → given_since (mkFlow w0 []) k v) ∧
  ∀ k v, (k, v) ∈ f_pending f → given_since (mkFlow w0 []) k v.
Proof.
  intros Hi Hclean Hrun. pattern f. refine (rtc_ind_r _ _ _ _ f Hrun); clear f Hrun; [|intros f f' Hrun Hstep IH].
  { split; [done|]. cbn. split; [intros k v tags; by rewrite Hclean|]. intros k v Hkv. by apply not_elem_of_nil in Hkv. }
  destruct IH as (Hif & Hc & Hp). destruct (flow_step_cached f f' Hstep Hif) as [Hi' Hc']. split; [done|]. split.
  - intros k v tags Hk. destruct (Hc' k v tags Hk) as [Hold|[_ Hin]]; [by eapply Hc|by apply Hp].
  - intros k v Hkv. destruct Hstep as [| | | |h x f Hh r2|f ps1 k' v' ps2 Hps]; cbn [f_pending] in Hkv; try by apply Hp.
    + apply elem_of_cons in Hkv as [Hkv|Hkv]; [|by apply Hp]. by exists f, h, x.
    + apply Hp. rewrite Hps. set_solver.
Qed.

(** ** A request is look-up, handler and storing *)

Lemma listing_returns h (r r2 : Req W) err : is_listing h → h r = (Ret err, r2) → err = None.
Proof.
  intros [fuel [->| ->]] Hrun; [unfold V1.ListClusters in Hrun|unfold V2.ListClusters in Hrun];
    rewrite bind_gets in Hrun; cbv zeta in Hrun.
  - apply bind_Ret_inv in Hrun as ([[[cs n] more] e] & r1 & _ & Hj). by injection Hj as <- _.
  - case_match; [|destruct (V2.parse_conditions _ _) as [f [e|]]; [by injection Hrun as <- _|]];
      (apply bind_Ret_inv in Hrun as ([[[cs n] more] e] & r1 & _ & Hj); by injection Hj as <- _).
Qed.

(** A whole request is a sequence of steps. *)
Lemma request_steps h x (w : W) ps :
  is_listing h → db_inv w → req_Method x = MethodGet → committed x = false →
  ∃ ps', rtc flow_step (mkFlow w ps) (mkFlow (world (clusters_cache h (mkReq w x)).2) ps').
Proof.
  intros Hh Hi Hm Hc. destruct (cache_Get_law (cache_key x) w Hi) as (v & e & w1 & Hg & (Hi1 & _) & _).
  assert (flow_step (mkFlow w ps) (mkFlow w1 ps)) as Hlook.
  { pose proof (F_look (cache_key x) (mkFlow w ps)) as Hl. cbn [f_world f_pending] in Hl. by rewrite Hg in Hl. }
  unfold HTTPCache. rewrite bind_gets, bool_decide_eq_true_2 by done.
  erewrite (bind_run (on_ctx _)) by reflexivity. rewrite bind_gets. cbv zeta. cbn [ctx world].
  rewrite (bind_run _ _ _ _ _ (on_world_run (cache_Get (cache_key x)) (mkReq w (sortURLParams x)) _ _ Hg)).
  case_bool_decide; [exists ps; by apply rtc_once|].
  rewrite bind_state. pose proof (F_list h x (mkFlow w1 ps) Hh) as Hlist. cbn [f_world f_pending] in Hlist. cbv zeta in Hlist.
  cbn [ctx]. destruct (h (mkReq w1 (sortURLParams x))) as [[err|p|] r2] eqn:Hrun; cbn [snd] in Hlist |- *;
    [|eexists; eapply rtc_l; [exact Hlook|]; apply rtc_once; exact Hlist..].
  rewrite (listing_returns h _ _ _ Hh Hrun). rewrite bind_ret_l, bind_gets.
  cbn [committed sortURLParams set_query]. rewrite Hc. rewrite bind_state. destruct (_ <? 400).
  - pose proof (F_store (mkFlow (world r2) (response_of x r2 :: ps)) [] (response_of x r2).1 (response_of x r2).2 ps eq_refl) as Hst.
    exists ps. eapply rtc_l; [exact Hlook|]. eapply rtc_l; [exact Hlist|]. apply rtc_once.
    cbn [response_of fst snd f_world app] in Hst. unfold mbind, M_bind, on_world.
    change (GenerateKey (URL_String (sortURLParams x))) with (cache_key x).
    change (written_since (sortURLParams x) (ctx r2)) with (written_since x (ctx r2)). unfold Response_String.
    by destruct (cache_Set _ _ _ _ (world r2)) as [[a|p|] w3].
  - eexists. eapply rtc_l; [exact Hlook|]. apply rtc_once. exact Hlist.
Qed.

(** ** A listing that the cache does not have goes to the handler *)

Lemma ListClusters_commits fuel (r r2 : Req W) err :
  V1.ListClusters json fuel r = (Ret err, r2) → committed (ctx r) = false → committed (ctx r2) = true.
Proof.
  intros Hrun Hc. unfold V1.ListClusters in Hrun. rewrite bind_gets in Hrun. cbv zeta in Hrun.
  apply bind_Ret_inv in Hrun as ([[[cs n] more] e] & r1 & Hw & Hj).
  assert (ctx r1 = ctx r) as Hctx by (unfold on_world in Hw; destruct (db_ListClusters _ _ _ _ _ _ _ _); by simplify_eq).
  destruct (JSON_run json 200 (PClusters (newClusterListResponse cs n (int_param "offset" 0 (ctx r))
    (int_param "limit" 200 (ctx r)) more)) r1) as (r' & Hr & _ & Hcm & _); [by rewrite Hctx|].
  rewrite Hr in Hj. by simplify_eq.
Qed.

Lemma listing_uncached fuel s (x : Web.Context) e w :
  db_inv s → cache_Get (cache_key x) s = (Ret ("", e), w) → req_Method x = MethodGet → committed x = false →
  let '(o, r2) := V1.ListClusters json fuel (mkReq w (sortURLParams x)) in
  match o with
  | Ret None => resp_Status (ctx r2) < 400 →
     ∃ w3, clusters_cache (V1.ListClusters json fuel) (mkReq s x) = (Ret None, mkReq w3 (ctx r2))
  | Panic p => clusters_cache (V1.ListClusters json fuel) (mkReq s x) = (Panic p, r2)
  | _ => True
  end.
Proof.
  intros Hi Hg Hm Hc.
  assert (db_inv w) as Hiw by (destruct (cache_Get_law (cache_key x) s Hi) as (? & ? & ? & Hg' & (? & _) & _); congruence).
  destruct (V1.ListClusters json fuel (mkReq w (sortURLParams x))) as [o r2] eqn:Hl.
  destruct o as [[err|]|p|]; try done.
  - intros Hst. rewrite (HTTPCache_miss json cache_Get cache_Set gob_encode gob_decode cfg ["clusters"] _
      (mkReq s x) e w r2 Hm Hc Hg Hl (ListClusters_commits _ _ _ _ Hl Hc) Hst).
    assert (db_inv (world r2)) as Hi2.
    { pose proof (below_listing (cached w) _ (ex_intro _ fuel (or_introl eq_refl)) (mkReq w (sortURLParams x)) (conj Hiw (reflexivity _))) as [Hi2 _].
      by rewrite Hl in Hi2. }
    destruct (cache_Set_law (cache_key x) (gob_encode (mkResponse (written_since x (ctx r2)) (resp_Header (ctx r2))))
      (ApiCacheTTL cfg) ["clusters"] (world r2) Hi2) as (er & w3 & Hset & _).
    exists w3. rewrite (bind_run _ _ _ _ _ (on_world_run _ _ _ _ Hset)). done.
  - unfold HTTPCache. rewrite bind_gets, bool_decide_eq_true_2 by done.
    erewrite (bind_run (on_ctx _)) by reflexivity. rewrite bind_gets. cbv zeta. cbn [ctx world].
    rewrite (bind_run _ _ _ _ _ (on_world_run (cache_Get (cache_key x)) (mkReq s (sortURLParams x)) _ _ Hg)).
    rewrite bool_decide_eq_false_2 by tauto. by rewrite (bind_panic _ _ _ _ _ Hl).
Qed.

(** The answer is that of the registry of [s], asked through [w]: an empty list
    when the database reports an error, and otherwise the window asked for. *)
Definition listed fuel (s w : W) (x : Web.Context) (o : outcome werror) (r' : Req W) : Prop :=
  let c := sortURLParams x in
  let p k := QueryParam k c in
  let off := int_param "offset" 0 c in
  let lim := int_param "limit" 200 c in
  let run := db_ListClusters fuel off lim (p "region") (p "environment") (p "status") (p "lastUpdated") w in
  (∃ e w', run = (Ret ([], 0, false, Some e), w')) ∧ o = Ret None ∧
     responds json (mkReq s x) r' 200 (PClusters (mkClusterList [] 0 off lim false)) ∨
  (∀ e w', run ≠ (Ret ([], 0, false, Some e), w')) ∧
     listing json (mkReq s x) (filter (λ sp, selected (p "region") (p "environment") (p "status") (p "lastUpdated") sp = true)
       (map_to_list (db_specs s)).*2) off lim o r'.

(** Fuel for the listing that a request asks for. *)
Definition fuelled fuel (s : W) (x : Web.Context) : Prop :=
  let p k := QueryParam k (sortURLParams x) in
  (db_pages s (p "region") (p "environment") (p "status") (p "lastUpdated") < fuel)%nat.

Lemma uncached_listed fuel s x e w :
  db_inv s → db_settled s → cache_Get (cache_key x) s = (Ret ("", e), w) → fuelled fuel s x →
  req_Method x = MethodGet → committed x = false →
  ∃ o r', clusters_cache (V1.ListClusters json fuel) (mkReq s x) = (o, r') ∧ listed fuel s w x o r'.
Proof.
  intros Hi Hset Hg Hf Hm Hc.
  destruct (cache_Get_law (cache_key x) s Hi) as (v & e2 & w2 & Hg' & (Hiw & Hsw & Hpw & Hsetw) & _).
  rewrite Hg in Hg'. simplify_eq. specialize (Hsetw Hset).
  pose proof (listing_uncached fuel s x e2 w2 Hi Hg Hm Hc) as Hcase.
  assert (∀ r2 code pl, V1.ListClusters json fuel (mkReq w2 (sortURLParams x)) = (Ret None, r2) →
    responds json (mkReq w2 (sortURLParams x)) r2 code pl → code < 400 → ∃ r',
    clusters_cache (V1.ListClusters json fuel) (mkReq s x) = (Ret None, r') ∧ responds json (mkReq s x) r' code pl) as Hserved.
  { intros r2 code pl Hl [Hst Hb] Hcode. rewrite Hl in Hcase. rewrite Hst in Hcase.
    destruct (Hcase Hcode) as [w3 Hc3]. by exists (mkReq w3 (ctx r2)). }
  unfold listed. cbv zeta. set (c := sortURLParams x) in *.
  set (run := db_ListClusters fuel (int_param "offset" 0 c) (int_param "limit" 200 c) (QueryParam "region" c)
    (QueryParam "environment" c) (QueryParam "status" c) (QueryParam "lastUpdated" c) w2).
  assert ((∃ e' w', run = (Ret ([], 0, false, Some e'), w')) ∨
    ((∀ e' w', run ≠ (Ret ([], 0, false, Some e'), w')) ∧
     (QueryParam "lastUpdated" c = "" ∨ is_Some (Parse (QueryParam "lastUpdated" c))))) as [(e' & w' & Herr)|[Hno Hup]].
  { destruct run as [[[[[[|] n] []] [e'|]]|p|] w'] eqn:Hrun; try (right; split; [done|]);
      try (destruct (decide (n = 0)) as [->|]; [left; by eexists _, _|right; split; [congruence|]]).
    all: destruct (decide (QueryParam "lastUpdated" c = "")) as [?|Hne]; [by left|right];
      destruct (Parse (QueryParam "lastUpdated" c)) eqn:Hp; [by eexists|];
      destruct (db_ListClusters_bad_time fuel (int_param "offset" 0 c) (int_param "limit" 200 c) (QueryParam "region" c)
        (QueryParam "environment" c) (QueryParam "status" c) _ w2 Hne Hp) as [e3 Hb]; subst run; congruence. }
  - destruct (list_failure_is_200 json fuel (mkReq w2 c) e' w' Hc Herr) as (r2 & Hl & _ & Hresp).
    destruct (Hserved _ _ _ Hl Hresp ltac:(lia)) as (r' & Hr & Hresp'). exists (Ret None), r'. split; [done|]. left. eauto.
  - destruct (ListClusters_lists json fuel (mkReq w2 c) Hiw Hsetw Hc) as (o & r2 & Hl & _ & Hlisting);
      cbn [ctx world]; [by rewrite Hpw|done|done|].
    cbn [ctx world] in Hlisting. rewrite Hsw in Hlisting. unfold listing in Hlisting |- *. cbv zeta in Hlisting |- *.
    destruct (_ && _).
    + destruct Hlisting as (-> & all & Hall & Hresp).
      destruct (Hserved _ _ _ Hl Hresp ltac:(lia)) as (r' & Hr & Hresp').
      exists (Ret None), r'. split; [done|]. right. split; [done|]. split; [done|]. by exists all.
    + subst o. rewrite Hl in Hcase. exists (Panic "slice bounds out of range"), r2. split; [exact Hcase|]. by right.
Qed.

End flow.

(** ** Witness: the world of MemDb.v *)

#[global] Instance MemCacheLaws : CacheLaws World demo_Get demo_Set mem_Invalidate.
Proof.
  assert (∀ rg en st up off lim w, ∃ fs, (mem_page off lim rg en st up w).2 = set_faults fs w) as Hpage.
  { intros rg en st up off lim w. unfold mem_page. destruct (_ && _); [exists (w_faults w); by destruct w|].
    destruct (take_fault_run w) as (b & fs & Hf). rewrite (bind_run _ _ _ _ _ Hf). exists fs. by destruct b. }
  refine {| cached := w_cache |}.
  - intros k w Hi. eexists _, _, w. split_and!; [reflexivity|done..|].
    destruct (w_cache w !! k) as [v|]; [by right|by left].
  - intros k v ttl tags w Hi. eexists _, _. split_and!; [reflexivity|done..|]. by right.
  - intros tags w Hi. eexists _, _. split_and!; [reflexivity|done..| |].
    + cbn. apply map_filter_subseteq.
    + intros _ k v Hk. cbn in Hk. by apply map_lookup_filter_Some in Hk as [_ Hk].
  - intros n w. destruct (mem_get_run n w) as (r & e & fs & Hg & _). cbn. by rewrite Hg.
  - intros c w. cbn. unfold mem_put. destruct (Parse _); [|done].
    destruct (mem_get_run (Name (Spec c)) w) as (r & e & fs & Hg & _). rewrite (bind_run _ _ _ _ _ Hg).
    destruct (take_fault_run (set_faults fs w)) as (b & fs' & Hf). rewrite (bind_run _ _ _ _ _ Hf). by destruct b.
  - intros fuel off lim rg en st up w Hi. cbn. destruct (Hpage rg en st up off lim w) as [fs ->]. done.
  - intros fuel off lim f w. cbn. by destruct (Hpage "" "" "" "" off lim w) as [fs ->].
  - intros url h w. done.
Defined.

Notation demo_cached := (HTTPCache demo_json demo_Get demo_Set demo_encode demo_decode demo_cfg ["clusters"]).
Definition list_ctx : Web.Context := mkCtx "GET" "/api/v1/clusters" "/api/v1/clusters" ∅ ∅ "" "" ∅ false 0 ∅ "".
(** The list of the empty registry is in the cache. *)
Definition listed_world : World := world (demo_cached (V1.ListClusters demo_json 1) (mkReq emptyWorld list_ctx)).2.
Definition shop_update : Message := update_message "shop" "5".
Definition after_handle : World := (Handle mem_unmarshal (update_event "shop" "5") listed_world).2.
Definition after_delete : World := (Delete two_handlers shop_update after_handle).2.
Definition after_invalidate : World := (mem_Invalidate ["clusters"] after_delete).2.

Example listing_is_cached : size (w_cache listed_world) = 1%nat.
Proof. vm_compute. reflexivity. Qed.


(** A listing that read the registry before an update and stores its response
    after the invalidation puts the old list back: until it expires, requests are
    answered without the cluster that the registry holds. *)
Definition stale_world : World :=
  let '(_, r2) := V1.ListClusters demo_json 1 (mkReq emptyWorld list_ctx) in
  let w := (EventHandler.on_message mem_unmarshal two_handlers mem_Invalidate shop_update (world r2)).2 in
  (demo_Set (cache_key list_ctx) (demo_encode (mkResponse (written_since list_ctx (ctx r2)) (resp_Header (ctx r2)))) 3600
     ["clusters"] w).2.

Example stale_listing_stored :
  is_Some (w_db stale_world !! "shop") ∧
  resp_Body (ctx (demo_cached (V1.ListClusters demo_json 1) (mkReq stale_world list_ctx)).2) =
    demo_json (emptyList 0 200) +:+ newline ∧
  resp_Body (ctx (V1.ListClusters demo_json 1 (mkReq stale_world list_ctx)).2) ≠ demo_json (emptyList 0 200) +:+ newline.
Proof. split_and!; [vm_compute; eauto|vm_compute; reflexivity|]. vm_compute. discriminate. Qed.
