(* ===== verification/MetadataWatcher.v ===== *)
(** pkg/client/controllers/servicemetadatawatcher_controller.go: the controller
    of the client that copies fields of watched objects into the service
    metadata of the Cluster objects.

    The Kubernetes client, the accessors of unstructured objects and the
    encoders are parameters; [NestedLaws] and [WatchLaws] are their contracts. *)
From Stdlib Require Import Ascii.
From stdpp Require Import base gmap strings list option numbers sets pretty.
From S2P Require Import Prelude GoStrings GoRegexp Registry Sqs SyncParser SyncController.

Local Open Scope Z_scope.

(** ** Values of unstructured objects

    The dynamic types an [interface{}] decoded from JSON has; a float64 by its
    bits. *)
#[warnings="-register-all"]
Inductive JV :=
  | JNull
  | JBool (b : bool)
  | JInt64 (z : Z)
  | JFloat64 (bits : Z)
  | JString (s : string)
  | JSlice (l : list JV)
  | JMap (m : gmap string JV).

(** The accessors of apimachinery and [strconv.FormatFloat (f, 'g', -1, 64)]. *)
Class NestedAccess := {
  u_NestedSlice : gmap string JV → list string → list JV * bool * error;
  u_NestedMap : gmap string JV → list string → gmap string JV * bool * error;
  u_NestedString : gmap string JV → list string → string * bool * error;
  u_NestedBool : gmap string JV → list string → bool * bool * error;
  u_NestedInt64 : gmap string JV → list string → Z * bool * error;
  u_NestedFloat64 : gmap string JV → list string → Z * bool * error;
  FormatFloat : Z → string }.

Module Watcher.

(** ** pkg/api/registry/v1alpha1/servicemetadatawatcher_types.go *)

Record ObjectReference := mkRef { ref_Name : string; ref_APIVersion : string; ref_Kind : string }.
Record WatchedField := mkField { Source : string; Destination : string }.
Record WatchedServiceObject := mkWSO { Reference : ObjectReference; WatchedFields : list WatchedField }.
Record ServiceMetadataWatcher := mkSMW {
  smw_Name : string;
  smw_Namespace : string;
  smw_Deleted : bool;
  WatchedServiceObjects : list WatchedServiceObject }.

(** ** Paths *)

Definition name_char (c : ascii) : bool := negb (bool_decide (c = "."%char) || bool_decide (c = "["%char)).
(** [(?:[^.\[]+|\[.*?\])] *)
Definition path_re : re :=
  RAlt (RPlus (RChar name_char)) (RSeq (lit "[") (RSeq (RStar false RDot) (lit "]"))).

Definition parsePath (path : string) : res (list string) :=
  let p := FindAllString path_re path in
  if (0 <? length p)%nat then inr p else inl "invalid path".

(** ** Reading a value *)

(** [object.(map[string]interface{})] *)
Definition as_map (v : JV) : outcome (gmap string JV) :=
  match v with
  | JMap m => Ret m
  | _ => Panic "interface conversion: interface {} is not map[string]interface {}"
  end.

(** [strings.HasPrefix (key, "[") && strings.HasSuffix (key, "]")] *)
Definition is_bracket (key : string) : bool := HasPrefix key "[" && HasSuffix key "]".
(** [key[1 : len(key)-1]] *)
Definition inner (key : string) : string := take_str (String.length key - 2) (drop_str 1 key).

Section get.
Context `{NestedAccess}.

(** After the loop: the value is there, or under the whole path. *)
Definition read_value (object : JV) (path : list string) : outcome (string * bool * error) :=
  match object with
  | JNull => Panic "invalid memory address or nil pointer dereference"
  | JString s => Ret (s, true, nil_error)
  | JBool b => Ret (FormatBool b, true, nil_error)
  | _ =>
     match as_map object with
     | Ret m =>
        match u_NestedString m path with
        | (v, true, None) => Ret (v, true, nil_error)
        | _ =>
           match u_NestedBool m path with
           | (v, true, None) => Ret (FormatBool v, true, nil_error)
           | _ =>
              match u_NestedInt64 m path with
              | (v, true, None) => Ret (pretty v, true, nil_error)
              | _ =>
                 match u_NestedFloat64 m path with
                 | (v, true, None) => Ret (FormatFloat v, true, nil_error)
                 | (_, found, _) => Ret ("", found, errorf "invalid field type")
                 end
              end
           end
        end
     | Panic e => Panic e
     | OutOfFuel => OutOfFuel
     end
  end.

(** The loop over the keys that are left: [path] is the path of this call
    and [cpath] the keys since its start.  A bracket starts a new call on the
    element. *)
Fixpoint nested_loop (object : JV) (path cpath keys : list string) : outcome (string * bool * error) :=
  match keys with
  | [] => read_value object path
  | key :: keys =>
     if is_bracket key
     then
       let k := inner key in
       match as_map object with
       | Ret m =>
          match u_NestedSlice m cpath with
          | (sliceObj, true, None) =>
             match Atoi k with
             | (_, Some _) => Ret ("", false, errorf ("invalid array index: " +:+ k))
             | (index, None) =>
                let index := if index <? 0 then Z.of_nat (length sliceObj) + index else index in
                if (Z.of_nat (length sliceObj) <=? index) || (index <? 0)
                then Ret ("", false, errorf "index out of range")
                else
                  match sliceObj !! Z.to_nat index with
                  | Some element => nested_loop element keys [] keys
                  | None => Panic "index out of range"
                  end
             end
          | _ =>
             match u_NestedMap m cpath with
             | (mapObj, true, None) =>
                match mapObj !! k with
                | None => Ret ("", false, errorf ("key not found: " +:+ k))
                | Some element => nested_loop element keys [] keys
                end
             | _ => nested_loop object path cpath keys
             end
          end
       | Panic e => Panic e
       | OutOfFuel => OutOfFuel
       end
     else nested_loop object path (cpath ++ [key]) keys
  end.

Definition getNestedString (object : JV) (path : list string) : outcome (string * bool * error) :=
  nested_loop object path [] path.
End get.

End Watcher.
Export Watcher.

(** ** The contract of the accessors *)

(** The value under a path of keys. *)
Fixpoint field (v : JV) (path : list string) : option JV :=
  match path with
  | [] => Some v
  | k :: path => match v with JMap m => m !! k ≫= λ v, field v path | _ => None end
  end.

(** An accessor finds the value under the path when it has the accessor's
    type, and else does not. *)
Definition accessor {A} (get : gmap string JV → list string → A * bool * error) (cast : JV → option A) : Prop :=
  ∀ m p, match field (JMap m) p ≫= cast with
         | Some a => get m p = (a, true, None)
         | None => ∃ x err, get m p = (x, false, err)
         end.

Definition as_Slice (v : JV) : option (list JV) := match v with JSlice l => Some l | _ => None end.
Definition as_Map (v : JV) : option (gmap string JV) := match v with JMap m => Some m | _ => None end.
Definition as_String (v : JV) : option string := match v with JString s => Some s | _ => None end.
Definition as_Bool (v : JV) : option bool := match v with JBool b => Some b | _ => None end.
Definition as_Int64 (v : JV) : option Z := match v with JInt64 z => Some z | _ => None end.
Definition as_Float64 (v : JV) : option Z := match v with JFloat64 f => Some f | _ => None end.

Class NestedLaws `{NestedAccess} := {
  slice_law : accessor u_NestedSlice as_Slice;
  map_law : accessor u_NestedMap as_Map;
  string_law : accessor u_NestedString as_String;
  bool_law : accessor u_NestedBool as_Bool;
  int_law : accessor u_NestedInt64 as_Int64;
  float_law : accessor u_NestedFloat64 as_Float64 }.

(** ** The grammar of paths: names after dots, keys and indices in brackets *)

Inductive seg := Field (name : string) | Bracket (k : string).
#[global] Instance seg_eq_dec : EqDecision seg.
Proof. solve_decision. Defined.

Definition seg_key (g : seg) : string :=
  match g with Field n => n | Bracket k => String "[" (k +:+ "]") end.
Fixpoint render_rest (segs : list seg) : string :=
  match segs with
  | [] => ""
  | Field n :: segs => String "." (n +:+ render_rest segs)
  | Bracket k :: segs => String "[" (k +:+ String "]" (render_rest segs))
  end.
Definition render (segs : list seg) : string :=
  match segs with
  | Field n :: segs => n +:+ render_rest segs
  | _ => render_rest segs
  end.

(** A name has no dot and no opening bracket; a key has no closing bracket
    and no newline. *)
Definition seg_ok (g : seg) : bool :=
  match g with
  | Field n => negb (bool_decide (n = "")) && all_chars name_char n
  | Bracket k => all_chars (λ c, not_newline c && negb (bool_decide ("]"%char = c))) k
  end.

Lemma search_name n s b :
  n ≠ "" → all_chars name_char n = true → (∀ c s', s = String c s' → name_char c = false) →
  search path_re b (n +:+ s) = Some (n, [], s).
Proof.
  intros Hne Hn Hs.
  assert (rmatch path_re (MState b (n +:+ s) []) Some = Some (MState false s [])) as Hm.
  { unfold path_re. cbn [rmatch]. fold (@rmatch mstate).
    rewrite (rmatch_plus_longest name_char Some n s b [] (MState false s []) Hn Hne Hs eq_refl). done. }
  rewrite (search_here _ _ _ _ Hm). cbn. by rewrite consumed_app.
Qed.

Lemma search_dot s b : search path_re b (String "." s) = search path_re false s.
Proof. done. Qed.

Lemma search_bracket k s b :
  seg_ok (Bracket k) = true →
  search path_re b (String "[" (k +:+ String "]" s)) = Some (String "[" (k +:+ "]"), [], s).
Proof.
  intros Hk.
  assert (rmatch path_re (MState b (String "[" (k +:+ String "]" s)) []) Some = Some (MState false s [])) as Hm.
  { exact (rmatch_bracketed not_newline "["%char "]"%char k s b [] Hk). }
  rewrite (search_here _ _ _ _ Hm). cbn [rest caps].
  assert (String "[" (k +:+ String "]" s) = (String "[" (k +:+ "]")) +:+ s) as ->
    by (cbn; by rewrite <- str_app_assoc).
  by rewrite consumed_app.
Qed.

Lemma render_rest_head segs c s : render_rest segs = String c s → name_char c = false.
Proof. destruct segs as [|[n|k] segs]; cbn; [done|..]; by intros [= <- _]. Qed.

Lemma find_all_rest segs fuel b :
  Forall (λ g, seg_ok g = true) segs → (String.length (render_rest segs) ≤ fuel)%nat →
  find_all fuel path_re b (render_rest segs) = seg_key <$> segs.
Proof.
  revert fuel b. induction segs as [|g segs IH]; intros fuel b Hok Hf.
  { by destruct fuel. }
  apply Forall_cons in Hok as [Hg Hok]. rewrite fmap_cons.
  destruct g as [n|k]; cbn [render_rest String.length] in Hf; (destruct fuel as [|fuel]; [lia|]);
    cbn [find_all render_rest seg_key]; rewrite str_length_app in Hf.
  - apply andb_prop in Hg as [Hne Hn]. apply negb_true_iff, bool_decide_eq_false in Hne.
    rewrite search_dot, search_name by (done || apply render_rest_head). f_equal. apply IH; [done|lia].
  - rewrite search_bracket by done. f_equal. cbn in Hf. apply IH; [done|lia].
Qed.

(** [parsePath] reads back a path written from its segments: every
    sequence of names and of keys in brackets, where names have no dot and no
    opening bracket and keys may have both. *)
Theorem parsePath_roundtrip segs :
  segs ≠ [] → Forall (λ g, seg_ok g = true) segs → parsePath (render segs) = inr (seg_key <$> segs).
Proof.
  intros Hne Hok. unfold parsePath.
  assert (FindAllString path_re (render segs) = seg_key <$> segs) as ->.
  2: { rewrite length_fmap. by destruct segs. }
  unfold FindAllString. destruct segs as [|[n|k] segs]; [done| |by apply find_all_rest].
  apply Forall_cons in Hok as [Hg Hok]. cbn [render]. rewrite str_length_app.
  apply andb_prop in Hg as [Hn Hg]. apply negb_true_iff, bool_decide_eq_false in Hn.
  destruct n as [|c n]; [done|]. set (x := String c n) in *. cbn [String.length x Nat.add]. fold x. cbn [find_all].
  rewrite search_name by (done || apply render_rest_head). rewrite fmap_cons. cbn [seg_key]. f_equal.
  apply find_all_rest; [done|lia].
Qed.

(** ** What a path selects *)

(** An index counts from the end when it is negative. *)
Definition element_at (l : list JV) (k : string) : option JV :=
  match Atoi k with
  | (i, None) =>
     let i := if i <? 0 then Z.of_nat (length l) + i else i in
     if i <? 0 then None else l !! Z.to_nat i
  | _ => None
  end.
Definition seg_step (v : JV) (g : seg) : option JV :=
  match g, v with
  | Field n, JMap m => m !! n
  | Bracket k, JMap m => m !! k
  | Bracket k, JSlice l => element_at l k
  | _, _ => None
  end.
Fixpoint select (v : JV) (segs : list seg) : option JV :=
  match segs with
  | [] => Some v
  | g :: segs => seg_step v g ≫= λ v, select v segs
  end.

(** On the way, a bracket that follows a bracket meets a list: a list is an element
    of another one. *)
Definition is_list (v : JV) : bool := match v with JSlice _ => true | _ => false end.
Definition is_Bracket (g : seg) : bool := match g with Bracket _ => true | Field _ => false end.
Fixpoint list_in_list (after : bool) (v : JV) (segs : list seg) : bool :=
  match segs with
  | [] => false
  | g :: segs =>
     (after && is_Bracket g && is_list v) ||
     match seg_step v g with Some v => list_in_list (is_Bracket g) v segs | None => false end
  end.

Lemma select_app v s1 s2 : select v (s1 ++ s2) = select v s1 ≫= λ v, select v s2.
Proof. revert v. induction s1 as [|g s1 IH]; intros v; [done|]. cbn. destruct (seg_step v g); cbn; auto. Qed.

Lemma field_app v p q : field v (p ++ q) = field v p ≫= λ v, field v q.
Proof.
  revert v. induction p as [|k p IH]; intros v; [done|]. cbn. destruct v as [| | | | | |m]; try done.
  destruct (m !! k); cbn; auto.
Qed.

Lemma is_bracket_Bracket k : is_bracket (seg_key (Bracket k)) = true.
Proof.
  unfold is_bracket, HasSuffix. cbn [seg_key HasPrefix]. rewrite bool_decide_eq_true_2 by done. cbn [andb].
  change (String "[" (k +:+ "]")) with (("[" +:+ k) +:+ "]"). rewrite str_length_app. cbn [String.length].
  rewrite Nat.add_sub, drop_str_app. rewrite !bool_decide_eq_true_2 by (done || lia). done.
Qed.
Lemma inner_Bracket k : inner (seg_key (Bracket k)) = k.
Proof.
  unfold inner. cbn [seg_key String.length drop_str]. rewrite str_length_app. cbn.
  replace (String.length k + 1 - 1)%nat with (String.length k) by lia. apply take_str_app.
Qed.

(** The segment that a key of a path stands for. *)
Definition seg_of (key : string) : seg := if is_bracket key then Bracket (inner key) else Field key.
Definition seg_wf (g : seg) : Prop := match g with Field n => is_bracket n = false | Bracket _ => True end.

Lemma bracket_inner key : is_bracket key = true → String "[" (inner key +:+ "]") = key.
Proof.
  intros [(s & ->)%HasPrefix_spec [_ Hs%bool_decide_eq_true]%andb_prop]%andb_prop. cbn in *.
  unfold inner. cbn. f_equal. destruct s as [|c s]; [done|]. cbn in *. rewrite ?Nat.sub_0_r in *.
  rewrite <- Hs. apply take_drop_str.
Qed.
Lemma seg_of_key key : seg_key (seg_of key) = key ∧ seg_wf (seg_of key).
Proof. unfold seg_of. destruct (is_bracket key) eqn:Hb; cbn; [by rewrite bracket_inner|done]. Qed.
Lemma segs_of_path path : seg_key <$> (seg_of <$> path) = path ∧ Forall seg_wf (seg_of <$> path).
Proof.
  induction path as [|key path [IH1 IH2]]; [done|]. rewrite !fmap_cons, IH1.
  destruct (seg_of_key key) as [-> Hwf]. by split; [|constructor].
Qed.

Section get_spec.
Context `{NestedLaws}.

(** The text of a value of a field. *)
Definition text (v : JV) : option string :=
  match v with
  | JString s => Some s
  | JBool b => Some (FormatBool b)
  | JInt64 z => Some (pretty z)
  | JFloat64 f => Some (FormatFloat f)
  | _ => None
  end.

Lemma accessor_Some {A} get (cast : JV → option A) m p v a :
  accessor get cast → field (JMap m) p = Some v → cast v = Some a → get m p = (a, true, None).
Proof. intros Ha Hf Hc. specialize (Ha m p). rewrite Hf in Ha. cbn in Ha. by rewrite Hc in Ha. Qed.
Lemma accessor_None {A} get (cast : JV → option A) m p v :
  accessor get cast → field (JMap m) p = Some v → cast v = None → ∃ x err, get m p = (x, false, err).
Proof. intros Ha Hf Hc. specialize (Ha m p). rewrite Hf in Ha. cbn in Ha. by rewrite Hc in Ha. Qed.

(** Read with an accessor whose law is [L]: the value, or not. *)
Ltac acc L := first [rewrite (accessor_Some _ _ _ _ _ _ L ltac:(eassumption) eq_refl); reflexivity
  | let x := fresh in let e := fresh in
    destruct (accessor_None _ _ _ _ _ L ltac:(eassumption) eq_refl) as (x & e & ->)].

(** A value under a path of names is read by its type. *)
Lemma read_value_field m p v :
  field (JMap m) p = Some v →
  read_value (JMap m) p = Ret (match text v with
                               | Some t => (t, true, None)
                               | None => ("", false, errorf "invalid field type")
                               end).
Proof.
  intros Hf. cbn [read_value as_map].
  destruct v; acc string_law; acc bool_law; acc int_law; acc float_law; reflexivity.
Qed.

(** Names only: the loop collects them. *)
Lemma nested_loop_names v path cpath names :
  Forall (λ n, is_bracket n = false) names →
  nested_loop v path cpath names = read_value v path.
Proof.
  intros Hn. revert cpath. induction Hn as [|n names Hok _ IH]; intros cpath; cbn [nested_loop]; [done|].
  by rewrite Hok.
Qed.

(** A bracket on a list or a map goes on with the element. *)
Lemma nested_loop_bracket m path cpath v k e keys :
  field (JMap m) cpath = Some v → seg_step v (Bracket k) = Some e →
  nested_loop (JMap m) path cpath (seg_key (Bracket k) :: keys) = nested_loop e keys [] keys.
Proof.
  intros Hf Hs. cbn [nested_loop]. rewrite is_bracket_Bracket, inner_Bracket. cbn [as_map].
  destruct v as [| | | | |l|m']; try done; cbn [seg_step] in Hs.
  - rewrite (accessor_Some _ _ _ _ _ _ slice_law Hf eq_refl). unfold element_at in Hs.
    destruct (Atoi k) as [i [err|]]; [done|]. cbv zeta in *.
    set (j := if i <? 0 then Z.of_nat (length l) + i else i) in *. destruct (Z.ltb_spec j 0); [done|].
    apply lookup_lt_Some in Hs as Hlt.
    rewrite (proj2 (Z.leb_gt _ _)) by lia. cbn [orb]. by rewrite Hs.
  - destruct (accessor_None _ _ _ _ _ slice_law Hf eq_refl) as (x & err & ->).
    rewrite (accessor_Some _ _ _ _ _ _ map_law Hf eq_refl). by rewrite Hs.
Qed.

(** The value that the loop is at: under the names since the last bracket. *)
Definition at_value (after : bool) (o : JV) (cpath : list string) (v : JV) : Prop :=
  field o cpath = Some v ∧ (if after then cpath = [] else ∃ m, o = JMap m).

Notation not_a_map := "interface conversion: interface {} is not map[string]interface {}".

Lemma nested_loop_at_bracket after o path cpath v k e keys :
  at_value after o cpath v → seg_step v (Bracket k) = Some e →
  nested_loop o path cpath (seg_key (Bracket k) :: keys) =
    if after && is_list v then Panic not_a_map else nested_loop e keys [] keys.
Proof.
  intros [Hf Ha] Hs. destruct after.
  - subst cpath. injection Hf as ->. destruct v as [| | | | |l|m]; try done.
    + cbn [nested_loop]. by rewrite is_bracket_Bracket.
    + by apply (nested_loop_bracket m path [] (JMap m)).
  - destruct Ha as [m ->]. by apply (nested_loop_bracket m path cpath v).
Qed.

(** Up to the last bracket of a path: the loop arrives at the element. *)
Lemma nested_loop_prefix segs k after o path cpath v e keys :
  Forall seg_wf segs → at_value after o cpath v → select v (segs ++ [Bracket k]) = Some e →
  nested_loop o path cpath ((seg_key <$> segs ++ [Bracket k]) ++ keys) =
    if list_in_list after v (segs ++ [Bracket k]) then Panic not_a_map else nested_loop e keys [] keys.
Proof.
  intros Hok. revert after o path cpath v. induction Hok as [|g segs Hg _ IH]; intros after o path cpath v Hv Hs.
  - cbn [app select fmap list_fmap list_in_list] in *. destruct (seg_step v (Bracket k)) as [e'|] eqn:He; [|done].
    injection Hs as ->. rewrite (nested_loop_at_bracket after o path cpath v k e) by done.
    cbn [is_Bracket]. by rewrite andb_true_r, orb_false_r.
  - rewrite <- app_comm_cons, fmap_cons, <- app_comm_cons. cbn [app select list_in_list] in *.
    destruct (seg_step v g) as [v'|] eqn:He; cbn in Hs; [|done]. destruct g as [n|k'].
    + cbn [seg_key nested_loop is_Bracket]. cbn in Hg. rewrite Hg, andb_false_r. cbn [andb orb].
      apply (IH false o path _ v'); [|done]. destruct Hv as [Hf Ha]. split.
      * rewrite field_app, Hf. destruct v; try done. cbn in He |- *. by rewrite He.
      * destruct after; [|done]. subst cpath. injection Hf as ->. destruct v; try done. by eexists.
    + rewrite (nested_loop_at_bracket after o path cpath v k' v') by done. cbn [is_Bracket]. rewrite andb_true_r.
      destruct (after && is_list v); [done|]. cbn [orb]. by apply (IH true v' _ [] v').
Qed.

Lemma list_in_list_names after v a (names : list string) :
  list_in_list after v (a ++ (Field <$> names)) = list_in_list after v a.
Proof.
  revert after v. induction a as [|g a IH]; intros after v.
  - revert after v. induction names as [|n names IH]; intros after v; [done|]. rewrite fmap_cons. cbn [app list_in_list is_Bracket].
    rewrite andb_false_r. cbn [andb orb]. destruct (seg_step v (Field n)); [apply IH|done].
  - cbn [app list_in_list]. f_equal. destruct (seg_step v g); [apply IH|done].
Qed.

Definition ends_in_bracket (segs : list seg) : bool :=
  match last segs with Some (Bracket _) => true | _ => false end.

(** What is read of an element of a list or a map. *)
Definition read_element (v : JV) : outcome (string * bool * error) :=
  match v with
  | JString s => Ret (s, true, None)
  | JBool b => Ret (FormatBool b, true, None)
  | JMap _ => Ret ("", false, errorf "invalid field type")
  | JNull => Panic "invalid memory address or nil pointer dereference"
  | JInt64 _ | JFloat64 _ | JSlice _ =>
     Panic "interface conversion: interface {} is not map[string]interface {}"
  end.

Lemma read_value_element v : read_value v [] = read_element v.
Proof. destruct v as [| | | | | |m]; try done. by rewrite (read_value_field m [] (JMap m) eq_refl). Qed.

Lemma split_path segs :
  ∃ pre names, segs = pre ++ (Field <$> names) ∧ (pre = [] ∨ ∃ q k, pre = q ++ [Bracket k]).
Proof.
  induction segs as [|g segs (pre & names & -> & Hpre)] using rev_ind; [by exists [], []; auto|].
  destruct g as [n|k].
  - exists pre, (names ++ [n]). rewrite fmap_app, app_assoc. done.
  - exists ((pre ++ (Field <$> names)) ++ [Bracket k]), []. rewrite app_nil_r. eauto 10.
Qed.

Lemma select_names m (names : list string) v : select (JMap m) (Field <$> names) = Some v → field (JMap m) names = Some v.
Proof.
  revert m. induction names as [|n names IH]; intros m; [done|]. cbn.
  destruct (m !! n) as [w|]; [|done]. cbn. destruct names as [|n' names]; [done|].
  destruct w as [| | | | | |m']; try done. apply IH.
Qed.

Lemma keys_of_names (names : list string) : seg_key <$> (Field <$> names) = names.
Proof. induction names as [|n names IH]; [done|]. rewrite !fmap_cons, IH. done. Qed.

Lemma names_ok (names : list string) :
  Forall seg_wf (Field <$> names) → Forall (λ n, is_bracket n = false) names.
Proof. by rewrite Forall_fmap. Qed.

(** Reading along well-formed segments. *)
Lemma getNestedString_segs m segs v :
  Forall seg_wf segs → select (JMap m) segs = Some v →
  getNestedString (JMap m) (seg_key <$> segs) =
    if list_in_list false (JMap m) segs
    then Panic "interface conversion: interface {} is not map[string]interface {}"
    else if ends_in_bracket segs then read_element v
    else Ret (match text v with
              | Some t => (t, true, None)
              | None => ("", false, errorf "invalid field type")
              end).
Proof.
  intros Hok Hs. unfold getNestedString.
  destruct (split_path segs) as (pre & names & -> & Hpre). apply Forall_app in Hok as [Hok Hn%names_ok].
  rewrite fmap_app, keys_of_names, list_in_list_names. rewrite select_app in Hs.
  destruct (select (JMap m) pre) as [e|] eqn:He; [|done]. cbn in Hs.
  assert (nested_loop (JMap m) ((seg_key <$> pre) ++ names) [] ((seg_key <$> pre) ++ names) =
    if list_in_list false (JMap m) pre then Panic not_a_map else read_value e names) as ->.
  { destruct Hpre as [->|(q & k & ->)].
    - injection He as <-. by apply nested_loop_names.
    - apply Forall_app in Hok as [Hok _].
      rewrite (nested_loop_prefix q k false (JMap m) _ [] (JMap m) e names Hok); [|by split; eauto|done].
      by rewrite nested_loop_names. }
  destruct (list_in_list false (JMap m) pre); [done|]. destruct names as [|n names].
  - rewrite app_nil_r. injection Hs as ->. rewrite read_value_element. unfold ends_in_bracket.
    destruct Hpre as [->|(q & k & ->)]; [by injection He as <-|]. by rewrite last_snoc.
  - assert (ends_in_bracket (pre ++ (Field <$> n :: names)) = false) as ->.
    { unfold ends_in_bracket. rewrite last_app, fmap_last. by destruct (last (n :: names)) eqn:E; [|apply last_None in E]. }
    destruct e as [| | | | | |m']; try done. apply select_names in Hs. by apply read_value_field.
Qed.

(** C37: The value a path selects in an object is what [getNestedString]
    reads, whatever the keys of the path.  A path on which a bracket directly after another one
    has to index a list, such as a[0][0] on a list of lists, makes the controller
    panic.  Otherwise, under a name, a string, a boolean, an integer or a float gives
    its text and anything else an error; as an element of a list or a map, only a
    string or a boolean gives its text and a map gives an error, and a number, a list
    or null makes the controller panic. *)
Theorem getNestedString_spec m path v :
  let segs := seg_of <$> path in
  select (JMap m) segs = Some v →
  getNestedString (JMap m) path =
    if list_in_list false (JMap m) segs
    then Panic "interface conversion: interface {} is not map[string]interface {}"
    else if ends_in_bracket segs then read_element v
    else Ret (match text v with
              | Some t => (t, true, None)
              | None => ("", false, errorf "invalid field type")
              end).
Proof.
  intros segs Hs. destruct (segs_of_path path) as [Hkeys Hwf]. rewrite <- Hkeys at 1. by apply getNestedString_segs.
Qed.

(** What follows the last bracket of a path is not looked at when the
    element there is a string: names that select nothing do not make the
    field missing, the string is copied all the same. *)
Theorem trailing_names_ignored m segs k s (names : list string) :
  Forall seg_wf segs → list_in_list false (JMap m) (segs ++ [Bracket k]) = false →
  select (JMap m) (segs ++ [Bracket k]) = Some (JString s) → Forall (λ n, is_bracket n = false) names →
  getNestedString (JMap m) (seg_key <$> (segs ++ [Bracket k]) ++ (Field <$> names)) = Ret (s, true, None).
Proof.
  intros Hok Hl Hs Hn. unfold getNestedString. rewrite fmap_app, keys_of_names.
  rewrite (nested_loop_prefix segs k false (JMap m) _ [] (JMap m) (JString s) names Hok); [|by split; eauto|done].
  rewrite Hl. by apply nested_loop_names.
Qed.
End get_spec.

(** Reading a field ends, with a result or a panic. *)
Lemma getNestedString_ends `{NestedAccess} v path : getNestedString v path ≠ OutOfFuel.
Proof.
  unfold getNestedString. generalize path at 1. generalize (@nil string).
  assert (∀ v p, read_value v p ≠ OutOfFuel) as Hread by (intros; unfold read_value, as_map; repeat case_match; done).
  revert v. induction path as [|key keys IH]; intros v cpath path; cbn [nested_loop]; [apply Hread|].
  unfold as_map. cbv zeta. repeat (case_match; simplify_eq; auto; try done).
Qed.
