(* ===== verification/MetadataController.v ===== *)
(** pkg/client/controllers/servicemetadatawatcher_controller.go, the
    reconciliation: which patches of the Cluster objects a ServiceMetadataWatcher
    gives rise to, and which watchers a change of an object reconciles. *)
From Stdlib Require Import Ascii.
From stdpp Require Import base gmap strings list option numbers sets pretty.
From S2P Require Import Prelude GoStrings Registry Sqs SyncParser SyncController MetadataWatcher.

Local Open Scope Z_scope.

(** The Kubernetes client, apimachinery's group versions, and the encoders. *)
Class WatchEnv (W : Type) := {
  schema_ParseGroupVersion : string → res (string * string);
  GVK_String : GroupVersionKind → string;
  k8s_GetWatcher : string → string → M W (ServiceMetadataWatcher + kerror);
  k8s_GetUnstructured : GroupVersionKind → string → string → M W (gmap string JV + string);
  (** A namespace by its annotations. *)
  k8s_GetNamespace : string → M W (gmap string string + string);
  k8s_ListWatchers : string → M W (list ServiceMetadataWatcher + string);
  k8s_ListClusters : string → M W (list Cluster + string);
  (** [Patch] overwrites the object it is given with the server's answer. *)
  k8s_Patch : Cluster → string → M W (Cluster * error);
  Marshal : Cluster → string * error;
  MergePatch : string → string → string * error }.

Module WatcherReconciler.

Definition noRequeue : Result * error := (mkResult false 0, nil_error).
Definition requeueIfError (err : error) : Result * error := (mkResult false 0, err).

Section reconciler.
Context `{WatchEnv W} `{NestedAccess} (WatchedGVKs : list GroupVersionKind) (ServiceIdAnnotation : string).

Fixpoint isAllowedGVK_in (gvk : GroupVersionKind) (watched : list GroupVersionKind) : bool :=
  match watched with
  | [] => false
  | watchedGVK :: watched =>
     if bool_decide (GVK_String gvk = GVK_String watchedGVK) then true else isAllowedGVK_in gvk watched
  end.
Definition isAllowedGVK (gvk : GroupVersionKind) : bool := isAllowedGVK_in gvk WatchedGVKs.

Definition getServiceIdFromNamespaceAnnotation (namespace : string) : M W (string * error) :=
  ns ← k8s_GetNamespace namespace;
  match ns with
  | inr e => mret ("", errorf e)
  | inl annotations =>
     match annotations !! ServiceIdAnnotation with
     | None => mret ("", errorf ("namespace " +:+ namespace +:+ " does not have annotation " +:+ ServiceIdAnnotation))
     | Some serviceId => mret (serviceId, nil_error)
     end
  end.

Definition createServiceMetadataPatch (serviceId namespace field value : string) : string * error :=
  let '(oldClusterJSON, err) := Marshal zeroCluster in
  match err with
  | Some e => ("", errorf e)
  | None =>
     let newCluster := update_Spec (set_ServiceMetadata
       (Some {[serviceId := {[namespace := {[field := value]}]}]})) zeroCluster in
     let '(newClusterJSON, err) := Marshal newCluster in
     match err with
     | Some e => ("", errorf e)
     | None => MergePatch oldClusterJSON newClusterJSON
     end
  end.

(** The loop over the fields of a watched object; a field that cannot be
    read is logged and skipped. *)
Fixpoint collect_fields (serviceId namespace : string) (obj : gmap string JV) (fields : list WatchedField)
    (patches : list string) : outcome (list string) :=
  match fields with
  | [] => Ret patches
  | f :: fields =>
     match parsePath (Source f) with
     | inl _ => collect_fields serviceId namespace obj fields patches
     | inr path =>
        match getNestedString (JMap obj) path with
        | Ret (value, found, err) =>
           match err with
           | Some _ => collect_fields serviceId namespace obj fields patches
           | None =>
              if negb found then collect_fields serviceId namespace obj fields patches
              else
                let '(patch, err) := createServiceMetadataPatch serviceId namespace (Destination f) value in
                match err with
                | Some _ => collect_fields serviceId namespace obj fields patches
                | None => collect_fields serviceId namespace obj fields (patches ++ [patch])
                end
           end
        | Panic e => Panic e
        | OutOfFuel => OutOfFuel
        end
     end
  end.

(** The loop over the watched objects: an early return, or the patches. *)
Fixpoint collect_objects (serviceId namespace : string) (wsos : list WatchedServiceObject)
    (patches : list string) : M W ((Result * error) + list string) :=
  match wsos with
  | [] => mret (inr patches)
  | wso :: wsos =>
     match schema_ParseGroupVersion (ref_APIVersion (Reference wso)) with
     | inl e => mret (inl (requeueIfError (errorf e)))
     | inr gv =>
        let gvk := mkGVK gv.1 gv.2 (ref_Kind (Reference wso)) in
        if negb (isAllowedGVK gvk) then mret (inl noRequeue)
        else
          obj ← k8s_GetUnstructured gvk namespace (ref_Name (Reference wso));
          match obj with
          | inr e => mret (inl (requeueIfError (errorf e)))
          | inl obj =>
             if (length (WatchedFields wso) =? 0)%nat then mret (inl noRequeue)
             else
               patches ← lift (collect_fields serviceId namespace obj (WatchedFields wso) patches);
               collect_objects serviceId namespace wsos patches
          end
     end
  end.

(** The patches on one cluster; an error is logged. *)
Fixpoint patch_all (c : Cluster) (patches : list string) : M W () :=
  match patches with
  | [] => mret ()
  | patch :: patches => '(c, _) ← k8s_Patch c patch; patch_all c patches
  end.
Fixpoint patch_clusters (items : list Cluster) (patches : list string) : M W () :=
  match items with
  | [] => mret ()
  | c :: items => _ ← patch_all c patches; patch_clusters items patches
  end.

Definition applyServiceMetadataPatches (patches : list string) : M W error :=
  l ← k8s_ListClusters "cluster-registry";
  match l with
  | inr e => mret (errorf e)
  | inl items => _ ← patch_clusters items patches; mret nil_error
  end.

Definition Reconcile (namespace name : string) : M W (Result * error) :=
  o ← k8s_GetWatcher namespace name;
  match o with
  | inr e => mret (requeueIfError (match e with NotFoundErr => nil_error | OtherErr m => errorf m end))
  | inl instance =>
     if smw_Deleted instance then mret noRequeue
     else if (length (WatchedServiceObjects instance) =? 0)%nat then mret noRequeue
     else
       '(serviceId, err) ← getServiceIdFromNamespaceAnnotation (smw_Namespace instance);
       match err with
       | Some _ => mret noRequeue
       | None =>
          r ← collect_objects serviceId (smw_Namespace instance) (WatchedServiceObjects instance) [];
          match r with
          | inl r => mret r
          | inr patches =>
             if (length patches =? 0)%nat then mret noRequeue
             else
               err ← applyServiceMetadataPatches patches;
               match err with
               | Some e => mret (requeueIfError (errorf e))
               | None => mret noRequeue
               end
          end
       end
  end.

(** ** Which watchers a change of an object reconciles *)

Definition refers_to (gvk : GroupVersionKind) (obj : WatchedObject) (ns : string) (wso : WatchedServiceObject) : bool :=
  match schema_ParseGroupVersion (ref_APIVersion (Reference wso)) with
  | inl _ => false
  | inr gv =>
     if bool_decide (gv ≠ (Group gvk, Version_ gvk)) || bool_decide (ref_Kind (Reference wso) ≠ gvk_Kind gvk) then false
     else bool_decide (ns = wo_Namespace obj) && bool_decide (ref_Name (Reference wso) = wo_Name obj)
  end.

(** A request for each reference to the object. *)
Fixpoint requests_of (gvk : GroupVersionKind) (obj : WatchedObject) (smw : ServiceMetadataWatcher)
    (wsos : list WatchedServiceObject) (requests : list (string * string)) : list (string * string) :=
  match wsos with
  | [] => requests
  | wso :: wsos =>
     requests_of gvk obj smw wsos
       (if refers_to gvk obj (smw_Namespace smw) wso then requests ++ [(smw_Namespace smw, smw_Name smw)] else requests)
  end.
Fixpoint requests_of_all (gvk : GroupVersionKind) (obj : WatchedObject) (items : list ServiceMetadataWatcher)
    (requests : list (string * string)) : list (string * string) :=
  match items with
  | [] => requests
  | smw :: items => requests_of_all gvk obj items (requests_of gvk obj smw (WatchedServiceObjects smw) requests)
  end.

Definition enqueueRequestsFromMapFunc (gvk : GroupVersionKind) (obj : WatchedObject) : M W (list (string * string)) :=
  if bool_decide (wo_GVK obj ≠ gvk) then mret []
  else
    l ← k8s_ListWatchers (wo_Namespace obj);
    match l with
    | inr _ => mret []
    | inl items => mret (requests_of_all gvk obj items [])
    end.
End reconciler.

End WatcherReconciler.
Import WatcherReconciler.

(** ** The contract of the client

    Reading changes nothing; [patched] are the patches sent to the server, by
    the key of the Cluster object. *)
Class WatchLaws (W : Type) `{WatchEnv W} := {
  patched : W → list (string * string * string);
  watcher_law ns n w : ∃ o, k8s_GetWatcher ns n w = (Ret o, w);
  object_law g ns n w : ∃ o, k8s_GetUnstructured g ns n w = (Ret o, w);
  namespace_law n w : ∃ o, k8s_GetNamespace n w = (Ret o, w);
  clusters_law n w : ∃ o, k8s_ListClusters n w = (Ret o, w);
  patch_law c p w : ∃ c' err w', k8s_Patch c p w = (Ret (c', err), w') ∧
    Namespace (metadata c') = Namespace (metadata c) ∧ meta_Name (metadata c') = meta_Name (metadata c) ∧
    patched w' = patched w ++ [(Namespace (metadata c), meta_Name (metadata c), p)] }.

Section patches.
Context `{WatchLaws W} `{NestedAccess} (GVKs : list GroupVersionKind) (annotation : string).
Implicit Types (w : W) (wso : WatchedServiceObject) (obj : gmap string JV).

(** The object of a watched reference, when the watcher may read it, it is
    there, and it has fields to watch. *)
Definition object_of w ns wso : option (gmap string JV) :=
  match schema_ParseGroupVersion (ref_APIVersion (Reference wso)) with
  | inl _ => None
  | inr gv =>
     let gvk := mkGVK gv.1 gv.2 (ref_Kind (Reference wso)) in
     if isAllowedGVK GVKs gvk
     then match (k8s_GetUnstructured gvk ns (ref_Name (Reference wso)) w).1 with
          | Ret (inl obj) => if (length (WatchedFields wso) =? 0)%nat then None else Some obj
          | _ => None
          end
     else None
  end.

(** The patch of a field, when its path parses and its value is found. *)
Definition field_patch (sid ns : string) obj (f : WatchedField) : option string :=
  match parsePath (Source f) with
  | inl _ => None
  | inr path =>
     match getNestedString (JMap obj) path with
     | Ret (value, true, None) =>
        match createServiceMetadataPatch sid ns (Destination f) value with
        | (patch, None) => Some patch
        | _ => None
        end
     | _ => None
     end
  end.
(** Reading it does not panic. *)
Definition field_safe obj (f : WatchedField) : bool :=
  match parsePath (Source f) with
  | inl _ => true
  | inr path => match getNestedString (JMap obj) path with Ret _ => true | _ => false end
  end.

Lemma collect_fields_run sid ns obj fields patches :
  Forall (λ f, field_safe obj f = true) fields →
  collect_fields sid ns obj fields patches = Ret (patches ++ omap (field_patch sid ns obj) fields).
Proof.
  intros Hf. revert patches. induction Hf as [|f fields Hsafe _ IH]; intros patches; [by rewrite app_nil_r|].
  cbn [collect_fields omap list_omap]. unfold field_patch at 1. unfold field_safe in Hsafe.
  destruct (parsePath (Source f)) as [e|path]; [apply IH|].
  destruct (getNestedString (JMap obj) path) as [[[value found] err]|e|]; [|done..].
  destruct err as [e|], found; cbn [negb]; try apply IH.
  destruct (createServiceMetadataPatch sid ns (Destination f) value) as [patch [e|]]; [apply IH|].
  by rewrite IH, <- app_assoc.
Qed.

Lemma collect_fields_panics sid ns obj fields patches :
  ¬ Forall (λ f, field_safe obj f = true) fields → ∃ e, collect_fields sid ns obj fields patches = Panic e.
Proof.
  revert patches. induction fields as [|f fields IH]; intros patches Hf; [by destruct Hf|]. cbn [collect_fields].
  destruct (field_safe obj f) eqn:Hs.
  - assert (¬ Forall (λ f, field_safe obj f = true) fields) as Hf2 by (intros Hall; apply Hf; by constructor).
    unfold field_safe in Hs. repeat case_match; simplify_eq; eauto.
  - unfold field_safe in Hs. destruct (parsePath (Source f)) as [e|path]; [done|].
    pose proof (getNestedString_ends (JMap obj) path). destruct (getNestedString (JMap obj) path) as [r|e|]; [done|by eexists|done].
Qed.

Definition patches_of sid ns (wsos : list WatchedServiceObject) (objs : list (gmap string JV)) : list string :=
  concat (zip_with (λ wso obj, omap (field_patch sid ns obj) (WatchedFields wso)) wsos objs).

(** A watched reference whose object can be read, and the others. *)
Lemma object_of_Some w ns wso wsos sid obj patches :
  object_of w ns wso = Some obj →
  collect_objects GVKs sid ns (wso :: wsos) patches w =
    (patches ← lift (collect_fields sid ns obj (WatchedFields wso) patches);
     collect_objects GVKs sid ns wsos patches) w.
Proof.
  unfold object_of. cbn [collect_objects]. destruct (schema_ParseGroupVersion _) as [e|gv]; [done|]. cbv zeta.
  destruct (isAllowedGVK _ _); [|done]. cbn [negb].
  destruct (object_law (mkGVK gv.1 gv.2 (ref_Kind (Reference wso))) ns (ref_Name (Reference wso)) w) as [o Ho].
  rewrite (bind_run _ _ _ _ _ Ho), Ho. cbn [fst]. destruct o as [obj'|e]; [|done].
  destruct (_ =? 0)%nat; [done|]. by intros [= ->].
Qed.

Lemma object_of_None w ns wso wsos sid patches :
  object_of w ns wso = None → ∃ r, collect_objects GVKs sid ns (wso :: wsos) patches w = (Ret (inl r), w).
Proof.
  unfold object_of. cbn [collect_objects]. destruct (schema_ParseGroupVersion _) as [e|gv]; [by eexists|]. cbv zeta.
  destruct (isAllowedGVK _ _); [|by eexists]. cbn [negb].
  destruct (object_law (mkGVK gv.1 gv.2 (ref_Kind (Reference wso))) ns (ref_Name (Reference wso)) w) as [o Ho].
  rewrite (bind_run _ _ _ _ _ Ho), Ho. cbn [fst]. destruct o as [obj'|e]; [|by eexists].
  destruct (_ =? 0)%nat; [by eexists|done].
Qed.

(** No field of the watched objects makes reading it panic. *)
Definition all_safe (wsos : list WatchedServiceObject) (objs : list (gmap string JV)) : Prop :=
  Forall2 (λ wso obj, Forall (λ f, field_safe obj f = true) (WatchedFields wso)) wsos objs.

Lemma collect_objects_panics w ns sid wsos objs patches :
  mapM (object_of w ns) wsos = Some objs → ¬ all_safe wsos objs →
  ∃ e, collect_objects GVKs sid ns wsos patches w = (Panic e, w).
Proof.
  intros Hm%mapM_Some. revert patches. induction Hm as [|wso obj wsos objs Ho Hm IH]; intros patches Hs.
  { destruct Hs. constructor. }
  rewrite (object_of_Some _ _ _ _ _ obj) by done.
  destruct (decide (Forall (λ f, field_safe obj f = true) (WatchedFields wso))) as [Hf|Hf].
  - rewrite collect_fields_run, bind_lift by done. apply IH. intros Hall. apply Hs. by constructor.
  - destruct (collect_fields_panics sid ns obj _ patches Hf) as [e ->]. by exists e.
Qed.

Lemma collect_objects_run w ns sid wsos objs patches :
  mapM (object_of w ns) wsos = Some objs →
  all_safe wsos objs →
  collect_objects GVKs sid ns wsos patches w = (Ret (inr (patches ++ patches_of sid ns wsos objs)), w).
Proof.
  intros Hm%mapM_Some Hs. revert patches. induction Hm as [|wso obj wsos objs Ho Hm IH]; intros patches.
  { by rewrite app_nil_r. }
  apply Forall2_cons in Hs as [Hf Hs]. rewrite (object_of_Some _ _ _ _ _ obj) by done.
  rewrite collect_fields_run, bind_lift, (IH Hs) by done. unfold patches_of. cbn. by rewrite <- app_assoc.
Qed.

(** An unreadable one ends the loop before anything is sent, whatever comes
    of the objects before it. *)
Lemma collect_objects_stops w ns sid wsos patches :
  mapM (object_of w ns) wsos = None →
  ∃ o, collect_objects GVKs sid ns wsos patches w = (o, w) ∧ (∀ ps, o ≠ Ret (inr ps)).
Proof.
  revert patches. induction wsos as [|wso wsos IH]; intros patches Hm; [done|]. cbn [mapM] in Hm.
  destruct (object_of w ns wso) as [obj|] eqn:Ho.
  - rewrite (object_of_Some _ _ _ _ _ obj) by done.
    destruct (collect_fields sid ns obj (WatchedFields wso) patches) as [ps|e|];
      [rewrite bind_lift; apply IH|by eexists..].
    cbn in Hm. by destruct (mapM (object_of w ns) wsos).
  - destruct (object_of_None w ns wso wsos sid patches Ho) as [r ->]. by eexists.
Qed.

Definition patch_log (c : Cluster) (p : string) : string * string * string :=
  (Namespace (metadata c), meta_Name (metadata c), p).

Lemma patch_all_run c ps w :
  ∃ w', patch_all c ps w = (Ret (), w') ∧ patched w' = patched w ++ (patch_log c <$> ps).
Proof.
  revert c w. induction ps as [|p ps IH]; intros c w; cbn [patch_all]; [by exists w; rewrite app_nil_r|].
  destruct (patch_law c p w) as (c' & err & w1 & Hp & Hns & Hn & Hl). rewrite (bind_run _ _ _ _ _ Hp).
  destruct (IH c' w1) as (w2 & Hrun & Hl2). exists w2. split; [done|].
  rewrite Hl2, Hl, <- app_assoc, fmap_cons. cbn. f_equal. f_equal. apply list_fmap_ext.
  intros i x _. unfold patch_log. by rewrite Hns, Hn.
Qed.

Lemma patch_clusters_run cs ps w :
  ∃ w', patch_clusters cs ps w = (Ret (), w') ∧ patched w' = patched w ++ concat ((λ c, patch_log c <$> ps) <$> cs).
Proof.
  revert w. induction cs as [|c cs IH]; intros w; cbn [patch_clusters]; [by exists w; rewrite app_nil_r|].
  destruct (patch_all_run c ps w) as (w1 & Hp & Hl). rewrite (bind_run _ _ _ _ _ Hp).
  destruct (IH w1) as (w2 & Hrun & Hl2). exists w2. split; [done|]. by rewrite Hl2, Hl, <- app_assoc.
Qed.

Context (ns name : string) (w : W) (smw : ServiceMetadataWatcher) (sid : string) (ann : gmap string string).
Context (Hsmw : k8s_GetWatcher ns name w = (Ret (inl smw), w)) (Hlive : smw_Deleted smw = false).
Context (Hann : k8s_GetNamespace (smw_Namespace smw) w = (Ret (inl ann), w)) (Hsid : ann !! annotation = Some sid).

(** Reconcile, once the service is known. *)
Lemma Reconcile_objects wso wsos :
  WatchedServiceObjects smw = wso :: wsos →
  Reconcile GVKs annotation ns name w =
    (r ← collect_objects GVKs sid (smw_Namespace smw) (WatchedServiceObjects smw) [];
     match r with
     | inl r => mret r
     | inr patches =>
        if (length patches =? 0)%nat then mret noRequeue
        else
          err ← applyServiceMetadataPatches patches;
          match err with
          | Some e => mret (requeueIfError (errorf e))
          | None => mret noRequeue
          end
     end) w.
Proof.
  intros Hw. unfold Reconcile. rewrite (bind_run _ _ _ _ _ Hsmw), Hlive, Hw.
  change (length (wso :: wsos) =? 0)%nat with false. cbv iota.
  assert (getServiceIdFromNamespaceAnnotation annotation (smw_Namespace smw) w = (Ret (sid, None), w)) as Hid.
  { unfold getServiceIdFromNamespaceAnnotation. by rewrite (bind_run _ _ _ _ _ Hann), Hsid. }
  by rewrite (bind_run _ _ _ _ _ Hid).
Qed.

(** C38: For a watcher that is not being deleted, in a namespace with the service
    annotation: when every watched reference can be read, and reading none of its
    fields panics (a number in a list does, see getNestedString), the patches of the
    fields that are found, in the order of the references and their fields, are sent
    to every Cluster object of the registry's namespace, all of them to one object
    before the next; fields that are missing or whose path does not parse are left
    out.  When reading one field panics, so does the reconciliation, and no patch is
    sent, of no field of the watcher. *)
Theorem Reconcile_patches objs cs :
  WatchedServiceObjects smw ≠ [] →
  mapM (object_of w (smw_Namespace smw)) (WatchedServiceObjects smw) = Some objs →
  k8s_ListClusters "cluster-registry" w = (Ret (inl cs), w) →
  (all_safe (WatchedServiceObjects smw) objs →
   ∃ w', Reconcile GVKs annotation ns name w = (Ret noRequeue, w') ∧
    patched w' = patched w ++
      concat ((λ c, patch_log c <$> patches_of sid (smw_Namespace smw) (WatchedServiceObjects smw) objs) <$> cs)) ∧
  (¬ all_safe (WatchedServiceObjects smw) objs → ∃ e, Reconcile GVKs annotation ns name w = (Panic e, w)).
Proof.
  intros Hne Hm Hcs. destruct (WatchedServiceObjects smw) as [|wso wsos] eqn:Hw; [done|].
  rewrite (Reconcile_objects wso wsos Hw), Hw. split; intros Hs.
  2: { destruct (collect_objects_panics w _ sid _ objs [] Hm Hs) as [e He]. exists e. by apply bind_panic. }
  rewrite (bind_run _ _ _ _ _ (collect_objects_run w _ sid _ objs [] Hm Hs)). cbn [app].
  set (ps := patches_of sid (smw_Namespace smw) (wso :: wsos) objs).
  destruct (Nat.eqb_spec (length ps) 0) as [Hps|Hps].
  - exists w. split; [done|]. apply nil_length_inv in Hps. rewrite Hps.
    assert (concat ((λ c, patch_log c <$> []) <$> cs) = []) as ->; [|by rewrite app_nil_r].
    clear. by induction cs as [|c cs IH].
  - destruct (patch_clusters_run cs ps w) as (w' & Hrun & Hl). exists w'. split; [|done].
    unfold applyServiceMetadataPatches.
    assert ((l ← k8s_ListClusters "cluster-registry"; match l with
      | inr e => mret (errorf e) | inl items => _ ← patch_clusters items ps; mret nil_error end) w
      = (Ret None, w')) as Happly.
    { rewrite (bind_run _ _ _ _ _ Hcs). by rewrite (bind_run _ _ _ _ _ Hrun). }
    by rewrite (bind_run _ _ _ _ _ Happly).
Qed.

(** One watched reference that cannot be read (its group version does
    not parse, its kind is not allowed, the object is missing or it lists no
    fields) keeps every field of the watcher from being copied, those of the
    other references too. *)
Theorem unreadable_object_blocks_watcher :
  mapM (object_of w (smw_Namespace smw)) (WatchedServiceObjects smw) = None →
  patched (Reconcile GVKs annotation ns name w).2 = patched w.
Proof.
  intros Hm. destruct (WatchedServiceObjects smw) as [|wso wsos] eqn:Hw; [done|].
  rewrite (Reconcile_objects wso wsos Hw), Hw, bind_state.
  destruct (collect_objects_stops w _ sid _ [] Hm) as (o & -> & Ho).
  destruct o as [[r|ps]|e|]; [done| |done..]. by destruct (Ho ps).
Qed.
End patches.
