(* ===== verification/MetadataWitness.v ===== *)
(** Witnesses of the theorems on the metadata watcher: accessors that look a
    path up, and a client over a fixed set of objects that records patches. *)
From Stdlib Require Import Ascii.
From stdpp Require Import base gmap strings list option numbers sets pretty.
From S2P Require Import Prelude GoStrings Registry MemDynamo Sqs SyncParser SyncController MetadataWatcher MetadataController.
Import WatcherReconciler.

Local Open Scope Z_scope.

Definition look {A} (cast : JV → option A) (zero : A) (m : gmap string JV) (p : list string) : A * bool * error :=
  match field (JMap m) p ≫= cast with
  | Some a => (a, true, None)
  | None => (zero, false, errorf "accessor error")
  end.

#[global] Instance LookAccess : NestedAccess := {
  u_NestedSlice := look as_Slice [];
  u_NestedMap := look as_Map ∅;
  u_NestedString := look as_String "";
  u_NestedBool := look as_Bool false;
  u_NestedInt64 := look as_Int64 0;
  u_NestedFloat64 := look as_Float64 0;
  FormatFloat := pretty }.

Lemma look_accessor {A} (cast : JV → option A) zero : accessor (look cast zero) cast.
Proof. intros m p. unfold look. destruct (field (JMap m) p ≫= cast); [done|]. by eexists _, _. Qed.

#[global] Instance LookLaws : NestedLaws.
Proof. split; apply look_accessor. Qed.

(** spec.containers[-1].image, metadata.labels[app.io/name] and spec.ports[0] *)
Definition deployment : gmap string JV :=
  <["metadata" := JMap {["labels" := JMap {["app.io/name" := JString "web"]}]}]>
  {["spec" := JMap (<["ports" := JSlice [JInt64 8080]]>
     {["containers" := JSlice [JMap {["image" := JString "sidecar:1"]}; JMap {["image" := JString "web:2"]}]]})]}.

Definition image_path : list seg := [Field "spec"; Field "containers"; Bracket "-1"; Field "image"].

Lemma parsePath_roundtrip_witness :
  parsePath "spec.containers[-1].image" = inr ["spec"; "containers"; "[-1]"; "image"].
Proof. apply (parsePath_roundtrip image_path); [done|repeat constructor]. Defined.

(** A list of lists. *)
Definition matrix : gmap string JV := {["a" := JSlice [JSlice [JString "x"]]]}.

Lemma getNestedString_spec_witness :
  getNestedString (JMap deployment) ["spec"; "containers"; "[-1]"; "image"] = Ret ("web:2", true, None) ∧
  getNestedString (JMap deployment) ["spec"; "ports"; "[0]"] =
    Panic "interface conversion: interface {} is not map[string]interface {}" ∧
  getNestedString (JMap matrix) ["a"; "[0]"; "[0]"] =
    Panic "interface conversion: interface {} is not map[string]interface {}".
Proof.
  split_and!.
  - apply (getNestedString_spec deployment ["spec"; "containers"; "[-1]"; "image"] (JString "web:2")). reflexivity.
  - apply (getNestedString_spec deployment ["spec"; "ports"; "[0]"] (JInt64 8080)). reflexivity.
  - apply (getNestedString_spec matrix ["a"; "[0]"; "[0]"] (JString "x")). reflexivity.
Defined.

Lemma trailing_names_ignored_witness :
  getNestedString (JMap deployment) ["metadata"; "labels"; "[app.io/name]"; "no"; "such"] = Ret ("web", true, None).
Proof.
  apply (trailing_names_ignored deployment [Field "metadata"; Field "labels"] "app.io/name" "web" ["no"; "such"]);
    [repeat constructor|reflexivity|reflexivity|repeat constructor].
Defined.

(** ** A client *)

Definition PWorld : Type := list (string * string * string).

Definition deployment_ref (name : string) : ObjectReference := mkRef name "apps/v1" "Deployment".
Definition image_watcher (refs : list string) : ServiceMetadataWatcher :=
  mkSMW "watcher" "team" false
    ((λ r, mkWSO (deployment_ref r) [mkField "spec.containers[-1].image" "image"; mkField "spec.none" "none"]) <$> refs).

#[global] Instance DemoWatch : WatchEnv PWorld := {
  schema_ParseGroupVersion s := inr ("apps", s);
  GVK_String g := gvk_Kind g;
  k8s_GetWatcher ns n := mret (inl (image_watcher (if bool_decide (n = "good") then ["web"] else ["web"; "gone"])));
  k8s_GetUnstructured g ns n := mret (if bool_decide (n = "web") then inl deployment else inr "not found");
  k8s_GetNamespace n := mret (inl {["service-id" := "svc-1"]});
  k8s_ListWatchers ns := mret (inl []);
  k8s_ListClusters ns := mret (inl [sample "c1" "va6" "prod" "Active" ""; sample "c2" "or2" "prod" "Active" ""]);
  k8s_Patch c p :=
    (_ ← modify (λ w, w ++ [(Namespace (metadata c), meta_Name (metadata c), p)]); mret (c, nil_error));
  Marshal c := (match map_to_list (gm (ServiceMetadata (Spec c))) with
                | (sid, item) :: _ => sid | [] => "{}" end, nil_error);
  MergePatch a b := (b, nil_error) }.

#[global] Program Instance DemoWatchLaws : WatchLaws PWorld := { patched w := w }.
Next Obligation. intros. by eexists. Qed.
Next Obligation. intros. by eexists. Qed.
Next Obligation. intros. by eexists. Qed.
Next Obligation. intros. by eexists. Qed.
Next Obligation. intros c p w. by eexists c, None, _. Qed.

Definition deployments : list GroupVersionKind := [mkGVK "apps" "v1" "Deployment"].

Lemma Reconcile_patches_witness :
  ∃ w' : PWorld, Reconcile deployments "service-id" "team" "good" [] = (Ret noRequeue, w') ∧
    patched w' = [("cluster-registry", "c1", "svc-1"); ("cluster-registry", "c2", "svc-1")].
Proof.
  refine (proj1 (Reconcile_patches deployments "service-id" "team" "good" [] (image_watcher ["web"]) "svc-1"
    {["service-id" := "svc-1"]} _ _ _ _ [deployment]
    [sample "c1" "va6" "prod" "Active" ""; sample "c2" "or2" "prod" "Active" ""] _ _ _) _).
  - reflexivity.
  - reflexivity.
  - reflexivity.
  - reflexivity.
  - done.
  - vm_compute. reflexivity.
  - reflexivity.
  - constructor; [|constructor]. constructor; [vm_compute; reflexivity|]. constructor; [vm_compute; reflexivity|constructor].
Defined.

Lemma unreadable_object_blocks_watcher_witness :
  patched (Reconcile deployments "service-id" "team" "bad" ([] : PWorld)).2 = [].
Proof.
  refine (unreadable_object_blocks_watcher deployments "service-id" "team" "bad" [] (image_watcher ["web"; "gone"]) "svc-1"
    {["service-id" := "svc-1"]} _ _ _ _ _).
  - reflexivity.
  - reflexivity.
  - reflexivity.
  - reflexivity.
  - vm_compute. reflexivity.
Defined.
