(* ===== verification/ManagerConfig.v ===== *)
(** The start of the two controller managers: pkg/api/config/v1 (the
    configuration file and how it fills in the options of the manager),
    cmd/client and cmd/sync/manager (flags, defaults, watched kinds, handlers).

    Reading and decoding a configuration file, the defaults of a scheme and the
    discovery of the API's resources are parameters. *)
From Stdlib Require Import Ascii.
From stdpp Require Import base gmap strings list option numbers sets.
From S2P Require Import Prelude GoStrings Registry Sqs SyncParser SyncController Webhook.

Local Open Scope Z_scope.

(** ** controllermanager_types.go; durations in nanoseconds *)

Record LeaderElectionConfiguration := mkLeaderElection {
  LeaderElect : option bool;
  le_LeaseDuration : Z;
  le_RenewDeadline : Z;
  le_RetryPeriod : Z;
  ResourceLock : string;
  ResourceName : string;
  ResourceNamespace : string }.

Record ControllerConfigurationSpec := mkControllerSpec {
  GroupKindConcurrency : gmap string Z; CacheSyncTimeout : option Z; RecoverPanic : option bool }.
Record ControllerMetrics := mkControllerMetrics { cm_BindAddress : string }.
Record ControllerHealth := mkControllerHealth {
  cm_HealthProbeBindAddress : string; cm_ReadinessEndpointName : string; cm_LivenessEndpointName : string }.
Record ControllerWebhook := mkControllerWebhook { Port : option Z; Host : string; CertDir : string }.

Record ControllerManager := mkControllerManager {
  SyncPeriod : option Z;
  cm_LeaderElection : option LeaderElectionConfiguration;
  CacheNamespace : string;
  GracefulShutdownTimeout : option Z;
  Controller : option ControllerConfigurationSpec;
  cm_Metrics : ControllerMetrics;
  Health : ControllerHealth;
  cm_Webhook : ControllerWebhook }.

(** The fields of [ctrl.Options] that the code reads or writes; a webhook
    server by its host, port and directory. *)
Record Options := mkOptions {
  LeaderElection : bool;
  LeaderElectionResourceLock : string;
  LeaderElectionNamespace : string;
  LeaderElectionID : string;
  LeaseDuration : option Z;
  RenewDeadline : option Z;
  RetryPeriod : option Z;
  Metrics_BindAddress : string;
  HealthProbeBindAddress : string;
  ReadinessEndpointName : string;
  LivenessEndpointName : string;
  WebhookServer : option (string * Z * string);
  Controller_CacheSyncTimeout : Z;
  Controller_GroupKindConcurrency : gmap string Z }.

(** ** clientconfig.go and syncconfig.go: the options that are not set yet *)

(** [if o == zero && c != zero { o = c }] *)
Definition fill (o c : string) : string :=
  if bool_decide (o = "") && bool_decide (c ≠ "") then c else o.
Definition fill_duration (o : option Z) (c : Z) : option Z :=
  match o with
  | None => if bool_decide (c ≠ 0) then Some c else None
  | Some d => Some d
  end.

Definition addLeaderElectionTo (cfg : ControllerManager) (o : Options) : Options :=
  match cm_LeaderElection cfg with
  | None => o
  | Some le =>
     mkOptions
       (match LeaderElect le with
        | Some b => if negb (LeaderElection o) then b else LeaderElection o
        | None => LeaderElection o
        end)
       (fill (LeaderElectionResourceLock o) (ResourceLock le))
       (fill (LeaderElectionNamespace o) (ResourceNamespace le))
       (fill (LeaderElectionID o) (ResourceName le))
       (fill_duration (LeaseDuration o) (le_LeaseDuration le))
       (fill_duration (RenewDeadline o) (le_RenewDeadline le))
       (fill_duration (RetryPeriod o) (le_RetryPeriod le))
       (Metrics_BindAddress o) (HealthProbeBindAddress o) (ReadinessEndpointName o) (LivenessEndpointName o)
       (WebhookServer o) (Controller_CacheSyncTimeout o) (Controller_GroupKindConcurrency o)
  end.

Definition set_addresses (m h r l : string) (o : Options) : Options :=
  mkOptions (LeaderElection o) (LeaderElectionResourceLock o) (LeaderElectionNamespace o) (LeaderElectionID o)
    (LeaseDuration o) (RenewDeadline o) (RetryPeriod o) m h r l
    (WebhookServer o) (Controller_CacheSyncTimeout o) (Controller_GroupKindConcurrency o).
Definition set_WebhookServer (s : option (string * Z * string)) (o : Options) : Options :=
  mkOptions (LeaderElection o) (LeaderElectionResourceLock o) (LeaderElectionNamespace o) (LeaderElectionID o)
    (LeaseDuration o) (RenewDeadline o) (RetryPeriod o)
    (Metrics_BindAddress o) (HealthProbeBindAddress o) (ReadinessEndpointName o) (LivenessEndpointName o)
    s (Controller_CacheSyncTimeout o) (Controller_GroupKindConcurrency o).
Definition set_Controller (t : Z) (g : gmap string Z) (o : Options) : Options :=
  mkOptions (LeaderElection o) (LeaderElectionResourceLock o) (LeaderElectionNamespace o) (LeaderElectionID o)
    (LeaseDuration o) (RenewDeadline o) (RetryPeriod o)
    (Metrics_BindAddress o) (HealthProbeBindAddress o) (ReadinessEndpointName o) (LivenessEndpointName o)
    (WebhookServer o) t g.

(** The port is dereferenced as soon as a host is set. *)
Definition addWebhookTo (cfg : ControllerManager) (o : Options) : outcome Options :=
  match WebhookServer o with
  | Some _ => Ret o
  | None =>
     if bool_decide (Host (cm_Webhook cfg) ≠ "")
     then
       match deref (Port (cm_Webhook cfg)) with
       | Ret port =>
          if (0 <? port) && bool_decide (CertDir (cm_Webhook cfg) ≠ "")
          then Ret (set_WebhookServer (Some (Host (cm_Webhook cfg), port, CertDir (cm_Webhook cfg))) o)
          else Ret o
       | Panic e => Panic e
       | OutOfFuel => OutOfFuel
       end
     else Ret o
  end.

Definition addTo (cfg : ControllerManager) (o : Options) : outcome Options :=
  let o := addLeaderElectionTo cfg o in
  let o := set_addresses
    (fill (Metrics_BindAddress o) (cm_BindAddress (cm_Metrics cfg)))
    (fill (HealthProbeBindAddress o) (cm_HealthProbeBindAddress (Health cfg)))
    (fill (ReadinessEndpointName o) (cm_ReadinessEndpointName (Health cfg)))
    (fill (LivenessEndpointName o) (cm_LivenessEndpointName (Health cfg))) o in
  match addWebhookTo cfg o with
  | Ret o =>
     Ret (match Controller cfg with
          | None => o
          | Some c =>
             set_Controller
               (match CacheSyncTimeout c with
                | Some t => if bool_decide (Controller_CacheSyncTimeout o = 0) then t else Controller_CacheSyncTimeout o
                | None => Controller_CacheSyncTimeout o
                end)
               (if bool_decide (Controller_GroupKindConcurrency o = ∅) && negb (bool_decide (GroupKindConcurrency c = ∅))
                then GroupKindConcurrency c else Controller_GroupKindConcurrency o) o
          end)
  | Panic e => Panic e
  | OutOfFuel => OutOfFuel
  end.

(** ** The configurations *)

Record WatchedGVK := mkWatchedGVK { wg_Group : string; wg_Version : string; wg_Kind : string }.
Record AlertmanagerWebhookConfig := mkAlertmanagerWebhook { aw_BindAddress : string; aw_AlertMap : list AlertRule }.
Record ServiceMetadataConfig := mkServiceMetadataConfig {
  smc_WatchedGVKs : list WatchedGVK; smc_ServiceIdAnnotation : string }.
Record ClientConfig := mkClientConfig {
  client_manager : ControllerManager;
  client_Namespace : string;
  AlertmanagerWebhook : AlertmanagerWebhookConfig;
  cfg_ServiceMetadata : ServiceMetadataConfig }.
Record SyncConfig := mkSyncConfig {
  sync_manager : ControllerManager; sync_Namespace : string; sync_WatchedGVKs : list WatchedGVK }.

Definition zeroManager : ControllerManager :=
  mkControllerManager None None "" None None (mkControllerMetrics "") (mkControllerHealth "" "" "")
    (mkControllerWebhook None "" "").
Definition zeroClientConfig : ClientConfig :=
  mkClientConfig zeroManager "" (mkAlertmanagerWebhook "" []) (mkServiceMetadataConfig [] "").
Definition zeroSyncConfig : SyncConfig := mkSyncConfig zeroManager "" [].

(** What the code uses of the file system and of a scheme, for a type of
    configuration: reading a file, decoding it over a configuration, the
    defaults, and the encoder of YAML, if the scheme has one. *)
Class Codec (C : Type) := {
  cfg_ReadFile : string → string * error;
  DecodeInto : string → C → C * error;
  scheme_Default : C → C;
  YAMLEncoder : option (C → string * error) }.

Section codec.
Context `{Codec C}.

Definition fromFile (path : string) (cfg : C) : C * error :=
  let '(content, err) := cfg_ReadFile path in
  match err with
  | Some e => (cfg, errorf e)
  | None => DecodeInto content cfg
  end.

Definition Encode (cfg : C) : string * error :=
  match YAMLEncoder with
  | None => ("", errorf "unable to locate encoder -- application/yaml is not a supported media type")
  | Some encode =>
     let '(buf, err) := encode cfg in
     match err with Some e => ("", errorf e) | None => (buf, nil_error) end
  end.

(** The two functions differ in the type of the configuration. *)
Definition NewConfig (addTo : C → Options → outcome Options) (zero : C)
    (defaultOptions : Options) (configFile : string) (defaults : option C) : outcome (Options * C * error) :=
  let cfg := default zero defaults in
  let '(cfg, err) := if bool_decide (configFile = "") then (scheme_Default cfg, nil_error) else fromFile configFile cfg in
  match err with
  | Some e => Ret (defaultOptions, cfg, errorf e)
  | None =>
     match addTo cfg defaultOptions with
     | Ret options => Ret (options, cfg, nil_error)
     | Panic e => Panic e
     | OutOfFuel => OutOfFuel
     end
  end.
End codec.

Definition ClientConfig_addTo (cfg : ClientConfig) : Options → outcome Options := addTo (client_manager cfg).
(** The methods of SyncConfig are those of ClientConfig. *)
Definition SyncConfig_addTo (cfg : SyncConfig) : Options → outcome Options := addTo (sync_manager cfg).
Definition SyncConfig_Encode `{Codec SyncConfig} : SyncConfig → string * error := Encode.
Definition NewClientConfig `{Codec ClientConfig} := NewConfig ClientConfig_addTo zeroClientConfig.
Definition NewSyncConfig `{Codec SyncConfig} := NewConfig SyncConfig_addTo zeroSyncConfig.

(** ** cmd/client/client.go and cmd/sync/manager/manager.go *)

Record Flags := mkFlags {
  configFile : string;
  metricsAddr : string;
  probeAddr : string;
  alertmanagerWebhookAddr : string;
  flag_namespace : string;
  enableLeaderElection : bool }.

(** The values of the flags that are not given. *)
Definition default_flags : Flags := mkFlags "" ":9090" ":9091" ":9092" "cluster-registry" false.

(** The sync manager has no flag for the address of the webhook. *)
Definition sync_default_flags : Flags := mkFlags "" ":9090" ":9091" "" "cluster-registry" false.

Definition manager_options (f : Flags) (id : string) : Options :=
  mkOptions (enableLeaderElection f) "leases" "" id None None None (metricsAddr f) (probeAddr f) "" "" None 0 ∅.

Definition clientConfigDefaults (f : Flags) : ClientConfig :=
  mkClientConfig zeroManager (flag_namespace f) (mkAlertmanagerWebhook (alertmanagerWebhookAddr f) [])
    (mkServiceMetadataConfig [] "adobe.serviceid").
Definition syncConfigDefaults (f : Flags) : SyncConfig := mkSyncConfig zeroManager (flag_namespace f) [].

(** The options and the configuration the client runs with; an error ends the
    program.  [Encode] gives the text of the configuration for the log; its error
    ends the program too. *)
Section start.
Context `{Codec ClientConfig}.
Definition client_apply (defaultOptions : Options) (configFile : string) (defaults : option ClientConfig) :
    outcome (Options * ClientConfig * error) :=
  match NewClientConfig defaultOptions configFile defaults with
  | Ret (options, cfg, err) =>
     match err with
     | Some e => Ret (options, cfg, errorf e)
     | None => Ret (options, cfg, (Encode cfg).2)
     end
  | Panic e => Panic e
  | OutOfFuel => OutOfFuel
  end.
Definition client_start (f : Flags) : outcome (Options * ClientConfig * error) :=
  let options := manager_options f "1d5078e3.registry.ethos.adobe.com" in
  if bool_decide (configFile f ≠ "")
  then
    client_apply options (configFile f) (Some (clientConfigDefaults f))
  else Ret (options, zeroClientConfig, nil_error).
End start.

Section sync_start.
Context `{Codec SyncConfig}.
Definition sync_apply (defaultOptions : Options) (configFile : string) (defaults : option SyncConfig) :
    outcome (Options * SyncConfig * error) :=
  match NewSyncConfig defaultOptions configFile defaults with
  | Ret (options, cfg, err) =>
     match err with
     | Some e => Ret (options, cfg, errorf e)
     | None => Ret (options, cfg, (SyncConfig_Encode cfg).2)
     end
  | Panic e => Panic e
  | OutOfFuel => OutOfFuel
  end.
Definition sync_start (f : Flags) : outcome (Options * SyncConfig * error) :=
  let options := manager_options f "sync.registry.ethos.adobe.com" in
  if bool_decide (configFile f ≠ "")
  then
    sync_apply options (configFile f) (Some (syncConfigDefaults f))
  else Ret (options, zeroSyncConfig, nil_error).
End sync_start.

(** Discovery lists resources by group version; the kinds are a set. *)
Section gvks.
Context (parse : string → res (string * string)).

(** The kinds of one list; an error of the parser is dropped. *)
Definition gvks_of (l : string * list string) : list GroupVersionKind :=
  let gv := match parse l.1 with inr gv => gv | inl _ => ("", "") end in
  map (λ kind, mkGVK gv.1 gv.2 kind) l.2.

Definition getAvailableGVKs (lists : res (list (string * list string))) : res (list GroupVersionKind) :=
  match lists with
  | inl e => inl e
  | inr lists => inr (concat (map gvks_of lists))
  end.

(** The kinds of the configuration that the cluster has. *)
Fixpoint available (availableGVKs : list GroupVersionKind) (watched : list WatchedGVK) : list GroupVersionKind :=
  match watched with
  | [] => []
  | g :: watched =>
     let gvk := mkGVK (wg_Group g) (wg_Version g) (wg_Kind g) in
     if bool_decide (gvk ∈ availableGVKs) then gvk :: available availableGVKs watched
     else available availableGVKs watched
  end.

Definition loadWatchedGVKs (lists : res (list (string * list string))) (watched : list WatchedGVK) :
    list GroupVersionKind :=
  match getAvailableGVKs lists with
  | inl _ => []
  | inr availableGVKs => available availableGVKs watched
  end.

(** The same functions of cmd/sync/manager. *)
Definition sync_getAvailableGVKs (lists : res (list (string * list string))) : res (list GroupVersionKind) :=
  getAvailableGVKs lists.
Definition sync_loadWatchedGVKs (lists : res (list (string * list string))) (cfg : SyncConfig) : list GroupVersionKind :=
  match sync_getAvailableGVKs lists with
  | inl _ => []
  | inr availableGVKs => available availableGVKs (sync_WatchedGVKs cfg)
  end.
End gvks.

(** ** The handlers of the sync manager *)

Section handlers.
Context `{Unstructured}.
Definition Handlers : Type := GroupVersionKind → option (list Obj → res ClusterSpec).
Definition RegisterHandlerForGVK (gvk : GroupVersionKind) (h : list Obj → res ClusterSpec) (hs : Handlers) : Handlers :=
  λ g, if bool_decide (g = gvk) then Some h else hs g.
Definition sync_handlers : Handlers :=
  RegisterHandlerForGVK (mkGVK "bootstrap.cluster.x-k8s.io" "v1beta2" "EKSConfig") EKSConfig_Handle
  (RegisterHandlerForGVK (mkGVK "infrastructure.cluster.x-k8s.io" "v1beta2" "AWSManagedMachinePool") AWSManagedMachinePool_Handle
  (RegisterHandlerForGVK (mkGVK "controlplane.cluster.x-k8s.io" "v1beta2" "AWSManagedControlPlane") AWSManagedControlPlane_Handle
  (RegisterHandlerForGVK (mkGVK "ec2.services.k8s.aws" "v1alpha1" "Subnet") Subnet_Handle
  (RegisterHandlerForGVK (mkGVK "ec2.services.k8s.aws" "v1alpha1" "VPC") VPC_Handle
  (RegisterHandlerForGVK (mkGVK "cluster.x-k8s.io" "v1beta1" "Cluster") Cluster_Handle (λ _, None)))))).
End handlers.

(** ** What the managers run with *)

Lemma fill_set o c : o ≠ "" → fill o c = o.
Proof. intros Ho. unfold fill. by rewrite bool_decide_eq_false_2. Qed.
Lemma fill_unset c : fill "" c = c.
Proof. unfold fill. rewrite bool_decide_eq_true_2 by done. cbn. destruct (decide (c = "")) as [->|Hc]; [done|]. by rewrite bool_decide_eq_true_2. Qed.

(** An option of the caller wins over the configuration's. *)
Definition first_set {A} (zero o c : A) `{EqDecision A} : A := if bool_decide (o = zero) then c else o.

Lemma fill_first o c : fill o c = first_set "" o c.
Proof. unfold first_set. case_bool_decide; [subst; apply fill_unset|by apply fill_set]. Qed.

Section precedence.
Implicit Types (cfg : ControllerManager) (o : Options).

(** When the webhook of a configuration can be read at all. *)
Definition webhook_ok cfg o : Prop :=
  WebhookServer o ≠ None ∨ Host (cm_Webhook cfg) = "" ∨ Port (cm_Webhook cfg) ≠ None.

Lemma addWebhookTo_Ret cfg o :
  webhook_ok cfg o → ∃ ws, addWebhookTo cfg o = Ret (set_WebhookServer ws o) ∧ (WebhookServer o ≠ None → ws = WebhookServer o).
Proof.
  intros Hok. unfold addWebhookTo. destruct (WebhookServer o) as [s|] eqn:Hs.
  { exists (WebhookServer o). rewrite Hs. split; [|done]. destruct o. cbn in *. by subst. }
  assert (set_WebhookServer None o = o) as Hid by (destruct o; cbn in *; by subst).
  case_bool_decide as Hh; [|exists None; by rewrite Hid].
  destruct (Port (cm_Webhook cfg)) as [p|] eqn:Hp; [|destruct Hok as [Ho|[Ho|Ho]]; congruence].
  cbn [deref]. destruct (_ && _); [by eexists|]. exists None. by rewrite Hid.
Qed.

(** The options of a manager come from its caller first and from the
    configuration second: an address, a name or a lock that the caller set
    stays, one it left empty is the configuration's.  The only failure is a
    webhook with a host and no port, which panics. *)
Theorem addTo_precedence cfg o :
  (webhook_ok cfg o → ∃ o', addTo cfg o = Ret o' ∧
     Metrics_BindAddress o' = first_set "" (Metrics_BindAddress o) (cm_BindAddress (cm_Metrics cfg)) ∧
     HealthProbeBindAddress o' = first_set "" (HealthProbeBindAddress o) (cm_HealthProbeBindAddress (Health cfg)) ∧
     ReadinessEndpointName o' = first_set "" (ReadinessEndpointName o) (cm_ReadinessEndpointName (Health cfg)) ∧
     LivenessEndpointName o' = first_set "" (LivenessEndpointName o) (cm_LivenessEndpointName (Health cfg)) ∧
     (∀ le, cm_LeaderElection cfg = Some le →
        LeaderElectionID o' = first_set "" (LeaderElectionID o) (ResourceName le) ∧
        LeaderElectionNamespace o' = first_set "" (LeaderElectionNamespace o) (ResourceNamespace le) ∧
        LeaderElectionResourceLock o' = first_set "" (LeaderElectionResourceLock o) (ResourceLock le) ∧
        LeaderElection o' = LeaderElection o || default false (LeaderElect le)) ∧
     (WebhookServer o ≠ None → WebhookServer o' = WebhookServer o)) ∧
  (¬ webhook_ok cfg o → addTo cfg o = Panic "invalid memory address or nil pointer dereference").
Proof.
  assert (∀ a b c d, webhook_ok cfg (set_addresses a b c d (addLeaderElectionTo cfg o)) ↔ webhook_ok cfg o) as Hiff.
  { intros. unfold webhook_ok, addLeaderElectionTo. by destruct (cm_LeaderElection cfg). }
  split; intros Hok; unfold addTo; cbv zeta.
  - edestruct addWebhookTo_Ret as (ws & -> & Hws); [by apply Hiff|]. eexists. split; [done|].
    unfold addLeaderElectionTo in *. rewrite <- !fill_first.
    destruct (Controller cfg), (cm_LeaderElection cfg) as [le|]; cbn in Hws |- *;
      (split_and!; [done..| |by intros; apply Hws]); intros le' [= <-]; rewrite <- !fill_first;
      split_and!; try done; destruct (LeaderElect le), (LeaderElection o); done.
  - unfold addWebhookTo. specialize (Hiff (fill (Metrics_BindAddress (addLeaderElectionTo cfg o)) (cm_BindAddress (cm_Metrics cfg)))
      (fill (HealthProbeBindAddress (addLeaderElectionTo cfg o)) (cm_HealthProbeBindAddress (Health cfg)))
      (fill (ReadinessEndpointName (addLeaderElectionTo cfg o)) (cm_ReadinessEndpointName (Health cfg)))
      (fill (LivenessEndpointName (addLeaderElectionTo cfg o)) (cm_LivenessEndpointName (Health cfg)))).
    rewrite <- Hiff in Hok. unfold webhook_ok in Hok.
    destruct (WebhookServer (set_addresses _ _ _ _ _)); [destruct Hok; by left|].
    rewrite bool_decide_eq_true_2 by (intros ?; apply Hok; auto).
    destruct (Port (cm_Webhook cfg)); [destruct Hok; auto|done].
Qed.
End precedence.

Section start_thms.
Context `{Codec ClientConfig}.

(** The address of the metrics and of the health probes cannot be set
    in a configuration file: the flags have defaults, so the client listens
    where the flags say whatever the file says. *)
Theorem file_addresses_ignored f o cfg :
  metricsAddr f ≠ "" → probeAddr f ≠ "" → client_start f = Ret (o, cfg, None) →
  Metrics_BindAddress o = metricsAddr f ∧ HealthProbeBindAddress o = probeAddr f.
Proof.
  intros Hm Hp. unfold client_start. case_bool_decide as Hf; [|by intros [= <- <-]].
  unfold client_apply, NewClientConfig, NewConfig, ClientConfig_addTo. rewrite (bool_decide_eq_false_2 (configFile f = "")) by done. cbn [default from_option id].
  destruct (fromFile (configFile f) (clientConfigDefaults f)) as [c [e|]]; [by intros [=]|].
  destruct (addTo (client_manager c) _) as [o'| |] eqn:Ha; [|by intros [=]..]. intros [= -> -> _].
  unfold addTo in Ha. cbv zeta in Ha. destruct (addWebhookTo _ _) as [o1| |] eqn:Hw; [|done..].
  assert (Metrics_BindAddress o1 = metricsAddr f ∧ HealthProbeBindAddress o1 = probeAddr f) as [H1 H2].
  { unfold addWebhookTo in Hw. unfold addLeaderElectionTo in Hw.
    destruct (cm_LeaderElection (client_manager cfg)); cbn in Hw; rewrite !(fill_set (metricsAddr f)), !(fill_set (probeAddr f)) in Hw by (exact Hm || exact Hp);
      repeat case_match; simplify_eq; done. }
  destruct (Controller (client_manager cfg)); by simplify_eq.
Qed.

(** Without a configuration file the defaults are not used either: the
    client runs with the zero configuration, whatever its flags.  No alert is
    mapped and no kind watched, the webhook listens on no address of its own,
    its namespace is empty, and the annotation that names a service is the
    empty one. *)
Theorem start_without_config f parse lists :
  configFile f = "" → ∃ o cfg, client_start f = Ret (o, cfg, None) ∧
    aw_BindAddress (AlertmanagerWebhook cfg) = "" ∧ aw_AlertMap (AlertmanagerWebhook cfg) = [] ∧
    client_Namespace cfg = "" ∧ smc_ServiceIdAnnotation (cfg_ServiceMetadata cfg) = "" ∧
    loadWatchedGVKs parse lists (smc_WatchedGVKs (cfg_ServiceMetadata cfg)) = [].
Proof.
  intros Hf. unfold client_start. rewrite Hf, (bool_decide_eq_false_2 ("" ≠ "")) by tauto.
  eexists _, zeroClientConfig. split_and!; try done. unfold loadWatchedGVKs. by destruct (getAvailableGVKs parse lists).
Qed.
End start_thms.

(** ** Witnesses *)

Definition file_manager : ControllerManager :=
  mkControllerManager None (Some (mkLeaderElection (Some true) 0 0 0 "" "id" "ns")) "" None None
    (mkControllerMetrics ":8080") (mkControllerHealth ":8081" "" "") (mkControllerWebhook None "" "").
Definition file_config (path : string) (c : ClientConfig) : ClientConfig * error :=
  (mkClientConfig file_manager (client_Namespace c) (AlertmanagerWebhook c) (cfg_ServiceMetadata c), nil_error).
Definition file_codec : Codec ClientConfig :=
  {| cfg_ReadFile path := (path, nil_error); DecodeInto := file_config; scheme_Default := id;
     YAMLEncoder := Some (λ _, ("", nil_error)) |}.

Lemma addTo_precedence_witness :
  ∃ o', addTo file_manager (manager_options default_flags "") = Ret o' ∧
    Metrics_BindAddress o' = ":9090" ∧ LeaderElectionID o' = "id" ∧ LeaderElection o' = true.
Proof.
  destruct (proj1 (addTo_precedence file_manager (manager_options default_flags ""))
    (or_intror (or_introl eq_refl))) as (o' & Hrun & Hm & _ & _ & _ & Hle & _).
  exists o'. destruct (Hle _ eq_refl) as (Hid & _ & _ & Hl). split_and!; [exact Hrun|exact Hm|exact Hid|exact Hl].
Defined.

Definition with_file : Flags := mkFlags "/etc/config.yaml" ":9090" ":9091" ":9092" "cluster-registry" false.

Lemma file_addresses_ignored_witness :
  ∃ o cfg, client_start (H := file_codec) with_file = Ret (o, cfg, None) ∧
    cm_BindAddress (cm_Metrics (client_manager cfg)) = ":8080" ∧ Metrics_BindAddress o = ":9090".
Proof.
  eexists _, _. split; [vm_compute; reflexivity|]. split; [reflexivity|].
  refine (proj1 (file_addresses_ignored (H := file_codec) with_file _ _ _ _ _)).
  - done.
  - done.
  - vm_compute. reflexivity.
Defined.

Lemma start_without_config_witness :
  ∃ o cfg, client_start (H := file_codec) default_flags = Ret (o, cfg, None) ∧
    aw_BindAddress (AlertmanagerWebhook cfg) = "" ∧ aw_AlertMap (AlertmanagerWebhook cfg) = [] ∧
    client_Namespace cfg = "" ∧ smc_ServiceIdAnnotation (cfg_ServiceMetadata cfg) = "" ∧
    loadWatchedGVKs (λ v, inr ("", v)) (inr []) (smc_WatchedGVKs (cfg_ServiceMetadata cfg)) = [].
Proof.
  refine (start_without_config (H := file_codec) default_flags (λ v, inr ("", v)) (inr []) _). reflexivity.
Defined.
