(* ===== verification/GoMem.v ===== *)
(** Memory: references, what they reach, and copies of it.

    The other files read a Go value as the tree it stands for.  Where a claim
    is about sharing, that is not enough: this file has a heap of cells, and
    pointers, slices and maps as references into it.  A struct is a record of
    its fields, the references among them being locations.

    [reads h t v] says that the value [t], read through the heap [h], is the
    tree [v], where a nil reference reads as [None]; [locs h t] are the
    locations it reaches, and [unshared h t] says that it reaches each of them
    in one way only.  [copies f] is the contract of a deep copy: it
    returns, what it returns reads as the same tree and shares nothing with
    itself, the heap it found is left as it was, and the copy reaches none of
    it. *)
From stdpp Require Import base gmap strings list option numbers fin_maps.
From S2P Require Import Prelude.

Abbreviation loc := positive.

(** A pointer, a slice or a map: nil, or the location of what it refers to. *)
Inductive Ref (A : Type) : Type := Nil | At (l : loc).
Arguments Nil {A}.
Arguments At {A} l.

(** A field that holds no reference. *)
Inductive Val (A : Type) : Type := val (a : A).
Arguments val {A} a.

(** A type whose values hold no reference. *)
Class Prim (A : Type) := {}.
#[global] Instance string_prim : Prim string := {}.
#[global] Instance Z_prim : Prim Z := {}.
#[global] Instance bool_prim : Prim bool := {}.

(** The type [C] of cells has a case for [A]. *)
Class InCell (A C : Type) := {
  inj : A → C;
  prj : C → option A;
  prj_inj a : prj (inj a) = Some a }.

Abbreviation heap := (gmap loc).

Definition next {C} (h : heap C) : loc := map_fold (λ l _ n, Pos.max (Pos.succ l) n) 1%positive h.

Definition load {A C} `{InCell A C} (r : Ref A) : M (heap C) A := λ h,
  match r with
  | Nil => (Panic "invalid memory address or nil pointer dereference", h)
  | At l => match h !! l ≫= prj with Some a => (Ret a, h) | None => (Panic "dangling reference", h) end
  end.
Definition alloc {A C} `{InCell A C} (a : A) : M (heap C) (Ref A) := λ h,
  (Ret (At (next h)), <[next h := inj a]> h).
Definition store {A C} `{InCell A C} (r : Ref A) (a : A) : M (heap C) () := λ h,
  match r with
  | Nil => (Panic "invalid memory address or nil pointer dereference", h)
  | At l => (Ret (), <[l := inj a]> h)
  end.

Lemma next_bound {C} (h : heap C) l : is_Some (h !! l) → (l < next h)%positive.
Proof.
  unfold next. revert l.
  apply (map_fold_weak_ind (λ n (h : heap C), ∀ l, is_Some (h !! l) → (l < n)%positive)).
  - intros l. rewrite lookup_empty. by intros [].
  - intros k x m n _ IH l. rewrite lookup_insert_is_Some'. intros [->|H%IH]; lia.
Qed.
Lemma next_fresh {C} (h : heap C) : h !! next h = None.
Proof.
  destruct (h !! next h) eqn:E; [|done]. exfalso.
  assert (next h < next h)%positive by (apply next_bound; eauto). lia.
Qed.
Lemma insert_next {C} (h : heap C) c : h ⊆ <[next h := c]> h.
Proof. apply insert_subseteq, next_fresh. Qed.

(** ** Reading through the heap *)

Class Memory (C T V : Type) := {
  reads : heap C → T → V → Prop;
  locs : heap C → T → gset loc;
  unshared : heap C → T → Prop }.

(** Reading depends on nothing but the locations reached, and finds them. *)
Class MemoryLaws (C T V : Type) `{!Memory C T V} := {
  reads_locs (h : heap C) (t : T) (v : V) : reads h t v → locs h t ⊆ dom h;
  reads_frame (h h' : heap C) (t : T) (v : V) : reads h t v →
    (∀ l, l ∈ locs h t → h' !! l = h !! l) →
    reads h' t v ∧ locs h' t = locs h t ∧ (unshared h t → unshared h' t) }.

#[global] Hint Mode Memory ! ! - : typeclass_instances.

Section instances.
Context {C : Type}.

#[global] Instance val_memory A : Memory C (Val A) (Val A) := {|
  reads _ t v := t = v;
  locs _ _ := ∅;
  unshared _ _ := True |}.

#[global] Instance prim_memory A `{!Prim A} : Memory C A A := {|
  reads _ t v := t = v;
  locs _ _ := ∅;
  unshared _ _ := True |}.

#[global] Instance pair_memory T V T' V' `{!Memory C T V} `{!Memory C T' V'} :
    Memory C (T * T') (V * V') := {|
  reads h t v := reads h t.1 v.1 ∧ reads h t.2 v.2;
  locs h t := locs h t.1 ∪ locs h t.2;
  unshared h t := unshared h t.1 ∧ unshared h t.2 ∧ locs h t.1 ## locs h t.2 |}.

Fixpoint list_unshared {T V} `{!Memory C T V} (h : heap C) (l : list T) : Prop :=
  match l with
  | [] => True
  | t :: l => unshared h t ∧ list_unshared h l ∧ locs h t ## ⋃ (locs h <$> l)
  end.
#[global] Instance list_memory T V `{!Memory C T V} : Memory C (list T) (list V) := {|
  reads h := Forall2 (reads h);
  locs h l := ⋃ (locs h <$> l);
  unshared := list_unshared |}.

#[global] Instance map_memory T V `{!Memory C T V} : Memory C (gmap string T) (gmap string V) := {|
  reads h m w := ∀ k, option_Forall2 (reads h) (m !! k) (w !! k);
  locs h m := ⋃ (locs h <$> (map_to_list m).*2);
  unshared h m :=
    (∀ k a, m !! k = Some a → unshared h a) ∧
    (∀ k k' a a', k ≠ k' → m !! k = Some a → m !! k' = Some a' → locs h a ## locs h a') |}.

#[global] Instance ref_memory T V `{!InCell T C} `{!Memory C T V} : Memory C (Ref T) (option V) := {|
  reads h r v :=
    match r, v with
    | Nil, None => True
    | At l, Some w => match h !! l ≫= prj with Some a => reads h a w | None => False end
    | _, _ => False
    end;
  locs h r :=
    match r with
    | Nil => ∅
    | At l => {[l]} ∪ match h !! l ≫= prj with Some a => locs h a | None => ∅ end
    end;
  unshared h r :=
    match r with
    | Nil => True
    | At l => match h !! l ≫= prj with Some a => unshared h a ∧ l ∉ locs h a | None => False end
    end |}.

(** A struct is read through the tuple of its fields. *)
Definition struct_memory {T V P Q} (f : T → P) (g : V → Q) `{!Memory C P Q} : Memory C T V := {|
  reads h t v := reads h (f t) (g v);
  locs h t := locs h (f t);
  unshared h t := unshared h (f t) |}.

Lemma struct_laws {T V P Q} (f : T → P) (g : V → Q) `{!Memory C P Q} `{!MemoryLaws C P Q} :
  @MemoryLaws C T V (struct_memory f g).
Proof.
  split; cbn.
  - intros h t v. apply reads_locs.
  - intros h h' t v. apply reads_frame.
Qed.

#[global] Instance val_laws A : MemoryLaws C (Val A) (Val A).
Proof. split; cbn; [set_solver|done]. Qed.

#[global] Instance prim_laws A `{!Prim A} : MemoryLaws C A A.
Proof. split; cbn; [set_solver|done]. Qed.

#[global] Instance pair_laws T V T' V' `{!Memory C T V} `{!Memory C T' V'}
    `{!MemoryLaws C T V} `{!MemoryLaws C T' V'} : MemoryLaws C (T * T') (V * V').
Proof.
  split; cbn.
  - intros h t v [H1%reads_locs H2%reads_locs]. set_solver.
  - intros h h' t v [H1 H2] Hl.
    destruct (reads_frame h h' _ _ H1) as (? & E1 & ?); [set_solver|].
    destruct (reads_frame h h' _ _ H2) as (? & E2 & ?); [set_solver|]. rewrite E1, E2. naive_solver.
Qed.

#[global] Instance list_laws T V `{!Memory C T V} `{!MemoryLaws C T V} : MemoryLaws C (list T) (list V).
Proof.
  split; cbn.
  - intros h l w H. induction H as [|t v l w H%reads_locs _ IH]; cbn; set_solver.
  - intros h h' l w H. induction H as [|t v l w H _ IH]; cbn; intros Hl; [done|].
    destruct (reads_frame h h' _ _ H) as (? & E & ?); [set_solver|].
    destruct IH as (? & E' & ?); [set_solver|]. rewrite E, E'. naive_solver.
Qed.

Lemma elem_of_map_locs {T V} `{!Memory C T V} (h : heap C) (m : gmap string T) l :
  l ∈ locs h m ↔ ∃ k a, m !! k = Some a ∧ l ∈ locs h a.
Proof.
  cbn. rewrite elem_of_union_list. setoid_rewrite list_elem_of_fmap. split.
  - intros (X & (a & -> & (ka & -> & Hk)%list_elem_of_fmap) & Hl). destruct ka as [k a].
    apply elem_of_map_to_list in Hk. eauto.
  - intros (k & a & Hk & Hl). exists (locs h a). split; [|done]. exists a. split; [done|].
    apply list_elem_of_fmap. exists (k, a). by rewrite elem_of_map_to_list.
Qed.

#[global] Instance map_laws T V `{!Memory C T V} `{!MemoryLaws C T V} :
  MemoryLaws C (gmap string T) (gmap string V).
Proof.
  split.
  - intros h m w H l (k & a & Hk & Hl)%elem_of_map_locs. specialize (H k). rewrite Hk in H.
    inversion H as [? b Hr|]; subst. by apply reads_locs in Hr; set_solver.
  - intros h h' m w H Hl.
    assert (∀ k a, m !! k = Some a → ∃ b, w !! k = Some b ∧ reads h' a b ∧ locs h' a = locs h a ∧
      (unshared h a → unshared h' a)) as Ha.
    { intros k a Hk. pose proof (H k) as Hr. rewrite Hk in Hr. inversion Hr as [? b Hab Eb|]; subst.
      exists b. split; [done|]. apply reads_frame; [done|].
      intros l' ?. apply Hl, elem_of_map_locs. eauto. }
    split_and!.
    + intros k. destruct (m !! k) as [a|] eqn:E.
      * destruct (Ha k a E) as (b & -> & ? & _). by constructor.
      * specialize (H k). rewrite E in H. inversion H. constructor.
    + apply leibniz_equiv. intros l. rewrite !elem_of_map_locs. split; intros (k & a & Hk & Hin).
      all: destruct (Ha k a Hk) as (? & _ & _ & E & _); exists k, a; set_solver.
    + intros [Hu Hd]. split.
      * intros k a Hk. destruct (Ha k a Hk) as (? & _ & _ & _ & ?). eauto.
      * intros k k' a a' Hne Hk Hk'. destruct (Ha k a Hk) as (? & _ & _ & -> & _).
        destruct (Ha k' a' Hk') as (? & _ & _ & -> & _). by apply (Hd k k').
Qed.

#[global] Instance ref_laws T V `{!InCell T C} `{!Memory C T V} `{!MemoryLaws C T V} :
  MemoryLaws C (Ref T) (option V).
Proof.
  split; cbn.
  - intros h [|l] [v|]; try done. destruct (h !! l) as [c|] eqn:E; cbn; [|done].
    destruct (prj c) as [a|]; [|done]. intros H%reads_locs.
    apply elem_of_dom_2 in E. set_solver.
  - intros h h' [|l] [v|]; try done. destruct (h !! l) as [c|] eqn:E; cbn; [|done].
    destruct (prj c) as [a|] eqn:Ep; [|done]. intros H Hl.
    rewrite (Hl l), E by set_solver. cbn. rewrite Ep.
    destruct (reads_frame h h' _ _ H) as (? & -> & ?); [set_solver|]. naive_solver.
Qed.
End instances.

Lemma reads_grows {C T V} `{!Memory C T V} `{!MemoryLaws C T V} (h h' : heap C) (t : T) (v : V) :
  h ⊆ h' → reads h t v → reads h' t v ∧ locs h' t = locs h t ∧ (unshared h t → unshared h' t).
Proof.
  intros Hh H. apply reads_frame; [done|]. intros l Hl.
  apply (reads_locs _ _ _ H), elem_of_dom in Hl as [c Hc]. rewrite Hc. by eapply lookup_weaken.
Qed.

Lemma reads_at {C T V} `{!InCell T C} `{!Memory C T V} (h : heap C) l (v : option V) :
  reads h (At l : Ref T) v → ∃ a w, v = Some w ∧ h !! l ≫= prj = Some a ∧ reads h a w.
Proof. cbn. destruct v as [w|]; [|done]. destruct (h !! l ≫= prj) as [a|]; [|done]. eauto. Qed.

Lemma locs_at {C T V} `{!InCell T C} `{!Memory C T V} (h : heap C) l (a : T) :
  h !! l ≫= prj = Some a →
  locs h (At l : Ref T) = {[l]} ∪ locs h a ∧ (unshared h (At l : Ref T) → unshared h a ∧ l ∉ locs h a).
Proof. cbn. by intros ->. Qed.

Lemma unshared_at {C T V} `{!InCell T C} `{!Memory C T V} (h : heap C) l (a : T) :
  h !! l ≫= prj = Some a → unshared h a → l ∉ locs h a → unshared h (At l : Ref T).
Proof. cbn. by intros ->. Qed.
Lemma map_prim_locs {C A} `{!Prim A} (h : heap C) (m : gmap string A) : locs h m = ∅ ∧ unshared h m.
Proof.
  assert (∀ l, l ∉ locs h m) as E by (intros l (k & a & _ & H)%elem_of_map_locs; set_solver).
  split; [set_solver|]. split; cbn; set_solver.
Qed.

(** ** Deep copies *)

Definition copies {C T V} `{!Memory C T V} (f : T → M (heap C) T) : Prop :=
  ∀ h t v, reads h t v →
    ∃ t' h', f t h = (Ret t', h') ∧ h ⊆ h' ∧ reads h' t' v ∧ locs h' t' ## dom h ∧ unshared h' t'.

(** The order in which [range] visits the entries of a map: any. *)
Class RangeOrder := {
  range {A} : gmap string A → list (string * A);
  range_perm {A} (m : gmap string A) : range m ≡ₚ map_to_list m }.

(** A type with its deep copy. *)
Class Copyable (C T V : Type) `{!Memory C T V} := {
  copy : T → M (heap C) T;
  copy_copies : copies copy }.

Section copying.
Context {C : Type}.

(** [*out = *in] *)
Definition copy_val {A} (t : Val A) : M (heap C) (Val A) := mret t.

Definition copy_prim {A} (t : A) : M (heap C) A := mret t.

Definition copy_pair {T T'} (f : T → M (heap C) T) (g : T' → M (heap C) T') (t : T * T') :
    M (heap C) (T * T') :=
  a ← f t.1; b ← g t.2; mret (a, b).

(** The loop over a slice, which copies each element into its place. *)
Fixpoint copy_list {T} (f : T → M (heap C) T) (l : list T) : M (heap C) (list T) :=
  match l with
  | [] => mret []
  | t :: l => t' ← f t; l' ← copy_list f l; mret (t' :: l')
  end.

(** The loop over a map, which sets each key of the new one. *)
Fixpoint copy_entries {T} (f : T → M (heap C) T) (l : list (string * T)) (out : gmap string T) :
    M (heap C) (gmap string T) :=
  match l with
  | [] => mret out
  | (key, t) :: l => t' ← f t; copy_entries f l (<[key := t']> out)
  end.
Definition copy_map {RO : RangeOrder} {T} (f : T → M (heap C) T) (m : gmap string T) : M (heap C) (gmap string T) :=
  copy_entries f (range m) ∅.

(** A reference that is not nil: [new] (or [make]) and the copy of what it
    refers to.  The new cell is written once, with its final
    content; nothing refers to it before. *)
Definition copy_ref {T} `{!InCell T C} (f : T → M (heap C) T) (r : Ref T) : M (heap C) (Ref T) :=
  match r with
  | Nil => mret Nil
  | At _ => a ← load r; a' ← f a; alloc a'
  end.

(** DeepCopyObject returns an interface: a nil pointer becomes the nil interface. *)
Definition as_object {A} (c : Ref A) : option loc := match c with Nil => None | At l => Some l end.

Lemma copy_val_copies A : copies (@copy_val A).
Proof. intros h t v H. exists t, h. cbn. set_solver. Qed.

Lemma copy_prim_copies A `{!Prim A} : copies (@copy_prim A).
Proof. intros h t v H. exists t, h. cbn. set_solver. Qed.

(** The second copy leaves the first alone and finds its source unchanged. *)
Lemma copy_pair_copies {T V T' V'} `{!Memory C T V} `{!Memory C T' V'}
    `{!MemoryLaws C T V} `{!MemoryLaws C T' V'} (f : T → M (heap C) T) (g : T' → M (heap C) T') :
  copies f → copies g → copies (copy_pair f g).
Proof.
  intros Hf Hg h [t1 t2] [v1 v2] [H1 H2]. cbn in *.
  destruct (Hf _ _ _ H1) as (t1' & h1 & E1 & Hh1 & Hr1 & Hl1 & Hu1).
  destruct (reads_grows _ _ _ _ Hh1 H2) as [H2' _].
  destruct (Hg _ _ _ H2') as (t2' & h2 & E2 & Hh2 & Hr2 & Hl2 & Hu2).
  destruct (reads_grows _ _ _ _ Hh2 Hr1) as (Hr1' & El1 & Hu1').
  exists (t1', t2'), h2. unfold copy_pair. cbn.
  rewrite (bind_run _ _ _ _ _ E1), (bind_run _ _ _ _ _ E2). cbn.
  apply subseteq_dom in Hh1 as Hd1. apply reads_locs in Hr1 as Hd2.
  split; [done|]. rewrite El1. split_and!; try done; [by etrans|set_solver|auto|set_solver].
Qed.

Lemma copy_list_copies {T V} `{!Memory C T V} `{!MemoryLaws C T V} (f : T → M (heap C) T) :
  copies f → copies (copy_list f).
Proof.
  intros Hf h l w H. cbn in H. revert h H. revert l.
  induction w as [|v w IH]; intros l h H; inversion H as [|t ? l' ? Ht Hl]; subst.
  { exists [], h. cbn. set_solver. }
  destruct (Hf _ _ _ Ht) as (t' & h1 & E1 & Hh1 & Hr1 & Hl1 & Hu1).
  change (reads h l' w) in Hl. destruct (reads_grows _ _ _ _ Hh1 Hl) as [Hl' _].
  destruct (IH l' h1 Hl') as (l2 & h2 & E2 & Hh2 & Hr2 & Hl2 & Hu2).
  destruct (reads_grows _ _ _ _ Hh2 Hr1) as (Hr1' & El1 & Hu1').
  exists (t' :: l2), h2. cbn [copy_list].
  rewrite (bind_run _ _ _ _ _ E1), (bind_run _ _ _ _ _ E2).
  apply subseteq_dom in Hh1 as Hd1. apply reads_locs in Hr1 as Hd2.
  split; [done|]. cbn in *. rewrite El1.
  split_and!; [by etrans|by constructor|set_solver|auto|done|set_solver].
Qed.

(** The loop over a map, from the entries copied so far: [good h' m] says that
    [m] holds copies of the entries of [w]. *)
Definition good {T V} `{!Memory C T V} (w : gmap string V) (h0 h : heap C) (m : gmap string T) : Prop :=
  (∀ k t, m !! k = Some t → ∃ v, w !! k = Some v ∧ reads h t v ∧ locs h t ## dom h0) ∧ unshared h m.

Lemma good_mono {T V} `{!Memory C T V} `{!MemoryLaws C T V} (w : gmap string V) (h0 h h' : heap C) (m : gmap string T) :
  h ⊆ h' → good w h0 h m → good w h0 h' m.
Proof.
  intros Hh [Hm [Hu Hd]].
  assert (∀ k t, m !! k = Some t → locs h' t = locs h t) as El.
  { intros k t Hk. destruct (Hm _ _ Hk) as (v & _ & Hr & _). by apply (reads_grows h h' t v). }
  split; [|split].
  - intros k t Hk. destruct (Hm _ _ Hk) as (v & Hw & Hr & ?). exists v.
    destruct (reads_grows _ _ _ _ Hh Hr) as (? & -> & _). auto.
  - intros k t Hk. destruct (Hm _ _ Hk) as (v & Hw & Hr & ?).
    apply (reads_grows _ _ _ _ Hh Hr). eauto.
  - intros k k' t t' Hne Hk Hk'. rewrite (El k t), (El k' t') by done. by apply (Hd k k').
Qed.

Lemma good_insert {T V} `{!Memory C T V} `{!MemoryLaws C T V} (w : gmap string V) (h0 h h' : heap C)
    (m : gmap string T) k t v :
  good w h0 h m → good w h0 h' m → h ⊆ h' → w !! k = Some v → reads h' t v →
  locs h' t ## dom h0 → locs h' t ## dom h → unshared h' t → good w h0 h' (<[k := t]> m).
Proof.
  intros [Hm0 _] [Hm [Hu Hd]] Hh Hw Hr Hl Hf Ht.
  assert (∀ k' t', m !! k' = Some t' → locs h' t' ## locs h' t) as Hnew.
  { intros k' t' Hk'. destruct (Hm0 _ _ Hk') as (v' & _ & Hr' & _).
    destruct (reads_grows _ _ _ _ Hh Hr') as (_ & -> & _). apply reads_locs in Hr'. set_solver. }
  split; [|split].
  - intros k' t'. rewrite lookup_insert_Some. intros [[<- <-]|[_ Hk]]; eauto.
  - intros k' t'. rewrite lookup_insert_Some. intros [[<- <-]|[_ Hk]]; eauto.
  - intros k1 k2 t1 t2 Hne. rewrite !lookup_insert_Some.
    intros [[<- <-]|[_ H1]] [[<- <-]|[_ H2]]; [done| | |by apply (Hd k1 k2)].
    + symmetry. eauto.
    + eauto.
Qed.

Lemma copy_entries_copies {T V} `{!Memory C T V} `{!MemoryLaws C T V} (f : T → M (heap C) T)
    (w : gmap string V) (h0 : heap C) : copies f →
  ∀ l h out, h0 ⊆ h → good w h0 h out →
  (∀ k t, (k, t) ∈ l → ∃ v, w !! k = Some v ∧ reads h0 t v) →
  ∃ m h', copy_entries f l out h = (Ret m, h') ∧ h ⊆ h' ∧ good w h0 h' m ∧
    (∀ k, is_Some (m !! k) ↔ k ∈ l.*1 ∨ is_Some (out !! k)).
Proof.
  intros Hf l. induction l as [|[k t] l IH]; intros h out Hh Hout Hl.
  { exists out, h. cbn. split_and!; [done|done|done|]. set_solver. }
  destruct (Hl k t) as (v & Hw & Hr); [set_solver|].
  destruct (reads_grows _ _ _ _ Hh Hr) as [Hr' _].
  destruct (Hf _ _ _ Hr') as (t' & h1 & E1 & Hh1 & Hr1 & Hl1 & Hu1).
  apply subseteq_dom in Hh as Hd.
  destruct (IH h1 (<[k := t']> out)) as (m & h2 & E2 & Hh2 & Hm & Hk).
  - by etrans.
  - apply (good_insert w h0 h h1 out k t' v); try done; [by apply (good_mono w h0 h)|set_solver].
  - intros k' t'' ?. apply (Hl k' t''). set_solver.
  - exists m, h2. cbn [copy_entries]. rewrite (bind_run _ _ _ _ _ E1).
    split_and!; [done|by etrans|done|].
    intros k'. rewrite Hk, lookup_insert_is_Some'. set_solver.
Qed.

Lemma copy_map_copies {RO : RangeOrder} {T V} `{!Memory C T V} `{!MemoryLaws C T V} (f : T → M (heap C) T) :
  copies f → copies (copy_map f).
Proof.
  intros Hf h m w H. cbn in H.
  destruct (copy_entries_copies f w h Hf (range m) h ∅) as (m' & h' & E & Hh & [Hm Hu] & Hk).
  - done.
  - split; [|split]; intros *; by rewrite lookup_empty.
  - intros k t. rewrite range_perm, elem_of_map_to_list. intros Hk. specialize (H k).
    rewrite Hk in H. inversion H; subst. eauto.
  - exists m', h'. split_and!; [done|done| | |done].
    + intros k. destruct (m' !! k) as [t|] eqn:Et; cbn.
      * destruct (Hm k t Et) as (v & -> & ? & _). by constructor.
      * assert (m !! k = None) as Em.
        { destruct (m !! k) as [t|] eqn:Em; [|done]. exfalso.
          assert (is_Some (m' !! k)) as [? ?]; [|congruence]. apply Hk. left.
          apply list_elem_of_fmap. exists (k, t). split; [done|].
          by rewrite range_perm, elem_of_map_to_list. }
        specialize (H k). rewrite Em in H. inversion H. constructor.
    + intros l (k & t & Ht & Hl)%elem_of_map_locs. destruct (Hm k t Ht) as (? & _ & _ & Hd). set_solver.
Qed.

Lemma copy_ref_copies {T V} `{!InCell T C} `{!Memory C T V} `{!MemoryLaws C T V} (f : T → M (heap C) T) :
  copies f → copies (copy_ref f).
Proof.
  intros Hf h [|l] [v|]; cbn; try done.
  { intros _. exists Nil, h. set_solver. }
  destruct (h !! l ≫= prj) as [a|] eqn:E; [|done]. intros H.
  destruct (Hf _ _ _ H) as (a' & h1 & E1 & Hh1 & Hr1 & Hl1 & Hu1).
  pose proof (insert_next h1 (inj a')) as Hh2.
  destruct (reads_grows _ _ _ _ Hh2 Hr1) as (Hr2 & El2 & Hu2).
  exists (At (next h1)), (<[next h1 := inj a']> h1).
  unfold copy_ref. rewrite (bind_run _ _ h a h); [|cbn; by rewrite E].
  rewrite (bind_run _ _ _ _ _ E1). cbn. rewrite !lookup_insert_eq. cbn. rewrite !prj_inj, El2.
  assert (next h1 ∉ dom h1) as Hn1 by (apply not_elem_of_dom, next_fresh).
  apply subseteq_dom in Hh1 as Hd. apply reads_locs in Hr1.
  split_and!; [done|by etrans|done|set_solver|auto|set_solver].
Qed.

(** A struct is copied when the copies of its fields, one after the other, are
    what its function computes. *)
Lemma struct_copies {T V P Q} (f : T → P) (g : V → Q) `{!Memory C P Q}
    (c : P → M (heap C) P) (d : T → M (heap C) T) :
  copies c → (∀ t h, c (f t) h = (t' ← d t; mret (f t')) h) →
  @copies C T V (struct_memory f g) d.
Proof.
  intros Hc E h t v H. destruct (Hc _ _ _ H) as (p & h' & Ep & Hh & Hr & Hl & Hu).
  rewrite E in Ep. apply bind_Ret_inv in Ep as (t' & h'' & Et & Eq).
  cbn in Eq. injection Eq as <- <-. exists t', h''. by split_and!.
Qed.
End copying.

#[global] Instance val_copyable C A : Copyable C (Val A) (Val A) := {| copy_copies := copy_val_copies A |}.
#[global] Instance prim_copyable C A `{!Prim A} : Copyable C A A := {| copy_copies := copy_prim_copies A |}.
#[global] Instance pair_copyable C T V T' V' `{!Memory C T V} `{!Memory C T' V'}
  `{!MemoryLaws C T V} `{!MemoryLaws C T' V'} `{!Copyable C T V} `{!Copyable C T' V'} :
  Copyable C (T * T') (V * V') := {| copy_copies := copy_pair_copies copy copy copy_copies copy_copies |}.
#[global] Instance list_copyable C T V `{!Memory C T V} `{!MemoryLaws C T V} `{!Copyable C T V} :
  Copyable C (list T) (list V) := {| copy_copies := copy_list_copies copy copy_copies |}.
#[global] Instance map_copyable {RO : RangeOrder} C T V `{!Memory C T V} `{!MemoryLaws C T V} `{!Copyable C T V} :
  Copyable C (gmap string T) (gmap string V) := {| copy_copies := copy_map_copies copy copy_copies |}.
#[global] Instance ref_copyable C T V `{!InCell T C} `{!Memory C T V} `{!MemoryLaws C T V} `{!Copyable C T V} :
  Copyable C (Ref T) (option V) := {| copy_copies := copy_ref_copies copy copy_copies |}.

(** What a deep copy is for: whatever is written later to the memory of the
    copy, the original reads as before; and whatever is written to memory that
    was there before, the copy does. *)
Lemma copies_independent {C T V} `{!Memory C T V} `{!MemoryLaws C T V} (f : T → M (heap C) T) h t v :
  copies f → reads h t v →
  ∃ t' h', f t h = (Ret t', h') ∧
    h ⊆ h' ∧ reads h' t' v ∧ locs h' t' ## dom h ∧ unshared h' t' ∧
    (∀ h2, (∀ l, l ∉ locs h' t' → h2 !! l = h' !! l) → reads h2 t v) ∧
    (∀ h2, (∀ l, l ∉ dom h → h2 !! l = h' !! l) → reads h2 t' v).
Proof.
  intros Hf H. destruct (Hf _ _ _ H) as (t' & h' & E & Hh & Hr & Hl & Hu).
  exists t', h'. split_and!; try done.
  - intros h2 H2. destruct (reads_grows _ _ _ _ Hh H) as (Hr' & El & _).
    apply (reads_frame h' h2); [done|]. intros l Hin. apply H2.
    rewrite El in Hin. apply reads_locs in H. set_solver.
  - intros h2 H2. apply (reads_frame h' h2); [done|]. intros l Hin. apply H2. set_solver.
Qed.

(** The equation [struct_copies] asks for, for the function [d]: both sides run
    the same copies of fields. *)
Lemma bind_assoc {S A B D} (m : M S A) (k : A → M S B) (k' : B → M S D) s :
  ((m ≫= k) ≫= k') s = (m ≫= λ a, k a ≫= k') s.
Proof. unfold mbind, M_bind. by destruct (m s) as [[]]. Qed.
Lemma bind_ext {S A B} (m : M S A) (k k' : A → M S B) s :
  (∀ a s', k a s' = k' a s') → (m ≫= k) s = (m ≫= k') s.
Proof. intros E. unfold mbind, M_bind. destruct (m s) as [[]]; auto. Qed.
Lemma bind_mret {S A} (m : M S A) s : m s = (m ≫= mret) s.
Proof. unfold mbind, M_bind. by destruct (m s) as [[]]. Qed.
Lemma copy_pair_bind {C T T' B} (f : T → M (heap C) T) (g : T' → M (heap C) T') t t' (k : T * T' → M (heap C) B) h :
  (copy_pair f g (t, t') ≫= k) h = (f t ≫= λ a, g t' ≫= λ b, k (a, b)) h.
Proof.
  unfold copy_pair. cbn. rewrite bind_assoc. apply bind_ext. intros a h'.
  rewrite bind_assoc. by apply bind_ext.
Qed.
Lemma copy_val_bind {C A B} (t : Val A) (k : Val A → M (heap C) B) h : (copy_val t ≫= k) h = k t h.
Proof. reflexivity. Qed.

Ltac head_of t := lazymatch t with ?f _ => head_of f | _ => t end.
Ltac struct_copy d :=
  let f := head_of d in
  intros [] ?; unfold f; rewrite bind_mret; cbn [copy pair_copyable val_copyable];
  match goal with |- (copy_pair _ _ ?t ≫= _) _ = _ => let t' := eval hnf in t in change t with t' end;
  rewrite copy_pair_bind, copy_val_bind;
  repeat (rewrite ?bind_assoc; try rewrite copy_pair_bind; apply bind_ext; intros ? ?);
  reflexivity.

(** The instance of [Copyable] for a struct. *)
Ltac struct_copyable d :=
  refine {| copy := d |}; apply (struct_copies _ _ copy); [apply copy_copies|struct_copy d].
