(* ===== verification/DeepCopyV1.v ===== *)
(** Deep copies of the registry types: pkg/api/registry/v1/zz_generated.deepcopy.go.

    Each struct is one record over the reading [R] of references: [Ref] in
    memory, [option] in the tree a value stands for, so that a nil slice and an
    empty one stay apart.  [T_DeepCopyInto] returns what the Go function writes
    to its out parameter, which it overwrites as a whole.  The metadata types
    are Kubernetes' and have their own deep copies, which are parameters. *)
From stdpp Require Import base gmap strings list option numbers.
From S2P Require Import Prelude GoMem.

Abbreviation strings R := (R (list string)).
Abbreviation string_map R := (R (gmap string string)).

Record APIServer := mkAPIServer { Endpoint : string; CertificateAuthorityData : string }.
Record AvailabilityZone := mkAvailabilityZone { az_Name : string; az_ID : string }.
Record Capacity := mkCapacity {
  cap_LastUpdated : string; ClusterCapacity : Z; ClusterProvisioning : Z;
  MaxBQUPerRequest : Z; ClusterMaxBQU : Z; ClusterCurrentBQU : Z }.
Record ClusterStatus := mkClusterStatus {}.

#[global] Instance APIServer_prim : Prim APIServer := {}.
#[global] Instance AvailabilityZone_prim : Prim AvailabilityZone := {}.
#[global] Instance Capacity_prim : Prim Capacity := {}.
#[global] Instance ClusterStatus_prim : Prim ClusterStatus := {}.

Section structs.
Context (R : Type → Type).

Record AllowedOnboardingTeam := mkTeam {
  team_Name : string; GitTeams : strings R; LdapGroups : strings R }.
Record VirtualNetwork := mkVirtualNetwork { vnet_ID : string; vnet_Cidrs : strings R }.
Record PeerVirtualNetwork := mkPeerVirtualNetwork {
  peer_ID : string; peer_Cidrs : strings R; OwnerID : string }.
Record Tier := mkTier {
  tier_Name : string; InstanceType : string; ContainerRuntime : string;
  MinCapacity : Z; MaxCapacity : Z; Labels : string_map R; Taints : strings R;
  EnableKataSupport : bool; KernelParameters : string_map R }.
Record Extra := mkExtra {
  DomainName : string; LbEndpoints : string_map R; LoggingEndpoints : R (list (string_map R));
  EcrIamArns : R (gmap string (strings R)); EgressPorts : string; NFSInfo : R (list (string_map R));
  ExtendedRegion : string; OidcIssuer : string; NamespaceProfileInfraType : string }.

Definition ServiceMetadataMap : Type := string_map R.
Definition ServiceMetadataItem : Type := R (gmap string ServiceMetadataMap).
Definition ServiceMetadata : Type := R (gmap string ServiceMetadataItem).

Record ClusterSpec := mkClusterSpec {
  Name : string; ShortName : string; spec_APIServer : APIServer; Region : string; CloudType : string;
  CloudProviderRegion : string; Environment : string; BusinessUnit : string;
  ChargebackBusinessUnit : string; ChargedBack : R bool; ManagingOrg : string; Offering : strings R;
  AccountID : string; Tiers : R (list Tier); VirtualNetworks : R (list VirtualNetwork);
  RegisteredAt : string; Status : string; Phase : string; MaintenanceGroup : string;
  ArgoInstance : string; Type_ : string; spec_Extra : Extra;
  AllowedOnboardingTeams : R (list AllowedOnboardingTeam); Capabilities : strings R;
  PeerVirtualNetworks : R (list PeerVirtualNetwork); LastUpdated : string; Tags : string_map R;
  spec_Capacity : Capacity; spec_ServiceMetadata : ServiceMetadata;
  AvailabilityZones : R (list AvailabilityZone) }.
End structs.
Arguments mkTeam {R}. Arguments team_Name {R}. Arguments GitTeams {R}. Arguments LdapGroups {R}.
Arguments mkVirtualNetwork {R}. Arguments vnet_ID {R}. Arguments vnet_Cidrs {R}.
Arguments mkPeerVirtualNetwork {R}. Arguments peer_ID {R}. Arguments peer_Cidrs {R}. Arguments OwnerID {R}.
Arguments mkTier {R}. Arguments tier_Name {R}. Arguments InstanceType {R}. Arguments ContainerRuntime {R}.
Arguments MinCapacity {R}. Arguments MaxCapacity {R}. Arguments Labels {R}. Arguments Taints {R}.
Arguments EnableKataSupport {R}. Arguments KernelParameters {R}.
Arguments mkExtra {R}. Arguments DomainName {R}. Arguments LbEndpoints {R}. Arguments LoggingEndpoints {R}.
Arguments EcrIamArns {R}. Arguments EgressPorts {R}. Arguments NFSInfo {R}. Arguments ExtendedRegion {R}.
Arguments OidcIssuer {R}. Arguments NamespaceProfileInfraType {R}.
Arguments mkClusterSpec {R}. Arguments Name {R}. Arguments ShortName {R}. Arguments spec_APIServer {R}.
Arguments Region {R}. Arguments CloudType {R}. Arguments CloudProviderRegion {R}. Arguments Environment {R}.
Arguments BusinessUnit {R}. Arguments ChargebackBusinessUnit {R}. Arguments ChargedBack {R}.
Arguments ManagingOrg {R}. Arguments Offering {R}. Arguments AccountID {R}. Arguments Tiers {R}.
Arguments VirtualNetworks {R}. Arguments RegisteredAt {R}. Arguments Status {R}. Arguments Phase {R}.
Arguments MaintenanceGroup {R}. Arguments ArgoInstance {R}. Arguments Type_ {R}. Arguments spec_Extra {R}.
Arguments AllowedOnboardingTeams {R}. Arguments Capabilities {R}. Arguments PeerVirtualNetworks {R}.
Arguments LastUpdated {R}. Arguments Tags {R}. Arguments spec_Capacity {R}.
Arguments spec_ServiceMetadata {R}. Arguments AvailabilityZones {R}.

Record TypeMeta := mkTypeMeta { Kind : string; APIVersion : string }.

(** Kubernetes' metadata: [OM] and [LM] are [ObjectMeta] and [ListMeta]. *)
Record Cluster (R : Type → Type) (OM : Type) := mkCluster {
  cluster_TypeMeta : TypeMeta; cluster_ObjectMeta : OM; Spec : ClusterSpec R; cluster_Status : ClusterStatus }.
Arguments mkCluster {R OM}. Arguments cluster_TypeMeta {R OM}. Arguments cluster_ObjectMeta {R OM}.
Arguments Spec {R OM}. Arguments cluster_Status {R OM}.

Record ClusterList (R : Type → Type) (OM LM : Type) := mkClusterList {
  list_TypeMeta : TypeMeta; list_ListMeta : LM; Items : R (list (Cluster R OM)) }.
Arguments mkClusterList {R OM LM}. Arguments list_TypeMeta {R OM LM}. Arguments list_ListMeta {R OM LM}.
Arguments Items {R OM LM}.

(** The metadata types, and the cells of memory they use beside those below. *)
Class MetaTypes := { OM : Type; LM : Type; LibCell : Type }.

(** What a location can hold: the targets of the slices, maps and pointers. *)
Inductive cell {T : MetaTypes} : Type :=
  | CBool (b : bool) | CStrings (l : list string) | CMap (m : gmap string string)
  | CMaps (l : list (string_map Ref)) | CStringsMap (m : gmap string (strings Ref))
  | CItem (m : gmap string (ServiceMetadataMap Ref)) | CServices (m : gmap string (ServiceMetadataItem Ref))
  | CZones (l : list AvailabilityZone) | CTiers (l : list (Tier Ref))
  | CNetworks (l : list (VirtualNetwork Ref)) | CPeers (l : list (PeerVirtualNetwork Ref))
  | CTeams (l : list (AllowedOnboardingTeam Ref)) | CClusters (l : list (Cluster Ref OM))
  | CAPIServer (a : APIServer) | CTeam (t : AllowedOnboardingTeam Ref) | CZone (z : AvailabilityZone)
  | CCapacity (c : Capacity) | CCluster (c : Cluster Ref OM) | CClusterList (l : ClusterList Ref OM LM)
  | CSpec (s : ClusterSpec Ref) | CStatus (s : ClusterStatus) | CExtra (e : Extra Ref)
  | CPeer (p : PeerVirtualNetwork Ref) | CTier (t : Tier Ref) | CNetwork (n : VirtualNetwork Ref)
  | CLib (c : LibCell).
Arguments cell _ : clear implicits.

Section cells.
Context `{T : MetaTypes}.
#[global] Instance CBool_in : InCell (bool) (cell T).
Proof. refine {| inj := CBool; prj c := match c with CBool a => Some a | _ => None end |}; reflexivity. Defined.
#[global] Instance CStrings_in : InCell (list string) (cell T).
Proof. refine {| inj := CStrings; prj c := match c with CStrings a => Some a | _ => None end |}; reflexivity. Defined.
#[global] Instance CMap_in : InCell (gmap string string) (cell T).
Proof. refine {| inj := CMap; prj c := match c with CMap a => Some a | _ => None end |}; reflexivity. Defined.
#[global] Instance CMaps_in : InCell (list (string_map Ref)) (cell T).
Proof. refine {| inj := CMaps; prj c := match c with CMaps a => Some a | _ => None end |}; reflexivity. Defined.
#[global] Instance CStringsMap_in : InCell (gmap string (strings Ref)) (cell T).
Proof. refine {| inj := CStringsMap; prj c := match c with CStringsMap a => Some a | _ => None end |}; reflexivity. Defined.
#[global] Instance CItem_in : InCell (gmap string (ServiceMetadataMap Ref)) (cell T).
Proof. refine {| inj := CItem; prj c := match c with CItem a => Some a | _ => None end |}; reflexivity. Defined.
#[global] Instance CServices_in : InCell (gmap string (ServiceMetadataItem Ref)) (cell T).
Proof. refine {| inj := CServices; prj c := match c with CServices a => Some a | _ => None end |}; reflexivity. Defined.
#[global] Instance CZones_in : InCell (list AvailabilityZone) (cell T).
Proof. refine {| inj := CZones; prj c := match c with CZones a => Some a | _ => None end |}; reflexivity. Defined.
#[global] Instance CTiers_in : InCell (list (Tier Ref)) (cell T).
Proof. refine {| inj := CTiers; prj c := match c with CTiers a => Some a | _ => None end |}; reflexivity. Defined.
#[global] Instance CNetworks_in : InCell (list (VirtualNetwork Ref)) (cell T).
Proof. refine {| inj := CNetworks; prj c := match c with CNetworks a => Some a | _ => None end |}; reflexivity. Defined.
#[global] Instance CPeers_in : InCell (list (PeerVirtualNetwork Ref)) (cell T).
Proof. refine {| inj := CPeers; prj c := match c with CPeers a => Some a | _ => None end |}; reflexivity. Defined.
#[global] Instance CTeams_in : InCell (list (AllowedOnboardingTeam Ref)) (cell T).
Proof. refine {| inj := CTeams; prj c := match c with CTeams a => Some a | _ => None end |}; reflexivity. Defined.
#[global] Instance CClusters_in : InCell (list (Cluster Ref OM)) (cell T).
Proof. refine {| inj := CClusters; prj c := match c with CClusters a => Some a | _ => None end |}; reflexivity. Defined.
#[global] Instance CAPIServer_in : InCell (APIServer) (cell T).
Proof. refine {| inj := CAPIServer; prj c := match c with CAPIServer a => Some a | _ => None end |}; reflexivity. Defined.
#[global] Instance CTeam_in : InCell (AllowedOnboardingTeam Ref) (cell T).
Proof. refine {| inj := CTeam; prj c := match c with CTeam a => Some a | _ => None end |}; reflexivity. Defined.
#[global] Instance CZone_in : InCell (AvailabilityZone) (cell T).
Proof. refine {| inj := CZone; prj c := match c with CZone a => Some a | _ => None end |}; reflexivity. Defined.
#[global] Instance CCapacity_in : InCell (Capacity) (cell T).
Proof. refine {| inj := CCapacity; prj c := match c with CCapacity a => Some a | _ => None end |}; reflexivity. Defined.
#[global] Instance CCluster_in : InCell (Cluster Ref OM) (cell T).
Proof. refine {| inj := CCluster; prj c := match c with CCluster a => Some a | _ => None end |}; reflexivity. Defined.
#[global] Instance CClusterList_in : InCell (ClusterList Ref OM LM) (cell T).
Proof. refine {| inj := CClusterList; prj c := match c with CClusterList a => Some a | _ => None end |}; reflexivity. Defined.
#[global] Instance CSpec_in : InCell (ClusterSpec Ref) (cell T).
Proof. refine {| inj := CSpec; prj c := match c with CSpec a => Some a | _ => None end |}; reflexivity. Defined.
#[global] Instance CStatus_in : InCell (ClusterStatus) (cell T).
Proof. refine {| inj := CStatus; prj c := match c with CStatus a => Some a | _ => None end |}; reflexivity. Defined.
#[global] Instance CExtra_in : InCell (Extra Ref) (cell T).
Proof. refine {| inj := CExtra; prj c := match c with CExtra a => Some a | _ => None end |}; reflexivity. Defined.
#[global] Instance CPeer_in : InCell (PeerVirtualNetwork Ref) (cell T).
Proof. refine {| inj := CPeer; prj c := match c with CPeer a => Some a | _ => None end |}; reflexivity. Defined.
#[global] Instance CTier_in : InCell (Tier Ref) (cell T).
Proof. refine {| inj := CTier; prj c := match c with CTier a => Some a | _ => None end |}; reflexivity. Defined.
#[global] Instance CNetwork_in : InCell (VirtualNetwork Ref) (cell T).
Proof. refine {| inj := CNetwork; prj c := match c with CNetwork a => Some a | _ => None end |}; reflexivity. Defined.
End cells.

(** ** The functions *)

Section deepcopy.
Context `{T : MetaTypes} {RO : RangeOrder}.
Abbreviation C := (cell T).
Abbreviation H := (M (heap C)).

Definition APIServer_DeepCopyInto (i : APIServer) : H APIServer := mret i.
Definition APIServer_DeepCopy : Ref APIServer → H (Ref APIServer) := copy_ref APIServer_DeepCopyInto.

Definition AllowedOnboardingTeam_DeepCopyInto (i : AllowedOnboardingTeam Ref) : H (AllowedOnboardingTeam Ref) :=
  gitTeams ← copy_ref (copy_list copy_prim) (GitTeams i);
  ldapGroups ← copy_ref (copy_list copy_prim) (LdapGroups i);
  mret (mkTeam (team_Name i) gitTeams ldapGroups).
Definition AllowedOnboardingTeam_DeepCopy : Ref (AllowedOnboardingTeam Ref) → H (Ref (AllowedOnboardingTeam Ref)) :=
  copy_ref AllowedOnboardingTeam_DeepCopyInto.

Definition AvailabilityZone_DeepCopyInto (i : AvailabilityZone) : H AvailabilityZone := mret i.
Definition AvailabilityZone_DeepCopy : Ref AvailabilityZone → H (Ref AvailabilityZone) :=
  copy_ref AvailabilityZone_DeepCopyInto.

Definition Capacity_DeepCopyInto (i : Capacity) : H Capacity := mret i.
Definition Capacity_DeepCopy : Ref Capacity → H (Ref Capacity) := copy_ref Capacity_DeepCopyInto.

Definition ClusterStatus_DeepCopyInto (i : ClusterStatus) : H ClusterStatus := mret i.
Definition ClusterStatus_DeepCopy : Ref ClusterStatus → H (Ref ClusterStatus) := copy_ref ClusterStatus_DeepCopyInto.

Definition Extra_DeepCopyInto (i : Extra Ref) : H (Extra Ref) :=
  lbEndpoints ← copy_ref (copy_map copy_prim) (LbEndpoints i);
  loggingEndpoints ← copy_ref (copy_list (copy_ref (copy_map copy_prim))) (LoggingEndpoints i);
  ecrIamArns ← copy_ref (copy_map (copy_ref (copy_list copy_prim))) (EcrIamArns i);
  nfsInfo ← copy_ref (copy_list (copy_ref (copy_map copy_prim))) (NFSInfo i);
  mret (mkExtra (DomainName i) lbEndpoints loggingEndpoints ecrIamArns (EgressPorts i) nfsInfo
          (ExtendedRegion i) (OidcIssuer i) (NamespaceProfileInfraType i)).
Definition Extra_DeepCopy : Ref (Extra Ref) → H (Ref (Extra Ref)) := copy_ref Extra_DeepCopyInto.

Definition PeerVirtualNetwork_DeepCopyInto (i : PeerVirtualNetwork Ref) : H (PeerVirtualNetwork Ref) :=
  cidrs ← copy_ref (copy_list copy_prim) (peer_Cidrs i);
  mret (mkPeerVirtualNetwork (peer_ID i) cidrs (OwnerID i)).
Definition PeerVirtualNetwork_DeepCopy : Ref (PeerVirtualNetwork Ref) → H (Ref (PeerVirtualNetwork Ref)) :=
  copy_ref PeerVirtualNetwork_DeepCopyInto.

(** A named map type: the receiver is the map itself.  [DeepCopyInto] makes a
    map even when the receiver is nil (the range over nil is empty), which its
    [DeepCopy] never lets happen. *)
Definition map_DeepCopyInto {A} `{!InCell (gmap string A) C} (f : A → H A) (i : Ref (gmap string A)) :
    H (Ref (gmap string A)) :=
  m ← match i with Nil => mret ∅ | At _ => load i end;
  m' ← copy_map f m;
  alloc m'.
Definition map_DeepCopy {A} (into : Ref (gmap string A) → H (Ref (gmap string A))) (i : Ref (gmap string A)) :
    H (Ref (gmap string A)) :=
  match i with Nil => mret Nil | At _ => into i end.

Definition ServiceMetadataMap_DeepCopyInto : ServiceMetadataMap Ref → H (ServiceMetadataMap Ref) :=
  map_DeepCopyInto copy_prim.
Definition ServiceMetadataMap_DeepCopy : ServiceMetadataMap Ref → H (ServiceMetadataMap Ref) :=
  map_DeepCopy ServiceMetadataMap_DeepCopyInto.
Definition ServiceMetadataItem_DeepCopyInto : ServiceMetadataItem Ref → H (ServiceMetadataItem Ref) :=
  map_DeepCopyInto (copy_ref (copy_map copy_prim)).
Definition ServiceMetadataItem_DeepCopy : ServiceMetadataItem Ref → H (ServiceMetadataItem Ref) :=
  map_DeepCopy ServiceMetadataItem_DeepCopyInto.
Definition ServiceMetadata_DeepCopyInto : ServiceMetadata Ref → H (ServiceMetadata Ref) :=
  map_DeepCopyInto (copy_ref (copy_map (copy_ref (copy_map copy_prim)))).
Definition ServiceMetadata_DeepCopy : ServiceMetadata Ref → H (ServiceMetadata Ref) :=
  map_DeepCopy ServiceMetadata_DeepCopyInto.

Definition Tier_DeepCopyInto (i : Tier Ref) : H (Tier Ref) :=
  labels ← copy_ref (copy_map copy_prim) (Labels i);
  taints ← copy_ref (copy_list copy_prim) (Taints i);
  kernelParameters ← copy_ref (copy_map copy_prim) (KernelParameters i);
  mret (mkTier (tier_Name i) (InstanceType i) (ContainerRuntime i) (MinCapacity i) (MaxCapacity i)
          labels taints (EnableKataSupport i) kernelParameters).
Definition Tier_DeepCopy : Ref (Tier Ref) → H (Ref (Tier Ref)) := copy_ref Tier_DeepCopyInto.

Definition VirtualNetwork_DeepCopyInto (i : VirtualNetwork Ref) : H (VirtualNetwork Ref) :=
  cidrs ← copy_ref (copy_list copy_prim) (vnet_Cidrs i);
  mret (mkVirtualNetwork (vnet_ID i) cidrs).
Definition VirtualNetwork_DeepCopy : Ref (VirtualNetwork Ref) → H (Ref (VirtualNetwork Ref)) :=
  copy_ref VirtualNetwork_DeepCopyInto.

Definition ClusterSpec_DeepCopyInto (i : ClusterSpec Ref) : H (ClusterSpec Ref) :=
  chargedBack ← copy_ref copy_prim (ChargedBack i);
  offering ← copy_ref (copy_list copy_prim) (Offering i);
  tiers ← copy_ref (copy_list Tier_DeepCopyInto) (Tiers i);
  virtualNetworks ← copy_ref (copy_list VirtualNetwork_DeepCopyInto) (VirtualNetworks i);
  extra ← Extra_DeepCopyInto (spec_Extra i);
  teams ← copy_ref (copy_list AllowedOnboardingTeam_DeepCopyInto) (AllowedOnboardingTeams i);
  capabilities ← copy_ref (copy_list copy_prim) (Capabilities i);
  peers ← copy_ref (copy_list PeerVirtualNetwork_DeepCopyInto) (PeerVirtualNetworks i);
  tags ← copy_ref (copy_map copy_prim) (Tags i);
  services ← copy_ref (copy_map (copy_ref (copy_map (copy_ref (copy_map copy_prim))))) (spec_ServiceMetadata i);
  zones ← copy_ref (copy_list copy_prim) (AvailabilityZones i);
  mret (mkClusterSpec (Name i) (ShortName i) (spec_APIServer i) (Region i) (CloudType i)
          (CloudProviderRegion i) (Environment i) (BusinessUnit i) (ChargebackBusinessUnit i)
          chargedBack (ManagingOrg i) offering (AccountID i) tiers virtualNetworks (RegisteredAt i)
          (Status i) (Phase i) (MaintenanceGroup i) (ArgoInstance i) (Type_ i) extra teams capabilities
          peers (LastUpdated i) tags (spec_Capacity i) services zones).
Definition ClusterSpec_DeepCopy : Ref (ClusterSpec Ref) → H (Ref (ClusterSpec Ref)) :=
  copy_ref ClusterSpec_DeepCopyInto.

(** The deep copies of the metadata, from Kubernetes' library. *)
Context (ObjectMeta_DeepCopyInto : OM → H OM) (ListMeta_DeepCopyInto : LM → H LM).

Definition Cluster_DeepCopyInto (i : Cluster Ref OM) : H (Cluster Ref OM) :=
  meta ← ObjectMeta_DeepCopyInto (cluster_ObjectMeta i);
  spec ← ClusterSpec_DeepCopyInto (Spec i);
  mret (mkCluster (cluster_TypeMeta i) meta spec (cluster_Status i)).
Definition Cluster_DeepCopy : Ref (Cluster Ref OM) → H (Ref (Cluster Ref OM)) := copy_ref Cluster_DeepCopyInto.

Definition ClusterList_DeepCopyInto (i : ClusterList Ref OM LM) : H (ClusterList Ref OM LM) :=
  meta ← ListMeta_DeepCopyInto (list_ListMeta i);
  items ← copy_ref (copy_list Cluster_DeepCopyInto) (Items i);
  mret (mkClusterList (list_TypeMeta i) meta items).
Definition ClusterList_DeepCopy : Ref (ClusterList Ref OM LM) → H (Ref (ClusterList Ref OM LM)) :=
  copy_ref ClusterList_DeepCopyInto.

Definition Cluster_DeepCopyObject (i : Ref (Cluster Ref OM)) : H (option loc) :=
  c ← Cluster_DeepCopy i; mret (as_object c).
Definition ClusterList_DeepCopyObject (i : Ref (ClusterList Ref OM LM)) : H (option loc) :=
  c ← ClusterList_DeepCopy i; mret (as_object c).
End deepcopy.

(** ** Reading the structs, and that the functions copy *)

Section laws.
Context `{T : MetaTypes} {RO : RangeOrder}.
Abbreviation C := (cell T).

Definition team_fields {R} (t : AllowedOnboardingTeam R) := (val (team_Name t), (GitTeams t, LdapGroups t)).
#[global] Instance team_memory : Memory C (AllowedOnboardingTeam Ref) (AllowedOnboardingTeam option) :=
  struct_memory team_fields team_fields.
#[global] Instance team_laws : MemoryLaws C (AllowedOnboardingTeam Ref) (AllowedOnboardingTeam option).
Proof. apply struct_laws, _. Qed.
#[global] Instance team_copyable : Copyable C (AllowedOnboardingTeam Ref) (AllowedOnboardingTeam option).
Proof. struct_copyable AllowedOnboardingTeam_DeepCopyInto. Defined.

Definition vnet_fields {R} (i : VirtualNetwork R) := (val (vnet_ID i), vnet_Cidrs i).
#[global] Instance vnet_memory : Memory C (VirtualNetwork Ref) (VirtualNetwork option) := struct_memory vnet_fields vnet_fields.
#[global] Instance vnet_laws : MemoryLaws C (VirtualNetwork Ref) (VirtualNetwork option).
Proof. apply struct_laws, _. Qed.
#[global] Instance vnet_copyable : Copyable C (VirtualNetwork Ref) (VirtualNetwork option).
Proof. struct_copyable VirtualNetwork_DeepCopyInto. Defined.

Definition peer_fields {R} (i : PeerVirtualNetwork R) := (val (peer_ID i, OwnerID i), peer_Cidrs i).
#[global] Instance peer_memory : Memory C (PeerVirtualNetwork Ref) (PeerVirtualNetwork option) := struct_memory peer_fields peer_fields.
#[global] Instance peer_laws : MemoryLaws C (PeerVirtualNetwork Ref) (PeerVirtualNetwork option).
Proof. apply struct_laws, _. Qed.
#[global] Instance peer_copyable : Copyable C (PeerVirtualNetwork Ref) (PeerVirtualNetwork option).
Proof. struct_copyable PeerVirtualNetwork_DeepCopyInto. Defined.

Definition tier_fields {R} (i : Tier R) := 
  (val (tier_Name i, InstanceType i, ContainerRuntime i, MinCapacity i, MaxCapacity i, EnableKataSupport i),
   (Labels i, (Taints i, KernelParameters i))).
#[global] Instance tier_memory : Memory C (Tier Ref) (Tier option) := struct_memory tier_fields tier_fields.
#[global] Instance tier_laws : MemoryLaws C (Tier Ref) (Tier option).
Proof. apply struct_laws, _. Qed.
#[global] Instance tier_copyable : Copyable C (Tier Ref) (Tier option).
Proof. struct_copyable Tier_DeepCopyInto. Defined.

Definition extra_fields {R} (i : Extra R) := 
  (val (DomainName i, EgressPorts i, ExtendedRegion i, OidcIssuer i, NamespaceProfileInfraType i),
   (LbEndpoints i, (LoggingEndpoints i, (EcrIamArns i, NFSInfo i)))).
#[global] Instance extra_memory : Memory C (Extra Ref) (Extra option) := struct_memory extra_fields extra_fields.
#[global] Instance extra_laws : MemoryLaws C (Extra Ref) (Extra option).
Proof. apply struct_laws, _. Qed.
#[global] Instance extra_copyable : Copyable C (Extra Ref) (Extra option).
Proof. struct_copyable Extra_DeepCopyInto. Defined.

Definition spec_fields {R} (i : ClusterSpec R) := 
  (val (Name i, ShortName i, spec_APIServer i, Region i, CloudType i, CloudProviderRegion i, Environment i,
        BusinessUnit i, ChargebackBusinessUnit i, ManagingOrg i, AccountID i, RegisteredAt i, Status i, Phase i,
        MaintenanceGroup i, ArgoInstance i, Type_ i, LastUpdated i, spec_Capacity i),
   (ChargedBack i, (Offering i, (Tiers i, (VirtualNetworks i, (spec_Extra i, (AllowedOnboardingTeams i,
   (Capabilities i, (PeerVirtualNetworks i, (Tags i, (spec_ServiceMetadata i, AvailabilityZones i))))))))))).
#[global] Instance spec_memory : Memory C (ClusterSpec Ref) (ClusterSpec option) := struct_memory spec_fields spec_fields.
#[global] Instance spec_laws : MemoryLaws C (ClusterSpec Ref) (ClusterSpec option).
Proof. apply struct_laws, _. Qed.
#[global] Instance spec_copyable : Copyable C (ClusterSpec Ref) (ClusterSpec option).
Proof. struct_copyable ClusterSpec_DeepCopyInto. Defined.

(** Kubernetes' deep copies of its metadata are deep copies. *)
Context {OMv LMv : Type} `{!Memory C OM OMv} `{!MemoryLaws C OM OMv} `{!Memory C LM LMv} `{!MemoryLaws C LM LMv}.
Context `{!Copyable C OM OMv} `{!Copyable C LM LMv}.

Definition cluster_fields {R O} (i : Cluster R O) :=
  (val (cluster_TypeMeta i, cluster_Status i), (cluster_ObjectMeta i, Spec i)).
#[global] Instance cluster_memory : Memory C (Cluster Ref OM) (Cluster option OMv) :=
  struct_memory cluster_fields cluster_fields.
#[global] Instance cluster_laws : MemoryLaws C (Cluster Ref OM) (Cluster option OMv).
Proof. apply struct_laws, _. Qed.
#[global] Instance cluster_copyable : Copyable C (Cluster Ref OM) (Cluster option OMv).
Proof. struct_copyable (Cluster_DeepCopyInto copy). Defined.

Definition cluster_list_fields {R O L} (i : ClusterList R O L) := (val (list_TypeMeta i), (list_ListMeta i, Items i)).
#[global] Instance cluster_list_memory : Memory C (ClusterList Ref OM LM) (ClusterList option OMv LMv) :=
  struct_memory cluster_list_fields cluster_list_fields.
#[global] Instance cluster_list_laws : MemoryLaws C (ClusterList Ref OM LM) (ClusterList option OMv LMv).
Proof. apply struct_laws, _. Qed.
#[global] Instance cluster_list_copyable : Copyable C (ClusterList Ref OM LM) (ClusterList option OMv LMv).
Proof. struct_copyable (ClusterList_DeepCopyInto copy copy). Defined.
End laws.

(** ** What the copies promise *)

Lemma map_DeepCopy_ref `{T : MetaTypes} {RO : RangeOrder} {A} `{!InCell (gmap string A) (cell T)}
    (f : A → M (heap (cell T)) A) r h :
  map_DeepCopy (map_DeepCopyInto f) r h = copy_ref (copy_map f) r h.
Proof. by destruct r. Qed.

Section independence.
Context `{T : MetaTypes} {RO : RangeOrder}.
Abbreviation C := (cell T).
Context {OMv LMv : Type} `{!Memory C OM OMv} `{!MemoryLaws C OM OMv} `{!Memory C LM LMv} `{!MemoryLaws C LM LMv}.
Context `{!Copyable C OM OMv} `{!Copyable C LM LMv}.

Lemma Cluster_DeepCopy_copies : copies (Cluster_DeepCopy copy).
Proof. exact (copy_copies (C := C) (T := Ref (Cluster Ref OM)) (V := option (Cluster option OMv))). Qed.

(** C18: The deep copy of a Cluster reads as the same object (nil and empty slices
    and maps apart), shares no memory with the original, nor a part of it with
    another, and leaves what was in memory as it was; so whatever is written
    to the memory of the copy, the original reads as before, and whatever is
    written to memory that was there before, the copy does.  This holds
    whatever the original shares, and in whatever order its maps are visited. *)
Theorem Cluster_DeepCopy_independent (h : heap C) (r : Ref (Cluster Ref OM)) (v : option (Cluster option OMv)) :
  reads h r v →
  ∃ r' h', Cluster_DeepCopy copy r h = (Ret r', h') ∧
    h ⊆ h' ∧ reads h' r' v ∧ locs h' r' ## dom h ∧ unshared h' r' ∧
    (∀ h2, (∀ l, l ∉ locs h' r' → h2 !! l = h' !! l) → reads h2 r v) ∧
    (∀ h2, (∀ l, l ∉ dom h → h2 !! l = h' !! l) → reads h2 r' v).
Proof. apply copies_independent, Cluster_DeepCopy_copies. Qed.

(** The same of a list of Clusters. *)
Theorem ClusterList_DeepCopy_independent (h : heap C) (r : Ref (ClusterList Ref OM LM))
    (v : option (ClusterList option OMv LMv)) :
  reads h r v →
  ∃ r' h', ClusterList_DeepCopy copy copy r h = (Ret r', h') ∧
    h ⊆ h' ∧ reads h' r' v ∧ locs h' r' ## dom h ∧ unshared h' r' ∧
    (∀ h2, (∀ l, l ∉ locs h' r' → h2 !! l = h' !! l) → reads h2 r v) ∧
    (∀ h2, (∀ l, l ∉ dom h → h2 !! l = h' !! l) → reads h2 r' v).
Proof.
  apply copies_independent.
  exact (copy_copies (C := C) (T := Ref (ClusterList Ref OM LM)) (V := option (ClusterList option OMv LMv))).
Qed.

(** And of service metadata, whose functions have a map as receiver. *)
Theorem ServiceMetadata_DeepCopy_independent (h : heap C) (r : ServiceMetadata Ref) (v : ServiceMetadata option) :
  reads (T := ServiceMetadata Ref) h r v →
  ∃ r' h', ServiceMetadata_DeepCopy r h = (Ret r', h') ∧
    h ⊆ h' ∧ reads h' r' v ∧ locs h' r' ## dom h ∧ unshared h' r' ∧
    (∀ h2, (∀ l, l ∉ locs h' r' → h2 !! l = h' !! l) → reads h2 r v) ∧
    (∀ h2, (∀ l, l ∉ dom h → h2 !! l = h' !! l) → reads h2 r' v).
Proof.
  unfold ServiceMetadata_DeepCopy, ServiceMetadata_DeepCopyInto. setoid_rewrite map_DeepCopy_ref.
  apply copies_independent. exact (copy_copies (C := C) (T := ServiceMetadata Ref) (V := ServiceMetadata option)).
Qed.
End independence.

(** ** A concrete memory

    Metadata of a name, a namespace, a version, annotations and managed
    fields, with a deep copy made of the parts above, and a Cluster that uses
    one map in three places. *)
Module Example.
#[global] Instance order : RangeOrder := {| range A := map_to_list; range_perm A m := reflexivity _ |}.
#[global] Instance types : MetaTypes := {|
  OM := Val (string * string * string) * (Ref (gmap string string) * Ref (list string));
  LM := Val string; LibCell := Empty_set |}.
Definition OMv : Type := Val (string * string * string) * (option (gmap string string) * option (list string)).
#[global] Instance om_memory : Memory (cell types) OM OMv := pair_memory _ _ _ _.
#[global] Instance om_laws : MemoryLaws (cell types) OM OMv := pair_laws _ _ _ _.
#[global] Instance om_copyable : Copyable (cell types) OM OMv := pair_copyable _ _ _ _ _.

Definition spec {R : Type → Type} (tags : string_map R) (none : ∀ A : Type, R A) : ClusterSpec R :=
  mkClusterSpec "a" "a" (mkAPIServer "e" "c") "r" "t" "p" "Dev" "bu" "cbu" (none _) "org" (none _) "acc" (none _)
    (none _) "t0" "Active" "Running" "B" "argo" "" (mkExtra "d" tags (none _) (none _) "" (none _) "" "" "")
    (none _) (none _) (none _) "t1" tags (mkCapacity "" 0 0 0 0 0) (none _) (none _).
(** The annotations, the tags and the endpoints of the load balancers are one map. *)
Definition h0 : heap (cell types) := {[
  1%positive := CMap {["k" := "v"]};
  2%positive := CCluster (mkCluster (mkTypeMeta "" "") (val ("a", "ns", "7"), (At 1%positive, Nil)) (spec (At 1%positive) (λ _, Nil)) (mkClusterStatus)) ]}.
Definition v0 : Cluster option OMv :=
  mkCluster (mkTypeMeta "" "") (val ("a", "ns", "7"), (Some {["k" := "v"]}, None)) (spec (Some {["k" := "v"]}) (λ _, None)) mkClusterStatus.

Lemma map_reads_refl h (m : gmap string string) : reads (C := cell types) h m m.
Proof. intros k. destruct (m !! k); by constructor. Qed.

Lemma reads_h0 : reads h0 (At 2%positive : Ref (Cluster Ref OM)) (Some v0).
Proof. cbn. repeat split; apply (map_reads_refl h0). Qed.
End Example.

Lemma Cluster_DeepCopy_independent_witness :
  ∃ r' h', Cluster_DeepCopy (T := Example.types) copy (At 2%positive) Example.h0 = (Ret r', h') ∧
    reads h' r' (Some Example.v0) ∧ locs h' r' ## dom Example.h0.
Proof.
  destruct (Cluster_DeepCopy_independent Example.h0 (At 2%positive) (Some Example.v0))
    as (r' & h' & E & _ & Hr & Hl & _); [apply Example.reads_h0|].
  exists r', h'. split; [exact E|]. split; [exact Hr|exact Hl].
Defined.
