(* ===== verification/DeepCopyAlpha.v ===== *)
(** Deep copies of the controllers' types: pkg/api/registry/v1alpha1/zz_generated.deepcopy.go.

    As in DeepCopyV1, with the memory of this package: a record per struct over
    the reading of references, and Kubernetes' types ([ObjectMeta], [ListMeta],
    [LabelSelector] and [Time]) with their deep copies as parameters. *)
From stdpp Require Import base gmap strings list option numbers.
From S2P Require Import Prelude GoMem.

Record ObjectReference := mkObjectReference { ref_Name : string; ref_APIVersion : string; ref_Kind : string }.
Record WatchedField := mkWatchedField { Source : string; Destination : string }.
Record TypeMeta := mkTypeMeta { meta_Kind : string; meta_APIVersion : string }.
#[global] Instance ObjectReference_prim : Prim ObjectReference := {}.
#[global] Instance WatchedField_prim : Prim WatchedField := {}.

Section structs.
Context (R : Type → Type).
Record WatchedResource (LS : Type) := mkWatchedResource {
  Kind : string; APIVersion : string; Namespace : string; Name : string; LabelSelector : R LS }.
Record ClusterSyncSpec (LS : Type) := mkClusterSyncSpec {
  WatchedResources : R (list (WatchedResource LS)); InitialData : string }.
Record ClusterSyncStatus (TM : Type) := mkClusterSyncStatus {
  LastSyncTime : R TM; LastSyncStatus : R string; LastSyncError : R string;
  SyncedData : R string; SyncedDataHash : R string }.
Record ClusterSync (OM LS TM : Type) := mkClusterSync {
  sync_TypeMeta : TypeMeta; sync_ObjectMeta : OM; sync_Spec : ClusterSyncSpec LS; sync_Status : ClusterSyncStatus TM }.
Record ClusterSyncList (OM LM LS TM : Type) := mkClusterSyncList {
  sync_list_TypeMeta : TypeMeta; sync_list_ListMeta : LM; sync_Items : R (list (ClusterSync OM LS TM)) }.
Record WatchedServiceObject := mkWatchedServiceObject {
  Reference : ObjectReference; WatchedFields : R (list WatchedField) }.
Record WatchedServiceObjectStatus (TM : Type) := mkWatchedServiceObjectStatus {
  LastUpdated : TM; status_Reference : ObjectReference; Errors : R (list string) }.
Record ServiceMetadataWatcherSpec := mkWatcherSpec { WatchedServiceObjects : R (list WatchedServiceObject) }.
Record ServiceMetadataWatcherStatus (TM : Type) := mkWatcherStatus {
  status_WatchedServiceObjects : R (list (WatchedServiceObjectStatus TM)) }.
Record ServiceMetadataWatcher (OM TM : Type) := mkWatcher {
  watcher_TypeMeta : TypeMeta; watcher_ObjectMeta : OM;
  watcher_Spec : ServiceMetadataWatcherSpec; watcher_Status : ServiceMetadataWatcherStatus TM }.
Record ServiceMetadataWatcherList (OM LM TM : Type) := mkWatcherList {
  watcher_list_TypeMeta : TypeMeta; watcher_list_ListMeta : LM;
  watcher_Items : R (list (ServiceMetadataWatcher OM TM)) }.
End structs.
Arguments mkWatchedResource {R LS}. Arguments Kind {R LS}. Arguments APIVersion {R LS}. Arguments Namespace {R LS}.
Arguments Name {R LS}. Arguments LabelSelector {R LS}. Arguments mkClusterSyncSpec {R LS}.
Arguments WatchedResources {R LS}. Arguments InitialData {R LS}.
Arguments mkClusterSyncStatus {R TM}. Arguments LastSyncTime {R TM}. Arguments LastSyncStatus {R TM}.
Arguments LastSyncError {R TM}. Arguments SyncedData {R TM}. Arguments SyncedDataHash {R TM}.
Arguments mkWatchedServiceObjectStatus {R TM}. Arguments LastUpdated {R TM}. Arguments status_Reference {R TM}.
Arguments Errors {R TM}. Arguments mkWatcherStatus {R TM}. Arguments status_WatchedServiceObjects {R TM}.
Arguments mkClusterSync {R OM LS TM}. Arguments sync_TypeMeta {R OM LS TM}. Arguments sync_ObjectMeta {R OM LS TM}.
Arguments sync_Spec {R OM LS TM}. Arguments sync_Status {R OM LS TM}.
Arguments mkClusterSyncList {R OM LM LS TM}. Arguments sync_list_TypeMeta {R OM LM LS TM}.
Arguments sync_list_ListMeta {R OM LM LS TM}. Arguments sync_Items {R OM LM LS TM}.
Arguments mkWatchedServiceObject {R}. Arguments Reference {R}. Arguments WatchedFields {R}.
Arguments mkWatcherSpec {R}. Arguments WatchedServiceObjects {R}.
Arguments mkWatcher {R OM TM}. Arguments watcher_TypeMeta {R OM TM}. Arguments watcher_ObjectMeta {R OM TM}.
Arguments watcher_Spec {R OM TM}. Arguments watcher_Status {R OM TM}.
Arguments mkWatcherList {R OM LM TM}. Arguments watcher_list_TypeMeta {R OM LM TM}.
Arguments watcher_list_ListMeta {R OM LM TM}. Arguments watcher_Items {R OM LM TM}.

Class LibTypes := { OM : Type; LM : Type; LS : Type; TM : Type; LibCell : Type }.

Inductive cell {T : LibTypes} : Type :=
  | CString (s : string) | CStrings (l : list string) | CTime (t : TM) | CSelector (s : LS)
  | CResources (l : list (WatchedResource Ref LS)) | CSyncs (l : list (ClusterSync Ref OM LS TM))
  | CFields (l : list WatchedField) | CObjects (l : list (WatchedServiceObject Ref))
  | CObjectStatuses (l : list (WatchedServiceObjectStatus Ref TM)) | CWatchers (l : list (ServiceMetadataWatcher Ref OM TM))
  | CReference (r : ObjectReference) | CField (f : WatchedField) | CResource (r : WatchedResource Ref LS)
  | CSyncSpec (s : ClusterSyncSpec Ref LS) | CSyncStatus (s : ClusterSyncStatus Ref TM)
  | CSync (s : ClusterSync Ref OM LS TM) | CSyncList (l : ClusterSyncList Ref OM LM LS TM)
  | CObject (o : WatchedServiceObject Ref) | CObjectStatus (s : WatchedServiceObjectStatus Ref TM)
  | CWatcherSpec (s : ServiceMetadataWatcherSpec Ref) | CWatcherStatus (s : ServiceMetadataWatcherStatus Ref TM)
  | CWatcher (w : ServiceMetadataWatcher Ref OM TM) | CWatcherList (l : ServiceMetadataWatcherList Ref OM LM TM)
  | CLib (c : LibCell).
Arguments cell _ : clear implicits.

Section cells.
Context `{T : LibTypes}.
#[global] Instance CString_in : InCell (string) (cell T).
Proof. refine {| inj := CString; prj c := match c with CString a => Some a | _ => None end |}; reflexivity. Defined.
#[global] Instance CStrings_in : InCell (list string) (cell T).
Proof. refine {| inj := CStrings; prj c := match c with CStrings a => Some a | _ => None end |}; reflexivity. Defined.
#[global] Instance CTime_in : InCell (TM) (cell T).
Proof. refine {| inj := CTime; prj c := match c with CTime a => Some a | _ => None end |}; reflexivity. Defined.
#[global] Instance CSelector_in : InCell (LS) (cell T).
Proof. refine {| inj := CSelector; prj c := match c with CSelector a => Some a | _ => None end |}; reflexivity. Defined.
#[global] Instance CResources_in : InCell (list (WatchedResource Ref LS)) (cell T).
Proof. refine {| inj := CResources; prj c := match c with CResources a => Some a | _ => None end |}; reflexivity. Defined.
#[global] Instance CSyncs_in : InCell (list (ClusterSync Ref OM LS TM)) (cell T).
Proof. refine {| inj := CSyncs; prj c := match c with CSyncs a => Some a | _ => None end |}; reflexivity. Defined.
#[global] Instance CFields_in : InCell (list WatchedField) (cell T).
Proof. refine {| inj := CFields; prj c := match c with CFields a => Some a | _ => None end |}; reflexivity. Defined.
#[global] Instance CObjects_in : InCell (list (WatchedServiceObject Ref)) (cell T).
Proof. refine {| inj := CObjects; prj c := match c with CObjects a => Some a | _ => None end |}; reflexivity. Defined.
#[global] Instance CObjectStatuses_in : InCell (list (WatchedServiceObjectStatus Ref TM)) (cell T).
Proof. refine {| inj := CObjectStatuses; prj c := match c with CObjectStatuses a => Some a | _ => None end |}; reflexivity. Defined.
#[global] Instance CWatchers_in : InCell (list (ServiceMetadataWatcher Ref OM TM)) (cell T).
Proof. refine {| inj := CWatchers; prj c := match c with CWatchers a => Some a | _ => None end |}; reflexivity. Defined.
#[global] Instance CReference_in : InCell (ObjectReference) (cell T).
Proof. refine {| inj := CReference; prj c := match c with CReference a => Some a | _ => None end |}; reflexivity. Defined.
#[global] Instance CField_in : InCell (WatchedField) (cell T).
Proof. refine {| inj := CField; prj c := match c with CField a => Some a | _ => None end |}; reflexivity. Defined.
#[global] Instance CResource_in : InCell (WatchedResource Ref LS) (cell T).
Proof. refine {| inj := CResource; prj c := match c with CResource a => Some a | _ => None end |}; reflexivity. Defined.
#[global] Instance CSyncSpec_in : InCell (ClusterSyncSpec Ref LS) (cell T).
Proof. refine {| inj := CSyncSpec; prj c := match c with CSyncSpec a => Some a | _ => None end |}; reflexivity. Defined.
#[global] Instance CSyncStatus_in : InCell (ClusterSyncStatus Ref TM) (cell T).
Proof. refine {| inj := CSyncStatus; prj c := match c with CSyncStatus a => Some a | _ => None end |}; reflexivity. Defined.
#[global] Instance CSync_in : InCell (ClusterSync Ref OM LS TM) (cell T).
Proof. refine {| inj := CSync; prj c := match c with CSync a => Some a | _ => None end |}; reflexivity. Defined.
#[global] Instance CSyncList_in : InCell (ClusterSyncList Ref OM LM LS TM) (cell T).
Proof. refine {| inj := CSyncList; prj c := match c with CSyncList a => Some a | _ => None end |}; reflexivity. Defined.
#[global] Instance CObject_in : InCell (WatchedServiceObject Ref) (cell T).
Proof. refine {| inj := CObject; prj c := match c with CObject a => Some a | _ => None end |}; reflexivity. Defined.
#[global] Instance CObjectStatus_in : InCell (WatchedServiceObjectStatus Ref TM) (cell T).
Proof. refine {| inj := CObjectStatus; prj c := match c with CObjectStatus a => Some a | _ => None end |}; reflexivity. Defined.
#[global] Instance CWatcherSpec_in : InCell (ServiceMetadataWatcherSpec Ref) (cell T).
Proof. refine {| inj := CWatcherSpec; prj c := match c with CWatcherSpec a => Some a | _ => None end |}; reflexivity. Defined.
#[global] Instance CWatcherStatus_in : InCell (ServiceMetadataWatcherStatus Ref TM) (cell T).
Proof. refine {| inj := CWatcherStatus; prj c := match c with CWatcherStatus a => Some a | _ => None end |}; reflexivity. Defined.
#[global] Instance CWatcher_in : InCell (ServiceMetadataWatcher Ref OM TM) (cell T).
Proof. refine {| inj := CWatcher; prj c := match c with CWatcher a => Some a | _ => None end |}; reflexivity. Defined.
#[global] Instance CWatcherList_in : InCell (ServiceMetadataWatcherList Ref OM LM TM) (cell T).
Proof. refine {| inj := CWatcherList; prj c := match c with CWatcherList a => Some a | _ => None end |}; reflexivity. Defined.
End cells.

(** ** The functions *)

Section deepcopy.
Context `{T : LibTypes}.
Abbreviation C := (cell T).
Abbreviation H := (M (heap C)).
Context (ObjectMeta_DeepCopyInto : OM → H OM) (ListMeta_DeepCopyInto : LM → H LM)
  (LabelSelector_DeepCopyInto : LS → H LS) (Time_DeepCopyInto : TM → H TM).

Definition ObjectReference_DeepCopyInto (i : ObjectReference) : H ObjectReference := mret i.
Definition ObjectReference_DeepCopy : Ref ObjectReference → H (Ref ObjectReference) :=
  copy_ref ObjectReference_DeepCopyInto.
Definition WatchedField_DeepCopyInto (i : WatchedField) : H WatchedField := mret i.
Definition WatchedField_DeepCopy : Ref WatchedField → H (Ref WatchedField) := copy_ref WatchedField_DeepCopyInto.

Definition WatchedResource_DeepCopyInto (i : WatchedResource Ref LS) : H (WatchedResource Ref LS) :=
  labelSelector ← copy_ref LabelSelector_DeepCopyInto (LabelSelector i);
  mret (mkWatchedResource (Kind i) (APIVersion i) (Namespace i) (Name i) labelSelector).
Definition WatchedResource_DeepCopy : Ref (WatchedResource Ref LS) → H (Ref (WatchedResource Ref LS)) :=
  copy_ref WatchedResource_DeepCopyInto.

Definition ClusterSyncSpec_DeepCopyInto (i : ClusterSyncSpec Ref LS) : H (ClusterSyncSpec Ref LS) :=
  watchedResources ← copy_ref (copy_list WatchedResource_DeepCopyInto) (WatchedResources i);
  mret (mkClusterSyncSpec watchedResources (InitialData i)).
Definition ClusterSyncSpec_DeepCopy : Ref (ClusterSyncSpec Ref LS) → H (Ref (ClusterSyncSpec Ref LS)) :=
  copy_ref ClusterSyncSpec_DeepCopyInto.

(** The DeepCopy of Kubernetes' [Time] makes a new cell with the copy. *)
Definition ClusterSyncStatus_DeepCopyInto (i : ClusterSyncStatus Ref TM) : H (ClusterSyncStatus Ref TM) :=
  lastSyncTime ← copy_ref Time_DeepCopyInto (LastSyncTime i);
  lastSyncStatus ← copy_ref copy_prim (LastSyncStatus i);
  lastSyncError ← copy_ref copy_prim (LastSyncError i);
  syncedData ← copy_ref copy_prim (SyncedData i);
  syncedDataHash ← copy_ref copy_prim (SyncedDataHash i);
  mret (mkClusterSyncStatus lastSyncTime lastSyncStatus lastSyncError syncedData syncedDataHash).
Definition ClusterSyncStatus_DeepCopy : Ref (ClusterSyncStatus Ref TM) → H (Ref (ClusterSyncStatus Ref TM)) :=
  copy_ref ClusterSyncStatus_DeepCopyInto.

Definition ClusterSync_DeepCopyInto (i : ClusterSync Ref OM LS TM) : H (ClusterSync Ref OM LS TM) :=
  meta ← ObjectMeta_DeepCopyInto (sync_ObjectMeta i);
  spec ← ClusterSyncSpec_DeepCopyInto (sync_Spec i);
  status ← ClusterSyncStatus_DeepCopyInto (sync_Status i);
  mret (mkClusterSync (sync_TypeMeta i) meta spec status).
Definition ClusterSync_DeepCopy : Ref (ClusterSync Ref OM LS TM) → H (Ref (ClusterSync Ref OM LS TM)) :=
  copy_ref ClusterSync_DeepCopyInto.

Definition ClusterSyncList_DeepCopyInto (i : ClusterSyncList Ref OM LM LS TM) : H (ClusterSyncList Ref OM LM LS TM) :=
  meta ← ListMeta_DeepCopyInto (sync_list_ListMeta i);
  items ← copy_ref (copy_list ClusterSync_DeepCopyInto) (sync_Items i);
  mret (mkClusterSyncList (sync_list_TypeMeta i) meta items).
Definition ClusterSyncList_DeepCopy :
    Ref (ClusterSyncList Ref OM LM LS TM) → H (Ref (ClusterSyncList Ref OM LM LS TM)) :=
  copy_ref ClusterSyncList_DeepCopyInto.

Definition WatchedServiceObject_DeepCopyInto (i : WatchedServiceObject Ref) : H (WatchedServiceObject Ref) :=
  watchedFields ← copy_ref (copy_list copy_prim) (WatchedFields i);
  mret (mkWatchedServiceObject (Reference i) watchedFields).
Definition WatchedServiceObject_DeepCopy : Ref (WatchedServiceObject Ref) → H (Ref (WatchedServiceObject Ref)) :=
  copy_ref WatchedServiceObject_DeepCopyInto.

Definition WatchedServiceObjectStatus_DeepCopyInto (i : WatchedServiceObjectStatus Ref TM) :
    H (WatchedServiceObjectStatus Ref TM) :=
  lastUpdated ← Time_DeepCopyInto (LastUpdated i);
  errors ← copy_ref (copy_list copy_prim) (Errors i);
  mret (mkWatchedServiceObjectStatus lastUpdated (status_Reference i) errors).
Definition WatchedServiceObjectStatus_DeepCopy :
    Ref (WatchedServiceObjectStatus Ref TM) → H (Ref (WatchedServiceObjectStatus Ref TM)) :=
  copy_ref WatchedServiceObjectStatus_DeepCopyInto.

Definition ServiceMetadataWatcherSpec_DeepCopyInto (i : ServiceMetadataWatcherSpec Ref) : H (ServiceMetadataWatcherSpec Ref) :=
  objects ← copy_ref (copy_list WatchedServiceObject_DeepCopyInto) (WatchedServiceObjects i);
  mret (mkWatcherSpec objects).
Definition ServiceMetadataWatcherSpec_DeepCopy :
    Ref (ServiceMetadataWatcherSpec Ref) → H (Ref (ServiceMetadataWatcherSpec Ref)) :=
  copy_ref ServiceMetadataWatcherSpec_DeepCopyInto.

Definition ServiceMetadataWatcherStatus_DeepCopyInto (i : ServiceMetadataWatcherStatus Ref TM) :
    H (ServiceMetadataWatcherStatus Ref TM) :=
  objects ← copy_ref (copy_list WatchedServiceObjectStatus_DeepCopyInto) (status_WatchedServiceObjects i);
  mret (mkWatcherStatus objects).
Definition ServiceMetadataWatcherStatus_DeepCopy :
    Ref (ServiceMetadataWatcherStatus Ref TM) → H (Ref (ServiceMetadataWatcherStatus Ref TM)) :=
  copy_ref ServiceMetadataWatcherStatus_DeepCopyInto.

Definition ServiceMetadataWatcher_DeepCopyInto (i : ServiceMetadataWatcher Ref OM TM) : H (ServiceMetadataWatcher Ref OM TM) :=
  meta ← ObjectMeta_DeepCopyInto (watcher_ObjectMeta i);
  spec ← ServiceMetadataWatcherSpec_DeepCopyInto (watcher_Spec i);
  status ← ServiceMetadataWatcherStatus_DeepCopyInto (watcher_Status i);
  mret (mkWatcher (watcher_TypeMeta i) meta spec status).
Definition ServiceMetadataWatcher_DeepCopy :
    Ref (ServiceMetadataWatcher Ref OM TM) → H (Ref (ServiceMetadataWatcher Ref OM TM)) :=
  copy_ref ServiceMetadataWatcher_DeepCopyInto.

Definition ServiceMetadataWatcherList_DeepCopyInto (i : ServiceMetadataWatcherList Ref OM LM TM) :
    H (ServiceMetadataWatcherList Ref OM LM TM) :=
  meta ← ListMeta_DeepCopyInto (watcher_list_ListMeta i);
  items ← copy_ref (copy_list ServiceMetadataWatcher_DeepCopyInto) (watcher_Items i);
  mret (mkWatcherList (watcher_list_TypeMeta i) meta items).
Definition ServiceMetadataWatcherList_DeepCopy :
    Ref (ServiceMetadataWatcherList Ref OM LM TM) → H (Ref (ServiceMetadataWatcherList Ref OM LM TM)) :=
  copy_ref ServiceMetadataWatcherList_DeepCopyInto.

Definition ClusterSync_DeepCopyObject (i : Ref (ClusterSync Ref OM LS TM)) : H (option loc) :=
  c ← ClusterSync_DeepCopy i; mret (as_object c).
Definition ClusterSyncList_DeepCopyObject (i : Ref (ClusterSyncList Ref OM LM LS TM)) : H (option loc) :=
  c ← ClusterSyncList_DeepCopy i; mret (as_object c).
Definition ServiceMetadataWatcher_DeepCopyObject (i : Ref (ServiceMetadataWatcher Ref OM TM)) : H (option loc) :=
  c ← ServiceMetadataWatcher_DeepCopy i; mret (as_object c).
Definition ServiceMetadataWatcherList_DeepCopyObject (i : Ref (ServiceMetadataWatcherList Ref OM LM TM)) : H (option loc) :=
  c ← ServiceMetadataWatcherList_DeepCopy i; mret (as_object c).
End deepcopy.

(** ** Reading the structs, and that the functions copy *)

Section laws.
Context `{T : LibTypes}.
Abbreviation C := (cell T).

(** Kubernetes' deep copies are deep copies. *)
Context {OMv LMv LSv TMv : Type} `{!Memory C OM OMv} `{!MemoryLaws C OM OMv} `{!Memory C LM LMv} `{!MemoryLaws C LM LMv}
  `{!Memory C LS LSv} `{!MemoryLaws C LS LSv} `{!Memory C TM TMv} `{!MemoryLaws C TM TMv}.
Context `{!Copyable C OM OMv} `{!Copyable C LM LMv} `{!Copyable C LS LSv} `{!Copyable C TM TMv}.

Definition resource_fields {R L} (i : WatchedResource R L) := (val (Kind i, APIVersion i, Namespace i, Name i), LabelSelector i).
#[global] Instance resource_memory : Memory C (WatchedResource Ref LS) (WatchedResource option LSv) := struct_memory resource_fields resource_fields.
#[global] Instance resource_laws : MemoryLaws C (WatchedResource Ref LS) (WatchedResource option LSv).
Proof. apply struct_laws, _. Qed.
#[global] Instance resource_copyable : Copyable C (WatchedResource Ref LS) (WatchedResource option LSv).
Proof. struct_copyable (WatchedResource_DeepCopyInto copy). Defined.

Definition sync_spec_fields {R L} (i : ClusterSyncSpec R L) := (val (InitialData i), WatchedResources i).
#[global] Instance sync_spec_memory : Memory C (ClusterSyncSpec Ref LS) (ClusterSyncSpec option LSv) := struct_memory sync_spec_fields sync_spec_fields.
#[global] Instance sync_spec_laws : MemoryLaws C (ClusterSyncSpec Ref LS) (ClusterSyncSpec option LSv).
Proof. apply struct_laws, _. Qed.
#[global] Instance sync_spec_copyable : Copyable C (ClusterSyncSpec Ref LS) (ClusterSyncSpec option LSv).
Proof. struct_copyable (ClusterSyncSpec_DeepCopyInto copy). Defined.

Definition sync_status_fields {R L} (i : ClusterSyncStatus R L) := 
  (val tt, (LastSyncTime i, (LastSyncStatus i, (LastSyncError i, (SyncedData i, SyncedDataHash i))))).
#[global] Instance sync_status_memory : Memory C (ClusterSyncStatus Ref TM) (ClusterSyncStatus option TMv) := struct_memory sync_status_fields sync_status_fields.
#[global] Instance sync_status_laws : MemoryLaws C (ClusterSyncStatus Ref TM) (ClusterSyncStatus option TMv).
Proof. apply struct_laws, _. Qed.
#[global] Instance sync_status_copyable : Copyable C (ClusterSyncStatus Ref TM) (ClusterSyncStatus option TMv).
Proof. struct_copyable (ClusterSyncStatus_DeepCopyInto copy). Defined.

Definition sync_fields {R O L U} (i : ClusterSync R O L U) := 
  (val (sync_TypeMeta i), (sync_ObjectMeta i, (sync_Spec i, sync_Status i))).
#[global] Instance sync_memory : Memory C (ClusterSync Ref OM LS TM) (ClusterSync option OMv LSv TMv) := struct_memory sync_fields sync_fields.
#[global] Instance sync_laws : MemoryLaws C (ClusterSync Ref OM LS TM) (ClusterSync option OMv LSv TMv).
Proof. apply struct_laws, _. Qed.
#[global] Instance sync_copyable : Copyable C (ClusterSync Ref OM LS TM) (ClusterSync option OMv LSv TMv).
Proof. struct_copyable (ClusterSync_DeepCopyInto copy copy copy). Defined.

Definition sync_list_fields {R O M L U} (i : ClusterSyncList R O M L U) := 
  (val (sync_list_TypeMeta i), (sync_list_ListMeta i, sync_Items i)).
#[global] Instance sync_list_memory : Memory C (ClusterSyncList Ref OM LM LS TM) (ClusterSyncList option OMv LMv LSv TMv) := struct_memory sync_list_fields sync_list_fields.
#[global] Instance sync_list_laws : MemoryLaws C (ClusterSyncList Ref OM LM LS TM) (ClusterSyncList option OMv LMv LSv TMv).
Proof. apply struct_laws, _. Qed.
#[global] Instance sync_list_copyable : Copyable C (ClusterSyncList Ref OM LM LS TM) (ClusterSyncList option OMv LMv LSv TMv).
Proof. struct_copyable (ClusterSyncList_DeepCopyInto copy copy copy copy). Defined.

Definition object_fields {R} (i : WatchedServiceObject R) := (val (Reference i), WatchedFields i).
#[global] Instance object_memory : Memory C (WatchedServiceObject Ref) (WatchedServiceObject option) := struct_memory object_fields object_fields.
#[global] Instance object_laws : MemoryLaws C (WatchedServiceObject Ref) (WatchedServiceObject option).
Proof. apply struct_laws, _. Qed.
#[global] Instance object_copyable : Copyable C (WatchedServiceObject Ref) (WatchedServiceObject option).
Proof. struct_copyable WatchedServiceObject_DeepCopyInto. Defined.

Definition object_status_fields {R U} (i : WatchedServiceObjectStatus R U) := 
  (val (status_Reference i), (LastUpdated i, Errors i)).
#[global] Instance object_status_memory : Memory C (WatchedServiceObjectStatus Ref TM) (WatchedServiceObjectStatus option TMv) := struct_memory object_status_fields object_status_fields.
#[global] Instance object_status_laws : MemoryLaws C (WatchedServiceObjectStatus Ref TM) (WatchedServiceObjectStatus option TMv).
Proof. apply struct_laws, _. Qed.
#[global] Instance object_status_copyable : Copyable C (WatchedServiceObjectStatus Ref TM) (WatchedServiceObjectStatus option TMv).
Proof. struct_copyable (WatchedServiceObjectStatus_DeepCopyInto copy). Defined.

Definition watcher_spec_fields {R} (i : ServiceMetadataWatcherSpec R) := (val tt, WatchedServiceObjects i).
#[global] Instance watcher_spec_memory : Memory C (ServiceMetadataWatcherSpec Ref) (ServiceMetadataWatcherSpec option) := struct_memory watcher_spec_fields watcher_spec_fields.
#[global] Instance watcher_spec_laws : MemoryLaws C (ServiceMetadataWatcherSpec Ref) (ServiceMetadataWatcherSpec option).
Proof. apply struct_laws, _. Qed.
#[global] Instance watcher_spec_copyable : Copyable C (ServiceMetadataWatcherSpec Ref) (ServiceMetadataWatcherSpec option).
Proof. struct_copyable ServiceMetadataWatcherSpec_DeepCopyInto. Defined.

Definition watcher_status_fields {R U} (i : ServiceMetadataWatcherStatus R U) := 
  (val tt, status_WatchedServiceObjects i).
#[global] Instance watcher_status_memory : Memory C (ServiceMetadataWatcherStatus Ref TM) (ServiceMetadataWatcherStatus option TMv) := struct_memory watcher_status_fields watcher_status_fields.
#[global] Instance watcher_status_laws : MemoryLaws C (ServiceMetadataWatcherStatus Ref TM) (ServiceMetadataWatcherStatus option TMv).
Proof. apply struct_laws, _. Qed.
#[global] Instance watcher_status_copyable : Copyable C (ServiceMetadataWatcherStatus Ref TM) (ServiceMetadataWatcherStatus option TMv).
Proof. struct_copyable (ServiceMetadataWatcherStatus_DeepCopyInto copy). Defined.

Definition watcher_fields {R O U} (i : ServiceMetadataWatcher R O U) := 
  (val (watcher_TypeMeta i), (watcher_ObjectMeta i, (watcher_Spec i, watcher_Status i))).
#[global] Instance watcher_memory : Memory C (ServiceMetadataWatcher Ref OM TM) (ServiceMetadataWatcher option OMv TMv) := struct_memory watcher_fields watcher_fields.
#[global] Instance watcher_laws : MemoryLaws C (ServiceMetadataWatcher Ref OM TM) (ServiceMetadataWatcher option OMv TMv).
Proof. apply struct_laws, _. Qed.
#[global] Instance watcher_copyable : Copyable C (ServiceMetadataWatcher Ref OM TM) (ServiceMetadataWatcher option OMv TMv).
Proof. struct_copyable (ServiceMetadataWatcher_DeepCopyInto copy copy). Defined.

Definition watcher_list_fields {R O M U} (i : ServiceMetadataWatcherList R O M U) := 
  (val (watcher_list_TypeMeta i), (watcher_list_ListMeta i, watcher_Items i)).
#[global] Instance watcher_list_memory : Memory C (ServiceMetadataWatcherList Ref OM LM TM) (ServiceMetadataWatcherList option OMv LMv TMv) := struct_memory watcher_list_fields watcher_list_fields.
#[global] Instance watcher_list_laws : MemoryLaws C (ServiceMetadataWatcherList Ref OM LM TM) (ServiceMetadataWatcherList option OMv LMv TMv).
Proof. apply struct_laws, _. Qed.
#[global] Instance watcher_list_copyable : Copyable C (ServiceMetadataWatcherList Ref OM LM TM) (ServiceMetadataWatcherList option OMv LMv TMv).
Proof. struct_copyable (ServiceMetadataWatcherList_DeepCopyInto copy copy copy). Defined.

(** Every type of the package, the two lists and what they hold included, is
    copied without sharing. *)
Theorem ClusterSyncList_DeepCopy_independent (h : heap C) (r : Ref (ClusterSyncList Ref OM LM LS TM))
    (v : option (ClusterSyncList option OMv LMv LSv TMv)) :
  reads h r v →
  ∃ r' h', ClusterSyncList_DeepCopy copy copy copy copy r h = (Ret r', h') ∧
    h ⊆ h' ∧ reads h' r' v ∧ locs h' r' ## dom h ∧ unshared h' r' ∧
    (∀ h2, (∀ l, l ∉ locs h' r' → h2 !! l = h' !! l) → reads h2 r v) ∧
    (∀ h2, (∀ l, l ∉ dom h → h2 !! l = h' !! l) → reads h2 r' v).
Proof. apply copies_independent. exact (copy_copies (C := C) (T := Ref (ClusterSyncList Ref OM LM LS TM)) (V := option (ClusterSyncList option OMv LMv LSv TMv))). Qed.

Theorem ServiceMetadataWatcherList_DeepCopy_independent (h : heap C) (r : Ref (ServiceMetadataWatcherList Ref OM LM TM))
    (v : option (ServiceMetadataWatcherList option OMv LMv TMv)) :
  reads h r v →
  ∃ r' h', ServiceMetadataWatcherList_DeepCopy copy copy copy r h = (Ret r', h') ∧
    h ⊆ h' ∧ reads h' r' v ∧ locs h' r' ## dom h ∧ unshared h' r' ∧
    (∀ h2, (∀ l, l ∉ locs h' r' → h2 !! l = h' !! l) → reads h2 r v) ∧
    (∀ h2, (∀ l, l ∉ dom h → h2 !! l = h' !! l) → reads h2 r' v).
Proof. apply copies_independent. exact (copy_copies (C := C) (T := Ref (ServiceMetadataWatcherList Ref OM LM TM)) (V := option (ServiceMetadataWatcherList option OMv LMv TMv))). Qed.
End laws.
