(* ===== verification/DeepCopyConfig.v ===== *)
(** Deep copies of the configuration: pkg/api/config/v1/zz_generated.deepcopy.go.

    As in DeepCopyV1, with the memory of this package.  A duration is an
    integer; the configuration of leader elections is Kubernetes' and its deep
    copy is a parameter. *)
From stdpp Require Import base gmap strings list option numbers.
From S2P Require Import Prelude GoMem.

Record WatchedGVK := mkWatchedGVK { Group : string; Version : string; gvk_Kind : string }.
Record ClientConfigStatus := mkClientConfigStatus {}.
Record SyncConfigStatus := mkSyncConfigStatus {}.
Record ControllerHealth := mkControllerHealth {
  HealthProbeBindAddress : string; ReadinessEndpointName : string; LivenessEndpointName : string }.
Record ControllerMetrics := mkControllerMetrics { metrics_BindAddress : string }.
Record TypeMeta := mkTypeMeta { Kind : string; APIVersion : string }.
#[global] Instance WatchedGVK_prim : Prim WatchedGVK := {}.
#[global] Instance ClientConfigStatus_prim : Prim ClientConfigStatus := {}.
#[global] Instance SyncConfigStatus_prim : Prim SyncConfigStatus := {}.
#[global] Instance ControllerHealth_prim : Prim ControllerHealth := {}.
#[global] Instance ControllerMetrics_prim : Prim ControllerMetrics := {}.

Section structs.
Context (R : Type → Type).
Record AlertRule := mkAlertRule {
  AlertName : string; OnFiring : R (gmap string string); OnResolved : R (gmap string string) }.
Record AlertmanagerWebhookConfig := mkWebhookConfig { BindAddress : string; AlertMap : R (list AlertRule) }.
Record ServiceMetadataConfig := mkServiceMetadataConfig {
  WatchedGVKs : R (list WatchedGVK); ServiceIdAnnotation : string }.
Record ControllerConfigurationSpec := mkControllerSpec {
  GroupKindConcurrency : R (gmap string Z); CacheSyncTimeout : R Z; RecoverPanic : R bool }.
Record ControllerWebhook := mkControllerWebhook { Port : R Z; Host : string; CertDir : string }.
Record ControllerManager (LE : Type) := mkControllerManager {
  SyncPeriod : R Z; LeaderElection : R LE; CacheNamespace : string; GracefulShutdownTimeout : R Z;
  Controller : R ControllerConfigurationSpec; Metrics : ControllerMetrics; Health : ControllerHealth;
  Webhook : ControllerWebhook }.
Record ControllerManagerConfiguration (LE : Type) := mkManagerConfiguration {
  conf_TypeMeta : TypeMeta; conf_ControllerManager : ControllerManager LE }.
Record ClientConfig (LE : Type) := mkClientConfig {
  client_TypeMeta : TypeMeta; client_ControllerManager : ControllerManager LE; client_Namespace : string;
  AlertmanagerWebhook : AlertmanagerWebhookConfig; ServiceMetadata : ServiceMetadataConfig }.
Record SyncConfig (LE : Type) := mkSyncConfig {
  sync_TypeMeta : TypeMeta; sync_ControllerManager : ControllerManager LE; sync_Namespace : string;
  sync_WatchedGVKs : R (list WatchedGVK) }.
End structs.
Arguments mkAlertRule {R}. Arguments AlertName {R}. Arguments OnFiring {R}. Arguments OnResolved {R}.
Arguments mkWebhookConfig {R}. Arguments BindAddress {R}. Arguments AlertMap {R}.
Arguments mkServiceMetadataConfig {R}. Arguments WatchedGVKs {R}. Arguments ServiceIdAnnotation {R}.
Arguments mkControllerSpec {R}. Arguments GroupKindConcurrency {R}. Arguments CacheSyncTimeout {R}.
Arguments RecoverPanic {R}. Arguments mkControllerWebhook {R}. Arguments Port {R}. Arguments Host {R}.
Arguments CertDir {R}.
Arguments mkControllerManager {R LE}. Arguments SyncPeriod {R LE}. Arguments LeaderElection {R LE}.
Arguments CacheNamespace {R LE}. Arguments GracefulShutdownTimeout {R LE}. Arguments Controller {R LE}.
Arguments Metrics {R LE}. Arguments Health {R LE}. Arguments Webhook {R LE}. Arguments mkManagerConfiguration {R LE}.
Arguments conf_TypeMeta {R LE}. Arguments conf_ControllerManager {R LE}. Arguments mkClientConfig {R LE}.
Arguments client_TypeMeta {R LE}. Arguments client_ControllerManager {R LE}. Arguments client_Namespace {R LE}.
Arguments AlertmanagerWebhook {R LE}. Arguments ServiceMetadata {R LE}. Arguments mkSyncConfig {R LE}.
Arguments sync_TypeMeta {R LE}. Arguments sync_ControllerManager {R LE}. Arguments sync_Namespace {R LE}.
Arguments sync_WatchedGVKs {R LE}.

Class LibTypes := { LE : Type; LibCell : Type }.

Inductive cell {T : LibTypes} : Type :=
  | CInt (n : Z) | CBool (b : bool) | CMap (m : gmap string string) | CIntMap (m : gmap string Z)
  | CRules (l : list (AlertRule Ref)) | CGVKs (l : list WatchedGVK) | CElection (l : LE)
  | CControllerSpec (c : ControllerConfigurationSpec Ref) | CRule (r : AlertRule Ref)
  | CWebhookConfig (w : AlertmanagerWebhookConfig Ref) | CClientConfig (c : ClientConfig Ref LE)
  | CClientStatus (s : ClientConfigStatus) | CHealth (h : ControllerHealth) | CManager (m : ControllerManager Ref LE)
  | CConfiguration (c : ControllerManagerConfiguration Ref LE) | CMetrics (m : ControllerMetrics)
  | CWebhook (w : ControllerWebhook Ref) | CServiceConfig (s : ServiceMetadataConfig Ref)
  | CSyncConfig (c : SyncConfig Ref LE) | CSyncStatus (s : SyncConfigStatus) | CGVK (g : WatchedGVK)
  | CLib (c : LibCell).
Arguments cell _ : clear implicits.

Section cells.
Context `{T : LibTypes}.
#[global] Instance CInt_in : InCell (Z) (cell T).
Proof. refine {| inj := CInt; prj c := match c with CInt a => Some a | _ => None end |}; reflexivity. Defined.
#[global] Instance CBool_in : InCell (bool) (cell T).
Proof. refine {| inj := CBool; prj c := match c with CBool a => Some a | _ => None end |}; reflexivity. Defined.
#[global] Instance CMap_in : InCell (gmap string string) (cell T).
Proof. refine {| inj := CMap; prj c := match c with CMap a => Some a | _ => None end |}; reflexivity. Defined.
#[global] Instance CIntMap_in : InCell (gmap string Z) (cell T).
Proof. refine {| inj := CIntMap; prj c := match c with CIntMap a => Some a | _ => None end |}; reflexivity. Defined.
#[global] Instance CRules_in : InCell (list (AlertRule Ref)) (cell T).
Proof. refine {| inj := CRules; prj c := match c with CRules a => Some a | _ => None end |}; reflexivity. Defined.
#[global] Instance CGVKs_in : InCell (list WatchedGVK) (cell T).
Proof. refine {| inj := CGVKs; prj c := match c with CGVKs a => Some a | _ => None end |}; reflexivity. Defined.
#[global] Instance CElection_in : InCell (LE) (cell T).
Proof. refine {| inj := CElection; prj c := match c with CElection a => Some a | _ => None end |}; reflexivity. Defined.
#[global] Instance CControllerSpec_in : InCell (ControllerConfigurationSpec Ref) (cell T).
Proof. refine {| inj := CControllerSpec; prj c := match c with CControllerSpec a => Some a | _ => None end |}; reflexivity. Defined.
#[global] Instance CRule_in : InCell (AlertRule Ref) (cell T).
Proof. refine {| inj := CRule; prj c := match c with CRule a => Some a | _ => None end |}; reflexivity. Defined.
#[global] Instance CWebhookConfig_in : InCell (AlertmanagerWebhookConfig Ref) (cell T).
Proof. refine {| inj := CWebhookConfig; prj c := match c with CWebhookConfig a => Some a | _ => None end |}; reflexivity. Defined.
#[global] Instance CClientConfig_in : InCell (ClientConfig Ref LE) (cell T).
Proof. refine {| inj := CClientConfig; prj c := match c with CClientConfig a => Some a | _ => None end |}; reflexivity. Defined.
#[global] Instance CClientStatus_in : InCell (ClientConfigStatus) (cell T).
Proof. refine {| inj := CClientStatus; prj c := match c with CClientStatus a => Some a | _ => None end |}; reflexivity. Defined.
#[global] Instance CHealth_in : InCell (ControllerHealth) (cell T).
Proof. refine {| inj := CHealth; prj c := match c with CHealth a => Some a | _ => None end |}; reflexivity. Defined.
#[global] Instance CManager_in : InCell (ControllerManager Ref LE) (cell T).
Proof. refine {| inj := CManager; prj c := match c with CManager a => Some a | _ => None end |}; reflexivity. Defined.
#[global] Instance CConfiguration_in : InCell (ControllerManagerConfiguration Ref LE) (cell T).
Proof. refine {| inj := CConfiguration; prj c := match c with CConfiguration a => Some a | _ => None end |}; reflexivity. Defined.
#[global] Instance CMetrics_in : InCell (ControllerMetrics) (cell T).
Proof. refine {| inj := CMetrics; prj c := match c with CMetrics a => Some a | _ => None end |}; reflexivity. Defined.
#[global] Instance CWebhook_in : InCell (ControllerWebhook Ref) (cell T).
Proof. refine {| inj := CWebhook; prj c := match c with CWebhook a => Some a | _ => None end |}; reflexivity. Defined.
#[global] Instance CServiceConfig_in : InCell (ServiceMetadataConfig Ref) (cell T).
Proof. refine {| inj := CServiceConfig; prj c := match c with CServiceConfig a => Some a | _ => None end |}; reflexivity. Defined.
#[global] Instance CSyncConfig_in : InCell (SyncConfig Ref LE) (cell T).
Proof. refine {| inj := CSyncConfig; prj c := match c with CSyncConfig a => Some a | _ => None end |}; reflexivity. Defined.
#[global] Instance CSyncStatus_in : InCell (SyncConfigStatus) (cell T).
Proof. refine {| inj := CSyncStatus; prj c := match c with CSyncStatus a => Some a | _ => None end |}; reflexivity. Defined.
#[global] Instance CGVK_in : InCell (WatchedGVK) (cell T).
Proof. refine {| inj := CGVK; prj c := match c with CGVK a => Some a | _ => None end |}; reflexivity. Defined.
End cells.

(** ** The functions *)

Section deepcopy.
Context `{T : LibTypes} {RO : RangeOrder}.
Abbreviation C := (cell T).
Abbreviation H := (M (heap C)).
Context (LeaderElection_DeepCopyInto : LE → H LE).

Definition AlertRule_DeepCopyInto (i : AlertRule Ref) : H (AlertRule Ref) :=
  onFiring ← copy_ref (copy_map copy_prim) (OnFiring i);
  onResolved ← copy_ref (copy_map copy_prim) (OnResolved i);
  mret (mkAlertRule (AlertName i) onFiring onResolved).
Definition AlertRule_DeepCopy : Ref (AlertRule Ref) → H (Ref (AlertRule Ref)) := copy_ref AlertRule_DeepCopyInto.

Definition AlertmanagerWebhookConfig_DeepCopyInto (i : AlertmanagerWebhookConfig Ref) : H (AlertmanagerWebhookConfig Ref) :=
  alertMap ← copy_ref (copy_list AlertRule_DeepCopyInto) (AlertMap i);
  mret (mkWebhookConfig (BindAddress i) alertMap).
Definition AlertmanagerWebhookConfig_DeepCopy : Ref (AlertmanagerWebhookConfig Ref) → H (Ref (AlertmanagerWebhookConfig Ref)) := copy_ref AlertmanagerWebhookConfig_DeepCopyInto.

Definition ClientConfigStatus_DeepCopyInto (i : ClientConfigStatus) : H ClientConfigStatus := mret i.
Definition ClientConfigStatus_DeepCopy : Ref ClientConfigStatus → H (Ref ClientConfigStatus) := copy_ref ClientConfigStatus_DeepCopyInto.

Definition ControllerConfigurationSpec_DeepCopyInto (i : ControllerConfigurationSpec Ref) : H (ControllerConfigurationSpec Ref) :=
  groupKindConcurrency ← copy_ref (copy_map copy_prim) (GroupKindConcurrency i);
  cacheSyncTimeout ← copy_ref copy_prim (CacheSyncTimeout i);
  recoverPanic ← copy_ref copy_prim (RecoverPanic i);
  mret (mkControllerSpec groupKindConcurrency cacheSyncTimeout recoverPanic).
Definition ControllerConfigurationSpec_DeepCopy : Ref (ControllerConfigurationSpec Ref) → H (Ref (ControllerConfigurationSpec Ref)) := copy_ref ControllerConfigurationSpec_DeepCopyInto.

Definition ControllerHealth_DeepCopyInto (i : ControllerHealth) : H ControllerHealth := mret i.
Definition ControllerHealth_DeepCopy : Ref ControllerHealth → H (Ref ControllerHealth) := copy_ref ControllerHealth_DeepCopyInto.

Definition ControllerMetrics_DeepCopyInto (i : ControllerMetrics) : H ControllerMetrics := mret i.
Definition ControllerMetrics_DeepCopy : Ref ControllerMetrics → H (Ref ControllerMetrics) := copy_ref ControllerMetrics_DeepCopyInto.

Definition ControllerWebhook_DeepCopyInto (i : ControllerWebhook Ref) : H (ControllerWebhook Ref) :=
  port ← copy_ref copy_prim (Port i);
  mret (mkControllerWebhook port (Host i) (CertDir i)).
Definition ControllerWebhook_DeepCopy : Ref (ControllerWebhook Ref) → H (Ref (ControllerWebhook Ref)) := copy_ref ControllerWebhook_DeepCopyInto.

Definition ControllerManager_DeepCopyInto (i : ControllerManager Ref LE) : H (ControllerManager Ref LE) :=
  syncPeriod ← copy_ref copy_prim (SyncPeriod i);
  leaderElection ← copy_ref LeaderElection_DeepCopyInto (LeaderElection i);
  gracefulShutdownTimeout ← copy_ref copy_prim (GracefulShutdownTimeout i);
  controller ← copy_ref ControllerConfigurationSpec_DeepCopyInto (Controller i);
  webhook ← ControllerWebhook_DeepCopyInto (Webhook i);
  mret (mkControllerManager syncPeriod leaderElection (CacheNamespace i) gracefulShutdownTimeout
          controller (Metrics i) (Health i) webhook).
Definition ControllerManager_DeepCopy : Ref (ControllerManager Ref LE) → H (Ref (ControllerManager Ref LE)) := copy_ref ControllerManager_DeepCopyInto.

Definition ControllerManagerConfiguration_DeepCopyInto (i : ControllerManagerConfiguration Ref LE) :
    H (ControllerManagerConfiguration Ref LE) :=
  manager ← ControllerManager_DeepCopyInto (conf_ControllerManager i);
  mret (mkManagerConfiguration (conf_TypeMeta i) manager).
Definition ControllerManagerConfiguration_DeepCopy : Ref (ControllerManagerConfiguration Ref LE) → H (Ref (ControllerManagerConfiguration Ref LE)) := copy_ref ControllerManagerConfiguration_DeepCopyInto.

Definition ServiceMetadataConfig_DeepCopyInto (i : ServiceMetadataConfig Ref) : H (ServiceMetadataConfig Ref) :=
  watchedGVKs ← copy_ref (copy_list copy_prim) (WatchedGVKs i);
  mret (mkServiceMetadataConfig watchedGVKs (ServiceIdAnnotation i)).
Definition ServiceMetadataConfig_DeepCopy : Ref (ServiceMetadataConfig Ref) → H (Ref (ServiceMetadataConfig Ref)) := copy_ref ServiceMetadataConfig_DeepCopyInto.

Definition ClientConfig_DeepCopyInto (i : ClientConfig Ref LE) : H (ClientConfig Ref LE) :=
  manager ← ControllerManager_DeepCopyInto (client_ControllerManager i);
  webhook ← AlertmanagerWebhookConfig_DeepCopyInto (AlertmanagerWebhook i);
  services ← ServiceMetadataConfig_DeepCopyInto (ServiceMetadata i);
  mret (mkClientConfig (client_TypeMeta i) manager (client_Namespace i) webhook services).
Definition ClientConfig_DeepCopy : Ref (ClientConfig Ref LE) → H (Ref (ClientConfig Ref LE)) := copy_ref ClientConfig_DeepCopyInto.

Definition SyncConfig_DeepCopyInto (i : SyncConfig Ref LE) : H (SyncConfig Ref LE) :=
  manager ← ControllerManager_DeepCopyInto (sync_ControllerManager i);
  watchedGVKs ← copy_ref (copy_list copy_prim) (sync_WatchedGVKs i);
  mret (mkSyncConfig (sync_TypeMeta i) manager (sync_Namespace i) watchedGVKs).
Definition SyncConfig_DeepCopy : Ref (SyncConfig Ref LE) → H (Ref (SyncConfig Ref LE)) := copy_ref SyncConfig_DeepCopyInto.

Definition SyncConfigStatus_DeepCopyInto (i : SyncConfigStatus) : H SyncConfigStatus := mret i.
Definition SyncConfigStatus_DeepCopy : Ref SyncConfigStatus → H (Ref SyncConfigStatus) := copy_ref SyncConfigStatus_DeepCopyInto.

Definition WatchedGVK_DeepCopyInto (i : WatchedGVK) : H WatchedGVK := mret i.
Definition WatchedGVK_DeepCopy : Ref WatchedGVK → H (Ref WatchedGVK) := copy_ref WatchedGVK_DeepCopyInto.

Definition ClientConfig_DeepCopyObject (i : Ref (ClientConfig Ref LE)) : H (option loc) :=
  c ← ClientConfig_DeepCopy i; mret (as_object c).
Definition SyncConfig_DeepCopyObject (i : Ref (SyncConfig Ref LE)) : H (option loc) :=
  c ← SyncConfig_DeepCopy i; mret (as_object c).
End deepcopy.

(** ** Reading the structs, and that the functions copy *)

Section laws.
Context `{T : LibTypes} {RO : RangeOrder}.
Abbreviation C := (cell T).
Context {LEv : Type} `{!Memory C LE LEv} `{!MemoryLaws C LE LEv} `{!Copyable C LE LEv}.

Definition rule_fields {R} (i : AlertRule R) := (val (AlertName i), (OnFiring i, OnResolved i)).
#[global] Instance rule_memory : Memory C (AlertRule Ref) (AlertRule option) := struct_memory rule_fields rule_fields.
#[global] Instance rule_laws : MemoryLaws C (AlertRule Ref) (AlertRule option).
Proof. apply struct_laws, _. Qed.
#[global] Instance rule_copyable : Copyable C (AlertRule Ref) (AlertRule option).
Proof. struct_copyable AlertRule_DeepCopyInto. Defined.

Definition webhook_config_fields {R} (i : AlertmanagerWebhookConfig R) := (val (BindAddress i), AlertMap i).
#[global] Instance webhook_config_memory : Memory C (AlertmanagerWebhookConfig Ref) (AlertmanagerWebhookConfig option) := struct_memory webhook_config_fields webhook_config_fields.
#[global] Instance webhook_config_laws : MemoryLaws C (AlertmanagerWebhookConfig Ref) (AlertmanagerWebhookConfig option).
Proof. apply struct_laws, _. Qed.
#[global] Instance webhook_config_copyable : Copyable C (AlertmanagerWebhookConfig Ref) (AlertmanagerWebhookConfig option).
Proof. struct_copyable AlertmanagerWebhookConfig_DeepCopyInto. Defined.

Definition controller_spec_fields {R} (i : ControllerConfigurationSpec R) := 
  (val tt, (GroupKindConcurrency i, (CacheSyncTimeout i, RecoverPanic i))).
#[global] Instance controller_spec_memory : Memory C (ControllerConfigurationSpec Ref) (ControllerConfigurationSpec option) := struct_memory controller_spec_fields controller_spec_fields.
#[global] Instance controller_spec_laws : MemoryLaws C (ControllerConfigurationSpec Ref) (ControllerConfigurationSpec option).
Proof. apply struct_laws, _. Qed.
#[global] Instance controller_spec_copyable : Copyable C (ControllerConfigurationSpec Ref) (ControllerConfigurationSpec option).
Proof. struct_copyable ControllerConfigurationSpec_DeepCopyInto. Defined.

Definition controller_webhook_fields {R} (i : ControllerWebhook R) := (val (Host i, CertDir i), Port i).
#[global] Instance controller_webhook_memory : Memory C (ControllerWebhook Ref) (ControllerWebhook option) := struct_memory controller_webhook_fields controller_webhook_fields.
#[global] Instance controller_webhook_laws : MemoryLaws C (ControllerWebhook Ref) (ControllerWebhook option).
Proof. apply struct_laws, _. Qed.
#[global] Instance controller_webhook_copyable : Copyable C (ControllerWebhook Ref) (ControllerWebhook option).
Proof. struct_copyable ControllerWebhook_DeepCopyInto. Defined.

Definition manager_fields {R L} (i : ControllerManager R L) := 
  (val (CacheNamespace i, Metrics i, Health i),
   (SyncPeriod i, (LeaderElection i, (GracefulShutdownTimeout i, (Controller i, Webhook i))))).
#[global] Instance manager_memory : Memory C (ControllerManager Ref LE) (ControllerManager option LEv) := struct_memory manager_fields manager_fields.
#[global] Instance manager_laws : MemoryLaws C (ControllerManager Ref LE) (ControllerManager option LEv).
Proof. apply struct_laws, _. Qed.
#[global] Instance manager_copyable : Copyable C (ControllerManager Ref LE) (ControllerManager option LEv).
Proof. struct_copyable (ControllerManager_DeepCopyInto copy). Defined.

Definition configuration_fields {R L} (i : ControllerManagerConfiguration R L) := 
  (val (conf_TypeMeta i), conf_ControllerManager i).
#[global] Instance configuration_memory : Memory C (ControllerManagerConfiguration Ref LE) (ControllerManagerConfiguration option LEv) := struct_memory configuration_fields configuration_fields.
#[global] Instance configuration_laws : MemoryLaws C (ControllerManagerConfiguration Ref LE) (ControllerManagerConfiguration option LEv).
Proof. apply struct_laws, _. Qed.
#[global] Instance configuration_copyable : Copyable C (ControllerManagerConfiguration Ref LE) (ControllerManagerConfiguration option LEv).
Proof. struct_copyable (ControllerManagerConfiguration_DeepCopyInto copy). Defined.

Definition service_config_fields {R} (i : ServiceMetadataConfig R) := (val (ServiceIdAnnotation i), WatchedGVKs i).
#[global] Instance service_config_memory : Memory C (ServiceMetadataConfig Ref) (ServiceMetadataConfig option) := struct_memory service_config_fields service_config_fields.
#[global] Instance service_config_laws : MemoryLaws C (ServiceMetadataConfig Ref) (ServiceMetadataConfig option).
Proof. apply struct_laws, _. Qed.
#[global] Instance service_config_copyable : Copyable C (ServiceMetadataConfig Ref) (ServiceMetadataConfig option).
Proof. struct_copyable ServiceMetadataConfig_DeepCopyInto. Defined.

Definition client_config_fields {R L} (i : ClientConfig R L) := 
  (val (client_TypeMeta i, client_Namespace i),
   (client_ControllerManager i, (AlertmanagerWebhook i, ServiceMetadata i))).
#[global] Instance client_config_memory : Memory C (ClientConfig Ref LE) (ClientConfig option LEv) := struct_memory client_config_fields client_config_fields.
#[global] Instance client_config_laws : MemoryLaws C (ClientConfig Ref LE) (ClientConfig option LEv).
Proof. apply struct_laws, _. Qed.
#[global] Instance client_config_copyable : Copyable C (ClientConfig Ref LE) (ClientConfig option LEv).
Proof. struct_copyable (ClientConfig_DeepCopyInto copy). Defined.

Definition sync_config_fields {R L} (i : SyncConfig R L) := 
  (val (sync_TypeMeta i, sync_Namespace i), (sync_ControllerManager i, sync_WatchedGVKs i)).
#[global] Instance sync_config_memory : Memory C (SyncConfig Ref LE) (SyncConfig option LEv) := struct_memory sync_config_fields sync_config_fields.
#[global] Instance sync_config_laws : MemoryLaws C (SyncConfig Ref LE) (SyncConfig option LEv).
Proof. apply struct_laws, _. Qed.
#[global] Instance sync_config_copyable : Copyable C (SyncConfig Ref LE) (SyncConfig option LEv).
Proof. struct_copyable (SyncConfig_DeepCopyInto copy). Defined.

(** The defaults a configuration file is decoded over are copied without sharing:
    decoding writes to the copy only. *)
Theorem ClientConfig_DeepCopy_independent (h : heap C) (r : Ref (ClientConfig Ref LE)) (v : option (ClientConfig option LEv)) :
  reads h r v →
  ∃ r' h', ClientConfig_DeepCopy copy r h = (Ret r', h') ∧
    h ⊆ h' ∧ reads h' r' v ∧ locs h' r' ## dom h ∧ unshared h' r' ∧
    (∀ h2, (∀ l, l ∉ locs h' r' → h2 !! l = h' !! l) → reads h2 r v) ∧
    (∀ h2, (∀ l, l ∉ dom h → h2 !! l = h' !! l) → reads h2 r' v).
Proof. apply copies_independent. exact (copy_copies (C := C) (T := Ref (ClientConfig Ref LE)) (V := option (ClientConfig option LEv))). Qed.

(** The same for the sync manager. *)
Theorem SyncConfig_DeepCopy_independent (h : heap C) (r : Ref (SyncConfig Ref LE)) (v : option (SyncConfig option LEv)) :
  reads h r v →
  ∃ r' h', SyncConfig_DeepCopy copy r h = (Ret r', h') ∧
    h ⊆ h' ∧ reads h' r' v ∧ locs h' r' ## dom h ∧ unshared h' r' ∧
    (∀ h2, (∀ l, l ∉ locs h' r' → h2 !! l = h' !! l) → reads h2 r v) ∧
    (∀ h2, (∀ l, l ∉ dom h → h2 !! l = h' !! l) → reads h2 r' v).
Proof. apply copies_independent. exact (copy_copies (C := C) (T := Ref (SyncConfig Ref LE)) (V := option (SyncConfig option LEv))). Qed.
End laws.
