(* ===== verification/HashClone.v ===== *)
(** The clone that hashCluster edits: pkg/client/controllers/cluster_controller.go
    over memory.

    [hashCluster] removes annotations from a deep copy of its argument in
    place.  ClusterController models the clone as a new value; here it is a
    reference into memory, and the two are shown to agree: the clone reads as
    that value, and the object the caller holds is not touched. *)
From stdpp Require Import base gmap strings list option numbers.
From S2P Require Import Prelude Registry ClusterController GoMem DeepCopyV1.

(** ** From trees to the values of the other files, where nil is not kept *)

Definition tier_value (t : Tier option) : Registry.Tier :=
  Registry.mkTier (tier_Name t) (InstanceType t) (ContainerRuntime t) (MinCapacity t) (MaxCapacity t)
    (default ∅ (Labels t)) (default [] (Taints t)) (EnableKataSupport t) (default ∅ (KernelParameters t)).
Definition network_value (n : VirtualNetwork option) : Registry.VirtualNetwork :=
  Registry.mkVNet (vnet_ID n) (default [] (vnet_Cidrs n)).
Definition peer_value (p : PeerVirtualNetwork option) : Registry.PeerVirtualNetwork :=
  Registry.mkPeer (peer_ID p) (default [] (peer_Cidrs p)) (OwnerID p).
Definition team_value (t : AllowedOnboardingTeam option) : Registry.AllowedOnboardingTeam :=
  Registry.mkTeam (team_Name t) (default [] (GitTeams t)) (default [] (LdapGroups t)).
Definition extra_value (e : Extra option) : Registry.Extra :=
  Registry.mkExtra (DomainName e) (default ∅ (LbEndpoints e)) (default ∅ <$> default [] (LoggingEndpoints e))
    (default [] <$> default ∅ (EcrIamArns e)) (EgressPorts e) (default ∅ <$> default [] (NFSInfo e))
    (ExtendedRegion e) (OidcIssuer e) (NamespaceProfileInfraType e).
Definition capacity_value (c : Capacity) : Registry.Capacity :=
  Registry.mkCapacity (cap_LastUpdated c) (ClusterCapacity c) (ClusterProvisioning c) (MaxBQUPerRequest c)
    (ClusterMaxBQU c) (ClusterCurrentBQU c).
Definition item_value (i : ServiceMetadataItem option) : gmap string (gmap string string) :=
  (default ∅ : option (gmap string string) → _) <$> (default ∅ i : gmap string (option (gmap string string))).
Definition services_value (m : ServiceMetadata option) : gomap (gmap string (gmap string string)) :=
  match m with Some m => Some (item_value <$> m) | None => None end.
Definition spec_value (s : ClusterSpec option) : Registry.ClusterSpec :=
  Registry.mkSpec (Name s) (ShortName s)
    (Registry.mkAPIServer (Endpoint (spec_APIServer s)) (CertificateAuthorityData (spec_APIServer s)))
    (Region s) (CloudType s) (CloudProviderRegion s) (Environment s) (BusinessUnit s)
    (ChargebackBusinessUnit s) (ChargedBack s) (ManagingOrg s) (default [] (Offering s)) (AccountID s)
    (tier_value <$> default [] (Tiers s)) (network_value <$> default [] (VirtualNetworks s)) (RegisteredAt s)
    (Status s) (Phase s) (MaintenanceGroup s) (ArgoInstance s) (Type_ s) (extra_value (spec_Extra s))
    (team_value <$> default [] (AllowedOnboardingTeams s)) (default [] (Capabilities s))
    (peer_value <$> default [] (PeerVirtualNetworks s)) (LastUpdated s) (Tags s)
    (capacity_value (spec_Capacity s))
    (services_value (spec_ServiceMetadata s))
    ((λ z, Registry.mkAZ (az_Name z) (az_ID z)) <$> default [] (AvailabilityZones s)).

(** ** The metadata of Kubernetes

    Its accessors, in memory, and the value it stands for.  The setters assign
    one field; the annotations are one map, which an object that shares
    nothing reaches through that field only. *)
Class MetaOps `{T : MetaTypes} (OMv : Type) := {
  GetAnnotations : OM → Ref (gmap string string);
  SetAnnotations : Ref (gmap string string) → OM → OM;
  SetResourceVersion : string → OM → OM;
  SetManagedFields_nil : OM → OM;
  meta_value : OMv → Registry.ObjectMeta }.

Class MetaOpsLaws `{T : MetaTypes} (OMv : Type) `{!MetaOps OMv} `{!Memory (cell T) OM OMv} := {
  get_annotations (h : heap (cell T)) (o : OM) (v : OMv) : reads h o v →
    reads h (GetAnnotations o) (Registry.Annotations (meta_value v) : option (gmap string string)) ∧ locs h (GetAnnotations o) ⊆ locs h o;
  set_get_annotations o : SetAnnotations (GetAnnotations o) o = o;
  write_annotations (h : heap (cell T)) (o : OM) (v : OMv) l m : reads h o v → unshared h o → GetAnnotations o = At l →
    ∃ v', reads (<[l := inj m]> h) o v' ∧ unshared (<[l := inj m]> h) o ∧
      locs (<[l := inj m]> h) o = locs h o ∧
      meta_value v' = Registry.set_Annotations (Some m) (meta_value v);
  set_version (h : heap (cell T)) (o : OM) (v : OMv) s : reads h o v →
    ∃ v', reads h (SetResourceVersion s o) v' ∧ locs h (SetResourceVersion s o) ⊆ locs h o ∧
      meta_value v' = mkObjectMeta (meta_Name (meta_value v)) (Namespace (meta_value v))
        (Annotations (meta_value v)) s (ManagedFields (meta_value v));
  clear_fields (h : heap (cell T)) (o : OM) (v : OMv) : reads h o v →
    ∃ v', reads h (SetManagedFields_nil o) v' ∧ locs h (SetManagedFields_nil o) ⊆ locs h o ∧
      meta_value v' = mkObjectMeta (meta_Name (meta_value v)) (Namespace (meta_value v))
        (Annotations (meta_value v)) (ResourceVersion (meta_value v)) [] }.

Definition cluster_value `{T : MetaTypes} {OMv} `{!MetaOps OMv} (c : Cluster option OMv) : Registry.Cluster :=
  Registry.mkCluster (Registry.mkTypeMeta (Kind (cluster_TypeMeta c)) (APIVersion (cluster_TypeMeta c)))
    (meta_value (cluster_ObjectMeta c)) (spec_value (Spec c)).

Section clone.
Context `{T : MetaTypes} {RO : RangeOrder} {OMv : Type} `{!MetaOps OMv}.
Abbreviation C := (cell T).
Context `{!Memory C OM OMv} `{!MemoryLaws C OM OMv} `{!Copyable C OM OMv}.

(** [delete(m, key)]: nothing on a nil map. *)
Definition map_delete (m : Ref (gmap string string)) (key : string) : M (heap C) () :=
  match m with
  | Nil => mret ()
  | At _ => x ← load m; store m (delete key x)
  end.
Definition update_meta (f : OM → OM) (c : Ref (Cluster Ref OM)) : M (heap C) () :=
  x ← load c;
  store c (mkCluster (cluster_TypeMeta x) (f (cluster_ObjectMeta x)) (Spec x) (cluster_Status x)).

(** What hashCluster does to the clone. *)
Definition edit_clone (clone : Ref (Cluster Ref OM)) : M (heap C) () :=
  x ← load clone;
  let annotations := GetAnnotations (cluster_ObjectMeta x) in
  map_delete annotations ClusterReconciler.HashAnnotation;;
  map_delete annotations ClusterReconciler.SkipCacheInvalidationAnnotation;;
  update_meta (SetAnnotations annotations) clone;;
  update_meta (SetResourceVersion "") clone;;
  update_meta SetManagedFields_nil clone.

(** hashCluster up to the marshalling of the clone. *)
Definition hash_clone (instance : Ref (Cluster Ref OM)) : M (heap C) (Ref (Cluster Ref OM)) :=
  o ← Cluster_DeepCopyObject copy instance;
  clone ← match o with
          | None => panic "interface conversion: interface is nil, not *v1.Cluster"
          | Some l => mret (At l : Ref (Cluster Ref OM))
          end;
  edit_clone clone;;
  mret clone.

Context `{!MetaOpsLaws OMv}.

(** Reading through a pointer to a cluster, field by field. *)
Lemma reads_cluster (h : heap C) l (v : Cluster option OMv) :
  reads h (At l : Ref (Cluster Ref OM)) (Some v) ↔
  ∃ x, h !! l = Some (CCluster x) ∧ cluster_TypeMeta x = cluster_TypeMeta v ∧
    reads h (cluster_ObjectMeta x) (cluster_ObjectMeta v) ∧ reads h (Spec x) (Spec v).
Proof.
  cbn. split.
  - destruct (h !! l) as [[]|] eqn:E; cbn; try done. intros (Hv & Ho & Hs). pose proof (f_equal (λ p, match p with val q => q.1 end) Hv) as Ht.
    eexists. exact (conj eq_refl (conj Ht (conj Ho Hs))).
  - intros (x & -> & Ht & Ho & Hs). cbn. refine (conj _ (conj Ho Hs)).
    destruct x as [? ? ? []], v as [? ? ? []]. cbn in *. by subst.
Qed.

(** Removing a key in place, through the annotations of an object that shares
    nothing. *)
Lemma map_delete_run (h : heap C) (o : OM) (v : OMv) key : reads h o v → unshared h o →
  ∃ h' v', map_delete (GetAnnotations o) key h = (Ret (), h') ∧
    reads h' o v' ∧ unshared h' o ∧ locs h' o = locs h o ∧
    meta_value v' = Registry.set_Annotations (delete key <$> Registry.Annotations (meta_value v)) (meta_value v) ∧
    (∀ l, l ∉ locs h o → h' !! l = h !! l).
Proof.
  intros Hr Hu. destruct (get_annotations h o v Hr) as [Ha Hl].
  destruct (GetAnnotations o) as [|l] eqn:Eo.
  - destruct (Registry.Annotations (meta_value v)) as [a|] eqn:Ea; [done|].
    exists h, v. split_and!; try done. cbn. rewrite <- Ea. by destruct (meta_value v).
  - apply reads_at in Ha as (m & a & -> & Em & Ha).
    assert (m = a) as ->.
    { apply map_eq. intros k. specialize (Ha k). inversion Ha; congruence. }
    destruct (write_annotations h o v l (delete key a) Hr Hu Eo) as (v' & Hr' & Hu' & Hl' & Hv').
    exists (<[l := inj (delete key a)]> h), v'. split_and!; try done.
    + unfold map_delete. rewrite (bind_run _ _ h a h); [done|]. unfold load. by rewrite Em.
    + intros l' Hn. apply lookup_insert_ne. intros <-. apply Hn, Hl. cbn. set_solver.
Qed.

Lemma update_meta_run (h : heap C) l x f : h !! l = Some (CCluster x) →
  update_meta f (At l) h = (Ret (), <[l := CCluster (mkCluster (cluster_TypeMeta x) (f (cluster_ObjectMeta x)) (Spec x) (cluster_Status x))]> h).
Proof. intros E. unfold update_meta. rewrite (bind_run _ _ h x h); [done|]. cbn. by rewrite E. Qed.

(** Three assignments to the metadata of one object are one. *)
Lemma update_meta_thrice (h : heap C) l x f g k : h !! l = Some (CCluster x) →
  (update_meta f (At l);; update_meta g (At l);; update_meta k (At l)) h =
  (Ret (), <[l := CCluster (mkCluster (cluster_TypeMeta x) (k (g (f (cluster_ObjectMeta x)))) (Spec x) (cluster_Status x))]> h).
Proof.
  intros E. rewrite (bind_run _ _ _ _ _ (update_meta_run h l x f E)).
  erewrite bind_run; [|apply update_meta_run, lookup_insert_eq].
  erewrite update_meta_run by apply lookup_insert_eq. cbn. by rewrite !insert_insert_eq.
Qed.
Lemma edit_clone_run (h : heap C) l (v : Cluster option OMv) :
  reads h (At l : Ref (Cluster Ref OM)) (Some v) → unshared h (At l : Ref (Cluster Ref OM)) →
  ∃ h' w, edit_clone (At l) h = (Ret (), h') ∧ reads h' (At l : Ref (Cluster Ref OM)) (Some w) ∧
    cluster_value w = ClusterReconciler.clone_without_bookkeeping (cluster_value v) ∧
    (∀ l', l' ∉ locs h (At l : Ref (Cluster Ref OM)) → h' !! l' = h !! l').
Proof.
  intros (x & El & Et & Ho & Hs)%reads_cluster Hu.
  assert (unshared h (cluster_ObjectMeta x) ∧ locs h (cluster_ObjectMeta x) ## locs h (Spec x) ∧
    (l ∉ locs h (cluster_ObjectMeta x)) ∧ (l ∉ locs h (Spec x)) ∧
    locs h (At l : Ref (Cluster Ref OM)) = {[l]} ∪ (locs h (cluster_ObjectMeta x) ∪ locs h (Spec x)))
    as (Huo & Hdis & Hlo & Hls & Eloc).
  { destruct (locs_at (T := Cluster Ref OM) (V := Cluster option OMv) h l x) as [-> Hux]; [by rewrite El|].
    destruct (Hux Hu) as [(_ & (Huo & _ & Hdis) & _) Hl].
    change (locs h x) with (∅ ∪ (locs h (cluster_ObjectMeta x) ∪ locs h (Spec x)) : gset loc) in *.
    rewrite (left_id_L ∅ (∪)) in *. apply not_elem_of_union in Hl as [??]. done. }
  destruct (map_delete_run h _ _ ClusterReconciler.HashAnnotation Ho Huo) as (h1 & v1 & E1 & Hr1 & Hu1 & Hl1 & Hv1 & Hf1).
  destruct (map_delete_run h1 _ _ ClusterReconciler.SkipCacheInvalidationAnnotation Hr1 Hu1) as (h2 & v2 & E2 & Hr2 & Hu2 & Hl2 & Hv2 & Hf2).
  rewrite Hl1 in Hf2.
  assert (∀ l', l' ∉ locs h (cluster_ObjectMeta x) → h2 !! l' = h !! l') as Hf by (intros l' ?; by rewrite Hf2, Hf1).
  assert (h2 !! l = Some (CCluster x)) as El2 by (by rewrite Hf).
  destruct (reads_frame h h2 (Spec x) (Spec v) Hs) as (Hs2 & Els2 & _); [intros l' Hl'; apply Hf; set_solver + Hl' Hdis|].
  destruct (set_version h2 _ v2 "" Hr2) as (v3 & Hr3 & Hl3 & Hv3).
  destruct (clear_fields h2 _ v3 Hr3) as (v4 & Hr4 & Hl4 & Hv4).
  set (o4 := SetManagedFields_nil (SetResourceVersion "" (cluster_ObjectMeta x))) in *.
  set (x4 := mkCluster (cluster_TypeMeta x) o4 (Spec x) (cluster_Status x)).
  assert (∀ l', l' ≠ l → <[l := CCluster x4]> h2 !! l' = h2 !! l') as Hins by (intros; by apply lookup_insert_ne).
  exists (<[l := CCluster x4]> h2), (mkCluster (cluster_TypeMeta v) v4 (Spec v) mkClusterStatus). split_and!.
  - unfold edit_clone. rewrite (bind_run _ _ h x h) by (cbn; by rewrite El).
    rewrite (bind_run _ _ _ _ _ E1), (bind_run _ _ _ _ _ E2).
    rewrite (update_meta_thrice _ _ _ _ _ _ El2). by rewrite set_get_annotations.
  - apply reads_cluster. exists x4. rewrite lookup_insert_eq. split; [done|]. split; [done|]. split.
    + apply (reads_frame h2); [done|]. intros l' Hl'. apply Hins. set_solver + Hl' Hl4 Hl3 Hl2 Hl1 Hlo.
    + apply (reads_frame h2); [done|]. intros l' Hl'. apply Hins. change (l' ∈ locs h2 (Spec x)) in Hl'. rewrite Els2 in Hl'. set_solver + Hl' Hls.
  - unfold cluster_value, ClusterReconciler.clone_without_bookkeeping. cbn. rewrite Hv4, Hv3, Hv2, Hv1. done.
  - intros l' Hl'. rewrite Eloc in Hl'. rewrite Hins by set_solver + Hl'. apply Hf. set_solver + Hl'.
Qed.

(** C19: Hashing a Cluster does not touch it: the clone whose annotations, resource
    version and managed fields are removed in place is the value the hash is
    specified over, and every object the memory held, the hashed one with its
    annotations included, reads as before. *)
Theorem hash_clone_private (h : heap C) l (v : Cluster option OMv) :
  reads h (At l : Ref (Cluster Ref OM)) (Some v) →
  ∃ r' h' w, hash_clone (At l) h = (Ret r', h') ∧ h ⊆ h' ∧
    reads h' (At l : Ref (Cluster Ref OM)) (Some v) ∧ reads h' r' (Some w) ∧
    cluster_value w = ClusterReconciler.clone_without_bookkeeping (cluster_value v).
Proof.
  intros H. destruct (Cluster_DeepCopy_copies _ _ _ H) as (r' & h1 & E & Hh & Hr & Hl & Hu).
  destruct r' as [|l']; [done|].
  destruct (edit_clone_run h1 l' v Hr Hu) as (h2 & w & E2 & Hr2 & Hw & Hf).
  assert (h ⊆ h2) as Hh2.
  { apply map_subseteq_spec. intros k c Hk. rewrite Hf.
    - by eapply lookup_weaken.
    - apply elem_of_dom_2 in Hk. set_solver + Hk Hl. }
  exists (At l'), h2, w. unfold hash_clone, Cluster_DeepCopyObject.
  rewrite bind_assoc, (bind_run _ _ _ _ _ E), !bind_ret_l. cbn [as_object].
  rewrite bind_ret_l, (bind_run _ _ _ _ _ E2).
  split; [done|]. split; [done|]. split; [|done].
  by apply (reads_grows h h2).
Qed.
End clone.

(** ** The contract of the metadata holds of a concrete one *)
Module Example.
Import DeepCopyV1.Example.

#[global] Instance ops : MetaOps (T := types) OMv := {|
  GetAnnotations o := o.2.1;
  SetAnnotations a o := (o.1, (a, o.2.2));
  SetResourceVersion s o := let 'val (n, ns, _) := o.1 in (val (n, ns, s), o.2);
  SetManagedFields_nil o := (o.1, (o.2.1, Nil));
  meta_value v := let 'val (n, ns, rv) := v.1 in mkObjectMeta n ns v.2.1 rv (default [] v.2.2) |}.

#[global] Instance ops_laws : MetaOpsLaws (T := types) OMv.
Proof.
  split.
  - intros h [[[[n ns] rv]] [a mf]] [[[[n' ns'] rv']] [a' mf']] (E & Ha & Hm). split; [exact Ha|].
    change (locs h a ⊆ ∅ ∪ (locs h a ∪ locs h mf)). set_solver +.
  - by intros [? [? ?]].
  - intros h [[[[n ns] rv]] [a mf]] [[[[n' ns'] rv']] [a' mf']] l m (E & Ha & Hm) (_ & (Hua & Hum & Hd) & _) [= ->].
    change (reads h (At l : Ref (gmap string string)) a') in Ha. apply reads_at in Ha as (m0 & w & -> & Em & _).
    destruct (reads_frame h (<[l := inj m]> h) mf mf' Hm) as (Hm' & El & Hum').
    { intros l' Hl'. apply lookup_insert_ne. intros <-. apply (Hd l); [|done]. cbn. set_solver +. }
    assert (locs (<[l := inj m]> h) (At l : Ref (gmap string string)) = {[l]}) as Ela.
    { destruct (locs_at (T := gmap string string) (V := gmap string string) (<[l := inj m]> h) l m) as [-> _].
      - by rewrite lookup_insert_eq.
      - destruct (map_prim_locs (<[l := inj m]> h) m) as [-> _]. set_solver +. }
    assert (locs h (At l : Ref (gmap string string)) = {[l]}) as Ela0.
    { destruct (locs_at (T := gmap string string) (V := gmap string string) h l m0 Em) as [-> _].
      destruct (map_prim_locs h m0) as [-> _]. set_solver +. }
    exists (val (n', ns', rv'), (Some m, mf')). split; [|split; [|split]].
    + split; [exact E|]. split; [|exact Hm']. cbn. rewrite lookup_insert_eq. cbn.
      intros k. destruct (m !! k); by constructor.
    + split; [done|]. split; [|apply disjoint_empty_l]. split; [|split].
      * destruct (map_prim_locs (<[l := inj m]> h) m) as [Em' Hum0].
        apply (unshared_at _ l m); [by rewrite lookup_insert_eq|done|]. rewrite Em'. set_solver +.
      * auto.
      * change (locs h (At l : Ref (gmap string string)) ## locs h mf) in Hd. rewrite Ela0 in Hd.
        cbn [fst snd]. rewrite Ela, El. exact Hd.
    + change (∅ ∪ (locs (<[l := inj m]> h) (At l : Ref (gmap string string)) ∪ locs (<[l := inj m]> h) mf) =
        ∅ ∪ (locs h (At l : Ref (gmap string string)) ∪ locs h mf)). by rewrite Ela, El, Ela0.
    + done.
  - intros h [[[[n ns] rv]] [a mf]] [[[[n' ns'] rv']] [a' mf']] s (E & Ha & Hm). injection E as -> -> ->.
    exists (val (n', ns', s), (a', mf')). split; [done|]. split; done.
  - intros h [[[[n ns] rv]] [a mf]] [[[[n' ns'] rv']] [a' mf']] (E & Ha & Hm).
    exists (val (n', ns', rv'), (a', None)). split; [done|]. split; [|done].
    change (∅ ∪ (locs h a ∪ ∅) ⊆ ∅ ∪ (locs h a ∪ locs h mf)). set_solver +.
Qed.
End Example.

Lemma hash_clone_private_witness :
  ∃ r' h' w, hash_clone (T := DeepCopyV1.Example.types) (At 2%positive) DeepCopyV1.Example.h0 = (Ret r', h') ∧
    reads h' (At 2%positive : Ref (Cluster Ref OM)) (Some DeepCopyV1.Example.v0) ∧ reads h' r' (Some w) ∧
    cluster_value w = ClusterReconciler.clone_without_bookkeeping (cluster_value DeepCopyV1.Example.v0).
Proof.
  destruct (hash_clone_private DeepCopyV1.Example.h0 2%positive DeepCopyV1.Example.v0)
    as (r' & h' & w & E & _ & Hi & Hr & Hw); [apply DeepCopyV1.Example.reads_h0|].
  exists r', h', w. split; [exact E|]. split; [exact Hi|]. split; [exact Hr|exact Hw].
Defined.
