(* ===== verification/SyncRace.v ===== *)
(** Concurrent reconciliations: pkg/sync/manager/controller.go with the shared
    buffer of pkg/sync/parser/parser.go.

    SetupWithManager asks for ten reconciliations at a time, and the controller
    has one parser with one buffer, which no lock guards.  A reconciliation is
    here a worker that touches the buffer in steps: it sets it, merges the data
    of each watched resource into it, and encodes it.  A pool of workers takes
    these steps in any order. *)
From stdpp Require Import base gmap strings list option numbers relations.
From S2P Require Import Prelude GoStrings Registry MemDynamo Sqs SyncParser SyncController SyncThms SyncWitness.

Section race.
Context `{SyncEnv W} `{SQSService W}.
Context (handlers : GroupVersionKind → option (list Obj → res ClusterSpec)).
Context (merge : ClusterSpec → ClusterSpec → ClusterSpec * error).
Context (queue : Config).
Implicit Types (s : SState W) (i j : ClusterSync).

(** Where a reconciliation of an object stands. *)
Inductive worker :=
  | Fetched i
  | Returned i
  | Parsing i (rs : list WatchedResource) (errList : list string)
  | Failed i (err : string)
  | Collected i (syncedData : string) (err : error).

(** The next step on the buffer, while there is one. *)
Definition next_step (k : worker) : option (M (SState W) worker) :=
  match k with
  | Fetched i => Some (
      if cs_Deleted i then mret (Returned i)
      else
        let '(initialData, err) := getInitialData i in
        _ ← SetBuffer initialData;
        mret (Parsing i (WatchedResources (cs_Spec i)) (match err with Some e => [e] | None => [] end)))
  | Parsing i (r :: rs) errList => Some (
      err ← Parse_resource handlers merge r;
      mret (Parsing i rs (match err with Some e => errList ++ [e] | None => errList end)))
  | Parsing i [] (e :: _) => Some (mret (Failed i e))
  | Parsing i [] [] => Some ('(syncedData, err) ← Diff; mret (Collected i syncedData err))
  | Returned _ | Failed _ _ | Collected _ _ _ => None
  end.

(** What remains of Reconcile once a worker is done with the buffer. *)
Definition finish (name : string) (k : worker) : M (SState W) (Result * error) :=
  match k with
  | Failed i e =>
     now ← in_world Now;
     let st := cs_Status i in
     let instance := set_Status (mkSyncStatus (Some now) (Some SyncStatusFail) (Some e)
       (SyncedData st) (SyncedDataHash st)) i in
     _ ← in_world (Metric "error" name);
     err ← updateStatus instance;
     match err with
     | Some e => requeueAfter name (10 * Second) (errorf e)
     | None => noRequeue
     end
  | Collected i syncedData (Some _) => _ ← in_world (Metric "error" name); noRequeue
  | Collected i syncedData None =>
     let st := cs_Status i in
     let instance := set_Status (mkSyncStatus (LastSyncTime st) (Some SyncStatusSuccess) None
       (Some syncedData) (SyncedDataHash st)) i in
     if shouldEnqueueData instance
     then
       now ← in_world Now;
       let instance := set_Status (mkSyncStatus (Some now) (Some SyncStatusSuccess) None
         (Some syncedData) (Some (hash syncedData))) instance in
       err ← enqueueData queue instance;
       match err with
       | Some _ =>
          _ ← in_world (Metric "error" name);
          err ← updateStatus instance;
          match err with
          | Some e => requeueAfter name (10 * Second) (errorf e)
          | None => noRequeue
          end
       | None =>
          err ← updateStatus instance;
          match err with
          | Some e => _ ← in_world (Metric "error" name); requeueAfter name (10 * Second) (errorf e)
          | None => noRequeue
          end
       end
     else noRequeue
  | _ => noRequeue
  end.

(** A pool of workers on one state: any of them takes its next step. *)
Inductive pool_step : list worker * SState W → list worker * SState W → Prop :=
  | worker_steps ks n k m k' s s' :
      ks !! n = Some k → next_step k = Some m → m s = (Ret k', s') →
      pool_step (ks, s) (<[n := k']> ks, s').

(** ** One worker alone *)

Lemma alone_parses i rs errs s errs' s' (ks : list worker) n :
  ks !! n = Some (Parsing i rs errs) →
  parse_all handlers merge rs errs s = (Ret errs', s') →
  rtc pool_step (ks, s) (<[n := Parsing i [] errs']> ks, s').
Proof.
  revert errs s ks. induction rs as [|r rs IH]; intros errs s ks Hn Hp; cbn [parse_all] in Hp.
  - cbn in Hp. injection Hp as <- <-. by rewrite list_insert_id.
  - apply bind_Ret_inv in Hp as (err & s1 & Hr & Hp).
    eapply rtc_l; [eapply (worker_steps ks n _ _ _ s s1 Hn); [reflexivity|]|].
    { by rewrite (bind_run _ _ _ _ _ Hr). }
    apply lookup_lt_Some in Hn as Hlt.
    specialize (IH _ s1 (<[n := Parsing i rs (match err with Some e => errs ++ [e] | None => errs end)]> ks)
      (list_lookup_insert_eq _ _ _ Hlt) Hp).
    by rewrite list_insert_insert_eq in IH.
Qed.

(** A worker alone collects what the sequential Reconcile does. *)
Lemma alone_collects i s data s' ks n :
  ks !! n = Some (Fetched i) → cs_Deleted i = false → collects handlers merge i s data s' →
  rtc pool_step (ks, s) (<[n := Collected i data None]> ks, s').
Proof.
  intros Hn Hdel (init & s1 & Hy & Hp & Hd). apply lookup_lt_Some in Hn as Hlt.
  eapply rtc_l; [eapply (worker_steps ks n); [done|reflexivity|]|].
  { cbn. rewrite Hdel, Hy. reflexivity. }
  etrans.
  { eapply (alone_parses i); [by apply list_lookup_insert_eq|exact Hp]. }
  rewrite list_insert_insert_eq.
  eapply rtc_l; [eapply (worker_steps _ n); [by apply list_lookup_insert_eq|reflexivity|]|].
  { by rewrite (bind_run _ _ _ _ _ Hd). }
  by rewrite list_insert_insert_eq.
Qed.

(** The steps of a worker are those of Reconcile: when nobody else touches the
    buffer, running them to the end and then finishing is the reconciliation
    of the object. *)
Theorem alone_is_Reconcile name i s data s' :
  cs_Deleted i = false → collects handlers merge i s data s' →
  rtc pool_step ([Fetched i], s) ([Collected i data None], s') ∧
  Reconcile_instance handlers merge queue name i s = finish name (Collected i data None) s'.
Proof.
  intros Hdel Hc. split; [by apply (alone_collects i s data s' [Fetched i] 0)|].
  destruct Hc as (init & s1 & Hy & Hp & Hd). unfold Reconcile_instance. rewrite Hdel, Hy.
  rewrite (bind_run (SetBuffer init) _ s tt (mkSState (sworld s) init) eq_refl).
  rewrite (bind_run _ _ _ _ _ Hp), (bind_run _ _ _ _ _ Hd). reflexivity.
Qed.

(** An object that is being deleted leaves the buffer as it is. *)
Lemma deleted_returns name i s :
  cs_Deleted i = true →
  rtc pool_step ([Fetched i], s) ([Returned i], s) ∧
  Reconcile_instance handlers merge queue name i s = finish name (Returned i) s.
Proof.
  intros Hdel. split; [|by unfold Reconcile_instance; rewrite Hdel].
  apply rtc_once, (worker_steps [Fetched i] 0 (Fetched i) _ (Returned i) _ _ eq_refl eq_refl). by rewrite Hdel.
Qed.

(** ** What is sent *)

(** The messages in the queue: a batch that SQS takes whole adds its entries. *)
Context (sent : W → list SendMessageBatchRequestEntry).
Context (keeps_Update : ∀ i, keeps sent (k8s_UpdateStatus i)).
Context (keeps_UUID : keeps sent NewUUID) (keeps_Now : keeps sent Now) (keeps_Metric : ∀ k n, keeps sent (Metric k n)).
Context (takes : ∀ url es w ok w',
  svc_SendMessageBatch url es w = (Ret (mkBatchResult [] ok, None), w') → sent w' = es ++ sent w).

(** From [s], the clock, the ids and SQS answer a reconciliation that sends [data]
    with the message [e]. *)
Definition sends_as (data : string) s (e : SendMessageBatchRequestEntry) : Prop :=
  ∃ now id body w1 w2 ok w3,
    Now (sworld s) = (Ret now, w1) ∧ json_String data = (body, None) ∧ NewUUID w1 = (Ret (inl id), w2) ∧
    e = sync_entry id body ∧ svc queue = true ∧ svc_SendMessageBatch (QueueURL queue) [e] w2 = (Ret (mkBatchResult [] ok, None), w3).

(** The rest of a reconciliation after the message is sent leaves the queue. *)
Lemma after_send {A} (m : M W A) (k : A → M (SState W) (Result * error)) s :
  keeps sent m → (∀ a s1, sent (sworld (k a s1).2) = sent (sworld s1)) →
  sent (sworld ((in_world m ≫= k) s).2) = sent (sworld s).
Proof. intros Hm Hk. exact (quiet_bind sent _ _ (quiet_world sent _ Hm) Hk s). Qed.

(** A worker that has collected data which the object does not record as sent
    sends it. *)
Lemma finish_sends name i data s e :
  SyncedDataHash (cs_Status i) ≠ Some (hash data) → sends_as data s e →
  sent (sworld (finish name (Collected i data None) s).2) = e :: sent (sworld s).
Proof.
  intros Hh (now & id & body & w1 & w2 & ok & w3 & Hnow & Hj & Hid & -> & Hsvc & Hsend). cbn [finish].
  set (j := set_Status _ i).
  assert (shouldEnqueueData j = true) as ->.
  { unfold shouldEnqueueData, hasDifferentHash. cbn. destruct (SyncedDataHash (cs_Status i)) as [h|]; [|done].
    rewrite (bool_decide_eq_true_2 (h ≠ hash data)) by congruence. done. }
  rewrite (bind_run _ _ _ _ _ (in_world_run _ _ _ _ Hnow)). cbv zeta. set (i' := set_Status _ j).
  assert (∃ o s4, enqueueData queue i' (mkSState w1 (buffer s)) = (o, s4) ∧ sent (sworld s4) = sent w3) as (o & s4 & He & Hs4).
  { unfold enqueueData. change (SyncedData (cs_Status i')) with (Some data). cbv iota. rewrite Hj.
    rewrite (bind_run _ _ _ _ _ (in_world_run _ (mkSState w1 (buffer s)) _ _ Hid)).
    assert (Enqueue queue [sync_entry id body] w2 = (Ret None, w3)) as HE
      by (unfold Enqueue; rewrite Hsvc; cbn [negb]; by rewrite (bind_run _ _ _ _ _ Hsend)).
    rewrite (bind_run _ _ _ _ _ (in_world_run _ (mkSState w2 (buffer s)) _ _ HE)).
    eexists _, _. split; [apply surjective_pairing|]. apply (quiet_bind sent); [by apply quiet_world|intros []].
    apply quiet_bind; [by apply quiet_world|done]. }
  rewrite bind_state, He.
  assert (sent (sworld s4) = sync_entry id body :: sent (sworld s)) as <-.
  { rewrite Hs4, (takes _ _ _ _ _ Hsend). cbn [app]. f_equal.
    specialize (keeps_UUID w1). rewrite Hid in keeps_UUID. specialize (keeps_Now (sworld s)). rewrite Hnow in keeps_Now. cbn in *. congruence. }
  assert (quiet sent (updateStatus i')) as Hu by (apply quiet_world, keeps_Update).
  assert (∀ t err, quiet sent (requeueAfter name t err)) as Hr by (intros; apply quiet_requeueAfter; done).
  destruct o as [[err|]|p|]; [| |done..].
  - apply after_send; [done|intros _ s5]. apply (quiet_bind sent); [done|]. intros [?|]; [apply Hr|done].
  - apply (quiet_bind sent); [done|]. intros [?|]; [apply quiet_bind; [by apply quiet_world|intros _; apply Hr]|done].
Qed.

(** ** Two workers *)

(** C13: Two reconciliations mix.  For any object whose initial data and resources
    parse, and any other object with initial data that is reconciled at the same
    time, neither of which is being deleted, there is an order of their steps in
    which the first collects the initial data of the second, and nothing of its own,
    as the data of its cluster; unless the object records that this data was sent
    before, its reconciliation then sends it as the first object's when the clock,
    the generator of ids and SQS do their part. *)
Theorem concurrent_reconciles_mix i j s s1 init_i init_j data s2 :
  cs_Deleted i = false → cs_Deleted j = false →
  getInitialData i = (init_i, None) →
  parse_all handlers merge (WatchedResources (cs_Spec i)) [] (mkSState (sworld s) init_i) = (Ret [], s1) →
  getInitialData j = (init_j, None) →
  Diff (mkSState (sworld s1) init_j) = (Ret (data, None), s2) →
  rtc pool_step ([Fetched i; Fetched j], s)
    ([Collected i data None; Parsing j (WatchedResources (cs_Spec j)) []], s2) ∧
  (∀ name e, SyncedDataHash (cs_Status i) ≠ Some (hash data) → sends_as data s2 e →
     sent (sworld (finish name (Collected i data None) s2).2) = e :: sent (sworld s2)).
Proof.
  intros Hi Hj Hyi Hp Hyj Hd. split; [|intros name e; apply finish_sends].
  eapply rtc_l; [eapply (worker_steps _ 0); [done|reflexivity|]|].
  { cbn. rewrite Hi, Hyi. reflexivity. }
  etrans; [eapply (alone_parses i _ _ _ _ _ _ 0); [reflexivity|exact Hp]|].
  eapply rtc_l; [eapply (worker_steps _ 1); [done|reflexivity|]|].
  { cbn. rewrite Hj, Hyj. reflexivity. }
  cbn [list_insert insert].
  apply rtc_once, (worker_steps [Parsing i [] []; Parsing j (WatchedResources (cs_Spec j)) []] 0 (Parsing i [] [])
    _ (Collected i data None) _ _ eq_refl eq_refl).
  by rewrite (bind_run _ _ _ _ _ Hd).
Qed.
End race.

(** ** Two clusters of one region each *)

Definition in_region (name region : string) : ClusterSync :=
  mkSync name "ns" false (mkSyncSpec [] region) (mkSyncStatus None None None None None).
Definition quiet_world : SState SyncWorld := mkSState (mkSyncWorld [] false false) zeroSpec.

Lemma alone_is_Reconcile_witness :
  rtc (pool_step no_handlers last_wins) ([Fetched (in_region "c1" "va6")], quiet_world)
    ([Collected (in_region "c1" "va6") "va6" None], mkSState (sworld quiet_world) (set_Region "va6" zeroSpec)) ∧
  Reconcile_instance no_handlers last_wins two_handlers "c1" (in_region "c1" "va6") quiet_world =
    finish two_handlers "c1" (Collected (in_region "c1" "va6") "va6" None)
      (mkSState (sworld quiet_world) (set_Region "va6" zeroSpec)).
Proof.
  apply (alone_is_Reconcile no_handlers last_wins two_handlers "c1" (in_region "c1" "va6")); [reflexivity|].
  eexists _, _. split; [reflexivity|]. split; reflexivity.
Defined.

(** The message that is sent for c1 holds the region of c2. *)
Lemma concurrent_reconciles_mix_witness :
  ∃ s, rtc (pool_step no_handlers last_wins) ([Fetched (in_region "c1" "va6"); Fetched (in_region "c2" "or2")], quiet_world)
    ([Collected (in_region "c1" "va6") "or2" None; Parsing (in_region "c2" "or2") [] []], s) ∧
  y_sent (sworld (finish two_handlers "c1" (Collected (in_region "c1" "va6") "or2" None) s).2) =
    [sync_entry "uuid" "or2"].
Proof.
  exists (mkSState (sworld quiet_world) (set_Region "or2" zeroSpec)).
  destruct (concurrent_reconciles_mix no_handlers last_wins two_handlers y_sent) with
    (i := in_region "c1" "va6") (j := in_region "c2" "or2") (s := quiet_world)
    (s1 := mkSState (sworld quiet_world) (set_Region "va6" zeroSpec)) (init_i := set_Region "va6" zeroSpec)
    (init_j := set_Region "or2" zeroSpec) (data := "or2") (s2 := mkSState (sworld quiet_world) (set_Region "or2" zeroSpec))
    as [Hrun Hsend]; try reflexivity; try (intros; intros w; reflexivity).
  - intros url es [l [] f] ok w'; [discriminate|]. intros [= <- <-]. reflexivity.
  - split; [exact Hrun|]. apply Hsend; [done|]. eexists _, _, _, _, _, _, _. split_and!; reflexivity.
Defined.
