(* ===== verification/ControllerSetup.v ===== *)
(** SetupWithManager of the three controllers: pkg/sync/manager/controller.go,
    pkg/client/controllers/cluster_controller.go and
    pkg/client/controllers/servicemetadatawatcher_controller.go.

    A controller is registered with its event filters, the kinds it watches
    beside its own, and the function that maps an object of such a kind to the
    requests its change gives rise to.  How controller-runtime applies filters
    and mappings to an event is [passes], [mapped] and [dispatch]: an absent
    filter lets everything through, and an update maps the old and the new
    object.  [Complete], which starts the controller, is a parameter. *)
From stdpp Require Import base gmap strings list option numbers sets.
From S2P Require Import Prelude GoStrings Registry MemDynamo Sqs SyncParser SyncController SyncThms SyncWitness ClusterController MetadataWatcher MetadataController MetadataWitness.

Inductive Event (T : Type) :=
  | CreateEvent (o : T) | UpdateEvent (old new : T) | DeleteEvent (o : T) (DeleteStateUnknown : bool)
  | GenericEvent (o : T).
Arguments CreateEvent {T}. Arguments UpdateEvent {T}. Arguments DeleteEvent {T}. Arguments GenericEvent {T}.

(** [predicate.Funcs]; a nil function is [None]. *)
Record Funcs (T : Type) := mkFuncs {
  OnCreate : option (T → bool); OnUpdate : option (T → T → bool);
  OnDelete : option (T → bool → bool); OnGeneric : option (T → bool) }.
Arguments mkFuncs {T}. Arguments OnCreate {T}. Arguments OnUpdate {T}. Arguments OnDelete {T}. Arguments OnGeneric {T}.

Definition passes {T} (f : Funcs T) (e : Event T) : bool :=
  match e with
  | CreateEvent o => default (λ _, true) (OnCreate f) o
  | UpdateEvent old new => default (λ _ _, true) (OnUpdate f) old new
  | DeleteEvent o u => default (λ _ _, true) (OnDelete f) o u
  | GenericEvent o => default (λ _, true) (OnGeneric f) o
  end.

Definition request : Type := string * string.

Record Watch (W : Type) := mkWatch {
  watch_gvk : GroupVersionKind;
  watch_map : WatchedObject → M W (list request);
  watch_filter : Funcs WatchedObject }.
Arguments mkWatch {W}. Arguments watch_gvk {W}. Arguments watch_map {W}. Arguments watch_filter {W}.

(** The builder of a controller of objects of type [T]. *)
Record Builder (W T : Type) := mkBuilder {
  For_filter : Funcs T; Watches : list (Watch W); MaxConcurrentReconciles : option Z }.
Arguments mkBuilder {W T}. Arguments For_filter {W T}. Arguments Watches {W T}.
Arguments MaxConcurrentReconciles {W T}.

Definition mapped {W O} (f : O → M W (list request)) (e : Event O) : M W (list request) :=
  match e with
  | CreateEvent o | DeleteEvent o _ | GenericEvent o => f o
  | UpdateEvent old new => a ← f old; b ← f new; mret (a ++ b)
  end.

(** The requests an event of a watched kind gives rise to, watch by watch. *)
Fixpoint dispatch {W} (ws : list (Watch W)) (gvk : GroupVersionKind) (e : Event WatchedObject) : M W (list request) :=
  match ws with
  | [] => mret []
  | w :: ws =>
     rs ← (if bool_decide (watch_gvk w = gvk) && passes (watch_filter w) e then mapped (watch_map w) e else mret []);
     rest ← dispatch ws gvk e;
     mret (rs ++ rest)
  end.

(** A controller runs the reconciler it is completed with. *)
Class ManagerEnv (W : Type) := { Complete {T R} : Builder W T → R → M W error }.

(** ** The sync controller *)

Module Sync.
Section setup.
Context `{SyncEnv W} `{!ManagerEnv W} (WatchedGVKs : list GroupVersionKind).

Definition eventFilters : Funcs ClusterSync :=
  mkFuncs (Some CreateFunc) (Some UpdateFunc) (Some (λ _ u, DeleteFunc u)) (Some (λ _, false)).

Definition watched_filter : Funcs WatchedObject :=
  mkFuncs (Some (λ _, true)) (Some (λ _ _, true)) (Some (λ _ _, true)) (Some (λ _, false)).

Definition watch_of (gvk : GroupVersionKind) : Watch W :=
  mkWatch gvk (enqueueRequestsFromMapFunc gvk) watched_filter.
Definition builder : Builder W ClusterSync := mkBuilder eventFilters (watch_of <$> WatchedGVKs) (Some 10%Z).
Definition SetupWithManager {R} (reconciler : R) : M W error := Complete builder reconciler.
End setup.
End Sync.

(** ** The controller of clusters *)

Module Clusters.
Section setup.
Context `{ClusterEnv W} `{!ManagerEnv W}.
Definition eventFilters : Funcs Cluster :=
  mkFuncs (Some ClusterReconciler.CreateFunc) (Some ClusterReconciler.UpdateFunc)
    (Some (λ _ u, ClusterReconciler.DeleteFunc u)) None.
Definition builder : Builder W Cluster := mkBuilder eventFilters [] None.
Definition SetupWithManager {R} (reconciler : R) : M W error := Complete builder reconciler.
End setup.
End Clusters.

(** ** The controller of service metadata *)

Module Watchers.
Section setup.
Context `{WatchEnv W} `{!ManagerEnv W} (WatchedGVKs : list GroupVersionKind).
Definition eventFilters : Funcs ServiceMetadataWatcher :=
  mkFuncs (Some (λ _, true)) (Some (λ _ _, true)) (Some (λ _ u, negb u)) None.
(** Deletions are of no interest. *)
Definition watched_filter : Funcs WatchedObject :=
  mkFuncs (Some (λ _, true)) (Some (λ _ _, true)) (Some (λ _ _, false)) None.
Definition watch_of (gvk : GroupVersionKind) : Watch W :=
  mkWatch gvk (WatcherReconciler.enqueueRequestsFromMapFunc gvk) watched_filter.
Definition builder : Builder W ServiceMetadataWatcher := mkBuilder eventFilters (watch_of <$> WatchedGVKs) (Some 10%Z).
Definition SetupWithManager {R} (reconciler : R) : M W error := Complete builder reconciler.
End setup.
End Watchers.

(** ** What a change of a watched object reconciles *)

(** The watch of a kind is the only one that an event of the kind reaches. *)
Lemma dispatch_one {W} (f : GroupVersionKind → Watch W) gvks gvk e st :
  (∀ g, watch_gvk (f g) = g) → NoDup gvks →
  dispatch (f <$> gvks) gvk e st =
    (if bool_decide (gvk ∈ gvks) && passes (watch_filter (f gvk)) e then mapped (watch_map (f gvk)) e else mret []) st.
Proof.
  intros Hg Hnd. assert (∀ l : list GroupVersionKind, gvk ∉ l → ∀ st, dispatch (f <$> l) gvk e st = (Ret [], st)) as Hnone.
  { clear -Hg. induction l as [|g l IH]; intros Hn st; [done|]. apply not_elem_of_cons in Hn as [Hne Hn].
    cbn [fmap list_fmap dispatch]. rewrite Hg, bool_decide_eq_false_2 by congruence. cbn [andb].
    rewrite bind_ret_l, (bind_run _ _ _ _ _ (IH Hn st)). done. }
  revert st. induction Hnd as [|g l Hg' Hnd IH]; intros st; [done|].
  cbn [fmap list_fmap dispatch]. rewrite Hg. destruct (decide (g = gvk)) as [->|Hne].
  - rewrite (bool_decide_eq_true_2 (gvk = gvk)), (bool_decide_eq_true_2 (gvk ∈ gvk :: l)) by (done || left). cbn [andb].
    destruct (passes _ _).
    + unfold mbind, M_bind. destruct (mapped (watch_map (f gvk)) e st) as [[rs|p|] st1]; try done.
      fold (dispatch (f <$> l) gvk e). rewrite (Hnone l Hg' st1). by rewrite app_nil_r.
    + rewrite bind_ret_l, (bind_run _ _ _ _ _ (Hnone l Hg' st)). done.
  - rewrite bool_decide_eq_false_2 by done. cbn [andb]. rewrite bind_ret_l.
    rewrite (bool_decide_ext (gvk ∈ g :: l) (gvk ∈ l)) by set_solver.
    rewrite <- IH. unfold mbind, M_bind. by destruct (dispatch (f <$> l) gvk e st) as [[]].
Qed.

(** The objects of an event. *)
Definition event_objects {T} (e : Event T) : list T :=
  match e with
  | CreateEvent o | DeleteEvent o _ | GenericEvent o => [o]
  | UpdateEvent old new => [old; new]
  end.

Section sync.
Context `{SyncEnv W}.

(** The ClusterSyncs of a list that watch an object. *)
Definition watchers_of (obj : WatchedObject) (items : list ClusterSync) : list ClusterSync :=
  filter (λ i, any_matches (wo_GVK obj) obj (cs_Namespace i) (WatchedResources (cs_Spec i)) = inr true) items.

Lemma elem_of_watchers_of obj items i :
  (∀ i r, i ∈ items → r ∈ WatchedResources (cs_Spec i) → readable r) →
  i ∈ watchers_of obj items ↔ i ∈ items ∧ watches (wo_GVK obj) obj i.
Proof.
  intros Hr. unfold watchers_of. rewrite list_elem_of_filter.
  assert (i ∈ items → ∃ b, any_matches (wo_GVK obj) obj (cs_Namespace i) (WatchedResources (cs_Spec i)) = inr b ∧
    (b = true ↔ watches (wo_GVK obj) obj i)) as Hb by (intros; apply any_matches_spec; eauto).
  split; [intros [E Hi]|intros [Hi Hw]]; destruct (Hb Hi) as (b & E' & Hbw).
  - split; [done|]. apply Hbw. congruence.
  - split; [|done]. rewrite E'. f_equal. by apply Hbw.
Qed.

Lemma collect_requests_watchers obj items requests :
  (∀ i r, i ∈ items → r ∈ WatchedResources (cs_Spec i) → readable r) →
  collect_requests (wo_GVK obj) obj items requests =
    requests ++ ((λ i, (cs_Namespace i, cs_Name i)) <$> watchers_of obj items).
Proof.
  revert requests. induction items as [|i items IH]; intros requests Hr; cbn [collect_requests].
  { cbn. by rewrite app_nil_r. }
  unfold watchers_of. rewrite filter_cons.
  destruct (any_matches_spec (wo_GVK obj) obj (cs_Namespace i) (WatchedResources (cs_Spec i))) as (b & E & _).
  { intros r. apply Hr. left. }
  rewrite E, IH by (intros j r ?; apply (Hr j r); by right).
  destruct b; [rewrite decide_True by done|rewrite decide_False by done].
  - cbn. by rewrite <- app_assoc.
  - done.
Qed.

(** Of the events of a watched kind, the creation and the deletion of an object
    reconcile the ClusterSyncs of its namespace that watch it, and an update
    those that watch it as it was, then those that watch it as it is, so that
    a change of its labels reaches those that watched it before; a generic
    event, and an event of a kind that is not watched, reconcile nothing. *)
Theorem sync_events_dispatched gvks gvk e st (items : string → list ClusterSync) :
  NoDup gvks → Forall (λ o, wo_GVK o = gvk) (event_objects e) →
  (∀ ns st, k8s_ListSyncs ns st = (Ret (inl (items ns)), st)) →
  (∀ ns i r, i ∈ items ns → r ∈ WatchedResources (cs_Spec i) → readable r) →
  let reconciled o := (λ i, (cs_Namespace i, cs_Name i)) <$> watchers_of o (items (wo_Namespace o)) in
  dispatch (Watches (Sync.builder gvks)) gvk e st =
    (Ret (if bool_decide (gvk ∈ gvks) then
            match e with
            | CreateEvent o | DeleteEvent o _ => reconciled o
            | UpdateEvent old new => reconciled old ++ reconciled new
            | GenericEvent _ => []
            end
          else []), st) ∧
  (∀ o i, i ∈ watchers_of o (items (wo_Namespace o)) ↔ i ∈ items (wo_Namespace o) ∧ watches (wo_GVK o) o i).
Proof.
  intros Hnd Hk Hl Hr reconciled. split; [|intros o i; apply elem_of_watchers_of; eauto].
  assert (∀ o st, wo_GVK o = gvk → enqueueRequestsFromMapFunc gvk o st = (Ret (reconciled o), st)) as Hmap.
  { intros o st' Ho. unfold enqueueRequestsFromMapFunc. rewrite Ho, bool_decide_eq_false_2 by tauto.
    rewrite (bind_run _ _ _ _ _ (Hl _ _)). rewrite <- Ho, collect_requests_watchers by eauto. done. }
  cbn [Watches Sync.builder]. rewrite (dispatch_one Sync.watch_of) by done.
  destruct (bool_decide (gvk ∈ gvks)); [|done]. cbn [andb].
  destruct e as [o|old new|o u|o]; cbn in Hk |- *; repeat (apply Forall_cons in Hk as [? Hk]).
  - by apply Hmap.
  - rewrite (bind_run _ _ _ _ _ (Hmap old _ ltac:(done))), (bind_run _ _ _ _ _ (Hmap new _ ltac:(done))). done.
  - by apply Hmap.
  - done.
Qed.
End sync.

Section watchers.
Context `{WatchEnv W}.
Import WatcherReconciler.

Lemma elem_of_requests_of gvk obj smw wsos requests x :
  x ∈ requests_of gvk obj smw wsos requests ↔
  x ∈ requests ∨ (x = (smw_Namespace smw, smw_Name smw) ∧ ∃ wso, wso ∈ wsos ∧ refers_to gvk obj (smw_Namespace smw) wso = true).
Proof.
  revert requests. induction wsos as [|wso wsos IH]; intros requests; cbn [requests_of].
  { setoid_rewrite elem_of_nil. naive_solver. }
  rewrite IH. setoid_rewrite elem_of_cons.
  destruct (refers_to gvk obj (smw_Namespace smw) wso) eqn:E.
  - rewrite elem_of_app, list_elem_of_singleton. split.
    + intros [[?|?]|(? & w & ? & ?)]; eauto 8.
    + intros [?|(? & w & [->|?] & ?)]; eauto 8.
  - split.
    + intros [?|(? & w & ? & ?)]; eauto 8.
    + intros [?|(? & w & [->|?] & ?)]; [auto|congruence|eauto 8].
Qed.

Lemma elem_of_requests_of_all gvk obj items requests x :
  x ∈ requests_of_all gvk obj items requests ↔
  x ∈ requests ∨ ∃ smw, smw ∈ items ∧ x = (smw_Namespace smw, smw_Name smw) ∧
    ∃ wso, wso ∈ WatchedServiceObjects smw ∧ refers_to gvk obj (smw_Namespace smw) wso = true.
Proof.
  revert requests. induction items as [|smw items IH]; intros requests; cbn [requests_of_all].
  { setoid_rewrite elem_of_nil. naive_solver. }
  rewrite IH, elem_of_requests_of. setoid_rewrite elem_of_cons. split.
  - intros [[?|(? & ?)]|(w & ? & ?)]; eauto 8.
  - intros [?|(w & [->|?] & ? & ?)]; eauto 8.
Qed.

(** A change of an object reconciles exactly the watchers of its namespace
    with a reference to it, by group, version, kind and name; its deletion
    reconciles none, so that the metadata read from it stays. *)
Theorem metadata_events_dispatched gvks gvk e st (items : string → list ServiceMetadataWatcher) :
  NoDup gvks → gvk ∈ gvks → Forall (λ o, wo_GVK o = gvk) (event_objects e) →
  (∀ ns st, k8s_ListWatchers ns st = (Ret (inl (items ns)), st)) →
  ∃ rs, dispatch (Watches (Watchers.builder gvks)) gvk e st = (Ret rs, st) ∧
    ∀ x, x ∈ rs ↔ (∀ o u, e ≠ DeleteEvent o u) ∧ ∃ o smw wso, o ∈ event_objects e ∧
      smw ∈ items (wo_Namespace o) ∧ x = (smw_Namespace smw, smw_Name smw) ∧
      wso ∈ WatchedServiceObjects smw ∧ refers_to gvk o (smw_Namespace smw) wso = true.
Proof.
  intros Hnd Hin Hk Hl.
  assert (∀ o st, wo_GVK o = gvk → enqueueRequestsFromMapFunc gvk o st =
    (Ret (requests_of_all gvk o (items (wo_Namespace o)) []), st)) as Hmap.
  { intros o st' Ho. unfold enqueueRequestsFromMapFunc. rewrite Ho, bool_decide_eq_false_2 by tauto.
    by rewrite (bind_run _ _ _ _ _ (Hl _ _)). }
  set (all := event_objects e ≫= λ o, requests_of_all gvk o (items (wo_Namespace o)) []).
  assert (∀ x, x ∈ all ↔ ∃ o smw wso, o ∈ event_objects e ∧ smw ∈ items (wo_Namespace o) ∧
    x = (smw_Namespace smw, smw_Name smw) ∧ wso ∈ WatchedServiceObjects smw ∧
    refers_to gvk o (smw_Namespace smw) wso = true) as Hall.
  { intros x. unfold all. rewrite list_elem_of_bind. setoid_rewrite elem_of_requests_of_all. split.
    - intros (o & [Hn|(smw & ? & ? & wso & ? & ?)] & ?); [by apply not_elem_of_nil in Hn|eauto 10].
    - intros (o & smw & wso & ? & ? & ? & ? & ?). eauto 10. }
  cbn [Watches Watchers.builder]. setoid_rewrite (dispatch_one Watchers.watch_of); [|done..].
  rewrite bool_decide_eq_true_2 by done. cbn [andb].
  destruct e as [o|old new|o u|o]; cbn in Hk |- *; repeat (apply Forall_cons in Hk as [? Hk]).
  3: { exists []. split; [done|]. intros x. split; [by intros ?%not_elem_of_nil|]. intros [Hn _]. by destruct (Hn o u). }
  all: exists all; split; [|intros x; rewrite Hall; split; [intros Hx; split; [done|exact Hx]|by intros [_ Hx]]].
  - rewrite Hmap by done. unfold all. cbn. by rewrite app_nil_r.
  - rewrite (bind_run _ _ _ _ _ (Hmap old _ ltac:(done))), (bind_run _ _ _ _ _ (Hmap new _ ltac:(done))).
    unfold all. cbn. by rewrite app_nil_r.
  - rewrite Hmap by done. unfold all. cbn. by rewrite app_nil_r.
Qed.
End watchers.

(** A subnet whose label changes from prod to dev reconciles the ClusterSync
    that watched it and the one that watches it now. *)
Definition subnet_gvk : GroupVersionKind := mkGVK "" "v1" "Subnet".
Definition labelled (env : string) : WatchedObject := mkWatchedObject subnet_gvk "s" "ns" {["env" := env]}.

Lemma sync_events_dispatched_witness :
  dispatch (W := SyncWorld) (Watches (Sync.builder [subnet_gvk])) subnet_gvk
    (UpdateEvent (labelled "prod") (labelled "dev")) (mkSyncWorld [] false false) =
  (Ret [("ns", "c1"); ("ns", "c2")], mkSyncWorld [] false false).
Proof.
  destruct (sync_events_dispatched [subnet_gvk] subnet_gvk (UpdateEvent (labelled "prod") (labelled "dev"))
    (mkSyncWorld [] false false) (λ _, two_syncs)) as [E _].
  - apply NoDup_singleton.
  - repeat constructor.
  - reflexivity.
  - intros ns i r _ _. split; [eexists; reflexivity|]. intros l _. eexists. reflexivity.
  - rewrite E. vm_compute. reflexivity.
Defined.
