(* ===== verification/MetricsInit.v ===== *)
(** The collectors behind the metrics: the registration in
    pkg/monitoring/apiserver/metrics.go, and pkg/monitoring/client/metrics.go
    and pkg/monitoring/manager/metrics.go as a whole.

    Prometheus is the parameter [Prometheus]: registries, and the factory that
    makes a collector and registers it, which panics when a registry has a
    collector of the same name ([PrometheusLaws]).  Each package is a Module. *)
From Stdlib Require Import Ascii.
From stdpp Require Import base gmap strings list option numbers sets.
From S2P Require Import Prelude GoStrings GoRegexp GoMem.

Inductive kind := CounterVec | HistogramVec | Gauge.
#[global] Instance kind_eq_dec : EqDecision kind.
Proof. solve_decision. Defined.

(** What a collector was made with. *)
Record Opts := mkOpts { o_kind : kind; o_Name : string; o_Help : string; o_Labels : list string }.

Class Prometheus (W : Type) := {
  Registerer : Type;
  DefaultRegisterer : Registerer;
  NewRegistry : M W Registerer;
  Collector : Type;
  opts : Collector → Opts;
  (** [promauto.With(reg).NewCounterVec] and the like. *)
  promauto_New : Registerer → Opts → M W Collector;
  (** [vec.WithLabelValues(...).Inc()], [Observe] and [SetToCurrentTime]. *)
  float64 : Type;
  Inc : Collector → list string → M W ();
  Observe : Collector → list string → float64 → M W ();
  SetToCurrentTime : Collector → M W ();
  (** [Desc.String] of the one description a collector sends. *)
  Desc_String : Collector → string }.

(** [registered r w] are the names of the collectors of a registry. *)
Class PrometheusLaws (W : Type) `{Prometheus W} := {
  registered : Registerer → W → gset string;
  new_registry w : ∃ r w', NewRegistry w = (Ret r, w') ∧ registered r w' = ∅ ∧ r ≠ DefaultRegisterer ∧
    registered DefaultRegisterer w' = registered DefaultRegisterer w;
  new_collector r o w : o_Name o ∉ registered r w →
    ∃ c w', promauto_New r o w = (Ret c, w') ∧ opts c = o ∧ registered r w' = {[o_Name o]} ∪ registered r w ∧
      ∀ r', r' ≠ r → registered r' w' = registered r' w;
  duplicate_collector r o w : o_Name o ∈ registered r w → ∃ e w', promauto_New r o w = (Panic e, w') }.

(** Collectors made one after the other, as the packages do. *)
Fixpoint make_all `{Prometheus W} (r : Registerer) (os : list Opts) : M W (list Collector) :=
  match os with
  | [] => mret []
  | o :: os => c ← promauto_New r o; cs ← make_all r os; mret (c :: cs)
  end.

(** The registry of a package's collectors. *)
Definition registry_of `{Prometheus W} (isUnitTest : bool) : M W Registerer :=
  if isUnitTest then NewRegistry else mret DefaultRegisterer.

Section laws.
Context `{PrometheusLaws W}.

Definition names (os : list Opts) : gset string := list_to_set (o_Name <$> os).
Definition free_in (r : Registerer) (os : list Opts) (w : W) : Prop := names os ## registered r w.

Lemma make_all_free r os w :
  NoDup (o_Name <$> os) → free_in r os w →
  ∃ cs w', make_all r os w = (Ret cs, w') ∧ opts <$> cs = os ∧
    registered r w' = names os ∪ registered r w ∧ ∀ r', r' ≠ r → registered r' w' = registered r' w.
Proof.
  unfold free_in, names. revert w. induction os as [|o os IH]; intros w Hnd Hf.
  { exists [], w. split_and!; [done..|set_solver|done]. }
  rewrite fmap_cons in Hnd, Hf |- *. apply NoDup_cons in Hnd as [Hno Hnd]. cbn in Hf.
  destruct (new_collector r o w) as (c & w1 & E1 & Ho & R1 & U1); [set_solver|].
  destruct (IH w1 Hnd) as (cs & w2 & E2 & Hos & R2 & U2).
  { rewrite R1. apply disjoint_union_r. split; [|set_solver].
    rewrite disjoint_singleton_r, elem_of_list_to_set. done. }
  exists (c :: cs), w2. cbn [make_all]. rewrite (bind_run _ _ _ _ _ E1), (bind_run _ _ _ _ _ E2).
  split_and!; [done|by rewrite fmap_cons, Ho, Hos|rewrite R2, R1; set_solver|].
  intros r' Hr'. by rewrite U2, U1.
Qed.

Lemma make_all_taken r os w :
  NoDup (o_Name <$> os) → ¬ free_in r os w → ∃ e w', make_all r os w = (Panic e, w').
Proof.
  unfold free_in, names. revert w. induction os as [|o os IH]; intros w Hnd Hf; [set_solver|].
  rewrite fmap_cons in Hnd, Hf. apply NoDup_cons in Hnd as [Hno Hnd]. cbn in Hf. cbn [make_all].
  destruct (decide (o_Name o ∈ registered r w)) as [Hin|Hin].
  { destruct (duplicate_collector r o w Hin) as (e & w' & E). exists e, w'. by apply bind_panic. }
  destruct (new_collector r o w Hin) as (c & w1 & E1 & _ & R1 & _).
  destruct (IH w1 Hnd) as (e & w' & E); [rewrite R1; set_solver|].
  exists e, w'. rewrite (bind_run _ _ _ _ _ E1). by apply bind_panic.
Qed.

Lemma new_collector_opts r o w c w' : promauto_New r o w = (Ret c, w') → opts c = o.
Proof.
  intros E. destruct (decide (o_Name o ∈ registered r w)) as [Hin|Hin].
  - destruct (duplicate_collector r o w Hin) as (e & w1 & E1). congruence.
  - destruct (new_collector r o w Hin) as (c1 & w1 & E1 & Ho & _). congruence.
Qed.

(** A package's initialisation: the registry, its collectors, the value built of them. *)
Definition init_with {A} (isUnitTest : bool) (os : list Opts) (build : list Collector → A) : M W A :=
  reg ← registry_of isUnitTest; cs ← make_all reg os; mret (build cs).

(** The registry's names afterwards: a unit test leaves the default one alone. *)
Definition default_after (isUnitTest : bool) (os : list Opts) (w : W) : gset string :=
  if isUnitTest then registered DefaultRegisterer w else names os ∪ registered DefaultRegisterer w.

Lemma init_with_free {A} u os (build : list Collector → A) w :
  NoDup (o_Name <$> os) → (u = false → free_in DefaultRegisterer os w) →
  ∃ cs w', init_with u os build w = (Ret (build cs), w') ∧ opts <$> cs = os ∧
    registered DefaultRegisterer w' = default_after u os w.
Proof.
  intros Hnd Hf. unfold init_with, registry_of. destruct u.
  - destruct (new_registry w) as (r & w1 & E1 & R1 & Hr & D1).
    destruct (make_all_free r os w1 Hnd) as (cs & w2 & E2 & Ho & _ & U).
    { unfold free_in. rewrite R1. set_solver. }
    exists cs, w2. rewrite (bind_run _ _ _ _ _ E1), (bind_run _ _ _ _ _ E2).
    split_and!; [done..|]. cbn. by rewrite U, D1.
  - destruct (make_all_free DefaultRegisterer os w Hnd (Hf eq_refl)) as (cs & w2 & E2 & Ho & R & _).
    exists cs, w2. rewrite bind_ret_l, (bind_run _ _ _ _ _ E2). done.
Qed.

Lemma init_with_taken {A} os (build : list Collector → A) w :
  NoDup (o_Name <$> os) → ¬ free_in DefaultRegisterer os w →
  ∃ e w', init_with false os build w = (Panic e, w').
Proof.
  intros Hnd Hf. destruct (make_all_taken _ _ _ Hnd Hf) as (e & w' & E). exists e, w'.
  unfold init_with, registry_of. rewrite bind_ret_l. by apply bind_panic.
Qed.

(** After a first initialisation the names are taken. *)
Lemma not_free_again os w w' :
  os ≠ [] → registered DefaultRegisterer w' = default_after false os w → ¬ free_in DefaultRegisterer os w'.
Proof.
  intros Hne E. unfold free_in. rewrite E. unfold default_after, names. destruct os as [|o os]; [done|].
  cbn. intros Hd. apply (Hd (o_Name o)); set_solver.
Qed.
End laws.

(** The steps of an initialisation, the same on both sides of an equation. *)
Ltac init_steps :=
  cbn; unfold mbind, M_bind; cbn;
  repeat match goal with
  | |- context [promauto_New ?r ?o ?w] => destruct (promauto_New r o w) as [[?|?|] ?]; [|reflexivity..]
  end; reflexivity.

(** ** pkg/monitoring/apiserver *)

Module Api.

(** A metric definition; a package variable is a pointer, told apart by its ID.
    Its field MetricCollector is written by [registerMetrics] and read nowhere. *)
Record Metric := mkMetric { ID : string; m_Name : string; Description : string; Type_ : string; Args : list string }.

Definition ingressReqCnt : Metric := mkMetric "ingresReqCnt" "ingress_requests_total"
  "How many HTTP requests processed, partitioned by status code, HTTP method and url."
  "counter_vec" ["code"; "method"; "url"].
Definition ingressReqDur : Metric := mkMetric "ingressReqDur" "ingress_request_duration_seconds"
  "The HTTP request latencies in seconds partitioned by status code, HTTP method and url."
  "histogram_vec" ["code"; "method"; "url"].
Definition ingressMetrics : list Metric := [ingressReqCnt; ingressReqDur].
Definition egressReqCnt : Metric := mkMetric "egressReqCnt" "egress_requests_total"
  "How many egress requests sent, partitioned by target." "counter_vec" ["target"].
Definition egressReqDur : Metric := mkMetric "egressReqDur" "egress_request_duration_seconds"
  "The Egress HTTP request latencies in seconds partitioned by target." "histogram_vec" ["target"].
Definition egressMetrics : list Metric := [egressReqCnt; egressReqDur].
Definition errCnt : Metric := mkMetric "ErrCnt" "error_count"
  "The total number of errors, partitioned by target." "counter_vec" ["target"].

Section metrics.
Context `{Prometheus W}.

Record Metrics := mkMetrics {
  f_ingressReqCnt : option Collector; f_egressReqCnt : option Collector; f_ingressReqDur : option Collector;
  f_egressReqDur : option Collector; f_errCnt : option Collector;
  metricsList : list Metric; subsystem : string; isUnitTest : bool; URLLabelFromContext : string }.

(** [prometheus.BuildFQName]: the parts that are not empty, joined. *)
Definition fqName (subsystem name : string) : string :=
  if bool_decide (subsystem = "") then name else subsystem +:+ "_" +:+ name.

(** The collector of a definition; of another type there is none, and the
    variable keeps the collector of the round before. *)
Definition new_metric (reg : Registerer) (subsystem : string) (d : Metric) (metric : option Collector) :
    M W (option Collector) :=
  if bool_decide (Type_ d = "counter_vec")
  then c ← promauto_New reg (mkOpts CounterVec (fqName subsystem (m_Name d)) (Description d) (Args d)); mret (Some c)
  else if bool_decide (Type_ d = "histogram_vec")
  then c ← promauto_New reg (mkOpts HistogramVec (fqName subsystem (m_Name d)) (Description d) (Args d)); mret (Some c)
  else mret metric.

(** [metric.( *T)]: a type assertion on the collector. *)
Definition assert_kind (k : kind) (metric : option Collector) : M W Collector :=
  match metric with
  | Some c => if bool_decide (o_kind (opts c) = k) then mret c else panic "interface conversion"
  | None => panic "interface conversion: interface is nil"
  end.

Definition assign (d : Metric) (metric : option Collector) (m : Metrics) : M W Metrics :=
  let 'mkMetrics a b c e f l s u x := m in
  if bool_decide (ID d = ID ingressReqCnt)
  then v ← assert_kind CounterVec metric; mret (mkMetrics (Some v) b c e f l s u x)
  else if bool_decide (ID d = ID ingressReqDur)
  then v ← assert_kind HistogramVec metric; mret (mkMetrics a b (Some v) e f l s u x)
  else if bool_decide (ID d = ID egressReqCnt)
  then v ← assert_kind CounterVec metric; mret (mkMetrics a (Some v) c e f l s u x)
  else if bool_decide (ID d = ID egressReqDur)
  then v ← assert_kind HistogramVec metric; mret (mkMetrics a b c (Some v) f l s u x)
  else if bool_decide (ID d = ID errCnt)
  then v ← assert_kind CounterVec metric; mret (mkMetrics a b c e (Some v) l s u x)
  else mret m.

Fixpoint register_loop (reg : Registerer) (subsystem : string) (defs : list Metric) (metric : option Collector)
    (m : Metrics) : M W Metrics :=
  match defs with
  | [] => mret m
  | d :: defs =>
     metric ← new_metric reg subsystem d metric;
     m ← assign d metric m;
     register_loop reg subsystem defs metric m
  end.

Definition registerMetrics (m : Metrics) (subsystem : string) : M W Metrics :=
  reg ← registry_of (isUnitTest m);
  register_loop reg subsystem (metricsList m) None m.

Definition NewMetrics (subsystem : string) (isUnitTest : bool) : M W Metrics :=
  let metricsList := ingressMetrics ++ egressMetrics ++ [errCnt] in
  registerMetrics (mkMetrics None None None None None metricsList subsystem isUnitTest "") subsystem.

(** The definitions NewMetrics registers, and what their collectors are made with. *)
Definition all_metrics : list Metric := ingressMetrics ++ egressMetrics ++ [errCnt].
Definition metric_opts (subsystem : string) (d : Metric) : Opts :=
  mkOpts (if bool_decide (Type_ d = "counter_vec") then CounterVec else HistogramVec)
    (fqName subsystem (m_Name d)) (Description d) (Args d).
Definition api_opts (subsystem : string) : list Opts := metric_opts subsystem <$> all_metrics.
End metrics.

(** Decide the comparisons between definitions. *)
Ltac decide_ids :=
  repeat match goal with
  | |- context [bool_decide (ID ?a = ID ?b)] =>
     let v := eval vm_compute in (bool_decide (ID a = ID b)) in
     change (bool_decide (ID a = ID b)) with v; cbv iota
  | |- context [bool_decide (Type_ ?a = ?b)] =>
     let v := eval vm_compute in (bool_decide (Type_ a = b)) in
     change (bool_decide (Type_ a = b)) with v; cbv iota
  end.

Section laws.
Context `{PrometheusLaws W}.

(** What a round assigns. *)
Definition set_field (d : Metric) (c : Collector) (m : Metrics) : Metrics :=
  let 'mkMetrics a b e f g l s u x := m in
  if bool_decide (ID d = ID ingressReqCnt) then mkMetrics (Some c) b e f g l s u x
  else if bool_decide (ID d = ID ingressReqDur) then mkMetrics a b (Some c) f g l s u x
  else if bool_decide (ID d = ID egressReqCnt) then mkMetrics a (Some c) e f g l s u x
  else if bool_decide (ID d = ID egressReqDur) then mkMetrics a b e (Some c) g l s u x
  else mkMetrics a b e f (Some c) l s u x.

Lemma assign_set subsystem d c m w :
  d ∈ all_metrics → opts c = metric_opts subsystem d → assign d (Some c) m w = (Ret (set_field d c m), w).
Proof.
  intros Hd Hk. destruct m. unfold all_metrics, ingressMetrics, egressMetrics in Hd. cbn [app] in Hd.
  rewrite !elem_of_cons, elem_of_nil in Hd. unfold metric_opts in Hk.
  destruct_or! Hd; try done; subst d; unfold assign, set_field, assert_kind; decide_ids; rewrite Hk; done.
Qed.

Lemma new_metric_eq reg subsystem d metric w :
  d ∈ all_metrics →
  new_metric reg subsystem d metric w = (c ← promauto_New reg (metric_opts subsystem d); mret (Some c)) w.
Proof.
  intros Hd. unfold all_metrics, ingressMetrics, egressMetrics in Hd. cbn [app] in Hd.
  rewrite !elem_of_cons, elem_of_nil in Hd. unfold new_metric, metric_opts.
  destruct_or! Hd; try done; subst d; by decide_ids.
Qed.

Fixpoint set_fields (defs : list Metric) (cs : list Collector) (m : Metrics) : Metrics :=
  match defs, cs with
  | d :: defs, c :: cs => set_fields defs cs (set_field d c m)
  | _, _ => m
  end.

Definition api_metrics (subsystem : string) (isUnitTest : bool) (cs : list Collector) : Metrics :=
  set_fields all_metrics cs (mkMetrics None None None None None all_metrics subsystem isUnitTest "").

(** The loop makes the collectors in turn and sets their fields. *)
Lemma register_loop_eq reg subsystem defs metric m w :
  Forall (λ d, d ∈ all_metrics) defs →
  register_loop reg subsystem defs metric m w =
    (cs ← make_all reg (metric_opts subsystem <$> defs); mret (set_fields defs cs m)) w.
Proof.
  revert metric m w. induction defs as [|d defs IH]; intros metric m w Hd; [done|].
  apply Forall_cons in Hd as [Hd Hds]. rewrite fmap_cons. cbn [register_loop make_all].
  pose proof (new_metric_eq reg subsystem d metric w Hd) as En.
  unfold mbind, M_bind in En |- *. rewrite En.
  destruct (promauto_New reg _ w) as [[c|e|] w1] eqn:Ec; [|done..]. cbn.
  rewrite (assign_set subsystem d c m w1 Hd (new_collector_opts _ _ _ _ _ Ec)), IH by done.
  unfold mbind, M_bind. by destruct (make_all reg _ w1) as [[cs|e|] w2].
Qed.

Lemma NewMetrics_init subsystem u w :
  NewMetrics subsystem u w = init_with u (api_opts subsystem) (api_metrics subsystem u) w.
Proof.
  unfold NewMetrics, registerMetrics, init_with, api_opts. cbn [isUnitTest metricsList].
  apply bind_ext. intros reg w1. by rewrite register_loop_eq by (unfold all_metrics; repeat constructor; set_solver).
Qed.

#[global] Instance fqName_inj subsystem : Inj (=) (=) (fqName subsystem).
Proof. intros n n'. unfold fqName. case_bool_decide; [done|]. intros E. by apply (base.inj (String.append subsystem)), (base.inj (String.append "_")) in E. Qed.

Lemma api_names_distinct subsystem : NoDup (o_Name <$> api_opts subsystem).
Proof.
  unfold api_opts. rewrite <- list_fmap_compose.
  change (NoDup ((fqName subsystem ∘ m_Name) <$> all_metrics)). rewrite list_fmap_compose.
  apply (NoDup_fmap_2 _), (bool_decide_unpack (NoDup (m_Name <$> all_metrics))). by vm_compute.
Qed.

(** [NewMetrics] makes one collector for each definition, of the kind,
    full name, help and labels the definition has, and keeps it in the field of
    that definition.  In the default registry all the names are then taken, so
    that calling it again for the same subsystem panics; with [isUnitTest] it
    never panics and leaves the default registry as it was. *)
Theorem NewMetrics_registers subsystem u w :
  (u = false → free_in DefaultRegisterer (api_opts subsystem) w) →
  ∃ m w', NewMetrics subsystem u w = (Ret m, w') ∧
    opts <$> f_ingressReqCnt m = Some (metric_opts subsystem ingressReqCnt) ∧
    opts <$> f_ingressReqDur m = Some (metric_opts subsystem ingressReqDur) ∧
    opts <$> f_egressReqCnt m = Some (metric_opts subsystem egressReqCnt) ∧
    opts <$> f_egressReqDur m = Some (metric_opts subsystem egressReqDur) ∧
    opts <$> f_errCnt m = Some (metric_opts subsystem errCnt) ∧
    registered DefaultRegisterer w' = default_after u (api_opts subsystem) w ∧
    (u = false → ∃ e w'', NewMetrics subsystem false w' = (Panic e, w'')).
Proof.
  intros Hf. destruct (init_with_free u _ (api_metrics subsystem u) w (api_names_distinct subsystem) Hf)
    as (cs & w' & E & Ho & R).
  exists (api_metrics subsystem u cs), w'. rewrite NewMetrics_init. split; [done|].
  do 5 (destruct cs as [|? cs]; [discriminate Ho|]). destruct cs; [|discriminate Ho].
  unfold api_opts in Ho. injection Ho as <- <- <- <- <-. split_and!; try done.
  intros ->. rewrite NewMetrics_init. apply init_with_taken; [apply api_names_distinct|].
  by eapply not_free_again.
Qed.
End laws.
End Api.

(** ** pkg/monitoring/client *)

Module Client.
Section metrics.
Context `{Prometheus W}.

Record Metrics := mkMetrics {
  egressReqCnt : option Collector; egressReqDur : option Collector; dmsLastTimestamp : option Collector;
  metrics : list Collector }.

Definition NewMetrics : Metrics := mkMetrics None None None [].

Definition egressReqCnt_opts : Opts := mkOpts CounterVec "cluster_registry_cc_egress_requests_total"
  "How many egress requests sent, partitioned by target." ["target"].
Definition egressReqDur_opts : Opts := mkOpts HistogramVec "cluster_registry_cc_egress_request_duration_seconds"
  "The Egress HTTP request latencies in seconds partitioned by target." ["target"].
Definition dmsLastTimestamp_opts : Opts := mkOpts Gauge "cluster_registry_cc_deadmansswitch_last_timestamp_seconds"
  "Last timestamp when a DeadMansSwitch alert was received." [].

Definition Init (m : Metrics) (isUnitTest : bool) : M W Metrics :=
  reg ← registry_of isUnitTest;
  cnt ← promauto_New reg egressReqCnt_opts;
  dur ← promauto_New reg egressReqDur_opts;
  dms ← promauto_New reg dmsLastTimestamp_opts;
  mret (mkMetrics (Some cnt) (Some dur) (Some dms) (metrics m ++ [cnt] ++ [dur] ++ [dms])).

(** Before Init the collectors are nil. *)
Definition RecordEgressRequestCnt (m : Metrics) (target : string) : M W () :=
  c ← lift (deref (egressReqCnt m)); Inc c [target].
Definition RecordEgressRequestDur (m : Metrics) (target : string) (elapsed : float64) : M W () :=
  c ← lift (deref (egressReqDur m)); Observe c [target] elapsed.
Definition RecordDMSLastTimestamp (m : Metrics) : M W () :=
  c ← lift (deref (dmsLastTimestamp m)); SetToCurrentTime c.

Definition quote : string := String "034" "".
Definition name_char (c : ascii) : bool := is_lower c || bool_decide (c = "_"%char).
Definition desc_re : re :=
  RSeq (lit ("Desc{fqName: " +:+ quote)) (RSeq (RGroup 1 (RPlus (RChar name_char))) (lit quote)).

(** The pattern compiles; an index out of range panics. *)
Fixpoint find_metric (name : string) (l : list Collector) : outcome (option Collector) :=
  match l with
  | [] => Ret None
  | metric :: l =>
     match FindStringSubmatch desc_re 1 (Desc_String metric) !! 1%nat with
     | None => Panic "index out of range [1] with length 0"
     | Some fqName => if bool_decide (fqName = name) then Ret (Some metric) else find_metric name l
     end
  end.
Definition GetMetricByName (m : Metrics) (name : string) : outcome (option Collector) := find_metric name (metrics m).

Definition client_opts : list Opts := [egressReqCnt_opts; egressReqDur_opts; dmsLastTimestamp_opts].

(** The value built of the collectors. *)
Definition client_metrics (m : Metrics) (cs : list Collector) : Metrics :=
  mkMetrics (cs !! 0%nat) (cs !! 1%nat) (cs !! 2%nat) (metrics m ++ cs).

Lemma client_Init_eq m u w : Init m u w = init_with u client_opts (client_metrics m) w.
Proof. unfold Init, init_with. apply bind_ext. intros reg w'. init_steps. Qed.
End metrics.

Section laws.
Context `{PrometheusLaws W}.

Lemma client_names_distinct : NoDup (o_Name <$> client_opts).
Proof. apply (bool_decide_unpack (NoDup (o_Name <$> client_opts))). by vm_compute. Qed.

(** How a description prints: [Desc.String] of client_golang. *)
Definition prints (c : Collector) : Prop :=
  ∃ s, Desc_String c = "Desc{fqName: " +:+ quote +:+ o_Name (opts c) +:+ quote +:+ s.

(** Whether the pattern of [GetMetricByName] reads a name in full. *)
Definition readable (name : string) : bool := negb (bool_decide (name = "")) && all_chars name_char name.

Lemma rmatch_desc n s :
  readable n = true →
  rmatch desc_re (MState true ("Desc{fqName: " +:+ quote +:+ n +:+ quote +:+ s) []) Some = Some (MState false s [(1%nat, n)]).
Proof.
  intros Hn. apply andb_prop in Hn as [Hne Hn]. apply negb_true_iff, bool_decide_eq_false in Hne.
  set (p := "Desc{fqName: " +:+ quote).
  change (rmatch (RSeq (lit p) (RSeq (RGroup 1 (RPlus (RChar name_char))) (lit quote)))
    (MState true (p +:+ n +:+ quote +:+ s) []) Some = Some (MState false s [(1%nat, n)])).
  cbn [rmatch]. rewrite rmatch_lit. cbn [rest at_bol caps]. rewrite HasPrefix_app, drop_str_app.
  apply rmatch_plus_longest; [done..| |].
  { by intros c s' [= <- _]. }
  rewrite rmatch_lit. cbn [capture rest at_bol caps]. by rewrite HasPrefix_app, drop_str_app, consumed_app.
Qed.

Lemma submatch_desc c :
  prints c → readable (o_Name (opts c)) = true →
  FindStringSubmatch desc_re 1 (Desc_String c) !! 1%nat = Some (o_Name (opts c)).
Proof.
  intros [s ->] Hr. unfold FindStringSubmatch.
  by rewrite (search_here _ _ _ _ (rmatch_desc (o_Name (opts c)) s Hr)).
Qed.

Lemma find_metric_spec name l :
  Forall prints l → Forall (λ c, readable (o_Name (opts c)) = true) l →
  find_metric name l = Ret (find (λ c, bool_decide (o_Name (opts c) = name)) l).
Proof.
  induction 1 as [|c l Hc Hl IH]; intros Hr; [done|]. apply Forall_cons in Hr as [Hr Hrs].
  cbn [find_metric find]. rewrite submatch_desc by done. case_bool_decide; auto.
Qed.

(** [Init] on a fresh value makes the three collectors of the client and
    keeps them, in the default registry when it is not a unit test; there a
    second [Init] panics.  [GetMetricByName] then finds exactly the collector of
    a name, and nil for a name none of them has; for no name does the index into
    the pattern's match panic. *)
Theorem client_Init_finds (Hdesc : ∀ c, prints c) u w :
  (u = false → free_in DefaultRegisterer client_opts w) →
  ∃ m w', Init NewMetrics u w = (Ret m, w') ∧
    opts <$> egressReqCnt m = Some egressReqCnt_opts ∧
    opts <$> egressReqDur m = Some egressReqDur_opts ∧
    opts <$> dmsLastTimestamp m = Some dmsLastTimestamp_opts ∧
    (∀ name, ∃ r, GetMetricByName m name = Ret r ∧
       opts <$> r = find (λ o, bool_decide (o_Name o = name)) client_opts) ∧
    registered DefaultRegisterer w' = default_after u client_opts w ∧
    (u = false → ∀ m', ∃ e w'', Init m' false w' = (Panic e, w'')).
Proof.
  intros Hf. destruct (init_with_free u _ (client_metrics NewMetrics) w client_names_distinct Hf)
    as (cs & w' & E & Ho & R).
  exists (client_metrics NewMetrics cs), w'. rewrite client_Init_eq. split; [done|].
  do 3 (destruct cs as [|? cs]; [discriminate Ho|]). destruct cs; [|discriminate Ho].
  injection Ho as E1 E2 E3. split_and!; try (by cbn; f_equal).
  - intros name. eexists. unfold GetMetricByName. rewrite find_metric_spec.
    + split; [done|]. cbn. rewrite E1, E2, E3. by repeat case_bool_decide; cbn; f_equal.
    + repeat constructor; apply Hdesc.
    + cbn. rewrite !Forall_cons, E1, E2, E3. by vm_compute.
  - intros -> m'. rewrite client_Init_eq. apply init_with_taken; [apply client_names_distinct|].
    by eapply not_free_again.
Qed.
End laws.
End Client.

(** ** pkg/monitoring/manager *)

Module Manager.
Section metrics.
Context `{Prometheus W}.

Record Metrics := mkMetrics {
  RequeueCnt : option Collector; ReconciliationCnt : option Collector; ReconciliationDur : option Collector;
  EnqueueCnt : option Collector; EnqueueDur : option Collector; ErrCnt : option Collector;
  metrics : list Collector }.

Definition NewMetrics : Metrics := mkMetrics None None None None None None [].

Definition target_opts (k : kind) (name help : string) : Opts := mkOpts k name help ["target"].

Definition requeueCnt_opts : Opts := target_opts CounterVec "cluster_registry_sync_manager_requeues_total"
  "The total number of controller-manager requeues partitioned by target.".
Definition reconciliationCnt_opts : Opts := target_opts CounterVec "cluster_registry_sync_manager_reconciliation_total"
  "How many reconciliations occurred, partitioned by target.".
Definition reconciliationDur_opts : Opts :=
  target_opts HistogramVec "cluster_registry_sync_manager_reconciliation_duration_seconds"
    "The time taken to reconcile resources in seconds partitioned by target.".
Definition enqueueCnt_opts : Opts := target_opts CounterVec "cluster_registry_sync_manager_enqueue_total"
  "How many reconciliations were enqueued, partitioned by target.".
Definition enqueueDur_opts : Opts :=
  target_opts HistogramVec "cluster_registry_sync_manager_enqueue_duration_seconds"
    "The time taken to enqueue a reconciliation in seconds partitioned by target.".
Definition errorCnt_opts : Opts := target_opts CounterVec "cluster_registry_sync_manager_error_total"
  "The total number controller-manager errors partitioned by target.".

Definition Init (m : Metrics) (isUnitTest : bool) : M W Metrics :=
  reg ← registry_of isUnitTest;
  requeueCnt ← promauto_New reg requeueCnt_opts;
  reconciliationCnt ← promauto_New reg reconciliationCnt_opts;
  reconciliationDur ← promauto_New reg reconciliationDur_opts;
  enqueueCnt ← promauto_New reg enqueueCnt_opts;
  enqueueDur ← promauto_New reg enqueueDur_opts;
  errorCnt ← promauto_New reg errorCnt_opts;
  mret (mkMetrics (Some requeueCnt) (Some reconciliationCnt) (Some reconciliationDur) (Some enqueueCnt)
    (Some enqueueDur) (Some errorCnt)
    (metrics m ++ [requeueCnt] ++ [reconciliationCnt] ++ [reconciliationDur] ++ [enqueueCnt] ++ [enqueueDur] ++ [errorCnt])).

Definition RecordRequeueCnt (m : Metrics) (target : string) : M W () :=
  c ← lift (deref (RequeueCnt m)); Inc c [target].
Definition RecordReconciliationCnt (m : Metrics) (target : string) : M W () :=
  c ← lift (deref (ReconciliationCnt m)); Inc c [target].
Definition RecordReconciliationDur (m : Metrics) (target : string) (elapsed : float64) : M W () :=
  c ← lift (deref (ReconciliationDur m)); Observe c [target] elapsed.
Definition RecordEnqueueCnt (m : Metrics) (target : string) : M W () :=
  c ← lift (deref (EnqueueCnt m)); Inc c [target].
Definition RecordEnqueueDur (m : Metrics) (target : string) (elapsed : float64) : M W () :=
  c ← lift (deref (EnqueueDur m)); Observe c [target] elapsed.
Definition RecordErrorCnt (m : Metrics) (target : string) : M W () :=
  c ← lift (deref (ErrCnt m)); Inc c [target].

Definition manager_opts : list Opts :=
  [requeueCnt_opts; reconciliationCnt_opts; reconciliationDur_opts; enqueueCnt_opts; enqueueDur_opts; errorCnt_opts].

(** The value built of the collectors. *)
Definition manager_metrics (m : Metrics) (cs : list Collector) : Metrics :=
  mkMetrics (cs !! 0%nat) (cs !! 1%nat) (cs !! 2%nat) (cs !! 3%nat) (cs !! 4%nat) (cs !! 5%nat) (metrics m ++ cs).

Lemma manager_Init_eq m u w : Init m u w = init_with u manager_opts (manager_metrics m) w.
Proof. unfold Init, init_with. apply bind_ext. intros reg w'. init_steps. Qed.
End metrics.

Section laws.
Context `{PrometheusLaws W}.

Lemma manager_names_distinct : NoDup (o_Name <$> manager_opts).
Proof. apply (bool_decide_unpack (NoDup (o_Name <$> manager_opts))). by vm_compute. Qed.

(** [Init] of the sync manager: its six collectors, each in its field and in
    [metrics]; a second one in the default registry panics. *)
Theorem manager_Init_registers m u w :
  (u = false → free_in DefaultRegisterer manager_opts w) →
  ∃ m' w', Init m u w = (Ret m', w') ∧
    opts <$> RequeueCnt m' = Some requeueCnt_opts ∧
    opts <$> ReconciliationCnt m' = Some reconciliationCnt_opts ∧
    opts <$> ReconciliationDur m' = Some reconciliationDur_opts ∧
    opts <$> EnqueueCnt m' = Some enqueueCnt_opts ∧
    opts <$> EnqueueDur m' = Some enqueueDur_opts ∧
    opts <$> ErrCnt m' = Some errorCnt_opts ∧
    opts <$> metrics m' = (opts <$> metrics m) ++ manager_opts ∧
    registered DefaultRegisterer w' = default_after u manager_opts w ∧
    (u = false → ∀ m2, ∃ e w'', Init m2 false w' = (Panic e, w'')).
Proof.
  intros Hf. destruct (init_with_free u _ (manager_metrics m) w manager_names_distinct Hf)
    as (cs & w' & E & Ho & R).
  exists (manager_metrics m cs), w'. rewrite manager_Init_eq. split; [done|].
  pose proof Ho as Ho'.
  do 6 (destruct cs as [|? cs]; [discriminate Ho|]). destruct cs; [|discriminate Ho].
  injection Ho as E1 E2 E3 E4 E5 E6. split_and!; try (by cbn; f_equal).
  - cbn [manager_metrics metrics]. by rewrite fmap_app, Ho'.
  - intros -> m2. rewrite manager_Init_eq. apply init_with_taken; [apply manager_names_distinct|].
    by eapply not_free_again.
Qed.
End laws.
End Manager.

(** ** An example of Prometheus: registries are numbers, the default one is 0. *)

Module Example.
Record world := mkWorld { next : nat; regs : gmap nat (gset string) }.
Definition names_of (r : nat) (w : world) : gset string := regs w !!! r.

Definition new_registry_run : M world nat := λ w,
  let r := S (next w) in (Ret r, mkWorld r (<[r := ∅]> (regs w))).
Definition new_run (r : nat) (o : Opts) : M world Opts := λ w,
  if bool_decide (o_Name o ∈ names_of r w) then (Panic "duplicate metrics collector registration attempted", w)
  else (Ret o, mkWorld (next w) (<[r := {[o_Name o]} ∪ names_of r w]> (regs w))).

#[global] Instance prometheus : Prometheus world := {|
  Registerer := nat; DefaultRegisterer := 0%nat; NewRegistry := new_registry_run;
  Collector := Opts; opts := id; promauto_New := new_run;
  float64 := Z; Inc _ _ := mret (); Observe _ _ _ := mret (); SetToCurrentTime _ := mret ();
  Desc_String c := "Desc{fqName: " +:+ Client.quote +:+ o_Name c +:+ Client.quote +:+ ", help: ..." |}.

#[global] Program Instance prometheus_laws : PrometheusLaws world := {| registered := names_of |}.
Next Obligation.
  intros w. exists (S (next w)). eexists. split; [done|]. unfold names_of. cbn. split_and!; [|done|].
  - by rewrite lookup_total_insert_eq.
  - by rewrite lookup_total_insert_ne.
Qed.
Next Obligation.
  intros r o w Hf. exists o. eexists. cbn. unfold new_run. rewrite bool_decide_eq_false_2 by done.
  split_and!; [done..| |]; unfold names_of; cbn [regs].
  - by rewrite (lookup_total_insert_eq (regs w) r).
  - intros r' Hr. by rewrite (lookup_total_insert_ne (regs w) r r').
Qed.
Next Obligation.
  intros r o w Hin. do 2 eexists. cbn. unfold new_run. by rewrite bool_decide_eq_true_2.
Qed.

Definition w0 : world := mkWorld 0 ∅.
End Example.

Lemma NewMetrics_registers_witness :
  ∃ m w', Api.NewMetrics (W := Example.world) "cluster_registry" false Example.w0 = (Ret m, w') ∧
    (o_Name <$> (opts <$> Api.f_errCnt m)) = Some "cluster_registry_error_count" ∧
    ∃ e w'', Api.NewMetrics (W := Example.world) "cluster_registry" false w' = (Panic e, w'').
Proof.
  destruct (Api.NewMetrics_registers (W := Example.world) "cluster_registry" false Example.w0)
    as (m & w' & E & _ & _ & _ & _ & Herr & _ & Hagain).
  { intros _. vm_compute. set_solver. }
  exists m, w'. split; [exact E|]. split; [by rewrite Herr|]. exact (Hagain eq_refl).
Defined.

Lemma client_Init_finds_witness :
  ∃ m w', Client.Init (W := Example.world) Client.NewMetrics false Example.w0 = (Ret m, w') ∧
    (∃ r, Client.GetMetricByName m "cluster_registry_cc_egress_requests_total" = Ret r ∧
       opts <$> r = Some Client.egressReqCnt_opts) ∧
    Client.GetMetricByName m "other" = Ret None.
Proof.
  destruct (Client.client_Init_finds (W := Example.world) ltac:(intros c; eexists; reflexivity) false Example.w0)
    as (m & w' & E & _ & _ & _ & Hget & _).
  { intros _. vm_compute. set_solver. }
  exists m, w'. split; [exact E|]. split; [exact (Hget "cluster_registry_cc_egress_requests_total")|].
  destruct (Hget "other") as ([c|] & E1 & E2); [discriminate E2|exact E1].
Defined.
