(* ===== verification/Router.v ===== *)
(** The routes of the API server: pkg/apiserver/web/router.go and validator.go,
    [Register] of the two handlers, [NewAuthenticator] of pkg/auth, and how a
    request reaches a handler.

    What the code asks of echo is data: the middlewares of the server and its
    routes, each with its own middlewares.  A chain of middlewares is applied
    with the first one outermost, and a group hands its prefix and middlewares
    to its routes, as echo documents.  The search for the route of a request,
    the middlewares of echo and the OpenID provider are parameters. *)
From stdpp Require Import base gmap strings list option numbers sets.
From S2P Require Import Prelude GoStrings Registry Monitoring Config Sqs Db Web Auth Handlers.

Local Open Scope Z_scope.

(** ** What echo is asked to serve *)

Record Route (W : Type) := mkRoute {
  rt_Method : string; rt_Path : string; rt_Handler : HandlerFunc W; rt_Middleware : list (MiddlewareFunc W) }.
Arguments mkRoute {W}. Arguments rt_Method {W}. Arguments rt_Path {W}. Arguments rt_Handler {W}.
Arguments rt_Middleware {W}.

Record Echo (W : Type) := mkEcho {
  e_Pre : list (MiddlewareFunc W); e_Use : list (MiddlewareFunc W); e_Routes : list (Route W) }.
Arguments mkEcho {W}. Arguments e_Pre {W}. Arguments e_Use {W}. Arguments e_Routes {W}.

Record Group (W : Type) := mkGroup { g_prefix : string; g_middleware : list (MiddlewareFunc W) }.
Arguments mkGroup {W}. Arguments g_prefix {W}. Arguments g_middleware {W}.

(** The method of the catch-all routes of a group. *)
Definition RouteNotFound : string := "echo_route_not_found".

Section echo.
Context {W : Type}.
Implicit Type e : Echo W.

Definition Pre (m : MiddlewareFunc W) (e : Echo W) : Echo W := mkEcho (e_Pre e ++ [m]) (e_Use e) (e_Routes e).
Definition Use (m : MiddlewareFunc W) (e : Echo W) : Echo W := mkEcho (e_Pre e) (e_Use e ++ [m]) (e_Routes e).
Definition Add (method path : string) (h : HandlerFunc W) (ms : list (MiddlewareFunc W)) (e : Echo W) : Echo W :=
  mkEcho (e_Pre e) (e_Use e) (e_Routes e ++ [mkRoute method path h ms]).
Definition GET (path : string) (h : HandlerFunc W) (e : Echo W) : Echo W := Add "GET" path h [] e.

Definition NotFoundHandler : HandlerFunc W := mret (Some (HTTPError 404 "Not Found")).

Definition group_Add (g : Group W) (method path : string) (h : HandlerFunc W) (ms : list (MiddlewareFunc W)) :
    Echo W → Echo W := Add method (g_prefix g +:+ path) h (g_middleware g ++ ms).
Definition group_GET (g : Group W) := group_Add g "GET".
Definition group_PATCH (g : Group W) := group_Add g "PATCH".

(** A group with middlewares has routes of its own for the paths below it that
    no other route is found for, so that its middlewares run there too. *)
Definition catch_all (g : Group W) (e : Echo W) : Echo W :=
  match g_middleware g with
  | [] => e
  | _ => group_Add g RouteNotFound "/*" NotFoundHandler [] (group_Add g RouteNotFound "" NotFoundHandler [] e)
  end.
Definition echo_Group (prefix : string) (ms : list (MiddlewareFunc W)) (e : Echo W) : Group W * Echo W :=
  let g := mkGroup prefix ms in (g, catch_all g e).
Definition group_Group (g : Group W) (prefix : string) (ms : list (MiddlewareFunc W)) (e : Echo W) :
    Group W * Echo W :=
  let g' := mkGroup (g_prefix g +:+ prefix) (g_middleware g ++ ms) in (g', catch_all g' e).

Definition applyMiddleware (h : HandlerFunc W) (ms : list (MiddlewareFunc W)) : HandlerFunc W :=
  foldr (λ m h, m h) h ms.

(** [Find]: the number of the route, and the context with its path and
    parameters, or the error of a request no route fits (404, 405). *)
Context (Find : list (string * string) → Context → werr + nat * Context).

Definition route_key (rt : Route W) : string * string := (rt_Method rt, rt_Path rt).

Definition route_request (e : Echo W) : HandlerFunc W := λ r,
  match Find (route_key <$> e_Routes e) (ctx r) with
  | inl err => applyMiddleware (mret (Some err)) (e_Use e) r
  | inr (n, c) =>
     match e_Routes e !! n with
     | Some rt => applyMiddleware (applyMiddleware (rt_Handler rt) (rt_Middleware rt)) (e_Use e) (mkReq (world r) c)
     | None => applyMiddleware NotFoundHandler (e_Use e) r
     end
  end.

(** [HTTPErrorHandler] is [c_Error]. *)
Definition ServeHTTP (json : payload → string) (e : Echo W) : M (Req W) () :=
  err ← applyMiddleware (route_request e) (e_Pre e);
  match err with Some err => c_Error json err | None => mret () end.
End echo.

(** ** web/router.go and web/validator.go *)

Record CORSConfig := mkCORS { AllowOrigins : list string; AllowHeaders : list string; AllowMethods : list string }.

(** The middlewares of echo. *)
Class EchoMiddleware (W : Type) := {
  RemoveTrailingSlash : MiddlewareFunc W;
  Logger : MiddlewareFunc W;
  CORSWithConfig : CORSConfig → MiddlewareFunc W;
  RequestIDWithConfig : M W string → MiddlewareFunc W;
  (** Skipper, rate, burst and expiry in seconds of the store, identifier, and
      the handlers of errors and of requests denied. *)
  RateLimiterWithConfig : bool → Z → Z → Z → (Context → string) → HandlerFunc W → HandlerFunc W → MiddlewareFunc W;
  (** [uuid.New]. *)
  new_uuid : M W string }.

Section router.
Context `{EchoMiddleware W} (json : payload → string).

Definition cors : CORSConfig :=
  mkCORS ["*"] ["Origin"; "Content-Type"; "Accept"; "Authorization"] ["GET"; "HEAD"].

(** The validator that the router holds is used by [Bind] (Handlers.v). *)
Definition NewRouter : Echo W :=
  let e := mkEcho [] [] [] in
  let e := Pre RemoveTrailingSlash e in
  let e := Use Logger e in
  let e := Use (CORSWithConfig cors) e in
  Use (RequestIDWithConfig new_uuid) e.

Definition RateLimiter (cfg : AppConfig) : MiddlewareFunc W :=
  RateLimiterWithConfig (rate_skipper cfg) 2 120 60 rate_identifier (rate_error json) (rate_deny json).
End router.

(** ** pkg/auth: the authenticator *)

Class OIDC (W : Type) := {
  Provider : Type;
  NewProvider : string → M W (option Provider * error);
  IDToken : Type;
  (** [provider.Verifier(&oidc.Config{ClientID: id}).Verify]. *)
  Verifier_Verify : Provider → string → string → M W (option IDToken * werror);
  token_Claims : IDToken → Claims * werror }.

Record Authenticator `{OIDC W} := mkAuthenticator { a_provider : Provider; verifier : string; spnVerifier : string }.

Section authenticator.
Context `{OIDC W}.
Definition NewAuthenticator (cfg : AppConfig) : M W (option Authenticator * error) :=
  '(provider, err) ← NewProvider (OidcIssuerUrl cfg);
  match err with
  | Some e => mret (None, errorf ("init verifier failed: " +:+ e))
  | None =>
     provider ← lift (deref provider);
     mret (Some (mkAuthenticator _ _ provider (verifier_id cfg) (spnVerifier_id cfg)), nil_error)
  end.
End authenticator.

(** [log.Fatalf]: the process ends with status 1.  No code of this program
    recovers from it or is deferred past it. *)
Definition Fatalf {W A} (msg : string) : M W A := panic ("exit status 1: " +:+ msg).

(** ** The handlers and their routes *)

Record Handlers (W : Type) := mkHandlers {
  v1_GetCluster : HandlerFunc W; v1_ListClusters : HandlerFunc W;
  v2_GetCluster : HandlerFunc W; v2_PatchCluster : HandlerFunc W; v2_ListClusters : HandlerFunc W;
  v2_GetServiceMetadata : HandlerFunc W; v2_GetServiceMetadataForCluster : HandlerFunc W }.
Arguments mkHandlers {W}. Arguments v1_GetCluster {W}. Arguments v1_ListClusters {W}.
Arguments v2_GetCluster {W}. Arguments v2_PatchCluster {W}. Arguments v2_ListClusters {W}.
Arguments v2_GetServiceMetadata {W}. Arguments v2_GetServiceMetadataForCluster {W}.

Section register.
Context `{EchoMiddleware W} `{!OIDC W} (json : payload → string).
Context (record_egress_call : string → M W ()) (cfg : AppConfig) (h : Handlers W).
Context (cache_Get : string → M W (string * error)) (cache_Set : string → string → Z → list string → M W error).
Context (gob_encode : Response → string) (gob_decode : string → Response).

(** [a.VerifyToken()]: both verifiers are of the provider. *)
Definition verify_token (a : Authenticator) : MiddlewareFunc W :=
  VerifyToken json (Verifier_Verify (a_provider a)) token_Claims record_egress_call cfg.
Definition clusters_cache : MiddlewareFunc W :=
  HTTPCache json cache_Get cache_Set gob_encode gob_decode cfg ["clusters"].

Definition new_authenticator : M W Authenticator :=
  '(a, err) ← NewAuthenticator cfg;
  match err with
  | Some e => Fatalf ("Failed to initialize authenticator: " +:+ e)
  | None => lift (deref a)
  end.

(** The routes of the two versions of the API, behind an authenticator. *)
Definition v1_routes (a : Authenticator) (v1 : Group W) (e : Echo W) : Echo W :=
  let '(clusters, e) := group_Group v1 "/clusters" [verify_token a; RateLimiter json cfg] e in
  let e := group_GET clusters "/:name" (v1_GetCluster h) [] e in
  group_GET clusters "" (v1_ListClusters h) [clusters_cache] e.

Definition v2_routes (a : Authenticator) (v2 : Group W) (e : Echo W) : Echo W :=
  let '(clusters, e) := group_Group v2 "/clusters" [verify_token a; RateLimiter json cfg] e in
  let e := group_GET clusters "/:name" (v2_GetCluster h) [] e in
  let e := group_PATCH clusters "/:name" (v2_PatchCluster h) [VerifyGroupAccess json (ApiAuthorizedGroupId cfg)] e in
  let e := group_GET clusters "" (v2_ListClusters h) [clusters_cache] e in
  let '(services, e) := group_Group v2 "/services" [verify_token a; RateLimiter json cfg] e in
  let e := group_GET services "/:serviceId" (v2_GetServiceMetadata h) [] e in
  group_GET services "/:serviceId/cluster/:clusterName" (v2_GetServiceMetadataForCluster h) [] e.

Definition v1_Register (v1 : Group W) (e : Echo W) : M W (Echo W) :=
  a ← new_authenticator; mret (v1_routes a v1 e).
Definition v2_Register (v2 : Group W) (e : Echo W) : M W (Echo W) :=
  a ← new_authenticator; mret (v2_routes a v2 e).
End register.
