(* ===== verification/Slt.v ===== *)
(** test/slt: the service that checks a running registry.  It is deployed beside
    it; every few minutes it edits the Cluster object of its own cluster, waits
    until the API shows the edit, times two requests, and keeps the results as
    metrics.

    The environment, Azure, HTTP, Kubernetes and encoding/json are the parameter
    [SltEnv].  The checks and the refresh of the token run in goroutines that
    share the token: sleeping lets the others run, so it acts on the whole state.
    Durations are kept as they are measured, in nanoseconds. *)
From stdpp Require Import base gmap strings list option numbers sets.
From S2P Require Import Prelude GoStrings Registry Config Sqs SyncController ClusterController Router.
Import ClusterReconciler.

Local Open Scope Z_scope.

(** metrics/metrics.go: the vectors by label; an observation of a duration is
    the time measured and the seconds that are subtracted from it. *)
Record Slt (W : Type) := mkSlt {
  slt_world : W;
  token : string;
  ErrCnt : gmap string Z;
  TestStatus : gmap string Z;
  TestDuration : list (string * (Z * Z));
  EgressReqDuration : list (string * string * Z) }.
Arguments mkSlt {W}.
Arguments slt_world {W}.
Arguments token {W}.
Arguments ErrCnt {W}.
Arguments TestStatus {W}.
Arguments TestDuration {W}.
Arguments EgressReqDuration {W}.

Class SltEnv (W : Type) := {
  LookupEnv : string → option string;
  (** The fraction of a duration (Config.v). *)
  slt_fraction : Z → Z → Z → Z;
  slt_Now : M W Z;
  (** [NewClientCredentialsConfig(client, secret, tenant).ServicePrincipalToken()]. *)
  SPToken : Type;
  ServicePrincipalToken : string → string → string → M W (res SPToken);
  RefreshExchange : SPToken → string → M W (SPToken * error);
  AccessToken : SPToken → string;
  (** [http.NewRequest] of GET, and [client.Do] with the Authorization header: the
      status and what reading the body gives. *)
  NewRequest : string → error;
  HttpDo : string → string → M W (res (Z * (string * error)));
  unmarshal_Spec : string → ClusterSpec * error;
  unmarshal_Specs : string → list ClusterSpec * error;
  (** The Kubernetes client, the list of the clusters of a namespace and a merge
      patch of one of them. *)
  kube_GetConfig : M W error;
  kube_NewForConfig : M W error;
  kube_List : string → M W (string * error);
  unmarshal_List : string → list Cluster * error;
  marshal_Cluster : Cluster → string * error;
  kube_Patch : string → string → string → M W error }.

Section slt.
Context `{SltEnv W} (Sleep : Z → M (Slt W) ()).

Definition in_slt {A} (m : M W A) : M (Slt W) A := λ s,
  let '(o, w) := m (slt_world s) in
  (o, mkSlt w (token s) (ErrCnt s) (TestStatus s) (TestDuration s) (EgressReqDuration s)).

(** [WithLabelValues(l).Inc()], [Set] and [Observe]. *)
Definition Inc_ErrCnt (l : string) : M (Slt W) () := modify (λ s,
  mkSlt (slt_world s) (token s) (<[l := default 0 (ErrCnt s !! l) + 1]> (ErrCnt s)) (TestStatus s) (TestDuration s) (EgressReqDuration s)).
Definition Set_TestStatus (l : string) (v : Z) : M (Slt W) () := modify (λ s,
  mkSlt (slt_world s) (token s) (ErrCnt s) (<[l := v]> (TestStatus s)) (TestDuration s) (EgressReqDuration s)).
Definition Observe_TestDuration (l : string) (ns less : Z) : M (Slt W) () := modify (λ s,
  mkSlt (slt_world s) (token s) (ErrCnt s) (TestStatus s) ((l, (ns, less)) :: TestDuration s) (EgressReqDuration s)).
Definition Observe_Egress (route method : string) (code : Z) : M (Slt W) () := modify (λ s,
  mkSlt (slt_world s) (token s) (ErrCnt s) (TestStatus s) (TestDuration s) ((route, method, code) :: EgressReqDuration s)).
Definition set_token (t : string) : M (Slt W) () := modify (λ s,
  mkSlt (slt_world s) t (ErrCnt s) (TestStatus s) (TestDuration s) (EgressReqDuration s)).

(** ** helpers/helpers.go *)

Definition GetEnv (key fallback : string) : M (Slt W) string :=
  match LookupEnv key with
  | Some value => mret value
  | None =>
     if bool_decide (fallback = "") then Fatalf ("missing environment variable " +:+ key)
     else mret fallback
  end.

Definition parse_interval (s : string) : M (Slt W) Z :=
  let '(d, err) := ParseDuration slt_fraction s in
  match err with
  | Some e => Fatalf ("error parsing time interval to run function in loop: " +:+ e)
  | None => mret d
  end.

(** The loop has no end: it runs as many rounds as there is fuel. *)
Fixpoint run_loop (fuel : nat) (f : M (Slt W) ()) (interval : Z) : M (Slt W) () :=
  match fuel with
  | O => lift OutOfFuel
  | S fuel => _ ← f; _ ← Sleep interval; run_loop fuel f interval
  end.
Definition RunFuncInLoop (fuel : nat) (f : M (Slt W) ()) (timeInterval offSetStart : string) : M (Slt W) () :=
  interval ← parse_interval timeInterval;
  _ ← (if bool_decide (offSetStart ≠ "") then (offSet ← parse_interval offSetStart; Sleep offSet) else mret ());
  run_loop fuel f interval.

Definition reqGet (endpoint bearer : string) : M (Slt W) (option string * Z * error) :=
  match NewRequest endpoint with
  | Some e => mret (None, 0, errorf ("cannot build http request: " +:+ e))
  | None =>
     r ← in_slt (HttpDo endpoint bearer);
     match r with
     | inl e => mret (None, 0, errorf ("cannot make http request: " +:+ e))
     | inr (code, (body, err)) =>
        if bool_decide (code ≠ 200)
        then match err with
             | Some e => mret (None, code, errorf ("could not read response body: " +:+ e))
             | None => mret (None, code, errorf ("cannot get cluster: body:" +:+ body))
             end
        else match err with
             | Some e => mret (None, code, errorf ("cannot read response body: " +:+ e))
             | None => mret (Some body, code, nil_error)
             end
     end
  end.

Definition GetCluster (url clusterName jwtToken : string) : M (Slt W) (option ClusterSpec * error) :=
  let endpoint := url +:+ "/api/v2/clusters/" +:+ clusterName in
  let bearer := "Bearer " +:+ jwtToken in
  '(body, respCode, err) ← reqGet endpoint bearer;
  _ ← Observe_Egress "/api/v2/clusters/[cluster]" "GET" respCode;
  match err with
  | Some e =>
     if bool_decide (respCode = 404) then mret (None, errorf ("cluster " +:+ clusterName +:+ " was not found: " +:+ e))
     else mret (None, errorf e)
  | None =>
     body ← lift (deref body);
     let '(cluster, err) := unmarshal_Spec body in
     match err with
     | Some e => mret (None, errorf ("failed to unmarshal response: " +:+ e))
     | None => mret (Some cluster, nil_error)
     end
  end.

Definition GetClusters (url perPageLimit pageNr jwtToken : string) : M (Slt W) (option (list ClusterSpec) * error) :=
  let endpoint := url +:+ "/api/v2/clusters?offset=" +:+ pageNr +:+ "&limit=" +:+ perPageLimit in
  let bearer := "Bearer " +:+ jwtToken in
  '(body, respCode, err) ← reqGet endpoint bearer;
  _ ← Observe_Egress "/api/v2/clusters" "GET" respCode;
  match err with
  | Some e => mret (None, errorf e)
  | None =>
     body ← lift (deref body);
     let '(clusters, err) := unmarshal_Specs body in
     match err with
     | Some e => mret (None, errorf ("failed to unmarshal response: " +:+ e))
     | None => mret (Some clusters, nil_error)
     end
  end.

(** ** checks/request/request.go *)

Record GetClusterConfig := mkGetCluster { gc_url : string; gc_clusterName : string }.
Record GetAllClusterConfig := mkGetAll { ga_url : string; ga_pageNr : string; ga_perPageLimit : string }.

Definition MetricLabelGetCluster : string := "get_cluster_test".
Definition MetricLabelGetAllClusters : string := "get_multiple_clusters_test".

Definition GetClusterConfigFromEnv : M (Slt W) GetClusterConfig :=
  url ← GetEnv "URL" "http://localhost:8080";
  clusterName ← GetEnv "CLUSTER_NAME" "";
  mret (mkGetCluster url clusterName).
Definition GetAllClusterConfigFromEnv : M (Slt W) GetAllClusterConfig :=
  url ← GetEnv "URL" "http://localhost:8080";
  pageNr ← GetEnv "PAGE_NR" "0";
  perPageLimit ← GetEnv "PER_PAGE_LIMIT" "200";
  mret (mkGetAll url pageNr perPageLimit).

Definition RunGetCluster (config : GetClusterConfig) (jwtToken : string) : M (Slt W) error :=
  '(_, err) ← GetCluster (gc_url config) (gc_clusterName config) jwtToken;
  mret err.
Definition RunGetAllClusters (config : GetAllClusterConfig) (jwtToken : string) : M (Slt W) error :=
  '(_, err) ← GetClusters (ga_url config) (ga_perPageLimit config) (ga_pageNr config) jwtToken;
  mret err.

(** ** checks/update/update.go *)

Record TestConfig := mkTestConfig { tc_url : string; tc_namespace : string }.
Definition tagSLT : string := "update-slt".
Definition MetricLabel : string := "e2e_test".

Definition GetConfigFromEnv : M (Slt W) TestConfig :=
  url ← GetEnv "URL" "http://localhost:8080";
  namespace ← GetEnv "NAMESPACE" "cluster-registry";
  mret (mkTestConfig url namespace).

(** The edit of the object: the other value of the tag, and the annotation that
    asks to leave the cache of the API as it is. *)
Definition toggle (cluster : Cluster) : res Cluster :=
  let with_tag tags := update_Spec (set_Tags (Some tags)) cluster in
  match Tags (Spec cluster) with
  | None => inr (with_tag {[tagSLT := "Tick"]})
  | Some tags =>
     match tags !! tagSLT with
     | Some value =>
        if bool_decide (value = "Tick") then inr (with_tag (<[tagSLT := "Tack"]> tags))
        else if bool_decide (value = "Tack") then inr (with_tag (<[tagSLT := "Tick"]> tags))
        else inl ("found '" +:+ tagSLT +:+ "' tag with wrong value '" +:+ value +:+ "'")
     | None => inr (with_tag (<[tagSLT := "Tick"]> tags))
     end
  end.
Definition mark (cluster : Cluster) : Cluster :=
  let m := metadata cluster in
  let cluster := set_metadata (mkObjectMeta (meta_Name m) (Namespace m) (Registry.Annotations m) (ResourceVersion m) []) cluster in
  SetAnnotations (Some (<[SkipCacheInvalidationAnnotation := ""]> (gm (GetAnnotations cluster)))) cluster.

Definition updateCrd (namespace : string) : M (Slt W) (string * string * error) :=
  err ← in_slt kube_GetConfig;
  match err with
  | Some e => mret ("", "", errorf ("could not create Kubernetes config: " +:+ e))
  | None =>
     err ← in_slt kube_NewForConfig;
     match err with
     | Some e => mret ("", "", errorf ("could not create Kubernetes client: " +:+ e))
     | None =>
        '(result, err) ← in_slt (kube_List namespace);
        match err with
        | Some e => mret ("", "", errorf ("could not get the custom resource: " +:+ e +:+ ". Response " +:+ result))
        | None =>
           let '(items, err) := unmarshal_List result in
           match err, items with
           | Some e, _ => mret ("", "", errorf ("could not unmarshal Kubernetes response: " +:+ e))
           | None, [] => mret ("", "", errorf "no CRD found, the 'Items' list is empty")
           | None, cluster :: _ =>
              match toggle cluster with
              | inl e => mret ("", "", errorf e)
              | inr cluster =>
                 let cluster := mark cluster in
                 let '(data, err) := marshal_Cluster cluster in
                 match err with
                 | Some e => mret ("", "", errorf ("could not marshal updated CRD: " +:+ e))
                 | None =>
                    err ← in_slt (kube_Patch namespace (Name (Spec cluster)) data);
                    match err with
                    | Some e => mret ("", "", errorf ("could not update the CRD: " +:+ e))
                    | None => mret (Name (Spec cluster), default "" (gm (Tags (Spec cluster)) !! tagSLT), nil_error)
                    end
                 end
              end
           end
        end
     end
  end.

Definition checkAPIforUpdate (url clusterName tagSLTValue jwtToken : string) : M (Slt W) error :=
  '(cluster, err) ← GetCluster url clusterName jwtToken;
  match err with
  | Some e => mret (errorf e)
  | None =>
     cluster ← lift (deref cluster);
     match Tags cluster with
     | None => mret (errorf "tags field is empty")
     | Some tags =>
        if bool_decide (tagSLTValue ≠ default "" (tags !! tagSLT))
        then mret (errorf "the 'Tags' field is not what expected")
        else mret nil_error
     end
  end.

(** The checks that are left, from the try [nrOfTries] on. *)
Fixpoint check_loop (tries : nat) (nrOfTries : Z) (config : TestConfig) (clusterName tagSLTValue jwtToken : string) :
    M (Slt W) (Z * error) :=
  match tries with
  | O => mret (nrOfTries, errorf "failed to confirm the update")
  | S tries =>
     _ ← Sleep (30 * Second);
     err ← checkAPIforUpdate (tc_url config) clusterName tagSLTValue jwtToken;
     match err with
     | Some _ => check_loop tries (nrOfTries + 1) config clusterName tagSLTValue jwtToken
     | None => mret (nrOfTries, nil_error)
     end
  end.
(** [maxNrOfTries] is 3. *)
Definition Run (config : TestConfig) (jwtToken : string) : M (Slt W) (Z * error) :=
  '(clusterName, tagSLTValue, err) ← updateCrd (tc_namespace config);
  match err with
  | Some e => mret (0, errorf e)
  | None => check_loop 3 1 config clusterName tagSLTValue jwtToken
  end.

(** ** checks/checks.go *)

Definition MetricLabelToken : string := "token_refresh".

(** Waits while the token is empty. *)
Fixpoint readToken (fuel : nat) : M (Slt W) string :=
  t ← gets token;
  if bool_decide (t = "")
  then match fuel with O => lift OutOfFuel | S fuel => _ ← Sleep Second; readToken fuel end
  else mret t.

Definition GetAuthDetails : M (Slt W) (string * string * string * string) :=
  resourceID ← GetEnv "RESOURCE_ID" "";
  tenantID ← GetEnv "TENANT_ID" "";
  clientID ← GetEnv "CLIENT_ID" "";
  clientSecret ← GetEnv "APP_SECRET" "";
  mret (resourceID, tenantID, clientID, clientSecret).

Definition requestToken (resourceID tenantID clientID clientSecret : string) : M W (string * error) :=
  t ← ServicePrincipalToken clientID clientSecret tenantID;
  match t with
  | inl e => mret ("", errorf e)
  | inr t =>
     '(t, err) ← RefreshExchange t resourceID;
     match err with
     | Some e => mret ("", errorf e)
     | None => mret (AccessToken t, nil_error)
     end
  end.

Definition RefreshToken : M (Slt W) () :=
  '(resourceID, tenantID, clientID, clientSecret) ← GetAuthDetails;
  '(localToken, err) ← in_slt (requestToken resourceID tenantID clientID clientSecret);
  _ ← match err with
      | Some e =>
         t ← gets token;
         if bool_decide (t = "") then Fatalf ("error getting jwt token: " +:+ e)
         else Inc_ErrCnt MetricLabelToken
      | None => mret ()
      end;
  set_token localToken.

(** The configuration a check is called with, an [interface{}]. *)
Inductive AnyConfig :=
  | NilConfig
  | ATest (c : TestConfig)
  | AGetCluster (c : GetClusterConfig)
  | AGetAll (c : GetAllClusterConfig).

Definition RunE2eTest (fuel : nat) (config : AnyConfig) : M (Slt W) () :=
  match config with
  | ATest conf =>
     jwtToken ← readToken fuel;
     start ← in_slt slt_Now;
     '(nrOfTries, err) ← Run conf jwtToken;
     match err with
     | Some _ => _ ← Inc_ErrCnt MetricLabel; Set_TestStatus MetricLabel 0
     | None =>
        now ← in_slt slt_Now;
        _ ← Observe_TestDuration MetricLabel (now - start) (nrOfTries * 11);
        Set_TestStatus MetricLabel 1
     end
  | _ => Fatalf "failed to type assert config for the e2e test"
  end.

(** The two timed requests differ in the request and the label. *)
Definition run_request (label : string) (fuel : nat) (request : string → M (Slt W) error) : M (Slt W) () :=
  jwtToken ← readToken fuel;
  start ← in_slt slt_Now;
  err ← request jwtToken;
  now ← in_slt slt_Now;
  match err with
  | Some _ => _ ← Set_TestStatus label 0; Inc_ErrCnt label
  | None => _ ← Set_TestStatus label 1; Observe_TestDuration label (now - start) 0
  end.
Definition RunClusterRequest (fuel : nat) (config : AnyConfig) : M (Slt W) () :=
  match config with
  | AGetCluster conf => run_request MetricLabelGetCluster fuel (RunGetCluster conf)
  | _ => Fatalf "failed to type assert config for the get a cluster test"
  end.
Definition RunAllClustersRequests (fuel : nat) (config : AnyConfig) : M (Slt W) () :=
  match config with
  | AGetAll conf => run_request MetricLabelGetAllClusters fuel (RunGetAllClusters conf)
  | _ => Fatalf "failed to type assert config for the get multiple clusters test"
  end.

(** ** service.go *)

(** A call of RunFuncInLoop in a goroutine of its own. *)
Record Goroutine := mkGo {
  go_check : nat → AnyConfig → M (Slt W) (); go_config : AnyConfig; go_interval : string; go_offset : string }.

(** The vectors start at zero ([init] of the packages). *)
Definition InitMetrics (s : Slt W) : Slt W :=
  mkSlt (slt_world s) (token s)
    (<[MetricLabelToken := 0]> (<[MetricLabelGetAllClusters := 0]> (<[MetricLabelGetCluster := 0]> (<[MetricLabel := 0]> (ErrCnt s)))))
    (<[MetricLabelGetAllClusters := 0]> (<[MetricLabelGetCluster := 0]> (<[MetricLabel := 0]> (TestStatus s))))
    (TestDuration s) (EgressReqDuration s).

(** [init] and [main]: the goroutines in the order they are started. *)
Definition service : M (Slt W) (list Goroutine) :=
  _ ← modify InitMetrics;
  timeBetweenE2e ← GetEnv "TIME_BETWEEN_E2E" "2m";
  timeBetweenGetCluster ← GetEnv "TIME_BETWEEN_GET_CLUSTER" "1m";
  timeBetweenGetAllClusters ← GetEnv "TIME_BETWEEN_GET_ALL_CLUSTERS" "1m";
  tokenRefreshTime ← GetEnv "TOKEN_REFRESH_TIME" "29m";
  e2e ← GetConfigFromEnv;
  one ← GetClusterConfigFromEnv;
  all ← GetAllClusterConfigFromEnv;
  mret [mkGo (λ _ _, RefreshToken) NilConfig tokenRefreshTime "";
        mkGo RunE2eTest (ATest e2e) timeBetweenE2e "5s";
        mkGo RunClusterRequest (AGetCluster one) timeBetweenGetCluster "15s";
        mkGo RunAllClustersRequests (AGetAll all) timeBetweenGetAllClusters "20s"].
End slt.
