(* ===== verification/SltThms.v ===== *)
(** The service level test (Slt.v): what its results mean, and what becomes of
    the token when a refresh fails. *)
From stdpp Require Import base gmap strings list option numbers sets.
From S2P Require Import Prelude GoStrings Registry Config Sqs SyncController ClusterController Router Slt.
Import ClusterReconciler.

Local Open Scope Z_scope.

Section slt.
Context `{SltEnv W} (Sleep : Z → M (Slt W) ()).
Implicit Types (s : Slt W).

(** ** The edit and the check *)

Lemma in_slt_run {A} (m : M W A) s :
  in_slt m s = ((m (slt_world s)).1, mkSlt (m (slt_world s)).2 (token s) (ErrCnt s) (TestStatus s) (TestDuration s) (EgressReqDuration s)).
Proof. unfold in_slt. by destruct (m (slt_world s)). Qed.

Lemma bind_in_slt {A B} (m : M W A) (k : A → M (Slt W) B) s b s' :
  (in_slt m ≫= k) s = (Ret b, s') →
  ∃ a w, m (slt_world s) = (Ret a, w) ∧
    k a (mkSlt w (token s) (ErrCnt s) (TestStatus s) (TestDuration s) (EgressReqDuration s)) = (Ret b, s').
Proof.
  intros (a & s1 & Hm & Hk)%bind_Ret_inv. rewrite in_slt_run in Hm.
  destruct (m (slt_world s)) as [o w]. cbn in Hm. simplify_eq. eauto.
Qed.

(** The tag alternates between two values. *)
Definition is_value (v : string) : Prop := v = "Tick" ∨ v = "Tack".

Lemma toggle_spec c c' :
  toggle c = inr c' →
  ∃ v, is_value v ∧ gm (Tags (Spec c)) !! tagSLT ≠ Some v ∧
    (∀ u, gm (Tags (Spec c)) !! tagSLT = Some u → is_value u) ∧
    c' = update_Spec (set_Tags (Some (<[tagSLT := v]> (gm (Tags (Spec c)))))) c.
Proof.
  unfold toggle, is_value. destruct (Tags (Spec c)) as [tags|]; cbn [gm default].
  - destruct (tags !! tagSLT) as [v|] eqn:Hv; [repeat case_bool_decide; subst|]; intros ?; simplify_eq.
    + exists "Tack". split_and!; [by right|cbn; congruence|cbn; naive_solver|done].
    + exists "Tick". split_and!; [by left|cbn; congruence|cbn; naive_solver|done].
    + exists "Tick". split_and!; [by left|cbn; congruence|cbn; naive_solver|done].
  - intros ?; simplify_eq. exists "Tick". cbn. rewrite lookup_empty. split_and!; [by left|done|done|done].
Qed.

Lemma tags_of_set m c : gm (Tags (Spec (update_Spec (set_Tags (Some m)) c))) = m.
Proof. by destruct c as [? ? []]. Qed.

(** Toggling twice gives the tag its value back, and changes nothing else. *)
Lemma toggle_twice c c1 c2 v :
  gm (Tags (Spec c)) !! tagSLT = Some v → toggle c = inr c1 → toggle c1 = inr c2 → gm (Tags (Spec c2)) = gm (Tags (Spec c)).
Proof.
  intros Hv (v1 & Hv1 & Hn1 & Ho & ->)%toggle_spec (v2 & Hv2 & Hn2 & _ & ->)%toggle_spec. rewrite !tags_of_set in *.
  specialize (Ho v Hv). rewrite lookup_insert_eq in Hn2. rewrite insert_insert_eq.
  assert (v2 = v) as -> by (unfold is_value in *; destruct Hv1, Hv2, Ho; subst; congruence). by apply insert_id.
Qed.

(** What a successful edit sent to Kubernetes. *)
Definition edited (ns name v : string) s s' : Prop :=
  ∃ raw items c c' data w,
    unmarshal_List raw = (c :: items, None) ∧ toggle c = inr c' ∧ marshal_Cluster (mark c') = (data, None) ∧
    kube_Patch ns name data w = (Ret None, slt_world s') ∧
    name = Name (Spec c) ∧ gm (Tags (Spec c')) !! tagSLT = Some v ∧ gm (Tags (Spec c)) !! tagSLT ≠ Some v ∧
    s' = mkSlt (slt_world s') (token s) (ErrCnt s) (TestStatus s) (TestDuration s) (EgressReqDuration s).

Lemma updateCrd_spec ns s name v s' :
  updateCrd ns s = (Ret (name, v, None), s') → edited ns name v s s'.
Proof.
  intros (e1 & w1 & _ & H1)%bind_in_slt. destruct e1; [by minv H1|].
  apply bind_in_slt in H1 as (e2 & w2 & _ & H2). destruct e2; [by minv H2|].
  apply bind_in_slt in H2 as ([raw e3] & w3 & _ & H3). destruct e3; [by minv H3|].
  destruct (unmarshal_List raw) as [items e4] eqn:Hl. destruct e4; [by minv H3|]. destruct items as [|c items]; [by minv H3|].
  destruct (toggle c) as [e|c'] eqn:Ht; [by minv H3|]. cbv zeta in H3.
  destruct (marshal_Cluster (mark c')) as [data e5] eqn:Hm. destruct e5; [by minv H3|].
  apply bind_in_slt in H3 as (e6 & w6 & Hp & H4). destruct e6; [by minv H4|]. minv H4.
  destruct (toggle_spec c c' Ht) as (v & Hv & Hn & _ & ->).
  change (Tags (Spec (mark ?c))) with (Tags (Spec c)). rewrite tags_of_set, lookup_insert_eq. cbn [default].
  exists raw, items, c. eexists _, data, _.
  split_and!; [done|exact Ht|done|exact Hp|by destruct c as [? ? []]| |done|done]. by rewrite tags_of_set, lookup_insert_eq.
Qed.

(** The API answers a request for the cluster with a specification that has the
    value. *)
Definition served (url name v jwt : string) s s' : Prop :=
  let endpoint := url +:+ "/api/v2/clusters/" +:+ name in
  ∃ body sp tags, NewRequest endpoint = None ∧
    HttpDo endpoint ("Bearer " +:+ jwt) (slt_world s) = (Ret (inr (200, (body, None))), slt_world s') ∧
    unmarshal_Spec body = (sp, None) ∧ Tags sp = Some tags ∧ default "" (tags !! tagSLT) = v.

Lemma reqGet_spec endpoint bearer s body code s' :
  reqGet endpoint bearer s = (Ret (body, code, None), s') →
  ∃ b, body = Some b ∧ code = 200 ∧ NewRequest endpoint = None ∧
    HttpDo endpoint bearer (slt_world s) = (Ret (inr (200, (b, None))), slt_world s').
Proof.
  unfold reqGet. destruct (NewRequest endpoint) as [e|]; [intros Hr; by minv Hr|].
  intros ([e|[code' [b err]]] & w & Hd & Hk)%bind_in_slt; [by minv Hk|].
  destruct (decide (code' = 200)) as [->|Hc].
  - rewrite bool_decide_eq_false_2 in Hk by tauto. destruct err; minv Hk. eauto 10.
  - rewrite bool_decide_eq_true_2 in Hk by done. by destruct err; minv Hk.
Qed.

Lemma checkAPIforUpdate_spec url name v jwt s s' :
  checkAPIforUpdate url name v jwt s = (Ret None, s') → served url name v jwt s s'.
Proof.
  intros ([o err] & s1 & Hg & Hk)%bind_Ret_inv. destruct err; [by minv Hk|].
  apply bind_Ret_inv in Hk as (c & s2 & Ho & Hk). destruct o as [c0|]; minv Ho.
  destruct (Tags c) as [tags|] eqn:Ht; [|by minv Hk]. case_bool_decide as Hv; [by minv Hk|]. injection Hk as ->.
  unfold GetCluster in Hg. cbv zeta in Hg.
  apply bind_Ret_inv in Hg as ([[b code] err] & s1 & Hr & Hk).
  apply bind_Ret_inv in Hk as ([] & s2 & Ho & Hk). destruct err.
  { case_bool_decide; by minv Hk. }
  apply reqGet_spec in Hr as (body & -> & -> & Hn & Hd).
  apply bind_Ret_inv in Hk as (body' & s3 & Hb & Hk). minv Hb.
  destruct (unmarshal_Spec body') as [sp err] eqn:Hu. destruct err; minv Hk.
  unfold Observe_Egress, modify in Ho. injection Ho as <-. cbn in H0, H1. simplify_eq. eexists _, _, tags. eauto 10.
Qed.

(** [k] checks in a row that do not find the value. *)
Inductive misses (conf : TestConfig) (name v jwt : string) : Z → Slt W → Slt W → Prop :=
  | misses_none s : misses conf name v jwt 0 s s
  | misses_one k s s1 s2 s3 e :
     Sleep (30 * Second) s = (Ret (), s1) → checkAPIforUpdate (tc_url conf) name v jwt s1 = (Ret (Some e), s2) →
     misses conf name v jwt k s2 s3 → misses conf name v jwt (k + 1) s s3.

Lemma misses_nonneg conf name v jwt k s s' : misses conf name v jwt k s s' → 0 ≤ k.
Proof. induction 1; lia. Qed.

Lemma check_loop_spec tries i conf name v jwt s n err s' :
  check_loop Sleep tries i conf name v jwt s = (Ret (n, err), s') →
  match err with
  | None => ∃ s1 s2, misses conf name v jwt (n - i) s s1 ∧ n - i < Z.of_nat tries ∧
      Sleep (30 * Second) s1 = (Ret (), s2) ∧ checkAPIforUpdate (tc_url conf) name v jwt s2 = (Ret None, s')
  | Some _ => n - i = Z.of_nat tries ∧ misses conf name v jwt (n - i) s s'
  end.
Proof.
  revert i s. induction tries as [|tries IH]; intros i s; cbn [check_loop].
  { intros Hk. minv Hk. rewrite Z.sub_diag. split; [done|constructor]. }
  intros ([] & s1 & Hs & Hk)%bind_Ret_inv. apply bind_Ret_inv in Hk as (e & s2 & Hc & Hk). destruct e as [e|].
  - apply IH in Hk. replace (n - (i + 1)) with (n - i - 1) in Hk by lia.
    assert (∀ s3, misses conf name v jwt (n - i - 1) s2 s3 → misses conf name v jwt (n - i) s s3) as Hm.
    { intros s3 H3. replace (n - i) with (n - i - 1 + 1) by lia. by econstructor. }
    destruct err; [destruct Hk as [? ?]; split; [lia|by apply Hm]|].
    destruct Hk as (s3 & s4 & H3 & ? & H4). exists s3, s4. split_and!; [by apply Hm|lia|apply H4..].
  - minv Hk. exists s, s1. rewrite Z.sub_diag. split_and!; [constructor|lia|done..].
Qed.

(** A run from [s] to [s'] in which the edit succeeded and the check number [n]
    found the value that it wrote. *)
Definition confirmed (conf : TestConfig) (jwt : string) (n : Z) s s' : Prop :=
  ∃ name v s1 s2 s3,
    updateCrd (tc_namespace conf) s = (Ret (name, v, None), s1) ∧ edited (tc_namespace conf) name v s s1 ∧ is_value v ∧
    misses conf name v jwt (n - 1) s1 s2 ∧ 1 ≤ n ≤ 3 ∧ Sleep (30 * Second) s2 = (Ret (), s3) ∧
    checkAPIforUpdate (tc_url conf) name v jwt s3 = (Ret None, s') ∧ served (tc_url conf) name v jwt s3 s'.

(** A run in which the edit failed, or three checks did not find the value. *)
Definition unconfirmed (conf : TestConfig) (jwt : string) (n : Z) s s' : Prop :=
  (n = 0 ∧ ∃ name v e, updateCrd (tc_namespace conf) s = (Ret (name, v, Some e), s')) ∨
  (n = 4 ∧ ∃ name v s1, edited (tc_namespace conf) name v s s1 ∧ misses conf name v jwt 3 s1 s').

Lemma edited_value ns name v s s' : edited ns name v s s' → is_value v.
Proof.
  intros (raw & items & c & c' & data & w & _ & Ht & _ & _ & _ & Hv & _).
  destruct (toggle_spec c c' Ht) as (v' & Hv' & _ & _ & ->). rewrite tags_of_set, lookup_insert_eq in Hv. by simplify_eq.
Qed.

Lemma Run_spec conf jwt s n err s' :
  Run Sleep conf jwt s = (Ret (n, err), s') →
  if err is None then confirmed conf jwt n s s' else unconfirmed conf jwt n s s'.
Proof.
  intros ([[name v] e] & s1 & Hu & Hk)%bind_Ret_inv. destruct e as [e|].
  { minv Hk. cbn. left. eauto 10. }
  pose proof (updateCrd_spec _ _ _ _ _ Hu) as Hed. pose proof (edited_value _ _ _ _ _ Hed).
  apply check_loop_spec in Hk. destruct err as [e|]; cbn.
  - destruct Hk as [Hn Hm]. right. replace (n - 1) with 3 in Hm by lia. split; [lia|eauto 10].
  - destruct Hk as (s2 & s3 & Hm & Hn & Hs & Hc). pose proof (misses_nonneg _ _ _ _ _ _ _ Hm).
    exists name, v, s1, s2, s3. split_and!; try done; try lia. by apply checkAPIforUpdate_spec.
Qed.

(** Checks that do not find the value use up tries. *)
Lemma misses_loop conf name v jwt k s s' : misses conf name v jwt k s s' →
  ∀ tries i, k ≤ Z.of_nat tries →
  check_loop Sleep tries i conf name v jwt s = check_loop Sleep (tries - Z.to_nat k) (i + k) conf name v jwt s'.
Proof.
  induction 1 as [s|k s s1 s2 s3 e Hs Hc Hm IH]; intros tries i Hk; [by rewrite Nat.sub_0_r, Z.add_0_r|].
  pose proof (misses_nonneg _ _ _ _ _ _ _ Hm). destruct tries as [|tries]; [lia|]. cbn [check_loop].
  rewrite (bind_run _ _ _ _ _ Hs), (bind_run _ _ _ _ _ Hc), (IH tries (i + 1)) by lia. f_equal; lia.
Qed.

Lemma confirmed_Run conf jwt n s s' : confirmed conf jwt n s s' → Run Sleep conf jwt s = (Ret (n, None), s').
Proof.
  intros (name & v & s1 & s2 & s3 & Hu & _ & _ & Hm & Hn & Hs & Hc & _). unfold Run.
  rewrite (bind_run _ _ _ _ _ Hu). cbv beta iota. rewrite (misses_loop _ _ _ _ _ _ _ Hm) by lia.
  replace (1 + (n - 1)) with n by lia. destruct (3 - Z.to_nat (n - 1))%nat eqn:Hleft; [lia|]. cbn [check_loop].
  by rewrite (bind_run _ _ _ _ _ Hs), (bind_run _ _ _ _ _ Hc).
Qed.

Lemma readToken_nonempty fuel s jwt s' : readToken Sleep fuel s = (Ret jwt, s') → jwt ≠ "".
Proof.
  revert s. induction fuel as [|fuel IH]; intros s; cbn [readToken]; rewrite bind_gets; case_bool_decide.
  - done.
  - intros Hm. by minv Hm.
  - intros ([] & s2 & _ & Hk)%bind_Ret_inv. by eapply IH.
  - intros Hm. by minv Hm.
Qed.

(** C33: The status of the end-to-end test tells the truth.  When a run of it ends,
    from the state in which it had its token the status is 1 if and only if this
    run's edit of the Cluster object succeeded and, at one of three checks after it,
    the API served the value that the edit wrote; otherwise the edit failed or three
    checks did not find the value, the status is 0 and the error is counted. *)
Theorem e2e_status_truthful fuel conf s s' :
  RunE2eTest Sleep fuel (ATest conf) s = (Ret (), s') →
  ∃ jwt s0 start s1,
    readToken Sleep fuel s = (Ret jwt, s0) ∧ jwt ≠ "" ∧ in_slt slt_Now s0 = (Ret start, s1) ∧
    (TestStatus s' !! MetricLabel = Some 1 ↔ ∃ n s2, confirmed conf jwt n s1 s2) ∧
    (TestStatus s' !! MetricLabel ≠ Some 1 → TestStatus s' !! MetricLabel = Some 0 ∧
       ∃ n e s2, Run Sleep conf jwt s1 = (Ret (n, Some e), s2) ∧ unconfirmed conf jwt n s1 s2 ∧
         ErrCnt s' !! MetricLabel = Some (default 0 (ErrCnt s2 !! MetricLabel) + 1)).
Proof.
  intros (jwt & s0 & Hj & Hk)%bind_Ret_inv. apply bind_Ret_inv in Hk as (start & s1 & Hnow & Hk).
  apply bind_Ret_inv in Hk as ([n err] & s2 & Hrun & Hk).
  exists jwt, s0, start, s1. split_and!; [done|by eapply readToken_nonempty|done| |]; destruct err as [e|].
  - apply bind_Ret_inv in Hk as ([] & s3 & [= <-] & [= <-]). cbn [TestStatus]. rewrite lookup_insert_eq.
    split; [done|]. intros (n' & s4 & Hc%confirmed_Run). congruence.
  - apply bind_in_slt in Hk as (now & w2 & _ & Hk). apply bind_Ret_inv in Hk as ([] & s3 & [= <-] & [= <-]).
    cbn [TestStatus]. rewrite lookup_insert_eq. split; [|done]. intros _. exists n, s2. exact (Run_spec _ _ _ _ _ _ Hrun).
  - apply bind_Ret_inv in Hk as ([] & s3 & [= <-] & [= <-]). cbn [TestStatus ErrCnt]. rewrite !lookup_insert_eq.
    intros _. split; [done|]. exists n, e, s2. split; [done|]. split; [exact (Run_spec _ _ _ _ _ _ Hrun)|done].
  - apply bind_in_slt in Hk as (now & w2 & _ & Hk). apply bind_Ret_inv in Hk as ([] & s3 & [= <-] & [= <-]).
    cbn [TestStatus]. by rewrite lookup_insert_eq.
Qed.

(** ** The token *)

Lemma GetEnv_set key fallback v s : LookupEnv key = Some v → GetEnv key fallback s = (Ret v, s).
Proof. unfold GetEnv. by intros ->. Qed.

Lemma readToken_waits fuel s : keeps token (Sleep Second) → token s = "" → (∀ s, (Sleep Second s).1 = Ret ()) →
  (readToken Sleep fuel s).1 = OutOfFuel.
Proof.
  intros Hkeep Ht Hret. revert s Ht. induction fuel as [|fuel IH]; intros s Ht; cbn [readToken];
    rewrite bind_gets, Ht, bool_decide_eq_true_2 by done; [done|].
  specialize (Hkeep s). specialize (Hret s). destruct (Sleep Second s) as [o s1] eqn:Hs. cbn in *. subst o.
  rewrite (bind_run _ _ _ _ _ Hs). apply IH. congruence.
Qed.

(** The variables a refresh needs. *)
Definition credentials (resource tenant client secret : string) : Prop :=
  LookupEnv "RESOURCE_ID" = Some resource ∧ LookupEnv "TENANT_ID" = Some tenant ∧
  LookupEnv "CLIENT_ID" = Some client ∧ LookupEnv "APP_SECRET" = Some secret.

Lemma requestToken_error r t c k w x e w' : requestToken r t c k w = (Ret (x, Some e), w') → x = "".
Proof.
  unfold requestToken. intros ([e1|tok] & w1 & _ & Hk)%bind_Ret_inv; [by minv Hk|].
  apply bind_Ret_inv in Hk as ([tok' [e1|]] & w2 & _ & Hk); by minv Hk.
Qed.

(** A refresh, by what Azure answers. *)
Lemma RefreshToken_run r t c k s x err w :
  credentials r t c k → requestToken r t c k (slt_world s) = (Ret (x, err), w) →
  RefreshToken s =
    match err with
    | None => (Ret (), mkSlt w x (ErrCnt s) (TestStatus s) (TestDuration s) (EgressReqDuration s))
    | Some e =>
       if bool_decide (token s = "")
       then (Panic ("exit status 1: error getting jwt token: " +:+ e),
             mkSlt w (token s) (ErrCnt s) (TestStatus s) (TestDuration s) (EgressReqDuration s))
       else (Ret (), mkSlt w "" (<[MetricLabelToken := default 0 (ErrCnt s !! MetricLabelToken) + 1]> (ErrCnt s))
             (TestStatus s) (TestDuration s) (EgressReqDuration s))
    end.
Proof.
  intros (Hr & Ht & Hc & Hk) Hreq. unfold RefreshToken, GetAuthDetails.
  rewrite (bind_run _ _ s (r, t, c, k) s); cycle 1.
  { by rewrite (bind_run _ _ _ _ _ (GetEnv_set _ _ _ s Hr)), (bind_run _ _ _ _ _ (GetEnv_set _ _ _ s Ht)),
      (bind_run _ _ _ _ _ (GetEnv_set _ _ _ s Hc)), (bind_run _ _ _ _ _ (GetEnv_set _ _ _ s Hk)). }
  erewrite (bind_run (in_slt _)) by (rewrite in_slt_run, Hreq; reflexivity). destruct err as [e|]; [|reflexivity].
  apply requestToken_error in Hreq as ->. unfold mbind, M_bind, gets. cbn [token].
  by case_bool_decide.
Qed.

(** C35: A failed refresh throws the token away.  While the old token might still
    be good, a refresh that fails replaces it by the empty text: the checks then
    wait for the next refresh instead of running, and if that one fails too the
    service exits. *)
Theorem failed_refresh_drops_token r t c k s x e w :
  credentials r t c k → token s ≠ "" → requestToken r t c k (slt_world s) = (Ret (x, Some e), w) →
  ∃ s', RefreshToken s = (Ret (), s') ∧ token s' = "" ∧
    ErrCnt s' !! MetricLabelToken = Some (default 0 (ErrCnt s !! MetricLabelToken) + 1) ∧
    (∀ fuel, keeps token (Sleep Second) → (∀ s, (Sleep Second s).1 = Ret ()) → (readToken Sleep fuel s').1 = OutOfFuel) ∧
    (∀ x' e' w', requestToken r t c k (slt_world s') = (Ret (x', Some e'), w') →
       (RefreshToken s').1 = Panic ("exit status 1: error getting jwt token: " +:+ e')).
Proof.
  intros Hcred Htok Hreq. rewrite (RefreshToken_run _ _ _ _ _ _ _ _ Hcred Hreq), bool_decide_eq_false_2 by done.
  eexists. split; [reflexivity|]. cbn [token ErrCnt]. rewrite lookup_insert_eq. split_and!; [done|done| |].
  - intros fuel Hkeep Hret. by apply readToken_waits.
  - intros x' e' w' Hreq'. by rewrite (RefreshToken_run _ _ _ _ _ _ _ _ Hcred Hreq').
Qed.

(** ** The service *)

Lemma GetEnv_default key fallback s : fallback ≠ "" → GetEnv key fallback s = (Ret (default fallback (LookupEnv key)), s).
Proof. intros Hf. unfold GetEnv. destruct (LookupEnv key); [done|]. by rewrite bool_decide_eq_false_2. Qed.

(** The service starts its four loops when it is told the name of a cluster,
    and exits otherwise; every other variable has a value without it. *)
Theorem service_starts s :
  match LookupEnv "CLUSTER_NAME" with
  | None => (service Sleep s).1 = Panic "exit status 1: missing environment variable CLUSTER_NAME"
  | Some n => ∃ e2e one all i1 i2 i3 i4, service Sleep s = (Ret
      [mkGo (λ _ _, RefreshToken) NilConfig i1 ""; mkGo (RunE2eTest Sleep) (ATest e2e) i2 "5s";
       mkGo (RunClusterRequest Sleep) (AGetCluster one) i3 "15s"; mkGo (RunAllClustersRequests Sleep) (AGetAll all) i4 "20s"],
      InitMetrics s) ∧ gc_clusterName one = n
  end.
Proof.
  unfold service, GetConfigFromEnv, GetClusterConfigFromEnv, GetAllClusterConfigFromEnv.
  erewrite bind_run by reflexivity. do 4 (erewrite bind_run; [|by apply GetEnv_default]).
  erewrite bind_run; [|do 2 (erewrite bind_run; [|by apply GetEnv_default]); reflexivity].
  destruct (LookupEnv "CLUSTER_NAME") as [n|] eqn:Hn.
  - erewrite bind_run; [|erewrite bind_run; [|by apply GetEnv_default]; erewrite bind_run; [|by apply GetEnv_set]; reflexivity].
    erewrite bind_run; [|do 3 (erewrite bind_run; [|by apply GetEnv_default]); reflexivity].
    by do 7 eexists.
  - erewrite bind_panic; [reflexivity|]. erewrite bind_run; [|by apply GetEnv_default].
    erewrite bind_panic; [reflexivity|]. unfold GetEnv. by rewrite Hn.
Qed.

(** The loop of a check never returns. *)
Lemma RunFuncInLoop_never_returns fuel f i o s u s' : RunFuncInLoop Sleep fuel f i o s ≠ (Ret u, s').
Proof.
  unfold RunFuncInLoop. intros (d & s1 & _ & Hk)%bind_Ret_inv. apply bind_Ret_inv in Hk as ([] & s2 & _ & Hk).
  revert s2 Hk. induction fuel as [|fuel IH]; intros s2; cbn [run_loop]; [done|].
  intros ([] & s3 & _ & Hk)%bind_Ret_inv. apply bind_Ret_inv in Hk as ([] & s4 & _ & Hk). by eapply IH.
Qed.
End slt.
