(* ===== verification/SltFlow.v ===== *)
(** The service level test beside the programs it tests (ConcurrentSystem.v): its
    check passes once the messages of the clients are applied and the registry has
    settled, and the annotation that its edit leaves on the Cluster object keeps the
    cache of the API from being invalidated until somebody takes it away. *)
From stdpp Require Import base gmap strings list option numbers sets relations countable.
From S2P Require Import Prelude GoStrings GoTime Encoding Registry MemDynamo Database Db Sqs MemDb EventHandler Web Handlers HandlersThms SyncParser SyncController SyncThms ClusterController System ConcurrentSystem Slt SltThms.
Import ClusterReconciler.

Local Open Scope Z_scope.

(** ** The check passes *)

Section passes.
Context {Wc Wm Ws W : Type} `{ClusterEnvLaws Wc} `{SyncEnvLaws Wm} `{ApiQueueLaws Ws Invalidate} `{SltEnv W}.
Context (unmarshal : string → Cluster * error) `{!WireLaws Wc unmarshal}.
Context (CA : string → string) (client_queue manager_queue server_queue : Sqs.Config).
Context (handlers : GroupVersionKind → option (list Obj → res ClusterSpec)).
Context (merge : ClusterSpec → ClusterSpec → ClusterSpec * error) (message_of : string → string).
Context (json : payload → string).

(** A request for the cluster reaches the handler of the API and comes back with
    its answer. *)
Definition reaches_api (s : Sys Wc Wm Ws) (name endpoint bearer : string) (w : W) : Prop :=
  NewRequest endpoint = None ∧
  ∃ x w', committed x = false ∧ resp_Body x = "" ∧ Param "name" x = name ∧
    let r' := (V2.GetCluster json (mkReq (server s) x)).2 in
    HttpDo endpoint bearer w = (Ret (inr (resp_Status (ctx r'), (resp_Body (ctx r'), None))), w').

(** The tags of a specification survive its encoding. *)
Definition tags_roundtrip : Prop :=
  ∀ sp, ∃ sp', unmarshal_Spec (json (PSpec sp) +:+ newline) = (sp', None) ∧ gm (Tags sp') = gm (Tags sp).

Lemma content_tags sp c t : content sp = entry (Spec c) t → gm (Tags sp) = gm (Tags (Spec c)).
Proof.
  intros He. apply (f_equal (λ sp, gm (Tags sp))) in He.
  assert (∀ x v, gm (Tags (set_RegisteredAt v x)) = gm (Tags x)) as HR by (by intros []).
  assert (∀ x v, gm (Tags (set_LastUpdated v x)) = gm (Tags x)) as HL by (by intros []).
  assert (∀ x, gm (Tags (norm_spec x)) = gm (Tags x)) as HN by (intros []; apply norm_map_gm).
  unfold entry, content in He. by rewrite !HR, HN, HL in He.
Qed.

(** A check whose request is answered with the value passes. *)
Lemma check_passes url name v jwt (σ : Slt W) body w sp :
  let endpoint := url +:+ "/api/v2/clusters/" +:+ name in
  NewRequest endpoint = None →
  HttpDo endpoint ("Bearer " +:+ jwt) (slt_world σ) = (Ret (inr (200, (body, None))), w) →
  unmarshal_Spec body = (sp, None) → gm (Tags sp) !! tagSLT = Some v →
  ∃ σ', checkAPIforUpdate url name v jwt σ = (Ret None, σ').
Proof.
  intros endpoint Hn Hd Hu Ht. unfold checkAPIforUpdate, GetCluster. cbv zeta. fold endpoint.
  assert (∃ σ1, reqGet endpoint ("Bearer " +:+ jwt) σ = (Ret (Some body, 200, nil_error), σ1)) as [σ1 Hreq].
  { unfold reqGet. rewrite Hn. eexists. erewrite (bind_run (in_slt _)) by (rewrite in_slt_run, Hd; reflexivity). reflexivity. }
  eexists. erewrite bind_run; cycle 1.
  { rewrite (bind_run _ _ _ _ _ Hreq). erewrite bind_run by reflexivity. cbn [deref]. rewrite bind_lift, Hu. reflexivity. }
  cbn [deref]. rewrite bind_lift. destruct (Tags sp) as [tags|]; cbn in Ht; [|by rewrite lookup_empty in Ht].
  rewrite bool_decide_eq_false_2; [reflexivity|]. rewrite Ht. cbn. tauto.
Qed.

(** C34: The check of the end-to-end test passes when the registry has settled.
    When no two handlers of one cluster are between their read and their write and
    each handler reads the entry written last, then, once the messages of the
    clients are applied and deleted and the writes have reached every copy, a
    request that reaches the API for a cluster whose newest message carries the
    value is answered with it, unless the database cannot be read. *)
Theorem settled_check_passes (s : CSys Wc Wm Ws) (σ : Slt W) url jwt name v p c :
  creachable unmarshal CA client_queue manager_queue server_queue handlers merge message_of true s → let b := base s in
  db_settled (server b) → drained message_of b →
  latest b name p c → (∀ p' c', latest b name p' c' → gm (Tags (Spec c')) !! tagSLT = Some v) →
  ¬ lookup_fails name (server b) → tags_roundtrip →
  reaches_api b name (url +:+ "/api/v2/clusters/" +:+ name) ("Bearer " +:+ jwt) (slt_world σ) →
  ∃ σ', checkAPIforUpdate url name v jwt σ = (Ret None, σ').
Proof.
  intros Hr b Hset Hdr Hl Huniq Hread Hjson (Hn & x & w' & Hc & Hb & <- & Hd).
  destruct (overlapped_answers unmarshal CA client_queue manager_queue server_queue handlers merge message_of json s x Hr Hset Hdr Hc)
    as (r' & _ & Hrun & Hans). fold b in Hrun, Hans.
  rewrite Hrun in Hd. cbn [snd] in Hd.
  assert (announced b (Param "name" x)) as Hann.
  { destruct Hl as ([id Hp] & Ho & Hname & _). by exists id, p, c. }
  destruct Hans as [(n & p1 & c1 & sp & Hnn & Hl1 & He & Hst & Hbody)|[[? _]|[_ ?]]]; [|done..].
  destruct Hnn as [->|[_ ?]]; [|done].
  rewrite Hst, Hbody in Hd. cbn [ctx] in Hd. rewrite Hb in Hd.
  destruct (Hjson (set_ServiceMetadata None sp)) as (sp' & Hu & Ht).
  eapply check_passes; [exact Hn|exact Hd|exact Hu|]. rewrite Ht.
  assert (∀ y, gm (Tags (set_ServiceMetadata None y)) = gm (Tags y)) as -> by (by intros []).
  rewrite (content_tags _ _ _ He). by eapply Huniq.
Qed.
End passes.

(** ** The annotation stays *)

Lemma mark_marks c : is_Some (gm (GetAnnotations (mark c)) !! SkipCacheInvalidationAnnotation).
Proof. exists "". apply lookup_insert_eq. Qed.

Section marked.
Context {Wc : Type} `{ClusterEnvLaws Wc}.
Context (omits_empty : ∀ c, json_Cluster (SetAnnotations (Some ∅) c) = json_Cluster (SetAnnotations None c)).
Context (CAData : string) (client_queue : Sqs.Config) (ns n : string).

(** The object has the annotation that the check sets. *)
Definition marked (w : Wc) : Prop :=
  ∃ c, stored w !! (ns, n) = Some c ∧ is_Some (gm (GetAnnotations c) !! SkipCacheInvalidationAnnotation).

(** The client reconciles the object, or something edits it and does not take the
    annotation away. *)
Inductive marked_step (w : Wc) : Wc → Prop :=
  | M_reconcile : marked_step w (Reconcile CAData client_queue ns n w).2
  | M_edit w' : sent w' = sent w → marked w' → marked_step w w'.

Definition asks_to_skip (e : SendMessageBatchRequestEntry) : Prop :=
  entry_MessageAttributes e !! "SkipCacheInvalidation" = Some "true".

Lemma marked_step_sends w w' :
  marked w → marked_step w w' → marked w' ∧ ∃ new, sent w' = new ++ sent w ∧ Forall asks_to_skip new.
Proof.
  intros (c & Hc & Hskip) [|w'' Hs Hm]; [|split; [done|by exists []]].
  destruct (Reconcile_run CAData client_queue omits_empty ns n w c Hc) as (r & err & w2 & -> & Hsent & _ & c' & Hc' & Ha).
  cbn [snd]. split; [exists c'; by rewrite Ha|].
  destruct Hsent as [Hs|(e & (id & body & c2 & -> & _) & Hs)]; [by exists []|].
  eexists [_]. split; [exact Hs|]. constructor; [|done]. unfold asks_to_skip.
  rewrite with_CA_annotations, bool_decide_eq_true_2 by done. reflexivity.
Qed.

(** The messages that a marked object gives rise to. *)
Lemma marked_run w w' :
  marked w → rtc marked_step w w' → marked w' ∧ ∃ new, sent w' = new ++ sent w ∧ Forall asks_to_skip new.
Proof.
  intros Hm Hrun. revert Hm. induction Hrun as [w|w w1 w2 Hstep _ IH]; intros Hm; [split; [done|by exists []]|].
  destruct (marked_step_sends w w1 Hm Hstep) as [Hm1 (new & Hs & Hall)].
  destruct (IH Hm1) as [Hm2 (new2 & Hs2 & Hall2)]. split; [done|]. exists (new2 ++ new).
  rewrite Hs2, Hs, (assoc_L (++)). split; [done|]. by apply Forall_app.
Qed.
End marked.

Section skipping.
Context {Ws : Type} `{DbLaws Ws} `{SQSService Ws} (Invalidate : list string → M Ws error).
Context (unmarshal : string → Cluster * error) (server_queue : Sqs.Config) (message_of : string → string).

(** A message that asks to leave the cache leaves what its other calls leave. *)
Lemma on_message_skips {T} (obs : Ws → T) id p h msg :
  delivery message_of id p h msg → asks_to_skip (p_entry p) →
  (∀ e, keeps obs (Handle unmarshal e)) → (∀ m, keeps obs (Delete server_queue m)) →
  keeps obs (on_message unmarshal server_queue Invalidate msg).
Proof.
  intros Hd Hskip Hh Hdel.
  assert (skips_invalidation msg = Ret true) as Hs.
  { unfold skips_invalidation, asks_to_skip in *. rewrite (dl_attributes _ _ _ _ _ Hd), lookup_fmap.
    change MessageAttributeSkipCacheInvalidation with "SkipCacheInvalidation". by rewrite Hskip. }
  apply keeps_bind; [by intros s|intros _]. apply keeps_bind; [by intros s|intros [e [er|]]; [by intros s|]].
  apply keeps_bind; [by intros s|intros e']. case_bool_decide; [by intros s|].
  apply keeps_bind; [apply Hh|intros [er|]; [by intros s|]].
  apply keeps_bind; [apply Hdel|intros [er|]; [by intros s|]]. rewrite Hs. by intros s.
Qed.

End skipping.

Section edit.
Context {Wc : Type} `{ClusterEnvLaws Wc} {W : Type} `{SltEnv W}.
Context (omits_empty : ∀ c, json_Cluster (SetAnnotations (Some ∅) c) = json_Cluster (SetAnnotations None c)).
Context (CAData : string) (client_queue : Sqs.Config).
(** The Kubernetes cluster that the test edits, which the client runs in.  A merge
    patch that succeeds gives the object every annotation of the patch. *)
Context (cluster_of : W → Wc).
Context (patch_law : ∀ ns n c data w w',
  marshal_Cluster c = (data, None) → kube_Patch ns n data w = (Ret None, w') →
  ∃ c', stored (cluster_of w') !! (ns, n) = Some c' ∧ gm (GetAnnotations c) ⊆ gm (GetAnnotations c')).
Context {Ws : Type} `{DbLaws Ws} `{SQSService Ws} (Invalidate : list string → M Ws error).
Context (unmarshal : string → Cluster * error) (server_queue : Sqs.Config) (message_of : string → string).

(** The edit of the test marks the object. *)
Lemma updateCrd_marks ns (σ σ' : Slt W) name v :
  updateCrd ns σ = (Ret (name, v, None), σ') → marked ns name (cluster_of (slt_world σ')).
Proof.
  intros (raw & items & c & c' & data & w & _ & _ & Hm & Hp & _)%updateCrd_spec.
  destruct (patch_law ns name (mark c') data w _ Hm Hp) as (c2 & Hc2 & Hsub). exists c2. split; [done|].
  destruct (mark_marks c') as [x Hx]. exists x. by eapply lookup_weaken.
Qed.

End edit.
