(* ===== verification/SltWitness.v ===== *)
(** The service level test over the system of SystemWitness.v: its requests are
    answered by the handlers of the API, and tags are encoded as numbers; and its
    edit of an object that a client then sends. *)
From Stdlib Require Import Ascii.
From stdpp Require Import base gmap strings list option numbers sets relations countable.
From S2P Require Import Prelude GoStrings GoTime Encoding Registry MemDynamo Database Db Sqs MemDb EventHandler Web Handlers HandlersThms ApiWitness SyncParser SyncController SyncThms SyncWitness ClusterController System SystemWitness ConcurrentSystem ConcurrentWitness Slt SltThms SltFlow.
Import ClusterReconciler.

Local Open Scope Z_scope.

(** ** JSON of the tags *)

Fixpoint digits (p : positive) : string :=
  match p with
  | xH => ""
  | xO p => String "0"%char (digits p)
  | xI p => String "1"%char (digits p)
  end.
Fixpoint undigits (s : string) : positive :=
  match s with
  | String c s => if bool_decide (c = "0"%char) then xO (undigits s) else if bool_decide (c = "1"%char) then xI (undigits s) else xH
  | EmptyString => xH
  end.
Lemma undigits_digits p : undigits (digits p +:+ newline) = p.
Proof. induction p as [p IH|p IH|]; cbn; [by rewrite IH..|reflexivity]. Qed.

Definition slt_json (p : payload) : string := match p with PSpec sp => digits (encode (Tags sp)) | _ => "" end.
Definition slt_unmarshal (body : string) : ClusterSpec * error :=
  (set_Tags (default None (countable.decode (undigits body))) zeroSpec, nil_error).

(** ** The environment *)

Definition get_ctx (name : string) : Web.Context := mkCtx "GET" "/" "/" {["name" := name]} ∅ "" "" ∅ false 0 ∅ "".
(** The object of the cluster before the test edits it. *)
Definition shop_tack : Cluster := update_Spec (set_Tags (Some {[tagSLT := "Tack"]})) shop.

#[global] Instance DemoSlt : SltEnv World := {
  LookupEnv k := if bool_decide (k = "PAGE_NR") then None else Some "shop";
  slt_fraction f u s := f * u / s;
  slt_Now := mret 0;
  SPToken := unit;
  ServicePrincipalToken client secret tenant := mret (inl "the secret has expired");
  RefreshExchange t resource := mret (t, nil_error);
  AccessToken t := "jwt";
  NewRequest url := nil_error;
  HttpDo url bearer := λ w,
    let r' := (V2.GetCluster slt_json (mkReq w (get_ctx (drop_str 27 url)))).2 in
    (Ret (inr (resp_Status (ctx r'), (resp_Body (ctx r'), None))), world r');
  unmarshal_Spec := slt_unmarshal;
  unmarshal_Specs body := ([], nil_error);
  kube_GetConfig := mret nil_error;
  kube_NewForConfig := mret nil_error;
  kube_List ns := mret ("clusters", nil_error);
  unmarshal_List raw := ([shop_tack], nil_error);
  marshal_Cluster c := (Name (Spec c), nil_error);
  kube_Patch ns name data := mret nil_error }.

Definition no_wait (d : Z) : M (Slt World) () := mret ().
Definition slt0 : Slt World := mkSlt (server sys3) "jwt" ∅ ∅ [] [].
Definition conf0 : TestConfig := mkTestConfig "http://api" "cluster-registry".

(** ** Witnesses *)

Lemma e2e_status_truthful_witness :
  let s' := (RunE2eTest no_wait 0 (ATest conf0) slt0).2 in
  TestStatus s' !! MetricLabel = Some 1 ∧
  ∃ jwt s0 start s1,
    readToken no_wait 0 slt0 = (Ret jwt, s0) ∧ in_slt slt_Now s0 = (Ret start, s1) ∧
    ∃ n s2, confirmed no_wait conf0 jwt n s1 s2.
Proof.
  intros s'. assert (TestStatus s' !! MetricLabel = Some 1) as H1 by (vm_compute; reflexivity). split; [exact H1|].
  destruct (e2e_status_truthful no_wait 0 conf0 slt0 s') as (jwt & s0 & start & s1 & Hj & _ & Hn & Hiff & _).
  { assert (∀ m : M (Slt World) (), (m slt0).1 = Ret () → m slt0 = (Ret (), (m slt0).2)) as Hpair
      by (intros m Hm; destruct (m slt0); cbn in *; congruence).
    apply Hpair. vm_compute. reflexivity. }
  exists jwt, s0, start, s1. split_and!; [exact Hj|exact Hn|by apply Hiff].
Defined.

Lemma failed_refresh_drops_token_witness :
  ∃ s', RefreshToken slt0 = (Ret (), s') ∧ token s' = "" ∧
    (readToken no_wait 100 s').1 = OutOfFuel ∧
    (RefreshToken s').1 = Panic "exit status 1: error getting jwt token: the secret has expired".
Proof.
  destruct (failed_refresh_drops_token no_wait "shop" "shop" "shop" "shop" slt0 "" "the secret has expired" (server sys3))
    as (s' & Hrun & Ht & _ & Hwait & Hexit).
  - repeat split.
  - done.
  - reflexivity.
  - exists s'. split_and!; [exact Hrun|exact Ht|by apply Hwait|]. by apply (Hexit "" _ (slt_world s')).
Defined.

Lemma sys3_posted id p : posted sys3 !! id = Some p → p = m1 ∨ p = m2.
Proof.
  change (posted sys3) with (<["2" := m2]> {["1" := m1]} : gmap string Posted).
  intros [[_ <-]|[_ [_ <-]%lookup_singleton_Some]]%lookup_insert_Some; auto.
Qed.

Lemma settled_check_passes_witness :
  ∃ σ', checkAPIforUpdate "http://api" "shop" "Tick" "jwt" slt0 = (Ret None, σ').
Proof.
  apply (settled_check_passes (Invalidate := mem_Invalidate) mem_unmarshal (λ _, "") two_handlers two_handlers
    two_handlers no_handlers last_wins message_of slt_json (mkCSys sys3 [] []) slt0 "http://api" "jwt" "shop" "Tick" m1 shop).
  - apply serial_reachable, sys3_reachable.
  - vm_compute. reflexivity.
  - apply sys3_drained.
  - split; [by exists "1"|]. split_and!; [reflexivity..|]. intros id p c [-> | ->]%sys3_posted Hc _; done.
  - intros p c ([id [-> | ->]%sys3_posted] & Ho & _); [|done]. injection Ho as <-. reflexivity.
  - vm_compute. naive_solver.
  - intros sp. eexists. split; [reflexivity|]. cbn. rewrite undigits_digits, decode_encode. reflexivity.
  - split; [done|]. exists (get_ctx "shop"), (world (V2.GetCluster slt_json (mkReq (server sys3) (get_ctx "shop"))).2).
    split_and!; [reflexivity..|]. cbn [HttpDo DemoSlt slt_world slt0].
    replace (drop_str 27 _) with "shop" by reflexivity. reflexivity.
Defined.

(** ** The test in a cluster with a client: a merge patch is the annotations as a
    number *)

Definition annotations_of (data : string) : gmap string string := default ∅ (countable.decode (undigits (data +:+ newline))).
Definition patched (ns n data : string) (w : Node) : Cluster :=
  let c := default shop (nd_stored w !! (ns, n)) in
  set_metadata (mkObjectMeta n ns (Some (annotations_of data ∪ gm (GetAnnotations c))) "3" []) c.

#[global] Instance NodeSlt : SltEnv Node := {
  LookupEnv k := None;
  slt_fraction f u s := f * u / s;
  slt_Now := mret 0;
  SPToken := unit;
  ServicePrincipalToken client secret tenant := mret (inl "the secret has expired");
  RefreshExchange t resource := mret (t, nil_error);
  AccessToken t := "jwt";
  NewRequest url := nil_error;
  HttpDo url bearer := mret (inl "connection refused");
  unmarshal_Spec := slt_unmarshal;
  unmarshal_Specs body := ([], nil_error);
  kube_GetConfig := mret nil_error;
  kube_NewForConfig := mret nil_error;
  kube_List ns := mret ("clusters", nil_error);
  unmarshal_List raw := ([shop_tack], nil_error);
  marshal_Cluster c := (digits (encode (gm (GetAnnotations c))), nil_error);
  kube_Patch ns n data := (_ ← modify (λ w, mkNode (<[(ns, n) := patched ns n data w]> (nd_objects w)) (nd_sent w)); mret nil_error) }.

Lemma node_patch_law ns n c data (w w' : Node) :
  marshal_Cluster c = (data, None) → kube_Patch ns n data w = (Ret None, w') →
  ∃ c', stored w' !! (ns, n) = Some c' ∧ gm (GetAnnotations c) ⊆ gm (GetAnnotations c').
Proof.
  intros [= <-] [= <-]. exists (patched ns n (digits (encode (gm (GetAnnotations c)))) w). split.
  - apply map_lookup_filter_Some. split; [apply lookup_insert_eq|done].
  - unfold patched, annotations_of. rewrite undigits_digits, decode_encode. apply map_union_subseteq_l.
Qed.

Definition node_slt0 : Slt Node := mkSlt node "jwt" ∅ ∅ [] [].
Definition node_slt1 : Slt Node := (updateCrd "cluster-registry" node_slt0).2.
Definition edited_node : Node := slt_world node_slt1.

