(* ===== verification/Server.v ===== *)
(** cmd/apiserver/apiserver.go: the API server is put together and started, and
    what a request without a valid token can get from it.

    The client of Redis, the goroutine that polls the queue and the listener are
    the parameter [Runtime]. *)
From Stdlib Require Import Ascii.
From stdpp Require Import base gmap strings list option numbers sets.
From S2P Require Import Prelude GoStrings GoRegexp Registry Monitoring DynamoDB Filter Database Config Sqs Db EventHandler Web Auth Handlers GoMem MetricsInit Router.

Local Open Scope Z_scope.

(** ** The options of the Redis client *)

Record TLSConfig := mkTLS { MinVersion : string; ServerName : string }.
Record RedisOptions := mkRedis { Addr : string; TLS : option TLSConfig }.

(** A field of an address: one to three digits, at most 255, no leading zero. *)
Definition octet (s : string) : bool :=
  match s with
  | String a "" => is_digit a
  | String a (String b "") => is_digit a && is_digit b && negb (bool_decide (a = "0"%char))
  | String a (String b (String c "")) =>
     is_digit a && is_digit b && is_digit c && negb (bool_decide (a = "0"%char)) &&
     (digit_val a * 100 + digit_val b * 10 + digit_val c <=? 255)
  | _ => false
  end.
(** Whether [net.ParseIP] accepts a text without colons: four fields. *)
Definition is_ipv4 (s : string) : bool :=
  match Split s "." with
  | [a; b; c; d] => octet a && octet b && octet c && octet d
  | _ => false
  end.

(** The host has no colon, and [ParseIP] reads an address without one as IPv4. *)
Definition redis_options (cfg : AppConfig) : RedisOptions :=
  let addr := ApiCacheRedisHost cfg in
  if ApiCacheRedisTLSEnabled cfg
  then
    let redisHost := default "" (head (Split addr ":")) in
    mkRedis addr (Some (mkTLS "TLS12" (if is_ipv4 redisHost then "" else redisHost)))
  else mkRedis addr None.

Definition queue_config (cfg : AppConfig) : Sqs.Config :=
  Sqs.mkConfig (SqsAwsRegion cfg) (SqsQueueName cfg) (SqsEndpoint cfg) "" 0 (SqsBatchSize cfg)
    (SqsWaitSeconds cfg) 120 false (SqsRunInterval cfg) 10 30 false false.

(** ** main *)

Class Runtime (W : Type) := {
  (** [redisClient.Info]: an error when Redis does not answer. *)
  redis_Info : RedisOptions → M W error;
  (** [go q.Poll()]: from here on the queue's messages go to the handler. *)
  go_Poll : Sqs.Config → (Message → M W ()) → M W ();
  (** [a.Start]: serves until it fails. *)
  Start : Echo W → string → M W werr;
  swagger_handler : HandlerFunc W;
  promhttp_handler : M (Req W) () }.

Section main.
Context `{EchoMiddleware W} `{!OIDC W} `{!Runtime W} `{!Prometheus W} `{!SQSService W}.
Context (json : payload → string) (unmarshal : string → Cluster * error).
(** The database of a table and an index, and the handlers on it (Handlers.v). *)
Context (open_db : Database.db → Db W) (handlers : AppConfig → Db W → Handlers W).
(** What the metrics record (Monitoring.v): egress calls and requests. *)
Context (record_egress_call : Api.Metrics → string → M W ()) (record_request : Api.Metrics → string → string → string → M W ()).
(** The cache on a Redis client. *)
Context (cache_Get : RedisOptions → string → M W (string * error)).
Context (cache_Set : RedisOptions → string → string → Z → list string → M W error).
Context (Invalidate : RedisOptions → list string → M W error).
Context (gob_encode : Response → string) (gob_decode : string → Response).
Context (Version_ : string).

(** web/metrics.go *)
Definition web_Metrics : HandlerFunc W := _ ← promhttp_handler; mret nil_werror.

(** The routes that need no token. *)
Definition public_routes (d : Db W) (q : Sqs.Config) (e : Echo W) : Echo W :=
  let e := GET "/api/swagger/*" swagger_handler e in
  let e := GET "/livez" Livez e in
  let e := GET "/readyz" (Readyz json db_Status_ (sqs_Status q)) e in
  let e := GET "/version" (Version Version_) e in
  GET "/metrics" web_Metrics e.

Definition routes (cfg : AppConfig) (m : Api.Metrics) (d : Db W) (q : Sqs.Config) : M W (Echo W) :=
  let redis := redis_options cfg in
  let a := public_routes d q NewRouter in
  let '(v1, a) := echo_Group "/api/v1" [] a in
  a ← v1_Register json (record_egress_call m) cfg (handlers cfg d) (cache_Get redis) (cache_Set redis)
        gob_encode gob_decode v1 a;
  let '(v2, a) := echo_Group "/api/v2" [] a in
  v2_Register json (record_egress_call m) cfg (handlers cfg d) (cache_Get redis) (cache_Set redis)
    gob_encode gob_decode v2 a.

(** The level of the log and the host that the documentation names are left
    out.  The goroutine that polls the queue is started by [go_Poll]. *)
Definition main (Getenv : string → string) (fraction : Z → Z → Z → Z) : M W () :=
  match LoadApiConfig Getenv fraction with
  | inl err => Fatalf ("Cannot load the api configuration: '" +:+ err +:+ "'")
  | inr cfg =>
     m ← Api.NewMetrics "cluster_registry_api" false;
     let d := open_db (NewDb (DbTableName cfg) (DbIndexName cfg)) in
     '(q, err) ← NewSQS (queue_config cfg);
     match err with
     | Some e => Fatalf ("Cannot create SQS client: " +:+ e)
     | None =>
        q ← lift (deref q);
        let redis := redis_options cfg in
        err ← redis_Info redis;
        match err with
        | Some e => Fatalf ("Cannot connect to redis: " +:+ e)
        | None =>
           let q := RegisterHandler q in
           a ← routes cfg m d q;
           _ ← go_Poll q (@on_message W d _ unmarshal q (Invalidate redis));
           let a := Use (handlerFunc (record_request m) (Api.URLLabelFromContext m)) a in
           err ← Start a ":8080";
           Fatalf (NewError err)
        end
     end
  end.
End main.

(** The host of the certificate. *)
Lemma Split_first host rest sep :
  all_chars (λ c, negb (bool_decide (c = sep))) host = true → Split (host +:+ String sep rest) sep = host :: Split rest sep.
Proof.
  induction host as [|c host IH]; cbn; intros Hh.
  - by rewrite bool_decide_eq_true_2.
  - apply andb_prop in Hh as [Hc Hh]. apply negb_true_iff in Hc. by rewrite Hc, IH.
Qed.

(** With TLS the certificate of Redis is checked against the text in front of
    the first colon of its address, unless that is an IPv4 address. *)
Theorem redis_ServerName cfg host rest :
  all_chars (λ c, negb (bool_decide (c = ":"%char))) host = true →
  ApiCacheRedisHost cfg = host +:+ String ":" rest → ApiCacheRedisTLSEnabled cfg = true →
  TLS (redis_options cfg) = Some (mkTLS "TLS12" (if is_ipv4 host then "" else host)).
Proof. intros Hh Ha Ht. unfold redis_options. by rewrite Ht, Ha, Split_first. Qed.

(** So an IPv6 address gives a name no certificate has. *)
Example redis_ipv6 cfg :
  ApiCacheRedisHost cfg = "[2001:db8::1]:6379" → ApiCacheRedisTLSEnabled cfg = true →
  ServerName <$> TLS (redis_options cfg) = Some "[2001".
Proof. intros Ha Ht. unfold redis_options. by rewrite Ht, Ha. Qed.

(** ** Requests without a token *)

Section gate.
Context `{EchoMiddleware W} `{!OIDC W} `{!Runtime W} `{!SQSService W} (json : payload → string).
(** What only the handlers of the API read or change. *)
Context {V : Type} (view : W → V).

(** No token in the request's header is accepted, by whatever provider. *)
Definition unaccepted (cfg : AppConfig) (c : Context) : Prop :=
  ∀ (p : Provider) raw tok, extractToken (req_Authorization c) = (raw, None) → ¬ accepted (Verifier_Verify p) cfg raw tok.
Definition stranger (cfg : AppConfig) (r : Req W) : Prop := committed (ctx r) = false ∧ unaccepted cfg (ctx r).

(** A middleware that calls the next handler once at most, with the same
    header and before any response is on its way, and leaves the view alone. *)
Definition single_call (mw : MiddlewareFunc W) : Prop := ∀ r, committed (ctx r) = false →
  (∃ res, (∀ next, mw next r = res) ∧ view (world res.2) = view (world r)) ∨
  ∃ r1 k, view (world r1) = view (world r) ∧ committed (ctx r1) = false ∧
    req_Authorization (ctx r1) = req_Authorization (ctx r) ∧
    (∀ next, mw next r = k (next r1)) ∧ ∀ res, view (world (k res).2) = view (world res.2).

(** Two handlers that a stranger cannot tell apart and which leave the view alone. *)
Definition closed (cfg : AppConfig) (h h' : HandlerFunc W) : Prop := ∀ r, stranger cfg r →
  h r = h' r ∧ view (world (h r).2) = view (world r).

Lemma closed_frame cfg h : (∀ r, view (world (h r).2) = view (world r)) → closed cfg h h.
Proof. by intros Hf r _. Qed.

Lemma closed_single cfg mw h h' : single_call mw → closed cfg h h' → closed cfg (mw h) (mw h').
Proof.
  intros Hmw Hh r [Hc Hu]. destruct (Hmw r Hc) as [(res & E & V1)|(r1 & k & V1 & C1 & A1 & E & K)].
  - by rewrite !E.
  - destruct (Hh r1) as [Eh Vh].
    { split; [done|]. intros p raw tok. rewrite A1. apply Hu. }
    rewrite !E, Eh. split; [done|]. by rewrite K, <- Eh, Vh.
Qed.

Lemma closed_apply cfg ms h h' :
  Forall single_call ms → closed cfg h h' → closed cfg (applyMiddleware h ms) (applyMiddleware h' ms).
Proof. intros Hms Hh. induction Hms as [|m ms Hm _ IH]; [done|]. by apply closed_single. Qed.

Context (record_egress_call : string → M W ()).
Context (Verify_ok : ∀ p id raw w, ∃ tok err w', Verifier_Verify p id raw w = (Ret (tok, err), w') ∧
  (err = None → is_Some tok)).
Context (record_ok : ∀ target w, ∃ w', record_egress_call target w = (Ret (), w')).
Context (Verify_frame : ∀ p id raw w, view (Verifier_Verify p id raw w).2 = view w).
Context (record_frame : ∀ target w, view (record_egress_call target w).2 = view w).

(** The token check turns a stranger away without asking the next handler. *)
Lemma closed_token cfg a h h' :
  closed cfg (verify_token json record_egress_call cfg a h) (verify_token json record_egress_call cfg a h').
Proof.
  intros r [Hc Hu]. unfold verify_token.
  pose proof (VerifyToken_run json (Verifier_Verify (a_provider a)) token_Claims record_egress_call
    (Verify_ok (a_provider a)) record_ok view (Verify_frame (a_provider a)) record_frame cfg) as Hrun.
  destruct (Hrun h r Hc) as [(r1 & E1 & V1 & _)|(raw & tok & _ & _ & Hx & Ha & _)]; [|by destruct (Hu _ _ _ Hx Ha)].
  rewrite E1. split; [|done]. rewrite <- E1. clear r1 E1 V1 Hrun.
  unfold VerifyToken. rewrite !bind_gets.
  destruct (extractToken _) as [raw [e|]] eqn:Hx; [done|].
  destruct (verify_run (Verifier_Verify (a_provider a)) token_Claims record_egress_call (Verify_ok _) record_ok view (Verify_frame _) record_frame cfg raw (world r))
    as (tok & err & w1 & Hv & _ & Hacc).
  rewrite !(bind_run _ _ _ _ _ (on_world_run _ _ _ _ Hv)).
  destruct err as [e|]; [done|]. destruct (Hacc eq_refl) as (t & -> & Ht). by destruct (Hu _ _ _ Hx Ht).
Qed.

(** The request metrics call the next handler once. *)
Lemma handlerFunc_single record label :
  label = "" → (∀ code method url w, view (record code method url w).2 = view w) →
  single_call (handlerFunc record label).
Proof.
  intros -> Hrec r Hc. right. unfold handlerFunc.
  destruct (decide (req_Path (ctx r) = "/metrics")) as [Hp|Hp].
  - exists r, id. split_and!; [done..| |done]. intros next. by rewrite bind_gets, bool_decide_eq_true_2.
  - exists r, (λ res, ((λ _, res) ≫= λ err,
      c' ← gets ctx; url ← url_label "" c';
      _ ← on_world (record (decimal 5 (status_of err (resp_Status c')) "") (req_Method c') url); mret err) r).
    split_and!; [done..| |].
    + intros next. rewrite bind_gets, bool_decide_eq_false_2 by done. done.
    + intros [[err|e|] r2]; [|done..]. unfold url_label. rewrite bool_decide_eq_false_2 by (intros Hne; by apply Hne).
      unfold mbind, M_bind. cbn. unfold on_world. set (t := record _ _ _). pose proof (Hrec _ _ _ (world r2) : view (t (world r2)).2 = _) as Hf.
      destruct (t (world r2)) as [[]]; done.
Qed.

(** ** The server as a whole *)

Context `{!Prometheus W} (record_request : string → string → string → M W ()).
Context (cache_Get : string → M W (string * error)) (cache_Set : string → string → Z → list string → M W error).
Context (gob_encode : Response → string) (gob_decode : string → Response) (version : string).
Context (Find : list (string * string) → Context → werr + nat * Context).
Context (d : Db W) (q : Sqs.Config) (cfg : AppConfig).

(** The server [main] starts, for two authenticators. *)
Definition server (a1 a2 : Authenticator) (h : Handlers W) : Echo W :=
  let a := public_routes json version d q NewRouter in
  let '(v1, a) := echo_Group "/api/v1" [] a in
  let a := v1_routes json record_egress_call cfg h cache_Get cache_Set gob_encode gob_decode a1 v1 a in
  let '(v2, a) := echo_Group "/api/v2" [] a in
  let a := v2_routes json record_egress_call cfg h cache_Get cache_Set gob_encode gob_decode a2 v2 a in
  Use (handlerFunc record_request "") a.

(** The documented behaviour of echo: the search keeps the request, and its
    middlewares pass it on at most once.  Status checks, the pages of the
    documentation and of the metrics, and the recording of metrics are not
    part of the view. *)
Context (Find_keeps : ∀ keys c n c', Find keys c = inr (n, c') →
  committed c' = committed c ∧ req_Authorization c' = req_Authorization c).
Context (echo_single : Forall single_call
  [RemoveTrailingSlash; Logger; CORSWithConfig cors; RequestIDWithConfig new_uuid]).
Context (request_frame : ∀ code method url w, view (record_request code method url w).2 = view w).
Context (db_status_frame : ∀ w, view (db_Status_ w).2 = view w).
Context (sqs_status_frame : ∀ w, view (sqs_Status q w).2 = view w).
Context (pages_frame : ∀ r, view (world (swagger_handler r).2) = view (world r) ∧
  view (world (promhttp_handler r).2) = view (world r)).

Definition same_route (rt rt' : Route W) : Prop :=
  route_key rt = route_key rt' ∧
  closed cfg (applyMiddleware (rt_Handler rt) (rt_Middleware rt)) (applyMiddleware (rt_Handler rt') (rt_Middleware rt')).

Lemma checkStatus_frame (status : M W error) r :
  (∀ w, view (status w).2 = view w) → view (world (checkStatus status r).2) = view (world r).
Proof.
  intros Hf. specialize (Hf (world r)). unfold checkStatus, mbind, M_bind, on_world.
  destruct (status (world r)) as [[]]; done.
Qed.

Lemma Readyz_frame r : view (world (Readyz json db_Status_ (sqs_Status q) r).2) = view (world r).
Proof.
  unfold Readyz. unfold mbind, M_bind.
  pose proof (checkStatus_frame db_Status_ r db_status_frame) as F1.
  destruct (checkStatus _ r) as [[b1|e|] r1]; [|done..]. cbn in F1. rewrite <- F1.
  pose proof (checkStatus_frame (sqs_Status q) r1 sqs_status_frame) as F2.
  destruct (checkStatus _ r1) as [[b2|e|] r2]; [|done..]. cbn in F2. rewrite <- F2.
  by destruct (negb b1 || negb b2).
Qed.

Lemma same_routes a1 a2 h h' : Forall2 same_route (e_Routes (server a1 a2 h)) (e_Routes (server a1 a2 h')).
Proof.
  repeat (apply Forall2_cons; split); [..|by constructor];
    (split; [reflexivity|]); first [apply closed_token | apply closed_frame; intros r].
  - apply pages_frame.
  - done.
  - apply Readyz_frame.
  - done.
  - pose proof (proj2 (pages_frame r)) as F. cbn. unfold web_Metrics, mbind, M_bind.
    destruct (promhttp_handler r) as [[]]; done.
Qed.

Lemma server_middleware a1 a2 h : Forall single_call (e_Pre (server a1 a2 h)) ∧ Forall single_call (e_Use (server a1 a2 h)).
Proof.
  rewrite !Forall_cons in echo_single. destruct echo_single as (? & ? & ? & ? & _).
  split; cbn; repeat (apply Forall_cons; split; [first [done|by apply handlerFunc_single]|]); by apply Forall_nil.
Qed.

Lemma closed_route_request a1 a2 h h' :
  closed cfg (route_request Find (server a1 a2 h)) (route_request Find (server a1 a2 h')).
Proof.
  assert (∀ err : werror, closed cfg (mret err) (mret err)) as Hret by (intros err; by apply closed_frame).
  intros r Hr. unfold route_request. pose proof (same_routes a1 a2 h h') as Hrs.
  destruct (server_middleware a1 a2 h) as [_ Huse]. change (e_Use (server a1 a2 h')) with (e_Use (server a1 a2 h)).
  change (route_key <$> e_Routes (server a1 a2 h')) with (route_key <$> e_Routes (server a1 a2 h)).
  destruct (Find _ (ctx r)) as [err|[n c]] eqn:Ef.
  { exact (closed_apply cfg _ _ _ Huse (Hret (Some err)) r Hr). }
  destruct (Find_keeps _ _ _ _ Ef) as [Hc Ha].
  destruct (e_Routes (server a1 a2 h) !! n) as [rt|] eqn:E1.
  - destruct (Forall2_lookup_l _ _ _ _ _ Hrs E1) as (rt' & E2 & _ & Hclosed). rewrite E2.
    destruct (closed_apply cfg _ _ _ Huse Hclosed (mkReq (world r) c)); [|done].
    destruct Hr as [Hr1 Hr2]. split; [by rewrite <- Hr1, <- Hc|].
    intros p raw tok Hx. apply (Hr2 p). cbn in Hx. by rewrite <- Ha.
  - apply Forall2_length in Hrs. apply lookup_ge_None in E1. rewrite Hrs in E1. apply lookup_ge_None in E1.
    rewrite E1. exact (closed_apply cfg _ _ _ Huse (Hret _) r Hr).
Qed.

(** C10: A request whose header holds no token that a provider accepts gets an
    answer that does not depend on the handlers of the API, whatever its method
    and path, and changes nothing of what they work on: every route but
    the documentation, the probes, the version and the metrics is behind the
    token check. *)
Theorem no_token_no_handler a1 a2 h h' r :
  stranger cfg r →
  ServeHTTP Find json (server a1 a2 h) r = ServeHTTP Find json (server a1 a2 h') r ∧
  view (world (ServeHTTP Find json (server a1 a2 h) r).2) = view (world r).
Proof.
  intros Hr. unfold ServeHTTP. change (e_Pre (server a1 a2 h')) with (e_Pre (server a1 a2 h)).
  destruct (server_middleware a1 a2 h) as [Hpre _].
  destruct (closed_apply cfg _ _ _ Hpre (closed_route_request a1 a2 h h') r Hr) as [E V1].
  unfold mbind, M_bind. rewrite <- E. split; [done|]. rewrite <- V1.
  destruct (applyMiddleware _ _ r) as [[[err|]|e|] r1]; [|done..].
  unfold c_Error, mbind, M_bind. cbn. by destruct (committed (ctx r1)).
Qed.
End gate.

(** ** Starting the server *)

Section start.
Context `{EchoMiddleware W} `{!OIDC W} `{!Runtime W} `{!Prometheus W} `{!SQSService W}.
Context (json : payload → string) (unmarshal : string → Cluster * error).
Context (open_db : Database.db → Db W) (handlers : AppConfig → Db W → Handlers W).
Context (record_egress_call : Api.Metrics → string → M W ()) (record_request : Api.Metrics → string → string → string → M W ()).
Context (cache_Get : RedisOptions → string → M W (string * error)).
Context (cache_Set : RedisOptions → string → string → Z → list string → M W error).
Context (Invalidate : RedisOptions → list string → M W error).
Context (gob_encode : Response → string) (gob_decode : string → Response) (version : string).

(** The pollers that run; only [go_Poll] starts one before the server serves. *)
Context (polls : W → nat).
Context (collector_frame : ∀ r o w, polls (promauto_New r o w).2 = polls w).
Context (queue_frame : ∀ n w, polls (svc_GetQueueUrl n w).2 = polls w).
Context (redis_frame : ∀ o w, polls (redis_Info o w).2 = polls w).
Context (provider_frame : ∀ u w, polls (NewProvider u w).2 = polls w).

Lemma keeps_register_loop reg s ds metric m : keeps polls (Api.register_loop reg s ds metric m).
Proof.
  revert metric m. induction ds as [|d ds IH]; intros metric m; [done|]. cbn [Api.register_loop].
  apply keeps_bind; [|intros metric'; apply keeps_bind; [|auto]].
  - unfold Api.new_metric. repeat case_bool_decide; [apply keeps_bind; [intros w; apply collector_frame|done]..|done].
  - unfold Api.assign, Api.assert_kind. destruct m, metric'; repeat case_bool_decide; done.
Qed.
Lemma keeps_NewMetrics s : keeps polls (Api.NewMetrics s false).
Proof. apply keeps_bind; [done|]. intros reg. apply keeps_register_loop. Qed.
Lemma keeps_NewSQS c : keeps polls (NewSQS c).
Proof.
  unfold NewSQS. destruct (validateConfig c); [done|]. case_bool_decide; [|done].
  apply keeps_bind; [intros w; apply queue_frame|]. intros [[url|] [e|]]; done.
Qed.
Lemma keeps_authenticator cfg : keeps polls (new_authenticator cfg).
Proof.
  unfold new_authenticator, NewAuthenticator. apply keeps_bind.
  - apply keeps_bind; [intros w; apply provider_frame|]. intros [[p|] [e|]]; done.
  - intros [[a|] [e|]]; done.
Qed.

Lemma keeps_routes cfg m d q :
  keeps polls (routes json handlers record_egress_call cache_Get cache_Set gob_encode gob_decode version cfg m d q).
Proof.
  assert (∀ {A} (k : Authenticator → A), keeps polls (a ← new_authenticator cfg; mret (k a))) as Hreg.
  { intros A k. apply keeps_bind; [apply keeps_authenticator|done]. }
  apply keeps_bind; [apply Hreg|intros a; apply Hreg].
Qed.

Lemma register_loop_label reg s ds metric m w m' w' :
  Api.register_loop reg s ds metric m w = (Ret m', w') → Api.URLLabelFromContext m' = Api.URLLabelFromContext m.
Proof.
  revert metric m w. induction ds as [|d ds IH]; intros metric m w; cbn [Api.register_loop]; [by intros [= <- _]|].
  intros E. apply bind_Ret_inv in E as (metric' & w1 & _ & E). apply bind_Ret_inv in E as (m1 & w2 & Ea & E).
  rewrite (IH _ _ _ E). clear -Ea. destruct m. unfold Api.assign in Ea.
  repeat case_bool_decide; try (by injection Ea as <- _);
    apply bind_Ret_inv in Ea as (c & w3 & _ & Ea); by injection Ea as <- _.
Qed.
Lemma NewMetrics_label s u w m w' : Api.NewMetrics s u w = (Ret m, w') → Api.URLLabelFromContext m = "".
Proof.
  intros E. apply bind_Ret_inv in E as (reg & w1 & _ & E). exact (register_loop_label _ _ _ _ _ _ _ _ E).
Qed.

(** The server that is started, by the metrics, the queue and the authenticators. *)
Definition started (cfg : AppConfig) (m : Api.Metrics) (q : Sqs.Config) (a1 a2 : Authenticator) : Echo W :=
  let d := open_db (NewDb (DbTableName cfg) (DbIndexName cfg)) in
  server json (record_egress_call m) (record_request m) (cache_Get (redis_options cfg)) (cache_Set (redis_options cfg))
    gob_encode gob_decode version d q cfg a1 a2 (handlers cfg d).

Definition run_main := main json unmarshal open_db handlers record_egress_call record_request cache_Get cache_Set
  Invalidate gob_encode gob_decode version.

(** C20: [main] never returns: each of its ends is an exit with an error.  It
    polls the queue only once the configuration is loaded, the queue's
    configuration is valid and its client made, Redis has answered and a token
    provider is reached for each version of the API; what it then starts on port
    8080 is the server of [no_token_no_handler], with the messages' handler
    registered before the polling. *)
Theorem polls_only_when_ready Getenv fraction w :
  (∀ u, (run_main Getenv fraction w).1 ≠ Ret u) ∧
  (polls (run_main Getenv fraction w).2 ≠ polls w →
   ∃ cfg m q w1 w2 w3 a1 a2 w4 w5, LoadApiConfig Getenv fraction = inr cfg ∧
     validateConfig (queue_config cfg) = None ∧
     NewSQS (queue_config cfg) w1 = (Ret (Some q, None), w2) ∧
     redis_Info (redis_options cfg) w2 = (Ret None, w3) ∧
     new_authenticator cfg w3 = (Ret a1, w4) ∧ new_authenticator cfg w4 = (Ret a2, w5) ∧
     let q := RegisterHandler q in
     let d := open_db (NewDb (DbTableName cfg) (DbIndexName cfg)) in
     run_main Getenv fraction w =
       (_ ← go_Poll q (@on_message W d _ unmarshal q (Invalidate (redis_options cfg)));
        err ← Start (started cfg m q a1 a2) ":8080"; Fatalf (NewError err)) w5).
Proof.
  unfold run_main, main. split.
  - intros u. destruct (LoadApiConfig _ _) as [e|cfg]; [done|]. unfold mbind, M_bind. repeat case_match; simplify_eq; try done.
  - intros Hne. destruct (LoadApiConfig _ _) as [e|cfg] eqn:El; [done|].
    apply changed_bind in Hne as (m & w1 & E1 & _ & Hne); [|apply keeps_NewMetrics].
    apply changed_bind in Hne as ([q err] & w2 & E2 & _ & Hne); [|apply keeps_NewSQS].
    destruct err as [e|]; [done|]. destruct q as [q|]; [|done]. cbn [deref] in Hne. rewrite bind_lift in Hne.
    apply changed_bind in Hne as (err & w3 & E3 & _ & Hne); [|intros w'; apply redis_frame].
    destruct err as [e|]; [done|]. cbv zeta in Hne.
    apply changed_bind in Hne as (a & w5 & E4 & _ & Hne); [|apply keeps_routes].
    apply bind_Ret_inv in E4 as (e1 & w4 & Ev1 & Ev2).
    apply bind_Ret_inv in Ev1 as (a1 & w4' & Ea1 & Ev1). injection Ev1 as <- <-.
    pose proof Ev2 as Ev2'. apply bind_Ret_inv in Ev2' as (a2 & w5' & Ea2 & Ev2'). injection Ev2' as <- <-.
    exists cfg, m, q, w1, w2, w3, a1, a2, w4', w5'. split_and!; [done| |done..|].
    { unfold NewSQS in E2. by destruct (validateConfig _). }
    rewrite (bind_run _ _ _ _ _ E1), (bind_run _ _ _ _ _ E2). cbn [deref]. rewrite bind_lift, (bind_run _ _ _ _ _ E3).
    rewrite (NewMetrics_label _ _ _ _ _ E1).
    erewrite bind_run; [reflexivity|]. unfold routes, v1_Register. cbn [echo_Group catch_all g_middleware].
    rewrite (bind_run _ _ _ _ _ (bind_run _ _ _ _ _ Ea1)). exact Ev2.
Qed.
End start.
