(* ===== verification/Swagger.v ===== *)
(** pkg/apiserver/docs/docs.go: the Swagger document of the API, and how the
    API keeps to it: the operations it documents are the routes that are served,
    and the JSON of what the handlers answer has the documented types.

    Of the document the texts for readers (summaries, descriptions, tags, the
    media type, always JSON) are left out.  The encoding of the answers follows
    the tags of pkg/api/registry/v1/cluster_types.go, of the lists of
    web/handler/v1/response.go and web/handler/v2/response.go, and of
    errors/errors.go.  A slice or map without elements and without the option
    [omitempty] is null when it is nil; the registry's data does not tell nil
    from empty ([empty_is_nil]). *)
From Stdlib Require Import Ascii.
From stdpp Require Import base gmap strings list option numbers sets.
From S2P Require Import Prelude GoStrings Encoding DynamoDB Filter Database Db Config Sqs Web Auth Handlers HandlersThms Router Server Registry.

Local Open Scope Z_scope.

(** ** The document *)

Inductive schema :=
  | SString | SInteger | SBoolean | SAny
  | SEnum (values : list string)
  | SArray (items : schema)
  | SMap (additionalProperties : schema)
  | SRef (name : string)
  | SObject (properties : list (string * schema)).

Definition v1_ref (name : string) : schema := SRef ("github_com_adobe_cluster-registry_pkg_api_registry_v1." +:+ name).

Record Param := mkParam { p_name : string; p_in : string; p_type : schema; p_required : bool }.
(** An operation: its method, path and name, whether it needs the
    [bearerAuth] header, its parameters and its responses. *)
Record Operation := mkOperation {
  op_method : string; op_path : string; operationId : string; op_secured : bool;
  op_params : list Param; op_responses : list (Z * schema) }.

Definition doc_APIServer : schema := SObject [
    ("certificateAuthorityData", SString); ("endpoint", SString)].

Definition doc_AllowedOnboardingTeam : schema := SObject [
    ("gitTeams", (SArray SString)); ("ldapGroups", (SArray SString)); ("name", SString)].

Definition doc_AvailabilityZone : schema := SObject [
    ("id", SString); ("name", SString)].

Definition doc_Capacity : schema := SObject [
    ("clusterCapacity", SInteger); ("clusterCurrentBqu", SInteger); ("clusterMaxBqu", SInteger);
    ("clusterProvisioning", SInteger); ("lastUpdated", SString); ("maxBquPerRequest", SInteger)].

Definition doc_ClusterSpec : schema := SObject [
    ("accountId", SString); ("allowedOnboardingTeams", (SArray (v1_ref "AllowedOnboardingTeam")));
    ("apiServer", (v1_ref "APIServer")); ("argoInstance", SString);
    ("availabilityZones", (SArray (v1_ref "AvailabilityZone"))); ("businessUnit", SString);
    ("capabilities", (SArray SString)); ("capacity", (v1_ref "Capacity")); ("chargebackBusinessUnit", SString);
    ("chargedBack", SBoolean); ("cloudProviderRegion", SString); ("cloudType", SString);
    ("environment", SString); ("extra", (v1_ref "Extra")); ("lastUpdated", SString);
    ("maintenanceGroup", SString); ("managingOrg", SString); ("name", SString); ("offering", (SArray SString));
    ("peerVirtualNetworks", (SArray (v1_ref "PeerVirtualNetwork"))); ("phase", SString); ("region", SString);
    ("registeredAt", SString); ("services", (v1_ref "ServiceMetadata")); ("shortName", SString);
    ("status", SString); ("tags", (SMap SString)); ("tiers", (SArray (v1_ref "Tier"))); ("type", SString);
    ("virtualNetworks", (SArray (v1_ref "VirtualNetwork")))].

Definition doc_Extra : schema := SObject [
    ("domainName", SString); ("ecrIamArns", (SMap (SArray SString))); ("egressPorts", SString);
    ("extendedRegion", SString); ("lbEndpoints", (SMap SString)); ("loggingEndpoints", (SArray (SMap SString)));
    ("namespaceProfileInfraType", SString); ("nfsInfo", (SArray (SMap SString))); ("oidcIssuer", SString)].

Definition doc_PeerVirtualNetwork : schema := SObject [
    ("cidrs", (SArray SString)); ("id", SString); ("ownerID", SString)].

Definition doc_ServiceMetadata : schema := SMap (v1_ref "ServiceMetadataItem").

Definition doc_ServiceMetadataItem : schema := SMap (v1_ref "ServiceMetadataMap").

Definition doc_ServiceMetadataMap : schema := SMap SString.

Definition doc_Tier : schema := SObject [
    ("containerRuntime", SString); ("enableKataSupport", SBoolean); ("instanceType", SString);
    ("kernelParameters", (SMap SString)); ("labels", (SMap SString)); ("maxCapacity", SInteger);
    ("minCapacity", SInteger); ("name", SString); ("taints", (SArray SString))].

Definition doc_VirtualNetwork : schema := SObject [
    ("cidrs", (SArray SString)); ("id", SString)].

Definition doc_Error : schema := SObject [
    ("errors", (SMap SAny))].

Definition doc_v1_clusterList : schema := SObject [
    ("items", (SArray (v1_ref "ClusterSpec"))); ("itemsCount", SInteger); ("limit", SInteger);
    ("more", SBoolean); ("offset", SInteger)].

Definition doc_v2_ClusterSpec : schema := SObject [
    ("phase", (SEnum ["Building"; "Testing"; "Running"; "Upgrading"]));
    ("status", (SEnum ["Inactive"; "Active"; "Deprecated"; "Deleted"])); ("tags", (SMap SString))].

Definition doc_v2_clusterList : schema := SObject [
    ("items", (SArray (v1_ref "ClusterSpec"))); ("itemsCount", SInteger); ("limit", SInteger);
    ("more", SBoolean); ("offset", SInteger)].

(** The table of the definitions. *)
Definition definitions : list (string * schema) := [
  ("github_com_adobe_cluster-registry_pkg_api_registry_v1.APIServer", doc_APIServer);
  ("github_com_adobe_cluster-registry_pkg_api_registry_v1.AllowedOnboardingTeam", doc_AllowedOnboardingTeam);
  ("github_com_adobe_cluster-registry_pkg_api_registry_v1.AvailabilityZone", doc_AvailabilityZone);
  ("github_com_adobe_cluster-registry_pkg_api_registry_v1.Capacity", doc_Capacity);
  ("github_com_adobe_cluster-registry_pkg_api_registry_v1.ClusterSpec", doc_ClusterSpec);
  ("github_com_adobe_cluster-registry_pkg_api_registry_v1.Extra", doc_Extra);
  ("github_com_adobe_cluster-registry_pkg_api_registry_v1.PeerVirtualNetwork", doc_PeerVirtualNetwork);
  ("github_com_adobe_cluster-registry_pkg_api_registry_v1.ServiceMetadata", doc_ServiceMetadata);
  ("github_com_adobe_cluster-registry_pkg_api_registry_v1.ServiceMetadataItem", doc_ServiceMetadataItem);
  ("github_com_adobe_cluster-registry_pkg_api_registry_v1.ServiceMetadataMap", doc_ServiceMetadataMap);
  ("github_com_adobe_cluster-registry_pkg_api_registry_v1.Tier", doc_Tier);
  ("github_com_adobe_cluster-registry_pkg_api_registry_v1.VirtualNetwork", doc_VirtualNetwork);
  ("github_com_adobe_cluster-registry_pkg_apiserver_errors.Error", doc_Error);
  ("pkg_apiserver_web_handler_v1.clusterList", doc_v1_clusterList);
  ("pkg_apiserver_web_handler_v2.ClusterSpec", doc_v2_ClusterSpec);
  ("pkg_apiserver_web_handler_v2.clusterList", doc_v2_clusterList)].

Definition op_v1_get_clusters : Operation := mkOperation "GET" "/v1/clusters"
    "v1-get-clusters" true
    [mkParam "region" "query" SString false;
     mkParam "environment" "query" SString false;
     mkParam "status" "query" SString false;
     mkParam "lastUpdated" "query" SString false;
     mkParam "offset" "query" SInteger false;
     mkParam "limit" "query" SInteger false]
    [(200, SRef "pkg_apiserver_web_handler_v1.clusterList");
     (500, SRef "github_com_adobe_cluster-registry_pkg_apiserver_errors.Error")].

Definition op_v1_get_cluster : Operation := mkOperation "GET" "/v1/clusters/{name}"
    "v1-get-cluster" true
    [mkParam "name" "path" SString true]
    [(200, v1_ref "ClusterSpec");
     (400, SRef "github_com_adobe_cluster-registry_pkg_apiserver_errors.Error");
     (500, SRef "github_com_adobe_cluster-registry_pkg_apiserver_errors.Error")].

Definition op_v2_get_clusters : Operation := mkOperation "GET" "/v2/clusters"
    "v2-get-clusters" true
    [mkParam "conditions" "query" (SArray SString) false;
     mkParam "offset" "query" SInteger false;
     mkParam "limit" "query" SInteger false]
    [(200, SRef "pkg_apiserver_web_handler_v2.clusterList");
     (500, SRef "github_com_adobe_cluster-registry_pkg_apiserver_errors.Error")].

Definition op_v2_get_cluster : Operation := mkOperation "GET" "/v2/clusters/{name}"
    "v2-get-cluster" true
    [mkParam "name" "path" SString true]
    [(200, v1_ref "ClusterSpec");
     (400, SRef "github_com_adobe_cluster-registry_pkg_apiserver_errors.Error");
     (500, SRef "github_com_adobe_cluster-registry_pkg_apiserver_errors.Error")].

Definition op_v2_patch_cluster : Operation := mkOperation "PATCH" "/v2/clusters/{name}"
    "v2-patch-cluster" true
    [mkParam "name" "path" SString true;
     mkParam "clusterSpec" "body" (SRef "pkg_apiserver_web_handler_v2.ClusterSpec") true]
    [(200, v1_ref "ClusterSpec");
     (400, SRef "github_com_adobe_cluster-registry_pkg_apiserver_errors.Error");
     (500, SRef "github_com_adobe_cluster-registry_pkg_apiserver_errors.Error")].

Definition op_v2_get_service_metadata : Operation := mkOperation "GET" "/v2/services/{serviceId}"
    "v2-get-service-metadata" true
    [mkParam "serviceId" "path" SString true;
     mkParam "conditions" "query" (SArray SString) false;
     mkParam "offset" "query" SInteger false;
     mkParam "limit" "query" SInteger false]
    [(200, SRef "pkg_apiserver_web_handler_v2.clusterList");
     (500, SRef "github_com_adobe_cluster-registry_pkg_apiserver_errors.Error")].

Definition op_v2_get_service_metadata_for_cluster : Operation := mkOperation "GET" "/v2/services/{serviceId}/cluster/{clusterName}"
    "v2-get-service-metadata-for-cluster" true
    [mkParam "serviceId" "path" SString true;
     mkParam "clusterName" "path" SString true]
    [(200, v1_ref "ClusterSpec");
     (400, SRef "github_com_adobe_cluster-registry_pkg_apiserver_errors.Error");
     (500, SRef "github_com_adobe_cluster-registry_pkg_apiserver_errors.Error")].

Definition paths : list Operation :=
  [op_v1_get_clusters;
   op_v1_get_cluster;
   op_v2_get_clusters;
   op_v2_get_cluster;
   op_v2_patch_cluster;
   op_v2_get_service_metadata;
   op_v2_get_service_metadata_for_cluster].

(** [SwaggerInfo]: the document is served for this path of the host. *)
Definition BasePath : string := "/api".

(** ** JSON *)

Inductive JSON :=
  | JNull | JBool (b : bool) | JNum (n : Z) | JStr (s : string)
  | JArr (l : list JSON) | JObj (l : list (string * JSON)).

Section encode.
Context (empty_is_nil : bool).

(** A field of a struct, and one with the option [omitempty]: values that are
    false, 0, nil or empty are left out. *)
Definition fld (k : string) (v : JSON) : list (string * JSON) := [(k, v)].
Definition omitempty (k : string) (empty : bool) (v : JSON) : list (string * JSON) := if empty then [] else [(k, v)].

Definition enc_list {A} (f : A → JSON) (l : list A) : JSON :=
  match l with [] => if empty_is_nil then JNull else JArr [] | _ => JArr (f <$> l) end.
Definition enc_map {A} (f : A → JSON) (m : gmap string A) : JSON :=
  if empty_is_nil && bool_decide (m = ∅) then JNull else JObj (prod_map id f <$> map_to_list m).
Definition enc_gomap {A} (f : A → JSON) (m : gomap A) : JSON :=
  match m with None => JNull | Some m => JObj (prod_map id f <$> map_to_list m) end.

Definition omit_str (k v : string) := omitempty k (bool_decide (v = "")) (JStr v).
Definition omit_list {A} (k : string) (f : A → JSON) (l : list A) := omitempty k (bool_decide (length l = 0%nat)) (enc_list f l).
Definition omit_map {A} (k : string) (f : A → JSON) (m : gmap string A) := omitempty k (bool_decide (size m = 0%nat)) (enc_map f m).

Definition enc_APIServer (a : APIServerInfo) : JSON :=
  JObj (fld "endpoint" (JStr (Endpoint a)) ++ fld "certificateAuthorityData" (JStr (CertificateAuthorityData a))).
Definition enc_Team (t : AllowedOnboardingTeam) : JSON :=
  JObj (fld "name" (JStr (team_Name t)) ++ omit_list "gitTeams" JStr (GitTeams t) ++ omit_list "ldapGroups" JStr (LdapGroups t)).
Definition enc_Extra (e : Extra) : JSON :=
  JObj (fld "domainName" (JStr (DomainName e)) ++ fld "lbEndpoints" (enc_map JStr (LbEndpoints e)) ++
    omit_list "loggingEndpoints" (enc_map JStr) (LoggingEndpoints e) ++
    omit_map "ecrIamArns" (enc_list JStr) (EcrIamArns e) ++ omit_str "egressPorts" (EgressPorts e) ++
    omit_list "nfsInfo" (enc_map JStr) (NFSInfo e) ++ omit_str "extendedRegion" (ExtendedRegion e) ++
    omit_str "oidcIssuer" (OidcIssuer e) ++ omit_str "namespaceProfileInfraType" (NamespaceProfileInfraType e)).
Definition enc_Tier (t : Tier) : JSON :=
  JObj (fld "name" (JStr (tier_Name t)) ++ fld "instanceType" (JStr (InstanceType t)) ++
    fld "containerRuntime" (JStr (ContainerRuntime t)) ++ fld "minCapacity" (JNum (MinCapacity t)) ++
    fld "maxCapacity" (JNum (MaxCapacity t)) ++ omit_map "labels" JStr (Labels t) ++ omit_list "taints" JStr (Taints t) ++
    omitempty "enableKataSupport" (negb (EnableKataSupport t)) (JBool (EnableKataSupport t)) ++
    omit_map "kernelParameters" JStr (KernelParameters t)).
Definition enc_VirtualNetwork (v : VirtualNetwork) : JSON :=
  JObj (fld "id" (JStr (vnet_ID v)) ++ fld "cidrs" (enc_list JStr (vnet_Cidrs v))).
Definition enc_Peer (v : PeerVirtualNetwork) : JSON :=
  JObj (omit_str "id" (peer_ID v) ++ omit_list "cidrs" JStr (peer_Cidrs v) ++ omit_str "ownerID" (OwnerID v)).
Definition enc_Capacity (c : Capacity) : JSON :=
  JObj (fld "lastUpdated" (JStr (cap_LastUpdated c)) ++ fld "clusterCapacity" (JNum (ClusterCapacity c)) ++
    fld "clusterProvisioning" (JNum (ClusterProvisioning c)) ++ fld "maxBquPerRequest" (JNum (MaxBQUPerRequest c)) ++
    fld "clusterMaxBqu" (JNum (ClusterMaxBQU c)) ++ fld "clusterCurrentBqu" (JNum (ClusterCurrentBQU c))).
Definition enc_AvailabilityZone (z : AvailabilityZone) : JSON :=
  JObj (fld "name" (JStr (az_Name z)) ++ omit_str "id" (az_ID z)).
Definition enc_Item (m : gmap string (gmap string string)) : JSON := enc_map (enc_map JStr) m.

Definition enc_ClusterSpec (s : ClusterSpec) : JSON :=
  JObj (fld "name" (JStr (Name s)) ++ fld "shortName" (JStr (ShortName s)) ++ fld "apiServer" (enc_APIServer (APIServer s)) ++
    fld "region" (JStr (Region s)) ++ fld "cloudType" (JStr (CloudType s)) ++
    fld "cloudProviderRegion" (JStr (CloudProviderRegion s)) ++ fld "environment" (JStr (Environment s)) ++
    fld "businessUnit" (JStr (BusinessUnit s)) ++ omit_str "chargebackBusinessUnit" (ChargebackBusinessUnit s) ++
    match ChargedBack s with Some b => fld "chargedBack" (JBool b) | None => [] end ++
    fld "managingOrg" (JStr (ManagingOrg s)) ++ fld "offering" (enc_list JStr (Offerings s)) ++
    fld "accountId" (JStr (AccountID s)) ++ fld "tiers" (enc_list enc_Tier (Tiers s)) ++
    fld "virtualNetworks" (enc_list enc_VirtualNetwork (VirtualNetworks s)) ++
    fld "registeredAt" (JStr (RegisteredAt s)) ++ fld "status" (JStr (Status s)) ++ fld "phase" (JStr (Phase s)) ++
    fld "maintenanceGroup" (JStr (MaintenanceGroup s)) ++ fld "argoInstance" (JStr (ArgoInstance s)) ++
    omit_str "type" (Type_ s) ++ fld "extra" (enc_Extra (ExtraInfo s)) ++
    omit_list "allowedOnboardingTeams" enc_Team (AllowedOnboardingTeams s) ++
    omit_list "capabilities" JStr (Capabilities s) ++ omit_list "peerVirtualNetworks" enc_Peer (PeerVirtualNetworks s) ++
    fld "lastUpdated" (JStr (LastUpdated s)) ++ omit_map "tags" JStr (gm (Tags s)) ++
    fld "capacity" (enc_Capacity (CapacityInfo s)) ++ omit_map "services" enc_Item (gm (ServiceMetadata s)) ++
    omit_list "availabilityZones" enc_AvailabilityZone (AvailabilityZones s)).

Definition enc_error (body : string) : JSON := JObj (fld "errors" (JObj (fld "body" (JStr body)))).

(** The items of a list are made, never nil. *)
Definition enc_page (items : list JSON) (count offset limit : Z) (more : bool) : JSON :=
  JObj (fld "items" (JArr items) ++ fld "itemsCount" (JNum count) ++ fld "offset" (JNum offset) ++
    fld "limit" (JNum limit) ++ fld "more" (JBool more)).
Definition enc_clusterList (l : clusterList) : JSON :=
  enc_page (enc_ClusterSpec <$> Items l) (ItemsCount l) (Offset l) (Limit l) (More l).
Definition enc_ServiceMetadata (m : Web.ServiceMetadataItem) : JSON :=
  JObj (fld "name" (JStr (sm_Name m)) ++ fld "services" (enc_gomap enc_Item (sm_ServiceMetadata m))).
Definition enc_serviceMetadataList (l : serviceMetadataList) : JSON :=
  enc_page (enc_ServiceMetadata <$> sl_Items l) (sl_ItemsCount l) (sl_Offset l) (sl_Limit l) (sl_More l).

Definition enc_payload (p : payload) : JSON :=
  match p with
  | PError b => enc_error b
  | PSpec sp => enc_ClusterSpec sp
  | PClusters l => enc_clusterList l
  | PService m => enc_ServiceMetadata m
  | PServices l => enc_serviceMetadataList l
  | PStatus d q => JObj (fld "database" (JBool d) ++ fld "sqs" (JBool q))
  | PNull => JNull
  end.
End encode.

(** ** Conformance *)

Fixpoint assoc {A} (k : string) (l : list (string * A)) : option A :=
  match l with [] => None | (k', a) :: l => if bool_decide (k = k') then Some a else assoc k l end.

(** A value of a schema; an object has documented properties only.  [null_ok]:
    whether null stands for an array or a map.  References end, the fuel bounds
    how deep they are followed. *)
Fixpoint conforms (fuel : nat) (null_ok : bool) (s : schema) (j : JSON) : bool :=
  match fuel with
  | O => false
  | S fuel =>
     match s, j with
     | SAny, _ => true
     | SString, JStr _ => true
     | SEnum vs, JStr v => bool_decide (v ∈ vs)
     | SInteger, JNum _ => true
     | SBoolean, JBool _ => true
     | SArray s, JArr l => forallb (conforms fuel null_ok s) l
     | SArray _, JNull => null_ok
     | SMap s, JObj l => forallb (λ kv, conforms fuel null_ok s kv.2) l
     | SMap _, JNull => null_ok
     | SRef name, _ => match assoc name definitions with Some s => conforms fuel null_ok s j | None => false end
     | SObject ps, JObj l =>
        forallb (λ kv, match assoc kv.1 ps with Some s => conforms fuel null_ok s kv.2 | None => false end) l
     | _, _ => false
     end
  end.

(** Deep enough for every definition of the document. *)
Definition depth : nat := 12.

(** An operation documents an answer. *)
Definition documented (null_ok : bool) (op : Operation) (code : Z) (j : JSON) : bool :=
  existsb (λ r, (r.1 =? code) && conforms depth null_ok r.2 j) (op_responses op).

Section conform.
Context (b : bool).
Local Abbreviation conf n := (conforms n b).

Definition fields_ok (n : nat) (ps : list (string * schema)) (l : list (string * JSON)) : bool :=
  forallb (λ kv, match assoc kv.1 ps with Some s => conf n s kv.2 | None => false end) l.

Lemma conf_list {A} n s (f : A → JSON) l :
  (∀ a, conf n s (f a) = true) → conf (S n) (SArray s) (enc_list b f l) = true.
Proof.
  intros Hf. destruct l as [|a l]; [cbn; by destruct b|].
  cbn. rewrite Hf. cbn. induction l as [|a' l IH]; cbn; [done|]. by rewrite Hf.
Qed.

Lemma conf_entries {A} n s (f : A → JSON) (m : list (string * A)) :
  (∀ a, conf n s (f a) = true) → conf (S n) (SMap s) (JObj (prod_map id f <$> m)) = true.
Proof. intros Hf. cbn. induction m as [|[k a] m IH]; cbn; [done|]. by rewrite Hf. Qed.

Lemma conf_map {A} n s (f : A → JSON) m :
  (∀ a, conf n s (f a) = true) → conf (S n) (SMap s) (enc_map b f m) = true.
Proof.
  intros Hf. unfold enc_map. destruct (b && bool_decide (m = ∅)) eqn:E; [|by apply conf_entries].
  apply andb_prop in E as [-> _]. done.
Qed.

Lemma conf_ref n name s j : assoc name definitions = Some s → conf n s j = true → conf (S n) (SRef name) j = true.
Proof. intros Hs Hj. cbn [conforms]. by rewrite Hs. Qed.

Lemma conf_object n ps l : fields_ok n ps l = true → conf (S n) (SObject ps) (JObj l) = true.
Proof. done. Qed.

Lemma fields_app n ps l l' : fields_ok n ps l = true → fields_ok n ps l' = true → fields_ok n ps (l ++ l') = true.
Proof. intros Hl Hl'. unfold fields_ok. by rewrite forallb_app, andb_true_iff. Qed.
Lemma fields_fld n ps k v s : assoc k ps = Some s → conf n s v = true → fields_ok n ps (fld k v) = true.
Proof. intros Hs Hv. unfold fields_ok, fld. cbn. by rewrite Hs, Hv. Qed.
Lemma fields_omitempty n ps k e v s :
  assoc k ps = Some s → conf n s v = true → fields_ok n ps (omitempty k e v) = true.
Proof. destruct e; [done|]. apply fields_fld. Qed.
Lemma fields_omit_str n ps k v : assoc k ps = Some SString → fields_ok (S n) ps (omit_str k v) = true.
Proof. intros Hs. by eapply fields_omitempty. Qed.
Lemma fields_omit_list {A} n ps k (f : A → JSON) l s :
  assoc k ps = Some (SArray s) → (∀ a, conf n s (f a) = true) → fields_ok (S n) ps (omit_list b k f l) = true.
Proof. intros Hs Hf. eapply fields_omitempty; [done|]. by apply conf_list. Qed.
Lemma fields_omit_map {A} n ps k (f : A → JSON) m s :
  assoc k ps = Some (SMap s) → (∀ a, conf n s (f a) = true) → fields_ok (S n) ps (omit_map b k f m) = true.
Proof. intros Hs Hf. eapply fields_omitempty; [done|]. by apply conf_map. Qed.
End conform.

(** The fields of an object one by one. *)
Ltac fields :=
  apply conf_object;
  repeat (apply fields_app; [|try (apply fields_app)]);
  first [apply fields_omit_str; reflexivity
        |eapply fields_omit_list; [reflexivity|intros ?]
        |eapply fields_omit_map; [reflexivity|intros ?]
        |eapply fields_fld; [reflexivity|]
        |eapply fields_omitempty; [reflexivity|]
        |idtac]; try reflexivity.

Section answers.
Context (b : bool).
Local Abbreviation conf n := (conforms n b).

Lemma conf_strings n l : conf (S (S n)) (SArray SString) (enc_list b JStr l) = true.
Proof. by apply conf_list. Qed.
Lemma conf_texts n m : conf (S (S n)) (SMap SString) (enc_map b JStr m) = true.
Proof. by apply conf_map. Qed.

Lemma conf_APIServer n a : conf (3 + n) doc_APIServer (enc_APIServer a) = true.
Proof. fields. Qed.
Lemma conf_Team n t : conf (3 + n) doc_AllowedOnboardingTeam (enc_Team b t) = true.
Proof. fields. Qed.
Lemma conf_AvailabilityZone n z : conf (3 + n) doc_AvailabilityZone (enc_AvailabilityZone z) = true.
Proof. fields. Qed.
Lemma conf_Capacity n c : conf (3 + n) doc_Capacity (enc_Capacity c) = true.
Proof. fields. Qed.
Lemma conf_Extra n e : conf (4 + n) doc_Extra (enc_Extra b e) = true.
Proof. fields; first [apply conf_texts|apply conf_strings]. Qed.
Lemma conf_Tier n t : conf (3 + n) doc_Tier (enc_Tier b t) = true.
Proof. fields. Qed.
Lemma conf_VirtualNetwork n v : conf (3 + n) doc_VirtualNetwork (enc_VirtualNetwork b v) = true.
Proof. fields; apply conf_strings. Qed.
Lemma conf_Peer n v : conf (3 + n) doc_PeerVirtualNetwork (enc_Peer b v) = true.
Proof. fields. Qed.
Lemma conf_Item n m : conf (5 + n) (v1_ref "ServiceMetadataItem") (enc_Item b m) = true.
Proof.
  eapply conf_ref; [reflexivity|]. apply conf_map. intros x. eapply conf_ref; [reflexivity|]. apply conf_texts.
Qed.

Lemma conf_ClusterSpec n s : conf (9 + n) (v1_ref "ClusterSpec") (enc_ClusterSpec b s) = true.
Proof.
  eapply conf_ref; [reflexivity|]. fields.
  - by destruct (ChargedBack s).
  - apply conf_strings.
  - apply conf_list. intros t. eapply conf_ref; [reflexivity|]. apply conf_Tier.
  - apply conf_list. intros v. eapply conf_ref; [reflexivity|]. apply conf_VirtualNetwork.
  - eapply conf_ref; [reflexivity|]. apply conf_Extra.
  - eapply conf_ref; [reflexivity|]. apply conf_Team.
  - eapply conf_ref; [reflexivity|]. apply conf_Peer.
  - eapply conf_ref; [reflexivity|]. apply conf_map. intros m. apply conf_Item.
  - eapply conf_ref; [reflexivity|]. apply conf_AvailabilityZone.
Qed.

Lemma conf_ServiceMetadata n m :
  b = true ∨ sm_ServiceMetadata m ≠ None → conf (9 + n) (v1_ref "ClusterSpec") (enc_ServiceMetadata b m) = true.
Proof.
  intros Hm. eapply conf_ref; [reflexivity|]. fields. eapply conf_ref; [reflexivity|].
  destruct (sm_ServiceMetadata m) as [sm|]; [apply conf_entries; intros x; apply conf_Item|].
  destruct Hm as [Hm|Hm]; [by destruct b|done].
Qed.

Lemma conf_page n s items count offset limit more :
  Forall (λ j, conf n s j = true) items →
  conf (S (S n)) (SObject [("items", SArray s); ("itemsCount", SInteger); ("limit", SInteger); ("more", SBoolean); ("offset", SInteger)])
    (enc_page items count offset limit more) = true.
Proof.
  intros Hi. fields. cbn. induction Hi as [|j l Hj _ IH]; cbn; [done|]. by rewrite Hj, IH.
Qed.

(** The items of a list that a nil map would turn into null. *)
Definition has_services (m : Web.ServiceMetadataItem) : Prop := b = true ∨ sm_ServiceMetadata m ≠ None.

(** C17: The JSON of what the handlers answer has the type the document gives
    it, with no property beside the documented ones: clusters and lists of
    clusters of both versions, the service metadata (whose document is that of
    a cluster), and errors.  Only where nil slices and maps are encoded as null
    ([b]) does null stand for an array or a map. *)
Theorem answers_have_documented_types :
  (∀ sp, documented b op_v1_get_cluster 200 (enc_payload b (PSpec sp)) = true ∧
         documented b op_v2_get_cluster 200 (enc_payload b (PSpec sp)) = true ∧
         documented b op_v2_patch_cluster 200 (enc_payload b (PSpec sp)) = true) ∧
  (∀ l, documented b op_v1_get_clusters 200 (enc_payload b (PClusters l)) = true ∧
        documented b op_v2_get_clusters 200 (enc_payload b (PClusters l)) = true) ∧
  (∀ m, has_services m → documented b op_v2_get_service_metadata_for_cluster 200 (enc_payload b (PService m)) = true) ∧
  (∀ l, Forall has_services (sl_Items l) → documented b op_v2_get_service_metadata 200 (enc_payload b (PServices l)) = true) ∧
  (∀ op e, op ∈ paths → documented b op 500 (enc_payload b (PError e)) = true).
Proof.
  assert (∀ sp, conf depth (v1_ref "ClusterSpec") (enc_ClusterSpec b sp) = true) as Hsp by (intros; apply conf_ClusterSpec).
  assert (∀ name l, assoc name definitions = Some doc_v1_clusterList →
    conf depth (SRef name) (enc_clusterList b l) = true) as Hlist.
  { intros name l Hn. eapply conf_ref; [done|]. apply conf_page, Forall_fmap, Forall_true. intros sp. apply (conf_ClusterSpec 0). }
  unfold documented. split_and!; [| | | |].
  - intros sp. cbn [enc_payload op_responses op_v1_get_cluster op_v2_get_cluster op_v2_patch_cluster existsb fst snd].
    rewrite !Hsp. split_and!; reflexivity.
  - intros l. cbn [enc_payload op_responses op_v1_get_clusters op_v2_get_clusters existsb fst snd].
    rewrite (Hlist "pkg_apiserver_web_handler_v1.clusterList"), (Hlist "pkg_apiserver_web_handler_v2.clusterList") by reflexivity.
    split; reflexivity.
  - intros m Hm. cbn [enc_payload op_responses op_v2_get_service_metadata_for_cluster existsb fst snd].
    by rewrite (conf_ServiceMetadata 3 m Hm : conf depth _ _ = _).
  - intros l Hl. cbn [enc_payload op_responses op_v2_get_service_metadata existsb fst snd].
    erewrite (conf_ref b 11 _ doc_v2_clusterList); [done|reflexivity|].
    apply conf_page, Forall_fmap. eapply Forall_impl; [exact Hl|]. intros m Hm. exact (conf_ServiceMetadata 0 m Hm).
  - intros op e Hop. cbn [enc_payload]. unfold paths in Hop. rewrite !elem_of_cons, elem_of_nil in Hop.
    destruct_or! Hop; subst; by vm_compute.
Qed.
End answers.

Lemma answers_have_documented_types_witness :
  documented false op_v2_get_service_metadata_for_cluster 200
    (enc_payload false (PService (mkServiceMetadata "ethos01" (Some {[ "svc" := {[ "ns" := {[ "k" := "v" ]} ]} ]})))) = true.
Proof.
  destruct (answers_have_documented_types false) as (_ & _ & Hm & _). apply Hm. right. discriminate.
Defined.

(** ** Routes *)

(** How echo writes a path: [{name}] is [:name]. *)
Fixpoint echo_path (s : string) : string :=
  match s with
  | "" => ""
  | String c s =>
     if bool_decide (c = "{"%char) then String ":" (echo_path s)
     else if bool_decide (c = "}"%char) then echo_path s else String c (echo_path s)
  end.
Definition doc_route (op : Operation) : string * string := (op_method op, BasePath +:+ echo_path (op_path op)).

(** The routes of the API itself, without the catch-all ones. *)
Definition api_key (k : string * string) : bool := HasPrefix k.2 "/api/v" && negb (bool_decide (k.1 = RouteNotFound)).

Section routes.
Context `{EchoMiddleware W} `{!OIDC W} `{!Runtime W} `{!SQSService W} (json : payload → string).
Context (record_egress_call : string → M W ()) (record_request : string → string → string → M W ()).
Context (cache_Get : string → M W (string * error)) (cache_Set : string → string → Z → list string → M W error).
Context (gob_encode : Response → string) (gob_decode : string → Response) (version : string).
Context (d : Db W) (q : Sqs.Config) (cfg : AppConfig) (a1 a2 : Authenticator) (h : Handlers W).
Notation served := (server json record_egress_call record_request cache_Get cache_Set gob_encode gob_decode version
  d q cfg a1 a2 h).

(** C21: The operations of the document are exactly the routes of the API that
    the server has, with their methods; the other routes are the documentation,
    the probes, the version, the metrics and the catch-all routes of the groups.
    Every operation is documented as needing the token. *)
Theorem documented_routes_are_served :
  list_to_set (doc_route <$> paths) =@{gset (string * string)}
    list_to_set (filter (λ k, api_key k = true) (route_key <$> e_Routes served)) ∧
  filter (λ k, api_key k = false) (route_key <$> e_Routes served) =
    [("GET", "/api/swagger/*"); ("GET", "/livez"); ("GET", "/readyz"); ("GET", "/version"); ("GET", "/metrics");
     (RouteNotFound, "/api/v1/clusters"); (RouteNotFound, "/api/v1/clusters/*");
     (RouteNotFound, "/api/v2/clusters"); (RouteNotFound, "/api/v2/clusters/*");
     (RouteNotFound, "/api/v2/services"); (RouteNotFound, "/api/v2/services/*")] ∧
  Forall (λ op, op_secured op = true) paths.
Proof.
  set (keys := route_key <$> e_Routes served). vm_compute in keys. split_and!; subst keys.
  - vm_compute. reflexivity.
  - vm_compute. reflexivity.
  - by repeat constructor.
Qed.
End routes.

(** ** Answers of a handler and the document *)

(** GET /v1/clusters/{name} answers with a code and a body that its
    documentation has, but for the answer to a name that is not registered: 404,
    which the document does not list. *)
Theorem GetCluster_keeps_to_document `{DbLaws W} json b r :
  db_inv (world r) → committed (ctx r) = false →
  ∃ r' code p, V1.GetCluster json r = (Ret None, r') ∧ responds json r r' code p ∧
    (code = 404 ↔ documented b op_v1_get_cluster code (enc_payload b p) = false).
Proof.
  intros Hinv Hc. unfold V1.GetCluster. rewrite bind_gets.
  destruct (getCluster_run (Web.Param "name" (ctx r)) (world r) Hinv) as (c & err & w & Hg & _).
  rewrite (bind_run _ _ _ _ _ (on_world_run _ _ _ _ Hg)).
  assert (∀ code p, (code = 404 ↔ documented b op_v1_get_cluster code (enc_payload b p) = false) →
    ∃ r' code' p', Web.JSON json code p (mkReq w (ctx r)) = (Ret None, r') ∧ responds json r r' code' p' ∧
      (code' = 404 ↔ documented b op_v1_get_cluster code' (enc_payload b p') = false)) as Hans.
  { intros code p Hd. destruct (respond_in json code p r w Hc) as (r' & E & _ & Hr). by exists r', code, p. }
  destruct err as [e|]; [|destruct c as [c|]]; apply Hans.
  - by vm_compute.
  - assert (documented b op_v1_get_cluster 200 (enc_payload b (PSpec (newClusterResponse c))) = true) as ->; [|done].
    unfold documented. cbn [enc_payload op_responses op_v1_get_cluster existsb fst snd].
    by rewrite (conf_ClusterSpec b 3 _ : conforms depth b _ _ = _).
  - by vm_compute.
Qed.
