(* ===== verification/ServerWitness.v ===== *)
(** Witnesses of the theorems on the API server as a whole: the services of
    MemDb.v and ApiWitness.v behind echo's middlewares and a router that
    compares paths. *)
From Stdlib Require Import Ascii.
From stdpp Require Import base gmap strings list option numbers sets.
From S2P Require Import Prelude GoStrings Registry Filter Database Db Sqs MemDb Config EventHandler Web Auth Handlers ApiWitness MetricsInit Router Server HandlersThms Swagger.

Local Open Scope Z_scope.

#[global] Instance demo_echo : EchoMiddleware World := {|
  RemoveTrailingSlash next := next;
  Logger next := next;
  CORSWithConfig _ next := (r ← gets ctx; if bool_decide (req_Method r = "OPTIONS") then Text 204 "" else next);
  RequestIDWithConfig gen next := (id ← on_world gen; _ ← on_ctx (set_header "X-Request-Id" [id]); next);
  RateLimiterWithConfig _ _ _ _ _ _ _ next := next;
  new_uuid := mret "7b4f0a52" |}.

#[global] Instance demo_oidc : OIDC World := {|
  Provider := ();
  NewProvider _ := mret (Some (), nil_error);
  IDToken := Claims;
  Verifier_Verify _ := demo_Verify;
  token_Claims := demo_Claims |}.

#[global] Instance demo_runtime : Runtime World := {|
  redis_Info _ := mret nil_error;
  go_Poll _ _ := modify (set_acked (λ l, "polling" :: l));
  Start _ _ := mret (Plain "listener closed");
  swagger_handler := Text 200 "docs";
  promhttp_handler := (_ ← Text 200 "metrics"; mret ()) |}.

#[global] Instance demo_prometheus : Prometheus World := {|
  Registerer := (); DefaultRegisterer := (); NewRegistry := mret (); Collector := Opts; opts := id;
  promauto_New _ o := mret o; float64 := Z; Inc _ _ := mret (); Observe _ _ _ := mret ();
  SetToCurrentTime _ := mret (); Desc_String := o_Name |}.

(** The first route of the path and method, parameters left out. *)
Fixpoint find_key (n : nat) (keys : list (string * string)) (c : Context) : werr + nat * Context :=
  match keys with
  | [] => inl (HTTPError 404 "Not Found")
  | (m, p) :: keys => if bool_decide (m = req_Method c ∧ p = req_Path c) then inr (n, c) else find_key (S n) keys c
  end.
Definition demo_Find : list (string * string) → Context → werr + nat * Context := find_key 0.

Lemma demo_Find_keeps keys c n c' : demo_Find keys c = inr (n, c') →
  committed c' = committed c ∧ req_Authorization c' = req_Authorization c.
Proof.
  unfold demo_Find. generalize 0%nat. induction keys as [|[m p] keys IH]; intros k; cbn; [done|].
  case_bool_decide; [|apply IH]. by intros [= _ <-].
Qed.

Definition demo_handlers (h : HandlerFunc World) : Handlers World := mkHandlers h h h h h h h.
Definition demo_queue : Sqs.Config := queue_config demo_cfg.
Definition demo_a : Authenticator := mkAuthenticator _ _ () "client" "spn:client".
Definition demo_server (h : HandlerFunc World) : Echo World :=
  server demo_json demo_record (λ _ _ _, mret ()) demo_Get demo_Set demo_encode demo_decode "dev" MemDb demo_queue
    demo_cfg demo_a demo_a (demo_handlers h).

Lemma demo_echo_single : Forall (single_call w_db)
  [RemoveTrailingSlash; Logger; CORSWithConfig cors; RequestIDWithConfig new_uuid].
Proof.
  repeat apply Forall_cons_2; [..|by apply Forall_nil]; intros r Hc; cbn.
  - right. by exists r, id.
  - right. by exists r, id.
  - destruct (decide (req_Method (ctx r) = "OPTIONS")) as [Hm|Hm].
    + left. exists (Text 204 "" r). split; [|done]. intros next. by rewrite bind_gets, bool_decide_eq_true_2.
    + right. exists r, id. split_and!; try done. intros next. by rewrite bind_gets, bool_decide_eq_false_2.
  - right. by exists (mkReq (world r) (set_header "X-Request-Id" ["7b4f0a52"] (ctx r))), id.
Qed.

Lemma demo_status w : w_db (db_Status_ w).2 = w_db w.
Proof. cbn. unfold mbind, M_bind, take_fault. by destruct (w_faults w) as [|[]]. Qed.

Definition no_token : Req World := request "GET" "/api/v1/clusters" "Basic Zm9v" ∅ ∅ demo_world.
Lemma demo_stranger : stranger demo_cfg no_token.
Proof. split; [done|]. intros p raw tok. vm_compute. discriminate. Qed.

(** Two servers that differ in every handler answer a request without a token
    in the same way. *)
Lemma no_token_no_handler_witness :
  let r := no_token in
  resp_Status (ctx (ServeHTTP demo_Find demo_json (demo_server (Text 200 "secret")) r).2) = 400 ∧
  ServeHTTP demo_Find demo_json (demo_server (Text 200 "secret")) r =
    ServeHTTP demo_Find demo_json (demo_server (Text 500 "other")) r ∧
  w_db (world (ServeHTTP demo_Find demo_json (demo_server (Text 200 "secret")) r).2) = w_db demo_world.
Proof.
  intros r. split; [vm_compute; reflexivity|].
  exact (no_token_no_handler (OIDC0 := demo_oidc) demo_json w_db demo_record (λ _, demo_Verify_ok)
    (λ _ w, ex_intro _ w eq_refl) (λ _ _ _ _, eq_refl) (λ _ _, eq_refl) (λ _ _ _, mret ()) demo_Get demo_Set demo_encode demo_decode "dev"
    demo_Find MemDb demo_queue demo_cfg demo_Find_keeps demo_echo_single (λ _ _ _ _, eq_refl) demo_status
    (λ _, eq_refl) (λ _, conj eq_refl eq_refl) demo_a demo_a (demo_handlers (Text 200 "secret")) (demo_handlers (Text 500 "other"))
    r demo_stranger).
Defined.

(** ** Starting *)

Definition demo_env (v : string) : string :=
  if bool_decide (v ∈ ["SQS_BATCH_SIZE"; "SQS_WAIT_SECONDS"; "SQS_RUN_INTERVAL"]) then "5"
  else if bool_decide (v ∈ ["API_CACHE_TTL"; "API_CACHE_REDIS_TLS_ENABLED"; "DB_INDEX_NAME"]) then ""
  else "set".
Definition demo_polls (w : World) : nat := length (w_acked w).
Definition demo_main : M World () :=
  run_main demo_json (λ _, (zeroCluster, nil_error)) (λ _, MemDb) (λ _ _, demo_handlers Livez) (λ _, demo_record)
    (λ _ _ _ _, mret ()) (λ _, demo_Get) (λ _, demo_Set) (λ _, mem_Invalidate) demo_encode demo_decode "dev"
    demo_env (λ f u s, f * u / s).

Lemma polls_only_when_ready_witness :
  demo_polls (demo_main emptyWorld).2 = 1%nat ∧
  ∃ cfg, LoadApiConfig demo_env (λ f u s, f * u / s) = inr cfg ∧ validateConfig (queue_config cfg) = None.
Proof.
  split; [vm_compute; reflexivity|].
  destruct (proj2 (polls_only_when_ready (OIDC0 := demo_oidc) (Runtime0 := demo_runtime) (Prometheus0 := demo_prometheus)
    (SQSService0 := MemSQS) demo_json (λ _, (zeroCluster, nil_error)) (λ _, MemDb)
    (λ _ _, demo_handlers Livez) (λ _, demo_record) (λ _ _ _ _, mret ()) (λ _, demo_Get) (λ _, demo_Set)
    (λ _, mem_Invalidate) demo_encode demo_decode "dev" demo_polls (λ _ _ _, eq_refl) (λ _ _, eq_refl) (λ _ _, eq_refl)
    (λ _ _, eq_refl) demo_env (λ f u s, f * u / s) emptyWorld)) as (cfg & m & q & w1 & w2 & w3 & a1 & a2 & w4 & w5 & Hc & Hq & _).
  { vm_compute. discriminate. }
  exists cfg. split; [exact Hc|exact Hq].
Defined.

(** ** The document *)

Lemma GetCluster_keeps_to_document_witness :
  let r := request "GET" "/api/v1/clusters/:name" "" {[ "name" := "ethos99-prod-va6" ]} ∅ demo_world in
  resp_Status (ctx (V1.GetCluster demo_json r).2) = 404 ∧
  ∃ r' code p, V1.GetCluster demo_json r = (Ret None, r') ∧ responds demo_json r r' code p ∧
    (code = 404 ↔ documented true op_v1_get_cluster code (enc_payload true p) = false).
Proof.
  intros r. split; [vm_compute; reflexivity|].
  exact (GetCluster_keeps_to_document demo_json true r demo_world_ok eq_refl).
Defined.
