(* ===== verification/Base64.v ===== *)
(** [base64.StdEncoding] of the Go library: how certificate authority data goes
    from a client's configuration into a Cluster object, and from there into
    the client of the cluster's API.  A byte is a character of a string. *)
From Stdlib Require Import Ascii.
From stdpp Require Import base strings list option numbers.
From S2P Require Import Prelude GoStrings.

Local Open Scope Z_scope.

(** ** Encoding *)

(** The character of six bits. *)
Definition enc_char (v : Z) : ascii :=
  ascii_of_N (Z.to_N (if v <? 26 then v + 65 else if v <? 52 then v + 71 else if v <? 62 then v - 4
                      else if v =? 62 then 43 else 47)).
Definition pad : ascii := "="%char.

Definition enc_at (val shift : Z) : ascii := enc_char (Z.land (Z.shiftr val shift) 63).

(** Three bytes are four characters; two or one are padded. *)
Fixpoint EncodeToString (src : string) : string :=
  match src with
  | "" => ""
  | String a "" =>
     let val := Z.shiftl (byte_of a) 16 in
     String (enc_at val 18) (String (enc_at val 12) (String pad (String pad "")))
  | String a (String b "") =>
     let val := Z.lor (Z.shiftl (byte_of a) 16) (Z.shiftl (byte_of b) 8) in
     String (enc_at val 18) (String (enc_at val 12) (String (enc_at val 6) (String pad "")))
  | String a (String b (String c src)) =>
     let val := Z.lor (Z.lor (Z.shiftl (byte_of a) 16) (Z.shiftl (byte_of b) 8)) (byte_of c) in
     String (enc_at val 18) (String (enc_at val 12) (String (enc_at val 6) (String (enc_at val 0) (EncodeToString src))))
  end.

(** ** Decoding *)

(** [decodeMap]. *)
Definition dec_char (c : ascii) : option Z :=
  let b := byte_of c in
  if (65 <=? b) && (b <=? 90) then Some (b - 65)
  else if (97 <=? b) && (b <=? 122) then Some (b - 71)
  else if (48 <=? b) && (b <=? 57) then Some (b + 4)
  else if b =? 43 then Some 62
  else if b =? 47 then Some 63
  else None.

Definition is_newline (c : ascii) : bool := (byte_of c =? 10) || (byte_of c =? 13).
Fixpoint skip_newlines (s : string) : string :=
  match s with
  | String c s' => if is_newline c then skip_newlines s' else s
  | "" => ""
  end.

Definition byte_at (val shift : Z) : ascii := ascii_of_N (Z.to_N (Z.shiftr val shift mod 256)).
Definition dec_val (a b c d : Z) : Z :=
  Z.lor (Z.lor (Z.lor (Z.shiftl a 18) (Z.shiftl b 12)) (Z.shiftl c 6)) d.

(** The rest of a source, the characters of the quantum read so far: line ends
    are skipped, a quantum has four characters, and padding ends the source. *)
Fixpoint decode (buf : list Z) (src : string) : option string :=
  match src with
  | "" => match buf with [] => Some "" | _ => None end
  | String ch src =>
     match dec_char ch with
     | Some v =>
        match buf with
        | [a; b; c] =>
           let val := dec_val a b c v in
           (λ rest, String (byte_at val 16) (String (byte_at val 8) (String (byte_at val 0) rest))) <$> decode [] src
        | _ => decode (buf ++ [v]) src
        end
     | None =>
        if is_newline ch then decode buf src
        else if negb (bool_decide (ch = pad)) then None
        else
          match buf with
          | [a; b] =>
             match skip_newlines src with
             | String ch' src' =>
                if bool_decide (ch' = pad) && bool_decide (skip_newlines src' = "")
                then Some (String (byte_at (dec_val a b 0 0) 16) "") else None
             | "" => None
             end
          | [a; b; c] =>
             if bool_decide (skip_newlines src = "")
             then Some (String (byte_at (dec_val a b c 0) 16) (String (byte_at (dec_val a b c 0) 8) "")) else None
          | _ => None
          end
     end
  end.

Definition DecodeString (s : string) : string * error :=
  match decode [] s with
  | Some t => (t, nil_error)
  | None => ("", errorf "illegal base64 data")
  end.

Example encode_one : EncodeToString "M" = "TQ==".
Proof. reflexivity. Qed.
Example encode_two : EncodeToString "Ma" = "TWE=".
Proof. reflexivity. Qed.
Example encode_three : EncodeToString "Man!" = "TWFuIQ==".
Proof. reflexivity. Qed.
Example decode_newline : DecodeString ("TW" +:+ String "010" "FuIQ==") = ("Man!", nil_error).
Proof. reflexivity. Qed.
Example decode_garbage : (DecodeString "TQ==T").2 = errorf "illegal base64 data".
Proof. reflexivity. Qed.
Example decode_short : (DecodeString "TQ=").2 = errorf "illegal base64 data".
Proof. reflexivity. Qed.

(** ** The round trip *)

Lemma byte_range c : 0 ≤ byte_of c < 256.
Proof. unfold byte_of. pose proof (N_ascii_bounded c). lia. Qed.

Lemma lor_low a b n : 0 ≤ n → 0 ≤ b < 2 ^ n → Z.lor (Z.shiftl a n) b = a * 2 ^ n + b.
Proof.
  intros Hn Hb. rewrite <- Z.shiftl_mul_pow2 by done. symmetry. apply Z.add_nocarry_lor.
  apply Z.bits_inj'. intros i Hi. rewrite Z.land_spec, Z.bits_0. destruct (Z.ltb_spec i n).
  - by rewrite Z.shiftl_spec_low.
  - rewrite <- (Z.mod_small b (2 ^ n)), Z.mod_pow2_bits_high by lia. apply andb_false_r.
Qed.

Lemma land_63 a : Z.land a 63 = a mod 64.
Proof. exact (Z.land_ones a 6 ltac:(lia)). Qed.

Lemma enc_val a b c :
  0 ≤ b < 256 → 0 ≤ c < 256 → Z.lor (Z.lor (Z.shiftl a 16) (Z.shiftl b 8)) c = a * 65536 + b * 256 + c.
Proof.
  intros Hb Hc. rewrite <- Z.lor_assoc, (lor_low b c 8), lor_low by (cbn; lia). cbn. lia.
Qed.

Lemma dec_val_add a b c d :
  0 ≤ b < 64 → 0 ≤ c < 64 → 0 ≤ d < 64 → dec_val a b c d = a * 262144 + b * 4096 + c * 64 + d.
Proof.
  intros Hb Hc Hd. unfold dec_val.
  rewrite <- !Z.lor_assoc, (lor_low c d 6), (lor_low b _ 12), lor_low by (cbn; lia). cbn. lia.
Qed.

Lemma dec_enc v : 0 ≤ v < 64 → dec_char (enc_char v) = Some v.
Proof.
  intros Hv. assert (v ∈ seqZ 0 64) as Hin by (apply elem_of_seqZ; lia).
  revert Hin. clear Hv. set (P := λ v, bool_decide (dec_char (enc_char v) = Some v) = true).
  assert (Forall P (seqZ 0 64)) as HF by (by repeat (constructor; [reflexivity|])).
  intros Hin. rewrite Forall_forall in HF. exact (bool_decide_eq_true_1 _ (HF v (proj1 (list_elem_of_In _ _) Hin))).
Qed.

Lemma pad_not_char : dec_char pad = None ∧ is_newline pad = false.
Proof. done. Qed.

Lemma ascii_of_byte c : ascii_of_N (Z.to_N (byte_of c)) = c.
Proof. unfold byte_of. by rewrite N2Z.id, ascii_N_embedding. Qed.

(** A character of an encoded quantum is read back as its six bits. *)
Lemma dec_at v shift : dec_char (enc_at v shift) = Some (Z.shiftr v shift mod 64).
Proof. unfold enc_at. rewrite land_63. apply dec_enc, Z.mod_pos_bound. lia. Qed.

(** The four groups of six bits of 24, put together again. *)
Lemma quantum v : 0 ≤ v < 16777216 →
  dec_val (Z.shiftr v 18 mod 64) (Z.shiftr v 12 mod 64) (Z.shiftr v 6 mod 64) (Z.shiftr v 0 mod 64) = v.
Proof.
  intros Hv. rewrite dec_val_add by (apply Z.mod_pos_bound; lia).
  rewrite !Z.shiftr_div_pow2 by lia. cbn.
  Z.to_euclidean_division_equations. lia.
Qed.

Lemma byte_at_16 a b c : 0 ≤ b < 256 → 0 ≤ c < 256 → byte_at (byte_of a * 65536 + b * 256 + c) 16 = a.
Proof.
  intros Hb Hc. pose proof (byte_range a). unfold byte_at. rewrite <- (ascii_of_byte a) at 2. do 2 f_equal.
  rewrite Z.shiftr_div_pow2 by lia. cbn. Z.to_euclidean_division_equations. lia.
Qed.
Lemma byte_at_8 a b c : 0 ≤ a → 0 ≤ c < 256 → byte_at (a * 65536 + byte_of b * 256 + c) 8 = b.
Proof.
  intros Ha Hc. pose proof (byte_range b). unfold byte_at. rewrite <- (ascii_of_byte b) at 2. do 2 f_equal.
  rewrite Z.shiftr_div_pow2 by lia. cbn. Z.to_euclidean_division_equations. lia.
Qed.
Lemma byte_at_0 a b c : byte_at (a * 65536 + b * 256 + byte_of c) 0 = c.
Proof.
  pose proof (byte_range c). unfold byte_at. rewrite <- (ascii_of_byte c) at 2. do 2 f_equal.
  rewrite Z.shiftr_0_r. Z.to_euclidean_division_equations. lia.
Qed.

(** The groups that padding stands for are zero. *)
Lemma quantum_1 a : byte_at (dec_val (Z.shiftr (Z.shiftl (byte_of a) 16) 18 mod 64) (Z.shiftr (Z.shiftl (byte_of a) 16) 12 mod 64) 0 0) 16 = a.
Proof.
  pose proof (byte_range a). rewrite dec_val_add by (try apply Z.mod_pos_bound; lia).
  unfold byte_at. rewrite <- (ascii_of_byte a) at 3. do 2 f_equal.
  rewrite !Z.shiftr_div_pow2, !Z.shiftl_mul_pow2 by lia. cbn. Z.to_euclidean_division_equations. lia.
Qed.
Lemma quantum_2 a b :
  let v := Z.lor (Z.shiftl (byte_of a) 16) (Z.shiftl (byte_of b) 8) in
  let w := dec_val (Z.shiftr v 18 mod 64) (Z.shiftr v 12 mod 64) (Z.shiftr v 6 mod 64) 0 in
  byte_at w 16 = a ∧ byte_at w 8 = b.
Proof.
  intros v w. pose proof (byte_range a). pose proof (byte_range b).
  assert (v = byte_of a * 65536 + byte_of b * 256 + 0) as Hv
    by (unfold v; rewrite <- (enc_val _ _ 0), Z.lor_0_r by lia; done).
  assert (w = v) as ->.
  { rewrite <- (quantum v) by lia. unfold w. f_equal. rewrite Hv, Z.shiftr_0_r. Z.to_euclidean_division_equations. lia. }
  rewrite Hv. split; [apply byte_at_16|apply byte_at_8]; lia.
Qed.

Lemma decode_encode s : decode [] (EncodeToString s) = Some s.
Proof.
  induction s as [s IH] using (induction_ltof1 _ String.length). unfold ltof in IH.
  destruct s as [|a [|b [|c s]]]; [done|..]; cbn [EncodeToString decode]; rewrite !dec_at; cbn [decode app].
  - rewrite (proj1 pad_not_char), (proj2 pad_not_char). cbn. by rewrite quantum_1.
  - rewrite (proj1 pad_not_char), (proj2 pad_not_char). cbn.
    destruct (quantum_2 a b) as [E1 E2]. cbv zeta in E1, E2. by rewrite E1, E2.
  - rewrite IH by (cbn; lia). cbn. pose proof (byte_range a). pose proof (byte_range b). pose proof (byte_range c).
    rewrite enc_val by done. rewrite quantum by lia. by rewrite byte_at_16, byte_at_8, byte_at_0 by lia.
Qed.

(** What is encoded is decoded to the same bytes. *)
Theorem base64_roundtrip s : DecodeString (EncodeToString s) = (s, nil_error).
Proof. unfold DecodeString. by rewrite decode_encode. Qed.
