(* ===== verification/Oidc.v ===== *)
(** local/oidc/generate-config.go: the key set that the OpenID provider of the
    local environment serves, made from a certificate.

    Reading the file, PEM, X.509, SHA-1, the thumbprint of the key and the encoder
    are parameters. *)
From Stdlib Require Import Ascii Wf_nat.
From stdpp Require Import base strings list option numbers.
From S2P Require Import Prelude GoStrings Base64.

Local Open Scope Z_scope.

(** ** Encodings *)

(** [binary.BigEndian.PutUint64]. *)
Definition PutUint64 (v : Z) : string :=
  foldr String "" ((λ i, ascii_of_N (Z.to_N (Z.shiftr v (8 * i) mod 256))) <$> [7; 6; 5; 4; 3; 2; 1; 0]).
(** [base64.RawURLEncoding]: another two characters, and no padding. *)
Definition url_char (c : ascii) : ascii :=
  if bool_decide (c = "+"%char) then "-"%char else if bool_decide (c = "/"%char) then "_"%char else c.
Fixpoint raw_url (s : string) : string :=
  match s with
  | "" => ""
  | String c s => if bool_decide (c = pad) then "" else String (url_char c) (raw_url s)
  end.
Definition RawURL_EncodeToString (s : string) : string := raw_url (EncodeToString s).

(** The hexadecimal digits of bytes: [%X] and [hex.EncodeToString]. *)
Definition hex_digit (letter d : Z) : ascii := ascii_of_N (Z.to_N (if d <? 10 then d + 48 else d - 10 + letter)).
Fixpoint hex (letter : Z) (s : string) : string :=
  match s with
  | "" => ""
  | String c s => String (hex_digit letter (byte_of c / 16)) (String (hex_digit letter (byte_of c mod 16)) (hex letter s))
  end.
Definition hex_upper : string → string := hex 65.
Definition hex_EncodeToString : string → string := hex 97.

(** ** The key set *)

Record JWKS := mkJWKS {
  Use : string; Kty : string; Kid : string; Alg : string; jwks_N : string; jwks_E : string; X5c : list string; X5tSHA1 : string }.
Record Keys := mkKeys { keys : list JWKS }.

(** The modulus as its bytes. *)
Record RSAPublicKey := mkRSA { rsa_N : string; rsa_E : Z }.
Record Certificate := mkCertificate { Raw : string; (** Nothing when the key is of another kind. *) cert_RSA : option RSAPublicKey }.

Class OidcLib (W : Type) := {
  os_ReadFile : string → M W (string * error);
  (** The bytes of the first block, if any. *)
  pem_Decode : string → option string;
  ParseCertificate : string → option Certificate * error;
  sha1_Sum : string → string;
  Thumbprint : RSAPublicKey → string * error;
  json_Keys : Keys → string * error;
  Println : string → M W () }.

(** The result of [bytes.TrimLeft] is dropped. *)
Definition jwk_e (E : Z) : string := RawURL_EncodeToString (PutUint64 E).

Section oidc.
Context `{OidcLib W}.

(** The fingerprint is encoded as the text of its digits. *)
Definition jwks_of (cert : Certificate) (rsaPublicKey : RSAPublicKey) (thumbprint : string) : JWKS :=
  mkJWKS "sig" "RSA" (hex_EncodeToString thumbprint) "RS256" (RawURL_EncodeToString (rsa_N rsaPublicKey))
    (jwk_e (rsa_E rsaPublicKey)) [EncodeToString (Raw cert)] (RawURL_EncodeToString (hex_upper (sha1_Sum (Raw cert)))).

Definition oidc_main : M W () :=
  '(data, err) ← os_ReadFile "../../test/testdata/dummycertificate.pem";
  match err with
  | Some e => panic ("Failed to read file: " +:+ e)
  | None =>
     block ← lift (deref (pem_Decode data));
     let '(cert, err) := ParseCertificate block in
     match err with
     | Some e => panic ("Failed to parse certificate: " +:+ e)
     | None =>
        cert ← lift (deref cert);
        match cert_RSA cert with
        | None => panic "interface conversion: interface {} is not *rsa.PublicKey"
        | Some rsaPublicKey =>
           let '(thumbprint, err) := Thumbprint rsaPublicKey in
           match err with
           | Some e => panic ("Failed to generate thumbprint: " +:+ e)
           | None =>
              let '(jwksKeysJson, err) := json_Keys (mkKeys [jwks_of cert rsaPublicKey thumbprint]) in
              match err with
              | Some e => panic ("Failed to marshal struct: " +:+ e)
              | None => Println jwksKeysJson
              end
           end
        end
     end
  end.
End oidc.

Example jwk_e_65537 : jwk_e 65537 = "AAAAAAABAAE".
Proof. reflexivity. Qed.
(** The fingerprint of a certificate is 20 bytes; the text that is encoded has 40. *)
Example x5t_of_text : RawURL_EncodeToString (hex_upper "Man") = "NEQ2MTZF" ∧ RawURL_EncodeToString "Man" = "TWFu".
Proof. done. Qed.

(** ** What a reader of the key set gets back *)

(** The decoder without padding: the characters of the standard alphabet, and
    the padding of the length. *)
Definition std_char (c : ascii) : ascii :=
  if bool_decide (c = "-"%char) then "+"%char else if bool_decide (c = "_"%char) then "/"%char else c.
Fixpoint std_url (n : nat) (s : string) : string :=
  match s with
  | "" => match n with 2%nat => "==" | 3%nat => "=" | _ => "" end
  | String c s => String (std_char c) (std_url (match n with 3%nat => 0%nat | n => S n end) s)
  end.
Definition RawURL_DecodeString (s : string) : string * error := DecodeString (std_url 0 s).

Lemma std_url_char c v : dec_char c = Some v → std_char (url_char c) = c ∧ c ≠ pad.
Proof.
  intros Hc. unfold url_char, std_char.
  destruct (decide (c = "+"%char)) as [->|H1]; [done|]. rewrite (bool_decide_eq_false_2 (c = _)) by done.
  destruct (decide (c = "/"%char)) as [->|H2]; [done|]. rewrite (bool_decide_eq_false_2 (c = _)) by done.
  split; [|by intros ->]. rewrite !bool_decide_eq_false_2; [done|by intros ->..].
Qed.

Lemma raw_url_char v shift s : raw_url (String (enc_at v shift) s) = String (url_char (enc_at v shift)) (raw_url s).
Proof.
  cbn [raw_url]. destruct (std_url_char _ _ (dec_at v shift)) as [_ Hp]. by rewrite bool_decide_eq_false_2.
Qed.

Lemma raw_url_restored s : std_url 0 (RawURL_EncodeToString s) = EncodeToString s.
Proof.
  unfold RawURL_EncodeToString. induction s as [s IH] using (induction_ltof1 _ String.length). unfold ltof in IH.
  assert (∀ v shift, std_char (url_char (enc_at v shift)) = enc_at v shift) as Hc
    by (intros v shift; apply (std_url_char _ _ (dec_at v shift))).
  destruct s as [|a [|b [|c s]]]; [done|..]; cbn [EncodeToString]; rewrite !raw_url_char; cbn [std_url raw_url];
    rewrite !Hc; [done..|]. by rewrite IH by (cbn; lia).
Qed.

Lemma raw_url_roundtrip s : RawURL_DecodeString (RawURL_EncodeToString s) = (s, nil_error).
Proof. unfold RawURL_DecodeString. rewrite raw_url_restored. unfold DecodeString. by rewrite decode_encode. Qed.

(** The number of big-endian bytes. *)
Definition BigEndian (s : string) : Z := foldl (λ n c, n * 256 + byte_of c) 0 (String.list_ascii_of_string s).

Lemma PutUint64_value v : 0 ≤ v < 2 ^ 64 → BigEndian (PutUint64 v) = v.
Proof.
  intros Hv. unfold BigEndian, PutUint64. cbn.
  unfold byte_of. rewrite !N_ascii_embedding by (apply N2Z.inj_lt; rewrite Z2N.id; [|apply Z.mod_pos_bound; lia]; apply Z.mod_pos_bound; lia).
  rewrite !Z2N.id by (apply Z.mod_pos_bound; lia). rewrite !Z.shiftr_div_pow2 by lia. cbn in Hv |- *.
  Z.to_euclidean_division_equations. lia.
Qed.

(** The fields of the key give back the modulus, the exponent (from eight bytes,
    leading zeros included) and the certificate. *)
Lemma jwks_decodes `{OidcLib W} cert rsa thumbprint :
  0 ≤ rsa_E rsa < 2 ^ 64 →
  let k := jwks_of cert rsa thumbprint in
  RawURL_DecodeString (jwks_N k) = (rsa_N rsa, nil_error) ∧
  (∃ e, RawURL_DecodeString (jwks_E k) = (e, nil_error) ∧ String.length e = 8%nat ∧ BigEndian e = rsa_E rsa) ∧
  DecodeString <$> X5c k = [(Raw cert, nil_error)].
Proof.
  intros HE k. split_and!; [apply raw_url_roundtrip| |].
  - exists (PutUint64 (rsa_E rsa)). split_and!; [apply raw_url_roundtrip|done|by apply PutUint64_value].
  - cbn. unfold DecodeString. by rewrite decode_encode.
Qed.

(** When the program ends without a panic it has printed a set of one key, and
    decoding the fields of that key gives the modulus and the exponent of the
    certificate in the file, and the certificate itself. *)
Theorem oidc_main_prints_key `{OidcLib W} (w w' : W) :
  oidc_main w = (Ret (), w') →
  ∃ data w1 block cert rsa text k,
    os_ReadFile "../../test/testdata/dummycertificate.pem" w = (Ret (data, None), w1) ∧
    pem_Decode data = Some block ∧ ParseCertificate block = (Some cert, None) ∧ cert_RSA cert = Some rsa ∧
    json_Keys (mkKeys [k]) = (text, None) ∧ Println text w1 = (Ret (), w') ∧
    (0 ≤ rsa_E rsa < 2 ^ 64 →
     RawURL_DecodeString (jwks_N k) = (rsa_N rsa, nil_error) ∧
     (∃ e, RawURL_DecodeString (jwks_E k) = (e, nil_error) ∧ BigEndian e = rsa_E rsa) ∧
     DecodeString <$> X5c k = [(Raw cert, nil_error)]).
Proof.
  unfold oidc_main. intros ([data [e|]] & w1 & Hr & Hrun)%bind_Ret_inv; [done|].
  destruct (pem_Decode data) as [block|] eqn:Hb; [|done]. cbn [deref] in Hrun. rewrite bind_lift in Hrun.
  destruct (ParseCertificate block) as [[cert|] [e|]] eqn:Hp; try done. cbn [deref] in Hrun. rewrite bind_lift in Hrun.
  destruct (cert_RSA cert) as [rsa|] eqn:Hk; [|done]. destruct (Thumbprint rsa) as [tp [e|]]; [done|].
  destruct (json_Keys _) as [text [e|]] eqn:Hj; [done|].
  exists data, w1, block, cert, rsa, text, (jwks_of cert rsa tp). split_and!; [done..|]. intros HE.
  destruct (jwks_decodes cert rsa tp HE) as (? & (x & ? & _ & ?) & ?). split_and!; [done| |done]. by exists x.
Qed.
