(* ===== verification/K8sClient.v ===== *)
(** pkg/k8s/client.go: the client of a cluster's Kubernetes API that the API
    server patches Cluster objects with.

    The Azure token service and client-go are the parameter [K8sLib]. *)
From Stdlib Require Import Ascii.
From stdpp Require Import base gmap strings list option numbers.
From S2P Require Import Prelude GoStrings Base64 Registry Config Web Db Handlers ClusterController Router.

Record AzureSPCredentials := mkCredentials {
  ClientID : string; ClientSecret : string; TenantID : string; ResourceID : string }.

(** The fields of [rest.Config] that the code writes, and the rest of it. *)
Record RestConfig (X : Type) := mkRestConfig { BearerToken : string; rc_CAData : string; rc_other : X }.
Arguments mkRestConfig {X}. Arguments BearerToken {X}. Arguments rc_CAData {X}. Arguments rc_other {X}.

Class K8sLib (W : Type) := {
  rest_other : Type;
  (** [clientcmd.BuildConfigFromFlags(endpoint, "")]. *)
  BuildConfigFromFlags : string → M W (option (RestConfig rest_other) * error);
  Token : Type;
  (** [NewClientCredentialsConfig(id, secret, tenant).ServicePrincipalToken()]. *)
  ServicePrincipalToken : string → string → string → M W (option Token * error);
  (** The token after the exchange. *)
  RefreshExchange : Token → string → M W (Token * error);
  AccessToken : Token → string;
  k8s_Client : Type;
  NewForConfig : RestConfig rest_other → option k8s_Client * error }.

Definition getCredentials (cfg : AppConfig) : AzureSPCredentials :=
  mkCredentials (ApiClientId cfg) (ApiClientSecret cfg) (ApiTenantId cfg) (K8sResourceId cfg).

Section client.
Context `{K8sLib W}.

Definition getToken (credentials : AzureSPCredentials) : M W (string * error) :=
  '(token, err) ← ServicePrincipalToken (ClientID credentials) (ClientSecret credentials) (TenantID credentials);
  match err with
  | Some e => mret ("", errorf e)
  | None =>
     token ← lift (deref token);
     '(token, err) ← RefreshExchange token (ResourceID credentials);
     match err with
     | Some e => mret ("", errorf e)
     | None => mret (AccessToken token, nil_error)
     end
  end.

Definition GetClient (appConfig : AppConfig) (cluster : Cluster) : M W (option k8s_Client * error) :=
  let credentials := getCredentials appConfig in
  '(cfg, err) ← BuildConfigFromFlags (Endpoint (APIServer (Spec cluster)));
  match err with
  | Some e => mret (None, errorf e)
  | None =>
     '(accessToken, err) ← getToken credentials;
     match err with
     | Some e => mret (None, errorf e)
     | None =>
        cfg ← lift (deref cfg);
        let '(decodedCAData, err) := DecodeString (CertificateAuthorityData (APIServer (Spec cluster))) in
        match err with
        | Some e => mret (None, errorf e)
        | None =>
           let '(client, err) := NewForConfig (mkRestConfig accessToken decodedCAData (rc_other cfg)) in
           match err with
           | Some e => mret (None, errorf e)
           | None => mret (client, nil_error)
           end
        end
     end
  end.

(** The handlers of the API on a database, as [NewHandler] puts them together. *)
Context `{!Db W} (json : payload → string).
Context (RESTPatch : k8s_Client → string → string → string → string → string → M W error).
Context (marshal_patch : V2.ClusterSpecPatch → string * error) (Bind : Context → V2.ClusterSpecPatch * werror).
Context (validate_struct : V2.ClusterSpecPatch → werror) (fuel : nat).
Definition NewHandler (appConfig : AppConfig) : Handlers W :=
  mkHandlers (V1.GetCluster json) (V1.ListClusters json fuel) (V2.GetCluster json)
    (V2.PatchCluster json (GetClient appConfig) RESTPatch marshal_patch Bind validate_struct)
    (V2.ListClusters json fuel) (V2.GetServiceMetadata json fuel) (V2.GetServiceMetadataForCluster json).
End client.

(** C22: For a cluster whose object its controller has filled in from the
    certificate authority [ca] of its own configuration, [GetClient] gives
    a client exactly when the endpoint, the credentials of the configuration and
    the resulting configuration are accepted, and this client trusts exactly the
    bytes [ca]: what is encoded on the one side is decoded on the other. *)
Theorem GetClient_trusts `{K8sLib W} cfg c ca w cl w' :
  GetClient cfg (ClusterReconciler.set_CertificateAuthorityData (EncodeToString ca) c) w = (Ret (Some cl, None), w') ↔
  ∃ conf tok w1, BuildConfigFromFlags (Endpoint (APIServer (Spec c))) w = (Ret (Some conf, None), w1) ∧
    getToken (getCredentials cfg) w1 = (Ret (tok, None), w') ∧
    NewForConfig (mkRestConfig tok ca (rc_other conf)) = (Some cl, None).
Proof.
  unfold GetClient. set (c' := ClusterReconciler.set_CertificateAuthorityData _ c).
  assert (APIServer (Spec c') = mkAPIServer (Endpoint (APIServer (Spec c))) (EncodeToString ca)) as ->
    by (destruct c as [? ? []]; done). cbn [Endpoint CertificateAuthorityData]. clear c'.
  rewrite base64_roundtrip. split.
  - intros E. apply bind_Ret_inv in E as ([conf [e|]] & w1 & Eb & E); [done|].
    apply bind_Ret_inv in E as ([tok [e|]] & w2 & Et & E); [done|].
    destruct conf as [conf|]; [|done]. cbn [deref] in E. rewrite bind_lift in E.
    destruct (NewForConfig _) as [cl' [e|]] eqn:En; [done|]. injection E as -> <-. by exists conf, tok, w1.
  - intros (conf & tok & w1 & Eb & Et & En). rewrite (bind_run _ _ _ _ _ Eb), (bind_run _ _ _ _ _ Et).
    cbn [deref]. by rewrite bind_lift, En.
Qed.

(** An example of the services: tokens are texts, and a client is its configuration. *)
Module Example.
#[global] Instance demo_lib : K8sLib () := {|
  rest_other := string;
  BuildConfigFromFlags host := mret (Some (mkRestConfig "" "" host), nil_error);
  Token := string;
  ServicePrincipalToken id secret tenant := mret (Some (id +:+ "@" +:+ tenant), nil_error);
  RefreshExchange t resource := mret (t +:+ "/" +:+ resource, nil_error);
  AccessToken t := t;
  k8s_Client := RestConfig string;
  NewForConfig c := (Some c, nil_error) |}.
Definition cfg : AppConfig :=
  mkAppConfig false "" "" "" "" "" "" INFO "" "" "" "" "" 0 0 0 "k8s" "adobe" "registry" "secret" "" 0 "" false.
End Example.

Lemma GetClient_trusts_witness :
  GetClient (W := ()) Example.cfg (ClusterReconciler.set_CertificateAuthorityData (EncodeToString "-CA-") zeroCluster) ()
    = (Ret (Some (mkRestConfig "registry@adobe/k8s" "-CA-" ""), None), ()).
Proof.
  apply (proj2 (GetClient_trusts (W := ()) Example.cfg zeroCluster "-CA-" ()
    (mkRestConfig "registry@adobe/k8s" "-CA-" "" : @k8s_Client () Example.demo_lib) ())).
  exists (mkRestConfig "" "" "" : RestConfig (@rest_other () Example.demo_lib)), "registry@adobe/k8s", (). split_and!; vm_compute; reflexivity.
Defined.
