(* ===== verification/Mains.v ===== *)
(** The programs beside the API server: [main] of cmd/client and of
    cmd/sync/manager, with what they hand to their controllers, and the tools of
    local/ that fill a database and a queue.

    The manager of controller-runtime, discovery and the webhook's listener are
    the parameter [ManagerRuntime]; reading and decoding files is [Files]. *)
From Stdlib Require Import Ascii.
From stdpp Require Import base gmap strings list option numbers sets.
From S2P Require Import Prelude GoStrings GoTime Base64 Registry DynamoDB Filter Database Config Sqs Db EventHandler SyncParser SyncController Webhook ClusterController MetadataWatcher MetadataController ManagerConfig ControllerSetup MetricsInit Router.

Local Open Scope Z_scope.

(** type Server of pkg/client/webhook, and its [Start]. *)
Record WebhookServer := mkWebhookServer { ws_Namespace : string; ws_BindAddress : string; ws_AlertMap : list AlertRule }.

Class ManagerRuntime (W : Type) := {
  Manager : Type;
  (** [ctrl.NewManager(ctrl.GetConfigOrDie(), options)]. *)
  NewManager : Options → M W (option Manager * error);
  LoadTLSFiles : Manager → M W error;
  (** [mgr.GetConfig().CAData]. *)
  GetConfig_CAData : Manager → M W string;
  (** [discoveryClient.ServerGroupsAndResources]: group versions and their kinds. *)
  ServerGroupsAndResources : M W (res (list (string * list string)));
  AddHealthzCheck : Manager → string → M W error;
  AddReadyzCheck : Manager → string → M W error;
  (** [go server.Start()]; a failure of the listener ends the program. *)
  go_webhook : WebhookServer → M W ();
  mgr_Start : Manager → M W error }.

(** [setupLog.Error(err, msg); os.Exit(1)] when there is an error. *)
Definition or_exit {W} (msg : string) (m : M W error) : M W () :=
  err ← m; match err with Some _ => Fatalf msg | None => mret () end.
Definition value_or_exit {W A} (msg : string) (m : M W (option A * error)) : M W A :=
  '(a, err) ← m; match err with Some _ => Fatalf msg | None => lift (deref a) end.

(** The queue a client and the sync manager send to. *)
Definition client_queue (cfg : AppConfig) : Sqs.Config :=
  Sqs.mkConfig (SqsAwsRegion cfg) (SqsQueueName cfg) (SqsEndpoint cfg) "" 0 0 0 0 false 0 0 0 false false.
Definition sync_queue (cfg : AppConfig) : Sqs.Config :=
  Sqs.mkConfig (SqsAwsRegion cfg) (SqsQueueName cfg) (SqsEndpoint cfg) "" 0 10 5 120 false 20 10 30 false false.

(** ** cmd/client *)

Section client.
Context `{ManagerRuntime W} `{!ManagerEnv W} `{!Prometheus W} `{!SQSService W} `{!ClusterEnv W} `{!WatchEnv W} `{!NestedAccess}.
Context (parse : string → res (string * string)).
Context `{!Codec ClientConfig} (Getenv : string → string).

Definition client_main (f : Flags) : M W () :=
  '(options, clientConfig, err) ← lift (client_start f);
  match err with
  | Some _ => Fatalf "unable to load the config file"
  | None =>
     mgr ← value_or_exit "unable to start cluster-registry-client" (NewManager options);
     m ← Client.Init Client.NewMetrics false;
     _ ← or_exit "failed to load TLS files" (LoadTLSFiles mgr);
     match LoadClientConfig Getenv with
     | inl _ => Fatalf "failed to load client configuration"
     | inr appConfig =>
        q ← value_or_exit "cannot create SQS client" (NewSQS (client_queue appConfig));
        ca ← GetConfig_CAData mgr;
        _ ← or_exit "unable to create controller" (Clusters.SetupWithManager
              (ClusterReconciler.Reconcile (W := W) (EncodeToString ca) q));
        lists ← ServerGroupsAndResources;
        let gvks := loadWatchedGVKs parse lists (smc_WatchedGVKs (cfg_ServiceMetadata clientConfig)) in
        _ ← or_exit "unable to create controller" (Watchers.SetupWithManager gvks
              (WatcherReconciler.Reconcile (W := W) gvks (smc_ServiceIdAnnotation (cfg_ServiceMetadata clientConfig))));
        _ ← or_exit "unable to set up health check" (AddHealthzCheck mgr "healthz");
        _ ← or_exit "unable to set up ready check" (AddReadyzCheck mgr "readyz");
        _ ← go_webhook (mkWebhookServer (client_Namespace clientConfig)
              (aw_BindAddress (AlertmanagerWebhook clientConfig)) (aw_AlertMap (AlertmanagerWebhook clientConfig)));
        or_exit "problem running cluster-registry-client" (mgr_Start mgr)
     end
  end.
End client.

(** ** cmd/sync/manager *)

Section sync.
Context `{ManagerRuntime W} `{!ManagerEnv W} `{!Prometheus W} `{!SQSService W} `{!Unstructured} `{!SyncEnv W}.
Context (parse : string → res (string * string)) (merge : ClusterSpec → ClusterSpec → ClusterSpec * error).
Context `{!Codec SyncConfig} (Getenv : string → string).

Definition sync_main (f : Flags) : M W () :=
  '(options, syncConfig, err) ← lift (sync_start f);
  match err with
  | Some _ => Fatalf "unable to load the config file"
  | None =>
     mgr ← value_or_exit "unable to start cluster-registry-sync-manager" (NewManager options);
     m ← Manager.Init Manager.NewMetrics false;
     match LoadClientConfig Getenv with
     | inl _ => Fatalf "failed to load client configuration"
     | inr appConfig =>
        q ← value_or_exit "cannot create SQS client" (NewSQS (sync_queue appConfig));
        lists ← ServerGroupsAndResources;
        let gvks := sync_loadWatchedGVKs parse lists syncConfig in
        _ ← or_exit "unable to create controller" (Sync.SetupWithManager gvks
              (SyncController.Reconcile (W := W) sync_handlers merge q));
        _ ← or_exit "unable to set up health check" (AddHealthzCheck mgr "healthz");
        _ ← or_exit "unable to set up ready check" (AddReadyzCheck mgr "readyz");
        or_exit "problem running cluster-registry-sync-manager" (mgr_Start mgr)
     end
  end.
End sync.

(** ** local/database/import.go and local/sqs/sqs.go *)

Class Files (W : Type) := {
  ReadFile : string → M W (string * error);
  YAMLToJSON : string → string * error;
  (** [json.Unmarshal] and [yaml.Unmarshal] of a list of clusters, and [json.Marshal] of one. *)
  unmarshal_clusters : string → list Cluster * error;
  yaml_unmarshal_clusters : string → list Cluster * error;
  marshal_cluster : Cluster → string;
  NewUUID : M W (string * error) }.

Definition file_or {W A} (end_with : string → M W A) (msg : string) (r : A * error) : M W A :=
  match r.2 with Some e => end_with (msg +:+ ": '" +:+ e +:+ "'") | None => mret r.1 end.

Section import.
Context `{Prometheus W} `{!Files W} (open_db : Database.db → Db W).
Context (Getenv : string → string) (fraction : Z → Z → Z → Z).

Fixpoint put_all `{Db W} (clusters : list Cluster) : M W () :=
  match clusters with
  | [] => mret ()
  | cluster :: clusters =>
     '(cluster', err) ← db_PutCluster cluster;
     match err with
     | Some e => Fatalf ("Failed to add or update the cluster " +:+ meta_Name (metadata cluster') +:+ ": '" +:+ e +:+ "'")
     | None => put_all clusters
     end
  end.

Definition import_main (input_file : string) : M W () :=
  m ← Api.NewMetrics "cluster_registry_api_local" false;
  match LoadApiConfig Getenv fraction with
  | inl err => Fatalf ("Cannot load the api configuration: '" +:+ err +:+ "'")
  | inr cfg =>
     let d := open_db (NewDb (DbTableName cfg) (DbIndexName cfg)) in
     r ← ReadFile input_file;
     data ← file_or Fatalf ("Unable to read input file " +:+ input_file) r;
     dataJson ← file_or Fatalf "Unable to unmarshal data" (YAMLToJSON data);
     clusters ← file_or Fatalf "Unable to unmarshal data" (unmarshal_clusters dataJson);
     put_all clusters
  end.
End import.

Section send.
Context `{Prometheus W} `{!Files W} `{!SQSService W} (Getenv : string → string) (fraction : Z → Z → Z → Z).

Definition cluster_entry (id : string) (cluster : Cluster) : SendMessageBatchRequestEntry :=
  mkEntry id 10 (marshal_cluster cluster)
    {[ "Type" := ClusterUpdateEvent; "ClusterName" := Name (Spec cluster); "SkipCacheInvalidation" := "false" ]}.

Fixpoint enqueue_all (q : Sqs.Config) (id : string) (clusters : list Cluster) : M W () :=
  match clusters with
  | [] => mret ()
  | cluster :: clusters =>
     err ← Enqueue q [cluster_entry id cluster];
     match err with
     | Some e => panic ("Error sending message to sqs: " +:+ e)
     | None => enqueue_all q id clusters
     end
  end.

Definition sqs_main (input_file : string) : M W () :=
  m ← Client.Init Client.NewMetrics false;
  match LoadApiConfig Getenv fraction with
  | inl err => Fatalf ("Cannot load the api configuration: '" +:+ err +:+ "'")
  | inr cfg =>
     '(q, err) ← NewSQS (sync_queue cfg);
     match err with
     | Some e => panic ("Error while trying to create SQS client: " +:+ e)
     | None =>
        q ← lift (deref q);
        r ← ReadFile input_file;
        data ← file_or panic "Error while trying to read file" r;
        clusters ← file_or panic "Error while trying to unmarshal data" (yaml_unmarshal_clusters data);
        r ← NewUUID;
        id ← file_or panic "" r;
        enqueue_all q id clusters
     end
  end.
End send.

(** ** What an import stores *)

Section stores.
Context `{DbLaws W}.

(** The registry after the clusters of a file, registration dates apart. *)
Definition imported (reg : gmap string ClusterSpec) (clusters : list Cluster) : gmap string ClusterSpec :=
  foldl (λ reg c, <[Name (Spec c) := content (norm_spec (Spec c))]> reg) reg clusters.

Lemma content_stored seen sp : content (norm_spec (Database.stored seen sp)) = content (norm_spec sp).
Proof.
  unfold content. destruct seen; cbn; [|done]. by rewrite norm_set_RegisteredAt, set_RegisteredAt_twice.
Qed.

(** Writing the clusters of a file one after the other either stores them
    all, the last one of a name winning, or ends the program at the first
    write that fails, with the clusters in front of it stored and at most
    this one besides. *)
Theorem put_all_stores clusters w :
  db_inv w →
  ∃ o w', put_all clusters w = (o, w') ∧ db_inv w' ∧
    ((o = Ret () ∧ content <$> db_specs w' = imported (content <$> db_specs w) clusters) ∨
     ∃ e done_ c rest, o = Panic e ∧ clusters = done_ ++ c :: rest ∧
       (content <$> db_specs w' = imported (content <$> db_specs w) done_ ∨
        content <$> db_specs w' = imported (content <$> db_specs w) (done_ ++ [c]))).
Proof.
  revert w. induction clusters as [|c clusters IH]; intros w Hw.
  { exists (Ret ()), w. split_and!; auto. }
  cbn [put_all]. destruct (db_PutCluster_law c w Hw) as (c' & err & w1 & E & Hw1 & _ & Hput).
  rewrite (bind_run _ _ _ _ _ E).
  assert (∀ seen, Spec c' = Database.stored seen (Spec c) → db_specs w1 = <[Name (Spec c) := norm_spec (Spec c')]> (db_specs w) →
    content <$> db_specs w1 = imported (content <$> db_specs w) [c]) as Hins.
  { intros seen -> ->. by rewrite fmap_insert, content_stored. }
  destruct err as [e|].
  - eexists _, w1. split; [reflexivity|]. split; [done|]. right. eexists _, [], c, clusters. split; [done|]. split; [done|].
    destruct (Parse _); [|left; by destruct Hput as [_ ->]].
    destruct Hput as (seen & _ & Hs & _ & Herr). destruct (Herr ltac:(done)) as [->|Hput]; [by left|right; eauto].
  - destruct (Parse _) as [t|]; [|by destruct Hput].
    destruct Hput as (seen & _ & Hs & Hok & _). specialize (Hins seen Hs (Hok eq_refl)).
    destruct (IH w1 Hw1) as (o & w2 & E2 & Hw2 & Hres). exists o, w2. split; [done|]. split; [done|].
    rewrite Hins in Hres. destruct Hres as [[-> Hr]|(e & dn & c2 & rest & -> & -> & Hr)]; [by left|right].
    by exists e, (c :: dn), c2, rest.
Qed.
End stores.

(** ** When the managers start *)

Section ready.
Context `{ManagerRuntime W} `{!ManagerEnv W} `{!Prometheus W} `{!SQSService W}.

(** What runs: the webhook and the manager's controllers; nothing else of the
    start changes it. *)
Context {T : Type} (running : W → T).
Context (manager_frame : ∀ o, keeps running (NewManager o)).
Context (collector_frame : ∀ r o, keeps running (promauto_New r o)).
Context (tls_frame : ∀ mgr, keeps running (LoadTLSFiles mgr)).
Context (ca_frame : ∀ mgr, keeps running (GetConfig_CAData mgr)).
Context (queue_frame : ∀ n, keeps running (svc_GetQueueUrl n)).
Context (complete_frame : ∀ T R (b : Builder W T) (r : R), keeps running (Complete b r)).
Context (discovery_frame : keeps running ServerGroupsAndResources).
Context (health_frame : ∀ mgr n, keeps running (AddHealthzCheck mgr n) ∧ keeps running (AddReadyzCheck mgr n)).

Lemma keeps_or_exit msg m : keeps running m → keeps running (or_exit msg m).
Proof. intros Hm. apply keeps_bind; [done|]. by intros [e|]. Qed.
Lemma keeps_value_or_exit {A} msg (m : M W (option A * error)) : keeps running m → keeps running (value_or_exit msg m).
Proof. intros Hm. apply keeps_bind; [done|]. by intros [[a|] [e|]]. Qed.
Lemma keeps_client_Init m : keeps running (Client.Init m false).
Proof. repeat (apply keeps_bind; [done || apply collector_frame|intros ?]). done. Qed.
Lemma keeps_manager_Init m : keeps running (Manager.Init m false).
Proof. repeat (apply keeps_bind; [done || apply collector_frame|intros ?]). done. Qed.
Lemma keeps_queue c : keeps running (NewSQS c).
Proof.
  unfold NewSQS. destruct (validateConfig c); [done|]. case_bool_decide; [|done].
  apply keeps_bind; [apply queue_frame|]. by intros [[url|] [e|]].
Qed.

Lemma or_exit_Ret msg (m : M W error) u w w' : or_exit msg m w = (Ret u, w') → m w = (Ret None, w').
Proof. intros E. apply bind_Ret_inv in E as ([e|] & w1 & Em & E); [done|]. by injection E as _ <-. Qed.
Lemma value_or_exit_Ret {A} msg (m : M W (option A * error)) a w w' :
  value_or_exit msg m w = (Ret a, w') → m w = (Ret (Some a, None), w').
Proof.
  intros E. apply bind_Ret_inv in E as ([[a'|] [e|]] & w1 & Em & E); try done. by injection E as -> <-.
Qed.
Lemma NewSQS_valid c q w w' : NewSQS c w = (Ret (Some q, None), w') → validateConfig c = None.
Proof. unfold NewSQS. by destruct (validateConfig c). Qed.

Section client.
Context `{!ClusterEnv W} `{!WatchEnv W} `{!NestedAccess} (parse : string → res (string * string)).
Context `{!Codec ClientConfig} (Getenv : string → string).
Notation run := (client_main parse Getenv).

(** The client serves alerts and runs its controllers only once its
    configuration is loaded, the queue it sends to is configured and reached, and
    both controllers are registered: that of clusters with the encoded
    certificate authority of its own API configuration, that of service metadata
    with the configured kinds the cluster has.  The webhook's address, namespace
    and rules are those of the configuration. *)
Theorem client_runs_when_ready f w :
  running (run f w).2 ≠ running w →
  ∃ options cfg app mgr q ca lists w1 w2 w3 w4 w5,
    client_start f = Ret (options, cfg, None) ∧
    LoadClientConfig Getenv = inr app ∧ validateConfig (client_queue app) = None ∧
    GetConfig_CAData mgr w1 = (Ret ca, w2) ∧
    Clusters.SetupWithManager (ClusterReconciler.Reconcile (W := W) (EncodeToString ca) q) w2 = (Ret None, w3) ∧
    let gvks := loadWatchedGVKs parse lists (smc_WatchedGVKs (cfg_ServiceMetadata cfg)) in
    Watchers.SetupWithManager gvks
      (WatcherReconciler.Reconcile (W := W) gvks (smc_ServiceIdAnnotation (cfg_ServiceMetadata cfg))) w4 = (Ret None, w5) ∧
    ∃ w6, run f w =
      (_ ← go_webhook (mkWebhookServer (client_Namespace cfg) (aw_BindAddress (AlertmanagerWebhook cfg))
             (aw_AlertMap (AlertmanagerWebhook cfg)));
       or_exit "problem running cluster-registry-client" (mgr_Start mgr)) w6.
Proof.
  unfold client_main. intros Hne. destruct (client_start f) as [[[options cfg] err]|e|] eqn:Es; [|done..].
  rewrite bind_lift in Hne |- *. destruct err as [e|]; [done|].
  apply changed_bind in Hne as (mgr & wa & E1 & _ & Hne); [|by apply keeps_value_or_exit].
  apply changed_bind in Hne as (m & wb & E2 & _ & Hne); [|apply keeps_client_Init].
  apply changed_bind in Hne as (u1 & wc & E3 & _ & Hne); [|by apply keeps_or_exit].
  destruct (LoadClientConfig Getenv) as [e|app] eqn:El; [done|].
  apply changed_bind in Hne as (q & wd & E4 & _ & Hne); [|by apply keeps_value_or_exit, keeps_queue].
  apply changed_bind in Hne as (ca & we & E5 & _ & Hne); [|done].
  apply changed_bind in Hne as (u2 & wf & E6 & _ & Hne); [|apply keeps_or_exit, complete_frame].
  apply changed_bind in Hne as (lists & wg & E7 & _ & Hne); [|done].
  apply changed_bind in Hne as (u3 & wh & E8 & _ & Hne); [|apply keeps_or_exit, complete_frame].
  apply changed_bind in Hne as (u4 & wi & E9 & _ & Hne); [|apply keeps_or_exit, health_frame].
  apply changed_bind in Hne as (u5 & wj & E10 & _ & Hne); [|apply keeps_or_exit, health_frame].
  exists options, cfg, app, mgr, q, ca, lists, wd, we, wf, wg, wh.
  split_and!; [done..| |done| | |].
  - exact (NewSQS_valid _ _ _ _ (value_or_exit_Ret _ _ _ _ _ E4)).
  - exact (or_exit_Ret _ _ _ _ _ E6).
  - exact (or_exit_Ret _ _ _ _ _ E8).
  - exists wj. rewrite (bind_run _ _ _ _ _ E1), (bind_run _ _ _ _ _ E2), (bind_run _ _ _ _ _ E3),
      (bind_run _ _ _ _ _ E4), (bind_run _ _ _ _ _ E5), (bind_run _ _ _ _ _ E6), (bind_run _ _ _ _ _ E7),
      (bind_run _ _ _ _ _ E8), (bind_run _ _ _ _ _ E9), (bind_run _ _ _ _ _ E10). done.
Qed.
End client.

Section sync.
Context `{!Unstructured} `{!SyncEnv W}.
Context (parse : string → res (string * string)) (merge : ClusterSpec → ClusterSpec → ClusterSpec * error).
Context `{!Codec SyncConfig} (Getenv : string → string).
Notation run := (sync_main parse merge Getenv).

(** The sync manager starts only with its queue and its controller in place. *)
Theorem sync_runs_when_ready f w :
  running (run f w).2 ≠ running w →
  ∃ options cfg app mgr q lists w1 w2,
    sync_start f = Ret (options, cfg, None) ∧
    LoadClientConfig Getenv = inr app ∧ validateConfig (sync_queue app) = None ∧
    let gvks := sync_loadWatchedGVKs parse lists cfg in
    Sync.SetupWithManager gvks (SyncController.Reconcile (W := W) sync_handlers merge q) w1 = (Ret None, w2) ∧
    ∃ w3, run f w = or_exit "problem running cluster-registry-sync-manager" (mgr_Start mgr) w3.
Proof.
  unfold sync_main. intros Hne. destruct (sync_start f) as [[[options cfg] err]|e|] eqn:Es; [|done..].
  rewrite bind_lift in Hne |- *. destruct err as [e|]; [done|].
  apply changed_bind in Hne as (mgr & wa & E1 & _ & Hne); [|by apply keeps_value_or_exit].
  apply changed_bind in Hne as (m & wb & E2 & _ & Hne); [|apply keeps_manager_Init].
  destruct (LoadClientConfig Getenv) as [e|app] eqn:El; [done|].
  apply changed_bind in Hne as (q & wd & E4 & _ & Hne); [|by apply keeps_value_or_exit, keeps_queue].
  apply changed_bind in Hne as (lists & wg & E7 & _ & Hne); [|done].
  apply changed_bind in Hne as (u3 & wh & E8 & _ & Hne); [|apply keeps_or_exit, complete_frame].
  apply changed_bind in Hne as (u4 & wi & E9 & _ & Hne); [|apply keeps_or_exit, health_frame].
  apply changed_bind in Hne as (u5 & wj & E10 & _ & Hne); [|apply keeps_or_exit, health_frame].
  exists options, cfg, app, mgr, q, lists, wg, wh. split_and!; [done..| | |].
  - exact (NewSQS_valid _ _ _ _ (value_or_exit_Ret _ _ _ _ _ E4)).
  - exact (or_exit_Ret _ _ _ _ _ E8).
  - exists wj. rewrite (bind_run _ _ _ _ _ E1), (bind_run _ _ _ _ _ E2), (bind_run _ _ _ _ _ E4),
      (bind_run _ _ _ _ _ E7), (bind_run _ _ _ _ _ E8), (bind_run _ _ _ _ _ E9), (bind_run _ _ _ _ _ E10). done.
Qed.
End sync.
End ready.
