(* ===== verification/MainsWitness.v ===== *)
(** Witnesses of the theorems on the programs beside the API server: a world
    that counts what runs, and the registry of MemDb.v for an import. *)
From Stdlib Require Import Ascii.
From stdpp Require Import base gmap strings list option numbers sets.
From S2P Require Import Prelude GoStrings GoTime Base64 Registry Filter MemDynamo Database Config Sqs Db MemDb EventHandler SyncParser SyncController Webhook ClusterController MetadataWatcher MetadataController MetadataWitness ManagerConfig ControllerSetup MetricsInit Router Mains.

Local Open Scope Z_scope.

(** The number of servers and managers that run. *)
Record Host := mkHost { host_running : nat }.

#[global] Instance host_manager : ManagerRuntime Host := {|
  Manager := Options;
  NewManager o := mret (Some o, nil_error);
  LoadTLSFiles _ := mret nil_error;
  GetConfig_CAData _ := mret "-CA-";
  ServerGroupsAndResources := mret (inr [("v1", ["Namespace"])]);
  AddHealthzCheck _ _ := mret nil_error;
  AddReadyzCheck _ _ := mret nil_error;
  go_webhook _ := modify (λ h, mkHost (S (host_running h)));
  mgr_Start _ := (_ ← modify (λ h, mkHost (S (host_running h))); mret nil_error) |}.
#[global] Instance host_env : ManagerEnv Host := {| Complete _ _ _ _ := mret nil_error |}.
#[global] Instance host_prometheus : Prometheus Host := {|
  Registerer := (); DefaultRegisterer := (); NewRegistry := mret (); Collector := Opts; opts := id;
  promauto_New _ o := mret o; float64 := Z; Inc _ _ := mret (); Observe _ _ _ := mret ();
  SetToCurrentTime _ := mret (); Desc_String := o_Name |}.
#[global] Instance host_sqs : SQSService Host := {|
  svc_GetQueueUrl name := mret (Some ("http://sqs/" +:+ name), nil_error);
  svc_SendMessageBatch _ es := mret (mkBatchResult [] (entry_Id <$> es), nil_error);
  svc_DeleteMessage _ _ := mret nil_error;
  svc_ChangeMessageVisibility _ _ _ := mret nil_error |}.
#[global] Instance host_clusters : ClusterEnv Host := {|
  k8s_GetCluster _ _ := mret (inr NotFoundErr);
  k8s_UpdateCluster c := mret (c, nil_error);
  json_Cluster _ := ("{}", nil_error);
  sha256_sum s := s;
  uuid_New := mret (inl "7b4f0a52") |}.
#[global] Instance host_watchers : WatchEnv Host := {|
  schema_ParseGroupVersion _ := inr ("", "v1");
  GVK_String := gvk_Kind;
  k8s_GetWatcher _ _ := mret (inr NotFoundErr);
  k8s_GetUnstructured _ _ _ := mret (inr "not found");
  k8s_GetNamespace _ := mret (inr "not found");
  k8s_ListWatchers _ := mret (inl []);
  k8s_ListClusters _ := mret (inl []);
  k8s_Patch c _ := mret (c, nil_error);
  Marshal _ := ("{}", nil_error);
  MergePatch _ _ := ("{}", nil_error) |}.

Definition host_parse (v : string) : res (string * string) := inr ("", v).
Definition host_Getenv (v : string) : string := "set".
Definition host_file (path : string) (c : ClientConfig) : ClientConfig * error :=
  (mkClientConfig (client_manager c) (client_Namespace c) (AlertmanagerWebhook c)
     (mkServiceMetadataConfig [mkWatchedGVK "" "v1" "Namespace"; mkWatchedGVK "x" "v1" "Absent"] "adobe.serviceid"), nil_error).
Definition host_codec : Codec ClientConfig :=
  {| cfg_ReadFile path := (path, nil_error); DecodeInto := host_file; scheme_Default := id;
     YAMLEncoder := Some (λ _, ("", nil_error)) |}.
Definition host_flags : Flags := mkFlags "/etc/config.yaml" ":9090" ":9091" ":9092" "cluster-registry" false.
Notation host_client := (client_main (W := Host) (Codec0 := host_codec) host_parse host_Getenv).

Lemma client_runs_when_ready_witness :
  host_running (host_client host_flags (mkHost 0)).2 = 2%nat ∧
  ∃ cfg app, (∃ options, client_start (H := host_codec) host_flags = Ret (options, cfg, None)) ∧
    LoadClientConfig host_Getenv = inr app ∧ validateConfig (client_queue app) = None.
Proof.
  split; [vm_compute; reflexivity|].
  destruct (client_runs_when_ready (W := Host) (H := host_manager) (ManagerEnv0 := host_env) (Prometheus0 := host_prometheus)
    (SQSService0 := host_sqs) host_running (λ _ _, eq_refl) (λ _ _ _, eq_refl) (λ _ _, eq_refl)
    (λ _ _, eq_refl) (λ _ _, eq_refl) (λ _ _ _ _ _, eq_refl) (λ _, eq_refl) (λ _ _, conj (λ _, eq_refl) (λ _, eq_refl))
    host_parse (Codec0 := host_codec) host_Getenv host_flags (mkHost 0))
    as (options & cfg & app & mgr & q & ca & lists & w1 & w2 & w3 & w4 & w5 & Hs & Ha & Hv & _).
  { vm_compute. discriminate. }
  exists cfg, app. split; [by exists options|]. by split.
Defined.

Definition two_clusters : list Cluster :=
  [sample "ethos01-prod-va6" "va6" "prod" "Active" "2024-05-01T10:00:00Z";
   sample "ethos02-dev-or2" "or2" "dev" "Active" "2024-05-02T10:00:00Z"].

Lemma put_all_stores_witness :
  (put_all two_clusters emptyWorld).1 = Ret () ∧
  ∃ o w', put_all two_clusters emptyWorld = (o, w') ∧
    (o = Ret () → content <$> db_specs w' = imported (content <$> db_specs emptyWorld) two_clusters).
Proof.
  split; [vm_compute; reflexivity|].
  destruct (put_all_stores (W := World) (H0 := MemDbLaws) two_clusters emptyWorld mem_ok_empty) as (o & w' & E & _ & H).
  exists o, w'. split; [exact E|]. intros Ho. destruct H as [[_ H]|(e & dn & c & rest & Hp & _)]; [exact H|congruence].
Defined.
